(* ===== verification/_CoqProject ===== *)
-Q . S2P
Prelude.v
Async.v
History.v
RustStr.v
Protocol.v
Frame.v
Token.v
ClientIp.v
IpText.v
Externs.v
JsonDe.v
Mpsc.v
ServerState.v
ServerDb.v
ServerWeb.v
ServerAuth.v
ServerNode.v
ServerClaim.v
ServerTasks.v
ServerSystem.v
ServerStart.v
ServerSpec.v
ServerExample.v
SpecExample.v
Relay.v
Channel.v
SystemRelay.v
EdgeExample.v
Stats.v
AgentState.v
Config.v
StatsText.v
AgentWs.v
AgentLogin.v
AgentMain.v
SystemLogin.v
SystemStart.v
LoginExample.v
AgentSftp.v
AgentTunnel.v
AgentSystem.v
AgentLocks.v
AgentTransfer.v
AgentDownload.v
System.v
SystemJoin.v
SystemTunnel.v
AgentExample.v
SystemExample.v
