(* ===== verification/Prelude.v ===== *)
(** * Phirepass: a verification library for the remote-access relay

    Phirepass lets a browser reach an SSH or SFTP server that no public
    address leads to.  An _agent_ beside that server keeps one web socket open
    to a _server_; a page, through the _channel_ library, opens another; the
    server moves frames between the two.  In front of several servers stands a
    _relay_ that picks the one a node is connected to.  This library models
    the Rust code under [src/] and proves what those five programs promise
    each other.

    ** The parts, and where they are modelled

    Shared ([src/common/src/]).
    - [Protocol], [Frame]: the messages and the binary envelope
      ([protocol/common.rs], [protocol/web.rs], [protocol/node.rs],
      [protocol/sftp.rs]).  A machine integer is a [Z]; the length field is
      taken modulo 2^32 where the code casts, and the decoder takes the width
      of [usize] as an argument, because the agent and the browser differ.
    - [Token], [ClientIp], [IpText], [Stats], [StatsText]: access tokens
      ([token.rs]), the address of a client behind proxies ([ip.rs]) and the
      text addresses are written in, the cached process statistics and their
      log line ([stats.rs]).
    - [Config]: the environment variables of the three programs ([env.rs] of
      each, [ssh/auth.rs]) and the runtime they ask for ([runtime.rs]).

    Server ([src/server/src/]).
    - [ServerState]: [AppState] and its three maps ([http.rs],
      [connection.rs]), and the world around them.  [ServerDb]: the queries of
      [db/postgres.rs] and the keys of [db/redis.rs].
    - [ServerWeb] ([web.rs]), [ServerNode] and [ServerClaim] ([node.rs]),
      [ServerAuth] ([node_auth.rs]), [ServerTasks] ([tasks.rs]): every
      handler, whole, from its first effect to its clean-up.
    - [ServerSystem]: the upgrades of the two web socket routes, any number
      of those tasks, interleaved, and the invariant of what they share.
      [ServerSpec]: the abstract broker that the interleaved server refines.
      [ServerStart]: its start, from the two databases and the address it
      learns to its empty maps ([stun.rs], [server.rs], [db/]).

    Agent ([src/agent/src/]).
    - [AgentState]: the state of a connection ([session.rs], [common.rs],
      [sftp/mod.rs], [ws.rs]).  [AgentWs]: the connection and the dispatch of
      its messages ([ws.rs]).  [AgentTunnel]: the SSH and SFTP tunnel tasks
      ([ssh/connection.rs], [sftp/connection.rs]).  [AgentSftp]: upload,
      download, list and delete ([sftp/actions/]).
    - [AgentSystem]: the reader beside the other tasks, interleaved.
      [AgentTransfer], [AgentDownload]: whole transfers, end to end.
    - [AgentLogin]: the identity file, login, logout, the session token and
      the reconnect loop ([creds.rs], [agent.rs]).  [AgentMain]: the commands
      ([main.rs], [cli.rs], [http.rs]).

    Browser and relay.
    - [Channel]: the object a page drives ([src/channel/src/lib.rs]).
    - [Relay]: the request filter and the choice of the upstream
      ([src/relay/src/proxy.rs], [src/relay/src/db/redis.rs]).

    The programs together.
    - [SystemLogin]: the agent's login requests against the server's routes.
      [SystemStart]: the first start of an agent, from the token in a file to
      its web socket.  [SystemJoin]: its first message and the server's
      answer.  [SystemTunnel]: a tunnel from the page's request to the session
      that is recorded for it.  [SystemRelay]: what a server writes to Redis, with the
      deadlines it gives its keys, against what the relay reads there.  [System]: a request from the page through the server to
      the tunnel, and the answer back.

    Foundations.  This file: results, panicking calls, machine integers and
    big-endian bytes.  [RustStr]: the string operations of Rust's library.
    [Async]: tasks as effect trees, their sequential runs ([run], [wp],
    [twp]) and their interleavings ([cstep], [preserves]).  [History]: what
    is known of a task that acts on state it read earlier.  [Mpsc]: bounded
    channels.  [Externs], [JsonDe]: third-party code as classes of operations,
    and derived [Deserialize] implementations.  The files that end in
    [Example] evaluate the properties on small concrete systems.

    ** How code becomes definitions

    A pure function is a Gallina function of the same name.  An [async fn] is
    an effect tree ([Async.prog]) whose effects are the code's atomic actions:
    one closure on a shared map ([OnShared]), one query ([OnTables]), one
    Redis command, one [send().await], one look at the clock.  Between two
    effects any other task may run.  Errors are values of [result]; a panic
    is the tree [Panic]; a send on a full queue, and a mutex that a task
    takes twice, have no answer, so that the task waits.  The answers an
    effect can have (the time, a fresh identifier, whether the database
    answered) are a parameter of its execution, and the theorems quantify
    over all of them.

    Third-party code is a class of operations that definitions take as an
    argument (in [Externs], and [Frame.Serde], [AgentState.SftpServer],
    [AgentLogin.Network], [Relay.RedisGlob], [SystemRelay.Redis],
    [Channel.WebSocketApi], [Channel.WasmBindgen], [Stats.Platform],
    [Config.IpSources], [Config.RuntimeApi]); a class whose name ends in
    [Laws] states the documented behaviour a theorem relies on, and the
    examples instantiate it with concrete functions.

    ** What the theorems show

    - The server as a whole: it refines the broker
      ([ServerSpec.server_refines_broker]), a frame that a node is handed
      inside a session names the client the session belonged to
      ([session_frames_were_granted]), it speaks its side of the protocol
      ([server_frames_well_typed]), and its registry stays consistent
      ([ServerSystem.server_invariant]).
    - Its handlers: who is authenticated ([web_auth_iff], [node_auth_iff],
      [verify_auth_challenge_iff]), what one socket can touch
      ([web_client_acts_for_itself], [node_acts_for_itself]), what a clean-up
      removes and whom it tells ([disconnect_node_closes_sessions],
      [disconnect_web_client_notifies], [web_socket_leaves_no_entry],
      [cleanup_exact]), that it starts inside its invariant
      ([started_server_ok]), where frames go ([frame_response_routing]), and that
      claims keep their owners ([claims_keep_owners]).
    - The agent: sessions lead to tunnels of the same client
      ([sessions_lead_to_their_tunnels]), clients are isolated
      ([client_frame_stays_inside], [sftp_tunnel_stays_inside]), uploads and
      downloads move the right bytes ([upload_delivers],
      [download_delivers]), tunnels open and close as asked
      ([open_tunnel_spec], [connection_disconnect_cleans]).
    - Its identity: the file is replaced atomically ([atomic_write_atomic]),
      read back ([save_then_load]), and holds what the server was told
      ([bootstrap_identity_spec]); the agent keeps trying
      ([reconnect_never_gives_up]).
    - Codecs and helpers: [frame_roundtrip], [decode_native_spec],
      [decode_browser_panics_iff], [resolve_first_candidate],
      [ip_text_roundtrip], [stats_rate_limited], [format_mem_spec],
      [duration_roundtrip]; which configurations start a program
      ([agent_env_spec], [server_env_spec], [relay_env_spec]); the page's object: [page_invariant],
      [writes_only_when_open].
    - Composition, in the order of a node's life: [first_start_gets_in],
      [agent_gets_in], [agent_joins], [relay_finds_node], [tunnel_opens],
      [request_reaches_tunnel], [answer_reaches_page].
    - Defects, proved: [client_ends_any_agent], [ssh_login_failure_is_lost],
      [upload_write_failure_deadlocks], [start_elsewhere_never_connects],
      [decode_browser_panics_iff], and
      further theorems beside the code they are about ([reconnect_race],
      [verify_replay_race], [claim_race], [stale_node_leaks_sessions],
      [web_auth_failure_not_delivered], [upload_completes_early],
      [sftp_tunnel_says], [second_login_forgets_first],
      [logout_needs_bare_host], [endpoints_agree_iff],
      [server_id_never_connects], [relay_upstream_spec],
      [first_count_panics], [runtime_panics_iff]).

    ** Bounds and fuel

    Effect trees are finite, so every task is structurally recursive on what
    its environment will send it: the messages of a web socket, the ticks of
    an interval, the answers of an SSH server are lists, and the theorems
    quantify over all of them.  [AgentLogin.ws_loop] takes the number of its
    turns, and its theorems hold for each, or name the turn that is enough.
    [IpText.hex_onto] runs on the four digits a segment has.  [RustStr.drop_prefixes] runs on
    the length of its string, which each of its steps shortens.  The channels
    have the capacities of the code.

    ** What is not modelled

    - Guards of a [DashMap] that are held across other operations, and the
      moving snapshot of its iterators: each closure on a map is atomic and
      an iteration reads one moment.  The model allows interleavings that a
      guard would forbid, and does not show an iteration that sees some of
      the changes made while it runs.
    - Rounding of timestamps by Postgres and the range of [chrono].  The
      expiry of a Redis key is in [SystemRelay]; the server itself reads no
      key back.
    - [russh], [russh_sftp], [reqwest], [sqlx], [redis], [axum] and
      [pingora]: the environment.  Their failures are modelled where the
      code looks at them.  The relay's [HttpPeer::new] resolves an address
      and panics when it cannot; that is outside the model.
    - In [AgentLogin] a web socket connection is one effect; [AgentWs] models
      it.  In [Channel] a closure that outlived its socket does nothing.
    - [Stats] is sequential: one task refreshes, and its mutexes are held
      from their lock to the end of the function.
    - Logging, the parsing of command lines by [clap], the [main] functions
      of server and relay, the [select!] between the tasks of [start], and the
      demonstration pages: input, output and glue. *)

From stdpp Require Export base tactics option list numbers gmap strings pretty.
From Stdlib Require Export ZArith Lia.
From Stdlib Require Import Strings.Byte.
From Stdlib Require Export Strings.Ascii.

#[global] Open Scope string_scope.
#[global] Open Scope list_scope.
#[global] Open Scope Z_scope.

(** ** Results

    [Result<T, E>] of Rust.  The error type is a string wherever the source
    uses [anyhow::Error]; only its text is ever observed. *)

Inductive result (E A : Type) : Type :=
| Ok (a : A)
| Err (e : E).
Arguments Ok {E A} a.
Arguments Err {E A} e.

#[global] Instance result_ret {E} : MRet (result E) := fun A a => Ok a.
#[global] Instance result_bind {E} : MBind (result E) :=
  fun A B f m => match m with Ok a => f a | Err e => Err e end.

Definition is_ok {E A} (r : result E A) : bool :=
  match r with Ok _ => true | Err _ => false end.

(** [Option::ok_or]: the value, or the given error. *)
Definition ok_or {E A} (e : E) (o : option A) : result E A :=
  match o with Some a => Ok a | None => Err e end.

Lemma result_bind_ok {E A B} (f : A -> result E B) (m : result E A) (b : B) :
  (m ≫= f) = Ok b <-> exists a, m = Ok a /\ f a = Ok b.
Proof.
  destruct m as [a|e]; cbn; split; intros H.
  - eauto.
  - destruct H as (a' & [= ->] & ?); done.
  - discriminate.
  - destruct H as (? & ? & _); discriminate.
Qed.

Lemma ok_or_ok {E A} (e : E) (o : option A) (a : A) : ok_or e o = Ok a <-> o = Some a.
Proof. destruct o; cbn; split; congruence. Qed.

(** A function of the source that can panic: [unreachable!], a slice out of
    range.  The release profile aborts the process on a panic. *)
Inductive call (A : Type) : Type :=
| Returns (a : A)
| Panics.
Arguments Returns {A} a.
Arguments Panics {A}.

(** ** Machine integers

    A [w]-bit unsigned integer is a [Z] in [[0, 2^w)].  The release profile
    wraps on overflow ([overflow-checks] is off), so additions are reduced. *)

Definition U32_MAX : Z := 4294967295.
Definition U64_MAX : Z := 18446744073709551615.

Definition wrap (w z : Z) : Z := z mod 2 ^ w.
Definition fits (w z : Z) : Prop := 0 <= z < 2 ^ w.
Definition saturating_sub (a b : Z) : Z := Z.max 0 (a - b).

Lemma wrap_small w z : fits w z -> wrap w z = z.
Proof. intros []; apply Z.mod_small; lia. Qed.

Lemma wrap_fits w z : 0 <= w -> fits w (wrap w z).
Proof. intros; apply Z.mod_pos_bound, Z.pow_pos_nonneg; lia. Qed.

(** ** Bytes *)

Abbreviation byte := Byte.byte.
Abbreviation bytes := (list Byte.byte).

#[global] Instance byte_eq_dec : EqDecision byte := Byte.byte_eq_dec.

Definition byte_val (b : byte) : Z := Z.of_N (Byte.to_N b).
Definition byte_of (z : Z) : byte :=
  match Byte.of_N (Z.to_N (z mod 256)) with Some b => b | None => Byte.x00 end.

Lemma byte_val_range b : 0 <= byte_val b < 256.
Proof. unfold byte_val. pose proof (Byte.to_N_bounded b). lia. Qed.

Lemma byte_val_of z : byte_val (byte_of z) = z mod 256.
Proof.
  unfold byte_val, byte_of.
  pose proof (Z.mod_pos_bound z 256 ltac:(lia)) as Hz.
  destruct (Byte.of_N (Z.to_N (z mod 256))) as [b|] eqn:Hb.
  - apply Byte.to_of_N in Hb. rewrite Hb. lia.
  - exfalso. apply Byte.of_N_None_iff in Hb. lia.
Qed.

Lemma byte_of_val b : byte_of (byte_val b) = b.
Proof.
  unfold byte_of, byte_val.
  rewrite Z.mod_small by (pose proof (byte_val_range b); unfold byte_val in *; lia).
  rewrite N2Z.id, Byte.of_to_N. done.
Qed.

(** [u32::to_be_bytes] and [u32::from_be_bytes]. *)
Definition to_be_bytes (n : Z) : bytes :=
  [byte_of (n / 2 ^ 24); byte_of (n / 2 ^ 16); byte_of (n / 2 ^ 8); byte_of n].

Definition from_be_bytes (b0 b1 b2 b3 : byte) : Z :=
  byte_val b0 * 2 ^ 24 + byte_val b1 * 2 ^ 16 + byte_val b2 * 2 ^ 8 + byte_val b3.

Lemma from_to_be_bytes n :
  from_be_bytes (byte_of (n / 2 ^ 24)) (byte_of (n / 2 ^ 16)) (byte_of (n / 2 ^ 8)) (byte_of n)
  = wrap 32 n.
Proof.
  unfold from_be_bytes, wrap. rewrite !byte_val_of.
  change (2 ^ 32) with 4294967296. change (2 ^ 24) with 16777216.
  change (2 ^ 16) with 65536. change (2 ^ 8) with 256.
  Z.to_euclidean_division_equations. lia.
Qed.

Lemma byte_of_eq z b : z mod 256 = byte_val b -> byte_of z = b.
Proof.
  intros Hz. rewrite <-(byte_of_val b), <-Hz. unfold byte_of.
  by rewrite Z.mod_mod by lia.
Qed.

Lemma to_from_be_bytes b0 b1 b2 b3 :
  to_be_bytes (from_be_bytes b0 b1 b2 b3) = [b0; b1; b2; b3].
Proof.
  unfold to_be_bytes, from_be_bytes.
  pose proof (byte_val_range b0). pose proof (byte_val_range b1).
  pose proof (byte_val_range b2). pose proof (byte_val_range b3).
  change (2 ^ 24) with 16777216. change (2 ^ 16) with 65536. change (2 ^ 8) with 256.
  repeat f_equal; apply byte_of_eq; Z.to_euclidean_division_equations; lia.
Qed.

Lemma from_be_bytes_fits b0 b1 b2 b3 : fits 32 (from_be_bytes b0 b1 b2 b3).
Proof.
  unfold fits, from_be_bytes.
  pose proof (byte_val_range b0). pose proof (byte_val_range b1).
  pose proof (byte_val_range b2). pose proof (byte_val_range b3). lia.
Qed.

Lemma to_be_bytes_inj m n : fits 32 m -> fits 32 n -> to_be_bytes m = to_be_bytes n -> m = n.
Proof.
  intros Hm Hn H. unfold to_be_bytes in H. injection H as H3 H2 H1 H0.
  rewrite <-(wrap_small 32 m), <-(wrap_small 32 n), <-!from_to_be_bytes by done.
  by rewrite H0, H1, H2, H3.
Qed.

(** ** Automation shared by the components *)

Create HintDb phirepass.
Create Rewrite HintDb phirepass.
#[export] Hint Resolve wrap_fits byte_val_range from_be_bytes_fits : phirepass.

(** Case analysis on every [match] or [if] of the goal, as stdpp does it,
    closing the branches that the context makes absurd. *)
Ltac case_all := repeat (case_match; simplify_eq/=); try done.
