(* ===== verification/Async.v ===== *)
(** * Tasks: effect trees, their sequential runs and their interleavings

    An [async fn] of the program is an effect tree [prog E A]: it returns,
    panics, or performs one atomic effect and continues with its answer.  An
    effect is what the code does between two points where another task can
    run: one operation on a shared map, one [.send(..).await], one query.
    [run] executes a tree alone; [cstep] interleaves any number of them. *)

From S2P Require Import Prelude.

(** ** Effect trees *)

Section prog.
Context {E : Type -> Type}.

Inductive prog (A : Type) : Type :=
| Ret (a : A)
| Panic
| Vis {R : Type} (e : E R) (k : R -> prog A).
Arguments Ret {A} a.
Arguments Panic {A}.
Arguments Vis {A R} e k.

Fixpoint prog_bind {A B} (f : A -> prog B) (p : prog A) : prog B :=
  match p with
  | Ret a => f a
  | Panic => Panic
  | Vis e k => Vis e (fun r => prog_bind f (k r))
  end.

Definition perform {R} (e : E R) : prog R := Vis e Ret.
End prog.
Arguments prog E A : clear implicits.
Arguments Ret {E A} a.
Arguments Panic {E A}.
Arguments Vis {E A R} e k.

#[global] Instance prog_ret E : MRet (prog E) := fun A a => Ret a.
#[global] Instance prog_mbind E : MBind (prog E) := fun A B f p => prog_bind f p.

(** [p?]: the error of a fallible call ends the function. *)
Definition try_bind {E : Type -> Type} {X A B} (f : A -> prog E (result X B)) (p : prog E (result X A)) :
    prog E (result X B) :=
  p ≫= fun r => match r with Ok a => f a | Err e => Ret (Err e) end.

Notation "x ←? p ; q" := (try_bind (fun x => q) p)
  (at level 20, p at level 100, q at level 200, right associativity).

(** A call of a function that may panic. *)
Definition lift_call {E : Type -> Type} {A} (c : call A) : prog E A :=
  match c with Returns a => Ret a | Panics => Panic end.

(** ** Semantics *)

(** [exec e c w]: the answer of effect [e] in the world [w] when the
    environment behaves as [c] (the time, a fresh identifier, whether the
    database answered); [None] when the effect has to wait. *)
Class Handler (E : Type -> Type) (W C : Type) :=
  exec : forall {R : Type}, E R -> C -> W -> option (R * W).

Inductive outcome (A W : Type) : Type :=
| Done (a : A) (w : W)
| Blocked (w : W)
| Panicked (w : W).
Arguments Done {A W} a w.
Arguments Blocked {A W} w.
Arguments Panicked {A W} w.

Section semantics.
Context {E : Type -> Type} {W C : Type} `{!Handler E W C}.

(** The tree alone, the environment answering the [n]-th effect with [cs n]. *)
Fixpoint run {A} (p : prog E A) (cs : nat -> C) (w : W) : outcome A W :=
  match p with
  | Ret a => Done a w
  | Panic => Panicked w
  | Vis e k =>
      match exec e (cs 0%nat) w with
      | Some (r, w') => run (k r) (fun n => cs (S n)) w'
      | None => Blocked w
      end
  end.

Lemma run_bind {A B} (p : prog E A) (f : A -> prog E B) cs w a w' :
  run p cs w = Done a w' ->
  exists skip, run (p ≫= f) cs w = run (f a) (fun n => cs (skip + n)%nat) w'.
Proof.
  revert cs w. induction p as [a0| |R e k IH]; intros cs w; cbn; [intros [= -> ->]; by exists 0%nat|done|].
  destruct (exec e (cs 0%nat) w) as [[r w1]|]; [|done].
  intros [skip Hr]%IH. by exists (S skip).
Qed.

Lemma run_bind_panicked {A B} (p : prog E A) (f : A -> prog E B) cs w w' :
  run p cs w = Panicked w' -> run (p ≫= f) cs w = Panicked w'.
Proof.
  revert cs w. induction p as [a0| |R e k IH]; intros cs w; cbn; [discriminate|by intros [= ->]|].
  destruct (exec e (cs 0%nat) w) as [[r w1]|]; [apply IH|discriminate].
Qed.

Lemma run_bind_blocked {A B} (p : prog E A) (f : A -> prog E B) cs w w' :
  run p cs w = Blocked w' -> run (p ≫= f) cs w = Blocked w'.
Proof.
  revert cs w. induction p as [a0| |R e k IH]; intros cs w; cbn; [discriminate..|].
  destruct (exec e (cs 0%nat) w) as [[r w1]|]; [apply IH|by intros [= ->]].
Qed.

Lemma run_ret {A B} (p : prog E A) (g : A -> B) cs w a w' :
  run p cs w = Done a w' -> run (p ≫= fun a => Ret (g a)) cs w = Done (g a) w'.
Proof. intros Hrun. by destruct (run_bind p (fun a => Ret (g a)) cs w a w' Hrun) as [skip ->]. Qed.

(** The same, when the run is known to end. *)
Lemma run_then {A B} (p : prog E A) (f : A -> prog E B) cs w a w1 (P : B -> W -> Prop) :
  run p cs w = Done a w1 ->
  (forall skip, exists b w2, run (f a) (fun n => cs (skip + n)%nat) w1 = Done b w2 /\ P b w2) ->
  exists b w2, run (p ≫= f) cs w = Done b w2 /\ P b w2.
Proof. intros Hrun HP. destruct (run_bind p f cs w a w1 Hrun) as [skip ->]. apply HP. Qed.

(** The weakest precondition of a run that ends, over all environments. *)
Fixpoint wp {A} (p : prog E A) (Q : A -> W -> Prop) (w : W) : Prop :=
  match p with
  | Ret a => Q a w
  | Panic => False
  | Vis e k => forall c r w', exec e c w = Some (r, w') -> wp (k r) Q w'
  end.

Lemma wp_mono {A} (p : prog E A) (Q Q' : A -> W -> Prop) w :
  (forall a w', Q a w' -> Q' a w') -> wp p Q w -> wp p Q' w.
Proof.
  intros HQ. revert w. induction p as [a| |R e k IH]; cbn; [auto..|].
  intros w Hwp c r w' He. eapply IH, Hwp, He.
Qed.

Lemma wp_bind {A B} (p : prog E A) (f : A -> prog E B) Q w :
  wp p (fun a w' => wp (f a) Q w') w -> wp (p ≫= f) Q w.
Proof.
  revert w. induction p as [a| |R e k IH]; cbn; [auto..|].
  intros w Hwp c r w' He. apply IH, (Hwp c), He.
Qed.

Lemma wp_perform {R} (e : E R) (Q : R -> W -> Prop) w :
  (forall c r w', exec e c w = Some (r, w') -> Q r w') -> wp (perform e) Q w.
Proof. intros H c r w' He. cbn. eauto. Qed.

Lemma wp_run {A} (p : prog E A) Q cs w :
  wp p Q w ->
  match run p cs w with Done a w' => Q a w' | Blocked _ => True | Panicked _ => False end.
Proof.
  revert cs w. induction p as [a| |R e k IH]; intros cs w; cbn; [auto..|].
  intros Hwp. destruct (exec e (cs 0%nat) w) as [[r w']|] eqn:He; [|done].
  apply IH. eauto.
Qed.

(** The first effect, with its own choice. *)
Lemma wp_run_step {R A} (e : E R) (k : R -> prog E A) (Q : A -> W -> Prop) cs w :
  (forall r w', exec e (cs 0%nat) w = Some (r, w') ->
     match run (k r) (fun n => cs (S n)) w' with Done a w' => Q a w' | Blocked _ => True | Panicked _ => False end) ->
  match run (Vis e k) cs w with Done a w' => Q a w' | Blocked _ => True | Panicked _ => False end.
Proof. cbn. destruct (exec e (cs 0%nat) w) as [[r w']|]; [|done]. intros Hk. by apply Hk. Qed.

Lemma wp_done {A} (p : prog E A) Q cs w a w' :
  wp p Q w -> run p cs w = Done a w' -> Q a w'.
Proof. intros Hwp Hr. apply (wp_run _ _ cs) in Hwp. by rewrite Hr in Hwp. Qed.

(** The same, and no effect has to wait: the run ends. *)
Fixpoint twp {A} (p : prog E A) (Q : A -> W -> Prop) (w : W) : Prop :=
  match p with
  | Ret a => Q a w
  | Panic => False
  | Vis e k => forall c, exists r w', exec e c w = Some (r, w') /\ twp (k r) Q w'
  end.

Lemma twp_mono {A} (p : prog E A) (Q Q' : A -> W -> Prop) w :
  (forall a w', Q a w' -> Q' a w') -> twp p Q w -> twp p Q' w.
Proof.
  intros HQ. revert w. induction p as [a| |R e k IH]; cbn; [auto..|].
  intros w Hp c. destruct (Hp c) as (r & w' & He & Hk). eauto.
Qed.

Lemma twp_bind {A B} (p : prog E A) (f : A -> prog E B) Q w :
  twp p (fun a w' => twp (f a) Q w') w -> twp (p ≫= f) Q w.
Proof.
  revert w. induction p as [a| |R e k IH]; cbn; [auto..|].
  intros w Hp c. destruct (Hp c) as (r & w' & He & Hk). eauto.
Qed.

Lemma twp_perform_bind {R B} (e : E R) (f : R -> prog E B) Q w :
  (forall c, exists r w', exec e c w = Some (r, w') /\ twp (f r) Q w') -> twp (perform e ≫= f) Q w.
Proof. done. Qed.

Lemma twp_run {A} (p : prog E A) Q cs w : twp p Q w -> exists a w', run p cs w = Done a w' /\ Q a w'.
Proof.
  revert cs w. induction p as [a| |R e k IH]; intros cs w; cbn; [eauto|done|].
  intros Hp. destruct (Hp (cs 0%nat)) as (r & w' & He & Hk). rewrite He. by apply IH.
Qed.

(** *** Interleaving *)

(** Every effect the tree performs satisfies [P], whatever worlds answer. *)
Fixpoint all_effects (P : forall R, E R -> Prop) {A} (p : prog E A) : Prop :=
  match p with
  | Ret _ | Panic => True
  | Vis e k => P _ e /\ forall c w r w', exec e c w = Some (r, w') -> all_effects P (k r)
  end.

Lemma all_effects_bind (P : forall R, E R -> Prop) {A B} (p : prog E A) (f : A -> prog E B) :
  all_effects P p -> (forall a, all_effects P (f a)) -> all_effects P (p ≫= f).
Proof.
  intros Hp Hf. induction p as [a| |R e k IH]; cbn in *; [apply Hf|done|].
  destruct Hp as [He Hk]. split; [done|]. intros c w r w' Hx. eapply IH, Hk, Hx.
Qed.

(** What holds of the value that the tree returns, whatever worlds answer. *)
Fixpoint returns {A} (p : prog E A) (Q : A -> Prop) : Prop :=
  match p with
  | Ret a => Q a
  | Panic => True
  | Vis e k => forall c w r w', exec e c w = Some (r, w') -> returns (k r) Q
  end.

Lemma returns_bind {A B} (p : prog E A) (f : A -> prog E B) (Q : B -> Prop) :
  returns p (fun a => returns (f a) Q) -> returns (p ≫= f) Q.
Proof. induction p as [a| |R e k IH]; cbn; [done..|]. intros Hp c w r w' Hx. eapply IH, Hp, Hx. Qed.

Lemma returns_mono {A} (p : prog E A) (Q Q' : A -> Prop) : (forall a, Q a -> Q' a) -> returns p Q -> returns p Q'.
Proof. intros HQ. induction p as [a| |R e k IH]; cbn; [apply HQ|done|]. intros Hp c w r w' Hx. eapply IH, Hp, Hx. Qed.

Lemma returns_any {A} (p : prog E A) : returns p (fun _ => True).
Proof. induction p as [a| |R e k IH]; cbn; [done..|]. intros c w r w' _. apply IH. Qed.

Lemma all_effects_bind_returns (P : forall R, E R -> Prop) {A B} (p : prog E A) (f : A -> prog E B) (Q : A -> Prop) :
  all_effects P p -> returns p Q -> (forall a, Q a -> all_effects P (f a)) -> all_effects P (p ≫= f).
Proof.
  intros Hp Hr Hf. induction p as [a| |R e k IH]; cbn in *; [by apply Hf|done|].
  destruct Hp as [He Hk]. split; [done|]. intros c w r w' Hx. eapply IH; eauto.
Qed.

Lemma all_effects_perform (P : forall R, E R -> Prop) {R} (e : E R) :
  P R e -> all_effects P (perform e).
Proof. done. Qed.

(** An effect whose possible answers matter to the rest. *)
Lemma all_effects_perform_bind (P : forall R, E R -> Prop) {R B} (e : E R) (f : R -> prog E B) :
  P R e -> (forall c w r w', exec e c w = Some (r, w') -> all_effects P (f r)) ->
  all_effects P (perform e ≫= f).
Proof. done. Qed.

Lemma all_effects_mono (P Q : forall R, E R -> Prop) {A} (p : prog E A) :
  (forall R e, P R e -> Q R e) -> all_effects P p -> all_effects Q p.
Proof.
  intros HPQ. induction p as [a| |R e k IH]; cbn; [done..|].
  intros [He Hk]. split; [by apply HPQ|]. intros c w r w' Hx. eapply IH, Hk, Hx.
Qed.

Lemma all_effects_any (P : forall R, E R -> Prop) {A} (p : prog E A) :
  (forall R e, P R e) -> all_effects P p.
Proof. intros HP. induction p as [| |R e k IH]; cbn; eauto. Qed.

(** [preserves I p]: as long as the world satisfies [I] whenever [p] takes a
    step, no step of [p] breaks [I]; other tasks may change the world in
    between. *)
Fixpoint preserves (I : W -> Prop) {A} (p : prog E A) : Prop :=
  match p with
  | Ret _ | Panic => True
  | Vis e k => forall c w r w', I w -> exec e c w = Some (r, w') -> I w' /\ preserves I (k r)
  end.

Definition effect_preserves (I : W -> Prop) (R : Type) (e : E R) : Prop :=
  forall c w r w', I w -> exec e c w = Some (r, w') -> I w'.

Lemma preserves_effects I {A} (p : prog E A) : all_effects (effect_preserves I) p -> preserves I p.
Proof.
  induction p as [a| |R e k IH]; cbn; [done..|]. intros [He Hk] c w r w' HI Hx.
  split; [by eapply He|]. eapply IH, Hk, Hx.
Qed.

Lemma preserves_bind I {A B} (p : prog E A) (f : A -> prog E B) :
  preserves I p -> (forall a, preserves I (f a)) -> preserves I (p ≫= f).
Proof.
  intros Hp Hf. induction p as [a| |R e k IH]; cbn in *; [apply Hf|done|].
  intros c w r w' HI Hx. destruct (Hp _ _ _ _ HI Hx) as [HI' Hk]. split; [done|]. by apply IH.
Qed.

Lemma preserves_perform_bind I {R B} (e : E R) (f : R -> prog E B) :
  (forall c w r w', I w -> exec e c w = Some (r, w') -> I w' /\ preserves I (f r)) ->
  preserves I (perform e ≫= f).
Proof. done. Qed.

Lemma preserves_run I {A} (p : prog E A) cs w a w' : preserves I p -> I w -> run p cs w = Done a w' -> I w'.
Proof.
  revert cs w. induction p as [a0| |R e k IH]; intros cs w; cbn; [by intros _ ? [= _ <-]|done|].
  intros Hp HI. destruct (exec e (cs 0%nat) w) as [[r w1]|] eqn:Hx; [|done].
  destruct (Hp _ _ _ _ HI Hx) as [HI1 Hk]. by eapply IH.
Qed.

Lemma preserves_perform I {R} (e : E R) : effect_preserves I R e -> preserves I (perform e).
Proof. intros He c w r w' HI Hx. split; [by eapply He|done]. Qed.

(** The world and the tasks, which end in values of [T]. *)
Context {T : Type}.
Definition config : Type := W * list (prog E T).

(** One step of task [i], as the scheduler picks it. *)
Definition sched_step (i : nat) (c : C) (cf : config) : option config :=
  match cf.2 !! i with
  | Some (Vis e k) =>
      match exec e c cf.1 with
      | Some (r, w') => Some (w', <[i := k r]> cf.2)
      | None => None
      end
  | _ => None
  end.

Fixpoint run_sched (sch : list (nat * C)) (cf : config) : option config :=
  match sch with
  | [] => Some cf
  | (i, c) :: sch' => cf' ← sched_step i c cf; run_sched sch' cf'
  end.

Lemma run_sched_step {R} i c sch w ts (e : E R) k r w' res :
  ts !! i = Some (Vis e k) -> exec e c w = Some (r, w') ->
  run_sched sch (w', <[i := k r]> ts) = res -> run_sched ((i, c) :: sch) (w, ts) = res.
Proof. intros Hi He Hr. cbn [run_sched]. unfold sched_step. cbn. by rewrite Hi, He. Qed.

(** [env]: steps of the world that no task takes (a writer task draining a
    queue, a peer closing its socket).  [spawnable]: the tasks that the
    program starts. *)
Inductive cstep (env : W -> W -> Prop) (spawnable : prog E T -> Prop) : config -> config -> Prop :=
| cstep_task i c cf cf' : sched_step i c cf = Some cf' -> cstep env spawnable cf cf'
| cstep_env w w' ts : env w w' -> cstep env spawnable (w, ts) (w', ts)
| cstep_spawn w ts p : spawnable p -> cstep env spawnable (w, ts) (w, ts ++ [p]).

Lemma run_sched_reachable env spawnable sch cf cf' :
  run_sched sch cf = Some cf' -> rtc (cstep env spawnable) cf cf'.
Proof.
  revert cf. induction sch as [|[i c] sch IH]; intros cf; cbn [run_sched]; [by intros [= <-]|].
  destruct (sched_step i c cf) as [cf1|] eqn:Hs; [|done]. cbn. intros Hr.
  eapply rtc_l; [by eapply cstep_task|]. by apply IH.
Qed.

(** The configurations of an execution, latest first, without a gap. *)
Inductive execution (env : W -> W -> Prop) (spawnable : prog E T -> Prop) (cf0 : config) : list config -> Prop :=
| execution_start : execution env spawnable cf0 [cf0]
| execution_next cf past cf' :
    execution env spawnable cf0 (cf :: past) -> cstep env spawnable cf cf' ->
    execution env spawnable cf0 (cf' :: cf :: past).

Lemma rtc_execution env spawnable cf0 cf :
  rtc (cstep env spawnable) cf0 cf -> exists past, execution env spawnable cf0 (cf :: past).
Proof.
  revert cf. apply rtc_ind_r; [exists []; constructor|]. intros cf cf' _ Hstep [past Hpast].
  exists (cf :: past). by constructor.
Qed.

Lemma execution_reaches env spawnable cf0 cf past cf1 :
  execution env spawnable cf0 (cf :: past) -> cf1 ∈ cf :: past ->
  rtc (cstep env spawnable) cf0 cf1 /\ rtc (cstep env spawnable) cf1 cf.
Proof.
  intros He. remember (cf :: past) as l eqn:Hl. revert cf past Hl.
  induction He as [|cf1' past1 cf' He IH Hstep]; intros cf past [= <- <-] Hin.
  - apply list_elem_of_singleton in Hin as ->. by split.
  - apply elem_of_cons in Hin as [->|Hin]; [split; [|done]|].
    + clear IH. assert (forall l, execution env spawnable cf0 l -> forall c l', l = c :: l' -> rtc (cstep env spawnable) cf0 c) as Hto.
      { induction 1 as [|c1 l1 c2 _ IH Hs]; intros c l' [= <- <-]; [done|]. eapply rtc_r; [by eapply IH|done]. }
      eapply rtc_r; [by eapply Hto|done].
    + destruct (IH _ _ eq_refl Hin) as [? ?]. split; [done|by eapply rtc_r].
Qed.

Lemma sched_step_preserves I i c w ts w' ts' :
  I w -> Forall (preserves I) ts ->
  sched_step i c (w, ts) = Some (w', ts') -> I w' /\ Forall (preserves I) ts'.
Proof.
  intros HI Hts. unfold sched_step; cbn.
  destruct (ts !! i) as [[a| |R e k]|] eqn:Hi; cbn; try done.
  destruct (exec e c w) as [[r w1]|] eqn:He; [|done]. intros [= <- <-].
  pose proof (Forall_lookup_1 _ _ _ _ Hts Hi) as Hp.
  destruct (Hp _ _ _ _ HI He) as [HI' Hk]. split; [done|]. by apply Forall_insert.
Qed.

(** An invariant of the world that every spawnable task and every
    environment step preserves holds in every reachable configuration,
    however the tasks interleave. *)
Lemma invariant_reachable I env spawnable cf cf' :
  (forall w w', env w w' -> I w -> I w') ->
  (forall p, spawnable p -> preserves I p) ->
  rtc (cstep env spawnable) cf cf' ->
  I cf.1 -> Forall (preserves I) cf.2 -> I cf'.1.
Proof.
  intros Henv Hsp Hsteps HI Hts.
  enough (I cf'.1 /\ Forall (preserves I) cf'.2) by tauto.
  induction Hsteps as [|[w ts] [w1 ts1] cf' Hstep _ IH]; [done|].
  apply IH; clear IH; inversion Hstep; subst; cbn in *.
  - by edestruct sched_step_preserves.
  - eauto.
  - done.
  - by edestruct sched_step_preserves.
  - done.
  - apply Forall_app; split; [done|]. constructor; [auto|constructor].
Qed.

(** *** One main task beside helpers

    [relies I R p w0]: after the world [w0], while the helpers' steps satisfy
    [R], every step of [p] keeps [I]; [p] may use what it has seen, when [R]
    keeps it true.  [keeps I R p]: every step of the helper [p] keeps [I] and
    satisfies [R]. *)
Fixpoint relies (I : W -> Prop) (R : W -> W -> Prop) {A} (p : prog E A) (w0 : W) : Prop :=
  match p with
  | Ret _ | Panic => True
  | Vis e k => forall c w r w', R w0 w -> I w -> exec e c w = Some (r, w') -> I w' /\ relies I R (k r) w'
  end.

Definition effect_keeps (I : W -> Prop) (R : W -> W -> Prop) (X : Type) (e : E X) : Prop :=
  forall c w r w', I w -> exec e c w = Some (r, w') -> I w' /\ R w w'.

Lemma relies_later I R {A} (p : prog E A) w0 w1 : Transitive R -> R w0 w1 -> relies I R p w0 -> relies I R p w1.
Proof. intros HR H01. destruct p as [a| |X e k]; cbn; [done..|]. intros Hp c w r w' H1. apply Hp. by etrans. Qed.

Lemma relies_bind I R {A B} (p : prog E A) (f : A -> prog E B) w0 :
  Reflexive R -> Transitive R ->
  relies I R p w0 -> (forall a w, relies I R (f a) w) -> relies I R (p ≫= f) w0.
Proof.
  intros Hr Ht. revert w0. induction p as [a| |X e k IH]; intros w0 Hp Hf; cbn in *; [apply Hf|done|].
  intros c w r w' H0 HI He. destruct (Hp _ _ _ _ H0 HI He) as (HI' & Hk). split; [done|]. by apply IH.
Qed.

Lemma relies_effects I R {A} (p : prog E A) w0 : all_effects (effect_preserves I) p -> relies I R p w0.
Proof.
  revert w0. induction p as [a| |X e k IH]; cbn; [done..|]. intros w0 [He Hk] c w r w' _ HI Hx.
  split; [by eapply He|]. eapply IH, Hk, Hx.
Qed.

Lemma main_reachable I R env spawnable w main cf :
  Reflexive R -> Transitive R ->
  (forall w w', env w w' -> I w -> I w' /\ R w w') ->
  (forall p, spawnable p -> all_effects (effect_keeps I R) p) ->
  relies I R main w -> I w ->
  rtc (cstep env spawnable) (w, [main]) cf -> I cf.1.
Proof.
  intros Hrf Htr Henv Hsp Hmain HI Hsteps.
  assert (forall cf0, rtc (cstep env spawnable) cf0 cf ->
    I cf0.1 -> (exists m ts, cf0.2 = m :: ts /\ relies I R m cf0.1 /\ Forall (all_effects (effect_keeps I R)) ts) -> I cf.1)
    as Hgo; [|by eapply Hgo; [exact Hsteps|done|exists main, []]].
  clear -Hrf Htr Henv Hsp. intros cf0 Hsteps. induction Hsteps as [|[w ts] [w1 ts1] cf Hstep _ IH]; [done|].
  cbn. intros HI (m & hs & -> & Hm & Hhs). apply IH; clear IH.
  all: inversion Hstep as [i c cf1 cf2 Hs| |]; subst; cbn in *; try (by eapply Henv); try done.
  - unfold sched_step in Hs; cbn in Hs. destruct i as [|i]; cbn in Hs.
    + destruct m as [a| |X e k]; try done. destruct (exec e c w) as [[r w2]|] eqn:He; [|done]. injection Hs as <- <-.
      by destruct (Hm _ _ _ _ (Hrf w) HI He).
    + destruct (hs !! i) as [[a| |X e k]|] eqn:Hi; try done.
      destruct (exec e c w) as [[r w2]|] eqn:He; [|done]. injection Hs as <- <-.
      pose proof (Forall_lookup_1 _ _ _ _ Hhs Hi) as [Hp _]. by destruct (Hp _ _ _ _ HI He).
  - unfold sched_step in Hs; cbn in Hs. destruct i as [|i]; cbn in Hs.
    + destruct m as [a| |X e k]; try done. destruct (exec e c w) as [[r w2]|] eqn:He; [|done]. injection Hs as <- <-.
      exists (k r), hs. split; [done|]. split; [|done]. by destruct (Hm _ _ _ _ (Hrf w) HI He).
    + destruct (hs !! i) as [[a| |X e k]|] eqn:Hi; try done.
      destruct (exec e c w) as [[r w2]|] eqn:He; [|done]. injection Hs as <- <-.
      pose proof (Forall_lookup_1 _ _ _ _ Hhs Hi) as [Hp Hk]. destruct (Hp _ _ _ _ HI He) as [_ HR].
      exists m, (<[i:=k r]> hs). split; [done|]. split; [by eapply relies_later|].
      apply Forall_insert; [done|]. by eapply Hk.
  - exists m, hs. split; [done|]. split; [|done]. eapply relies_later, Hm; [done|]. by apply Henv.
  - exists m, (hs ++ [p]). split; [done|]. split; [done|]. apply Forall_app; split; [done|]. by constructor; [apply Hsp|constructor].
Qed.

(** A tree none of whose branches panics. *)
Fixpoint no_panic {A} (p : prog E A) : Prop :=
  match p with
  | Ret _ => True
  | Panic => False
  | Vis e k => forall r, no_panic (k r)
  end.

Lemma no_panic_bind {A B} (p : prog E A) (f : A -> prog E B) :
  no_panic p -> (forall a, no_panic (f a)) -> no_panic (p ≫= f).
Proof. intros Hp Hf. induction p as [a| |R e k IH]; cbn in *; [apply Hf|done|]. intros r. apply IH, Hp. Qed.

Lemma wp_preserves I {A} (p : prog E A) w :
  preserves I p -> no_panic p -> I w -> wp p (fun _ w' => I w') w.
Proof.
  revert w. induction p as [a| |R e k IH]; cbn; [done..|].
  intros w Hp Hnp HI c r w' Hx. destruct (Hp _ _ _ _ HI Hx) as [HI' Hk]. by apply IH.
Qed.

Lemma wp_returns {A} (p : prog E A) (Q : A -> Prop) (R : A -> W -> Prop) w :
  returns p Q -> wp p R w -> wp p (fun a w' => Q a /\ R a w') w.
Proof. revert w. induction p as [a| |X e k IH]; cbn; [done..|]. intros w Hr Hp c r w' Hx. eauto. Qed.
End semantics.

#[global] Arguments run_sched : simpl never.

#[export] Hint Resolve all_effects_bind all_effects_perform preserves_bind no_panic_bind : phirepass.

(** Walks an effect tree, down its binds and through its case analyses, and
    leaves the effects that are not settled by the hint database. *)
Ltac walk :=
  repeat first
    [ exact I
    | progress intros
    | solve [eauto with phirepass nocore]
    | apply all_effects_bind | apply no_panic_bind
    | apply all_effects_perform
    | case_match ].
