(* ===== verification/History.v ===== *)
(** * Tasks that act on what they have seen

    A handler reads shared state, waits, and acts on what it read; other tasks
    run in between.  What can be said of such an action is that it was right
    at some world the task has seen.  [hwp] tracks those worlds through an
    effect tree, and [history_execution] carries its guarantee to every
    interleaving. *)

From S2P Require Import Prelude Async.

Section history.
Context {E : Type -> Type} {W C : Type} `{!Handler E W C}.

(** A set of past worlds, and the statement that one of them satisfies [P]. *)
Definition seen (H : W -> Prop) (P : W -> Prop) : Prop := exists v, H v /\ P v.
Definition now_too (H : W -> Prop) (w : W) : W -> Prop := fun v => H v \/ v = w.
Definition within (H H' : W -> Prop) : Prop := forall v, H v -> H' v.

#[global] Instance within_preorder : PreOrder within.
Proof. split; [by intros H v|]. intros H1 H2 H3 H12 H23 v Hv. auto. Qed.

Lemma within_now H w : within H (now_too H w).
Proof. by left. Qed.

Lemma seen_now H w (P : W -> Prop) : P w -> seen (now_too H w) P.
Proof. intros HP. exists w. split; [by right|done]. Qed.

Lemma seen_within H H' P : within H H' -> seen H P -> seen H' P.
Proof. intros Hw (v & Hv & HP). exists v. auto. Qed.

(** [G H w w']: the step from [w] to [w'] is right for a task that has seen
    [H].  [I] is an invariant of the world, proved apart. *)
Context (I : W -> Prop) (G : (W -> Prop) -> W -> W -> Prop).

Fixpoint hwp {A} (p : prog E A) (Q : A -> (W -> Prop) -> Prop) (H : W -> Prop) : Prop :=
  match p with
  | Ret a => Q a H
  | Panic => True
  | Vis e k => forall c w r w', I w -> exec e c w = Some (r, w') ->
      G (now_too H w) w w' /\ hwp (k r) Q (now_too (now_too H w) w')
  end.

Lemma hwp_mono {A} (p : prog E A) (Q Q' : A -> (W -> Prop) -> Prop) H :
  (forall a H', within H H' -> Q a H' -> Q' a H') -> hwp p Q H -> hwp p Q' H.
Proof.
  revert H. induction p as [a| |R e k IH]; intros H HQ; cbn; [by apply HQ|done|].
  intros Hp c w r w' HI He. destruct (Hp c w r w' HI He) as [HG Hk]. split; [done|].
  apply (IH r); [|exact Hk]. intros a H' Hw. apply HQ. etrans; [|exact Hw]. etrans; apply within_now.
Qed.

Lemma hwp_bind {A B} (p : prog E A) (f : A -> prog E B) Q H :
  hwp p (fun a H' => hwp (f a) Q H') H -> hwp (p ≫= f) Q H.
Proof.
  revert H. induction p as [a| |R e k IH]; intros H; cbn; [done..|].
  intros Hp c w r w' HI He. destruct (Hp c w r w' HI He) as [HG Hk]. split; [done|]. by apply IH.
Qed.

(** A task is [right] when its steps are, whatever was seen before it. *)
Definition right {A} (p : prog E A) : Prop := forall H, hwp p (fun _ _ => True) H.

(** Its steps, and what is known when it returns: [Q] holds of its answer and
    all it had seen. *)
Definition learns {A} (p : prog E A) (Q : A -> (W -> Prop) -> Prop) : Prop := forall H, hwp p Q H.

Lemma right_bind {A B} (p : prog E A) (f : A -> prog E B) :
  right p -> (forall a, right (f a)) -> right (p ≫= f).
Proof. intros Hp Hf H. apply hwp_bind. eapply hwp_mono; [|apply Hp]. intros a H' _ _. apply Hf. Qed.

Lemma right_perform {R} (e : E R) :
  (forall H c w r w', I w -> exec e c w = Some (r, w') -> G (now_too H w) w w') -> right (perform e).
Proof. intros He H c w r w' HI Hx. split; [by eapply He|done]. Qed.

(** A right task leaves what is known as it is. *)
Lemma hwp_right_bind {A B} (p : prog E A) (f : A -> prog E B) Q H :
  right p -> (forall a H', within H H' -> hwp (f a) Q H') -> hwp (p ≫= f) Q H.
Proof. intros Hp Hf. apply hwp_bind. eapply hwp_mono; [|apply Hp]. intros a H' Hw _. by apply Hf. Qed.

(** *** Interleavings *)

(** The worlds of an execution, latest first: each is the one before it, or
    follows from it by a step that is right for the whole past. *)
Inductive history (w0 : W) : list W -> Prop :=
| history_start : history w0 [w0]
| history_step w past w' :
    history w0 (w :: past) -> w' = w \/ G (fun v => v ∈ w :: past) w w' -> history w0 (w' :: w :: past).

Context (G_within : forall H H' w w', within H H' -> G H w w' -> G H' w w').

Lemma hwp_within {A} (p : prog E A) Q H H' :
  (forall a H1 H2, within H1 H2 -> Q a H1 -> Q a H2) -> within H H' -> hwp p Q H -> hwp p Q H'.
Proof.
  intros HQ. revert H H'. induction p as [a| |R e k IH]; intros H H' Hw; cbn; [by apply HQ|done|].
  assert (forall H H' w, within H H' -> within (now_too H w) (now_too H' w)) as Hnow.
  { intros H1 H2 w H12 v [?| ->]; [left; by apply H12|by right]. }
  intros Hp c w r w' HI He. destruct (Hp c w r w' HI He) as [HG Hk].
  split; [eapply G_within, HG; by apply Hnow|]. eapply IH, Hk. by apply Hnow, Hnow.
Qed.

Context {T : Type}.

Lemma history_execution env spawnable w0 (cfs : list (config (E := E) (W := W) (T := T))) :
  (forall w w', I w -> env w w' -> I w' /\ forall H, G (now_too H w) w w') ->
  (forall p, spawnable p -> preserves I p) -> (forall p, spawnable p -> right p) -> I w0 ->
  execution env spawnable (w0, []) cfs -> history w0 cfs.*1.
Proof.
  intros Henv Hkeep Hright HI Hexec.
  enough (history w0 cfs.*1 /\ forall cf past, cfs = cf :: past ->
    I cf.1 /\ Forall (preserves I) cf.2 /\ Forall (fun p => hwp p (fun _ _ => True) (fun v => v ∈ cfs.*1)) cf.2) by tauto.
  induction Hexec as [|cf1 past [w2 ts2] Hexec [Hhist IH] Hstep].
  { split; [constructor|]. intros cf past [= <- <-]. split; [done|]. split; constructor. }
  destruct (IH _ _ eq_refl) as (HI1 & Hts1 & Hh). clear IH. cbn in *. set (w1 := cf1.1) in *. set (seen1 := w1 :: past.*1) in *.
  assert (within (now_too (fun v => v ∈ seen1) w1) (fun v => v ∈ seen1)) as Hsame.
  { intros v [?| ->]; [done|left]. }
  enough (I w2 /\ Forall (preserves I) ts2 /\ (w2 = w1 \/ G (fun v => v ∈ seen1) w1 w2) /\
    Forall (fun p => hwp p (fun _ _ => True) (fun v => v ∈ w2 :: seen1)) ts2) as (HI2 & Hts2 & HG & Hh2).
  { split; [by constructor|]. by intros cf past' [= <- <-]. }
  assert (forall p : prog E T, hwp p (fun _ _ => True) (fun v => v ∈ seen1) ->
    hwp p (fun _ _ => True) (fun v => v ∈ w2 :: seen1)) as Hlater.
  { intros p Hp. eapply hwp_within, Hp; [done|]. intros v Hv. by right. }
  assert (Forall (fun p => hwp p (fun _ _ => True) (fun v => v ∈ w2 :: seen1)) cf1.2) as Hh' by (eapply Forall_impl; eauto).
  inversion Hstep as [i c ? ? Hs|w ? ts He|w ts p Hp]; subst.
  - unfold sched_step in Hs. destruct (cf1.2 !! i) as [[a| |R e k]|] eqn:Hi; try done.
    fold w1 in Hs. destruct (exec e c w1) as [[r w']|] eqn:Hx; [|done]. injection Hs as <- <-.
    pose proof (Forall_lookup_1 _ _ _ _ Hts1 Hi) as Hpi. destruct (Hpi c w1 r w' HI1 Hx) as [HI' Hk].
    pose proof (Forall_lookup_1 _ _ _ _ Hh Hi) as Hqi. destruct (Hqi c w1 r w' HI1 Hx) as [HG Hk'].
    split; [done|]. split; [by apply Forall_insert|]. split; [right; by eapply G_within|].
    apply Forall_insert; [done|]. eapply hwp_within, Hk'; [done|].
    intros v [Hv| ->]; [right; by apply Hsame|left].
  - cbn in w1. destruct (Henv w w2 HI1 He) as [HI2 HG]. split; [done|]. split; [done|]. split; [|done].
    right. eapply G_within, HG. exact Hsame.
  - cbn in w1. split; [done|]. split; [apply Forall_app; split; [done|]; by repeat constructor; apply Hkeep|].
    split; [by left|]. apply Forall_app; split; [done|]. repeat constructor. by apply Hright.
Qed.
End history.
