(* ===== verification/RustStr.v ===== *)
(** * Rust string operations

    A [String] or [&str] is the [string] of its UTF-8 bytes.  The operations
    are those of the standard library that the source calls: prefixes,
    splitting at an ASCII character, trimming of Unicode white space, and the
    count of [char]s.  *)

From S2P Require Import Prelude.
From Stdlib Require Import Ascii.

#[local] Arguments String.append : simpl nomatch.

Module Str.

(** [s.strip_prefix(p)] *)
Fixpoint strip_prefix (p s : string) : option string :=
  match p, s with
  | EmptyString, _ => Some s
  | String a p', String b s' => if decide (a = b) then strip_prefix p' s' else None
  | _, EmptyString => None
  end.

(** [s.starts_with(p)] *)
Definition starts_with (s p : string) : bool :=
  match strip_prefix p s with Some _ => true | None => false end.

(** [s.split_once(sep)] for a string [sep]: at its first occurrence. *)
Fixpoint split_once_str (sep s : string) : option (string * string) :=
  match strip_prefix sep s with
  | Some rest => Some ("", rest)
  | None =>
      match s with
      | EmptyString => None
      | String c s' => '(a, b) ← split_once_str sep s'; Some (String c a, b)
      end
  end.

(** [s.split_once(c)] for an ASCII character [c]. *)
Fixpoint split_once (c : ascii) (s : string) : option (string * string) :=
  match s with
  | EmptyString => None
  | String a s' =>
      if decide (a = c) then Some (EmptyString, s')
      else '(l, r) ← split_once c s'; Some (String a l, r)
  end.

Fixpoint mem (c : ascii) (s : string) : bool :=
  match s with
  | EmptyString => false
  | String a s' => bool_decide (a = c) || mem c s'
  end.

Fixpoint rev_append (s acc : string) : string :=
  match s with EmptyString => acc | String a s' => rev_append s' (String a acc) end.
Definition rev (s : string) : string := rev_append s EmptyString.

(** [s.ends_with(c)] for an ASCII character [c]. *)
Fixpoint ends_with (s : string) (c : ascii) : bool :=
  match s with
  | EmptyString => false
  | String a EmptyString => bool_decide (a = c)
  | String _ s' => ends_with s' c
  end.

(** [s.trim_end_matches(c)] for an ASCII character [c]. *)
Fixpoint trim_end_matches (c : ascii) (s : string) : string :=
  match s with
  | EmptyString => EmptyString
  | String a s' =>
      match trim_end_matches c s' with
      | EmptyString => if decide (a = c) then EmptyString else String a EmptyString
      | t => String a t
      end
  end.

(** The UTF-8 encodings of the characters with the Unicode property
    White_Space, which [char::is_whitespace] tests. *)
Definition chr (n : N) : ascii := ascii_of_N n.
Definition ch1 (a : N) : string := String (chr a) "".
Definition ch2 (a b : N) : string := String (chr a) (ch1 b).
Definition ch3 (a b c : N) : string := String (chr a) (ch2 b c).
Definition white_spaces : list string :=
  [ch1 0x09; ch1 0x0A; ch1 0x0B; ch1 0x0C; ch1 0x0D; ch1 0x20;
   ch2 0xC2 0x85; ch2 0xC2 0xA0; ch3 0xE1 0x9A 0x80;
   ch3 0xE2 0x80 0x80; ch3 0xE2 0x80 0x81; ch3 0xE2 0x80 0x82; ch3 0xE2 0x80 0x83;
   ch3 0xE2 0x80 0x84; ch3 0xE2 0x80 0x85; ch3 0xE2 0x80 0x86; ch3 0xE2 0x80 0x87;
   ch3 0xE2 0x80 0x88; ch3 0xE2 0x80 0x89; ch3 0xE2 0x80 0x8A;
   ch3 0xE2 0x80 0xA8; ch3 0xE2 0x80 0xA9; ch3 0xE2 0x80 0xAF;
   ch3 0xE2 0x81 0x9F; ch3 0xE3 0x80 0x80]%N.

Fixpoint strip_any (ps : list string) (s : string) : option string :=
  match ps with
  | [] => None
  | p :: ps' => match strip_prefix p s with Some r => Some r | None => strip_any ps' s end
  end.

(** Drop the given prefixes as long as one applies; [fuel] is the length of
    the string, and every dropped prefix is non-empty. *)
Fixpoint drop_prefixes (ps : list string) (fuel : nat) (s : string) : string :=
  match fuel with
  | O => s
  | S fuel' => match strip_any ps s with Some r => drop_prefixes ps fuel' r | None => s end
  end.

Definition trim_start (s : string) : string := drop_prefixes white_spaces (String.length s) s.
Definition trim_end (s : string) : string :=
  rev (drop_prefixes (rev <$> white_spaces) (String.length s) (rev s)).
(** [s.trim()] *)
Definition trim (s : string) : string := trim_end (trim_start s).

Definition is_empty (s : string) : bool :=
  match s with EmptyString => true | _ => false end.

(** A byte that continues a UTF-8 sequence does not start a [char]. *)
Definition is_continuation (a : ascii) : bool :=
  let n := N_of_ascii a in (0x80 <=? n)%N && (n <? 0xC0)%N.

(** [s.chars().count()] *)
Fixpoint char_count (s : string) : nat :=
  match s with
  | EmptyString => O
  | String a s' => if is_continuation a then char_count s' else S (char_count s')
  end.

(** [s.chars().take(n)] and what it leaves in the iterator. *)
Fixpoint take_chars (n : nat) (s : string) : string * string :=
  match s with
  | EmptyString => (EmptyString, EmptyString)
  | String a s' =>
      if is_continuation a then
        let '(l, r) := take_chars n s' in (String a l, r)
      else
        match n with
        | O => (EmptyString, s)
        | S n' => let '(l, r) := take_chars n' s' in (String a l, r)
        end
  end.

(** ["*".repeat(n)] for a one-byte string. *)
Fixpoint repeat (a : ascii) (n : nat) : string :=
  match n with O => EmptyString | S n' => String a (repeat a n') end.

(** [str::eq_ignore_ascii_case] compares ASCII-lowered bytes. *)
Definition ascii_lower (a : ascii) : ascii :=
  let n := N_of_ascii a in
  if (0x41 <=? n)%N && (n <=? 0x5A)%N then ascii_of_N (n + 0x20) else a.
Fixpoint to_ascii_lowercase (s : string) : string :=
  match s with EmptyString => EmptyString | String a s' => String (ascii_lower a) (to_ascii_lowercase s') end.

(** [s.split(c)] for an ASCII character [c]: never empty. *)
Fixpoint split (c : ascii) (s : string) : list string :=
  match s with
  | EmptyString => [EmptyString]
  | String a s' =>
      if decide (a = c) then EmptyString :: split c s'
      else match split c s' with
           | t :: ts => String a t :: ts
           | [] => [String a EmptyString]
           end
  end.

(** *** Laws *)

Lemma strip_prefix_spec p s r : strip_prefix p s = Some r <-> s = p +:+ r.
Proof.
  revert s. induction p as [|a p IH]; intros s; cbn.
  - split; congruence.
  - destruct s as [|b s]; [split; discriminate|].
    case_decide as Hab; subst.
    + rewrite IH. split; [intros ->; done|by intros [= ->]].
    + split; [discriminate|intros [= -> _]; done].
Qed.

Lemma starts_with_spec s p : starts_with s p = true <-> exists r, s = p +:+ r.
Proof.
  unfold starts_with. destruct (strip_prefix p s) as [r|] eqn:H.
  - apply strip_prefix_spec in H. split; eauto.
  - split; [discriminate|]. intros [r Hr%strip_prefix_spec]. congruence.
Qed.

Lemma split_once_spec c s l r :
  split_once c s = Some (l, r) <-> s = l +:+ String c r /\ mem c l = false.
Proof.
  revert l r. induction s as [|a s IH]; intros l r; cbn.
  - split; [discriminate|]. intros [H _]. destruct l; discriminate.
  - case_decide as Hac; subst.
    + split.
      * intros [= <- <-]. done.
      * intros [Hs Hm]. destruct l as [|b l]; cbn in *; [congruence|].
        injection Hs as <- Hs. rewrite bool_decide_eq_true_2 in Hm by done. done.
    + destruct (split_once c s) as [[l' r']|] eqn:Hs; cbn.
      * split.
        -- intros [= <- <-]. destruct (proj1 (IH l' r') eq_refl) as [-> Hm]. cbn.
           rewrite bool_decide_eq_false_2 by done. done.
        -- intros [Hs' Hm]. destruct l as [|b l]; cbn in *; [congruence|].
           injection Hs' as <- Hs'. apply orb_false_iff in Hm as [_ Hm].
           assert (Hx : Some (l', r') = Some (l, r)) by (apply IH; done). congruence.
      * split; [discriminate|]. intros [Hs' Hm]. exfalso.
        destruct l as [|b l]; cbn in *; [congruence|].
        injection Hs' as <- Hs'. apply orb_false_iff in Hm as [_ Hm].
        assert (Hx : None = Some (l, r)) by (apply IH; done). congruence.
Qed.

Lemma split_once_none c s : split_once c s = None <-> mem c s = false.
Proof.
  induction s as [|a s IH]; cbn; [done|].
  case_decide as Hac; subst.
  - rewrite bool_decide_eq_true_2 by done. done.
  - rewrite bool_decide_eq_false_2 by done. cbn.
    destruct (split_once c s) as [[l r]|]; cbn; naive_solver.
Qed.

Lemma rev_append_app s acc acc' : rev_append s (acc +:+ acc') = rev_append s acc +:+ acc'.
Proof. revert acc. induction s as [|a s IH]; intros acc; cbn; [done|]. apply (IH (String a acc)). Qed.

Lemma rev_append_rev s acc : rev_append s acc = rev s +:+ acc.
Proof. apply (rev_append_app s "" acc). Qed.

Lemma rev_append_involutive s acc : rev_append (rev_append s acc) "" = rev_append acc s.
Proof. revert acc. induction s as [|a s IH]; intros acc; cbn; [done|]. apply IH. Qed.

Lemma rev_involutive s : rev (rev s) = s.
Proof. apply (rev_append_involutive s ""). Qed.

Lemma rev_snoc s a : rev (s +:+ String a "") = String a (rev s).
Proof.
  enough (forall acc, rev_append (s +:+ String a "") acc = rev_append (String a "") (rev_append s acc))
    as H by apply H.
  induction s as [|b s IH]; intros acc; cbn; [done|]. apply IH.
Qed.

Lemma app_length s t : String.length (s +:+ t) = (String.length s + String.length t)%nat.
Proof. induction s as [|a s IH]; cbn; congruence. Qed.

Lemma app_nil_r s : s +:+ "" = s.
Proof. induction s as [|a s IH]; cbn; congruence. Qed.

Lemma app_assoc s t u : (s +:+ t) +:+ u = s +:+ (t +:+ u).
Proof. induction s as [|a s IH]; cbn; congruence. Qed.

Lemma drop_prefixes_id ps n s : strip_any ps s = None -> drop_prefixes ps n s = s.
Proof. intros H. destruct n; cbn; [done|]. by rewrite H. Qed.

(** A string with no white space at either end is its own [trim]. *)
Lemma trim_id s :
  strip_any white_spaces s = None -> strip_any (rev <$> white_spaces) (rev s) = None -> trim s = s.
Proof.
  intros Hs He. unfold trim, trim_start, trim_end.
  rewrite (drop_prefixes_id _ _ s) by done. rewrite drop_prefixes_id by done.
  apply rev_involutive.
Qed.

Lemma take_chars_app n s l r : take_chars n s = (l, r) -> s = l +:+ r.
Proof.
  revert n l r. induction s as [|a s IH]; intros n l r; cbn.
  - by intros [= <- <-].
  - case_match.
    + destruct (take_chars n s) as [l' r'] eqn:Ht. intros [= <- <-]. cbn. f_equal. eauto.
    + destruct n as [|n]; [by intros [= <- <-]|].
      destruct (take_chars n s) as [l' r'] eqn:Ht. intros [= <- <-]. cbn. f_equal. eauto.
Qed.

Lemma take_chars_count n s l r : take_chars n s = (l, r) -> (char_count l <= n)%nat.
Proof.
  revert n l r. induction s as [|a s IH]; intros n l r; cbn.
  - intros [= <- <-]. cbn. lia.
  - case_match eqn:Ha.
    + destruct (take_chars n s) as [l' r'] eqn:Ht. intros [= <- <-]. cbn.
      rewrite Ha. apply IH in Ht. lia.
    + destruct n as [|n]; [intros [= <- <-]; cbn; lia|].
      destruct (take_chars n s) as [l' r'] eqn:Ht. intros [= <- <-]. cbn.
      rewrite Ha. apply IH in Ht. lia.
Qed.

Lemma char_count_app s t : char_count (s +:+ t) = (char_count s + char_count t)%nat.
Proof. induction s as [|a s IH]; cbn; [done|]. case_match; lia. Qed.

Lemma char_count_repeat a n : is_continuation a = false -> char_count (repeat a n) = n.
Proof. intros Ha. induction n as [|n IH]; cbn; [done|]. rewrite Ha, IH. done. Qed.
End Str.

#[export] Hint Rewrite Str.app_nil_r Str.app_assoc Str.app_length Str.char_count_app : phirepass.
