(* ===== verification/Protocol.v ===== *)
(** * The wire protocol: frame payloads and their codes

    The data of [common/src/protocol/]: SFTP payloads, web frames, node
    frames, and the one-byte code each variant carries in the frame header.
    Integers are [Z]s; a [Uuid] is its 128-bit value; floats travel as their
    bit patterns, because no code of the program computes with them. *)

From S2P Require Import Prelude RustStr.

(** [uuid::Uuid]: [Uuid::nil()] is 0. *)
Definition Uuid : Type := Z.
#[global] Instance uuid_eq_dec : EqDecision Uuid := Z.eq_dec.
#[global] Instance uuid_countable : Countable Uuid := _.
#[global] Typeclasses Opaque Uuid.
Definition nil_uuid : Uuid := 0.

(** [bytes::Bytes] *)
Definition Bytes : Type := bytes.

(** ** [common/src/protocol/mod.rs] *)

Module Protocol.
Inductive t : Type := SSH | SFTP.
#[global] Instance protocol_eq_dec : EqDecision t.
Proof. solve_decision. Defined.

(** [Protocol::X as u8] *)
Definition as_u8 (p : t) : Z := match p with SSH => 0 | SFTP => 1 end.

(** [TryFrom<u8>]: the arm for [2..=255] is [unreachable!], so it panics;
    the function never returns an error. *)
Definition try_from (value : Z) : call (result unit t) :=
  if value =? 0 then Returns (Ok SSH)
  else if value =? 1 then Returns (Ok SFTP)
  else Panics.
End Protocol.

(** ** [common/src/protocol/sftp.rs] *)

Inductive SFTPListItemKind : Type := File | Folder.

Record SFTPListItemAttributes : Type := { attr_size : Z }.

Inductive SFTPListItem : Type := {
  li_name : string;
  li_path : string;
  li_kind : SFTPListItemKind;
  li_items : list SFTPListItem;
  li_attributes : SFTPListItemAttributes }.

Record SFTPDownloadStart : Type := { ds_path : string; ds_filename : string }.

Record SFTPDownloadStartResponse : Type := {
  dsr_download_id : Z; dsr_total_size : Z; dsr_total_chunks : Z }.

Record SFTPDownloadChunk : Type := {
  dc_download_id : Z; dc_chunk_index : Z; dc_chunk_size : Z; dc_data : Bytes }.

Record SFTPUploadStart : Type := {
  us_filename : string; us_remote_path : string; us_total_chunks : Z; us_total_size : Z }.

Record SFTPUploadStartResponse : Type := { usr_upload_id : Z }.

Record SFTPUploadChunk : Type := {
  uc_upload_id : Z; uc_chunk_index : Z; uc_chunk_size : Z; uc_data : Bytes }.

Record SFTPDelete : Type := { del_path : string; del_filename : string }.

(** ** [FrameError] of [common/src/protocol/common.rs] *)

Module FrameError.
Inductive t : Type := Generic | Authentication | RequiresUsername | RequiresPassword.
#[global] Instance frame_error_eq_dec : EqDecision t.
Proof. solve_decision. Defined.

(** [Serialize] writes the discriminant as a [u8]. *)
Definition serialize (e : t) : Z :=
  match e with
  | Generic => 0 | Authentication => 10 | RequiresUsername => 100 | RequiresPassword => 110
  end.

(** [From<u8>], through which [Deserialize] goes: an unknown code is [Generic]. *)
Definition from (value : Z) : t :=
  if value =? 0 then Generic
  else if value =? 10 then Authentication
  else if value =? 100 then RequiresUsername
  else if value =? 110 then RequiresPassword
  else Generic.
End FrameError.

(** ** [common/src/protocol/web.rs] *)

Module WebFrameData.
Inductive t : Type :=
| Heartbeat
| Auth (token : string) (node_id : string) (version : string) (msg_id : option Z)
| AuthSuccess (cid : Uuid) (version : string) (msg_id : option Z)
| OpenTunnel (protocol : Z) (node_id : string) (username password : option string) (msg_id : option Z)
| TunnelOpened (protocol : Z) (sid : Z) (msg_id : option Z)
| TunnelData (protocol : Z) (node_id : string) (sid : Z) (data : Bytes)
| TunnelClosed (protocol : Z) (sid : Z) (msg_id : option Z)
| SSHWindowResize (node_id : string) (sid : Z) (cols rows px_width px_height : Z)
| SFTPList (node_id : string) (path : string) (sid : Z) (msg_id : option Z)
| SFTPListItems (path : string) (sid : Z) (dir : SFTPListItem) (msg_id : option Z)
| SFTPDownloadStart (node_id : string) (sid : Z) (msg_id : option Z) (download : SFTPDownloadStart)
| SFTPDownloadStartResponse (sid : Z) (msg_id : option Z) (response : SFTPDownloadStartResponse)
| SFTPDownloadChunkRequest (node_id : string) (sid : Z) (msg_id : option Z) (download_id chunk_index : Z)
| SFTPDownloadChunk (sid : Z) (msg_id : option Z) (chunk : SFTPDownloadChunk)
| SFTPUploadStart (node_id : string) (sid : Z) (msg_id : option Z) (upload : SFTPUploadStart)
| SFTPUploadStartResponse (sid : Z) (msg_id : option Z) (response : SFTPUploadStartResponse)
| SFTPUpload (node_id : string) (sid : Z) (msg_id : option Z) (chunk : SFTPUploadChunk)
| SFTPUploadChunkAck (sid : Z) (upload_id chunk_index : Z)
| SFTPDelete (node_id : string) (sid : Z) (msg_id : option Z) (data : SFTPDelete)
| Error (kind : FrameError.t) (message : string) (msg_id : option Z).

Definition code (f : t) : Z :=
  match f with
  | Heartbeat => 1
  | Auth _ _ _ _ => 10
  | AuthSuccess _ _ _ => 11
  | OpenTunnel _ _ _ _ _ => 20
  | TunnelOpened _ _ _ => 21
  | TunnelData _ _ _ _ => 22
  | TunnelClosed _ _ _ => 23
  | SSHWindowResize _ _ _ _ _ _ => 30
  | SFTPList _ _ _ _ => 40
  | SFTPListItems _ _ _ _ => 41
  | SFTPDownloadStart _ _ _ _ => 42
  | SFTPDownloadStartResponse _ _ _ => 43
  | SFTPDownloadChunkRequest _ _ _ _ _ => 44
  | SFTPDownloadChunk _ _ _ => 45
  | SFTPUploadStart _ _ _ _ => 46
  | SFTPUploadStartResponse _ _ _ => 47
  | SFTPUpload _ _ _ _ => 48
  | SFTPUploadChunkAck _ _ _ => 49
  | SFTPDelete _ _ _ _ => 50
  | Error _ _ _ => 51
  end.
End WebFrameData.

(** ** [Stats] of [common/src/stats.rs], as the heartbeat carries it. *)
Record Stats : Type := {
  last_refreshed_secs : Z;
  proc_id : string;
  proc_threads : Z;
  proc_cpu : Z;            (* f32 bits *)
  proc_mem_bytes : Z;
  proc_uptime_secs : Z;
  host_name : string;
  host_ip : string;
  host_mac : string;
  host_cpu : Z;            (* f32 bits *)
  host_mem_used_bytes : Z;
  host_mem_total_bytes : Z;
  host_uptime_secs : Z;
  host_load_average : Z * Z * Z;   (* f64 bits *)
  host_os_info : string;
  host_connections : Z;
  host_processes : Z }.

(** ** [common/src/protocol/node.rs] *)

Inductive WebFrameId : Type :=
| SessionId (sid : Z)
| ConnectionId (cid : Uuid).

Module NodeFrameData.
Inductive t : Type :=
| Heartbeat (stats : Stats) (sent_at : Z)
| HeartbeatAck (sent_at received_at : Z)
| Auth (token : string) (node_id : Uuid) (version : string)
| AuthResponse (node_id : Uuid) (success : bool) (version : string)
| OpenTunnel (protocol : Z) (cid : Uuid) (username password : option string) (msg_id : option Z)
| TunnelOpened (protocol : Z) (cid : Uuid) (sid : Z) (msg_id : option Z)
| TunnelData (protocol : Z) (cid : Uuid) (sid : Z) (data : Bytes)
| TunnelClosed (protocol : Z) (cid : Uuid) (sid : Z) (msg_id : option Z)
| SSHWindowResize (cid : Uuid) (sid : Z) (cols rows px_width px_height : Z)
| SFTPList (cid : Uuid) (path : string) (sid : Z) (msg_id : option Z)
| SFTPDownloadStart (cid : Uuid) (sid : Z) (msg_id : option Z) (download : SFTPDownloadStart)
| SFTPDownloadChunkRequest (cid : Uuid) (sid : Z) (msg_id : option Z) (download_id chunk_index : Z)
| SFTPDownloadChunk (cid : Uuid) (sid : Z) (msg_id : option Z) (chunk : SFTPDownloadChunk)
| SFTPUploadStart (cid : Uuid) (sid : Z) (msg_id : option Z) (upload : SFTPUploadStart)
| SFTPUpload (cid : Uuid) (sid : Z) (msg_id : option Z) (chunk : SFTPUploadChunk)
| SFTPDelete (cid : Uuid) (sid : Z) (msg_id : option Z) (data : SFTPDelete)
| WebFrame (frame : WebFrameData.t) (id : WebFrameId)
| ConnectionDisconnect (cid : Uuid).

Definition code (f : t) : Z :=
  match f with
  | Heartbeat _ _ => 1
  | HeartbeatAck _ _ => 2
  | Auth _ _ _ => 10
  | AuthResponse _ _ _ => 11
  | OpenTunnel _ _ _ _ _ => 20
  | TunnelOpened _ _ _ _ => 21
  | TunnelData _ _ _ _ => 22
  | TunnelClosed _ _ _ _ => 23
  | SSHWindowResize _ _ _ _ _ _ => 30
  | SFTPList _ _ _ _ => 31
  | SFTPDownloadStart _ _ _ _ => 32
  | SFTPDownloadChunkRequest _ _ _ _ _ => 33
  | SFTPDownloadChunk _ _ _ _ => 34
  | SFTPUploadStart _ _ _ _ => 35
  | SFTPUpload _ _ _ _ => 36
  | SFTPDelete _ _ _ _ => 37
  | WebFrame _ _ => 50
  | ConnectionDisconnect _ => 60
  end.

(** The web connection a server-to-node frame acts for: the [cid] field of
    the variants that have one.  (Not a function of the source: it states
    whose request a frame is.) *)
Definition client (f : t) : option Uuid :=
  match f with
  | OpenTunnel _ cid _ _ _ | TunnelOpened _ cid _ _ | TunnelData _ cid _ _
  | TunnelClosed _ cid _ _ | SSHWindowResize cid _ _ _ _ _ | SFTPList cid _ _ _
  | SFTPDownloadStart cid _ _ _ | SFTPDownloadChunkRequest cid _ _ _ _
  | SFTPDownloadChunk cid _ _ _ | SFTPUploadStart cid _ _ _ | SFTPUpload cid _ _ _
  | SFTPDelete cid _ _ _ | ConnectionDisconnect cid => Some cid
  | _ => None
  end.

(** The tunnel session a server-to-node frame addresses, for the variants
    that only make sense inside a session. *)
Definition session (f : t) : option Z :=
  match f with
  | TunnelData _ _ sid _ | SSHWindowResize _ sid _ _ _ _ | SFTPList _ _ sid _
  | SFTPDownloadStart _ sid _ _ | SFTPDownloadChunkRequest _ sid _ _ _
  | SFTPUploadStart _ sid _ _ | SFTPUpload _ sid _ _ | SFTPDelete _ sid _ _ => Some sid
  | _ => None
  end.
End NodeFrameData.

Lemma frame_error_roundtrip e : FrameError.from (FrameError.serialize e) = e.
Proof. by destruct e. Qed.

Lemma web_code_fits f : fits 8 (WebFrameData.code f).
Proof. destruct f; vm_compute; split; congruence. Qed.

Lemma node_code_fits f : fits 8 (NodeFrameData.code f).
Proof. destruct f; vm_compute; split; congruence. Qed.

#[export] Hint Resolve web_code_fits node_code_fits : phirepass.
