(* ===== verification/Frame.v ===== *)
(** * Frames: the binary envelope of every WebSocket message

    [Frame::encode] and [Frame::decode] of [common/src/protocol/common.rs].
    The payload codecs ([serde_json], [rmp_serde]) are parameters: a [Serde]
    instance gives them, and [SerdeLaws] states when reading back what they
    wrote gives the value: always with MessagePack, and in JSON for messages
    without floats. *)

From S2P Require Import Prelude RustStr Protocol.

Definition HEADER_SIZE : Z := 8.
Definition FRAME_VERSION : Z := 1.

(** What differs between the native build and the browser build. *)
Record Target : Type := { usize_bits : Z; wasm32 : bool }.
Definition native : Target := {| usize_bits := 64; wasm32 := false |}.
Definition browser : Target := {| usize_bits := 32; wasm32 := true |}.

Module FrameEncoding.
Inductive t : Type := JSON | MessagePack.
#[global] Instance frame_encoding_eq_dec : EqDecision t.
Proof. solve_decision. Defined.

Definition as_u8 (e : t) : Z := match e with JSON => 0 | MessagePack => 1 end.

(** [Display] *)
Definition display (e : t) : string :=
  match e with JSON => "JSON" | MessagePack => "MessagePack" end.

(** [TryFrom<u8>] *)
Definition try_from (code : Z) : result string t :=
  if code =? 0 then Ok JSON
  else if code =? 1 then Ok MessagePack
  else Err ("unknown frame encoding: " +:+ pretty code).
End FrameEncoding.

Module FrameData.
Inductive t : Type :=
| Web (data : WebFrameData.t)
| Node (data : NodeFrameData.t).
End FrameData.

Record Frame : Type := {
  version : Z;
  encoding : FrameEncoding.t;
  data : FrameData.t }.

(** [Frame::version] *)
Definition current_version : Z := FRAME_VERSION.

(** [From<NodeFrameData> for Frame] and [From<WebFrameData> for Frame] *)
Definition from_node (d : NodeFrameData.t) : Frame :=
  {| version := current_version; encoding := FrameEncoding.MessagePack; data := FrameData.Node d |}.
Definition from_web (d : WebFrameData.t) : Frame :=
  {| version := current_version; encoding := FrameEncoding.MessagePack; data := FrameData.Web d |}.

(** The serializers for one payload type, errors being their texts. *)
Class Serde (T : Type) : Type := {
  json_to_vec : T -> result string bytes;
  json_from_slice : bytes -> result string T;
  rmp_to_vec : T -> result string bytes;
  rmp_from_slice : bytes -> result string T }.

(** What [serde_json] documents to come back as it was.  A float need not: a
    NaN or an infinity is written as [null], and without the feature
    [float_roundtrip], which the program does not turn on, a finite one is
    read within an error; so a [Stats], and with it a node's heartbeat, is
    excluded.  Values nested deeper than [serde_json]'s recursion limit of 128
    are not read at all; a listing takes two levels for each of its own. *)
Fixpoint li_depth (i : SFTPListItem) : Z := 1 + foldr (fun j d => Z.max (li_depth j) d) 0 (li_items i).

Class JsonExact (T : Type) : Type := json_exact : T -> bool.
#[global] Instance web_json_exact : JsonExact WebFrameData.t := fun f =>
  match f with WebFrameData.SFTPListItems _ _ dir _ => li_depth dir <=? 60 | _ => true end.
#[global] Instance node_json_exact : JsonExact NodeFrameData.t := fun f =>
  match f with
  | NodeFrameData.Heartbeat _ _ => false
  | NodeFrameData.WebFrame frame _ => json_exact frame
  | _ => true
  end.

Class SerdeLaws (T : Type) `{Serde T, JsonExact T} : Prop := {
  json_from_to x bs : json_exact x = true -> json_to_vec x = Ok bs -> json_from_slice bs = Ok x;
  rmp_from_to x bs : rmp_to_vec x = Ok bs -> rmp_from_slice bs = Ok x }.

(** Whether a frame comes back through its codec. *)
Definition comes_back (f : Frame) : bool :=
  match encoding f, data f with
  | FrameEncoding.MessagePack, _ => true
  | FrameEncoding.JSON, FrameData.Web d => json_exact d
  | FrameEncoding.JSON, FrameData.Node d => json_exact d
  end.

Section frame.
Context `{!Serde WebFrameData.t, !Serde NodeFrameData.t}.

Definition to_vec {T} `{!Serde T} (e : FrameEncoding.t) (x : T) : result string bytes :=
  match e with FrameEncoding.JSON => json_to_vec x | FrameEncoding.MessagePack => rmp_to_vec x end.
Definition from_slice {T} `{!Serde T} (e : FrameEncoding.t) (bs : bytes) : result string T :=
  match e with FrameEncoding.JSON => json_from_slice bs | FrameEncoding.MessagePack => rmp_from_slice bs end.

#[local] Arguments to_vec : simpl never.
#[local] Arguments from_slice : simpl never.

(** The payload of a frame kind: 0 is web, 1 is node (native only). *)
Definition decode_payload (tg : Target) (e : FrameEncoding.t) (frame_kind : Z) (payload : bytes)
    : result string FrameData.t :=
  if frame_kind =? 0 then web ← from_slice e payload; Ok (FrameData.Web web)
  else if (frame_kind =? 1) && negb (wasm32 tg) then
    node ← from_slice e payload; Ok (FrameData.Node node)
  else Err "invalid frame type".

(** [Frame::decode].  [HEADER_SIZE + len] is computed at the width of
    [usize] and the slice panics when it ends before it starts. *)
Definition decode (tg : Target) (bs : bytes) : call (result string Frame) :=
  match bs with
  | b0 :: b1 :: b2 :: _frame_code :: b4 :: b5 :: b6 :: b7 :: rest =>
      match FrameEncoding.try_from (byte_val b1) with
      | Err e => Returns (Err e)
      | Ok enc =>
          let len := from_be_bytes b4 b5 b6 b7 in
          let stop := wrap (usize_bits tg) (HEADER_SIZE + len) in
          if Z.of_nat (length bs) <? stop then Returns (Err "corrupt frame data")
          else if stop <? HEADER_SIZE then Panics
          else
            let payload := take (Z.to_nat (stop - HEADER_SIZE)) rest in
            Returns (d ← decode_payload tg enc (byte_val b2) payload;
                     Ok {| version := byte_val b0; encoding := enc; data := d |})
      end
  | _ => Returns (Err "invalid frame size")
  end.

(** The payload bytes, the kind byte and the code byte of a frame. *)
Definition encode_parts (f : Frame) : result string (bytes * Z * Z) :=
  match data f with
  | FrameData.Web d => raw ← to_vec (encoding f) d; Ok (raw, 0, WebFrameData.code d)
  | FrameData.Node d => raw ← to_vec (encoding f) d; Ok (raw, 1, NodeFrameData.code d)
  end.

(** [Frame::encode]; the length field is [data.len() as u32]. *)
Definition encode (f : Frame) : result string bytes :=
  '(raw, kind, code) ← encode_parts f;
  Ok ([byte_of FRAME_VERSION; byte_of (FrameEncoding.as_u8 (encoding f)); byte_of kind; byte_of code]
        ++ to_be_bytes (Z.of_nat (length raw)) ++ raw).

(** [Frame::to_bytes] *)
Definition to_bytes (f : Frame) : result string bytes := encode f.

(** *** Lemmas *)

Lemma encoding_byte e : FrameEncoding.try_from (byte_val (byte_of (FrameEncoding.as_u8 e))) = Ok e.
Proof. destruct e; reflexivity. Qed.

Lemma decode_short tg bs : (length bs < 8)%nat -> decode tg bs = Returns (Err "invalid frame size").
Proof. intros H. do 8 (destruct bs as [|? bs]; [done|]). cbn in H. lia. Qed.

Lemma header_cases (bs : bytes) :
  (length bs < 8)%nat \/
  exists b0 b1 b2 b3 b4 b5 b6 b7 rest,
    bs = [b0; b1; b2; b3] ++ [b4; b5; b6; b7] ++ rest.
Proof.
  do 8 (destruct bs as [|? bs]; [left; cbn; lia|]). right. repeat eexists.
Qed.

Lemma decode_cons tg b0 b1 b2 b3 n rest :
  decode tg ([b0; b1; b2; b3] ++ to_be_bytes n ++ rest) =
  match FrameEncoding.try_from (byte_val b1) with
  | Err e => Returns (Err e)
  | Ok enc =>
      let stop := wrap (usize_bits tg) (HEADER_SIZE + wrap 32 n) in
      if Z.of_nat (8 + length rest) <? stop then Returns (Err "corrupt frame data")
      else if stop <? HEADER_SIZE then Panics
      else Returns (d ← decode_payload tg enc (byte_val b2) (take (Z.to_nat (stop - HEADER_SIZE)) rest);
                    Ok {| version := byte_val b0; encoding := enc; data := d |})
  end.
Proof.
  unfold decode, to_be_bytes; cbn [app]. rewrite from_to_be_bytes.
  destruct (FrameEncoding.try_from (byte_val b1)) as [enc|e]; done.
Qed.

Lemma decode_native_returns bs : exists r, decode native bs = Returns r.
Proof.
  destruct (header_cases bs) as [Hlt|(b0&b1&b2&b3&b4&b5&b6&b7&rest&->)].
  { rewrite decode_short by done. by eauto. }
  rewrite <-(to_from_be_bytes b4 b5 b6 b7), decode_cons.
  destruct (from_be_bytes_fits b4 b5 b6 b7) as [Hn0 Hn1]. set (n := from_be_bytes b4 b5 b6 b7) in *.
  rewrite (wrap_small 32) by done.
  rewrite wrap_small by (split; unfold HEADER_SIZE; cbn in *; lia).
  destruct (FrameEncoding.try_from _); [|by eauto]. cbn zeta. destruct (_ <? _); [by eauto|].
  unfold HEADER_SIZE. destruct (Z.ltb_spec (8 + n) 8); [lia|]. by eauto.
Qed.

Context `{!SerdeLaws WebFrameData.t, !SerdeLaws NodeFrameData.t}.

Lemma from_to_vec {T} `{!Serde T, !JsonExact T, !SerdeLaws T} e (x : T) bs :
  match e with FrameEncoding.JSON => json_exact x | FrameEncoding.MessagePack => true end = true ->
  to_vec e x = Ok bs -> from_slice e bs = Ok x.
Proof. destruct e; cbn; intros He; [by apply json_from_to|apply rmp_from_to]. Qed.

Lemma decode_encode_parts tg f raw kind code :
  (wasm32 tg = true -> exists d, data f = FrameData.Web d) -> comes_back f = true ->
  encode_parts f = Ok (raw, kind, code) ->
  decode_payload tg (encoding f) (byte_val (byte_of kind)) raw = Ok (data f).
Proof.
  intros Htg. unfold encode_parts, comes_back. destruct (data f) as [d|d]; rewrite result_bind_ok; intros Hback.
  - intros (r & Hr & [= -> <- <-]). unfold decode_payload. cbn.
    rewrite (from_to_vec _ _ _ Hback Hr). done.
  - destruct (wasm32 tg) eqn:Hw; [destruct (Htg eq_refl) as [? [=]]|].
    intros (r & Hr & [= -> <- <-]). unfold decode_payload. cbn. rewrite Hw. cbn.
    rewrite (from_to_vec _ _ _ Hback Hr). done.
Qed.

Lemma decode_encode (tg : Target) (f : Frame) (raw bs trailing : bytes) (kind code : Z) :
  (wasm32 tg = true -> exists d, data f = FrameData.Web d) -> comes_back f = true ->
  encode_parts f = Ok (raw, kind, code) ->
  Z.of_nat (length raw) < 2 ^ 32 ->
  HEADER_SIZE + Z.of_nat (length raw) < 2 ^ usize_bits tg ->
  encode f = Ok bs ->
  decode tg (bs ++ trailing) =
    Returns (Ok {| version := current_version; encoding := encoding f; data := data f |}).
Proof.
  intros Htg Hback Hparts Hlen Husize. unfold encode. rewrite Hparts. cbn [mbind result_bind].
  intros [= <-].
  change (?x :: ?y :: ?z :: ?c :: _) with ([x; y; z; c] ++ to_be_bytes (Z.of_nat (length raw)) ++ raw).
  change (([?x; ?y; ?z; ?c] ++ to_be_bytes ?n ++ raw) ++ trailing)
    with ([x; y; z; c] ++ to_be_bytes n ++ (raw ++ trailing)).
  rewrite decode_cons, encoding_byte. cbn zeta.
  rewrite (wrap_small 32) by (split; lia).
  rewrite wrap_small by (unfold HEADER_SIZE in *; split; lia).
  rewrite length_app. unfold HEADER_SIZE.
  destruct (Z.ltb_spec (Z.of_nat (8 + (length raw + length trailing))) (8 + Z.of_nat (length raw))); [lia|].
  destruct (Z.ltb_spec (8 + Z.of_nat (length raw)) 8); [lia|].
  replace (Z.to_nat (8 + Z.of_nat (length raw) - 8)) with (length raw) by lia.
  rewrite take_app_length. by rewrite (decode_encode_parts tg f raw kind code).
Qed.

(** The bytes of a whole frame, when there are less than [2^32] of them. *)
Lemma decode_encoded (tg : Target) (f : Frame) (bs : bytes) :
  (wasm32 tg = true -> exists d, data f = FrameData.Web d) -> comes_back f = true ->
  encode f = Ok bs -> Z.of_nat (length bs) < 2 ^ 32 -> (32 <= usize_bits tg) ->
  decode tg bs = Returns (Ok {| version := current_version; encoding := encoding f; data := data f |}).
Proof.
  intros Htg Hback Henc Hlen Hbits. pose proof Henc as H. unfold encode in H.
  apply result_bind_ok in H as ([[raw kind] code] & Hparts & [= Hbs]).
  assert (length bs = (8 + length raw)%nat) as Hl by (by rewrite <-Hbs).
  rewrite <-(app_nil_r bs). eapply decode_encode; [done|done|done|lia| |done].
  apply Z.lt_le_trans with (2 ^ 32); [unfold HEADER_SIZE; lia|by apply Z.pow_le_mono_r; lia].
Qed.

(** *** Properties *)

(** C17. Encoding a frame and decoding the bytes, even followed by others,
    gives the frame back with the current version, whenever the payload
    fits the 32-bit length field and the address space: every frame in
    MessagePack, the encoding that all three programs send, and in JSON those
    without floats, so every kind but a node's heartbeat. *)
Theorem frame_roundtrip (tg : Target) (f : Frame) (raw bs trailing : bytes) (kind code : Z) :
  (wasm32 tg = true -> exists d, data f = FrameData.Web d) -> comes_back f = true ->
  encode_parts f = Ok (raw, kind, code) ->
  Z.of_nat (length raw) < 2 ^ 32 ->
  HEADER_SIZE + Z.of_nat (length raw) < 2 ^ usize_bits tg ->
  encode f = Ok bs ->
  decode tg (bs ++ trailing) =
    Returns (Ok {| version := current_version; encoding := encoding f; data := data f |}).
Proof. apply decode_encode. Qed.

(** C18. On a 64-bit target [decode] never panics and accepts exactly the
    byte strings made of an eight-byte header, the announced number of
    payload bytes that the codec reads, and any trailing bytes: the version
    byte and the code byte are not checked, and nothing after the payload
    is read. *)
Theorem decode_native_spec (bs : bytes) :
  exists r, decode native bs = Returns r /\
    forall f, r = Ok f <->
      exists b0 b1 b2 b3 len payload rest d,
        bs = [b0; b1; b2; b3] ++ to_be_bytes len ++ payload ++ rest /\
        fits 32 len /\ Z.of_nat (length payload) = len /\
        FrameEncoding.try_from (byte_val b1) = Ok (encoding f) /\
        decode_payload native (encoding f) (byte_val b2) payload = Ok d /\
        f = {| version := byte_val b0; encoding := encoding f; data := d |}.
Proof.
  destruct (header_cases bs) as [Hlt|(b0&b1&b2&b3&b4&b5&b6&b7&rest&->)].
  { exists (Err "invalid frame size"). split; [by apply decode_short|].
    intros f; split; [done|]. intros (?&?&?&?&?&?&?&?&->&_). cbn in Hlt. lia. }
  rewrite <-(to_from_be_bytes b4 b5 b6 b7), decode_cons.
  pose proof (from_be_bytes_fits b4 b5 b6 b7) as Hn.
  set (n := from_be_bytes b4 b5 b6 b7) in *. rewrite (wrap_small 32) by done.
  rewrite wrap_small by (destruct Hn; split; unfold HEADER_SIZE; cbn in *; lia).
  assert (Hinj : forall b0' b1' b2' b3' len payload rest',
    [b0; b1; b2; b3] ++ to_be_bytes n ++ rest = [b0'; b1'; b2'; b3'] ++ to_be_bytes len ++ payload ++ rest' ->
    fits 32 len -> Z.of_nat (length payload) = len ->
    b0 = b0' /\ b1 = b1' /\ b2 = b2' /\ payload = take (Z.to_nat n) rest /\ n <= Z.of_nat (length rest)).
  { intros ??????? Heq Hlen Hpay. injection Heq as -> -> -> -> H4 H5 H6 H7 ->.
    assert (n = len) as -> by (apply to_be_bytes_inj; [done..|unfold to_be_bytes; congruence]).
    repeat split; [|rewrite length_app; lia].
    rewrite <-Hpay, Nat2Z.id. by rewrite take_app_length. }
  cbn zeta.
  destruct (FrameEncoding.try_from (byte_val b1)) as [enc|e] eqn:He; cycle 1.
  { exists (Err e). split; [done|]. intros f; split; [done|].
    intros (?&?&?&?&?&?&?&?&Heq&Hl&Hp&Henc&_).
    apply Hinj in Heq as (_&->&_); [congruence|done..]. }
  unfold HEADER_SIZE.
  destruct (Z.ltb_spec (Z.of_nat (8 + length rest)) (8 + n)) as [Hc|Hc].
  { exists (Err "corrupt frame data"). split; [done|]. intros f; split; [done|].
    intros (?&?&?&?&?&?&?&?&Heq&Hl&Hp&_).
    apply Hinj in Heq as (_&_&_&_&Hle); [lia|done..]. }
  destruct Hn as [Hn0 Hn1]. destruct (Z.ltb_spec (8 + n) 8); [lia|].
  replace (Z.to_nat (8 + n - 8)) with (Z.to_nat n) by lia.
  eexists; split; [done|]. intros f. rewrite result_bind_ok. split.
  - intros (d & Hd & [= <-]).
    exists b0, b1, b2, b3, n, (take (Z.to_nat n) rest), (drop (Z.to_nat n) rest), d.
    rewrite take_drop, length_take. cbn. repeat split; try done; lia.
  - intros (?&?&?&?&?&?&?&d&Heq&Hl&Hp&Henc&Hd&Hf).
    apply Hinj in Heq as (<-&<-&<-&->&_); [|done..].
    exists d. rewrite He in Henc. injection Henc as ->. split; [done|]. by rewrite <-Hf.
Qed.

(** The length field holds the payload length modulo [2^32]: the decoder
    hands the codec only that many bytes of the payload, so a payload of
    four gigabytes or more is cut, silently. *)
Theorem encode_length_wraps (f : Frame) (raw bs : bytes) (kind code : Z) :
  encode_parts f = Ok (raw, kind, code) ->
  encode f = Ok bs ->
  decode native bs =
    Returns (d ← decode_payload native (encoding f) (byte_val (byte_of kind))
                   (take (Z.to_nat (Z.of_nat (length raw) mod 2 ^ 32)) raw);
             Ok {| version := current_version; encoding := encoding f; data := d |}).
Proof.
  intros Hparts. unfold encode. rewrite Hparts. cbn [mbind result_bind].
  intros [= <-].
  change (?x :: ?y :: ?z :: ?c :: _) with ([x; y; z; c] ++ to_be_bytes (Z.of_nat (length raw)) ++ raw).
  rewrite decode_cons, encoding_byte. cbn zeta.
  pose proof (wrap_fits 32 (Z.of_nat (length raw)) ltac:(lia)) as Hn.
  unfold wrap in Hn. change (wrap 32 ?z) with (z mod 2 ^ 32).
  set (n := Z.of_nat (length raw) mod 2 ^ 32) in *. destruct Hn as [Hn0 Hn1].
  rewrite wrap_small by (split; unfold HEADER_SIZE; cbn in *; lia).
  assert (n <= Z.of_nat (length raw)) by (apply Z.mod_le; lia).
  unfold HEADER_SIZE.
  destruct (Z.ltb_spec (Z.of_nat (8 + length raw)) (8 + n)); [lia|].
  destruct (Z.ltb_spec (8 + n) 8); [lia|].
  by replace (8 + n - 8) with n by lia.
Qed.

(** C39. In the browser build, where [usize] has 32 bits, [decode] panics
    exactly on the frames with a known encoding whose announced length is
    within eight bytes of [2^32]: [HEADER_SIZE + len] wraps around. *)
Theorem decode_browser_panics_iff (bs : bytes) :
  decode browser bs = Panics <->
  exists b0 b1 b2 b3 len rest enc,
    bs = [b0; b1; b2; b3] ++ to_be_bytes len ++ rest /\
    FrameEncoding.try_from (byte_val b1) = Ok enc /\
    2 ^ 32 - HEADER_SIZE <= len < 2 ^ 32.
Proof.
  destruct (header_cases bs) as [Hlt|(b0&b1&b2&b3&b4&b5&b6&b7&rest&->)].
  { rewrite decode_short by done. split; [done|].
    intros (?&?&?&?&?&?&?&->&_). cbn in Hlt. lia. }
  rewrite <-(to_from_be_bytes b4 b5 b6 b7), decode_cons.
  pose proof (from_be_bytes_fits b4 b5 b6 b7) as Hn.
  set (n := from_be_bytes b4 b5 b6 b7) in *. rewrite (wrap_small 32 n) by done.
  assert (Hinj : forall b0' b1' b2' b3' len rest',
    [b0; b1; b2; b3] ++ to_be_bytes n ++ rest = [b0'; b1'; b2'; b3'] ++ to_be_bytes len ++ rest' ->
    fits 32 len -> b1 = b1' /\ n = len).
  { intros ?????? Heq Hlen. injection Heq as -> -> -> -> H4 H5 H6 H7 _. split; [done|].
    apply to_be_bytes_inj; [done..|unfold to_be_bytes; congruence]. }
  destruct Hn as [Hn0 Hn1]. unfold wrap. cbn [usize_bits browser].
  unfold HEADER_SIZE in *. cbn zeta. change (2 ^ 32) with 4294967296 in *.
  split.
  - destruct (FrameEncoding.try_from (byte_val b1)) as [enc|] eqn:He; [|done].
    case_match; [done|]. destruct (Z.ltb_spec ((8 + n) mod 4294967296) 8) as [Hs|]; [|done].
    intros _. exists b0, b1, b2, b3, n, rest, enc. repeat split; try done.
    destruct (Z.lt_ge_cases n (4294967296 - 8)); [|done].
    rewrite Z.mod_small in Hs by lia. lia.
  - intros (?&?&?&?&len&?&enc&Heq&He&Hlen).
    apply Hinj in Heq as [<- ->]; [|unfold fits; lia]. rewrite He.
    assert (Hm : (8 + len) mod 4294967296 = 8 + len - 4294967296).
    { symmetry. apply Z.mod_unique with 1; lia. }
    rewrite Hm.
    destruct (Z.ltb_spec (Z.of_nat (8 + length rest)) (8 + len - 4294967296)); [lia|].
    destruct (Z.ltb_spec (8 + len - 4294967296) 8); [done|lia].
Qed.
End frame.

(** ** Witnesses *)

Module FrameExample.
(** A codec that knows two frames, and that spoils a heartbeat's statistics
    in JSON. *)
Definition no_stats : Stats :=
  {| last_refreshed_secs := 0; proc_id := ""; proc_threads := 0; proc_cpu := 0; proc_mem_bytes := 0;
     proc_uptime_secs := 0; host_name := ""; host_ip := ""; host_mac := ""; host_cpu := 0; host_mem_used_bytes := 0;
     host_mem_total_bytes := 0; host_uptime_secs := 0; host_load_average := (0, 0, 0); host_os_info := "";
     host_connections := 0; host_processes := 0 |}.
#[local] Instance web_serde : Serde WebFrameData.t := {|
  json_to_vec x := match x with WebFrameData.Heartbeat => Ok [Byte.x00] | _ => Err "unsupported" end;
  json_from_slice bs := match bs with [Byte.x00] => Ok WebFrameData.Heartbeat | _ => Err "bad payload" end;
  rmp_to_vec x := match x with WebFrameData.Heartbeat => Ok [Byte.x01] | _ => Err "unsupported" end;
  rmp_from_slice bs := match bs with [Byte.x01] => Ok WebFrameData.Heartbeat | _ => Err "bad payload" end |}.
#[local] Instance node_serde : Serde NodeFrameData.t := {|
  json_to_vec x := match x with NodeFrameData.Heartbeat _ _ => Ok [Byte.x02] | _ => Err "unsupported" end;
  json_from_slice bs := match bs with [Byte.x02] => Ok (NodeFrameData.Heartbeat no_stats 0) | _ => Err "bad payload" end;
  rmp_to_vec _ := Err "unsupported"; rmp_from_slice _ := Err "bad payload" |}.
#[local] Instance web_laws : SerdeLaws WebFrameData.t.
Proof. split; intros [] bs; cbn; try discriminate; [intros _ [= <-]|intros [= <-]]; done. Qed.
#[local] Instance node_laws : SerdeLaws NodeFrameData.t.
Proof. split; intros [] bs; cbn; discriminate. Qed.

Definition heartbeat : Frame := from_web WebFrameData.Heartbeat.
Definition heartbeat_bytes : bytes :=
  [Byte.x01; Byte.x01; Byte.x00; Byte.x01; Byte.x00; Byte.x00; Byte.x00; Byte.x01; Byte.x01].
Definition json_heartbeat : Frame :=
  {| version := current_version; encoding := FrameEncoding.JSON; data := FrameData.Web WebFrameData.Heartbeat |}.
Definition json_heartbeat_bytes : bytes :=
  [Byte.x01; Byte.x00; Byte.x00; Byte.x01; Byte.x00; Byte.x00; Byte.x00; Byte.x01; Byte.x00].

Lemma frame_roundtrip_witness :
  encode heartbeat = Ok heartbeat_bytes /\
  decode native (heartbeat_bytes ++ [Byte.xff]) = Returns (Ok heartbeat) /\
  encode json_heartbeat = Ok json_heartbeat_bytes /\
  decode browser json_heartbeat_bytes = Returns (Ok json_heartbeat).
Proof.
  split; [vm_compute; reflexivity|]. split; [|split; [vm_compute; reflexivity|]].
  - apply (frame_roundtrip native heartbeat [Byte.x01] heartbeat_bytes [Byte.xff] 0 1);
      first [discriminate | reflexivity | done].
  - rewrite <-(app_nil_r json_heartbeat_bytes).
    apply (frame_roundtrip browser json_heartbeat [Byte.x00] json_heartbeat_bytes [] 0 1);
      first [reflexivity | done | by eexists].
Defined.

Lemma encode_length_wraps_witness :
  decode native heartbeat_bytes = Returns (Ok heartbeat).
Proof.
  rewrite (encode_length_wraps heartbeat [Byte.x01] heartbeat_bytes 0 1);
    vm_compute; reflexivity.
Defined.
End FrameExample.
