(* ===== verification/Token.v ===== *)
(** * Access tokens: [common/src/token.rs] and the bearer header

    Parsing of personal access tokens, masking for logs, and the
    [Authorization] header reader that [server/src/node.rs] and
    [server/src/node_auth.rs] both define. *)

From S2P Require Import Prelude RustStr.

(** The headers of a request, by lower-case name, as [HeaderValue::to_str]
    reads them: [None] for a value that is not visible ASCII. *)
Definition HeaderMap : Type := gmap string (option string).

Definition extract_creds (token : string) : result string (string * string) :=
  let token := Str.trim token in
  if Str.is_empty token then Err "token is required"
  else if negb (Str.starts_with token "pat_") then Err "invalid token format"
  else
    match Str.strip_prefix "pat_" token with
    | None => Err "broken pat token format"
    | Some pat_body =>
        match Str.split_once "."%char pat_body with
        | Some (token_id, secret) => Ok (token_id, secret)
        | None => Err "failed to extract required token part"
        end
    end.

Definition mask_after_10 (s : string) : string :=
  let '(first_10, rest) := Str.take_chars 10 s in
  first_10 +:+ Str.repeat "*"%char (Str.char_count rest).

Definition extract_bearer_token (headers : HeaderMap) : result string string :=
  header ← ok_or "missing authorization header" (headers !! "authorization");
  header ← ok_or "invalid authorization header" header;
  token ← ok_or "expected Bearer token" (Str.strip_prefix "Bearer " header);
  let token := Str.trim token in
  if Str.is_empty token then Err "bearer token is empty" else Ok token.

Lemma is_empty_spec s : Str.is_empty s = true <-> s = "".
Proof. destruct s; done. Qed.

(** [extract_creds] accepts exactly the tokens that, trimmed, are [pat_],
    an identifier without a dot, a dot, and a secret, and returns the two
    parts; the secret may contain further dots. *)
Theorem extract_creds_iff (token token_id secret : string) :
  extract_creds token = Ok (token_id, secret) <->
  Str.trim token = "pat_" +:+ token_id +:+ String "."%char secret /\ Str.mem "."%char token_id = false.
Proof.
  unfold extract_creds. cbn zeta. set (t := Str.trim token).
  destruct (Str.strip_prefix "pat_" t) as [body|] eqn:Hp.
  - unfold Str.starts_with. rewrite Hp. apply Str.strip_prefix_spec in Hp.
    rewrite Hp. cbn [Str.is_empty negb].
    transitivity (Str.split_once "."%char body = Some (token_id, secret)).
    { change (Str.is_empty ("pat_" +:+ body)) with false. cbv iota.
      destruct (Str.split_once "."%char body) as [[]|]; split; congruence. }
    rewrite Str.split_once_spec. split; intros [H Hm]; split; try done.
    + by rewrite H.
    + by injection H.
  - split.
    + unfold Str.starts_with. rewrite Hp. by destruct (Str.is_empty t).
    + intros [Ht _]. apply Str.strip_prefix_spec in Ht. congruence.
Qed.

(** [mask_after_10] keeps a prefix of at most ten characters and replaces
    every other character by a star, so it hides all but ten characters and
    reveals the number of characters. *)
Theorem mask_after_10_spec (s : string) :
  exists shown hidden,
    s = shown +:+ hidden /\
    mask_after_10 s = shown +:+ Str.repeat "*"%char (Str.char_count hidden) /\
    (Str.char_count shown <= 10)%nat /\
    Str.char_count (mask_after_10 s) = Str.char_count s.
Proof.
  unfold mask_after_10. destruct (Str.take_chars 10 s) as [l r] eqn:H.
  exists l, r. pose proof (Str.take_chars_app _ _ _ _ H) as Hs.
  pose proof (Str.take_chars_count _ _ _ _ H). repeat split; [done..|].
  rewrite Hs, !Str.char_count_app, Str.char_count_repeat; done.
Qed.

Lemma extract_creds_iff_witness :
  extract_creds " pat_abc123.def.456 " = Ok ("abc123", "def.456").
Proof. apply extract_creds_iff. split; vm_compute; reflexivity. Defined.

(** The reader of the header accepts the scheme [Bearer] only, and trims. *)
Lemma extract_bearer_token_ok h t :
  extract_bearer_token h = Ok t <->
  exists raw, h !! "authorization" = Some (Some ("Bearer " +:+ raw)) /\ Str.trim raw = t /\ t <> "".
Proof.
  unfold extract_bearer_token. rewrite result_bind_ok. setoid_rewrite ok_or_ok. split.
  - intros (o & Ho & H). apply result_bind_ok in H as (hd & ->%ok_or_ok & H).
    apply result_bind_ok in H as (raw & ->%ok_or_ok%Str.strip_prefix_spec & H).
    exists raw. split; [done|]. destruct (Str.is_empty (Str.trim raw)) eqn:He; [done|].
    injection H as <-. split; [done|]. intros Hn. rewrite Hn in He. done.
  - intros (raw & Hh & <- & Hne). exists (Some ("Bearer " +:+ raw)). split; [done|].
    cbn [ok_or mbind result_bind].
    assert (Str.strip_prefix "Bearer " ("Bearer " +:+ raw) = Some raw) as ->
      by (by apply Str.strip_prefix_spec).
    cbn [ok_or mbind result_bind].
    destruct (Str.is_empty (Str.trim raw)) eqn:He; [|done].
    apply is_empty_spec in He. congruence.
Qed.
