(* ===== verification/ClientIp.v ===== *)
(** * The address of a client: [common/src/ip.rs]

    Which address the server records for a peer behind proxies, with the
    parser of [std::net] that the code calls on each candidate. *)

From S2P Require Import Prelude RustStr Token.

#[local] Arguments String.append : simpl nomatch.

Inductive IpAddr : Type :=
| V4 (a b c d : Z)
| V6 (groups : list Z).

#[global] Instance ip_addr_eq_dec : EqDecision IpAddr.
Proof. solve_decision. Defined.

(** ** [std::net]: the parser of addresses

    A reader takes the rest of the input and, when it succeeds, gives its
    value and what is left. *)

Definition reader (A : Type) : Type := string -> option (A * string).

(** [char::to_digit(radix)] for the radixes 10 and 16. *)
Definition to_digit (radix : Z) (c : ascii) : option Z :=
  let n := Z.of_N (N_of_ascii c) in
  let d := if (48 <=? n) && (n <=? 57) then Some (n - 48)
           else if (97 <=? n) && (n <=? 102) then Some (n - 87)
           else if (65 <=? n) && (n <=? 70) then Some (n - 55) else None in
  d ← d; if d <? radix then Some d else None.

Fixpoint read_digits (radix : Z) (s : string) : list Z * string :=
  match s with
  | EmptyString => ([], s)
  | String c s' =>
      match to_digit radix c with
      | Some d => let '(ds, rest) := read_digits radix s' in (d :: ds, rest)
      | None => ([], s)
      end
  end.

Definition number_of (radix : Z) (ds : list Z) : Z := foldl (fun n d => n * radix + d) 0 ds.

(** [read_number], for a type whose largest value is [max]. *)
Definition read_number (radix : Z) (max_digits : option nat) (allow_zero_prefix : bool) (max : Z) : reader Z := fun s =>
  let '(ds, rest) := read_digits radix s in
  let too_long := match max_digits with Some m => (m <? length ds)%nat | None => false end in
  let zero_prefix := match ds with 0 :: _ :: _ => true | _ => false end in
  let n := number_of radix ds in
  if too_long || (length ds =? 0)%nat || (negb allow_zero_prefix && zero_prefix) || (max <? n) then None
  else Some (n, rest).

Definition read_given_char (c : ascii) (s : string) : option string :=
  match s with String a s' => if Ascii.eqb a c then Some s' else None | EmptyString => None end.

(** [read_separator(sep, index, inner)] *)
Definition read_separator {A} (sep : ascii) (index : nat) (inner : reader A) : reader A := fun s =>
  match index with
  | O => inner s
  | S _ => s' ← read_given_char sep s; inner s'
  end.

Definition read_octet : reader Z := read_number 10 (Some 3%nat) false 255.

Definition read_ipv4_addr : reader (Z * Z * Z * Z) := fun s =>
  '(a, s) ← read_separator "." 0 read_octet s;
  '(b, s) ← read_separator "." 1 read_octet s;
  '(c, s) ← read_separator "." 2 read_octet s;
  '(d, s) ← read_separator "." 3 read_octet s;
  Some (a, b, c, d, s).

(** At most [n] groups from index [i] on, and whether they end in an embedded
    IPv4 address. *)
Fixpoint read_groups (n i : nat) (s : string) : list Z * bool * string :=
  match n with
  | O => ([], false, s)
  | S n' =>
      match (if (1 <=? n')%nat then read_separator ":" i read_ipv4_addr s else None) with
      | Some (a, b, c, d, s') => ([a * 256 + b; c * 256 + d], true, s')
      | None =>
          match read_separator ":" i (read_number 16 (Some 4%nat) true 65535) s with
          | Some (g, s') => let '(gs, v4, s'') := read_groups n' (S i) s' in (g :: gs, v4, s'')
          | None => ([], false, s)
          end
      end
  end.

Definition read_ipv6_addr : reader (list Z) := fun s =>
  let '(head, head_ipv4, s) := read_groups 8 0 s in
  if (length head =? 8)%nat then Some (head, s)
  else if (head_ipv4 : bool) then None
  else
    s ← read_given_char ":" s;
    s ← read_given_char ":" s;
    let '(tail, _, s) := read_groups (7 - length head) 0 s in
    Some (head ++ replicate (8 - length head - length tail) 0 ++ tail, s).

Definition read_ip_addr : reader IpAddr := fun s =>
  match read_ipv4_addr s with
  | Some (a, b, c, d, s') => Some (V4 a b c d, s')
  | None => '(groups, s') ← read_ipv6_addr s; Some (V6 groups, s')
  end.

Definition read_port : reader Z := fun s => s ← read_given_char ":" s; read_number 10 None true 65535 s.

Definition read_scope_id : reader Z := fun s => s ← read_given_char "%" s; read_number 10 None true U32_MAX s.

(** A [SocketAddr], of which only the address is used. *)
Definition read_socket_addr : reader IpAddr := fun s =>
  match ('(a, b, c, d, s') ← read_ipv4_addr s; '(_, s'') ← read_port s'; Some (V4 a b c d, s'')) with
  | Some r => Some r
  | None =>
      s ← read_given_char "[" s;
      '(groups, s) ← read_ipv6_addr s;
      let s := match read_scope_id s with Some (_, s') => s' | None => s end in
      s ← read_given_char "]" s;
      '(_, s) ← read_port s;
      Some (V6 groups, s)
  end.

(** [s.parse()]: everything has to be read. *)
Definition parse_with {A} (read : reader A) (s : string) : option A :=
  '(a, rest) ← read s; if Str.is_empty rest then Some a else None.

(** ** [ip.rs] *)

(** [trim_matches] for a set of ASCII characters. *)
Fixpoint drop_while (p : ascii -> bool) (s : string) : string :=
  match s with
  | EmptyString => EmptyString
  | String a s' => if p a then drop_while p s' else s
  end.
Definition trim_matches (p : ascii -> bool) (s : string) : string :=
  Str.rev (drop_while p (Str.rev (drop_while p s))).

Definition parse_ip_token (raw : string) : option IpAddr :=
  if Str.is_empty raw || String.eqb (Str.to_ascii_lowercase raw) "unknown" then None
  else
    let without_brackets := trim_matches (fun c => Ascii.eqb c "[" || Ascii.eqb c "]") raw in
    match parse_with read_ip_addr without_brackets with
    | Some ip => Some ip
    | None =>
        match parse_with read_socket_addr raw with
        | Some ip => Some ip
        | None => parse_with read_socket_addr without_brackets
        end
    end.

Fixpoint find_map {A B} (f : A -> option B) (l : list A) : option B :=
  match l with
  | [] => None
  | x :: l => match f x with Some b => Some b | None => find_map f l end
  end.

(** A header's text, when it is visible ASCII. *)
Definition header_text (name : string) (headers : HeaderMap) : option string := headers !! name ≫= id.

Definition parse_x_forwarded_for (headers : HeaderMap) : option IpAddr :=
  value ← header_text "x-forwarded-for" headers;
  find_map parse_ip_token (map Str.trim (Str.split "," value)).

Definition parse_for_part (part : string) : option IpAddr :=
  raw ← Str.strip_prefix "for=" (Str.trim part);
  parse_ip_token (trim_matches (Ascii.eqb (ascii_of_N 34)) (Str.trim raw)).

Definition parse_forwarded_for (headers : HeaderMap) : option IpAddr :=
  value ← header_text "forwarded" headers;
  find_map (fun segment => find_map parse_for_part (Str.split ";" segment)) (Str.split "," value).

Definition resolve_client_ip (headers : HeaderMap) (fallback : IpAddr) : IpAddr :=
  match parse_x_forwarded_for headers with
  | Some ip => ip
  | None => match parse_forwarded_for headers with Some ip => ip | None => fallback end
  end.

(** ** Facts *)

(** What the headers offer, left to right: the entries of [X-Forwarded-For],
    then the [for=] parameters of [Forwarded]. *)
Definition candidates (headers : HeaderMap) : list (option IpAddr) :=
  match header_text "x-forwarded-for" headers with
  | Some value => map (fun entry => parse_ip_token (Str.trim entry)) (Str.split "," value)
  | None => []
  end ++
  match header_text "forwarded" headers with
  | Some value => map parse_for_part (concat (map (Str.split ";") (Str.split "," value)))
  | None => []
  end.

Lemma find_map_head {A B} (f : A -> option B) l : find_map f l = head (omap f l).
Proof. induction l as [|x l IH]; cbn; [done|]. by destruct (f x). Qed.

Lemma find_map_concat {A B} (f : A -> option B) ls : find_map (find_map f) ls = find_map f (concat ls).
Proof.
  induction ls as [|l ls IH]; cbn; [done|]. rewrite IH. clear IH.
  induction l as [|x l IH]; cbn; [done|]. by destruct (f x).
Qed.

Lemma find_map_map {A B C} (f : B -> option C) (g : A -> B) l : find_map f (map g l) = find_map (fun x => f (g x)) l.
Proof. induction l as [|x l IH]; cbn; [done|]. by rewrite IH. Qed.

Lemma head_omap_id {A B} (f : A -> option B) l : head (omap id (map f l)) = find_map f l.
Proof. induction l as [|x l IH]; cbn; [done|]. destruct (f x); cbn; [done|]. exact IH. Qed.

Lemma omap_app {A B} (f : A -> option B) l k : omap f (l ++ k) = omap f l ++ omap f k.
Proof. induction l as [|x l IH]; cbn; [done|]. destruct (f x); cbn; by rewrite IH. Qed.

Lemma head_app {A} (l k : list A) : head (l ++ k) = match head l with Some x => Some x | None => head k end.
Proof. by destruct l. Qed.

(** *** Decimal numbers *)

Lemma read_digits_app radix s ds rest :
  read_digits radix s = (ds, "") ->
  match rest with String c _ => to_digit radix c = None | "" => True end ->
  read_digits radix (s +:+ rest) = (ds, rest).
Proof.
  revert ds. induction s as [|c s IH]; intros ds; cbn.
  - intros [= <-] Hr. destruct rest as [|c rest]; [done|]. cbn. by rewrite Hr.
  - destruct (to_digit radix c) as [d|]; [|done]. destruct (read_digits radix s) as [ds' r].
    intros [= <- ->] Hr. by rewrite (IH ds').
Qed.

(** The text of [n] is read back as [n] by [read_number radix m z max]. *)
Definition reads_back (radix : Z) (show : Z -> string) (m : option nat) (z : bool) (max : Z) (n : Z) : bool :=
  match read_digits radix (show n), read_number radix m z max (show n) with
  | (_, EmptyString), Some (n', EmptyString) => n =? n'
  | _, _ => false
  end.

(** A check of all numbers in [lo, lo + 2^depth). *)
Fixpoint all_in (f : Z -> bool) (depth : nat) (lo : Z) : bool :=
  match depth with
  | O => f lo
  | S d => all_in f d lo && all_in f d (lo + 2 ^ Z.of_nat d)
  end.

Lemma all_in_spec f depth lo n : all_in f depth lo = true -> lo <= n < lo + 2 ^ Z.of_nat depth -> f n = true.
Proof.
  revert lo. induction depth as [|d IH]; intros lo; cbn [all_in].
  - intros Hf Hn. by replace n with lo by (cbn in Hn; lia).
  - intros [H1 H2]%andb_true_iff Hn. rewrite Nat2Z.inj_succ, Z.pow_succ_r in Hn by lia.
    destruct (Z.lt_ge_cases n (lo + 2 ^ Z.of_nat d)); [apply (IH lo)|apply (IH (lo + 2 ^ Z.of_nat d))]; auto; lia.
Qed.

Lemma read_number_text radix show m z max depth n rest :
  all_in (reads_back radix show m z max) depth 0 = true -> 0 <= n < 2 ^ Z.of_nat depth ->
  match rest with String c _ => to_digit radix c = None | "" => True end ->
  read_number radix m z max (show n +:+ rest) = Some (n, rest).
Proof.
  intros Hall Hn Hr. pose proof (all_in_spec _ _ _ n Hall ltac:(lia)) as Hb. unfold reads_back, read_number in *.
  destruct (read_digits radix (show n)) as [ds r] eqn:Hds.
  destruct r; [|done]. rewrite (read_digits_app _ _ ds) by done.
  destruct (_ || _); [done|]. f_equal. by apply Z.eqb_eq in Hb as <-.
Qed.

Lemma octets : all_in (reads_back 10 pretty (Some 3%nat) false 255) 8 0 = true.
Proof. vm_compute. reflexivity. Qed.

Definition octet (n : Z) : Prop := 0 <= n < 256.

Lemma read_octet_pretty n rest :
  octet n -> match rest with String c _ => to_digit 10 c = None | "" => True end ->
  read_octet (pretty n +:+ rest) = Some (n, rest).
Proof. intros Hn. apply (read_number_text 10 pretty _ _ _ 8); [apply octets|exact Hn]. Qed.

(** [Display] of an IPv4 address *)
Definition ipv4_text (a b c d : Z) : string :=
  pretty a +:+ "." +:+ pretty b +:+ "." +:+ pretty c +:+ "." +:+ pretty d.

Lemma read_ipv4_text a b c d rest :
  octet a -> octet b -> octet c -> octet d ->
  match rest with String ch _ => to_digit 10 ch = None | "" => True end ->
  read_ipv4_addr (ipv4_text a b c d +:+ rest) = Some (a, b, c, d, rest).
Proof.
  intros Ha Hb Hc Hd Hr. unfold ipv4_text, read_ipv4_addr, read_separator. rewrite !Str.app_assoc.
  rewrite read_octet_pretty by done. cbn. rewrite ?Str.app_assoc, read_octet_pretty by done. cbn.
  rewrite ?Str.app_assoc, read_octet_pretty by done. cbn. by rewrite read_octet_pretty.
Qed.

(** *** Characters of a text *)

Fixpoint all_chars (p : ascii -> bool) (s : string) : bool :=
  match s with EmptyString => true | String a s' => p a && all_chars p s' end.

Lemma all_chars_app p s t : all_chars p (s +:+ t) = all_chars p s && all_chars p t.
Proof. induction s as [|a s IH]; cbn; [done|]. by rewrite IH, andb_assoc. Qed.

Lemma all_chars_rev p s : all_chars p (Str.rev s) = all_chars p s.
Proof.
  unfold Str.rev. enough (forall acc, all_chars p (Str.rev_append s acc) = all_chars p s && all_chars p acc) as H.
  { rewrite H. apply andb_true_r. }
  induction s as [|a s IH]; intros acc; cbn; [done|]. rewrite IH. cbn.
  by destruct (p a), (all_chars p s), (all_chars p acc).
Qed.

Lemma trim_matches_id p s : all_chars (fun c => negb (p c)) s = true -> trim_matches p s = s.
Proof.
  assert (forall s, all_chars (fun c => negb (p c)) s = true -> drop_while p s = s) as Hd.
  { intros [|a s']; cbn; [done|]. intros [Ha _]%andb_true_iff. apply negb_true_iff in Ha. by rewrite Ha. }
  intros Hs. unfold trim_matches. rewrite (Hd s) by done.
  rewrite Hd by by rewrite all_chars_rev. apply Str.rev_involutive.
Qed.

(** The characters of a dotted address. *)
Definition address_char (c : ascii) : bool :=
  match to_digit 10 c with Some _ => true | None => Ascii.eqb c "." end.

Lemma octet_chars n : octet n -> all_chars address_char (pretty n) = true.
Proof.
  assert (all_in (fun n => all_chars address_char (pretty n)) 8 0 = true) as Hall by (vm_compute; reflexivity).
  intros Hn. apply (all_in_spec _ 8 0 n Hall). exact Hn.
Qed.

Lemma all_chars_mono (p q : ascii -> bool) s :
  (forall c, p c = true -> q c = true) -> all_chars p s = true -> all_chars q s = true.
Proof. intros Hpq. induction s as [|a s IH]; cbn; [done|]. rewrite !andb_true_iff. naive_solver. Qed.

Lemma address_text a b c d :
  octet a -> octet b -> octet c -> octet d -> all_chars address_char (ipv4_text a b c d) = true.
Proof.
  intros Ha Hb Hc Hd. unfold ipv4_text. repeat (rewrite all_chars_app; cbn). by rewrite !octet_chars.
Qed.

Lemma not_unknown s :
  match s with String a _ => address_char a = true | "" => True end ->
  String.eqb (Str.to_ascii_lowercase s) "unknown" = false.
Proof.
  destruct s as [|a s]; [done|]. cbn. intros Ha.
  destruct (Ascii.eqb_spec (Str.ascii_lower a) "u") as [Hu|]; [|done]. exfalso. revert Ha Hu.
  destruct a as [[] [] [] [] [] [] [] []]; vm_compute; discriminate.
Qed.

Lemma not_bracket c : address_char c || Ascii.eqb c ":" = true -> negb (Ascii.eqb c "[" || Ascii.eqb c "]") = true.
Proof. destruct c as [[] [] [] [] [] [] [] []]; vm_compute; done. Qed.

(** The recorded address is the first one that can be read in the entries
    of [X-Forwarded-For] followed by the [for=] parameters of [Forwarded],
    left to right; entries that cannot be read are skipped, the left-most one
    included, and the address of the peer is used only when none can. *)
Theorem resolve_first_candidate headers fallback :
  resolve_client_ip headers fallback = default fallback (head (omap id (candidates headers))).
Proof.
  unfold resolve_client_ip, parse_x_forwarded_for, parse_forwarded_for, candidates.
  rewrite omap_app, head_app.
  assert (forall name (g : string -> list (option IpAddr)) (f : string -> option IpAddr),
    (forall v, f v = head (omap id (g v))) ->
    (v ← header_text name headers; f v) =
    head (omap id (match header_text name headers with Some v => g v | None => [] end))) as Hg.
  { intros name g f Hf. by destruct (header_text name headers); cbn. }
  rewrite (Hg _ (fun value => map (fun entry => parse_ip_token (Str.trim entry)) (Str.split "," value))).
  2: { intros v. by rewrite head_omap_id, find_map_map. }
  rewrite (Hg _ (fun value => map parse_for_part (concat (map (Str.split ";") (Str.split "," value))))).
  2: { intros v. rewrite head_omap_id, <-find_map_concat, find_map_map. done. }
  destruct (head _); [done|]. by destruct (head _).
Qed.

(** Every IPv4 address is recognised from its text, alone or with a port,
    and no other reading is tried. *)
Theorem ipv4_recognised a b c d port n :
  octet a -> octet b -> octet c -> octet d ->
  parse_with (read_number 10 None true 65535) port = Some n -> all_chars address_char port = true ->
  parse_ip_token (ipv4_text a b c d) = Some (V4 a b c d) /\
  parse_ip_token (ipv4_text a b c d +:+ ":" +:+ port) = Some (V4 a b c d).
Proof.
  intros Ha Hb Hc Hd Hport Hchars. pose proof (address_text a b c d Ha Hb Hc Hd) as Htext.
  pose proof (fun rest => read_ipv4_text a b c d rest Ha Hb Hc Hd) as Hread.
  destruct (ipv4_text a b c d) as [|ch t] eqn:Ht.
  { specialize (Hread "" I). cbn in Hread. unfold read_ipv4_addr in Hread. discriminate. }
  pose proof Htext as Hhead. cbn in Hhead. apply andb_true_iff in Hhead as [Hhead _].
  assert (forall s, all_chars (fun c => address_char c || Ascii.eqb c ":") s = true ->
    trim_matches (fun c => Ascii.eqb c "[" || Ascii.eqb c "]") s = s) as Htrim.
  { intros s Hs. apply trim_matches_id. eapply all_chars_mono, Hs. apply not_bracket. }
  assert (forall s, all_chars address_char s = true ->
    all_chars (fun c => address_char c || Ascii.eqb c ":") s = true) as Hweak.
  { intros s. apply all_chars_mono. by intros ? ->. }
  unfold parse_ip_token. split.
  - rewrite not_unknown by done. cbn [Str.is_empty orb]. rewrite Htrim by by apply Hweak.
    specialize (Hread "" I). rewrite Str.app_nil_r in Hread.
    unfold parse_with at 1, read_ip_addr. by rewrite Hread.
  - cbn [Str.is_empty orb String.append]. rewrite not_unknown by done.
    rewrite Htrim; cycle 1.
    { change (String ch (t +:+ String ":" port)) with (String ch t +:+ (":" +:+ port)).
      rewrite all_chars_app, Hweak by done. cbn. by apply Hweak. }
    specialize (Hread (":" +:+ port) eq_refl).
    change (String ch t +:+ ":" +:+ port) with (String ch (t +:+ String ":" port)) in Hread.
    unfold parse_with at 1, read_ip_addr. rewrite Hread. cbn.
    unfold parse_with at 1, read_socket_addr. rewrite Hread. unfold read_port. cbn.
    unfold parse_with in Hport. destruct (read_number 10 None true 65535 port) as [[n' rest]|]; [|done]. cbn in *.
    by destruct rest.
Qed.
