(* ===== verification/IpText.v ===== *)
(** * Addresses as text

    [Display] of [std::net::IpAddr], which the server uses when it records the
    address of a peer, and its inverse, the parser of [ClientIp]: an address
    that one server writes is the one another server reads. *)

From S2P Require Import Prelude RustStr Token ClientIp.

#[local] Arguments String.append : simpl nomatch.

(** ** [Display] *)

Definition hex_digit (d : Z) : ascii := ascii_of_N (Z.to_N (if d <? 10 then 48 + d else 87 + d)).

(** [{:x}] of a number below [16 ^ fuel]. *)
Fixpoint hex_onto (fuel : nat) (n : Z) (acc : string) : string :=
  match fuel with
  | O => acc
  | S fuel =>
      let acc := String (hex_digit (n mod 16)) acc in
      if n / 16 =? 0 then acc else hex_onto fuel (n / 16) acc
  end.
Definition lower_hex (n : Z) : string := hex_onto 4 n "".

Record Span : Type := { start : nat; len : nat }.
Definition no_span : Span := {| start := 0; len := 0 |}.

(** The first longest run of zeros, segment [i] being the next. *)
Fixpoint zeroes_from (i : nat) (segments : list Z) (longest current : Span) : Span :=
  match segments with
  | [] => longest
  | segment :: segments =>
      if segment =? 0 then
        let current := {| start := if (len current =? 0)%nat then i else start current; len := S (len current) |} in
        let longest := if (len longest <? len current)%nat then current else longest in
        zeroes_from (S i) segments longest current
      else zeroes_from (S i) segments longest no_span
  end.
Definition zeroes (segments : list Z) : Span := zeroes_from 0 segments no_span no_span.

Fixpoint colon_each (segments : list Z) : string :=
  match segments with [] => "" | g :: segments => ":" +:+ lower_hex g +:+ colon_each segments end.

Definition fmt_subslice (chunk : list Z) : string :=
  match chunk with [] => "" | first :: tail => lower_hex first +:+ colon_each tail end.

Definition to_ipv4_mapped (segments : list Z) : option (Z * Z * Z * Z) :=
  match segments with
  | [0; 0; 0; 0; 0; 65535; g; h] => Some (g / 256, g mod 256, h / 256, h mod 256)
  | _ => None
  end.

Definition ipv6_text (segments : list Z) : string :=
  match to_ipv4_mapped segments with
  | Some (a, b, c, d) => "::ffff:" +:+ ipv4_text a b c d
  | None =>
      let z := zeroes segments in
      if (1 <? len z)%nat then
        fmt_subslice (take (start z) segments) +:+ "::" +:+ fmt_subslice (drop (start z + len z) segments)
      else fmt_subslice segments
  end.

Definition ip_to_string (ip : IpAddr) : string :=
  match ip with V4 a b c d => ipv4_text a b c d | V6 segments => ipv6_text segments end.

Definition segment (g : Z) : Prop := 0 <= g < 65536.

(** The values of the type. *)
Definition valid_ip (ip : IpAddr) : Prop :=
  match ip with
  | V4 a b c d => octet a /\ octet b /\ octet c /\ octet d
  | V6 segments => length segments = 8%nat /\ Forall segment segments
  end.

Example ipv6_examples :
  map ipv6_text [[0; 0; 0; 0; 0; 0; 0; 1]; [0; 0; 0; 0; 0; 0; 0; 0]; [8193; 3512; 0; 0; 1; 0; 0; 1];
                 [65152; 0; 1; 0; 2; 0; 3; 0]; [0; 0; 0; 0; 0; 65535; 49152; 513]] =
    ["::1"; "::"; "2001:db8::1:0:0:1"; "fe80:0:1:0:2:0:3:0"; "::ffff:192.0.2.1"].
Proof. vm_compute. reflexivity. Qed.

(** ** Reading the segments back *)

Definition hex_char (c : ascii) : bool := match to_digit 16 c with Some _ => true | None => false end.

Definition hex_text (ds : list Z) : string := foldr (fun d s => String (hex_digit d) s) "" ds.

Lemma read_hex_digit d : 0 <= d < 16 -> to_digit 16 (hex_digit d) = Some d.
Proof.
  assert (all_in (fun d => bool_decide (to_digit 16 (hex_digit d) = Some d)) 4 0 = true) as Hall by (vm_compute; reflexivity).
  intros Hd. by eapply bool_decide_eq_true, (all_in_spec _ 4 0 d Hall).
Qed.

Lemma hex_onto_digits fuel n acc :
  fuel <> 0%nat -> 0 <= n < 16 ^ Z.of_nat fuel ->
  exists ds, hex_onto fuel n acc = hex_text ds +:+ acc /\ number_of 16 ds = n /\ Forall (fun d => 0 <= d < 16) ds /\
    (0 < length ds <= fuel)%nat.
Proof.
  revert n acc. induction fuel as [|fuel IH]; intros n acc Hf Hn; [done|].
  rewrite Nat2Z.inj_succ, Z.pow_succ_r in Hn by lia. cbn [hex_onto].
  pose proof (Z.mod_pos_bound n 16 ltac:(lia)). pose proof (Z.div_mod n 16 ltac:(lia)).
  destruct (Z.eqb_spec (n / 16) 0) as [Hz|Hz].
  - exists [n mod 16]. split; [done|]. split; [cbn; lia|]. split; [by apply Forall_singleton|cbn; lia].
  - destruct (IH (n / 16) (String (hex_digit (n mod 16)) acc)) as (ds & -> & Hnum & Hds & Hlen).
    { intros ->. cbn in Hn. lia. } { lia. }
    exists (ds ++ [n mod 16]). split; [|split; [|split]].
    + unfold hex_text. clear. induction ds as [|d ds IH]; cbn; [done|]. by rewrite IH.
    + unfold number_of in *. rewrite foldl_app. cbn. lia.
    + apply Forall_app. split; [done|by apply Forall_singleton].
    + rewrite length_app. cbn. lia.
Qed.

Lemma lower_hex_digits n :
  segment n -> exists ds, lower_hex n = hex_text ds /\ number_of 16 ds = n /\ Forall (fun d => 0 <= d < 16) ds /\
    (0 < length ds <= 4)%nat.
Proof.
  intros Hn. destruct (hex_onto_digits 4 n "" ltac:(done) Hn) as (ds & He & ?). exists ds.
  rewrite Str.app_nil_r in He. done.
Qed.

Lemma lower_hex_chars n : segment n -> all_chars hex_char (lower_hex n) = true.
Proof.
  intros (ds & -> & _ & Hds & _)%lower_hex_digits. induction Hds as [|d ds Hd _ IH]; [done|]. cbn.
  unfold hex_char at 1. by rewrite read_hex_digit.
Qed.

Lemma read_lower_hex n rest :
  segment n -> match rest with String c _ => to_digit 16 c = None | "" => True end ->
  read_number 16 (Some 4%nat) true 65535 (lower_hex n +:+ rest) = Some (n, rest).
Proof.
  intros Hn Hr. destruct (lower_hex_digits n Hn) as (ds & -> & Hnum & Hds & Hlen). unfold read_number.
  rewrite (read_digits_app _ _ ds); [|clear -Hds|done].
  - rewrite Hnum. unfold segment in Hn. destruct (Nat.ltb_spec 4 (length ds)); [lia|].
    destruct (Nat.eqb_spec (length ds) 0); [lia|]. destruct (Z.ltb_spec 65535 n); [lia|done].
  - induction Hds as [|d ds Hd _ IH]; [done|]. cbn. rewrite read_hex_digit by done. unfold hex_text in IH. by rewrite IH.
Qed.

(** A dotted address has a dot behind its first digits. *)
Definition no_dot (s : string) : Prop := match s with String c _ => c <> "."%char | "" => True end.

Lemma ipv4_needs_dot s : no_dot (read_digits 10 s).2 -> read_ipv4_addr s = None.
Proof.
  unfold read_ipv4_addr, read_separator, read_octet, read_number.
  destruct (read_digits 10 s) as [ds rest]. cbn [snd]. intros Hd.
  destruct (_ || _); [done|]. cbn. unfold read_given_char. destruct rest as [|c rest]; [done|].
  destruct (Ascii.eqb_spec c "."); [by subst|done].
Qed.

Lemma digits_no_dot t rest :
  all_chars hex_char t = true -> no_dot rest -> (forall c r, rest = String c r -> to_digit 10 c = None) ->
  no_dot (read_digits 10 (t +:+ rest)).2.
Proof.
  intros Ht Hd Hr. induction t as [|c t IH]; cbn.
  - destruct rest as [|c r]; [done|]. cbn. by rewrite (Hr c r).
  - cbn in Ht. apply andb_true_iff in Ht as [Hc Ht]. specialize (IH Ht).
    destruct (to_digit 10 c); [destruct (read_digits 10 (t +:+ rest)) as [ds r]; exact IH|].
    cbn. intros ->. by vm_compute in Hc.
Qed.

(** What can follow a run of segments: nothing, or the two colons. *)
Inductive after_run : string -> Prop :=
| after_end : after_run ""
| after_colons t : after_run ("::" +:+ t).

Lemma colon_each_head gs rest :
  after_run rest -> match colon_each gs +:+ rest with String c _ => c = ":"%char | "" => True end.
Proof. intros [|t]; by destruct gs. Qed.

Lemma segment_not_ipv4 g gs rest :
  segment g -> after_run rest -> read_ipv4_addr (lower_hex g +:+ colon_each gs +:+ rest) = None.
Proof.
  intros Hg Hr. pose proof (colon_each_head gs rest Hr) as Hc. apply ipv4_needs_dot, digits_no_dot.
  - by apply lower_hex_chars.
  - destruct (colon_each gs +:+ rest); [done|]. by subst.
  - intros c r Heq. rewrite Heq in Hc. by subst.
Qed.

Lemma read_segment g gs rest :
  segment g -> after_run rest ->
  read_number 16 (Some 4%nat) true 65535 (lower_hex g +:+ colon_each gs +:+ rest) = Some (g, colon_each gs +:+ rest).
Proof.
  intros Hg Hr. pose proof (colon_each_head gs rest Hr) as Hc. apply read_lower_hex; [done|].
  destruct (colon_each gs +:+ rest); [done|]. by subst.
Qed.

(** Nothing more is read there. *)
Lemma read_groups_stop n i rest : after_run rest -> read_groups n i rest = ([], false, rest).
Proof. intros [|t]; destruct n as [|[|n]]; cbn [read_groups]; destruct i; done. Qed.

Lemma read_groups_colon_each gs n i rest :
  Forall segment gs -> (length gs <= n)%nat -> after_run rest ->
  read_groups n (S i) (colon_each gs +:+ rest) = (gs, false, rest).
Proof.
  intros Hgs. revert n i. induction Hgs as [|g gs Hg Hgs IH]; intros n i Hn Hr.
  { by apply read_groups_stop. }
  cbn in Hn. destruct n as [|n]; [lia|]. cbn [read_groups colon_each]. unfold read_separator.
  cbn [String.append read_given_char Ascii.eqb Bool.eqb]. cbn [mbind option_bind].
  rewrite Str.app_assoc, segment_not_ipv4, read_segment by done.
  rewrite IH by (done || lia). by destruct (1 <=? n)%nat.
Qed.

Lemma read_groups_subslice gs n rest :
  Forall segment gs -> (length gs <= n)%nat -> after_run rest ->
  read_groups n 0 (fmt_subslice gs +:+ rest) = (gs, false, rest).
Proof.
  intros [|g gs' Hg Hgs] Hn Hr; [by apply read_groups_stop|].
  cbn in Hn. destruct n as [|n]; [lia|]. cbn [read_groups fmt_subslice]. unfold read_separator.
  rewrite Str.app_assoc, segment_not_ipv4, read_segment by done.
  rewrite read_groups_colon_each by (done || lia). by destruct (1 <=? n)%nat.
Qed.

(** ** The run of zeros *)

Definition zero_run (gs : list Z) (sp : Span) : Prop :=
  (start sp + len sp <= length gs)%nat /\ forall j, (start sp <= j < start sp + len sp)%nat -> gs !! j = Some 0.

Lemma no_span_zero gs : zero_run gs no_span.
Proof. split; cbn; lia. Qed.

Lemma zeroes_from_run done_ gs longest current :
  zero_run (done_ ++ gs) longest -> zero_run (done_ ++ gs) current ->
  (len current <> 0 -> start current + len current = length done_)%nat ->
  zero_run (done_ ++ gs) (zeroes_from (length done_) gs longest current).
Proof.
  revert done_ longest current. induction gs as [|g gs IH]; intros done_ longest current Hl Hc Hend; [done|].
  assert (done_ ++ g :: gs = (done_ ++ [g]) ++ gs) as Happ by by rewrite <-app_assoc.
  cbn [zeroes_from]. rewrite Happ in *.
  replace (S (length done_)) with (length (done_ ++ [g])) by (rewrite length_app; cbn; lia).
  destruct (Z.eqb_spec g 0) as [->|Hg]; [|apply IH; [done|apply no_span_zero|done]].
  match goal with |- zero_run _ (zeroes_from _ _ _ ?c) => set (current' := c) end.
  assert (zero_run ((done_ ++ [0]) ++ gs) current') as Hc'.
  { unfold current'. split; cbn [start len].
    - rewrite !length_app. cbn. destruct (Nat.eqb_spec (len current) 0); lia.
    - intros j Hj. destruct (decide (j = length done_)) as [->|Hne].
      + rewrite lookup_app_l by (rewrite length_app; cbn; lia). by rewrite list_lookup_middle.
      + apply Hc. destruct (Nat.eqb_spec (len current) 0); lia. }
  apply IH; [by destruct (_ <? _)%nat|done|].
  intros _. unfold current'. cbn [start len]. rewrite length_app. cbn. destruct (Nat.eqb_spec (len current) 0); lia.
Qed.

Lemma zeroes_split gs :
  let z := zeroes gs in
  (start z + len z <= length gs)%nat /\
  gs = take (start z) gs ++ replicate (len z) 0 ++ drop (start z + len z) gs.
Proof.
  intros z. destruct (zeroes_from_run [] gs no_span no_span (no_span_zero _) (no_span_zero _) ltac:(done)) as [Hle Hz].
  cbn [length app] in Hle, Hz. change (zeroes_from 0 gs no_span no_span) with z in Hle, Hz. split; [done|].
  rewrite <-(take_drop (start z) gs) at 1. f_equal. rewrite <-(take_drop (len z) (drop (start z) gs)), drop_drop. f_equal.
  apply list_eq. intros j. destruct (decide (j < len z)%nat).
  - rewrite lookup_take_lt, lookup_drop, Hz, lookup_replicate_2 by lia. done.
  - rewrite !lookup_ge_None_2; [done|rewrite length_replicate; lia|rewrite length_take, length_drop; lia].
Qed.

(** ** Reading an address back *)

#[local] Ltac Zify.zify_post_hook ::= Z.to_euclidean_division_equations.

Lemma mapped_split gs a b c d :
  Forall segment gs -> to_ipv4_mapped gs = Some (a, b, c, d) ->
  gs = [0; 0; 0; 0; 0; 65535; a * 256 + b; c * 256 + d] /\ octet a /\ octet b /\ octet c /\ octet d.
Proof.
  unfold to_ipv4_mapped. intros Hgs H. repeat case_match; try done. injection H as <- <- <- <-. simplify_eq.
  rewrite !Forall_cons in Hgs. unfold segment, octet in *. split; [|lia]. repeat f_equal; lia.
Qed.

Lemma read_groups_S n i s :
  read_groups (S n) i s =
    match (if (1 <=? n)%nat then read_separator ":" i read_ipv4_addr s else None) with
    | Some (a, b, c, d, s') => ([a * 256 + b; c * 256 + d], true, s')
    | None =>
        match read_separator ":" i (read_number 16 (Some 4%nat) true 65535) s with
        | Some (g, s') => let '(gs, v4, s'') := read_groups n (S i) s' in (g :: gs, v4, s'')
        | None => ([], false, s)
        end
    end.
Proof. done. Qed.

Lemma read_mapped_text a b c d :
  octet a -> octet b -> octet c -> octet d ->
  read_ipv6_addr ("::ffff:" +:+ ipv4_text a b c d) = Some ([0; 0; 0; 0; 0; 65535; a * 256 + b; c * 256 + d], "").
Proof.
  intros Ha Hb Hc Hd. set (t := ipv4_text a b c d).
  assert (read_groups 7 0 ("ffff:" +:+ t) = ([65535; a * 256 + b; c * 256 + d], true, "")) as Hg.
  { assert (read_groups 6 1 (":" +:+ t) = ([a * 256 + b; c * 256 + d], true, "")) as Ht.
    { pose proof (read_ipv4_text a b c d "" Ha Hb Hc Hd I) as Hr. rewrite Str.app_nil_r in Hr.
      rewrite read_groups_S. replace (read_separator ":" 1 read_ipv4_addr _) with (read_ipv4_addr t) by done.
      unfold t. by rewrite Hr. }
    rewrite read_groups_S. replace (read_separator ":" 0 read_ipv4_addr _) with (@None (Z * Z * Z * Z * string)) by done.
    replace (read_separator ":" 0 (read_number 16 (Some 4%nat) true 65535) _) with (Some (65535, ":" +:+ t)) by done.
    cbn [Nat.leb]. by rewrite Ht. }
  unfold read_ipv6_addr. change ("::ffff:" +:+ t) with ("::" +:+ ("ffff:" +:+ t)).
  rewrite read_groups_stop by constructor. cbn [length Nat.eqb].
  cbn [String.append read_given_char Ascii.eqb Bool.eqb mbind option_bind].
  change (String "f" _) with ("ffff:" +:+ t). cbn [Nat.sub]. by rewrite Hg.
Qed.

Lemma read_ipv6_text gs :
  length gs = 8%nat -> Forall segment gs -> read_ipv6_addr (ipv6_text gs) = Some (gs, "").
Proof.
  intros Hlen Hgs. unfold ipv6_text. destruct (to_ipv4_mapped gs) as [[[[a b] c] d]|] eqn:Hm.
  { destruct (mapped_split gs a b c d Hgs Hm) as (-> & ? & ? & ? & ?). by apply read_mapped_text. }
  destruct (zeroes_split gs) as [Hle Hsplit]. set (z := zeroes gs) in *. unfold read_ipv6_addr.
  destruct (Nat.ltb_spec 1 (len z)) as [Hz|Hz].
  - rewrite read_groups_subslice by (by apply Forall_take || (rewrite length_take; lia) || constructor).
    rewrite length_take_le by lia. destruct (Nat.eqb_spec (start z) 8); [lia|].
    cbn [String.append read_given_char Ascii.eqb Bool.eqb mbind option_bind].
    rewrite <-(Str.app_nil_r (fmt_subslice _)).
    rewrite read_groups_subslice by (by apply Forall_drop || (rewrite length_drop; lia) || constructor).
    rewrite length_drop. replace (8 - start z - (length gs - (start z + len z)))%nat with (len z) by lia.
    by rewrite <-Hsplit.
  - rewrite <-(Str.app_nil_r (fmt_subslice _)), read_groups_subslice by (done || lia || constructor).
    by rewrite Hlen.
Qed.

(** The text of an IPv6 address is not taken for one of IPv4. *)
Lemma ipv6_text_not_ipv4 gs :
  length gs = 8%nat -> Forall segment gs -> read_ipv4_addr (ipv6_text gs) = None.
Proof.
  intros Hlen Hgs. unfold ipv6_text. destruct (to_ipv4_mapped gs) as [[[[a b] c] d]|]; [by apply ipv4_needs_dot|].
  assert (forall s, after_run s -> read_ipv4_addr s = None) as Hrun by (intros s [|t]; by apply ipv4_needs_dot).
  assert (forall gs rest, Forall segment gs -> after_run rest -> read_ipv4_addr (fmt_subslice gs +:+ rest) = None) as Hfmt.
  { intros [|g gs'] rest H Hr; [by apply Hrun|]. inversion H; subst. cbn [fmt_subslice]. rewrite Str.app_assoc.
    by apply segment_not_ipv4. }
  destruct (1 <? _)%nat.
  - apply Hfmt; [by apply Forall_take|constructor].
  - rewrite <-(Str.app_nil_r (fmt_subslice _)). apply Hfmt; [done|constructor].
Qed.

Lemma parse_ip_text ip : valid_ip ip -> parse_with read_ip_addr (ip_to_string ip) = Some ip.
Proof.
  unfold parse_with, read_ip_addr. destruct ip as [a b c d|gs]; cbn [valid_ip ip_to_string].
  - intros (Ha & Hb & Hc & Hd). rewrite <-(Str.app_nil_r (ipv4_text _ _ _ _)). by rewrite read_ipv4_text.
  - intros [Hlen Hgs]. rewrite ipv6_text_not_ipv4, read_ipv6_text by done. done.
Qed.

(** ** Through a header *)

(** The characters that are neither white space nor part of one. *)
Definition visible (c : ascii) : bool := let n := Z.of_N (N_of_ascii c) in (33 <=? n) && (n <=? 126).

Lemma strip_any_head ps c s :
  visible c = true -> forallb (fun p => match p with String a _ => negb (visible a) | "" => false end) ps = true ->
  Str.strip_any ps (String c s) = None.
Proof.
  intros Hc. induction ps as [|[|a p] ps IH]; cbn; [done..|]. intros [Ha Hps]%andb_true_iff.
  rewrite decide_False; [by apply IH|]. intros ->. by rewrite Hc in Ha.
Qed.

Lemma trim_visible s : all_chars visible s = true -> Str.trim s = s.
Proof.
  intros Hs. assert (all_chars visible (Str.rev s) = true) as Hr by by rewrite all_chars_rev.
  apply Str.trim_id; [destruct s as [|c t]|destruct (Str.rev s) as [|c t]]; try done;
    (apply strip_any_head; [|by vm_compute]); cbn in *;
    [by apply andb_true_iff in Hs as [? _]|by apply andb_true_iff in Hr as [? _]].
Qed.

Lemma split_none sep s : all_chars (fun c => negb (Ascii.eqb c sep)) s = true -> Str.split sep s = [s].
Proof.
  induction s as [|c s IH]; cbn; [done|]. intros [Hc Hs]%andb_true_iff. rewrite IH by done.
  destruct (Ascii.eqb_spec c sep) as [->|Hne]; [done|]. by rewrite decide_False.
Qed.

Definition ip_char (c : ascii) : bool := hex_char c || Ascii.eqb c "." || Ascii.eqb c ":".

Lemma colon_each_chars gs : Forall segment gs -> all_chars ip_char (colon_each gs) = true.
Proof.
  induction 1 as [|g gs Hg _ IH]; [done|]. cbn. rewrite all_chars_app, IH, andb_true_r.
  eapply all_chars_mono, lower_hex_chars, Hg. intros c Hc. unfold ip_char. by rewrite Hc.
Qed.

Lemma subslice_chars gs : Forall segment gs -> all_chars ip_char (fmt_subslice gs) = true.
Proof.
  intros [|g gs' Hg Hgs]; [done|]. cbn. rewrite all_chars_app, colon_each_chars, andb_true_r by done.
  eapply all_chars_mono, lower_hex_chars, Hg. intros c Hc. unfold ip_char. by rewrite Hc.
Qed.

Lemma ipv4_text_chars a b c d :
  octet a -> octet b -> octet c -> octet d -> all_chars ip_char (ipv4_text a b c d) = true.
Proof.
  intros Ha Hb Hc Hd. eapply all_chars_mono, address_text; [|done..]. intros ch.
  unfold address_char, ip_char, hex_char, to_digit. cbv zeta.
  match goal with |- context [mbind _ ?o] => destruct o as [n|] end; cbn; [|by intros ->]. destruct (Z.ltb_spec n 10); [|by intros ->; rewrite orb_true_r].
  destruct (Z.ltb_spec n 16); [done|lia].
Qed.

Lemma ip_text_chars ip : valid_ip ip -> all_chars ip_char (ip_to_string ip) = true.
Proof.
  destruct ip as [a b c d|gs]; cbn [valid_ip ip_to_string].
  { intros (? & ? & ? & ?). by apply ipv4_text_chars. }
  intros [Hlen Hgs]. unfold ipv6_text. destruct (to_ipv4_mapped gs) as [[[[a b] c] d]|] eqn:Hm.
  { destruct (mapped_split gs a b c d Hgs Hm) as (_ & ? & ? & ? & ?).
    change ("::ffff:" +:+ ipv4_text a b c d) with ("::ffff:" +:+ (ipv4_text a b c d)).
    rewrite all_chars_app. by rewrite ipv4_text_chars. }
  destruct (1 <? _)%nat; [|by apply subslice_chars].
  rewrite !all_chars_app, !subslice_chars by (by apply Forall_take || by apply Forall_drop). done.
Qed.

Lemma ip_text_not_empty ip : valid_ip ip -> ip_to_string ip <> "".
Proof. intros Hip He. pose proof (parse_ip_text ip Hip) as Hp. rewrite He in Hp. by vm_compute in Hp. Qed.

Lemma ip_char_other c : ip_char c = true ->
  visible c = true /\ c <> ","%char /\ c <> ";"%char /\ Str.ascii_lower c <> "u"%char /\
  (Ascii.eqb c "[" || Ascii.eqb c "]") = false /\ c <> ascii_of_N 34.
Proof. destruct c as [[] [] [] [] [] [] [] []]; vm_compute; intros H; try discriminate; repeat split; discriminate. Qed.

Lemma parse_ip_token_text ip : valid_ip ip -> parse_ip_token (ip_to_string ip) = Some ip.
Proof.
  intros Hip. pose proof (ip_text_chars ip Hip) as Hc. pose proof (ip_text_not_empty ip Hip) as Hne.
  unfold parse_ip_token. rewrite trim_matches_id.
  2:{ eapply all_chars_mono, Hc. intros c Hch%ip_char_other. destruct_and!. by apply negb_true_iff. }
  rewrite parse_ip_text by done. destruct (ip_to_string ip) as [|c s]; [done|]. cbn in Hc |- *.
  apply andb_true_iff in Hc as [Hc%ip_char_other _]. destruct_and!.
  destruct (Ascii.eqb_spec (Str.ascii_lower c) "u"); [done|]. done.
Qed.

(** C19. What the server writes for the address of a peer is read back as that
    address, alone, as the value of [X-Forwarded-For], and as the [for=]
    parameter of [Forwarded]: for every IPv4 and every IPv6 address, whatever
    zeros the text leaves out. *)
Theorem ip_text_roundtrip ip headers fallback :
  valid_ip ip ->
  parse_with read_ip_addr (ip_to_string ip) = Some ip /\
  (header_text "x-forwarded-for" headers = Some (ip_to_string ip) -> resolve_client_ip headers fallback = ip) /\
  (header_text "x-forwarded-for" headers = None -> header_text "forwarded" headers = Some ("for=" +:+ ip_to_string ip) ->
     resolve_client_ip headers fallback = ip).
Proof.
  intros Hip. split; [by apply parse_ip_text|]. pose proof (ip_text_chars ip Hip) as Hc.
  assert (all_chars visible (ip_to_string ip) = true) as Hv.
  { eapply all_chars_mono, Hc. intros c Hch%ip_char_other. by destruct_and!. }
  assert (forall sep s, sep = ","%char \/ sep = ";"%char -> all_chars ip_char s = true ->
    all_chars (fun c => negb (Ascii.eqb c sep)) s = true) as Hsep.
  { intros sep s Hs Hcs. eapply all_chars_mono, Hcs. intros c Hch%ip_char_other. destruct_and!.
    apply negb_true_iff. destruct (Ascii.eqb_spec c sep); [|done]. by destruct Hs; subst. }
  unfold resolve_client_ip, parse_x_forwarded_for, parse_forwarded_for. split.
  - intros ->. cbn. rewrite split_none by auto. cbn. by rewrite trim_visible, parse_ip_token_text.
  - intros -> ->. cbn -[Str.split String.append]. rewrite split_none by (cbn; auto). cbn -[Str.split String.append].
    rewrite split_none by (cbn; auto). cbn -[String.append]. unfold parse_for_part.
    rewrite trim_visible by done. cbn. rewrite !decide_True by done. cbn.
    rewrite trim_visible by done. rewrite trim_matches_id; [by rewrite parse_ip_token_text|].
    eapply all_chars_mono, Hc. intros c Hch%ip_char_other. destruct_and!. apply negb_true_iff.
    by apply Ascii.eqb_neq, not_eq_sym.
Qed.
