(* ===== verification/Externs.v ===== *)
(** * Code the program calls and the repository does not contain

    Each third-party service is a class of operations that the definitions
    take as an argument, with a second class for the documented behaviour the
    theorems rely on.  [Module Toy] gives concrete instances, which only the
    witnesses use. *)

From S2P Require Import Prelude RustStr Protocol.
From Stdlib Require Strings.String.

(** ** Time: [std::time] and [chrono]

    A [SystemTime] or a [DateTime<Utc>] is its number of nanoseconds since the
    Unix epoch, a [Duration] a number of nanoseconds. *)
Definition SystemTime : Type := Z.
Definition NANOS : Z := 1000000000.
Definition seconds (n : Z) : Z := n * NANOS.
Definition as_secs (d : Z) : Z := d / NANOS.
Definition millis_of (t : SystemTime) : Z := t / 1000000.

(** [SystemTime::duration_since], an error when the clock went back. *)
Definition duration_since (now earlier : SystemTime) : result string Z :=
  if earlier <=? now then Ok (now - earlier)
  else Err "second time provided was later than self".

(** ** [uuid]: text form *)
Class UuidText := {
  parse_str : string -> result string Uuid;
  uuid_to_string : Uuid -> string }.

Class UuidTextLaws `{UuidText} := {
  parse_to_string u : fits 128 u -> parse_str (uuid_to_string u) = Ok u;
  parse_fits s u : parse_str s = Ok u -> fits 128 u }.

(** ** [serde_json]: values and their text *)
Inductive Json : Type :=
| JNull
| JBool (b : bool)
| JNum (n : Z)
| JFloat (bits : Z)
| JStr (s : string)
| JArr (l : list Json)
| JObj (fields : list (string * Json)).

Class JsonText := {
  json_to_string : Json -> string;
  json_to_string_pretty : Json -> string }.

Definition json_opt {A} (f : A -> Json) (o : option A) : Json :=
  match o with Some a => f a | None => JNull end.

(** The parser, which keeps the fields of an object in their order and its
    duplicates: a derived [Deserialize] sees them one by one. *)
Class JsonParse := { json_from_str : string -> result string Json }.

(** What the parser gives back, in either layout: an object whose fields are
    strings, booleans, nulls, 64-bit integers, or objects of those. *)
Definition scalar (j : Json) : bool :=
  match j with
  | JNull | JBool _ | JStr _ => true
  | JNum n => (-(2 ^ 63) <=? n) && (n <? 2 ^ 64)
  | _ => false
  end.
Definition scalar_or_object (j : Json) : bool :=
  match j with JObj inner => forallb (fun f => scalar f.2) inner | j => scalar j end.
Definition flat (fields : list (string * Json)) : bool := forallb (fun f => scalar_or_object f.2) fields.

Class JsonLaws `{JsonText, JsonParse} := {
  json_parse_compact fields : flat fields = true -> json_from_str (json_to_string (JObj fields)) = Ok (JObj fields);
  json_parse_pretty fields :
    flat fields = true -> json_from_str (json_to_string_pretty (JObj fields)) = Ok (JObj fields) }.

(** ** [chrono::DateTime<Utc>]: its serialisation *)
Class DateText := { date_to_string : SystemTime -> string }.

(** ** [jsonwebtoken], algorithm HS256, [validate_exp] set and [exp] required.
    The current time is an argument because [decode] reads the clock. *)
Class JwtCodec (Claims : Type) := {
  jwt_encode : string -> Claims -> result string string;
  jwt_decode : SystemTime -> string -> string -> result string Claims }.

(** [Validation::new] sets a leeway of 60 seconds: a token is refused once
    [exp + 60] is in the past, and accepted before when its signature
    verifies under the secret. *)
Definition JWT_LEEWAY : Z := 60.
Class JwtLaws (Claims : Type) (exp : Claims -> Z) `{JwtCodec Claims} := {
  jwt_decode_fresh now secret token claims :
    jwt_decode now secret token = Ok claims -> as_secs now - JWT_LEEWAY <= exp claims;
  jwt_decode_encode now secret token claims :
    jwt_encode secret claims = Ok token -> as_secs now - JWT_LEEWAY <= exp claims ->
    jwt_decode now secret token = Ok claims }.

(** ** [base64], alphabet [URL_SAFE_NO_PAD] *)
Class Base64Url := {
  b64_encode : bytes -> string;
  b64_decode : string -> option bytes }.

Class Base64UrlLaws `{Base64Url} := {
  b64_decode_encode b : b64_decode (b64_encode b) = Some b;
  (* the alphabet is letters, digits, [-] and [_] *)
  b64_trim b : Str.trim (b64_encode b) = b64_encode b;
  b64_encode_empty b : b64_encode b = "" -> b = [] }.

(** ** [ed25519_dalek]: [VerifyingKey::from_bytes], [Signature::from_slice]
    (which takes exactly 64 bytes) and [Verifier::verify]. *)
Class Ed25519 := {
  valid_public_key : bytes -> bool;
  ed25519_verify : bytes -> string -> bytes -> bool }.

(** [SigningKey::from_bytes], [verifying_key] and [Signer::sign]. *)
Class Ed25519Signing := {
  verifying_key : bytes -> bytes;
  ed25519_sign : bytes -> string -> bytes }.

Class Ed25519Laws `{Ed25519, Ed25519Signing} := {
  verifying_key_length sk : length sk = 32%nat -> length (verifying_key sk) = 32%nat;
  verifying_key_valid sk : length sk = 32%nat -> valid_public_key (verifying_key sk) = true;
  signature_length sk msg : length sk = 32%nat -> length (ed25519_sign sk msg) = 64%nat;
  sign_verifies sk msg : length sk = 32%nat -> ed25519_verify (verifying_key sk) msg (ed25519_sign sk msg) = true }.

(** ** [argon2]: [PasswordHash::new] parses, [verify_password] compares. *)
Class PasswordHasher := {
  hash_parses : string -> bool;
  verify_password : string -> string -> bool }.

(** ** Web sockets *)

(** A message of [axum::extract::ws] or [tungstenite], and a socket as the items its stream
    yields: [Err] for a transport error, the end of the list for its end. *)
Inductive Message : Type :=
| Binary (data : bytes)
| Text (data : string)
| Ping
| Pong
| Close (reason : option string).

Definition WsStream : Type := list (result string Message).

(** Whether the loop reads the next message. *)
Inductive Flow : Type := Continue | Break.

(** ** [common/src/env.rs] *)
Inductive Mode : Type := Development | Production.
Definition is_production (m : Mode) : bool := match m with Production => true | Development => false end.

(** ** Concrete instances for the witnesses *)
Module Toy.
Fixpoint pos_to_string (p : positive) : string :=
  match p with
  | xH => "1"
  | xO p => String "0" (pos_to_string p)
  | xI p => String "1" (pos_to_string p)
  end.

Fixpoint pos_of_string (s : string) : option positive :=
  match s with
  | String "1"%char EmptyString => Some xH
  | String "0"%char s => xO <$> pos_of_string s
  | String "1"%char s => xI <$> pos_of_string s
  | _ => None
  end.

Lemma pos_of_to p : pos_of_string (pos_to_string p) = Some p.
Proof.
  induction p as [p IH|p IH|]; cbn [pos_to_string pos_of_string]; [|by rewrite IH|done].
  rewrite IH. by destruct p.
Qed.

#[export] Instance uuid_text : UuidText := {
  parse_str s :=
    match s with
    | "nil" => Ok 0
    | _ => match pos_of_string s with
           | Some p => if Zpos p <? 2 ^ 128 then Ok (Zpos p) else Err "invalid length"
           | None => Err "invalid character"
           end
    end;
  uuid_to_string u := match u with Zpos p => pos_to_string p | _ => "nil" end }.

#[export] Instance uuid_text_laws : UuidTextLaws.
Proof.
  split.
  - intros u [Hu Hmax]. destruct u as [|p|p]; [done| |lia]. apply Z.ltb_lt in Hmax.
    cbn [uuid_to_string parse_str uuid_text]. rewrite pos_of_to. destruct p; by rewrite ?Hmax.
  - intros s u. cbn [parse_str uuid_text]. unfold fits. repeat case_match; intros [= <-]; try (split; [lia|by apply Z.ltb_lt]); lia.
Qed.

(** Flat objects are printed as the code of their fields. *)
Definition Code : Type := unit + bool + Z + string.

Definition scalar_code (j : Json) : option Code :=
  match j with
  | JNull => Some (inl (inl (inl tt)))
  | JBool b => Some (inl (inl (inr b)))
  | JNum n => Some (inl (inr n))
  | JStr s => Some (inr s)
  | _ => None
  end.

Definition scalar_of (c : Code) : Json :=
  match c with
  | inl (inl (inl _)) => JNull
  | inl (inl (inr b)) => JBool b
  | inl (inr n) => JNum n
  | inr s => JStr s
  end.

Definition show_code {A} `{Countable A} (a : A) : string := pos_to_string (encode a).
Definition read_code {A} `{Countable A} (s : string) : option A := pos_of_string s ≫= decode.
Lemma read_show_code {A} `{Countable A} (a : A) : read_code (show_code a) = Some a.
Proof. unfold read_code, show_code. rewrite pos_of_to. apply decode_encode. Qed.

Definition fields_code {A} (f : Json -> option A) (fields : list (string * Json)) : option (list (string * A)) :=
  mapM (fun x => c ← f x.2; Some (x.1, c)) fields.
Definition fields_of {A} (f : A -> Json) (l : list (string * A)) : list (string * Json) := map (fun x => (x.1, f x.2)) l.

Definition field_code (j : Json) : option (Code + list (string * Code)) :=
  match j with JObj inner => inr <$> fields_code scalar_code inner | j => inl <$> scalar_code j end.
Definition field_of (c : Code + list (string * Code)) : Json :=
  match c with inl c => scalar_of c | inr l => JObj (fields_of scalar_of l) end.

Definition flat_code (j : Json) : option (list (string * (Code + list (string * Code)))) :=
  match j with JObj fields => fields_code field_code fields | _ => None end.

Definition show_json (j : Json) : string :=
  match flat_code j with Some l => show_code l | None => "{}" end.

#[export] Instance json_text : JsonText := {
  json_to_string := show_json; json_to_string_pretty := show_json }.

#[export] Instance json_parse : JsonParse := {
  json_from_str s :=
    match read_code (A := list (string * (Code + list (string * Code)))) s with
    | Some l => Ok (JObj (fields_of field_of l))
    | None => Err "expected value"
    end }.

Lemma fields_coded {A} (f : Json -> option A) (g : A -> Json) (p : Json -> bool) fields :
  (forall j, p j = true -> exists c, f j = Some c /\ g c = j) -> forallb (fun x => p x.2) fields = true ->
  exists l, fields_code f fields = Some l /\ fields_of g l = fields.
Proof.
  intros Hfg. induction fields as [|[k j] fields IH]; cbn; [by exists []|]. intros [Hj Hf]%andb_true_iff.
  destruct (IH Hf) as (l & Hl & Hm). destruct (Hfg j Hj) as (c & Hc & <-). unfold fields_code in Hl. cbn in *.
  exists ((k, c) :: l). rewrite Hc. cbn. rewrite Hl. split; [done|]. cbn. unfold fields_of in Hm. by rewrite Hm.
Qed.

Lemma scalar_coded j : scalar j = true -> exists c, scalar_code j = Some c /\ scalar_of c = j.
Proof. by destruct j; try discriminate; eexists. Qed.

Lemma flat_coded fields : flat fields = true -> exists l, flat_code (JObj fields) = Some l /\ fields_of field_of l = fields.
Proof.
  apply (fields_coded _ _ scalar_or_object). intros j Hj. destruct j as [| | | | | |inner].
  7: { destruct (fields_coded _ _ scalar inner scalar_coded Hj) as (l & Hl & <-). exists (inr l). cbn. by rewrite Hl. }
  all: destruct (scalar_coded _ Hj) as (c & Hc & Hs); exists (inl c); (split; [|exact Hs]).
  all: cbn in Hc |- *; congruence.
Qed.

#[export] Instance json_laws : JsonLaws.
Proof.
  split; intros fields (l & Hl & Hm)%flat_coded; cbn [json_from_str json_to_string json_to_string_pretty json_text json_parse];
    unfold show_json; by rewrite Hl, read_show_code, Hm.
Qed.

#[export] Instance date_text : DateText := { date_to_string _ := "" }.

(** The bytes between two letters. *)
#[export] Instance base64 : Base64Url := {
  b64_encode b := String "x" (String.string_of_list_byte b +:+ "x");
  b64_decode s :=
    r ← Str.strip_prefix "x" s;
    r ← Str.strip_prefix "x" (Str.rev r);
    Some (String.list_byte_of_string (Str.rev r)) }.

#[export] Instance base64_laws : Base64UrlLaws.
Proof.
  split; intros b; cbn [b64_encode b64_decode base64].
  - cbn [Str.strip_prefix]. rewrite decide_True by done. cbn [mbind option_bind].
    rewrite Str.rev_snoc. cbn [Str.strip_prefix]. rewrite decide_True by done. cbn [mbind option_bind].
    rewrite Str.rev_involutive. apply f_equal, String.list_byte_of_string_of_list_byte.
  - apply Str.trim_id; [reflexivity|].
    change (String "x" (?s +:+ "x")) with (String "x" s +:+ "x").
    rewrite Str.rev_snoc. reflexivity.
  - discriminate.
Qed.

(** The key is its own public key; a signature is the key and the first 32
    bytes of the message, padded with zeroes. *)
Definition toy_signature (pk : bytes) (msg : string) : bytes :=
  pk ++ take 32 (String.list_byte_of_string msg ++ replicate 32 Byte.x00).

#[export] Instance ed25519 : Ed25519 := {
  valid_public_key _ := true;
  ed25519_verify pk msg sg := bool_decide (sg = toy_signature pk msg) }.

#[export] Instance ed25519_signing : Ed25519Signing := {
  verifying_key sk := sk;
  ed25519_sign := toy_signature }.

#[export] Instance ed25519_laws : Ed25519Laws.
Proof.
  split; cbn; intros; [done|done| |by apply bool_decide_eq_true_2].
  unfold toy_signature. rewrite length_app, length_take, length_app, length_replicate. lia.
Qed.

#[export] Instance hasher : PasswordHasher := {
  hash_parses h := negb (Str.is_empty h);
  verify_password secret h := bool_decide (secret = h) }.

(** The text of a token is the code of its claims; every secret verifies. *)
Definition jwt_of {Claims} (show : Claims -> string) (read : string -> option Claims)
    (exp : Claims -> Z) : JwtCodec Claims := {|
  jwt_encode _ c := Ok (show c);
  jwt_decode now _ t :=
    match read t with
    | Some c => if as_secs now - JWT_LEEWAY <=? exp c then Ok c else Err "ExpiredSignature"
    | None => Err "InvalidToken"
    end |}.

Lemma jwt_of_laws {Claims} show read (exp : Claims -> Z) :
  (forall c, read (show c) = Some c) -> @JwtLaws Claims exp (jwt_of show read exp).
Proof.
  intros Hr. split; cbn.
  - intros now _ t c H. case_all. by apply Z.leb_le.
  - intros now _ t c [= <-] He. rewrite Hr. apply Z.leb_le in He. by rewrite He.
Qed.

End Toy.
