(* ===== verification/JsonDe.v ===== *)
(** * Derived [Deserialize] implementations

    What [#[derive(Deserialize)]] makes of a parsed value for the small
    structs of the program: fields by name in an object, unknown ones
    ignored and repeated ones refused, or by position in an array. *)

From S2P Require Import Prelude RustStr Protocol Externs.
From Stdlib Require Strings.String.

Definition get_field (name : string) (position : nat) (j : Json) : result string (option Json) :=
  match j with
  | JObj fields =>
      match List.filter (fun f : string * Json => String.eqb f.1 name) fields with
      | [] => Ok None
      | [(_, v)] => Ok (Some v)
      | _ => Err ("duplicate field `" +:+ name +:+ "`")
      end
  | JArr l => Ok (l !! position)
  | _ => Err "invalid type"
  end.

(** A field without [#[serde(default)]], and one with it. *)
Definition required {A} (de : Json -> result string A) (name : string) (position : nat) (j : Json) : result string A :=
  found ← get_field name position j;
  match found with Some v => de v | None => Err ("missing field `" +:+ name +:+ "`") end.

Definition defaulted {A} (de : Json -> result string A) (d : A) (name : string) (position : nat) (j : Json) :
    result string A :=
  found ← get_field name position j;
  match found with Some v => de v | None => Ok d end.

(** The end of an array: a struct has [arity] fields. *)
Definition at_most (arity : nat) (j : Json) : result string unit :=
  match j with
  | JArr l => if (length l <=? arity)%nat then Ok tt else Err "trailing characters"
  | _ => Ok tt
  end.

Definition de_string (j : Json) : result string string :=
  match j with JStr s => Ok s | _ => Err "invalid type: expected a string" end.

Definition de_u16 (j : Json) : result string Z :=
  match j with
  | JNum n => if (0 <=? n) && (n <? 2 ^ 16) then Ok n else Err "invalid value: expected u16"
  | _ => Err "invalid type: expected u16"
  end.

Definition de_uuid `{!UuidText} (j : Json) : result string Uuid :=
  match j with JStr s => parse_str s | _ => Err "invalid type: expected a formatted UUID string" end.

(** [Value::get(name)], which keeps the last of the repeated fields. *)
Definition value_get (name : string) (j : Json) : option Json :=
  match j with
  | JObj fields => snd <$> last (List.filter (fun f : string * Json => String.eqb f.1 name) fields)
  | _ => None
  end.

Definition as_str (j : Json) : option string := match j with JStr s => Some s | _ => None end.

(** [Value]: a map sorted by key, which keeps the last of the repeated
    fields. *)
Fixpoint value_insert (k : string) (v : Json) (fields : list (string * Json)) : list (string * Json) :=
  match fields with
  | [] => [(k, v)]
  | (k', v') :: fields' =>
      match String.compare k k' with
      | Lt => (k, v) :: fields
      | Eq => (k, v) :: fields'
      | Gt => (k', v') :: value_insert k v fields'
      end
  end.

Fixpoint de_value (j : Json) : Json :=
  match j with
  | JArr l => JArr (map de_value l)
  | JObj fields => JObj (foldl (fun acc f => value_insert f.1 f.2 acc) [] (map (fun f => (f.1, de_value f.2)) fields))
  | _ => j
  end.
