(* ===== verification/Mpsc.v ===== *)
(** * Bounded channels: [tokio::sync::mpsc] and the task that drains them

    A channel of [capacity] items between its senders and one receiver.  The
    history of what was accepted and what was written stands beside the queue,
    so that order and loss can be stated. *)

From S2P Require Import Prelude.

Definition ChanId : Type := Z.
#[global] Instance chan_eq_dec : EqDecision ChanId := Z.eq_dec.
#[global] Instance chan_countable : Countable ChanId := _.
#[global] Instance chan_infinite : Infinite ChanId := _.
#[global] Typeclasses Opaque ChanId.

(** ** Channels *)

(** Who holds the receiving half: the handler until it spawns its write
    task; nobody once the task has ended or the handler has returned. *)
Inductive Receiver : Type := HeldByHandler | HeldByWriter | Dropped.
#[global] Instance receiver_eq_dec : EqDecision Receiver.
Proof. solve_decision. Defined.

(** [sent] and [written] are history: every frame a [send] accepted, and every
    frame the write task has put on the socket. *)
Record Channel (A : Type) : Type := {
  queue : list A;
  rx : Receiver;
  sent : list A;
  written : list A;
  wire : list bytes }.
Arguments queue {A}. Arguments rx {A}. Arguments sent {A}. Arguments written {A}. Arguments wire {A}.

Section channel.
Context {A : Type}.

Definition chan_new : Channel A :=
  {| queue := []; rx := HeldByHandler; sent := []; written := []; wire := [] |}.

(** [tx.send(f).await]: waits while the queue is full; fails when the
    receiver is gone. *)
Definition chan_send (capacity : nat) (f : A) (ch : Channel A) : option (bool * Channel A) :=
  if decide (rx ch = Dropped) then Some (false, ch)
  else if decide (length (queue ch) < capacity)%nat then
    Some (true, {| queue := queue ch ++ [f]; rx := rx ch; sent := sent ch ++ [f];
                   written := written ch; wire := wire ch |})
  else None.

Definition chan_spawn_writer (ch : Channel A) : Channel A :=
  if decide (rx ch = HeldByHandler) then
    {| queue := queue ch; rx := HeldByWriter; sent := sent ch; written := written ch; wire := wire ch |}
  else ch.

(** The receiver is dropped, with whatever it has not read. *)
Definition chan_close (ch : Channel A) : Channel A :=
  {| queue := []; rx := Dropped; sent := sent ch; written := written ch; wire := wire ch |}.

(** [rx.recv()] of a receiver that hands the item on itself: the oldest item,
    if there is one. *)
Definition chan_recv (ch : Channel A) : option (A * Channel A) :=
  match queue ch with
  | [] => None
  | f :: q => Some (f, {| queue := q; rx := rx ch; sent := sent ch; written := written ch ++ [f]; wire := wire ch |})
  end.

(** One turn of the write task: [rx.recv()], [to_bytes], [ws_tx.send].  It
    ends when the frame does not encode or the socket does not take it. *)
Definition write_task (to_bytes : A -> result string bytes) (socket_ok : bool)
    (ch : Channel A) : option (Channel A) :=
  match rx ch, queue ch with
  | HeldByWriter, f :: q =>
      match to_bytes f, socket_ok with
      | Ok b, true =>
          Some {| queue := q; rx := HeldByWriter; sent := sent ch;
                  written := written ch ++ [f]; wire := wire ch ++ [b] |}
      | _, _ => Some (chan_close ch)
      end
  | _, _ => None
  end.
End channel.

Definition fresh_chan {A} (m : gmap ChanId (Channel A)) : ChanId := fresh (dom m).

Definition send_in {A} (capacity : nat) (tx : ChanId) (f : A) (m : gmap ChanId (Channel A)) :
    option (bool * gmap ChanId (Channel A)) :=
  match m !! tx with
  | None => Some (false, m)
  | Some ch => '(sent, ch') ← chan_send capacity f ch; Some (sent, <[tx := ch']> m)
  end.

(** What [tokio::select!] finds ready, in the order the tunnels poll: the stop
    signal, a command, or neither. *)
Inductive selected (A : Type) : Type :=
| Stop
| Cmd (a : A)
| Idle.
#[global] Arguments Stop {A}.
#[global] Arguments Cmd {A} a.
#[global] Arguments Idle {A}.

Definition select_in {A} (stopped : bool) (stdin : ChanId) (m : gmap ChanId (Channel A)) :
    selected A * gmap ChanId (Channel A) :=
  if stopped then (Stop, m)
  else match m !! stdin ≫= chan_recv with
       | Some (a, ch) => (Cmd a, <[stdin := ch]> m)
       | None => (Idle, m)
       end.

(** ** The invariant of a channel *)

Section channels.
Context (capacity : nat).

(** Capacity respected; frames leave in the order they were accepted, each
    as its own encoding; nothing is written before the writer exists; while
    the receiver lives, nothing is lost. *)
Record chan_ok {A} (enc : A -> result string bytes) (ch : Channel A) : Prop := {
  ok_capacity : (length (queue ch) <= capacity)%nat;
  ok_prefix : written ch `prefix_of` sent ch;
  ok_alive : rx ch <> Dropped -> sent ch = written ch ++ queue ch;
  ok_held : rx ch = HeldByHandler -> written ch = [];
  ok_wire : Forall2 (fun f b => enc f = Ok b) (written ch) (wire ch) }.

Lemma chan_ok_new {A} (enc : A -> result string bytes) : chan_ok enc chan_new.
Proof. split; cbn; [lia|done..|constructor]. Qed.

Lemma chan_ok_close {A} (enc : A -> result string bytes) ch : chan_ok enc ch -> chan_ok enc (chan_close ch).
Proof. intros []. split; cbn; [lia|done..]. Qed.

Lemma chan_ok_spawn {A} (enc : A -> result string bytes) ch :
  chan_ok enc ch -> chan_ok enc (chan_spawn_writer ch).
Proof.
  intros []. unfold chan_spawn_writer. destruct (decide _) as [He|]; [|by split].
  split; cbn; [done|done| |done|done]. intros _. apply ok_alive0. congruence.
Qed.

Lemma chan_ok_send {A} (enc : A -> result string bytes) f ch b ch' :
  chan_ok enc ch -> chan_send capacity f ch = Some (b, ch') -> chan_ok enc ch'.
Proof.
  intros [] Hs. unfold chan_send in Hs.
  destruct (decide (rx ch = Dropped)); [by injection Hs as <- <-|].
  destruct (decide (length (queue ch) < capacity)%nat); [|done].
  injection Hs as <- <-. split; cbn; [rewrite length_app; cbn; lia| | |done|done].
  - by apply prefix_app_r.
  - intros _. rewrite ok_alive0 by done. by rewrite app_assoc.
Qed.

Lemma chan_ok_write {A} (enc : A -> result string bytes) socket_ok ch ch' :
  chan_ok enc ch -> write_task enc socket_ok ch = Some ch' -> chan_ok enc ch'.
Proof.
  intros Hok Hw. pose proof (chan_ok_close enc ch Hok) as Hclose. destruct Hok.
  unfold write_task in Hw. destruct (rx ch) eqn:Hrx; try done.
  destruct (queue ch) as [|f q] eqn:Hq; [done|].
  destruct (enc f) as [b|] eqn:He; [destruct socket_ok|]; injection Hw as <-; [|done..].
  cbn in *. split; cbn; [lia| | |done|].
  - rewrite ok_alive0 by done. exists q. by rewrite <-app_assoc.
  - intros _. rewrite ok_alive0 by done. by rewrite <-app_assoc.
  - apply Forall2_app; auto.
Qed.

Lemma map_Forall_alter_all {K A} `{!EqDecision K, !Countable K} (P : A -> Prop) (f : A -> A) (i : K) (m : gmap K A) :
  (forall a, P a -> P (f a)) -> map_Forall (fun _ => P) m -> map_Forall (fun _ => P) (alter f i m).
Proof.
  intros Hf Hm j a. rewrite lookup_alter_Some. intros [(-> & a' & Ha & ->)|[_ Ha]]; eauto.
Qed.

Lemma send_in_ok {A} (enc : A -> result string bytes) tx f m b m' :
  map_Forall (fun _ => chan_ok enc) m -> send_in capacity tx f m = Some (b, m') ->
  map_Forall (fun _ => chan_ok enc) m'.
Proof.
  intros Hm Hs. unfold send_in in Hs. destruct (m !! tx) as [ch|] eqn:Hch; [|by injection Hs as <- <-].
  destruct (chan_send capacity f ch) as [[b' ch']|] eqn:Hc; [|done]. injection Hs as <- <-.
  apply map_Forall_insert_2; [|done]. eapply chan_ok_send; [|done]. by eapply Hm.
Qed.

End channels.

(** ** Sending to many channels *)

Section broadcast.
Context {A : Type} (capacity : nat).
Implicit Types (m : gmap ChanId (Channel A)) (tx : ChanId) (f : A).

(** Channel [tx] takes at least [n] more frames, or its receiver is gone. *)
Definition room (n : nat) m tx : Prop :=
  forall ch, m !! tx = Some ch -> rx ch <> Dropped -> (length (queue ch) + n <= capacity)%nat.

(** Every live channel of [m] is one of [m'] that has accepted more frames. *)
Definition grows m m' : Prop :=
  forall tx ch, m !! tx = Some ch -> rx ch <> Dropped ->
    exists ch' l, m' !! tx = Some ch' /\ rx ch' <> Dropped /\ sent ch' = sent ch ++ l.

(** If [tx] is a live channel of [m], [m'] has accepted [f] on it since. *)
Definition accepted_since m m' tx f : Prop :=
  forall ch, m !! tx = Some ch -> rx ch <> Dropped ->
    exists ch' l, m' !! tx = Some ch' /\ sent ch' = sent ch ++ l /\ f ∈ l.

#[global] Instance grows_refl : Reflexive grows.
Proof. intros m tx ch Hch Hrx. exists ch, []. by rewrite app_nil_r. Qed.

#[global] Instance grows_trans : Transitive grows.
Proof.
  intros m1 m2 m3 H12 H23 tx ch Hch Hrx.
  destruct (H12 _ _ Hch Hrx) as (ch2 & l2 & Hch2 & Hrx2 & Hs2).
  destruct (H23 _ _ Hch2 Hrx2) as (ch3 & l3 & Hch3 & Hrx3 & Hs3).
  exists ch3, (l2 ++ l3). by rewrite Hs3, Hs2, app_assoc.
Qed.

Lemma accepted_then_grows m1 m2 m3 tx f :
  grows m1 m2 -> accepted_since m1 m2 tx f -> grows m2 m3 -> accepted_since m1 m3 tx f.
Proof.
  intros H12 Ha H23 ch Hch Hrx. destruct (Ha _ Hch Hrx) as (ch2 & l & Hch2 & Hs2 & Hf).
  destruct (H12 _ _ Hch Hrx) as (? & _ & Hch2' & Hrx2 & _). simplify_eq.
  destruct (H23 _ _ Hch2 Hrx2) as (ch3 & l3 & Hch3 & _ & Hs3).
  exists ch3, (l ++ l3). rewrite Hs3, Hs2, app_assoc. repeat split; [done..|]. set_solver.
Qed.

Lemma grows_then_accepted m1 m2 m3 tx f :
  grows m1 m2 -> accepted_since m2 m3 tx f -> accepted_since m1 m3 tx f.
Proof.
  intros H12 Ha ch Hch Hrx. destruct (H12 _ _ Hch Hrx) as (ch2 & l2 & Hch2 & Hrx2 & Hs2).
  destruct (Ha _ Hch2 Hrx2) as (ch3 & l & Hch3 & Hs3 & Hf).
  exists ch3, (l2 ++ l). rewrite Hs3, Hs2, app_assoc. repeat split; [done..|]. set_solver.
Qed.

(** A send where there is room returns at once. *)
Lemma send_in_room n m tx f :
  room (S n) m tx ->
  exists b m', send_in capacity tx f m = Some (b, m') /\ grows m m' /\ accepted_since m m' tx f /\
    forall tx', room (S n) m tx' -> room n m' tx'.
Proof.
  intros Hroom. unfold send_in.
  assert (Hless : forall m' tx', room (S n) m' tx' -> room n m' tx')
    by (intros m' tx' Hr ch Hch Hrx; specialize (Hr ch Hch Hrx); lia).
  destruct (m !! tx) as [ch|] eqn:Hch; cycle 1.
  { exists false, m. split; [done|]. split; [reflexivity|]. split; [|apply Hless]. intros ? ?. congruence. }
  unfold chan_send. destruct (decide (rx ch = Dropped)) as [Hrx|Hrx].
  { exists false, m. split; [cbn; by rewrite insert_id|]. split; [reflexivity|]. split; [|apply Hless].
    intros ? ?. congruence. }
  specialize (Hroom ch Hch Hrx).
  destruct (decide _) as [_|]; [|lia]. cbn. eexists true, _. split; [done|]. split; [|split].
  - intros tx' ch' Hch' Hrx'. rewrite lookup_insert. destruct (decide (tx = tx')) as [<-|].
    + eexists _, [f]. simplify_eq. done.
    + exists ch', []. by rewrite app_nil_r.
  - intros ch' Hch' Hrx'. simplify_eq. rewrite lookup_insert_eq. eexists _, [f]. split; [done|].
    split; [done|]. set_solver.
  - intros tx' Hr ch' Hch' Hrx'. rewrite lookup_insert in Hch'. destruct (decide (tx = tx')) as [<-|].
    + simplify_eq. specialize (Hr ch Hch Hrx). cbn in *. rewrite length_app. cbn. lia.
    + by eapply (Hless _ _ Hr).
Qed.
End broadcast.

(** A send into a channel nobody has used yet. *)
Lemma send_in_new {A} (capacity : nat) (tx : ChanId) (f : A) m :
  (0 < capacity)%nat -> m !! tx = Some chan_new ->
  send_in capacity tx f m = Some (true, <[tx := {| queue := [f]; rx := HeldByHandler; sent := [f];
                                          written := []; wire := [] |}]> m).
Proof.
  intros Hc Hm. unfold send_in, chan_send. rewrite Hm. cbn.
  destruct (decide (_ < capacity)%nat) as [|Hn]; [done|]. cbn in Hn. lia.
Qed.


