(* ===== verification/ServerState.v ===== *)
(** * The server's state and the effects of its tasks

    [server/src/http.rs] and [server/src/connection.rs]: the three shared maps
    of [AppState], the records they hold, and the lookups the handlers use.
    Around them, the world the tasks act on: the [mpsc] channels between a
    handler and its write task, the Postgres tables (schema of [README.md])
    and the Redis commands sent.  [sysE] lists the atomic effects of a task. *)

From S2P Require Import Prelude Async Mpsc RustStr Protocol Frame Externs.

(** ** [server/src/db/common.rs] *)

Record TokenRecord : Type := {
  tr_id : Uuid;
  tr_token_id : string;
  tr_token_hash : string;
  tr_user_id : Uuid;
  tr_expires_at : option SystemTime;
  tr_scopes : list string }.

Record NodeRecord : Type := {
  nr_id : Uuid;
  nr_user_id : Uuid;
  nr_name : option string;
  nr_hostname : string;
  nr_created_at : SystemTime }.

Record NodeClaimRecord : Type := {
  nc_id : Uuid;
  nc_user_id : Uuid;
  nc_public_key : string;
  nc_hostname : string;
  nc_metadata : Json;
  nc_created_at : SystemTime;
  nc_last_seen : option SystemTime;
  nc_revoked : bool }.

Record AuthChallengeRecord : Type := {
  ac_node_id : Uuid;
  ac_challenge : string;
  ac_expires_at : SystemTime }.

(** ** [common/src/node.rs] and [server/src/connection.rs]

    A [Sender] is the name of its channel; an [IpAddr] its text. *)

Definition IpAddr : Type := string.

Record Node : Type := {
  connected_at : SystemTime;
  last_heartbeat : SystemTime;
  ip : IpAddr;
  last_stats : option Stats }.

Record WebConnection : Type := {
  wc_connected_at : SystemTime;
  wc_last_heartbeat : SystemTime;
  wc_ip : IpAddr;
  wc_tx : ChanId }.

Definition WebConnection_new (now : SystemTime) (ip : IpAddr) (tx : ChanId) : WebConnection :=
  {| wc_connected_at := now; wc_last_heartbeat := now; wc_ip := ip; wc_tx := tx |}.

Record NodeConnection : Type := {
  node : Node;
  nc_tx : ChanId;
  node_record : NodeRecord;
  server_id : Uuid }.

Definition NodeConnection_new (now : SystemTime) (server_id : Uuid) (ip : IpAddr) (tx : ChanId)
    (node_record : NodeRecord) : NodeConnection :=
  {| node := {| connected_at := now; last_heartbeat := now; ip := ip; last_stats := None |};
     nc_tx := tx; node_record := node_record; server_id := server_id |}.

(** ** [TunnelSessionKey] and the shared maps of [AppState] *)

Record TunnelSessionKey : Type := { node_id : Uuid; sid : Z }.

#[global] Instance key_eq_dec : EqDecision TunnelSessionKey.
Proof. solve_decision. Defined.
#[global] Instance key_countable : Countable TunnelSessionKey.
Proof.
  refine (inj_countable' (fun k => (node_id k, sid k)) (fun p => {| node_id := p.1; sid := p.2 |}) _).
  by intros [].
Defined.

Record Shared : Type := {
  nodes : gmap Uuid NodeConnection;
  connections : gmap Uuid WebConnection;
  tunnel_sessions : gmap TunnelSessionKey (Uuid * Uuid) }.

Definition with_nodes f s : Shared :=
  {| nodes := f (nodes s); connections := connections s; tunnel_sessions := tunnel_sessions s |}.
Definition with_connections f s : Shared :=
  {| nodes := nodes s; connections := f (connections s); tunnel_sessions := tunnel_sessions s |}.
Definition with_sessions f s : Shared :=
  {| nodes := nodes s; connections := connections s; tunnel_sessions := f (tunnel_sessions s) |}.

(** [state.nodes.get(&id).map(|info| info.tx.clone())] *)
Definition node_sender (id : Uuid) (s : Shared) : option ChanId := nc_tx <$> nodes s !! id.

(** [common/src/server.rs] and [server/src/env.rs] *)
Record ServerIdentifier : Type := {
  si_id : Uuid;
  si_private_ip : string;
  si_public_ip : string;
  si_port : Z;
  si_fqdn : string }.

Record Env : Type := {
  mode : Mode;
  fqdn : string;
  ip_source : string;      (* the name of a [ClientIpSource] *)
  host : string;
  port : Z;
  access_control_allowed_origin : option string;
  database_url : string;
  database_max_connections : Z;
  redis_database_url : string;
  jwt_secret : string;
  jwt_ttl_secs : Z;
  challenge_ttl_secs : Z }.

(** The immutable fields of [AppState]; [debug_assertions] is the build's
    [cfg!] flag, and [version] is [env::version()]. *)
Record AppState : Type := {
  id : Uuid;
  server : ServerIdentifier;
  env : Env;
  debug_assertions : bool;
  version : string }.

(** ** The tables of the database *)

Record Tables : Type := {
  t_users : gset Uuid;
  t_pat_tokens : gmap string TokenRecord;   (* by the UNIQUE token_id *)
  t_nodes : gmap Uuid (NodeClaimRecord * option string);   (* the row and its nullable name *)
  t_auth_challenges : gmap Uuid AuthChallengeRecord }.

Definition with_t_nodes f t : Tables :=
  {| t_users := t_users t; t_pat_tokens := t_pat_tokens t;
     t_nodes := f (t_nodes t); t_auth_challenges := t_auth_challenges t |}.
Definition with_t_challenges f t : Tables :=
  {| t_users := t_users t; t_pat_tokens := t_pat_tokens t;
     t_nodes := t_nodes t; t_auth_challenges := f (t_auth_challenges t) |}.

Inductive RedisCmd : Type :=
| HSetMultiple (key : string) (fields : list (string * string))
| Expire (key : string) (secs : Z)
| Del (key : string).

(** The capacity of the channel between a handler and its write task. *)
Definition CHANNEL_CAPACITY : nat := 256.

(** ** The world and the effects *)

Record World : Type := {
  shared : Shared;
  tables : Tables;
  redis : list RedisCmd;
  web_channels : gmap ChanId (Channel WebFrameData.t);
  node_channels : gmap ChanId (Channel NodeFrameData.t) }.

Definition with_shared s w : World :=
  {| shared := s; tables := tables w; redis := redis w;
     web_channels := web_channels w; node_channels := node_channels w |}.
Definition with_tables t w : World :=
  {| shared := shared w; tables := t; redis := redis w;
     web_channels := web_channels w; node_channels := node_channels w |}.
Definition with_redis r w : World :=
  {| shared := shared w; tables := tables w; redis := r;
     web_channels := web_channels w; node_channels := node_channels w |}.
Definition with_web_channels m w : World :=
  {| shared := shared w; tables := tables w; redis := redis w;
     web_channels := m; node_channels := node_channels w |}.
Definition with_node_channels m w : World :=
  {| shared := shared w; tables := tables w; redis := redis w;
     web_channels := web_channels w; node_channels := m |}.

(** How the environment behaves at one effect: the clock, the random
    generators, and whether Postgres and Redis answer. *)
Record Choice : Type := {
  c_now : SystemTime;
  c_uuid : Uuid;
  c_entropy : bytes;
  c_db_ok : bool;
  c_redis_ok : bool }.

Inductive sysE : Type -> Type :=
| Now : sysE SystemTime
| NewV4 : sysE Uuid
| FillBytes : sysE bytes
| OnShared {R : Type} (f : Shared -> R * Shared) : sysE R
| OnTables {R : Type} (f : SystemTime -> Uuid -> Tables -> result string R * Tables) : sysE (result string R)
| OnRedis (cmd : RedisCmd) : sysE (result string unit)
| NewWebChannel : sysE ChanId
| NewNodeChannel : sysE ChanId
| SendWeb (tx : ChanId) (f : WebFrameData.t) : sysE bool
| SendNode (tx : ChanId) (f : NodeFrameData.t) : sysE bool
| SpawnWebWriter (tx : ChanId) : sysE unit
| SpawnNodeWriter (tx : ChanId) : sysE unit
| CloseWeb (tx : ChanId) : sysE unit
| CloseNode (tx : ChanId) : sysE unit.

Definition sys_exec {R} (e : sysE R) : Choice -> World -> option (R * World) :=
  match e in sysE R return Choice -> World -> option (R * World) with
  | Now => fun c w => Some (c_now c, w)
  | NewV4 => fun c w => Some (c_uuid c, w)
  | FillBytes => fun c w => Some (c_entropy c, w)
  | OnShared f => fun c w => let '(r, s) := f (shared w) in Some (r, with_shared s w)
  | OnTables f => fun c w =>
      if c_db_ok c then
        let '(r, t) := f (c_now c) (c_uuid c) (tables w) in Some (r, with_tables t w)
      else Some (Err "database error", w)
  | OnRedis cmd => fun c w =>
      if c_redis_ok c then Some (Ok tt, with_redis (redis w ++ [cmd]) w)
      else Some (Err "redis error", w)
  | NewWebChannel => fun c w =>
      let tx := fresh_chan (web_channels w) in
      Some (tx, with_web_channels (<[tx := chan_new]> (web_channels w)) w)
  | NewNodeChannel => fun c w =>
      let tx := fresh_chan (node_channels w) in
      Some (tx, with_node_channels (<[tx := chan_new]> (node_channels w)) w)
  | SendWeb tx f => fun c w =>
      '(sent, m) ← send_in CHANNEL_CAPACITY tx f (web_channels w); Some (sent, with_web_channels m w)
  | SendNode tx f => fun c w =>
      '(sent, m) ← send_in CHANNEL_CAPACITY tx f (node_channels w); Some (sent, with_node_channels m w)
  | SpawnWebWriter tx => fun c w =>
      Some (tt, with_web_channels (alter chan_spawn_writer tx (web_channels w)) w)
  | SpawnNodeWriter tx => fun c w =>
      Some (tt, with_node_channels (alter chan_spawn_writer tx (node_channels w)) w)
  | CloseWeb tx => fun c w =>
      Some (tt, with_web_channels (alter chan_close tx (web_channels w)) w)
  | CloseNode tx => fun c w =>
      Some (tt, with_node_channels (alter chan_close tx (node_channels w)) w)
  end.

#[global] Instance sys_handler : Handler sysE World Choice := @sys_exec.

Abbreviation task := (prog sysE).

Definition reading {R} (f : Shared -> R) : task R := perform (OnShared (fun s => (f s, s))).
Definition updating (f : Shared -> Shared) : task unit := perform (OnShared (fun s => (tt, f s))).

(** Steps of the world that no handler takes: the write tasks. *)
Section environment.
Context `{!Serde WebFrameData.t, !Serde NodeFrameData.t}.

Definition web_bytes (f : WebFrameData.t) : result string bytes := to_bytes (from_web f).
Definition node_bytes (f : NodeFrameData.t) : result string bytes := to_bytes (from_node f).

Inductive env_step : World -> World -> Prop :=
| env_write_web w tx ch ch' socket_ok :
    web_channels w !! tx = Some ch -> write_task web_bytes socket_ok ch = Some ch' ->
    env_step w (with_web_channels (<[tx := ch']> (web_channels w)) w)
| env_write_node w tx ch ch' socket_ok :
    node_channels w !! tx = Some ch -> write_task node_bytes socket_ok ch = Some ch' ->
    env_step w (with_node_channels (<[tx := ch']> (node_channels w)) w).
End environment.

(** ** The lookups of [AppState] and its HTTP views *)

Section lookups.
Context `{!UuidText}.

Definition get_node_id_by_cid_and_sid (cid : Uuid) (node_id : string) (sid : Z) : task (result string Uuid) :=
  match parse_str node_id with
  | Err err => Ret (Err ("failed to decode uuid " +:+ node_id +:+ ": " +:+ err))
  | Ok node_uuid =>
      let key := {| node_id := node_uuid; sid := sid |} in
      entry ← reading (fun s => tunnel_sessions s !! key);
      match entry with
      | None => Ret (Err ("node not found for session id " +:+ pretty sid))
      | Some (client_id, node_id) =>
          if negb (bool_decide (client_id = cid)) then
            Ret (Err ("correct cid was not found for sid " +:+ pretty sid))
          else Ret (Ok node_id)
      end
  end.

Definition get_connection_id_by_sid (sid : Z) (target : Uuid) : task (result string Uuid) :=
  let key := {| node_id := target; sid := sid |} in
  entry ← reading (fun s => tunnel_sessions s !! key);
  match entry with
  | None => Ret (Err ("node not found for session id " +:+ pretty sid))
  | Some (client_id, node_id) =>
      if negb (bool_decide (node_id = target)) then
        Ret (Err ("correct node_id was not found for sid " +:+ pretty sid))
      else Ret (Ok client_id)
  end.

(** The map guard that the source holds across the [send] keeps the entry
    from being removed meanwhile; the model lets that happen, so it allows
    more interleavings than the code. *)
Definition notify_client_by_cid (cid : Uuid) (frame : WebFrameData.t) : task (result string unit) :=
  connection ← reading (fun s => connections s !! cid);
  match connection with
  | None => Ret (Err ("connection " +:+ uuid_to_string cid +:+ " not found"))
  | Some connection =>
      sent ← perform (SendWeb (wc_tx connection) frame);
      if (sent : bool) then Ret (Ok tt)
      else Ret (Err ("failed to send frame to client " +:+ uuid_to_string cid +:+ ": channel closed"))
  end.

Definition json_uuid (u : Uuid) : Json := JStr (uuid_to_string u).

(** [#[derive(Serialize)]] of [Stats] *)
Definition stats_to_json (s : Stats) : Json :=
  let '(l1, l5, l15) := host_load_average s in
  JObj [("last_refreshed_secs", JNum (last_refreshed_secs s)); ("proc_id", JStr (proc_id s));
        ("proc_threads", JNum (proc_threads s)); ("proc_cpu", JFloat (proc_cpu s));
        ("proc_mem_bytes", JNum (proc_mem_bytes s)); ("proc_uptime_secs", JNum (proc_uptime_secs s));
        ("host_name", JStr (host_name s)); ("host_ip", JStr (host_ip s)); ("host_mac", JStr (host_mac s));
        ("host_cpu", JFloat (host_cpu s)); ("host_mem_used_bytes", JNum (host_mem_used_bytes s));
        ("host_mem_total_bytes", JNum (host_mem_total_bytes s));
        ("host_uptime_secs", JNum (host_uptime_secs s));
        ("host_load_average", JArr [JFloat l1; JFloat l5; JFloat l15]);
        ("host_os_info", JStr (host_os_info s)); ("host_connections", JNum (host_connections s));
        ("host_processes", JNum (host_processes s))].

(** [duration_since(..).unwrap_or_default().as_secs()] *)
Definition secs_since (now earlier : SystemTime) : Z :=
  match duration_since now earlier with Ok d => as_secs d | Err _ => 0 end.

Definition list_nodes : task Json :=
  now ← perform Now;
  entries ← reading (fun s => map_to_list (nodes s));
  Ret (JArr (map (fun '(id, info) =>
    JObj [("id", json_uuid id);
          ("name", JStr (nr_hostname (node_record info)));
          ("ip", JStr (ip (node info)));
          ("server_id", json_uuid (server_id info));
          ("connected_for_secs", JNum (secs_since now (connected_at (node info))));
          ("since_last_heartbeat_secs", JNum (secs_since now (last_heartbeat (node info))));
          ("stats", json_opt stats_to_json (last_stats (node info)))]) entries)).

Definition list_connections : task Json :=
  now ← perform Now;
  entries ← reading (fun s => map_to_list (connections s));
  Ret (JArr (map (fun '(id, info) =>
    JObj [("id", json_uuid id);
          ("ip", JStr (wc_ip info));
          ("connected_for_secs", JNum (secs_since now (wc_connected_at info)));
          ("since_last_heartbeat_secs", JNum (secs_since now (wc_last_heartbeat info)))]) entries)).

Context `{!JsonText}.

(** [NodeConnection::get_extended_stats], with the time it reads. *)
Definition get_extended_stats (now : SystemTime) (self : NodeConnection) (latency : Z) : result string string :=
  let record := node_record self in
  let name := match nr_name record with Some n => n | None => nr_hostname record end in
  connected_for ← duration_since now (connected_at (node self));
  since_last ← duration_since now (last_heartbeat (node self));
  Ok (json_to_string (JObj
    [("id", json_uuid (nr_id record)); ("name", JStr name); ("ip", JStr (ip (node self)));
     ("latency", JNum latency); ("server_id", json_uuid (server_id self));
     ("connected_for_secs", JNum (as_secs connected_for));
     ("since_last_heartbeat_secs", JNum (as_secs since_last));
     ("stats", json_opt stats_to_json (last_stats (node self)))])).
End lookups.

(** [build_cors]: the origin the layer allows, if any; [header_value] is
    [HeaderValue::from_str].  Methods and headers do not depend on the state. *)
Inductive AllowOrigin : Type := AnyOrigin | Exactly (origin : string) | NoOrigin.

Definition build_cors (header_value : string -> option string) (env : Env) : AllowOrigin :=
  if negb (is_production (mode env)) then AnyOrigin
  else match access_control_allowed_origin env with
       | Some s =>
           if Str.is_empty s then NoOrigin
           else match header_value s with Some origin => Exactly origin | None => NoOrigin end
       | None => NoOrigin
       end.

(** [readiness] and [healthz], as status codes. *)
Definition readiness (ready : bool) : Z := if ready then 200 else 503.
Definition healthz : Z := 200.

(** ** The abstract registry: who may use a session

    The contract the handlers rely on: session [(node, sid)] belongs to the
    one client recorded for it. *)

Definition session_of (s : Shared) (node : Uuid) (sid : Z) : option Uuid :=
  fst <$> tunnel_sessions s !! {| node_id := node; sid := sid |}.

(** A recorded session names the node of its own key. *)
Definition sessions_wf (s : Shared) : Prop :=
  forall key cid nid, tunnel_sessions s !! key = Some (cid, nid) -> nid = node_id key.

(** The sender the registry grants a client for a session: the session must be
    recorded for that client and its node be connected. *)
Definition granted `{!UuidText} (s : Shared) (cid : Uuid) (target : string) (sid : Z) (tx : ChanId) : Prop :=
  exists key_node nid,
    parse_str target = Ok key_node /\
    tunnel_sessions s !! {| node_id := key_node; sid := sid |} = Some (cid, nid) /\
    node_sender nid s = Some tx.

Section lookup_facts.
Context `{!UuidText}.

(** The run of a lookup: it reads once and changes nothing. *)
Lemma run_reading {R A} (f : Shared -> R) (k : R -> task A) cs w :
  run (reading f ≫= k) cs w = run (k (f (shared w))) (fun n => cs (S n)) w.
Proof. cbn. by destruct w. Qed.

Lemma wp_reading {R A} (f : Shared -> R) (k : R -> task A) Q w :
  wp (k (f (shared w))) Q w -> wp (reading f ≫= k) Q w.
Proof. intros Hwp c r w' [= <- <-]. by destruct w. Qed.

Lemma get_connection_id_by_sid_run sid target cs w :
  sessions_wf (shared w) ->
  exists r, run (get_connection_id_by_sid sid target) cs w = Done r w /\
    forall cid, r = Ok cid <-> session_of (shared w) target sid = Some cid.
Proof.
  intros Hwf. unfold get_connection_id_by_sid. cbv zeta. rewrite run_reading.
  unfold session_of. set (key := {| node_id := target; sid := sid |}).
  destruct (tunnel_sessions (shared w) !! key) as [[c n]|] eqn:Hs; cbn.
  - apply Hwf in Hs. cbn in Hs. subst n.
    rewrite bool_decide_true by done. eexists; split; [done|]. intros; split; congruence.
  - eexists; split; [done|]. intros; split; congruence.
Qed.
End lookup_facts.

(** A client's request for session [sid] of a node is resolved exactly
    when the node's name parses and the session is recorded for that very
    client; every other request is answered with an error.  The lookup always
    returns and changes nothing. *)
Theorem get_node_id_by_cid_and_sid_iff `{!UuidText} cid node sid cs w :
  exists r, run (get_node_id_by_cid_and_sid cid node sid) cs w = Done r w /\
    forall nid, r = Ok nid <->
      exists key_node, parse_str node = Ok key_node /\
        tunnel_sessions (shared w) !! {| node_id := key_node; sid := sid |} = Some (cid, nid).
Proof.
  unfold get_node_id_by_cid_and_sid. destruct (parse_str node) as [u|e] eqn:Hp.
  - cbv zeta. rewrite run_reading.
    destruct (tunnel_sessions (shared w) !! _) as [[c n]|] eqn:Hs.
    + case_bool_decide; cbn; eexists; (split; [done|]); intros nid; split.
      * intros [= <-]. exists u. by subst.
      * intros (u' & [= <-] & Hl). congruence.
      * done.
      * intros (u' & [= <-] & Hl). congruence.
    + cbn; eexists; (split; [done|]); intros nid; split; [done|].
      intros (u' & [= <-] & Hl). congruence.
  - cbn; eexists; (split; [done|]); intros nid; split; [done|]. intros (u & Hu & _). done.
Qed.

(** ** Channels *)

Section channels.
Context `{!Serde WebFrameData.t, !Serde NodeFrameData.t}.

Definition channels_ok (w : World) : Prop :=
  map_Forall (fun _ => chan_ok CHANNEL_CAPACITY web_bytes) (web_channels w) /\
  map_Forall (fun _ => chan_ok CHANNEL_CAPACITY node_bytes) (node_channels w).

(** No effect of any task breaks the channels. *)
Lemma channels_effect {R} (e : sysE R) : effect_preserves channels_ok R e.
Proof.
  intros c w r w' [Hw Hn] He. destruct e; cbn in He;
    try (injection He as <- <-; split; cbn; try done;
         first [apply map_Forall_insert_2; [apply chan_ok_new|done]
               |apply map_Forall_alter_all; [intros; first [by apply chan_ok_spawn|by apply chan_ok_close]|done]]).
  - by destruct (f (shared w)); injection He as <- <-.
  - destruct (c_db_ok c); [destruct (f (c_now c) (c_uuid c) (tables w))|]; by injection He as <- <-.
  - destruct (c_redis_ok c); by injection He as <- <-.
  - destruct (send_in CHANNEL_CAPACITY tx f (web_channels w)) as [[b m]|] eqn:Hs; [|done].
    injection He as <- <-. split; [|done]. by eapply send_in_ok.
  - destruct (send_in CHANNEL_CAPACITY tx f (node_channels w)) as [[b m]|] eqn:Hs; [|done].
    injection He as <- <-. split; [done|]. by eapply send_in_ok.
Qed.

Lemma channels_env w w' : env_step w w' -> channels_ok w -> channels_ok w'.
Proof.
  intros [? tx ch ch' b Hch Hw|? tx ch ch' b Hch Hw] [Hwb Hnb]; split; cbn; try done;
    (apply map_Forall_insert_2; [|done]); eapply chan_ok_write; try done;
    [by eapply Hwb|by eapply Hnb].
Qed.
End channels.

(** However handlers and write tasks interleave, every channel keeps at
    most 256 queued frames, and the socket has received a prefix of the
    accepted frames, in order, each in its own encoding; until the receiver is
    dropped the rest of them is still queued, and before the write task is
    spawned nothing has been written at all. *)
Theorem channels_fifo `{!Serde WebFrameData.t, !Serde NodeFrameData.t} {T} (spawnable : task T -> Prop) w ts cf :
  channels_ok w -> rtc (cstep env_step spawnable) (w, ts) cf -> channels_ok cf.1.
Proof.
  intros Hw Hsteps. eapply invariant_reachable; [apply channels_env| |exact Hsteps|exact Hw|].
  - intros p _. apply preserves_effects, all_effects_any. intros R e. apply channels_effect.
  - apply Forall_forall. intros p _. apply preserves_effects, all_effects_any. intros R e. apply channels_effect.
Qed.

Lemma with_tables_id w : with_tables (tables w) w = w.
Proof. by destruct w. Qed.
Lemma with_shared_id w : with_shared (shared w) w = w.
Proof. by destruct w. Qed.

(** Effects that leave the shared maps alone. *)
Definition off_registry (R : Type) (e : sysE R) : Prop :=
  match e with OnShared f => forall s, (f s).2 = s | _ => True end.

Lemma off_registry_shared (P : Shared -> Prop) R (e : sysE R) :
  off_registry R e -> effect_preserves (fun w => P (shared w)) R e.
Proof.
  intros Ha c w r w' HP He. destruct e; cbn in *; try done; try (by injection He as <- <-).
  - specialize (Ha (shared w)). destruct (f (shared w)) as [r' s']. injection He as <- <-. cbn in *. by subst.
  - destruct (c_db_ok c); [destruct (f (c_now c) (c_uuid c) (tables w))|]; by injection He as <- <-.
  - destruct (c_redis_ok c); by injection He as <- <-.
  - destruct (send_in CHANNEL_CAPACITY tx f (web_channels w)) as [[b m]|]; [|done]. by injection He as <- <-.
  - destruct (send_in CHANNEL_CAPACITY tx f (node_channels w)) as [[b m]|]; [|done]. by injection He as <- <-.
Qed.
