(* ===== verification/ServerDb.v ===== *)
(** * The server's two stores

    [server/src/db/postgres.rs] and [server/src/db/redis.rs].  A query is one
    atomic effect on the tables whose constraints [README.md] gives: primary
    keys, the UNIQUE public key, the foreign keys.  Its error carries the
    text of [.context(..)]. *)

From S2P Require Import Prelude Async Mpsc RustStr Protocol Externs JsonDe ServerState.

(** ** [impl Database] *)

Definition query {R} (context : string)
    (f : SystemTime -> Uuid -> Tables -> result string R * Tables) : task (result string R) :=
  r ← perform (OnTables f);
  Ret (match r with Ok a => Ok a | Err _ => Err context end).

(** [fetch_one]: no row is an error. *)
Definition fetch_one {R} (o : option R) : result string R := ok_or "no rows returned" o.

Definition node_row_record (row : NodeClaimRecord * option string) : NodeRecord :=
  {| nr_id := nc_id row.1; nr_user_id := nc_user_id row.1; nr_name := row.2;
     nr_hostname := nc_hostname row.1; nr_created_at := nc_created_at row.1 |}.

Definition claim_of (row : option (NodeClaimRecord * option string)) : option NodeClaimRecord :=
  fst <$> row.

Definition find_by_public_key (key : string) (t : Tables) : option (NodeClaimRecord * option string) :=
  '(_, (_, row)) ← list_find (fun p : Uuid * (NodeClaimRecord * option string) => nc_public_key p.2.1 = key)
    (map_to_list (t_nodes t));
  Some row.

Definition get_node_by_id (node_id : Uuid) : task (result string NodeRecord) :=
  query "failed to retrieve node by id" (fun _ _ t =>
    (fetch_one (node_row_record <$> t_nodes t !! node_id), t)).

Definition get_token_by_id (token_id : string) : task (result string TokenRecord) :=
  query "failed to retrieve token by id" (fun _ _ t =>
    (fetch_one (t_pat_tokens t !! token_id), t)).

Definition user_exists (user_id : Uuid) : task (result string bool) :=
  query "failed to check user existence" (fun _ _ t =>
    (Ok (bool_decide (user_id ∈ t_users t)), t)).

Definition get_node_by_public_key (public_key : string) : task (result string (option NodeClaimRecord)) :=
  query "failed to retrieve node by public key" (fun _ _ t =>
    (Ok (claim_of (find_by_public_key public_key t)), t)).

(** INSERT .. ON CONFLICT (public_key) DO UPDATE: the row that has the key
    keeps its owner and gets the new hostname and metadata; otherwise a row
    with a generated id is inserted, whose owner must exist. *)
Definition claim_row (now : SystemTime) (fresh_id user_id : Uuid) (public_key hostname : string)
    (metadata : Json) (t : Tables) : result string NodeClaimRecord * Tables :=
  match find_by_public_key public_key t with
  | Some (row, name) =>
      let row' := {| nc_id := nc_id row; nc_user_id := nc_user_id row; nc_public_key := nc_public_key row;
                     nc_hostname := hostname; nc_metadata := metadata;
                     nc_created_at := nc_created_at row; nc_last_seen := nc_last_seen row;
                     nc_revoked := nc_revoked row |} in
      (Ok row', with_t_nodes (<[nc_id row := (row', name)]>) t)
  | None =>
      if negb (bool_decide (user_id ∈ t_users t)) then (Err "violates foreign key constraint", t)
      else match t_nodes t !! fresh_id with
           | Some _ => (Err "duplicate key value violates unique constraint", t)
           | None =>
               let row := {| nc_id := fresh_id; nc_user_id := user_id; nc_public_key := public_key;
                             nc_hostname := hostname; nc_metadata := metadata;
                             nc_created_at := now; nc_last_seen := None; nc_revoked := false |} in
               (Ok row, with_t_nodes (<[fresh_id := (row, None)]>) t)
           end
  end.

Definition claim_node_by_public_key (user_id : Uuid) (public_key hostname : string) (metadata : Json) :
    task (result string NodeClaimRecord) :=
  query "failed to claim node by public key" (fun now fresh_id t =>
    claim_row now fresh_id user_id public_key hostname metadata t).

Definition get_node_claim_by_id (node_id : Uuid) : task (result string NodeClaimRecord) :=
  query "failed to retrieve node claim by id" (fun _ _ t =>
    (fetch_one (claim_of (t_nodes t !! node_id)), t)).

Definition get_node_claim_by_id_optional (node_id : Uuid) : task (result string (option NodeClaimRecord)) :=
  query "failed to retrieve node claim by id" (fun _ _ t =>
    (Ok (claim_of (t_nodes t !! node_id)), t)).

Definition upsert_auth_challenge (node_id : Uuid) (challenge : string) (expires_at : SystemTime) :
    task (result string unit) :=
  query "failed to upsert auth challenge" (fun _ _ t =>
    match t_nodes t !! node_id with
    | None => (Err "violates foreign key constraint", t)
    | Some _ =>
        (Ok tt, with_t_challenges (<[node_id := {| ac_node_id := node_id; ac_challenge := challenge;
                                                   ac_expires_at := expires_at |}]>) t)
    end).

Definition challenge_matches (node_id : Uuid) (challenge : string) (t : Tables) : option AuthChallengeRecord :=
  record ← t_auth_challenges t !! node_id;
  if bool_decide (ac_challenge record = challenge) then Some record else None.

Definition get_auth_challenge (node_id : Uuid) (challenge : string) :
    task (result string (option AuthChallengeRecord)) :=
  query "failed to get auth challenge" (fun _ _ t => (Ok (challenge_matches node_id challenge t), t)).

Definition consume_auth_challenge (node_id : Uuid) (challenge : string) : task (result string unit) :=
  query "failed to consume auth challenge" (fun _ _ t =>
    (Ok tt, match challenge_matches node_id challenge t with
            | Some _ => with_t_challenges (delete node_id) t
            | None => t
            end)).

Definition touch_row (now : SystemTime) (row : NodeClaimRecord * option string) : NodeClaimRecord * option string :=
  ({| nc_id := nc_id row.1; nc_user_id := nc_user_id row.1; nc_public_key := nc_public_key row.1;
      nc_hostname := nc_hostname row.1; nc_metadata := nc_metadata row.1;
      nc_created_at := nc_created_at row.1; nc_last_seen := Some now; nc_revoked := nc_revoked row.1 |}, row.2).

Definition touch_node_last_seen (node_id : Uuid) : task (result string unit) :=
  query "failed to update node last_seen" (fun now _ t =>
    (Ok tt, with_t_nodes (alter (touch_row now) node_id) t)).

(** ** [impl MemoryDB] *)

Section redis.
Context `{!UuidText, !JsonText, !DateText}.

Definition node_record_to_json (self : NodeRecord) : string :=
  json_to_string (JObj
    [("id", json_uuid (nr_id self)); ("user_id", json_uuid (nr_user_id self));
     ("name", json_opt JStr (nr_name self)); ("hostname", JStr (nr_hostname self));
     ("created_at", JStr (date_to_string (nr_created_at self)))]).

Definition server_get_encoded (self : ServerIdentifier) : string :=
  json_to_string_pretty (JObj
    [("id", json_uuid (si_id self)); ("private_ip", JStr (si_private_ip self));
     ("public_ip", JStr (si_public_ip self)); ("port", JNum (si_port self));
     ("fqdn", JStr (si_fqdn self))]).

(** [hset_multiple(..).await?] followed by [expire(.., 120).await?] *)
Definition hset_with_ttl (key : string) (fields : list (string * string)) : task (result string unit) :=
  r ← perform (OnRedis (HSetMultiple key fields));
  match r with
  | Err e => Ret (Err e)
  | Ok _ => perform (OnRedis (Expire key 120))
  end.

Definition server_key (id : Uuid) : string := "phirepass:servers:" +:+ uuid_to_string id.
Definition node_key (node : NodeRecord) : string :=
  "phirepass:users:" +:+ uuid_to_string (nr_user_id node) +:+ ":nodes:" +:+ uuid_to_string (nr_id node).
Definition connection_key (cid : Uuid) : string := "phirepass:connections:" +:+ uuid_to_string cid.

Definition save_server (node_id : Uuid) (server_payload server_stats : string) : task (result string unit) :=
  hset_with_ttl (server_key node_id) [("server", server_payload); ("stats", server_stats)].

Definition update_node_stats (node : NodeRecord) (server : ServerIdentifier) (stats_payload : string) :
    task (result string unit) :=
  hset_with_ttl (node_key node)
    [("node", node_record_to_json node); ("stats", stats_payload); ("server", server_get_encoded server)].

Definition with_context {A} (context : string) (r : result string A) : result string A :=
  match r with Ok a => Ok a | Err _ => Err context end.

Definition set_node_connected (node : NodeRecord) (server : ServerIdentifier) : task (result string unit) :=
  r ← update_node_stats node server "";
  Ret (with_context "failed to set node connected by updating node stats" r).

Definition set_node_disconnected (node : NodeRecord) : task (result string unit) :=
  perform (OnRedis (Del (node_key node))).

Definition refresh_connection (cid : Uuid) (ip : IpAddr) (server : ServerIdentifier) :
    task (result string unit) :=
  hset_with_ttl (connection_key cid)
    [("connection", json_to_string (JObj [("id", json_uuid cid); ("ip", JStr ip)]));
     ("server", server_get_encoded server)].

Definition set_connection_connected (cid : Uuid) (ip : IpAddr) (server : ServerIdentifier) :
    task (result string unit) :=
  r ← refresh_connection cid ip server;
  Ret (with_context "failed to set connection connected by refreshing the connection" r).

Definition set_connection_disconnected (cid : Uuid) : task (result string unit) :=
  perform (OnRedis (Del (connection_key cid))).
End redis.

(** ** [ServerIdentifier::get_decoded] *)

Definition server_of_json `{!UuidText} (j : Json) : result string ServerIdentifier :=
  id ← required de_uuid "id" 0 j;
  private_ip ← required de_string "private_ip" 1 j;
  public_ip ← required de_string "public_ip" 2 j;
  port ← required de_u16 "port" 3 j;
  fqdn ← required de_string "fqdn" 4 j;
  _ ← at_most 5 j;
  Ok {| si_id := id; si_private_ip := private_ip; si_public_ip := public_ip; si_port := port; si_fqdn := fqdn |}.

Definition server_get_decoded `{!UuidText, !JsonParse} (raw : string) : result string ServerIdentifier :=
  j ← json_from_str raw; server_of_json j.

Lemma server_roundtrip `{!UuidText, !UuidTextLaws, !JsonText, !JsonParse, !JsonLaws} s :
  fits 128 (si_id s) -> fits 16 (si_port s) -> server_get_decoded (server_get_encoded s) = Ok s.
Proof.
  intros Hid [Hp Hmax]. unfold server_get_decoded, server_get_encoded.
  assert (flat [("id", json_uuid (si_id s)); ("private_ip", JStr (si_private_ip s));
    ("public_ip", JStr (si_public_ip s)); ("port", JNum (si_port s)); ("fqdn", JStr (si_fqdn s))] = true) as Hflat.
  { cbn. assert (-(2 ^ 63) <=? si_port s = true) as -> by lia. assert (si_port s <? 2 ^ 64 = true) as -> by lia. done. }
  rewrite json_parse_pretty by done. cbn. rewrite parse_to_string by done. cbn.
  assert (0 <=? si_port s = true) as -> by lia. assert (si_port s <? 2 ^ 16 = true) as -> by lia. cbn. by destruct s.
Qed.

(** ** Well-formed tables *)

(** The constraints of the schema. *)
Record tables_wf (t : Tables) : Prop := {
  wf_pk : forall id row, t_nodes t !! id = Some row -> nc_id row.1 = id;
  wf_unique : forall id1 id2 r1 r2, t_nodes t !! id1 = Some r1 -> t_nodes t !! id2 = Some r2 ->
    nc_public_key r1.1 = nc_public_key r2.1 -> id1 = id2;
  wf_owner : forall id row, t_nodes t !! id = Some row -> nc_user_id row.1 ∈ t_users t;
  wf_challenge : forall id ch, t_auth_challenges t !! id = Some ch ->
    ac_node_id ch = id /\ is_Some (t_nodes t !! id) }.

Lemma find_by_public_key_some key t row :
  tables_wf t ->
  find_by_public_key key t = Some row <->
  t_nodes t !! nc_id row.1 = Some row /\ nc_public_key row.1 = key.
Proof.
  intros Hwf. unfold find_by_public_key.
  destruct (list_find _ (map_to_list (t_nodes t))) as [[i [id r]]|] eqn:Hf; cbn.
  - apply list_find_Some in Hf as (Hi & Hk & _). cbn in Hk.
    apply list_elem_of_lookup_2, elem_of_map_to_list in Hi. pose proof (wf_pk t Hwf _ _ Hi).
    split.
    + intros [= <-]. by subst id.
    + intros [Hrow Hkey].
      rewrite (wf_unique t Hwf _ _ r row Hi Hrow) in Hi by congruence. congruence.
  - split; [done|]. intros [Hrow Hkey]. apply list_find_None in Hf.
    rewrite Forall_forall in Hf.
    destruct (Hf (nc_id row.1, row)); [by apply elem_of_map_to_list|done].
Qed.

Lemma find_by_public_key_none key t :
  find_by_public_key key t = None ->
  forall id row, t_nodes t !! id = Some row -> nc_public_key row.1 <> key.
Proof.
  unfold find_by_public_key. intros Hf id row Hrow.
  destruct (list_find _ (map_to_list (t_nodes t))) as [[i [j r]]|] eqn:Hl; cbn in Hf; [done|].
  apply list_find_None in Hl. rewrite Forall_forall in Hl.
  apply (Hl (id, row)). by apply elem_of_map_to_list.
Qed.
