(* ===== verification/ServerWeb.v ===== *)
(** * Web clients: [server/src/web.rs]

    The life of a web socket: authentication, registration, the message loop
    with one handler per frame, and the clean-up. *)

From S2P Require Import Prelude Async Mpsc RustStr Protocol Frame Externs ServerState ServerDb.

Record WebJwtClaims : Type := {
  wj_sub : string;
  wj_exp : Z;
  wj_iat : option Z;
  wj_provider : option string }.

(** [ws_web_handler]: the sub-protocols the upgrade answers with. *)
Definition requested_protocols (headers : gmap string (option string)) : list string :=
  match headers !! "sec-websocket-protocol" with
  | Some (Some value) =>
      filter (fun part => Str.is_empty part = false) (map Str.trim (Str.split ","%char value))
  | _ => []
  end.

Section web.
Context `{!UuidText, !JsonText, !DateText, !JwtCodec WebJwtClaims}.
Context `{!Serde WebFrameData.t, !Serde NodeFrameData.t}.

(** ** Authentication *)

(** [tx.send(frame).await.map_err(..)?] *)
Definition send_web (tx : ChanId) (frame : WebFrameData.t) (error : string) : task (result string unit) :=
  sent ← perform (SendWeb tx frame);
  Ret (if (sent : bool) then Ok tt else Err error).

Definition auth_error (message : string) (msg_id : option Z) : WebFrameData.t :=
  WebFrameData.Error FrameError.Authentication message msg_id.

Definition successful_auth (tx : ChanId) (cid : Uuid) (version : string) (msg_id : option Z) :
    task (result string unit) :=
  send_web tx (WebFrameData.AuthSuccess cid version msg_id) "failed to send auth response".

Definition authenticate_web_jwt (state : AppState) (token : string) : task (result string WebJwtClaims) :=
  now ← perform Now;
  match jwt_decode now (jwt_secret (env state)) token with
  | Err e => Ret (Err e)
  | Ok claims =>
      match parse_str (wj_sub claims) with
      | Err e => Ret (Err ("invalid jwt sub claim: " +:+ e))
      | Ok user_id =>
          exists_ ←? user_exists user_id;
          Ret (if (exists_ : bool) then Ok claims else Err "user not found")
      end
  end.

Definition validate_jwt (tx : ChanId) (state : AppState) (token : string) (cid : Uuid) (msg_id : option Z) :
    task (result string WebJwtClaims) :=
  r ← authenticate_web_jwt state token;
  match r with
  | Ok claims => Ret (Ok claims)
  | Err err =>
      _ ←? send_web tx (auth_error "failed to validate token" msg_id)
             "failed to send auth response after auth failure";
      Ret (Err ("web jwt authentication failed: " +:+ err))
  end.

Definition validate_user_node (tx : ChanId) (state : AppState) (claims : WebJwtClaims)
    (node_id : string) (cid : Uuid) (msg_id : option Z) : task (result string unit) :=
  match parse_str (wj_sub claims) with
  | Err e => Ret (Err ("invalid jwt sub claim: " +:+ e))
  | Ok user_id =>
      match parse_str node_id with
      | Err e => Ret (Err ("invalid node id: " +:+ e))
      | Ok node_id =>
          r ← get_node_by_id node_id;
          match r with
          | Err err =>
              _ ←? send_web tx (auth_error "failed to validate node ownership" msg_id)
                     "failed to send node ownership validation error";
              Ret (Err ("failed to validate node ownership: " +:+ err))
          | Ok node =>
              if negb (bool_decide (nr_user_id node = user_id)) then
                _ ←? send_web tx (auth_error "you do not own this node" msg_id)
                       "failed to send node ownership error to client";
                Ret (Err ("user " +:+ uuid_to_string user_id +:+ " does not own node "
                            +:+ uuid_to_string node_id))
              else Ret (Ok tt)
          end
      end
  end.

(** The first message must be an [Auth] frame.  Returns the rest of the
    stream beside the result. *)
Definition auth_frame (msg : result string Message) : task (result string WebFrameData.t) :=
  match msg with
  | Err e => Ret (Err e)
  | Ok (Binary data) =>
      frame ←? lift_call (decode native data);
      match Frame.data frame with
      | FrameData.Web d => Ret (Ok d)
      | FrameData.Node _ => Ret (Err "expected web frame for auth, got node frame")
      end
  | Ok (Close _) => Ret (Err "connection closed before auth")
  | Ok _ => Ret (Err "expected binary message for auth")
  end.

Definition authenticate (web_frame : WebFrameData.t) (tx : ChanId) (state : AppState) :
    task (result string Uuid) :=
  match web_frame with
  | WebFrameData.Auth token node_id version msg_id =>
      cid ← perform NewV4;
      _ ←? (if negb (debug_assertions state) then
              claims ←? validate_jwt tx state token cid msg_id;
              validate_user_node tx state claims node_id cid msg_id
            else Ret (Ok tt));
      _ ←? successful_auth tx cid version msg_id;
      Ret (Ok cid)
  | _ => Ret (Err "expected Auth as first message")
  end.

Definition wait_for_auth (ws_rx : WsStream) (tx : ChanId) (state : AppState) :
    task (result string Uuid * WsStream) :=
  match ws_rx with
  | [] => Ret (Err "connection closed before auth", [])
  | msg :: ws_rx =>
      r ← (web_frame ←? auth_frame msg; authenticate web_frame tx state);
      Ret (r, ws_rx)
  end.

(** ** Handlers *)

Definition update_web_heartbeat (state : AppState) (cid : Uuid) : task unit :=
  now ← perform Now;
  updating (with_connections (alter (fun info =>
    {| wc_connected_at := wc_connected_at info; wc_last_heartbeat := now;
       wc_ip := wc_ip info; wc_tx := wc_tx info |}) cid)).

(** The part that eight handlers of the source repeat: resolve the session,
    find its node's sender, send. *)
Definition forward_in_session (cid : Uuid) (sid : Z) (target : string) (frame : NodeFrameData.t) : task unit :=
  r ← get_node_id_by_cid_and_sid cid target sid;
  match r with
  | Err _ => Ret tt
  | Ok node_id =>
      tx ← reading (node_sender node_id);
      match tx with
      | None => Ret tt
      | Some tx => _ ← perform (SendNode tx frame); Ret tt
      end
  end.

Definition handle_web_tunnel_data (cid : Uuid) (protocol sid : Z) (node_id : string) (data : Bytes) : task unit :=
  forward_in_session cid sid node_id (NodeFrameData.TunnelData protocol cid sid data).

Definition handle_sftp_list (cid : Uuid) (sid : Z) (target path : string) (msg_id : option Z) : task unit :=
  forward_in_session cid sid target (NodeFrameData.SFTPList cid path sid msg_id).

Definition handle_sftp_download_start (cid : Uuid) (sid : Z) (target : string) (msg_id : option Z)
    (download : SFTPDownloadStart) : task unit :=
  forward_in_session cid sid target (NodeFrameData.SFTPDownloadStart cid sid msg_id download).

Definition handle_sftp_download_chunk_request (cid : Uuid) (sid : Z) (target : string) (msg_id : option Z)
    (download_id chunk_index : Z) : task unit :=
  forward_in_session cid sid target
    (NodeFrameData.SFTPDownloadChunkRequest cid sid msg_id download_id chunk_index).

Definition handle_sftp_upload_start (cid : Uuid) (sid : Z) (target : string) (msg_id : option Z)
    (upload : SFTPUploadStart) : task unit :=
  forward_in_session cid sid target (NodeFrameData.SFTPUploadStart cid sid msg_id upload).

Definition handle_sftp_upload (cid : Uuid) (sid : Z) (target : string) (msg_id : option Z)
    (chunk : SFTPUploadChunk) : task unit :=
  forward_in_session cid sid target (NodeFrameData.SFTPUpload cid sid msg_id chunk).

Definition handle_sftp_delete (cid : Uuid) (sid : Z) (target : string) (msg_id : option Z)
    (data : SFTPDelete) : task unit :=
  forward_in_session cid sid target (NodeFrameData.SFTPDelete cid sid msg_id data).

Definition handle_web_resize (cid : Uuid) (sid : Z) (target : string) (cols rows px_width px_height : Z) :
    task unit :=
  forward_in_session cid sid target (NodeFrameData.SSHWindowResize cid sid cols rows px_width px_height).

Definition handle_web_open_tunnel (cid : Uuid) (protocol : Z) (target : string) (msg_id : option Z)
    (username password : option string) : task unit :=
  match parse_str target with
  | Err _ => Ret tt
  | Ok node_id =>
      node_tx ← reading (node_sender node_id);
      match node_tx with
      | None =>
          _ ← notify_client_by_cid cid (WebFrameData.Error FrameError.Generic
                ("Node[id=" +:+ uuid_to_string node_id +:+ "] could not be found") msg_id);
          Ret tt
      | Some tx =>
          _ ← perform (SendNode tx (NodeFrameData.OpenTunnel protocol cid username password msg_id));
          Ret tt
      end
  end.

(** The [match web_frame] of [handle_web_messages]. *)
Definition handle_web_frame (state : AppState) (cid : Uuid) (web_frame : WebFrameData.t) : task Flow :=
  match web_frame with
  | WebFrameData.Heartbeat => update_web_heartbeat state cid;; Ret Continue
  | WebFrameData.OpenTunnel protocol target username password msg_id =>
      handle_web_open_tunnel cid protocol target msg_id username password;; Ret Continue
  | WebFrameData.TunnelData protocol node_id sid data =>
      handle_web_tunnel_data cid protocol sid node_id data;; Ret Continue
  | WebFrameData.SSHWindowResize node_id sid cols rows px_width px_height =>
      handle_web_resize cid sid node_id cols rows px_width px_height;; Ret Continue
  | WebFrameData.SFTPList node_id path sid msg_id =>
      handle_sftp_list cid sid node_id path msg_id;; Ret Continue
  | WebFrameData.SFTPDownloadStart node_id sid msg_id download =>
      handle_sftp_download_start cid sid node_id msg_id download;; Ret Continue
  | WebFrameData.SFTPDownloadChunkRequest node_id sid msg_id download_id chunk_index =>
      handle_sftp_download_chunk_request cid sid node_id msg_id download_id chunk_index;; Ret Continue
  | WebFrameData.SFTPUploadStart node_id sid msg_id upload =>
      handle_sftp_upload_start cid sid node_id msg_id upload;; Ret Continue
  | WebFrameData.SFTPUpload node_id sid msg_id chunk =>
      handle_sftp_upload cid sid node_id msg_id chunk;; Ret Continue
  | WebFrameData.SFTPDelete node_id sid msg_id data =>
      handle_sftp_delete cid sid node_id msg_id data;; Ret Continue
  | WebFrameData.Auth _ _ _ _ | WebFrameData.AuthSuccess _ _ _ | WebFrameData.TunnelOpened _ _ _
  | WebFrameData.TunnelClosed _ _ _ | WebFrameData.SFTPDownloadChunk _ _ _
  | WebFrameData.SFTPListItems _ _ _ _ | WebFrameData.SFTPUploadChunkAck _ _ _
  | WebFrameData.SFTPUploadStartResponse _ _ _ | WebFrameData.SFTPDownloadStartResponse _ _ _
  | WebFrameData.Error _ _ _ => Ret Break
  end.

Definition handle_web_message (state : AppState) (cid : Uuid) (msg : result string Message) : task Flow :=
  match msg with
  | Err _ => Ret Break
  | Ok (Binary data) =>
      frame ← lift_call (decode native data);
      match frame with
      | Err _ => Ret Break
      | Ok frame =>
          match Frame.data frame with
          | FrameData.Web web_frame => handle_web_frame state cid web_frame
          | FrameData.Node _ => Ret Break
          end
      end
  | Ok (Close _) => Ret Break
  | Ok _ => Ret Continue
  end.

Fixpoint handle_web_messages (state : AppState) (cid : Uuid) (ws_rx : WsStream) : task unit :=
  match ws_rx with
  | [] => Ret tt
  | msg :: ws_rx =>
      flow ← handle_web_message state cid msg;
      match flow with
      | Break => Ret tt
      | Continue => handle_web_messages state cid ws_rx
      end
  end.

(** ** Clean-up and the life of the socket *)

Fixpoint send_disconnects (cid : Uuid) (conns : list NodeConnection) : task unit :=
  match conns with
  | [] => Ret tt
  | conn :: conns =>
      _ ← perform (SendNode (nc_tx conn) (NodeFrameData.ConnectionDisconnect cid));
      send_disconnects cid conns
  end.

Definition notify_nodes_client_disconnect (cid : Uuid) : task unit :=
  conns ← reading (fun s => (map_to_list (nodes s)).*2);
  send_disconnects cid conns.

Definition disconnect_web_client (cid : Uuid) : task unit :=
  info ← perform (OnShared (fun s => (connections s !! cid, with_connections (delete cid) s)));
  match info with
  | Some _ => _ ← set_connection_disconnected cid; notify_nodes_client_disconnect cid
  | None => notify_nodes_client_disconnect cid
  end.

Definition handle_web_socket (state : AppState) (ip : IpAddr) (ws_rx : WsStream) : task unit :=
  tx ← perform NewWebChannel;
  '(auth, ws_rx) ← wait_for_auth ws_rx tx state;
  match auth with
  | Err _ => perform (CloseWeb tx)
  | Ok cid =>
      now ← perform Now;
      updating (with_connections (<[cid := WebConnection_new now ip tx]>));;
      _ ← set_connection_connected cid ip (server state);
      perform (SpawnWebWriter tx);;
      handle_web_messages state cid ws_rx;;
      perform (CloseWeb tx);;
      disconnect_web_client cid
  end.
End web.

(** ** Whose request an effect is *)

(** The effects a task may perform on behalf of client [cid]: frames to nodes
    carry that client's id, the maps of nodes and sessions and the other
    clients' entries stay as they are, tables are only read, and Redis keys
    are the client's own. *)
Definition acts_for `{!UuidText} (cid : Uuid) (R : Type) (e : sysE R) : Prop :=
  match e with
  | OnShared f => forall s,
      nodes (f s).2 = nodes s /\ tunnel_sessions (f s).2 = tunnel_sessions s /\
      delete cid (connections (f s).2) = delete cid (connections s)
  | OnTables f => forall now id t, (f now id t).2 = t
  | OnRedis (HSetMultiple key _ | Expire key _ | Del key) => key = connection_key cid
  | SendNode _ frame => NodeFrameData.client frame = Some cid
  | Now | NewV4 | FillBytes | SendWeb _ _ => True
  | _ => False
  end.

(** The frames that only make sense inside a session, the name of the node
    and the session they ask for, and what the node is to receive. *)
Definition session_request (f : WebFrameData.t) : option (string * Z * (Uuid -> NodeFrameData.t)) :=
  match f with
  | WebFrameData.TunnelData protocol node_id sid data =>
      Some (node_id, sid, fun cid => NodeFrameData.TunnelData protocol cid sid data)
  | WebFrameData.SSHWindowResize node_id sid cols rows px_width px_height =>
      Some (node_id, sid, fun cid => NodeFrameData.SSHWindowResize cid sid cols rows px_width px_height)
  | WebFrameData.SFTPList node_id path sid msg_id =>
      Some (node_id, sid, fun cid => NodeFrameData.SFTPList cid path sid msg_id)
  | WebFrameData.SFTPDownloadStart node_id sid msg_id download =>
      Some (node_id, sid, fun cid => NodeFrameData.SFTPDownloadStart cid sid msg_id download)
  | WebFrameData.SFTPDownloadChunkRequest node_id sid msg_id download_id chunk_index =>
      Some (node_id, sid, fun cid =>
        NodeFrameData.SFTPDownloadChunkRequest cid sid msg_id download_id chunk_index)
  | WebFrameData.SFTPUploadStart node_id sid msg_id upload =>
      Some (node_id, sid, fun cid => NodeFrameData.SFTPUploadStart cid sid msg_id upload)
  | WebFrameData.SFTPUpload node_id sid msg_id chunk =>
      Some (node_id, sid, fun cid => NodeFrameData.SFTPUpload cid sid msg_id chunk)
  | WebFrameData.SFTPDelete node_id sid msg_id data =>
      Some (node_id, sid, fun cid => NodeFrameData.SFTPDelete cid sid msg_id data)
  | _ => None
  end.

Section web_facts.
Context `{!UuidText, !JsonText, !DateText, !JwtCodec WebJwtClaims}.
Context `{!Serde WebFrameData.t, !Serde NodeFrameData.t}.

Lemma acts_for_reading cid {R} (f : Shared -> R) : all_effects (acts_for cid) (reading f).
Proof. apply all_effects_perform. cbn. done. Qed.

Lemma acts_for_query cid {R} context (f : SystemTime -> Uuid -> Tables -> result string R * Tables) :
  (forall now id t, (f now id t).2 = t) -> all_effects (acts_for cid) (query context f).
Proof. intros Hf. apply all_effects_bind; [by apply all_effects_perform|done]. Qed.

Lemma acts_for_lookup cid cid' node sid : all_effects (acts_for cid) (get_node_id_by_cid_and_sid cid' node sid).
Proof.
  unfold get_node_id_by_cid_and_sid. destruct (parse_str node); [|done].
  apply all_effects_bind; [apply acts_for_reading|]. intros [[c n]|]; [|done].
  by destruct (negb _).
Qed.

Lemma acts_for_forward cid sid target frame :
  NodeFrameData.client frame = Some cid -> all_effects (acts_for cid) (forward_in_session cid sid target frame).
Proof.
  intros Hc. apply all_effects_bind; [apply acts_for_lookup|]. intros [nid|e]; [|done].
  apply all_effects_bind; [apply acts_for_reading|]. intros [tx|]; [|done].
  by apply all_effects_bind; [apply all_effects_perform|].
Qed.

Lemma acts_for_notify cid cid' frame : all_effects (acts_for cid) (notify_client_by_cid cid' frame).
Proof.
  apply all_effects_bind; [apply acts_for_reading|]. intros [conn|]; [|done].
  apply all_effects_bind; [by apply all_effects_perform|]. by intros [].
Qed.

Lemma acts_for_open cid protocol target msg_id username password :
  all_effects (acts_for cid) (handle_web_open_tunnel cid protocol target msg_id username password).
Proof.
  unfold handle_web_open_tunnel. destruct (parse_str target); [|done].
  apply all_effects_bind; [apply acts_for_reading|]. intros [tx|].
  - by apply all_effects_bind; [apply all_effects_perform|].
  - by apply all_effects_bind; [apply acts_for_notify|].
Qed.

Lemma acts_for_heartbeat cid state : all_effects (acts_for cid) (update_web_heartbeat state cid).
Proof.
  apply all_effects_bind; [by apply all_effects_perform|]. intros now.
  apply all_effects_perform. intros s. cbn. repeat split. apply map_eq. intros i.
  destruct (decide (i = cid)) as [->|].
  - by rewrite !lookup_delete_eq.
  - by rewrite !lookup_delete_ne, lookup_alter_ne.
Qed.

Lemma acts_for_frame cid state f : all_effects (acts_for cid) (handle_web_frame state cid f).
Proof.
  destruct f; cbn [handle_web_frame]; try done;
    (apply all_effects_bind; [|done]);
    first [apply acts_for_heartbeat | apply acts_for_open | by apply acts_for_forward].
Qed.

Lemma acts_for_messages cid state ws_rx : all_effects (acts_for cid) (handle_web_messages state cid ws_rx).
Proof.
  induction ws_rx as [|msg ws_rx IH]; [done|].
  apply all_effects_bind; [|by intros []].
  destruct msg as [[data| | | |]|]; cbn [handle_web_message]; try done.
  destruct (decode_native_returns data) as [r ->]. cbn.
  destruct r as [frame|]; [|done]. destruct (Frame.data frame); [apply acts_for_frame|done].
Qed.

Lemma acts_for_disconnect cid : all_effects (acts_for cid) (disconnect_web_client cid).
Proof.
  assert (all_effects (acts_for cid) (notify_nodes_client_disconnect cid)) as Hn.
  { apply all_effects_bind; [apply acts_for_reading|]. intros conns.
    induction conns as [|conn conns IH]; [done|].
    apply all_effects_bind; [by apply all_effects_perform|done]. }
  apply all_effects_bind.
  - apply all_effects_perform. intros s. cbn. by rewrite delete_delete_eq.
  - intros [info|]; [|done]. by apply all_effects_bind; [apply all_effects_perform|].
Qed.

Lemma session_request_handled state cid f target sid mk :
  session_request f = Some (target, sid, mk) ->
  handle_web_frame state cid f = (forward_in_session cid sid target (mk cid);; Ret Continue).
Proof. destruct f; cbn; intros [= <- <- <-]; reflexivity. Qed.
End web_facts.

(** C22. Whatever a connected web client sends, and whatever the environment
    answers, the message loop and the clean-up act for that client only: every
    frame that reaches a node carries the client's own id, no session and no
    node registration changes, no other client's entry changes, and no other
    Redis key is written. *)
Theorem web_client_acts_for_itself
    `{!UuidText, !JsonText, !DateText, !Serde WebFrameData.t, !Serde NodeFrameData.t} state cid ws_rx :
  all_effects (acts_for cid) (handle_web_messages state cid ws_rx;; disconnect_web_client cid).
Proof. apply all_effects_bind; [apply acts_for_messages|]. intros _. apply acts_for_disconnect. Qed.

(** The run of a session frame, for either answer of the registry. *)
Lemma session_frame_run
    `{!UuidText, !JsonText, !DateText, !Serde WebFrameData.t, !Serde NodeFrameData.t}
    state cid f target sid mk cs w :
  session_request f = Some (target, sid, mk) ->
  (exists tx, granted (shared w) cid target sid tx /\
     run (handle_web_frame state cid f) cs w =
       match send_in CHANNEL_CAPACITY tx (mk cid) (node_channels w) with
       | Some (_, m) => Done Continue (with_node_channels m w)
       | None => Blocked w
       end) \/
  ((forall tx, ~ granted (shared w) cid target sid tx) /\
     run (handle_web_frame state cid f) cs w = Done Continue w).
Proof.
  intros Hf. rewrite (session_request_handled _ _ _ _ _ _ Hf).
  unfold forward_in_session, get_node_id_by_cid_and_sid, granted.
  destruct (parse_str target) as [u|e]; [|right; split; [|done]; intros tx (k & n & [=] & _)].
  cbv zeta. cbn. destruct (tunnel_sessions (shared w) !! _) as [[c n]|] eqn:Hs; cbn.
  2: { right; split; [|by destruct w]. intros tx (k & n & [= <-] & Hl & _). congruence. }
  case_bool_decide as Hc; cbn.
  2: { right; split; [|by destruct w]. intros tx (k & n' & [= <-] & Hl & _). congruence. }
  subst c. destruct (node_sender n (shared w)) as [tx|] eqn:Hn; cbn.
  - left. exists tx. split; [by exists u, n|]. destruct (send_in CHANNEL_CAPACITY tx (mk cid) (node_channels w)) as [[b m]|]; by destruct w.
  - right; split; [|by destruct w]. intros tx (k & n' & [= <-] & Hl & Ht). congruence.
Qed.

(** A frame for a session is put on a node's queue exactly when the
    registry grants the session to the sending client: then the node gets the
    corresponding node frame with that client's id, unless its receiver is
    gone; otherwise nothing at all changes.  The loop goes on in every case,
    and the task waits only for a full queue. *)
Theorem session_frame_forwarded
    `{!UuidText, !JsonText, !DateText, !Serde WebFrameData.t, !Serde NodeFrameData.t}
    state cid f target sid mk cs w :
  session_request f = Some (target, sid, mk) ->
  (exists tx, granted (shared w) cid target sid tx /\
     run (handle_web_frame state cid f) cs w =
       match send_in CHANNEL_CAPACITY tx (mk cid) (node_channels w) with
       | Some (_, m) => Done Continue (with_node_channels m w)
       | None => Blocked w
       end) \/
  ((forall tx, ~ granted (shared w) cid target sid tx) /\
     run (handle_web_frame state cid f) cs w = Done Continue w).
Proof. apply session_frame_run. Qed.

(** ** Authentication *)

(** What a web client must show: a token that verifies, of an existing user,
    and the name of a node of that user. *)
Definition web_entitled `{!UuidText, !JwtCodec WebJwtClaims} (state : AppState) (t : Tables)
    (now : SystemTime) (token node : string) : Prop :=
  exists claims user nid row,
    jwt_decode now (jwt_secret (env state)) token = Ok claims /\
    parse_str (wj_sub claims) = Ok user /\ user ∈ t_users t /\
    parse_str node = Ok nid /\ t_nodes t !! nid = Some row /\ nc_user_id row.1 = user.

Local Ltac answered := eexists _, _; split; [done|]; split; [done|]; split; [done|].
Local Ltac refused := answered; intros cid; split; [done|];
  intros [(?&?&?&?&?&?&?&?&?&?) _]; simplify_eq; first [congruence|by cbn in *].

(** C15. In a release build, with the database answering, the first frame of a
    web client authenticates it exactly when it is entitled to the node it
    names; the answer always comes, and deciding changes neither the registry
    nor the tables. *)
Theorem web_auth_iff `{!UuidText, !JwtCodec WebJwtClaims} state tx token node_id version msg_id cs w :
  debug_assertions state = false ->
  (forall n, c_db_ok (cs n) = true) ->
  web_channels w !! tx = Some chan_new ->
  exists r w',
    run (authenticate (WebFrameData.Auth token node_id version msg_id) tx state) cs w = Done r w' /\
    shared w' = shared w /\ tables w' = tables w /\
    forall cid, r = Ok cid <->
      web_entitled state (tables w) (c_now (cs 1%nat)) token node_id /\ cid = c_uuid (cs 0%nat).
Proof.
  intros Hdbg Hdb Htx. unfold web_entitled. cbn [authenticate]. rewrite Hdbg. cbn.
  pose proof (fun f => send_in_new CHANNEL_CAPACITY tx f _ ltac:(cbv; lia) Htx) as Hsend.
  destruct (jwt_decode _ _ token) as [claims|e] eqn:Hj; cbn; [|rewrite Hsend; cbn; refused].
  destruct (parse_str (wj_sub claims)) as [user|e] eqn:Hu; cbn; [|rewrite Hsend; cbn; refused].
  rewrite Hdb. cbn. rewrite with_tables_id.
  case_bool_decide as Hx; cbn; [|rewrite Hsend; cbn; refused].
  unfold validate_user_node. rewrite Hu.
  destruct (parse_str node_id) as [nid|e] eqn:Hn; cbn; [|refused].
  rewrite Hdb. cbn. rewrite with_tables_id.
  destruct (t_nodes (tables w) !! nid) as [row|] eqn:Hrow; cbn; [|rewrite Hsend; cbn; refused].
  case_bool_decide as Ho; cbn; rewrite Hsend; cbn; [|refused].
  answered. intros cid. split.
  - intros [= <-]. split; [|done]. by exists claims, user, nid, row.
  - by intros [_ ->].
Qed.

(** A web client whose token is refused is sent an error frame that it
    never receives: the frame is accepted by the channel, and the channel is
    dropped with the frame in it, because the write task does not exist yet.
    The handler returns and the registry is untouched. *)
Theorem web_auth_failure_not_delivered
    `{!UuidText, !JsonText, !DateText, !JwtCodec WebJwtClaims, !Serde WebFrameData.t, !Serde NodeFrameData.t}
    state ip bs frame token node_id version msg_id e ws_rx cs w :
  debug_assertions state = false ->
  decode native bs = Returns (Ok frame) ->
  Frame.data frame = FrameData.Web (WebFrameData.Auth token node_id version msg_id) ->
  jwt_decode (c_now (cs 2%nat)) (jwt_secret (env state)) token = Err e ->
  exists w' ch,
    run (handle_web_socket state ip (Ok (Binary bs) :: ws_rx)) cs w = Done tt w' /\
    shared w' = shared w /\
    web_channels w' !! fresh_chan (web_channels w) = Some ch /\
    sent ch = [auth_error "failed to validate token" msg_id] /\ rx ch = Dropped /\ wire ch = [].
Proof.
  intros Hdbg Hdec Hdata Hj. unfold handle_web_socket. cbn [wait_for_auth auth_frame].
  rewrite Hdec. cbn. rewrite Hdata. cbn. rewrite Hdbg. cbn. rewrite Hj. cbn.
  rewrite send_in_new by first [apply lookup_insert_eq | cbv; lia]. cbn.
  eexists _, _. split; [done|]. cbn. split; [done|].
  by rewrite lookup_alter_eq, lookup_insert_eq.
Qed.

Lemma open_tunnel_run
    `{!UuidText, !JsonText, !DateText, !Serde WebFrameData.t, !Serde NodeFrameData.t}
    state cid protocol target nid tx username password msg_id cs w :
  parse_str target = Ok nid -> node_sender nid (shared w) = Some tx ->
  run (handle_web_frame state cid (WebFrameData.OpenTunnel protocol target username password msg_id)) cs w =
    match send_in CHANNEL_CAPACITY tx (NodeFrameData.OpenTunnel protocol cid username password msg_id) (node_channels w) with
    | Some (_, m) => Done Continue (with_node_channels m w)
    | None => Blocked w
    end.
Proof.
  intros Hp Hs. cbn [handle_web_frame]. unfold handle_web_open_tunnel. rewrite Hp. cbn.
  rewrite Hs. cbn. rewrite with_shared_id. by destruct (send_in _ _ _) as [[b m]|].
Qed.

(** [OpenTunnel] is forwarded, with its credentials, to whatever
    connected node it names: neither the tables nor the node the client
    authenticated for is looked at. *)
Theorem open_tunnel_reaches_any_node
    `{!UuidText, !JsonText, !DateText, !Serde WebFrameData.t, !Serde NodeFrameData.t}
    state cid protocol target nid tx username password msg_id cs w :
  parse_str target = Ok nid -> node_sender nid (shared w) = Some tx ->
  run (handle_web_frame state cid (WebFrameData.OpenTunnel protocol target username password msg_id)) cs w =
    match send_in CHANNEL_CAPACITY tx (NodeFrameData.OpenTunnel protocol cid username password msg_id) (node_channels w) with
    | Some (_, m) => Done Continue (with_node_channels m w)
    | None => Blocked w
    end.
Proof. apply open_tunnel_run. Qed.

(** ** Clean-up *)

Lemma run_send_disconnects cid conns cs w :
  Forall (fun conn => room CHANNEL_CAPACITY (length conns) (node_channels w) (nc_tx conn)) conns ->
  exists m, run (send_disconnects cid conns) cs w = Done tt (with_node_channels m w) /\
    grows (node_channels w) m /\
    Forall (fun conn =>
      accepted_since (node_channels w) m (nc_tx conn) (NodeFrameData.ConnectionDisconnect cid)) conns.
Proof.
  revert cs w. induction conns as [|conn conns IH]; intros cs w Hroom.
  { exists (node_channels w). destruct w; cbn. split; [done|]. split; [done|constructor]. }
  inversion_clear Hroom as [|? ? Hr Hrs].
  destruct (send_in_room _ _ _ _ (NodeFrameData.ConnectionDisconnect cid) Hr) as (b & m & Hs & Hg & Ha & Hroom).
  destruct (IH (fun n => cs (S n)) (with_node_channels m w)) as (m' & Hrun & Hg' & Ha').
  { eapply Forall_impl; [exact Hrs|]. intros c Hc. by apply Hroom. }
  cbn. rewrite Hs. cbn. rewrite Hrun. exists m'. split; [by destruct w|]. cbn in *.
  split; [by etrans|]. constructor; [by eapply accepted_then_grows|].
  eapply Forall_impl; [exact Ha'|]. intros c Hc. by eapply grows_then_accepted.
Qed.

(** When a web client leaves, its entry is gone, its Redis key is deleted
    if Redis answers, and every connected node whose channel lives has
    accepted the notice; the nodes' registrations and the client's sessions
    stay recorded.  With room on the nodes' queues the clean-up returns. *)
Theorem disconnect_web_client_notifies `{!UuidText} cid info cs w :
  connections (shared w) !! cid = Some info ->
  (forall id conn, nodes (shared w) !! id = Some conn ->
     room CHANNEL_CAPACITY (size (nodes (shared w))) (node_channels w) (nc_tx conn)) ->
  exists w', run (disconnect_web_client cid) cs w = Done tt w' /\
    connections (shared w') = delete cid (connections (shared w)) /\
    nodes (shared w') = nodes (shared w) /\ tunnel_sessions (shared w') = tunnel_sessions (shared w) /\
    redis w' = redis w ++ (if c_redis_ok (cs 1%nat) then [Del (connection_key cid)] else []) /\
    forall id conn, nodes (shared w) !! id = Some conn ->
      accepted_since (node_channels w) (node_channels w') (nc_tx conn)
        (NodeFrameData.ConnectionDisconnect cid).
Proof.
  intros Hc Hroom. unfold disconnect_web_client. cbn. rewrite Hc. cbn.
  set (conns := (map_to_list (nodes (shared w))).*2).
  assert (Hconns : forall conn, conn ∈ conns <-> exists id, nodes (shared w) !! id = Some conn).
  { intros conn. unfold conns. rewrite list_elem_of_fmap. split.
    - intros ([id c] & -> & Hin). exists id. by apply elem_of_map_to_list in Hin.
    - intros [id Hid]. exists (id, conn). split; [done|]. by apply elem_of_map_to_list. }
  assert (Hroom' : Forall (fun conn => room CHANNEL_CAPACITY (length conns) (node_channels w) (nc_tx conn)) conns).
  { apply Forall_forall. intros conn [id Hid]%Hconns. unfold conns. rewrite length_fmap, length_map_to_list.
    by eapply Hroom. }
  destruct (c_redis_ok (cs 1%nat)); cbn.
  all: edestruct (run_send_disconnects cid conns) as (m & Hrun & Hg & Ha); [|rewrite Hrun]; [exact Hroom'|].
  all: eexists; split; [done|]; cbn; repeat split; try done; try (by rewrite app_nil_r).
  all: intros id conn Hid; rewrite Forall_forall in Ha; apply Ha, Hconns; eauto.
Qed.

(** The registry seen from every client but [cid]. *)
Definition others_unchanged (cid : Uuid) (s : Shared) (w : World) : Prop :=
  nodes (shared w) = nodes s /\ tunnel_sessions (shared w) = tunnel_sessions s /\
  delete cid (connections (shared w)) = delete cid (connections s).

Section lifetime.
Context `{!UuidText, !JsonText, !DateText, !JwtCodec WebJwtClaims}.
Context `{!Serde WebFrameData.t, !Serde NodeFrameData.t}.

Lemma acts_for_others cid s R (e : sysE R) :
  acts_for cid R e -> effect_preserves (others_unchanged cid s) R e.
Proof.
  intros Ha c w r w' (Hn & Hs & Hc) He. unfold others_unchanged. destruct e; cbn in *; try done;
    try (by injection He as <- <-).
  - specialize (Ha (shared w)). destruct (f (shared w)) as [r' s']. injection He as <- <-. cbn in *.
    destruct Ha as (-> & -> & ->). done.
  - destruct (c_db_ok c); [destruct (f (c_now c) (c_uuid c) (tables w))|]; by injection He as <- <-.
  - destruct (c_redis_ok c); by injection He as <- <-.
  - destruct (send_in CHANNEL_CAPACITY tx f (web_channels w)) as [[b m]|]; [|done]. by injection He as <- <-.
  - destruct (send_in CHANNEL_CAPACITY tx f (node_channels w)) as [[b m]|]; [|done]. by injection He as <- <-.
Qed.

Lemma forward_no_panic cid sid target frame : no_panic (forward_in_session cid sid target frame).
Proof. unfold forward_in_session, get_node_id_by_cid_and_sid. cbv zeta. walk; done. Qed.
#[local] Hint Resolve forward_no_panic : phirepass.

Lemma handle_web_messages_no_panic state cid ws_rx : no_panic (handle_web_messages state cid ws_rx).
Proof.
  induction ws_rx as [|msg ws_rx IH]; [done|]. apply no_panic_bind; [|by intros []].
  destruct msg as [[data| | | |]|]; cbn [handle_web_message]; try done.
  destruct (decode_native_returns data) as [r ->]. destruct r as [frame|]; [|done]. cbn.
  destruct (Frame.data frame) as [f|]; [|done].
  destruct f; cbn [handle_web_frame]; try done; (apply no_panic_bind; [|done]).
  all: unfold update_web_heartbeat, handle_web_open_tunnel, notify_client_by_cid, handle_web_tunnel_data,
    handle_sftp_list, handle_sftp_download_start, handle_sftp_download_chunk_request,
    handle_sftp_upload_start, handle_sftp_upload, handle_sftp_delete, handle_web_resize; walk; done.
Qed.

Lemma notify_nodes_no_panic cid : no_panic (notify_nodes_client_disconnect cid).
Proof.
  apply no_panic_bind; [done|]. intros conns. induction conns as [|conn conns IH]; [done|].
  by apply no_panic_bind.
Qed.

Lemma notify_nodes_off_registry cid : all_effects off_registry (notify_nodes_client_disconnect cid).
Proof.
  apply all_effects_bind; [by apply all_effects_perform|]. intros conns.
  induction conns as [|conn conns IH]; [done|]. by apply all_effects_bind; [apply all_effects_perform|].
Qed.

Lemma disconnect_web_client_wp cid s w :
  others_unchanged cid s w ->
  wp (disconnect_web_client cid) (fun _ w' =>
    nodes (shared w') = nodes s /\ tunnel_sessions (shared w') = tunnel_sessions s /\
    connections (shared w') = delete cid (connections s)) w.
Proof.
  intros (Hn & Hs & Hc). apply wp_bind, wp_perform. intros c info w' [= <- <-].
  set (P sh := nodes sh = nodes s /\ tunnel_sessions sh = tunnel_sessions s /\
    connections sh = delete cid (connections s)).
  apply (wp_preserves (fun w0 => P (shared w0))).
  - eapply preserves_effects, all_effects_mono; [intros R e; apply (off_registry_shared P)|].
    case_match; [|apply notify_nodes_off_registry].
    apply all_effects_bind; [by apply all_effects_perform|]. intros. apply notify_nodes_off_registry.
  - case_match; [|apply notify_nodes_no_panic]. apply no_panic_bind; [done|]. intros. apply notify_nodes_no_panic.
  - done.
Qed.
End lifetime.

(** What a client is authenticated as, when it is. *)
Lemma returns_that_or_error {A} (p : task (result string unit)) (q : task (result string unit)) (a : A) :
  returns (_ ←? p; _ ←? q; Ret (Ok a)) (fun r => r = Ok a \/ exists e, r = Err e).
Proof.
  unfold try_bind. apply returns_bind. eapply returns_mono, returns_any. intros [?|e] _; [|right; by exists e].
  apply returns_bind. eapply returns_mono, returns_any. intros [?|e] _; [by left|right; by exists e].
Qed.

Section leaving.
Context `{!UuidText, !JsonText, !DateText, !JwtCodec WebJwtClaims}.
Context `{!Serde WebFrameData.t, !Serde NodeFrameData.t}.

Lemma auth_frame_answers msg : exists r, auth_frame msg = Ret r.
Proof.
  destruct msg as [[data| | | |]|]; cbn; eauto. destruct (decode_native_returns data) as [r ->].
  destruct r as [f|]; cbn; [destruct (Frame.data f)|]; eauto.
Qed.

(** An authenticated client's session, up to and with its clean-up. *)
Lemma web_session_wp state ip tx cid ws_rx w w1 :
  shared w1 = shared w ->
  wp (now ← perform Now;
      updating (with_connections (<[cid := WebConnection_new now ip tx]>));;
      _ ← set_connection_connected cid ip (server state);
      perform (SpawnWebWriter tx);;
      handle_web_messages state cid ws_rx;;
      perform (CloseWeb tx);;
      disconnect_web_client cid)
    (fun _ w' => shared w' = with_connections (delete cid) (shared w)) w1.
Proof.
  intros Hw1. eapply (wp_mono _ (fun _ w' => nodes (shared w') = nodes (shared w) /\
    tunnel_sessions (shared w') = tunnel_sessions (shared w) /\
    connections (shared w') = delete cid (connections (shared w)))).
  { intros _ w' (Hn & Hs & Hc). destruct (shared w'). cbn in *. by subst. }
  apply wp_bind, wp_perform. intros c2 now w2 [= <- <-].
  apply wp_bind, wp_perform. intros c3 r3 w3 [= <- <-].
  assert (Ho : others_unchanged cid (shared w) (with_shared (with_connections
    <[cid:=WebConnection_new (c_now c2) ip tx]> (shared w1)) w1)).
  { unfold others_unchanged. cbn. rewrite Hw1. by rewrite delete_insert_eq. }
  apply wp_bind. eapply wp_mono; [|apply (wp_preserves (others_unchanged cid (shared w)));
    [eapply preserves_effects, all_effects_mono; [intros R e; apply (acts_for_others cid)|]|walk; done|exact Ho]]; cycle 1.
  { unfold set_connection_connected, refresh_connection, hset_with_ttl. walk; done. }
  intros r4 w4 H4. apply wp_bind, wp_perform. intros c5 r5 w5 [= <- <-]. apply wp_bind.
  eapply wp_mono; [|apply (wp_preserves (others_unchanged cid (shared w)));
    [eapply preserves_effects, all_effects_mono; [intros R e; apply (acts_for_others cid)|apply acts_for_messages]
    |apply handle_web_messages_no_panic|exact H4]].
  intros ? w6 H6. apply wp_bind, wp_perform. intros c7 r7 w7 [= <- <-].
  by apply disconnect_web_client_wp.
Qed.
End leaving.

(** C32. The handler of a web socket never panics, and when it returns, alone,
    the shared maps are as they were but for the client's own id, the UUID
    drawn for this socket, which has no entry: no connection entry leaks and
    nobody else's goes, whatever the client sent and however authentication,
    Postgres, Redis and the nodes' queues behaved.  When the UUID was in no
    use, nothing has changed at all. *)
Theorem web_socket_leaves_no_entry
    `{!UuidText, !JsonText, !DateText, !JwtCodec WebJwtClaims, !Serde WebFrameData.t, !Serde NodeFrameData.t}
    state ip ws_rx cs w :
  let cid := c_uuid (cs 1%nat) in
  match run (handle_web_socket state ip ws_rx) cs w with
  | Done _ w' =>
      (shared w' = shared w \/ shared w' = with_connections (delete cid) (shared w)) /\
      (connections (shared w) !! cid = None -> shared w' = shared w)
  | Blocked _ => True
  | Panicked _ => False
  end.
Proof.
  intros cid. set (P w' := shared w' = shared w \/ shared w' = with_connections (delete cid) (shared w)).
  enough (match run (handle_web_socket state ip ws_rx) cs w with Done _ w' => P w' | Blocked _ => True | Panicked _ => False end)
    as HP.
  { destruct (run _ cs w) as [r w'|w'|w']; [|done..]. split; [exact HP|]. intros Hnew. destruct HP as [->| ->]; [done|].
    destruct (shared w). unfold with_connections. cbn in *. by rewrite delete_id. }
  destruct ws_rx as [|msg ws_rx]; [by left|]. unfold handle_web_socket, wait_for_auth.
  destruct (auth_frame_answers msg) as [[f|e] ->]; [|by left]. destruct f; try by left.
  apply (wp_run_step NewWebChannel _ (fun _ w' => P w')). intros tx w0 [= <- <-].
  apply (wp_run_step NewV4 _ (fun _ w' => P w')). intros id w1 [= <- <-].
  set (tx := fresh_chan (web_channels w)).
  set (auth := _ ←? (if negb (debug_assertions state) then
              claims ←? validate_jwt tx state token cid msg_id;
              validate_user_node tx state claims node_id cid msg_id
            else Ret (Ok tt));
           _ ←? successful_auth tx cid version msg_id;
           Ret (Ok cid)).
  apply (wp_run ((auth ≫= fun r => Ret (r, ws_rx)) ≫= _) (fun _ w' => P w')). apply wp_bind, wp_bind.
  eapply wp_mono; [|apply (wp_returns auth _ (fun _ w' => shared w' = shared w) _ (returns_that_or_error _ _ cid))].
  - intros r w2 [[->|[e ->]] Hw2]; cbn [wp].
    + eapply wp_mono, web_session_wp, Hw2. intros a w' Hw'. right. exact Hw'.
    + intros c r w3 [= <- <-]. by left.
  - apply (wp_preserves (fun w' => shared w' = shared w)); [| |done]; unfold auth, validate_jwt, authenticate_web_jwt,
      validate_user_node, successful_auth, send_web, user_exists, get_node_by_id, query, try_bind; [|walk; done].
    eapply preserves_effects, all_effects_mono; [intros R e; apply (off_registry_shared (fun s => s = shared w))|].
    walk; cbn; done.
Qed.
