(* ===== verification/ServerAuth.v ===== *)
(** * Node authentication: [server/src/node_auth.rs]

    A node proves that it holds the private key of its registration: it asks
    for a challenge, returns it signed, and gets a short-lived token that the
    web socket and the authenticated routes accept. *)

From S2P Require Import Prelude Async Mpsc RustStr Protocol Externs Token ServerState ServerDb.

(** [axum::response::Response]: the status code and the JSON body. *)
Record Response : Type := { status : Z; body : Json }.

Definition OK : Z := 200.
Definition BAD_REQUEST : Z := 400.
Definition UNAUTHORIZED : Z := 401.
Definition INTERNAL_SERVER_ERROR : Z := 500.

(** The body [{"success": false, "code": .., "error": ..}]. *)
Definition failure (status : Z) (code error : string) : Response :=
  {| status := status;
     body := JObj [("success", JBool false); ("code", JStr code); ("error", JStr error)] |}.

Record VerifyRequest : Type := { vr_node_id : Uuid; vr_challenge : string; vr_signature : string }.

Record NodeJwtClaims : Type := { nj_node_id : Uuid; nj_exp : Z; nj_iat : Z }.

Record AuthenticatedNode : Type := { an_node_id : Uuid }.

Section auth.
Context `{!UuidText, !DateText, !JwtCodec NodeJwtClaims, !Base64Url, !Ed25519}.

Definition generate_challenge : task string :=
  raw ← perform FillBytes; Ret (b64_encode raw).

(** [ChallengeRequest] has the one field [node_id]. *)
Definition create_auth_challenge (state : AppState) (node_id : Uuid) : task Response :=
  challenge ← generate_challenge;
  maybe_node ← get_node_claim_by_id_optional node_id;
  match maybe_node with
  | Err _ => Ret (failure INTERNAL_SERVER_ERROR "CHALLENGE_LOOKUP_FAILED" "failed to create challenge")
  | Ok maybe_node =>
      let ok := {| status := OK; body := JObj [("challenge", JStr challenge)] |} in
      match maybe_node with
      | Some node =>
          if negb (nc_revoked node) then
            now ← perform Now;
            let expires_at := now + seconds (challenge_ttl_secs (env state)) in
            r ← upsert_auth_challenge (nc_id node) challenge expires_at;
            Ret (match r with
                 | Err _ => failure INTERNAL_SERVER_ERROR "CHALLENGE_WRITE_FAILED" "failed to create challenge"
                 | Ok _ => ok
                 end)
          else Ret ok
      | None => Ret ok
      end
  end.

Definition verify_signature (public_key challenge signature : string) : result string unit :=
  pk ← ok_or "invalid public key encoding" (b64_decode public_key);
  sig ← ok_or "invalid signature encoding" (b64_decode signature);
  if negb (length pk =? 32)%nat then Err "public key must decode to 32 bytes"
  else if negb (valid_public_key pk) then Err "invalid ed25519 public key"
  else if negb (length sig =? 64)%nat then Err "invalid ed25519 signature"
  else if ed25519_verify pk challenge sig then Ok tt else Err "signature verification failed".

(** [timestamp() as usize] on a 64-bit target. *)
Definition timestamp_usize (t : SystemTime) : Z := wrap 64 (as_secs t).

Definition issue_node_jwt (env : Env) (node_id : Uuid) : task (result string (string * SystemTime)) :=
  iat ← perform Now;
  let expires_at := iat + seconds (jwt_ttl_secs env) in
  let claims := {| nj_node_id := node_id; nj_exp := timestamp_usize expires_at;
                   nj_iat := timestamp_usize iat |} in
  Ret (token ← jwt_encode (jwt_secret env) claims; Ok (token, expires_at)).

Definition unauthorized_verify : Response :=
  failure UNAUTHORIZED "AUTH_VERIFY_FAILED" "authentication failed".

Definition verify_auth_challenge (state : AppState) (payload : VerifyRequest) : task Response :=
  let challenge := Str.trim (vr_challenge payload) in
  node ← get_node_claim_by_id (vr_node_id payload);
  match node with
  | Err _ => Ret unauthorized_verify
  | Ok node =>
      if nc_revoked node then Ret unauthorized_verify
      else
        record ← get_auth_challenge (vr_node_id payload) challenge;
        match record with
        | Err err => Ret (failure INTERNAL_SERVER_ERROR "AUTH_CHALLENGE_LOOKUP_FAILED" err)
        | Ok None => Ret unauthorized_verify
        | Ok (Some challenge_record) =>
            consumed ← consume_auth_challenge (vr_node_id payload) challenge;
            match consumed with
            | Err err => Ret (failure INTERNAL_SERVER_ERROR "AUTH_CHALLENGE_CONSUME_FAILED" err)
            | Ok _ =>
                now ← perform Now;
                if ac_expires_at challenge_record <=? now then Ret unauthorized_verify
                else
                  match verify_signature (nc_public_key node) challenge (Str.trim (vr_signature payload)) with
                  | Err _ => Ret unauthorized_verify
                  | Ok _ =>
                      issued ← issue_node_jwt (env state) (vr_node_id payload);
                      Ret (match issued with
                           | Err err => failure INTERNAL_SERVER_ERROR "AUTH_JWT_ISSUE_FAILED" err
                           | Ok (access_token, expires_at) =>
                               {| status := OK;
                                  body := JObj [("access_token", JStr access_token);
                                                ("expires_at", JStr (date_to_string expires_at))] |}
                           end)
                  end
            end
        end
  end.

Definition authenticate_node_jwt (state : AppState) (token : string) : task (result string AuthenticatedNode) :=
  now ← perform Now;
  match jwt_decode now (jwt_secret (env state)) token with
  | Err e => Ret (Err e)
  | Ok claims =>
      node ←? get_node_claim_by_id (nj_node_id claims);
      if nc_revoked node then Ret (Err "node is revoked")
      else Ret (Ok {| an_node_id := nj_node_id claims |})
  end.

Definition error_response (status : Z) (err : string) : Response :=
  {| status := status; body := JObj [("success", JBool false); ("error", JStr err)] |}.

Definition heartbeat (auth : AuthenticatedNode) : task Response :=
  r ← touch_node_last_seen (an_node_id auth);
  match r with
  | Err err => Ret (error_response INTERNAL_SERVER_ERROR err)
  | Ok _ =>
      now ← perform Now;
      Ret {| status := OK;
             body := JObj [("success", JBool true); ("node_id", json_uuid (an_node_id auth));
                           ("last_seen", JStr (date_to_string now))] |}
  end.

(** The middleware: [next] runs with the authenticated node. *)
Definition require_node_jwt (state : AppState) (headers : HeaderMap)
    (next : AuthenticatedNode -> task Response) : task Response :=
  match extract_bearer_token headers with
  | Err err => Ret (error_response UNAUTHORIZED err)
  | Ok token =>
      auth ← authenticate_node_jwt state token;
      match auth with
      | Err err => Ret (error_response UNAUTHORIZED err)
      | Ok auth => next auth
      end
  end.

(** The route [POST /api/nodes/heartbeat]. *)
Definition heartbeat_route (state : AppState) (headers : HeaderMap) : task Response :=
  require_node_jwt state headers heartbeat.
End auth.

(** ** What a node must show *)

(** The node is registered and active, its current challenge is the one
    returned, it has not expired, and the signature verifies under the
    registered key. *)
Definition proves_identity `{!Base64Url, !Ed25519} (t : Tables) (now : SystemTime) (p : VerifyRequest) : Prop :=
  exists row record,
    t_nodes t !! vr_node_id p = Some row /\ nc_revoked row.1 = false /\
    challenge_matches (vr_node_id p) (Str.trim (vr_challenge p)) t = Some record /\
    now < ac_expires_at record /\
    verify_signature (nc_public_key row.1) (Str.trim (vr_challenge p)) (Str.trim (vr_signature p)) = Ok tt.

(** Node [id] exists and is not revoked. *)
Definition active_node (t : Tables) (id : Uuid) : Prop :=
  exists row, t_nodes t !! id = Some row /\ nc_revoked row.1 = false.

(** The claims of a token issued at [iat]. *)
Definition issued_claims (state : AppState) (id : Uuid) (iat : SystemTime) : NodeJwtClaims :=
  {| nj_node_id := id; nj_exp := timestamp_usize (iat + seconds (jwt_ttl_secs (env state)));
     nj_iat := timestamp_usize iat |}.


Lemma challenge_matches_consumed id c t :
  challenge_matches id c (match challenge_matches id c t with
                          | Some _ => with_t_challenges (delete id) t | None => t end) = None.
Proof.
  destruct (challenge_matches id c t) as [r|] eqn:H; [|done].
  unfold challenge_matches. cbn. by rewrite lookup_delete_eq.
Qed.

Section auth_facts.
Context `{!UuidText, !DateText, !JwtCodec NodeJwtClaims, !Base64Url, !Ed25519}.

(** The tables after a verification that found its challenge. *)
Definition consumed (p : VerifyRequest) (t : Tables) : Tables :=
  match challenge_matches (vr_node_id p) (Str.trim (vr_challenge p)) t with
  | Some _ => with_t_challenges (delete (vr_node_id p)) t
  | None => t
  end.

(** The whole behaviour of [verify_auth_challenge] while the database
    answers. *)
Lemma verify_run state p cs w :
  (forall n, c_db_ok (cs n) = true) ->
  exists r w',
    run (verify_auth_challenge state p) cs w = Done r w' /\
    (active_node (tables w) (vr_node_id p) -> w' = with_tables (consumed p (tables w)) w) /\
    (status r = OK -> proves_identity (tables w) (c_now (cs 3%nat)) p) /\
    (forall token, proves_identity (tables w) (c_now (cs 3%nat)) p ->
       jwt_encode (jwt_secret (env state)) (issued_claims state (vr_node_id p) (c_now (cs 4%nat))) = Ok token ->
       r = {| status := OK;
              body := JObj [("access_token", JStr token);
                ("expires_at", JStr (date_to_string (c_now (cs 4%nat) + seconds (jwt_ttl_secs (env state)))))] |}).
Proof.
  intros Hdb. unfold proves_identity, active_node, consumed. set (id := vr_node_id p).
  unfold verify_auth_challenge. cbv zeta. set (ch := Str.trim (vr_challenge p)).
  cbn. rewrite Hdb. cbn. rewrite with_tables_id. fold id.
  destruct (t_nodes (tables w) !! id) as [row|] eqn:Hrow; cbn; cycle 1.
  { eexists _, _. split; [done|]. split; [by intros (?&?&?)|]. split; [done|]. by intros ? (?&?&?&?). }
  destruct (nc_revoked row.1) eqn:Hrev; cbn.
  { eexists _, _. split; [done|]. split; [intros (?&?&?); congruence|]. split; [done|].
    intros ? (?&?&?&?&?); congruence. }
  rewrite Hdb. cbn. rewrite with_tables_id.
  destruct (challenge_matches id ch (tables w)) as [record|] eqn:Hch; cbn; cycle 1.
  { eexists _, _. split; [done|]. split; [by rewrite with_tables_id|]. split; [done|].
    intros ? (?&?&?&?&?&?&?); congruence. }
  rewrite Hdb. cbn. rewrite Hch.
  destruct (Z.leb_spec (ac_expires_at record) (c_now (cs 3%nat))) as [Hx|Hx]; cbn.
  { eexists _, _. split; [done|]. split; [done|]. split; [done|].
    intros ? (?&?&?&?&?&?&?); simplify_eq; lia. }
  destruct (verify_signature _ ch _) as [[]|e] eqn:Hsig; cbn; cycle 1.
  { eexists _, _. split; [done|]. split; [done|]. split; [done|].
    intros ? (?&?&?&?&?&?&?); congruence. }
  eexists _, _. split; [done|]. split; [done|]. split.
  - intros _. by exists row, record.
  - intros token _ Htok. unfold issued_claims in Htok. fold id. by rewrite Htok.
Qed.
End auth_facts.

(** C13. [verify_auth_challenge] issues a token exactly to a request that
    proves the node's identity, and a request for an active node spends the
    challenge it names whether or not it succeeds. *)
Theorem verify_auth_challenge_iff
    `{!DateText, !JwtCodec NodeJwtClaims, !Base64Url, !Ed25519} state p cs w token :
  (forall n, c_db_ok (cs n) = true) ->
  jwt_encode (jwt_secret (env state)) (issued_claims state (vr_node_id p) (c_now (cs 4%nat))) = Ok token ->
  exists r w',
    run (verify_auth_challenge state p) cs w = Done r w' /\
    (status r = OK <-> proves_identity (tables w) (c_now (cs 3%nat)) p) /\
    (status r = OK -> exists expires, body r = JObj [("access_token", JStr token); ("expires_at", expires)]) /\
    (active_node (tables w) (vr_node_id p) ->
       challenge_matches (vr_node_id p) (Str.trim (vr_challenge p)) (tables w') = None).
Proof.
  intros Hdb Htok. destruct (verify_run state p cs w Hdb) as (r & w' & Hrun & Hw & Hsound & Hcomplete).
  exists r, w'. split; [done|]. split; [split; [done|]|split].
  - intros Hp. by rewrite (Hcomplete token).
  - intros Hs. rewrite (Hcomplete token) by auto. eauto.
  - intros Ha. rewrite Hw by done. apply challenge_matches_consumed.
Qed.

(** Once a verification of an active node has run, the same request is
    refused: a challenge is accepted at most once in sequence. *)
Theorem verify_once
    `{!DateText, !JwtCodec NodeJwtClaims, !Base64Url, !Ed25519} state p p2 cs cs2 w r w' :
  (forall n, c_db_ok (cs n) = true) -> (forall n, c_db_ok (cs2 n) = true) ->
  active_node (tables w) (vr_node_id p) ->
  vr_node_id p2 = vr_node_id p -> Str.trim (vr_challenge p2) = Str.trim (vr_challenge p) ->
  run (verify_auth_challenge state p) cs w = Done r w' ->
  exists r2 w2, run (verify_auth_challenge state p2) cs2 w' = Done r2 w2 /\ status r2 <> OK.
Proof.
  intros Hdb Hdb2 Ha Hid Hch Hr.
  destruct (verify_run state p cs w Hdb) as (r' & w'' & Hrun & Hw & _). rewrite Hr in Hrun.
  injection Hrun as <- <-. rewrite (Hw Ha).
  destruct (verify_run state p2 cs2 (with_tables (consumed p (tables w)) w) Hdb2)
    as (r2 & w2 & Hrun2 & _ & Hs & _).
  exists r2, w2. split; [done|]. intros (row & record & _ & _ & Hm & _)%Hs.
  rewrite Hid, Hch in Hm. cbn in Hm. unfold consumed in Hm. by rewrite challenge_matches_consumed in Hm.
Qed.

(** One turn of a task, with the database answering. *)
Local Ltac turn Hdb lookup := eapply run_sched_step;
  [reflexivity | cbn; rewrite ?Hdb; cbn; rewrite ?with_tables_id, ?lookup; reflexivity | cbn].

(** Run concurrently, two verifications of one signed challenge can both
    be answered with a token: the look-up and the deletion are two queries,
    and deleting nothing is not an error. *)
Theorem verify_replay_race
    `{!DateText, !JwtCodec NodeJwtClaims, !Base64Url, !Ed25519} state p c w token :
  c_db_ok c = true ->
  proves_identity (tables w) (c_now c) p ->
  jwt_encode (jwt_secret (env state)) (issued_claims state (vr_node_id p) (c_now c)) = Ok token ->
  exists sch w' r1 r2,
    run_sched sch (w, [verify_auth_challenge state p; verify_auth_challenge state p])
      = Some (w', [Ret r1; Ret r2]) /\
    status r1 = OK /\ status r2 = OK.
Proof.
  intros Hdb (row & record & Hrow & Hrev & Hm & Hx & Hsig) Htok. apply Z.leb_gt in Hx as Hle.
  eexists [(0, c); (1, c); (0, c); (1, c); (0, c); (1, c); (0, c); (1, c); (0, c); (1, c)]%nat, _, _, _.
  split; [|split].
  - turn Hdb Hrow. rewrite Hrev. turn Hdb Hrow. rewrite Hrev.
    turn Hdb Hm. turn Hdb Hm. turn Hdb Hm. turn Hdb Hm.
    turn Hdb Hm. rewrite Hle, Hsig. cbn. turn Hdb Hm. rewrite Hle. cbn.
    turn Hdb Hm. turn Hdb Hm. unfold issued_claims in Htok. rewrite Htok. cbn. reflexivity.
  - done.
  - done.
Qed.

Section challenge_facts.
Context `{!UuidText, !DateText, !JwtCodec NodeJwtClaims, !Base64Url, !Ed25519}.

(** The challenge recorded for an active node; nothing for any other. *)
Definition challenged (state : AppState) (id : Uuid) (challenge : string) (now : SystemTime) (t : Tables) : Tables :=
  match t_nodes t !! id with
  | Some row =>
      if nc_revoked row.1 then t
      else with_t_challenges (<[id := {| ac_node_id := id; ac_challenge := challenge;
             ac_expires_at := now + seconds (challenge_ttl_secs (env state)) |}]>) t
  | None => t
  end.

Lemma create_run state id cs w :
  tables_wf (tables w) -> (forall n, c_db_ok (cs n) = true) ->
  run (create_auth_challenge state id) cs w =
    Done {| status := OK; body := JObj [("challenge", JStr (b64_encode (c_entropy (cs 0%nat))))] |}
         (with_tables (challenged state id (b64_encode (c_entropy (cs 0%nat))) (c_now (cs 2%nat)) (tables w)) w).
Proof.
  intros Hwf Hdb. unfold create_auth_challenge, challenged. cbn. rewrite Hdb. cbn. rewrite with_tables_id.
  destruct (t_nodes (tables w) !! id) as [row|] eqn:Hrow; cbn; [|by rewrite with_tables_id].
  destruct (nc_revoked row.1) eqn:Hrev; cbn; [by rewrite with_tables_id|].
  rewrite Hdb. cbn. rewrite (wf_pk _ Hwf _ _ Hrow), Hrow. done.
Qed.

Lemma authenticate_run state token cs w :
  c_db_ok (cs 1%nat) = true ->
  exists r, run (authenticate_node_jwt state token) cs w = Done r w /\
    forall id, r = Ok {| an_node_id := id |} <->
      exists claims, jwt_decode (c_now (cs 0%nat)) (jwt_secret (env state)) token = Ok claims /\
        nj_node_id claims = id /\ active_node (tables w) id.
Proof.
  intros Hdb. unfold authenticate_node_jwt, active_node. cbn.
  destruct (jwt_decode _ _ token) as [claims|e]; cbn; cycle 1.
  { eexists; split; [done|]. intros id; split; [done|]. by intros (?&?&?). }
  rewrite Hdb. cbn. rewrite with_tables_id.
  destruct (t_nodes (tables w) !! nj_node_id claims) as [row|] eqn:Hrow; cbn; cycle 1.
  { eexists; split; [done|]. intros id; split; [done|]. intros (?&[= <-]&<-&?&?&?). congruence. }
  destruct (nc_revoked row.1) eqn:Hrev; cbn; eexists; (split; [done|]); intros id; split.
  - done.
  - intros (?&[= <-]&<-&?&?&?). congruence.
  - intros [= <-]. eauto 6.
  - by intros (?&[= <-]&<-&_).
Qed.
End challenge_facts.

(** The answer to a request for a challenge does not depend on the
    tables: an unknown, a revoked and an active node get the same response,
    so the endpoint does not tell which nodes exist.  Only an active node has
    the challenge recorded, with the configured life time. *)
Theorem create_auth_challenge_reveals_nothing `{!Base64Url} state id1 id2 cs w1 w2 :
  tables_wf (tables w1) -> tables_wf (tables w2) -> (forall n, c_db_ok (cs n) = true) ->
  exists r,
    run (create_auth_challenge state id1) cs w1 =
      Done r (with_tables (challenged state id1 (b64_encode (c_entropy (cs 0%nat))) (c_now (cs 2%nat)) (tables w1)) w1) /\
    run (create_auth_challenge state id2) cs w2 =
      Done r (with_tables (challenged state id2 (b64_encode (c_entropy (cs 0%nat))) (c_now (cs 2%nat)) (tables w2)) w2).
Proof. intros Hwf1 Hwf2 Hdb. eexists. by rewrite !create_run by done. Qed.

(** The protocol completes: an active node that asks for a challenge,
    signs it and answers before it expires gets a token, and the server
    accepts that token as this node's until the token expires. *)
Theorem node_login_end_to_end
    `{!DateText, !JwtCodec NodeJwtClaims, !JwtLaws NodeJwtClaims nj_exp, !Base64Url, !Base64UrlLaws, !Ed25519}
    state p row signature cs1 cs2 cs3 w token :
  tables_wf (tables w) ->
  (forall n, c_db_ok (cs1 n) = true) -> (forall n, c_db_ok (cs2 n) = true) -> (forall n, c_db_ok (cs3 n) = true) ->
  t_nodes (tables w) !! vr_node_id p = Some row -> nc_revoked row.1 = false ->
  let challenge := b64_encode (c_entropy (cs1 0%nat)) in
  let claims := issued_claims state (vr_node_id p) (c_now (cs2 4%nat)) in
  vr_challenge p = challenge -> Str.trim (vr_signature p) = signature ->
  verify_signature (nc_public_key row.1) challenge signature = Ok tt ->
  c_now (cs2 3%nat) < c_now (cs1 2%nat) + seconds (challenge_ttl_secs (env state)) ->
  jwt_encode (jwt_secret (env state)) claims = Ok token ->
  as_secs (c_now (cs3 0%nat)) <= nj_exp claims ->
  exists r1 w1 r2 w2,
    run (create_auth_challenge state (vr_node_id p)) cs1 w = Done r1 w1 /\
    body r1 = JObj [("challenge", JStr challenge)] /\
    run (verify_auth_challenge state p) cs2 w1 = Done r2 w2 /\ status r2 = OK /\
    run (authenticate_node_jwt state token) cs3 w2 = Done (Ok {| an_node_id := vr_node_id p |}) w2.
Proof.
  intros Hwf Hdb1 Hdb2 Hdb3 Hrow Hrev challenge claims Hch Hsg Hsig Hx Htok Hexp.
  set (w1 := with_tables (challenged state (vr_node_id p) challenge (c_now (cs1 2%nat)) (tables w)) w).
  assert (Hnodes : t_nodes (tables w1) = t_nodes (tables w)).
  { cbn. unfold challenged. rewrite Hrow. by destruct (nc_revoked row.1). }
  assert (Ha : active_node (tables w1) (vr_node_id p)) by (exists row; by rewrite Hnodes).
  assert (Hm : challenge_matches (vr_node_id p) challenge (tables w1) =
    Some {| ac_node_id := vr_node_id p; ac_challenge := challenge;
            ac_expires_at := c_now (cs1 2%nat) + seconds (challenge_ttl_secs (env state)) |}).
  { unfold challenge_matches, w1, challenged. cbn. rewrite Hrow, Hrev. cbn. rewrite lookup_insert_eq. cbn.
    by rewrite bool_decide_true. }
  destruct (verify_run state p cs2 w1 Hdb2) as (r2 & w2 & Hrun2 & Hw2 & _ & Hok).
  specialize (Hok token). rewrite Hw2 in Hrun2 by done.
  assert (Hproves : proves_identity (tables w1) (c_now (cs2 3%nat)) p).
  { eexists row, _. rewrite Hnodes, Hch, Hsg. unfold challenge. rewrite b64_trim. by repeat split. }
  destruct (authenticate_run state token cs3 (with_tables (consumed p (tables w1)) w1) (Hdb3 _)) as (r3 & Hrun3 & Hr3).
  eexists _, w1, r2, _. split; [by apply create_run|]. split; [done|]. split; [exact Hrun2|].
  split; [by rewrite (Hok Hproves Htok)|]. rewrite Hrun3. f_equal. apply Hr3. exists claims.
  split; [apply jwt_decode_encode; [done|unfold JWT_LEEWAY; lia]|]. split; [done|].
  destruct Ha as (row' & Hr' & Hv'). exists row'. split; [|done]. cbn. unfold consumed.
  case_match; exact Hr'.
Qed.

(** [POST /api/nodes/heartbeat] succeeds exactly for the bearer of an
    unexpired token of an active node, and touches that node's [last_seen]
    and nothing else; any other request changes nothing. *)
Theorem heartbeat_route_authorised `{!UuidText, !DateText, !JwtCodec NodeJwtClaims} state headers cs w :
  (forall n, c_db_ok (cs n) = true) ->
  exists r w', run (heartbeat_route state headers) cs w = Done r w' /\
    ((status r = OK /\ exists token claims,
        extract_bearer_token headers = Ok token /\
        jwt_decode (c_now (cs 0%nat)) (jwt_secret (env state)) token = Ok claims /\
        active_node (tables w) (nj_node_id claims) /\
        w' = with_tables (with_t_nodes (alter (touch_row (c_now (cs 2%nat))) (nj_node_id claims)) (tables w)) w) \/
     (status r = UNAUTHORIZED /\ w' = w /\
        forall token claims, extract_bearer_token headers = Ok token ->
          jwt_decode (c_now (cs 0%nat)) (jwt_secret (env state)) token = Ok claims ->
          ~ active_node (tables w) (nj_node_id claims))).
Proof.
  intros Hdb. unfold heartbeat_route, require_node_jwt, heartbeat.
  destruct (extract_bearer_token headers) as [token|e]; cycle 1.
  { eexists _, w. split; [done|]. by right. }
  unfold authenticate_node_jwt, active_node. cbn.
  destruct (jwt_decode _ _ token) as [claims|e] eqn:Hj; cbn; cycle 1.
  { eexists _, w. split; [done|]. right. split; [done|]. split; [done|]. intros ? ? [= <-]. congruence. }
  rewrite Hdb. cbn. rewrite with_tables_id.
  destruct (t_nodes (tables w) !! nj_node_id claims) as [row|] eqn:Hrow; cbn; cycle 1.
  { eexists _, w. split; [done|]. right. split; [done|]. split; [done|].
    intros ? ? [= <-] ? (?&?&?). congruence. }
  destruct (nc_revoked row.1) eqn:Hrev; cbn.
  { eexists _, w. split; [done|]. right. split; [done|]. split; [done|].
    intros ? ? [= <-] ? (?&?&?). congruence. }
  rewrite Hdb. cbn. eexists _, _. split; [done|]. left. split; [done|].
  exists token, claims. repeat split; eauto.
Qed.
