(* ===== verification/ServerNode.v ===== *)
(** * Nodes: [server/src/node.rs]

    The life of an agent's socket: authentication by token, registration, the
    message loop, and the clean-up that closes the node's sessions.  Claiming
    a node is in [ServerClaim]. *)

From S2P Require Import Prelude Async Mpsc RustStr Protocol Frame Externs ServerState ServerDb ServerAuth.

Section node.
Context `{!UuidText, !JsonText, !DateText, !JwtCodec NodeJwtClaims}.
Context `{!Serde WebFrameData.t, !Serde NodeFrameData.t}.

(** ** Authentication *)

(** [tx.send(AuthResponse { .. }).await.map_err(..)?] *)
Definition send_auth_response (tx : ChanId) (state : AppState) (node_id : Uuid) (success : bool)
    (error : string) : task (result string unit) :=
  sent ← perform (SendNode tx (NodeFrameData.AuthResponse node_id success (version state)));
  Ret (if (sent : bool) then Ok tt else Err error).

Definition authenticate_node (token : string) (node_id : Uuid) (tx : ChanId) (state : AppState) :
    task (result string Uuid) :=
  auth ← authenticate_node_jwt state token;
  match auth with
  | Err err =>
      _ ←? send_auth_response tx state nil_uuid false "failed to send auth response after jwt failure";
      Ret (Err ("jwt authentication failed for node " +:+ uuid_to_string node_id +:+ ": " +:+ err))
  | Ok auth =>
      if negb (bool_decide (an_node_id auth = node_id)) then
        _ ←? send_auth_response tx state (an_node_id auth) false "failed to send auth response";
        Ret (Err ("jwt node mismatch: frame node " +:+ uuid_to_string node_id +:+ ", token node "
                    +:+ uuid_to_string (an_node_id auth)))
      else
        claim ← get_node_claim_by_id_optional (an_node_id auth);
        match claim with
        | Ok (Some node_claim) =>
            if negb (nc_revoked node_claim) then
              _ ←? send_auth_response tx state (an_node_id auth) true "failed to send auth response";
              Ret (Ok node_id)
            else
              _ ←? send_auth_response tx state (an_node_id auth) false "failed to send auth response";
              Ret (Err ("node " +:+ uuid_to_string node_id +:+ " is revoked"))
        | Ok None =>
            _ ←? send_auth_response tx state (an_node_id auth) false "failed to send auth response";
            Ret (Err ("node " +:+ uuid_to_string node_id +:+ " does not exist"))
        | Err err =>
            _ ←? send_auth_response tx state (an_node_id auth) false
                   "failed to send auth response after db error";
            Ret (Err ("failed to load node " +:+ uuid_to_string node_id
                        +:+ " during websocket auth: " +:+ err))
        end
  end.

Definition node_auth_frame (msg : result string Message) : task (result string NodeFrameData.t) :=
  match msg with
  | Err e => Ret (Err e)
  | Ok (Binary data) =>
      frame ←? lift_call (decode native data);
      match Frame.data frame with
      | FrameData.Node d => Ret (Ok d)
      | FrameData.Web _ => Ret (Err "expected node frame for auth, got web frame")
      end
  | Ok (Close _) => Ret (Err "connection closed before auth")
  | Ok _ => Ret (Err "expected binary message for auth")
  end.

Definition wait_for_auth (ws_rx : WsStream) (tx : ChanId) (state : AppState) :
    task (result string Uuid * WsStream) :=
  match ws_rx with
  | [] => Ret (Err "connection closed before auth", [])
  | msg :: ws_rx =>
      r ← (node_frame ←? node_auth_frame msg;
           match node_frame with
           | NodeFrameData.Auth token node_id _ => authenticate_node token node_id tx state
           | _ => Ret (Err "expected Auth as first message")
           end);
      Ret (r, ws_rx)
  end.

(** ** Handlers *)

Definition handle_frame_response (frame : WebFrameData.t) (id : WebFrameId) (node_id : Uuid) : task unit :=
  cid ← match id with
        | ConnectionId cid => Ret (Ok cid)
        | SessionId sid => get_connection_id_by_sid sid node_id
        end;
  match cid with
  | Err _ => Ret tt
  | Ok cid => _ ← notify_client_by_cid cid frame; Ret tt
  end.

Definition handle_tunnel_closed (protocol : Z) (cid : Uuid) (sid : Z) (node_id : Uuid) (msg_id : option Z) :
    task unit :=
  let key := {| node_id := node_id; sid := sid |} in
  updating (with_sessions (delete key));;
  _ ← notify_client_by_cid cid (WebFrameData.TunnelClosed protocol sid msg_id);
  Ret tt.

Definition handle_tunnel_opened (protocol : Z) (cid : Uuid) (sid : Z) (node_id : Uuid) (msg_id : option Z) :
    task unit :=
  let key := {| node_id := node_id; sid := sid |} in
  updating (with_sessions (<[key := (cid, node_id)]>));;
  _ ← notify_client_by_cid cid (WebFrameData.TunnelOpened protocol sid msg_id);
  Ret tt.

(** [common/src/time.rs] *)
Definition now_millis (now : SystemTime) : Z :=
  match duration_since now 0 with Ok d => wrap 64 (millis_of d) | Err _ => 0 end.

Definition beat (stats : Stats) (now : SystemTime) (info : NodeConnection) : NodeConnection :=
  {| node := {| connected_at := connected_at (node info); last_heartbeat := now;
                ip := ip (node info); last_stats := Some stats |};
     nc_tx := nc_tx info; node_record := node_record info; server_id := server_id info |}.

Definition handle_node_heartbeat (state : AppState) (node_id : Uuid) (stats : Stats) (sent_at : Z) :
    task (result string unit) :=
  info ← reading (fun s => nodes s !! node_id);
  match info with
  | None => Ret (Err ("node " +:+ uuid_to_string node_id +:+ " not found"))
  | Some info =>
      now ← perform Now;
      let now := now_millis now in
      let latency := saturating_sub now sent_at in
      _ ← perform (SendNode (nc_tx info) (NodeFrameData.HeartbeatAck sent_at now));
      now ← perform Now;
      match get_extended_stats now info latency with
      | Err _ => Ret (Ok tt)
      | Ok extended_stats =>
          r ← update_node_stats (node_record info) (server state) extended_stats;
          match r with
          | Err _ => Ret (Ok tt)
          | Ok _ =>
              now ← perform Now;
              updating (with_nodes (alter (beat stats now) node_id));;
              Ret (Ok tt)
          end
      end
  end.

Definition handle_node_frame (state : AppState) (node_id : Uuid) (node_frame : NodeFrameData.t) : task Flow :=
  match node_frame with
  | NodeFrameData.Heartbeat stats sent_at =>
      r ← handle_node_heartbeat state node_id stats sent_at;
      Ret (match r with Ok _ => Continue | Err _ => Break end)
  | NodeFrameData.TunnelOpened protocol cid sid msg_id =>
      handle_tunnel_opened protocol cid sid node_id msg_id;; Ret Continue
  | NodeFrameData.WebFrame frame id =>
      handle_frame_response frame id node_id;; Ret Continue
  | NodeFrameData.TunnelClosed protocol cid sid msg_id =>
      handle_tunnel_closed protocol cid sid node_id msg_id;; Ret Continue
  | _ => Ret Continue
  end.

Definition handle_node_message (state : AppState) (node_id : Uuid) (msg : result string Message) : task Flow :=
  match msg with
  | Err _ => Ret Break
  | Ok (Close _) => Ret Break
  | Ok (Binary data) =>
      frame ← lift_call (decode native data);
      match frame with
      | Err _ => Ret Break
      | Ok frame =>
          match Frame.data frame with
          | FrameData.Node node_frame => handle_node_frame state node_id node_frame
          | FrameData.Web _ => Ret Break
          end
      end
  | Ok _ => Ret Continue
  end.

Fixpoint handle_node_messages (state : AppState) (node_id : Uuid) (ws_rx : WsStream) : task unit :=
  match ws_rx with
  | [] => Ret tt
  | msg :: ws_rx =>
      flow ← handle_node_message state node_id msg;
      match flow with
      | Break => Ret tt
      | Continue => handle_node_messages state node_id ws_rx
      end
  end.

(** ** Clean-up and the life of the socket *)

Fixpoint close_sessions (sessions : list (TunnelSessionKey * (Uuid * Uuid))) (count : Z) : task Z :=
  match sessions with
  | [] => Ret count
  | (key, (cid, _)) :: sessions =>
      updating (with_sessions (delete key));;
      r ← notify_client_by_cid cid (WebFrameData.TunnelClosed 0 (sid key) None);
      close_sessions sessions (if is_ok r then wrap 32 (count + 1) else count)
  end.

Definition sessions_of_node (id : Uuid) (s : Shared) : list (TunnelSessionKey * (Uuid * Uuid)) :=
  filter (fun e => node_id e.1 = id) (map_to_list (tunnel_sessions s)).

Definition notify_all_clients_for_closed_tunnel (id : Uuid) : task Z :=
  sessions_to_close ← reading (sessions_of_node id);
  close_sessions sessions_to_close 0.

Definition disconnect_node (id : Uuid) : task unit :=
  info ← perform (OnShared (fun s => (nodes s !! id, with_nodes (delete id) s)));
  match info with
  | Some info =>
      _ ← set_node_disconnected (node_record info);
      _ ← notify_all_clients_for_closed_tunnel id;
      Ret tt
  | None => Ret tt
  end.

(** What follows the message loop: [drop(tx); write_task.abort();
    disconnect_node(..)]. *)
Definition end_node_socket (tx : ChanId) (node_id : Uuid) : task unit :=
  perform (CloseNode tx);; disconnect_node node_id.

Definition handle_node_socket (state : AppState) (ip : IpAddr) (ws_rx : WsStream) : task unit :=
  tx ← perform NewNodeChannel;
  '(auth, ws_rx) ← wait_for_auth ws_rx tx state;
  match auth with
  | Err _ => perform (CloseNode tx)
  | Ok node_id =>
      record ← get_node_by_id node_id;
      match record with
      | Err _ => perform (CloseNode tx)
      | Ok node_record =>
          _ ← set_node_connected node_record (server state);
          now ← perform Now;
          updating (with_nodes (<[node_id := NodeConnection_new now (id state) ip tx node_record]>));;
          perform (SpawnNodeWriter tx);;
          handle_node_messages state node_id ws_rx;;
          end_node_socket tx node_id
      end
  end.
End node.

(** ** Whose request an effect is *)

(** The effects of a node's loop and clean-up: the clients' entries stay, of
    the nodes only its own entry changes, of the sessions only those under its
    own id; the tables are only read; to nodes it sends nothing but the
    acknowledgements of its heartbeats. *)
Definition node_acts_for (id : Uuid) (R : Type) (e : sysE R) : Prop :=
  match e with
  | OnShared f => forall s,
      connections (f s).2 = connections s /\ delete id (nodes (f s).2) = delete id (nodes s) /\
      forall key, node_id key <> id -> tunnel_sessions (f s).2 !! key = tunnel_sessions s !! key
  | OnTables f => forall now fresh t, (f now fresh t).2 = t
  | SendNode _ frame => exists sent_at received_at, frame = NodeFrameData.HeartbeatAck sent_at received_at
  | Now | NewV4 | FillBytes | SendWeb _ _ | OnRedis _ => True
  | _ => False
  end.

Lemma list_sessions_of_node id s key v :
  (key, v) ∈ sessions_of_node id s <-> node_id key = id /\ tunnel_sessions s !! key = Some v.
Proof.
  unfold sessions_of_node. rewrite list_elem_of_filter, elem_of_map_to_list. done.
Qed.

Section node_facts.
Context `{!UuidText, !JsonText, !DateText, !JwtCodec NodeJwtClaims}.
Context `{!Serde WebFrameData.t, !Serde NodeFrameData.t}.

Lemma node_acts_notify id cid frame : all_effects (node_acts_for id) (notify_client_by_cid cid frame).
Proof. unfold notify_client_by_cid, reading. walk; done. Qed.

Lemma node_acts_sessions id f :
  (forall m key, node_id key <> id -> f m !! key = m !! key) ->
  all_effects (node_acts_for id) (updating (with_sessions f)).
Proof. intros Hf. apply all_effects_perform. cbn. auto. Qed.

Lemma node_acts_delete (key : TunnelSessionKey) :
  all_effects (node_acts_for (node_id key)) (updating (with_sessions (delete key))).
Proof. apply node_acts_sessions. intros m k Hk. apply lookup_delete_ne. congruence. Qed.

Lemma node_acts_opened protocol cid sid id msg_id :
  all_effects (node_acts_for id) (handle_tunnel_opened protocol cid sid id msg_id).
Proof.
  apply all_effects_bind; [|intros; apply all_effects_bind; [apply node_acts_notify|done]].
  apply node_acts_sessions. intros m k Hk. apply lookup_insert_ne. by intros <-.
Qed.

Lemma node_acts_closed protocol cid sid id msg_id :
  all_effects (node_acts_for id) (handle_tunnel_closed protocol cid sid id msg_id).
Proof.
  apply all_effects_bind; [|intros; apply all_effects_bind; [apply node_acts_notify|done]].
  apply (node_acts_delete {| node_id := id; sid := sid |}).
Qed.

Lemma node_acts_response frame to id : all_effects (node_acts_for id) (handle_frame_response frame to id).
Proof.
  apply all_effects_bind.
  - destruct to; [|done]. unfold get_connection_id_by_sid, reading. cbv zeta. walk; done.
  - intros [cid|]; [|done]. apply all_effects_bind; [apply node_acts_notify|done].
Qed.

Lemma node_acts_heartbeat state id stats sent_at :
  all_effects (node_acts_for id) (handle_node_heartbeat state id stats sent_at).
Proof.
  unfold handle_node_heartbeat, update_node_stats, hset_with_ttl, reading, updating. cbv zeta.
  walk; cbn; eauto. repeat split; try done. apply map_eq. intros j.
  destruct (decide (j = id)) as [->|]; [by rewrite !lookup_delete_eq|].
  by rewrite !lookup_delete_ne, lookup_alter_ne.
Qed.

Lemma node_acts_messages state id ws_rx : all_effects (node_acts_for id) (handle_node_messages state id ws_rx).
Proof.
  induction ws_rx as [|msg ws_rx IH]; [done|]. apply all_effects_bind; [|by intros []].
  destruct msg as [[data| | | |]|]; cbn [handle_node_message]; try done.
  destruct (decode_native_returns data) as [r ->]. destruct r as [frame|]; [|done]. cbn.
  destruct (Frame.data frame) as [|f]; [done|].
  destruct f; cbn [handle_node_frame]; try done; (apply all_effects_bind; [|done]).
  - apply node_acts_heartbeat.
  - apply node_acts_opened.
  - apply node_acts_closed.
  - apply node_acts_response.
Qed.

Lemma node_acts_close_sessions id sessions count :
  Forall (fun e => node_id e.1 = id) sessions ->
  all_effects (node_acts_for id) (close_sessions sessions count).
Proof.
  intros Hs. revert count. induction Hs as [|[key [cid n]] sessions Hk _ IH]; intros count; [done|].
  cbn in Hk. subst id. apply all_effects_bind; [apply node_acts_delete|]. intros _.
  apply all_effects_bind; [apply node_acts_notify|]. intros r. apply IH.
Qed.

Lemma node_acts_disconnect id : all_effects (node_acts_for id) (disconnect_node id).
Proof.
  apply all_effects_bind.
  { apply all_effects_perform. intros s. cbn. by rewrite delete_delete_eq. }
  intros [info|]; [|done]. apply all_effects_bind; [by apply all_effects_perform|]. intros _.
  apply all_effects_bind; [|done]. apply all_effects_perform_bind; [done|].
  intros c w r w' [= <- _]. apply node_acts_close_sessions.
  apply Forall_forall. intros [key v] Hin. by apply list_sessions_of_node in Hin as [? _].
Qed.

Lemma run_notify_room n cid frame cs w :
  (forall info, connections (shared w) !! cid = Some info -> room CHANNEL_CAPACITY (S n) (web_channels w) (wc_tx info)) ->
  exists r m,
    run (notify_client_by_cid cid frame) cs w = Done r (with_web_channels m w) /\
    grows (web_channels w) m /\
    (forall tx, room CHANNEL_CAPACITY (S n) (web_channels w) tx -> room CHANNEL_CAPACITY n m tx) /\
    (forall info, connections (shared w) !! cid = Some info ->
       accepted_since (web_channels w) m (wc_tx info) frame).
Proof.
  intros Hroom. unfold notify_client_by_cid. cbn. rewrite with_shared_id.
  destruct (connections (shared w) !! cid) as [info|] eqn:Hc; cycle 1.
  { exists (Err ("connection " +:+ uuid_to_string cid +:+ " not found")), (web_channels w).
    split; [by destruct w|]. split; [reflexivity|]. split; [|done].
    intros tx Hr ch Hch Hrx. specialize (Hr ch Hch Hrx). lia. }
  destruct (send_in_room _ n _ _ frame (Hroom _ eq_refl)) as (b & m & Hs & Hg & Ha & Hr). cbn. rewrite Hs. cbn.
  exists (if b then Ok tt else Err ("failed to send frame to client " +:+ uuid_to_string cid +:+ ": channel closed")), m.
  split; [by destruct b|]. split; [done|]. split; [done|]. by intros ? [= <-].
Qed.

(** Closing a list of sessions: they go, one by one, and their clients have
    been told. *)
Lemma run_close_sessions sessions count cs w :
  (forall cid info, connections (shared w) !! cid = Some info ->
     room CHANNEL_CAPACITY (length sessions) (web_channels w) (wc_tx info)) ->
  exists total m,
    run (close_sessions sessions count) cs w =
      Done total (with_web_channels m (with_shared
        (with_sessions (fun ss => foldl (fun ss e => delete e.1 ss) ss sessions) (shared w)) w)) /\
    grows (web_channels w) m /\
    (forall key cid nid info, (key, (cid, nid)) ∈ sessions -> connections (shared w) !! cid = Some info ->
       accepted_since (web_channels w) m (wc_tx info) (WebFrameData.TunnelClosed 0 (sid key) None)).
Proof.
  revert count cs w. induction sessions as [|[key [cid nid]] sessions IH]; intros count cs w Hroom.
  { exists count, (web_channels w). split; [by destruct w as [[]]|]. split; [reflexivity|].
    intros ? ? ? ? Hin. by apply not_elem_of_nil in Hin. }
  set (w1 := with_shared (with_sessions (delete key) (shared w)) w).
  destruct (run_notify_room (length sessions) cid (WebFrameData.TunnelClosed 0 (sid key) None)
    (fun n => cs (S n)) w1) as (r & m & Hrun & Hg & Hr & Ha); [intros info; apply Hroom|].
  set (w2 := with_web_channels m w1) in *. cbn [close_sessions].
  eapply run_bind in Hrun as [skip Hrun].
  destruct (IH (if is_ok r then wrap 32 (count + 1) else count) (fun n => cs (S (skip + n)%nat)) w2) as (total & m' & Hrun' & Hg' & Ha').
  { intros cid' info' Hinfo. apply Hr. by eapply Hroom. }
  exists total, m'. split; [|split].
  - cbn [mbind prog_mbind prog_bind updating perform run]. cbn [exec sys_handler sys_exec].
    fold w1. rewrite Hrun, Hrun'. by destruct w.
  - by etrans.
  - intros key' cid' nid' info' [Heq|Hin]%elem_of_cons Hinfo.
    + injection Heq as -> -> ->. eapply accepted_then_grows; [exact Hg|by apply Ha|exact Hg'].
    + eapply grows_then_accepted; [exact Hg|by eapply Ha'].
Qed.

Lemma foldl_delete_lookup (sessions : list (TunnelSessionKey * (Uuid * Uuid)))
    (ss : gmap TunnelSessionKey (Uuid * Uuid)) key :
  foldl (fun ss e => delete e.1 ss) ss sessions !! key =
  if decide (key ∈ sessions.*1) then None else ss !! key.
Proof.
  revert ss. induction sessions as [|[k v] sessions IH]; intros ss; cbn; [done|].
  rewrite IH. destruct (decide (key ∈ sessions.*1)), (decide (key ∈ k :: sessions.*1)); try done.
  - set_solver.
  - assert (key = k) as -> by set_solver. apply lookup_delete_eq.
  - apply lookup_delete_ne. set_solver.
Qed.
End node_facts.

(** C23. Whatever an agent sends, its loop and its clean-up touch only its own
    registration and the sessions under its own id; no client entry changes,
    tables are only read, and nothing but heartbeat acknowledgements is sent
    to nodes. *)
Theorem node_acts_for_itself
    `{!UuidText, !JsonText, !DateText, !Serde WebFrameData.t, !Serde NodeFrameData.t} state id ws_rx :
  all_effects (node_acts_for id) (handle_node_messages state id ws_rx;; disconnect_node id).
Proof. apply all_effects_bind; [apply node_acts_messages|]. intros _. apply node_acts_disconnect. Qed.

Lemma disconnect_node_run `{!UuidText} id info cs w :
  nodes (shared w) !! id = Some info ->
  (forall cid conn, connections (shared w) !! cid = Some conn ->
     room CHANNEL_CAPACITY (length (sessions_of_node id (shared w))) (web_channels w) (wc_tx conn)) ->
  exists w', run (disconnect_node id) cs w = Done tt w' /\
    node_channels w' = node_channels w /\
    nodes (shared w') = delete id (nodes (shared w)) /\
    connections (shared w') = connections (shared w) /\
    redis w' = redis w ++ (if c_redis_ok (cs 1%nat) then [Del (node_key (node_record info))] else []) /\
    (forall key, tunnel_sessions (shared w') !! key =
       if decide (node_id key = id) then None else tunnel_sessions (shared w) !! key) /\
    forall key cid nid conn, node_id key = id -> tunnel_sessions (shared w) !! key = Some (cid, nid) ->
      connections (shared w) !! cid = Some conn ->
      accepted_since (web_channels w) (web_channels w') (wc_tx conn) (WebFrameData.TunnelClosed 0 (sid key) None).
Proof.
  intros Hid Hroom. unfold disconnect_node, notify_all_clients_for_closed_tunnel. cbn. rewrite Hid. cbn.
  set (r := if c_redis_ok (cs 1%nat) then [Del (node_key (node_record info))] else []).
  set (sessions := sessions_of_node id (shared w)) in *.
  set (w1 := with_redis (redis w ++ r) (with_shared (with_nodes (delete id) (shared w)) w)).
  destruct (run_close_sessions sessions 0 (fun n => cs (S (S (S n)))) w1) as (total & m & Hrun & Hg & Ha);
    [exact Hroom|].
  assert (Hdelete : forall key, foldl (fun ss e => delete e.1 ss) (tunnel_sessions (shared w)) sessions !! key =
    if decide (node_id key = id) then None else tunnel_sessions (shared w) !! key).
  { intros key. rewrite foldl_delete_lookup.
    destruct (decide (key ∈ sessions.*1)) as [Hin|Hout], (decide (node_id key = id)) as [Hk|Hk]; try done.
    - apply list_elem_of_fmap in Hin as ([k v] & -> & Hin). by apply list_sessions_of_node in Hin as [? _].
    - destruct (tunnel_sessions (shared w) !! key) as [v|] eqn:Hs; [|done]. destruct Hout.
      apply list_elem_of_fmap. exists (key, v). split; [done|]. by apply list_sessions_of_node. }
  eapply run_bind in Hrun as [skip Hrun].
  eexists. split.
  { unfold r in w1. destruct (c_redis_ok (cs 1%nat)); cbn; [|rewrite ?app_nil_r in w1].
    - exact Hrun.
    - replace (with_shared _ w) with w1 by (unfold w1; rewrite ?app_nil_r; by destruct w). exact Hrun. }
  cbn. split; [done|]. split; [done|]. split; [done|]. split; [done|]. split; [exact Hdelete|].
  intros key cid nid conn Hk Hs Hc. eapply Ha; [|exact Hc]. apply list_sessions_of_node. eauto.
Qed.

(** C28. When a registered node leaves, exactly its registration and its
    sessions are removed, its Redis key is deleted if Redis answers, and the
    client of every one of its sessions has been sent [TunnelClosed].  With
    room on the clients' queues the clean-up returns. *)
Theorem disconnect_node_closes_sessions `{!UuidText} id info cs w :
  nodes (shared w) !! id = Some info ->
  (forall cid conn, connections (shared w) !! cid = Some conn ->
     room CHANNEL_CAPACITY (length (sessions_of_node id (shared w))) (web_channels w) (wc_tx conn)) ->
  exists w', run (disconnect_node id) cs w = Done tt w' /\
    nodes (shared w') = delete id (nodes (shared w)) /\
    connections (shared w') = connections (shared w) /\
    redis w' = redis w ++ (if c_redis_ok (cs 1%nat) then [Del (node_key (node_record info))] else []) /\
    (forall key, tunnel_sessions (shared w') !! key =
       if decide (node_id key = id) then None else tunnel_sessions (shared w) !! key) /\
    forall key cid nid conn, node_id key = id -> tunnel_sessions (shared w) !! key = Some (cid, nid) ->
      connections (shared w) !! cid = Some conn ->
      accepted_since (web_channels w) (web_channels w') (wc_tx conn) (WebFrameData.TunnelClosed 0 (sid key) None).
Proof.
  intros Hid Hroom. destruct (disconnect_node_run id info cs w Hid Hroom) as (w' & Hrun & _ & Hrest). eauto.
Qed.

(** A session opened by a node is granted to exactly the client the node
    named, and one it closes is granted to nobody; the sessions of every
    other key are as before. *)
Theorem tunnel_open_close_grants `{!UuidText} protocol cid sid id target msg_id cs w w' :
  parse_str target = Ok id ->
  (run (handle_tunnel_opened protocol cid sid id msg_id) cs w = Done tt w' ->
     (forall cid' tx, granted (shared w') cid' target sid tx <->
        cid' = cid /\ node_sender id (shared w) = Some tx) /\
     forall key, key <> {| node_id := id; sid := sid |} ->
       tunnel_sessions (shared w') !! key = tunnel_sessions (shared w) !! key) /\
  (run (handle_tunnel_closed protocol cid sid id msg_id) cs w = Done tt w' ->
     (forall cid' tx, ~ granted (shared w') cid' target sid tx) /\
     forall key, key <> {| node_id := id; sid := sid |} ->
       tunnel_sessions (shared w') !! key = tunnel_sessions (shared w) !! key).
Proof.
  intros Hp. set (key := {| node_id := id; sid := sid |}).
  assert (Hnotify : forall frame cs w1 w2,
    run (notify_client_by_cid cid frame ≫= fun _ => Ret tt) cs w1 = Done tt w2 -> shared w2 = shared w1).
  { intros frame cs0 w1 w2. unfold notify_client_by_cid. cbn.
    destruct (connections (shared w1) !! cid); cbn; [|by intros [= <-]].
    destruct (send_in _ _ _) as [[b m]|]; cbn; [|done]. by destruct b; intros [= <-]. }
  split; intros Hrun; apply Hnotify in Hrun; rewrite Hrun; cbn; unfold granted; cbn; fold key; split.
  - intros cid' tx. split.
    + intros (k & nid & Hk & Hs & Hn). rewrite Hp in Hk. injection Hk as <-. fold key in Hs.
      rewrite lookup_insert_eq in Hs. by injection Hs as <- <-.
    + intros [-> Hn]. exists id, id. fold key. by rewrite lookup_insert_eq.
  - intros k Hk. by rewrite lookup_insert_ne.
  - intros cid' tx (k & nid & Hk & Hs & Hn). rewrite Hp in Hk. injection Hk as <-. fold key in Hs.
    by rewrite lookup_delete_eq in Hs.
  - intros k Hk. by rewrite lookup_delete_ne.
Qed.

Lemma frame_response_run `{!UuidText} frame to id cs w :
  sessions_wf (shared w) ->
  let dest := match to with
              | ConnectionId cid => Some cid
              | SessionId sid => session_of (shared w) id sid
              end in
  let tx := cid ← dest; wc_tx <$> connections (shared w) !! cid in
  run (handle_frame_response frame to id) cs w =
    match tx with
    | None => Done tt w
    | Some tx =>
        match send_in CHANNEL_CAPACITY tx frame (web_channels w) with
        | Some (_, m) => Done tt (with_web_channels m w)
        | None => Blocked w
        end
    end.
Proof.
  intros Hwf. cbv zeta.
  assert (Hnotify : forall cid cs, run (notify_client_by_cid cid frame ≫= fun _ => Ret tt) cs w =
    match wc_tx <$> connections (shared w) !! cid with
    | None => Done tt w
    | Some tx => match send_in CHANNEL_CAPACITY tx frame (web_channels w) with
                 | Some (_, m) => Done tt (with_web_channels m w) | None => Blocked w end
    end).
  { intros cid cs0. unfold notify_client_by_cid. cbn. rewrite with_shared_id.
    destruct (connections (shared w) !! cid); cbn; [|done].
    destruct (send_in _ _ _) as [[b m]|]; cbn; [|done]. by destruct b. }
  destruct to as [sid|cid]; [|exact (Hnotify cid cs)].
  destruct (get_connection_id_by_sid_run sid id cs w Hwf) as (r & Hrun & Hr).
  eapply run_bind in Hrun as [skip Hrun]. unfold handle_frame_response. rewrite Hrun.
  destruct r as [cid|e].
  - rewrite (proj1 (Hr cid) eq_refl). apply Hnotify.
  - destruct (session_of (shared w) id sid) as [cid|]; [|done]. pose proof (proj2 (Hr cid) eq_refl). done.
Qed.

(** C31. A web frame an agent addresses to a session goes to the client that
    session is recorded for, or nowhere; a frame addressed to a connection
    goes to that client, whether or not it has a session on the node. *)
Theorem frame_response_routing `{!UuidText} frame to id cs w :
  sessions_wf (shared w) ->
  let dest := match to with
              | ConnectionId cid => Some cid
              | SessionId sid => session_of (shared w) id sid
              end in
  let tx := cid ← dest; wc_tx <$> connections (shared w) !! cid in
  run (handle_frame_response frame to id) cs w =
    match tx with
    | None => Done tt w
    | Some tx =>
        match send_in CHANNEL_CAPACITY tx frame (web_channels w) with
        | Some (_, m) => Done tt (with_web_channels m w)
        | None => Blocked w
        end
    end.
Proof. apply frame_response_run. Qed.

(** The clean-up of a replaced connection removes its successor: when a
    node has reconnected and the old socket's handler ends, the registration
    of the new, live channel is gone, and so are the sessions opened since. *)
Theorem reconnect_race `{!UuidText} id info tx_old ch cs w :
  nodes (shared w) !! id = Some info ->
  tx_old <> nc_tx info ->
  node_channels w !! nc_tx info = Some ch -> rx ch = HeldByWriter ->
  (forall cid conn, connections (shared w) !! cid = Some conn ->
     room CHANNEL_CAPACITY (length (sessions_of_node id (shared w))) (web_channels w) (wc_tx conn)) ->
  exists w', run (end_node_socket tx_old id) cs w = Done tt w' /\
    node_channels w' !! nc_tx info = Some ch /\
    node_sender id (shared w') = None /\
    forall sid, session_of (shared w') id sid = None.
Proof.
  intros Hid Hne Hch _ Hroom.
  set (w1 := with_node_channels (alter chan_close tx_old (node_channels w)) w).
  destruct (disconnect_node_run id info (fun n => cs (S n)) w1 Hid Hroom)
    as (w' & Hrun & Hnc & Hn & _ & _ & Hs & _).
  exists w'. split; [exact Hrun|]. split; [|split].
  - rewrite Hnc. cbn. by rewrite lookup_alter_ne.
  - unfold node_sender. rewrite Hn. by rewrite lookup_delete_eq.
  - intros sid. unfold session_of. rewrite Hs. by rewrite decide_True.
Qed.

(** The parts of the outcome that do not depend on the answer. *)
Local Ltac answered Hsend := rewrite Hsend; cbn; eexists _, _, _, _; split; [done|]; split; [done|];
  split; [done|]; split; [apply lookup_insert_eq|]; split; [done|].

(** C14. The first frame of an agent authenticates it exactly when its token
    verifies, names the very node the frame names, and that node is active
    both times the table is read; the agent is sent one answer, which says
    so, and deciding changes neither the registry nor the tables. *)
Theorem node_auth_iff `{!UuidText, !JwtCodec NodeJwtClaims} token id tx state cs w :
  (forall n, c_db_ok (cs n) = true) ->
  node_channels w !! tx = Some chan_new ->
  exists r w' ch answer_id,
    run (authenticate_node token id tx state) cs w = Done r w' /\
    shared w' = shared w /\ tables w' = tables w /\ node_channels w' !! tx = Some ch /\
    sent ch = [NodeFrameData.AuthResponse answer_id (is_ok r) (version state)] /\
    (forall id', r = Ok id' <->
      id' = id /\ active_node (tables w) id /\
      exists claims, jwt_decode (c_now (cs 0%nat)) (jwt_secret (env state)) token = Ok claims /\
        nj_node_id claims = id).
Proof.
  intros Hdb Htx. unfold authenticate_node.
  destruct (authenticate_run state token cs w (Hdb _)) as (r & Hrun & Hr).
  eapply run_bind in Hrun as [skip Hrun]. rewrite Hrun. clear Hrun.
  pose proof (fun f => send_in_new CHANNEL_CAPACITY tx f _ ltac:(cbv; lia) Htx) as Hsend.
  destruct r as [[auth]|e]; cbn; cycle 1.
  { answered Hsend. intros id'. split; [done|]. intros (-> & Ha & claims & Hj & Hid).
    assert (Err e = Ok {| an_node_id := id |}) by (apply Hr; eauto). done. }
  destruct (proj1 (Hr auth) eq_refl) as (claims & Hj & Hid & row & Hrow & Hrev).
  case_bool_decide as Heq; cbn; cycle 1.
  { answered Hsend. intros id'. split; [done|]. intros (_ & _ & claims' & Hj' & Hid'). congruence. }
  rewrite Hdb. cbn. rewrite with_tables_id, Hrow. cbn. rewrite Hrev. cbn.
  answered Hsend. intros id'. split.
  - intros [= <-]. cbn in Heq. subst id. split; [done|]. split; [by exists row|]. eauto.
  - by intros [-> _].
Qed.

#[local] Arguments now_millis : simpl never.
#[local] Arguments get_extended_stats : simpl never.

(** A heartbeat of a registered node is acknowledged with the time of
    its arrival and, when the statistics reach Redis, recorded: the node's
    [last_heartbeat] is the clock and its statistics the new ones.  What
    reaches Redis are the statistics of the previous heartbeat.  When Redis
    fails the heartbeat is not recorded, so the node goes stale although it
    is alive. *)
Theorem node_heartbeat_recorded `{!UuidText, !JsonText, !DateText} state id info stats sent_at payload cs w m b :
  nodes (shared w) !! id = Some info ->
  let received_at := now_millis (c_now (cs 1%nat)) in
  send_in CHANNEL_CAPACITY (nc_tx info) (NodeFrameData.HeartbeatAck sent_at received_at) (node_channels w) = Some (b, m) ->
  get_extended_stats (c_now (cs 3%nat)) info (saturating_sub received_at sent_at) = Ok payload ->
  exists w', run (handle_node_heartbeat state id stats sent_at) cs w = Done (Ok tt) w' /\
    node_channels w' = m /\
    (c_redis_ok (cs 4%nat) = true -> c_redis_ok (cs 5%nat) = true ->
       nodes (shared w') !! id = Some (beat stats (c_now (cs 6%nat)) info) /\
       redis w' = redis w ++
         [HSetMultiple (node_key (node_record info))
            [("node", node_record_to_json (node_record info)); ("stats", payload);
             ("server", server_get_encoded (server state))];
          Expire (node_key (node_record info)) 120]) /\
    (c_redis_ok (cs 4%nat) = false -> shared w' = shared w).
Proof.
  intros Hid received_at Hs Hp. unfold handle_node_heartbeat. cbn. rewrite with_shared_id, Hid. cbn.
  fold received_at. rewrite Hs. cbn. rewrite Hp. cbn.
  destruct (c_redis_ok (cs 4%nat)) eqn:H3; cbn; cycle 1.
  { eexists. split; [done|]. split; [done|]. split; [done|]. done. }
  destruct (c_redis_ok (cs 5%nat)) eqn:H4; cbn; cycle 1.
  { eexists. split; [done|]. split; [done|]. done. }
  eexists. split; [done|]. split; [done|]. split; [|done]. intros _ _. cbn.
  rewrite lookup_alter_eq, Hid. split; [done|]. by rewrite <-app_assoc.
Qed.

(** ** The whole socket *)

(** The registry seen from everybody but node [id]. *)
Definition others_unchanged (id : Uuid) (s : Shared) (w : World) : Prop :=
  connections (shared w) = connections s /\ delete id (nodes (shared w)) = delete id (nodes s) /\
  forall key, node_id key <> id -> tunnel_sessions (shared w) !! key = tunnel_sessions s !! key.

Section lifetime.
Context `{!UuidText, !JsonText, !DateText, !JwtCodec NodeJwtClaims}.
Context `{!Serde WebFrameData.t, !Serde NodeFrameData.t}.

Lemma node_acts_others id s R (e : sysE R) :
  node_acts_for id R e -> effect_preserves (others_unchanged id s) R e.
Proof.
  intros Ha c w r w' (Hn & Hs & Hc) He. unfold others_unchanged. destruct e; cbn in *; try done;
    try (by injection He as <- <-).
  - specialize (Ha (shared w)). destruct (f (shared w)) as [r' s']. injection He as <- <-. cbn in *.
    destruct Ha as (-> & -> & Hk). split; [done|]. split; [done|]. intros key Hne. rewrite Hk; auto.
  - destruct (c_db_ok c); [destruct (f (c_now c) (c_uuid c) (tables w))|]; by injection He as <- <-.
  - destruct (c_redis_ok c); by injection He as <- <-.
  - destruct (send_in CHANNEL_CAPACITY tx f (web_channels w)) as [[b m]|]; [|done]. by injection He as <- <-.
  - destruct (send_in CHANNEL_CAPACITY tx f (node_channels w)) as [[b m]|]; [|done]. by injection He as <- <-.
Qed.

Lemma node_wait_for_auth_off_registry ws_rx tx state : all_effects off_registry (wait_for_auth ws_rx tx state).
Proof.
  destruct ws_rx as [|msg ws_rx]; [done|].
  unfold wait_for_auth, node_auth_frame, authenticate_node, authenticate_node_jwt, send_auth_response,
    get_node_claim_by_id_optional, get_node_claim_by_id, query, try_bind, lift_call.
  walk; cbn; done.
Qed.

Lemma node_wait_for_auth_no_panic ws_rx tx state : no_panic (wait_for_auth ws_rx tx state).
Proof.
  destruct ws_rx as [|msg ws_rx]; [done|]. apply no_panic_bind; [|done]. apply no_panic_bind.
  - destruct msg as [[data| | | |]|]; cbn [node_auth_frame]; try done.
    destruct (decode_native_returns data) as [r ->]. destruct r; cbn; [by destruct (Frame.data a)|done].
  - unfold authenticate_node, authenticate_node_jwt, send_auth_response,
      get_node_claim_by_id_optional, get_node_claim_by_id, query, try_bind. intros. walk; done.
Qed.

Lemma notify_no_panic cid frame : no_panic (notify_client_by_cid cid frame).
Proof. unfold notify_client_by_cid. walk; done. Qed.
#[local] Hint Resolve notify_no_panic : phirepass.

Lemma handle_node_messages_no_panic state id ws_rx : no_panic (handle_node_messages state id ws_rx).
Proof.
  induction ws_rx as [|msg ws_rx IH]; [done|]. apply no_panic_bind; [|by intros []].
  destruct msg as [[data| | | |]|]; cbn [handle_node_message]; try done.
  destruct (decode_native_returns data) as [r ->]. destruct r as [frame|]; [|done]. cbn.
  destruct (Frame.data frame) as [|f]; [done|].
  destruct f; cbn [handle_node_frame]; try done; (apply no_panic_bind; [|done]).
  all: unfold handle_node_heartbeat, update_node_stats, hset_with_ttl, handle_tunnel_opened,
    handle_tunnel_closed, handle_frame_response, get_connection_id_by_sid; cbv zeta; walk; done.
Qed.

Lemma disconnect_node_no_panic id : no_panic (disconnect_node id).
Proof.
  apply no_panic_bind; [done|]. intros [info|]; [|done]. apply no_panic_bind; [done|]. intros _.
  apply no_panic_bind; [|done]. apply no_panic_bind; [done|]. intros sessions. generalize 0.
  induction sessions as [|[key [cid n]] sessions IH]; intros count; [done|].
  apply no_panic_bind; [done|]. intros _. apply no_panic_bind; [apply notify_no_panic|]. intros r. apply IH.
Qed.
End lifetime.

(** The handler of an agent's socket never panics, and when it returns,
    whatever the agent sent and however authentication, Postgres, Redis and
    the clients' queues behaved, the client entries, the other nodes and the
    sessions under every other node's id are as they were. *)
Theorem node_socket_isolated
    `{!UuidText, !JsonText, !DateText, !JwtCodec NodeJwtClaims, !Serde WebFrameData.t, !Serde NodeFrameData.t}
    state ip ws_rx cs w :
  match run (handle_node_socket state ip ws_rx) cs w with
  | Done _ w' => exists id, others_unchanged id (shared w) w'
  | Blocked _ => True
  | Panicked _ => False
  end.
Proof.
  apply (wp_run _ (fun _ w' => exists id, others_unchanged id (shared w) w')).
  apply wp_bind, wp_perform. intros c0 tx w0 [= <- <-]. apply wp_bind.
  eapply wp_mono; [|apply (wp_preserves (fun w' => shared w' = shared w));
    [eapply preserves_effects, all_effects_mono; [intros R e; apply (off_registry_shared (fun s => s = shared w))
      |apply node_wait_for_auth_off_registry]
    |apply node_wait_for_auth_no_panic|done]].
  intros [[id|e] rest] w1 Hw1; cycle 1.
  { apply wp_perform. intros c r w2 [= <- <-]. cbn. exists 0. unfold others_unchanged. cbn. by rewrite Hw1. }
  assert (HI1 : others_unchanged id (shared w) w1) by (unfold others_unchanged; by rewrite Hw1).
  eapply wp_mono; [intros ? w' H'; exists id; exact H'|].
  set (I := others_unchanged id (shared w)) in *.
  assert (Hstep : forall A (p : task A) Q w2, I w2 -> all_effects (node_acts_for id) p -> no_panic p ->
    (forall a w3, I w3 -> Q a w3) -> wp p Q w2).
  { intros A p Q w2 HI Hp Hnp HQ. eapply wp_mono; [|apply (wp_preserves I); [|done|done]]; [exact HQ|].
    eapply preserves_effects, all_effects_mono; [intros R e; apply node_acts_others|done]. }
  apply wp_bind, Hstep; [done|walk; done..|]. intros [record|e] w2 HI2; cycle 1.
  { apply wp_perform. intros c r w3 [= <- <-]. exact HI2. }
  apply wp_bind, Hstep; [done|unfold set_node_connected, update_node_stats, hset_with_ttl; walk; done..|].
  intros _ w3 HI3. apply wp_bind, wp_perform. intros c4 now4 w4 [= <- <-].
  apply wp_bind, wp_perform. intros c5 r5 w5 [= <- <-].
  assert (HI5 : I (with_shared (with_nodes <[id:=NodeConnection_new (c_now c4) (ServerState.id state) ip
    (fresh_chan (node_channels w)) record]> (shared w3)) w3)).
  { destruct HI3 as (Hc & Hn & Hs). split; [done|]. split; [|done]. cbn. by rewrite delete_insert_eq. }
  apply wp_bind, wp_perform. intros c6 r6 w6 [= <- <-].
  apply wp_bind, Hstep; [exact HI5|apply node_acts_messages|apply handle_node_messages_no_panic|].
  intros _ w7 HI7. apply wp_bind, wp_perform. intros c8 r8 w8 [= <- <-].
  apply Hstep; [exact HI7|apply node_acts_disconnect|apply disconnect_node_no_panic|done].
Qed.
