(* ===== verification/ServerClaim.v ===== *)
(** * Claiming a node: [validate_creds] and [claim_node] of [server/src/node.rs]

    A user's access token with the scope [server:register] binds a public key
    to that user, or refreshes a binding the user already has. *)

From S2P Require Import Prelude Async Mpsc RustStr Protocol Externs Token ServerState ServerDb ServerAuth.

Inductive CredentialValidationError : Type :=
| Unauthorized (message : string)
| Internal (message : string).

Record ClaimNodeRequest : Type := {
  cr_public_key : string;
  cr_hostname : string;
  cr_metadata : Json }.

(** [#[serde(default = "default_metadata")]] *)
Definition default_metadata : Json := JObj [].

(** [Json(payload)] as the handler sees it: an absent [metadata] takes the default. *)
Definition claim_request (public_key hostname : string) (metadata : option Json) : ClaimNodeRequest :=
  {| cr_public_key := public_key; cr_hostname := hostname;
     cr_metadata := default default_metadata metadata |}.

Section claim.
Context `{!UuidText, !PasswordHasher}.

Definition validate_creds (token_id token_secret : string) :
    task (result CredentialValidationError TokenRecord) :=
  r ← get_token_by_id token_id;
  match r with
  | Err _ => Ret (Err (Internal "failed to validate token"))
  | Ok token_record =>
      now ← perform Now;
      let expired := match tr_expires_at token_record with
                     | Some expires_at => expires_at <? now
                     | None => false
                     end in
      if expired then Ret (Err (Unauthorized "token has expired"))
      else if negb (hash_parses (tr_token_hash token_record)) then
        Ret (Err (Internal "failed to parse stored password hash"))
      else if verify_password token_secret (tr_token_hash token_record) then Ret (Ok token_record)
      else Ret (Err (Unauthorized "failed to verify token"))
  end.

(** The part of [claim_node] after the credentials are validated. *)
Definition claim_with_token (token : TokenRecord) (payload : ClaimNodeRequest) : task Response :=
  if negb (existsb (String.eqb "server:register") (tr_scopes token)) then
    Ret (failure UNAUTHORIZED "AUTH_SCOPE_MISSING" "missing required scope: server:register")
  else
    existing ← get_node_by_public_key (Str.trim (cr_public_key payload));
    match existing with
    | Err _ => Ret (failure INTERNAL_SERVER_ERROR "CLAIM_LOOKUP_FAILED" "failed to check node claim")
    | Ok existing =>
        let conflict := match existing with
                        | Some existing => negb (bool_decide (nc_user_id existing = tr_user_id token))
                        | None => false
                        end in
        if conflict then
          Ret (failure UNAUTHORIZED "CLAIM_PUBLIC_KEY_OWNERSHIP_CONFLICT"
                 "public key already claimed by another user")
        else
          node ← claim_node_by_public_key (tr_user_id token) (Str.trim (cr_public_key payload))
                   (Str.trim (cr_hostname payload)) (cr_metadata payload);
          Ret (match node with
               | Err _ => failure INTERNAL_SERVER_ERROR "CLAIM_WRITE_FAILED" "failed to claim node"
               | Ok node =>
                   {| status := OK;
                      body := JObj [("success", JBool true); ("node_id", json_uuid (nc_id node))] |}
               end)
    end.

Definition claim_node (headers : HeaderMap) (payload : ClaimNodeRequest) : task Response :=
  if Str.is_empty (Str.trim (cr_public_key payload)) then
    Ret (failure BAD_REQUEST "BAD_REQUEST_PUBLIC_KEY_REQUIRED" "public_key is required")
  else if Str.is_empty (Str.trim (cr_hostname payload)) then
    Ret (failure BAD_REQUEST "BAD_REQUEST_HOSTNAME_REQUIRED" "hostname is required")
  else
    match extract_bearer_token headers with
    | Err err => Ret (failure UNAUTHORIZED "AUTH_HEADER_INVALID" err)
    | Ok bearer =>
        match extract_creds bearer with
        | Err err => Ret (failure UNAUTHORIZED "AUTH_TOKEN_FORMAT_INVALID" err)
        | Ok (token_id, token_secret) =>
            r ← validate_creds token_id token_secret;
            match r with
            | Err (Unauthorized err) => Ret (failure UNAUTHORIZED "AUTH_TOKEN_UNAUTHORIZED" err)
            | Err (Internal err) => Ret (failure INTERNAL_SERVER_ERROR "AUTH_TOKEN_VALIDATION_FAILED" err)
            | Ok token => claim_with_token token payload
            end
        end
    end.
End claim.

(** ** Properties *)

(** The owner of every node that has one, and whether it is revoked. *)
Definition keeps_owners (t0 t : Tables) : Prop :=
  tables_wf t /\
  forall id row, t_nodes t0 !! id = Some row ->
    exists row', t_nodes t !! id = Some row' /\ nc_user_id row'.1 = nc_user_id row.1 /\
      nc_public_key row'.1 = nc_public_key row.1 /\ nc_revoked row'.1 = nc_revoked row.1.

(** The insertion keeps the constraints of the schema and every owner. *)
Lemma claim_row_keeps_owners now fresh user key host metadata t0 t :
  keeps_owners t0 t -> keeps_owners t0 (claim_row now fresh user key host metadata t).2.
Proof.
  intros [Hwf Hkeep]. unfold claim_row.
  destruct (find_by_public_key key t) as [[row name]|] eqn:Hf.
  - apply find_by_public_key_some in Hf as [Hrow Hkey]; [|done]. cbn in Hrow, Hkey. split; [split|]; cbn.
    + intros id r. rewrite lookup_insert_Some. intros [[<- <-]|[_ Hr]]; [done|by eapply wf_pk].
    + intros id1 id2 r1 r2. rewrite !lookup_insert_Some.
      intros [[<- <-]|[Hn1 Hr1]] [[<- <-]|[Hn2 Hr2]]; cbn; intros Heq; try done.
      * by eapply (wf_unique t Hwf _ _ (row, name)).
      * by eapply (wf_unique t Hwf _ _ _ (row, name)).
      * by eapply (wf_unique t Hwf).
    + intros id r. rewrite lookup_insert_Some. intros [[<- <-]|[_ Hr]]; cbn; [by eapply (wf_owner t Hwf _ (row, name))|by eapply wf_owner].
    + intros id ch Hch. destruct (wf_challenge t Hwf _ _ Hch) as [? Hsome]. split; [done|].
      apply lookup_insert_is_Some. destruct (decide (nc_id row = id)); auto.
    + intros id r Hr. destruct (Hkeep _ _ Hr) as (r' & Hr' & ? & ? & ?).
      destruct (decide (nc_id row = id)) as [<-|Hne].
      * rewrite Hrow in Hr'. injection Hr' as <-. eexists. by rewrite lookup_insert_eq.
      * exists r'. by rewrite lookup_insert_ne.
  - destruct (negb _) eqn:Hu; [done|]. destruct (t_nodes t !! fresh) as [r0|] eqn:Hfresh; [done|].
    apply negb_false_iff, bool_decide_eq_true in Hu.
    pose proof (find_by_public_key_none _ _ Hf) as Hnone. split; [split|]; cbn.
    + intros id r. rewrite lookup_insert_Some. intros [[<- <-]|[_ Hr]]; [done|by eapply wf_pk].
    + intros id1 id2 r1 r2. rewrite !lookup_insert_Some.
      intros [[<- <-]|[Hn1 Hr1]] [[<- <-]|[Hn2 Hr2]]; cbn; intros Heq; try done.
      * by destruct (Hnone _ _ Hr2).
      * by destruct (Hnone _ _ Hr1).
      * by eapply (wf_unique t Hwf).
    + intros id r. rewrite lookup_insert_Some. intros [[<- <-]|[_ Hr]]; cbn; [done|by eapply wf_owner].
    + intros id ch Hch. destruct (wf_challenge t Hwf _ _ Hch) as [? Hsome]. split; [done|].
      apply lookup_insert_is_Some. destruct (decide (fresh = id)); auto.
    + intros id r Hr. destruct (Hkeep _ _ Hr) as (r' & Hr' & ? & ? & ?).
      destruct (decide (fresh = id)) as [<-|Hne]; [congruence|].
      exists r'. by rewrite lookup_insert_ne.
Qed.

Lemma keeps_owners_refl t : tables_wf t -> keeps_owners t t.
Proof. intros Hwf. split; [done|]. intros id row Hrow. by exists row. Qed.

Lemma claim_row_wf now fresh user key host metadata t :
  tables_wf t -> tables_wf (claim_row now fresh user key host metadata t).2.
Proof. intros Hwf. apply (claim_row_keeps_owners now fresh user key host metadata t t). by apply keeps_owners_refl. Qed.

(** An effect whose queries keep the owners. *)
Lemma query_keeps_owners t0 {R} context (f : SystemTime -> Uuid -> Tables -> result string R * Tables) :
  (forall now fresh t, keeps_owners t0 t -> keeps_owners t0 (f now fresh t).2) ->
  preserves (fun w => keeps_owners t0 (tables w)) (query context f).
Proof.
  intros Hf. apply preserves_bind; [|done]. apply preserves_perform.
  intros c w r w' Hw He. cbn in He. destruct (c_db_ok c); [|by injection He as <- <-].
  specialize (Hf (c_now c) (c_uuid c) _ Hw). destruct (f (c_now c) (c_uuid c) (tables w)). by injection He as <- <-.
Qed.

(** C29. However claims interleave with each other and with anything that
    keeps the registrations, no claim changes the owner, the key or the
    revocation of a node that exists, nor breaks a constraint of the schema. *)
Theorem claims_keep_owners `{!UuidText, !PasswordHasher} (env : World -> World -> Prop) w ts cf :
  (forall w1 w2, env w1 w2 -> keeps_owners (tables w) (tables w1) -> keeps_owners (tables w) (tables w2)) ->
  tables_wf (tables w) ->
  Forall (fun p => exists headers payload, p = claim_node headers payload) ts ->
  rtc (cstep env (fun p => exists headers payload, p = claim_node headers payload)) (w, ts) cf ->
  keeps_owners (tables w) (tables cf.1).
Proof.
  intros Henv Hwf Hts Hsteps.
  assert (Hclaim : forall headers payload,
    preserves (fun w' => keeps_owners (tables w) (tables w')) (claim_node headers payload)).
  { intros headers payload. unfold claim_node. case_match; [done|]. case_match; [done|].
    destruct (extract_bearer_token headers); [|done]. destruct (extract_creds a) as [[tid ts']|]; [|done].
    apply preserves_bind.
    - apply preserves_bind; [by apply query_keeps_owners|]. intros [record|]; [|done].
      apply preserves_bind; [apply preserves_perform|].
      + intros c w1 r w2 Hw He. by injection He as <- <-.
      + intros now. cbv zeta. by repeat case_match.
    - intros [token|[]]; [|done..]. unfold claim_with_token. case_match; [done|].
      apply preserves_bind; [by apply query_keeps_owners|]. intros [existing|]; [|done]. cbv zeta.
      case_match; [done|]. apply preserves_bind; [|done]. apply query_keeps_owners.
      intros. by apply claim_row_keeps_owners. }
  apply (invariant_reachable (fun w' => keeps_owners (tables w) (tables w')) env
    (fun p => exists headers payload, p = claim_node headers payload) (w, ts)); try done.
  - intros p (headers & payload & ->). apply Hclaim.
  - by apply keeps_owners_refl.
  - eapply Forall_impl; [exact Hts|]. intros p (headers & payload & ->). apply Hclaim.
Qed.

(** The bearer of [headers] may register nodes for [user] at time [now]. *)
Definition may_register `{!PasswordHasher} (t : Tables) (now : SystemTime) (headers : HeaderMap) (user : Uuid) : Prop :=
  exists bearer token_id secret token,
    extract_bearer_token headers = Ok bearer /\ extract_creds bearer = Ok (token_id, secret) /\
    t_pat_tokens t !! token_id = Some token /\
    (forall expires_at, tr_expires_at token = Some expires_at -> now <= expires_at) /\
    hash_parses (tr_token_hash token) = true /\ verify_password secret (tr_token_hash token) = true /\
    existsb (String.eqb "server:register") (tr_scopes token) = true /\ tr_user_id token = user.

(** The key is free or already bound to [user]. *)
Definition claimable (t : Tables) (key : string) (user : Uuid) : Prop :=
  forall id row, t_nodes t !! id = Some row -> nc_public_key row.1 = key -> nc_user_id row.1 = user.

Section claim_facts.
Context `{!UuidText, !PasswordHasher}.

Lemma validate_creds_run {B} token_id secret (f : _ -> task B) cs w :
  c_db_ok (cs 0%nat) = true ->
  exists r skip,
    run (validate_creds token_id secret ≫= f) cs w = run (f r) (fun n => cs (skip + n)%nat) w /\
    (is_ok r = true -> skip = 2%nat) /\
    forall token, r = Ok token <->
      t_pat_tokens (tables w) !! token_id = Some token /\
      (forall expires_at, tr_expires_at token = Some expires_at -> c_now (cs 1%nat) <= expires_at) /\
      hash_parses (tr_token_hash token) = true /\ verify_password secret (tr_token_hash token) = true.
Proof.
  intros Hdb. unfold validate_creds. cbn. rewrite Hdb. cbn. rewrite with_tables_id.
  destruct (t_pat_tokens (tables w) !! token_id) as [tok|]; cbn; cycle 1.
  { eexists _, 1%nat. split; [done|]. split; [done|]. intros token. split; [done|]. by intros [? _]. }
  destruct (match tr_expires_at tok with Some e => e <? c_now (cs 1%nat) | None => false end) eqn:He; cbn.
  { eexists _, 2%nat. split; [done|]. split; [done|]. intros token. split; [done|]. intros ([= <-] & Hle & _).
    destruct (tr_expires_at tok) as [e|]; [|done]. specialize (Hle e eq_refl). apply Z.ltb_lt in He. lia. }
  assert (Hle : forall e, tr_expires_at tok = Some e -> c_now (cs 1%nat) <= e).
  { intros e Hsome. rewrite Hsome in He. by apply Z.ltb_ge. }
  destruct (hash_parses _) eqn:Hh; cbn; cycle 1.
  { eexists _, 2%nat. split; [done|]. split; [done|]. intros token. split; [done|].
    intros ([= <-] & _ & ? & _). congruence. }
  destruct (verify_password _ _) eqn:Hv; cbn; eexists _, 2%nat; (split; [done|]); (split; [done|]);
    intros token; split.
  - intros [= <-]. auto.
  - by intros [[= <-] _].
  - done.
  - intros ([= <-] & _ & _ & ?). congruence.
Qed.

(** The last two queries of [claim_node], for a validated [user]. *)
Lemma claim_row_spec now fresh user key host metadata t :
  tables_wf t -> claimable t key user ->
  (user ∈ t_users t) -> t_nodes t !! fresh = None ->
  exists row name t', claim_row now fresh user key host metadata t = (Ok row, t') /\
    t_nodes t' !! nc_id row = Some (row, name) /\ nc_public_key row = key /\ nc_user_id row = user /\
    nc_hostname row = host /\ nc_metadata row = metadata /\
    (find_by_public_key key t = None -> nc_id row = fresh /\ nc_revoked row = false).
Proof.
  intros Hwf Hcl Hu Hfresh. unfold claim_row.
  destruct (find_by_public_key key t) as [[row name]|] eqn:Hf.
  - apply find_by_public_key_some in Hf as [Hrow Hkey]; [|done]. cbn in Hrow, Hkey.
    eexists _, name, _. split; [done|]. cbn. rewrite lookup_insert_eq. split; [done|]. split; [done|].
    split; [by apply (Hcl _ _ Hrow)|]. done.
  - rewrite bool_decide_true by done. cbn. rewrite Hfresh. eexists _, None, _. split; [done|].
    cbn. by rewrite lookup_insert_eq.
Qed.
End claim_facts.

(** A claim with a usable token and a non-empty key and host name
    succeeds when the key is free or the user's own: the key is then bound to
    the token's user, with the host name and metadata sent, under the node id
    answered, which is fresh and not revoked when the key was free; a claim of another user's key, or without a usable token, is
    refused and changes nothing. *)
Theorem claim_node_spec `{!UuidText, !PasswordHasher} headers payload cs w user :
  tables_wf (tables w) -> (forall n, c_db_ok (cs n) = true) ->
  Str.trim (cr_public_key payload) <> "" -> Str.trim (cr_hostname payload) <> "" ->
  t_nodes (tables w) !! c_uuid (cs 3%nat) = None -> user ∈ t_users (tables w) ->
  (may_register (tables w) (c_now (cs 1%nat)) headers user ->
   claimable (tables w) (Str.trim (cr_public_key payload)) user ->
   exists row name w',
     run (claim_node headers payload) cs w =
       Done {| status := OK;
               body := JObj [("success", JBool true); ("node_id", json_uuid (nc_id row))] |} w' /\
     t_nodes (tables w') !! nc_id row = Some (row, name) /\
     nc_public_key row = Str.trim (cr_public_key payload) /\ nc_user_id row = user /\
     nc_hostname row = Str.trim (cr_hostname payload) /\ nc_metadata row = cr_metadata payload /\
     tables_wf (tables w') /\
     (find_by_public_key (Str.trim (cr_public_key payload)) (tables w) = None ->
      nc_id row = c_uuid (cs 3%nat) /\ nc_revoked row = false)) /\
  (may_register (tables w) (c_now (cs 1%nat)) headers user ->
   ~ claimable (tables w) (Str.trim (cr_public_key payload)) user ->
   run (claim_node headers payload) cs w =
     Done (failure UNAUTHORIZED "CLAIM_PUBLIC_KEY_OWNERSHIP_CONFLICT"
             "public key already claimed by another user") w) /\
  ((forall u, ~ may_register (tables w) (c_now (cs 1%nat)) headers u) ->
   exists r, run (claim_node headers payload) cs w = Done r w /\ status r <> OK).
Proof.
  intros Hwf Hdb Hkey Hhost Hfresh Huser. set (key := Str.trim (cr_public_key payload)) in *.
  set (host := Str.trim (cr_hostname payload)) in *.
  assert (Hk : Str.is_empty key = false) by (by destruct key). assert (Hh : Str.is_empty host = false) by (by destruct host).
  unfold claim_node. fold key host. rewrite Hk, Hh.
  destruct (extract_bearer_token headers) as [bearer|e] eqn:Hb; cycle 1.
  { split; [intros (?&?&?&?&?&_); congruence|]. split; [intros (?&?&?&?&?&_); congruence|]. intros _. by eexists. }
  destruct (extract_creds bearer) as [[token_id secret]|e] eqn:Hc; cycle 1.
  { split; [intros (?&?&?&?&?&?&_); congruence|]. split; [intros (?&?&?&?&?&?&_); congruence|].
    intros _. by eexists. }
  match goal with |- context [validate_creds token_id secret ≫= ?f] =>
    destruct (validate_creds_run token_id secret f cs w (Hdb _)) as (r & skip & -> & Hskip & Hr) end.
  assert (Hmay : forall u, may_register (tables w) (c_now (cs 1%nat)) headers u <-> exists token, r = Ok token /\
    existsb (String.eqb "server:register") (tr_scopes token) = true /\ tr_user_id token = u).
  { intros u. unfold may_register. split.
    - intros (b & i & s & t & Hb' & Hc' & Ht & Hx & Hp & Hv & Hs & Hu). exists t.
      rewrite Hb in Hb'. injection Hb' as <-. rewrite Hc in Hc'. injection Hc' as <- <-. split; [|done].
      apply Hr. auto.
    - intros (t & (Ht & Hx & Hp & Hv)%Hr & Hs & Hu). by exists bearer, token_id, secret, t. }
  destruct r as [token|[]]; cycle 1.
  1, 2: split; [intros (?&?&_)%Hmay; done|]; split; [intros (?&?&_)%Hmay; done|]; intros _; by eexists.
  rewrite (Hskip eq_refl). unfold claim_with_token. fold key host.
  destruct (existsb _ (tr_scopes token)) eqn:Hs; cycle 1.
  { split; [intros (?&[= <-]&?&_)%Hmay; congruence|]. split; [intros (?&[= <-]&?&_)%Hmay; congruence|].
    intros _. by eexists. }
  cbn. rewrite Hdb. cbn. rewrite with_tables_id.
  split; [|split; [|intros Hno; destruct (Hno (tr_user_id token)); apply Hmay; eauto]].
  - intros (?&[= <-]&_&Hu)%Hmay Hcl.
    assert (match claim_of (find_by_public_key key (tables w)) with
      | Some existing => negb (bool_decide (nc_user_id existing = tr_user_id token)) | None => false end = false) as ->.
    { destruct (find_by_public_key key (tables w)) as [row|] eqn:Hf; [|done].
      apply find_by_public_key_some in Hf as [Hrow Hkey']; [|done]. cbn.
      rewrite bool_decide_true; [done|]. rewrite Hu. by eapply Hcl. }
    cbn. rewrite Hdb. rewrite Hu.
    destruct (claim_row_spec (c_now (cs 3%nat)) (c_uuid (cs 3%nat)) user key host (cr_metadata payload) (tables w))
      as (row & name & t' & Hclaimed & Hrow & Hpk & Hown & Hhn & Hmd & Hnew); [done..|]. rewrite Hclaimed. cbn.
    eexists row, name, _. split; [done|]. cbn. do 5 (split; [done|]). split; [|done].
    pose proof (claim_row_wf (c_now (cs 3%nat)) (c_uuid (cs 3%nat)) user key host (cr_metadata payload) _ Hwf) as Hwf'.
    by rewrite Hclaimed in Hwf'.
  - intros (?&[= <-]&_&Hu)%Hmay Hcl.
    destruct (find_by_public_key key (tables w)) as [row|] eqn:Hf; cbn.
    + apply find_by_public_key_some in Hf as [Hrow Hkey']; [|done].
      rewrite bool_decide_false; [done|]. rewrite Hu. intros Ho. apply Hcl. intros id r Hr' Hk'.
      rewrite (wf_unique _ Hwf _ _ _ _ Hr' Hrow) in Hr' by congruence. congruence.
    + destruct Hcl. intros id r Hr' Hk'. by destruct (find_by_public_key_none _ _ Hf id r).
Qed.

(** One turn of a task, with the database answering. *)
Local Ltac turn Hdb := eapply run_sched_step;
  [reflexivity | cbn; rewrite ?Hdb; cbn; rewrite ?with_tables_id; reflexivity | cbn].

(** The look-up and the insertion of a claim are two queries: when two
    users claim the same free key at once, both can be answered with success
    and the same node id.  The node belongs to one of them and carries the
    other's host name. *)
Theorem claim_race `{!UuidText, !PasswordHasher} headers1 headers2 payload1 payload2 user1 user2 c w :
  tables_wf (tables w) -> c_db_ok c = true ->
  may_register (tables w) (c_now c) headers1 user1 -> may_register (tables w) (c_now c) headers2 user2 ->
  user1 ∈ t_users (tables w) ->
  Str.trim (cr_public_key payload1) <> "" ->
  Str.trim (cr_public_key payload2) = Str.trim (cr_public_key payload1) ->
  Str.trim (cr_hostname payload1) <> "" -> Str.trim (cr_hostname payload2) <> "" ->
  find_by_public_key (Str.trim (cr_public_key payload1)) (tables w) = None ->
  t_nodes (tables w) !! c_uuid c = None ->
  exists sch w' row,
    let success := {| status := OK;
                      body := JObj [("success", JBool true); ("node_id", json_uuid (c_uuid c))] |} in
    run_sched sch (w, [claim_node headers2 payload2; claim_node headers1 payload1])
      = Some (w', [Ret success; Ret success]) /\
    t_nodes (tables w') !! c_uuid c = Some (row, None) /\
    nc_user_id row = user1 /\ nc_hostname row = Str.trim (cr_hostname payload2).
Proof.
  intros Hwf Hdb (b1 & i1 & s1 & t1 & Hb1 & Hc1 & Ht1 & Hx1 & Hp1 & Hv1 & Hs1 & Hu1)
    (b2 & i2 & s2 & t2 & Hb2 & Hc2 & Ht2 & Hx2 & Hp2 & Hv2 & Hs2 & Hu2) Huser Hk1 Hk2 Hh1 Hh2 Hnone Hfresh.
  assert (Hne : forall s, s <> "" -> Str.is_empty s = false) by (by intros []).
  assert (Hlate : forall t : TokenRecord,
    (forall e, tr_expires_at t = Some e -> c_now c <= e) ->
    match tr_expires_at t with Some e => e <? c_now c | None => false end = false).
  { intros t Ht. destruct (tr_expires_at t) as [e|]; [|done]. apply Z.ltb_ge. by apply Ht. }
  unfold claim_node. rewrite Hk2, !Hne by done. rewrite Hb1, Hc1, Hb2, Hc2.
  set (key := Str.trim (cr_public_key payload1)) in *.
  set (row := {| nc_id := c_uuid c; nc_user_id := user1; nc_public_key := key;
                 nc_hostname := Str.trim (cr_hostname payload2); nc_metadata := cr_metadata payload2;
                 nc_created_at := c_now c; nc_last_seen := None; nc_revoked := false |}).
  set (row1 := {| nc_id := c_uuid c; nc_user_id := user1; nc_public_key := key;
                  nc_hostname := Str.trim (cr_hostname payload1); nc_metadata := cr_metadata payload1;
                  nc_created_at := c_now c; nc_last_seen := None; nc_revoked := false |}).
  set (t := with_t_nodes (<[c_uuid c := (row1, None)]>) (tables w)).
  assert (Hclaimed : claim_row (c_now c) (c_uuid c) user1 key (Str.trim (cr_hostname payload1))
      (cr_metadata payload1) (tables w) = (Ok row1, t)).
  { unfold claim_row. rewrite Hnone, bool_decide_true by done. cbn. by rewrite Hfresh. }
  assert (Hfound : find_by_public_key key t = Some (row1, None)).
  { apply find_by_public_key_some; [|cbn; by rewrite lookup_insert_eq].
    replace t with (claim_row (c_now c) (c_uuid c) user1 key (Str.trim (cr_hostname payload1))
      (cr_metadata payload1) (tables w)).2 by (by rewrite Hclaimed).
    by apply claim_row_wf. }
  exists [(0, c); (0, c); (0, c); (1, c); (1, c); (1, c); (1, c); (0, c)]%nat.
  eexists _, row. cbv zeta. split.
  - turn Hdb. rewrite Ht2. cbn. turn Hdb. rewrite (Hlate _ Hx2), Hp2, Hv2. cbn. unfold claim_with_token at 1.
    rewrite Hs2. cbn. rewrite Hk2. turn Hdb. rewrite Hnone. cbn.
    turn Hdb. rewrite Ht1. cbn. turn Hdb. rewrite (Hlate _ Hx1), Hp1, Hv1. cbn. unfold claim_with_token.
    rewrite Hs1. cbn. fold key. turn Hdb. rewrite Hnone. cbn.
    eapply run_sched_step; [reflexivity|cbn; rewrite Hdb; cbn; fold key; rewrite Hu1, Hclaimed; reflexivity|cbn].
    eapply run_sched_step; [reflexivity|cbn; rewrite Hdb; cbn; unfold claim_row; rewrite Hfound;
      reflexivity|]. reflexivity.
  - cbn. by rewrite lookup_insert_eq.
Qed.
