(* ===== verification/ServerTasks.v ===== *)
(** * The server's periodic tasks: [server/src/tasks.rs]

    Every thirty seconds one task drops the entries that have been silent for
    more than two minutes and refreshes the others' Redis keys, and another
    one publishes the server itself. *)

From S2P Require Import Prelude Async Mpsc RustStr Protocol Externs ServerState ServerDb ServerNode.

Definition CONNECTION_TIMEOUT : Z := seconds 120.

(** The closures of the two [retain]s: kept unless silent for longer than the
    timeout; kept when the clock went back. *)
Definition keep (now last_heartbeat : SystemTime) : bool :=
  match duration_since now last_heartbeat with
  | Ok elapsed => negb (CONNECTION_TIMEOUT <? elapsed)
  | Err _ => true
  end.

Section tasks.
Context `{!UuidText, !JsonText, !DateText}.

Definition cleanup_dangling_connections : task unit :=
  now ← perform Now;
  updating (with_connections (filter (fun e : Uuid * WebConnection => keep now (wc_last_heartbeat e.2) = true)));;
  updating (with_nodes (filter (fun e : Uuid * NodeConnection => keep now (last_heartbeat (node e.2)) = true))).

Fixpoint refresh_all (state : AppState) (entries : list (Uuid * WebConnection)) (refreshed : Z) : task Z :=
  match entries with
  | [] => Ret refreshed
  | (cid, conn_info) :: entries =>
      r ← refresh_connection cid (wc_ip conn_info) (server state);
      refresh_all state entries (if is_ok r then refreshed + 1 else refreshed)
  end.

Definition refresh_connections_task (state : AppState) : task unit :=
  cleanup_dangling_connections;;
  entries ← reading (fun s => map_to_list (connections s));
  _ ← refresh_all state entries 0;
  Ret tt.

Definition keep_server_alive_task (state : AppState) : task unit :=
  let payload := server_get_encoded (server state) in
  nodes_len ← reading (fun s => Z.of_nat (size (nodes s)));
  connections_len ← reading (fun s => Z.of_nat (size (connections s)));
  sessions_len ← reading (fun s => Z.of_nat (size (tunnel_sessions s)));
  let stats := json_to_string (JObj [("nodes", JNum nodes_len); ("connections", JNum connections_len);
                                     ("sessions", JNum sessions_len)]) in
  _ ← save_server (id state) payload stats;
  Ret tt.

(** What the [select!] of a periodic task answers next: its interval, or the
    shutdown of the server. *)
Inductive TimerEvent : Type := IntervalTick | ShutdownRecv.

Fixpoint every (body : task unit) (events : list TimerEvent) : task unit :=
  match events with
  | IntervalTick :: events => body;; every body events
  | ShutdownRecv :: _ | [] => Ret tt
  end.

Definition spawn_server_update_task (state : AppState) (events : list TimerEvent) : task unit :=
  every (keep_server_alive_task state) events.

Definition spawn_connections_refresh_task (state : AppState) (events : list TimerEvent) : task unit :=
  every (refresh_connections_task state) events.
End tasks.

Lemma keep_spec now t : keep now t = true <-> now - t <= CONNECTION_TIMEOUT.
Proof.
  unfold keep, duration_since. destruct (Z.leb_spec t now).
  - rewrite negb_true_iff, Z.ltb_ge. done.
  - split; [|done]. intros _. unfold CONNECTION_TIMEOUT, seconds, NANOS. lia.
Qed.

Lemma cleanup_run cs w :
  run cleanup_dangling_connections cs w =
    Done tt (with_shared
      (with_nodes (filter (fun e : Uuid * NodeConnection => keep (c_now (cs 0%nat)) (last_heartbeat (node e.2)) = true))
        (with_connections (filter (fun e : Uuid * WebConnection => keep (c_now (cs 0%nat)) (wc_last_heartbeat e.2) = true))
          (shared w))) w).
Proof. done. Qed.

(** The clean-up drops exactly the entries, of clients and of nodes,
    whose last heartbeat is more than 120 seconds old, and keeps the others
    unchanged, those with a heartbeat in the future included; it touches no
    session. *)
Theorem cleanup_exact cs w :
  exists w', run cleanup_dangling_connections cs w = Done tt w' /\
    (forall cid conn, connections (shared w') !! cid = Some conn <->
       connections (shared w) !! cid = Some conn /\
       c_now (cs 0%nat) - wc_last_heartbeat conn <= 120 * 1000000000) /\
    (forall nid conn, nodes (shared w') !! nid = Some conn <->
       nodes (shared w) !! nid = Some conn /\
       c_now (cs 0%nat) - last_heartbeat (node conn) <= 120 * 1000000000) /\
    tunnel_sessions (shared w') = tunnel_sessions (shared w).
Proof.
  rewrite cleanup_run. eexists. split; [done|]. cbn. split; [|split; [|done]]; intros k conn;
    rewrite map_lookup_filter_Some; cbn; by rewrite keep_spec.
Qed.

(** A node that the clean-up drops keeps its sessions recorded for good:
    the clean-up leaves them, and when the node's socket ends afterwards its
    own clean-up finds no registration and does nothing, so the sessions'
    clients are never told. *)
Theorem stale_node_leaks_sessions `{!UuidText} nid info tx cs cs' w :
  nodes (shared w) !! nid = Some info ->
  CONNECTION_TIMEOUT < c_now (cs 0%nat) - last_heartbeat (node info) ->
  exists w' w'', run cleanup_dangling_connections cs w = Done tt w' /\
    run (end_node_socket tx nid) cs' w' = Done tt w'' /\
    tunnel_sessions (shared w'') = tunnel_sessions (shared w) /\ web_channels w'' = web_channels w.
Proof.
  intros Hid Hlate. rewrite cleanup_run. eexists _, _. split; [done|].
  unfold end_node_socket, disconnect_node. cbn.
  assert (filter (fun e : Uuid * NodeConnection => keep (c_now (cs 0%nat)) (last_heartbeat (node e.2)) = true)
    (nodes (shared w)) !! nid = None) as ->.
  { apply map_lookup_filter_None. right. intros conn Hc. cbn. rewrite keep_spec. simplify_eq. lia. }
  split; [done|]. done.
Qed.

(** What one refreshed connection adds to the Redis log. *)
Definition refresh_cmds `{!UuidText, !JsonText} (state : AppState) (e : Uuid * WebConnection) : list RedisCmd :=
  [HSetMultiple (connection_key e.1)
     [("connection", json_to_string (JObj [("id", json_uuid e.1); ("ip", JStr (wc_ip e.2))]));
      ("server", server_get_encoded (server state))];
   Expire (connection_key e.1) 120].

Lemma refresh_all_run `{!UuidText, !JsonText} state entries n cs w :
  (forall k, c_redis_ok (cs k) = true) ->
  exists total, run (refresh_all state entries n) cs w =
    Done total (with_redis (redis w ++ (entries ≫= refresh_cmds state)) w).
Proof.
  intros Hr. revert n cs w Hr. induction entries as [|[cid conn] entries IH]; intros n cs w Hr.
  { exists n. cbn. rewrite app_nil_r. by destruct w. }
  cbn. rewrite (Hr 0%nat). cbn. rewrite (Hr 1%nat). cbn.
  match goal with |- context [run _ ?cs' ?w'] => destruct (IH (n + 1) cs' w') as [total ->] end;
    [intros k; apply Hr|].
  exists total. cbn. by rewrite <-!app_assoc.
Qed.

(** While Redis answers, one round of the refresh task renews, for every
    client heard of within the timeout and for no other, its Redis hash and
    the 120 seconds it lives. *)
Theorem refresh_renews_live_connections `{!UuidText, !JsonText} state cs w :
  (forall k, c_redis_ok (cs k) = true) ->
  exists w' live, run (refresh_connections_task state) cs w = Done tt w' /\
    redis w' = redis w ++ (live ≫= refresh_cmds state) /\ NoDup live.*1 /\
    forall cid conn, (cid, conn) ∈ live <->
      connections (shared w) !! cid = Some conn /\
      c_now (cs 0%nat) - wc_last_heartbeat conn <= CONNECTION_TIMEOUT.
Proof.
  intros Hr. unfold refresh_connections_task. cbn.
  match goal with |- context [run (refresh_all state ?l 0 ≫= _) ?cs' ?w'] =>
    set (w1 := w'); set (cs1 := cs'); set (live := l) end.
  destruct (refresh_all_run state live 0 cs1 w1) as [total Hrun]; [intros k; apply Hr|].
  eapply run_bind in Hrun as [skip Hrun]. eexists _, live. split; [exact Hrun|]. split; [done|].
  split; [apply NoDup_fst_map_to_list|]. intros cid conn. unfold live.
  by rewrite elem_of_map_to_list, map_lookup_filter_Some, keep_spec.
Qed.
