(* ===== verification/ServerSystem.v ===== *)
(** * The whole server: any number of tasks, interleaved

    The tasks that [start_http_server] and the periodic loops of
    [server/src/server.rs] spawn, and the invariant of the state they share. *)

From S2P Require Import Prelude Async Mpsc RustStr Protocol Frame Externs Token ServerState ServerDb ServerWeb.
From S2P Require Import ServerAuth ServerNode ServerClaim ServerTasks ClientIp IpText.

Section system.
Context `{!UuidText, !JsonText, !DateText, !JwtCodec WebJwtClaims, !JwtCodec NodeJwtClaims}.
Context `{!Serde WebFrameData.t, !Serde NodeFrameData.t, !Base64Url, !Ed25519, !PasswordHasher}.

(** The routes of the two web sockets: the sub-protocols that the upgrade
    offers, and the task that serves the socket, for the peer's address as the
    headers give it. *)
Definition ws_web_handler (state : AppState) (client_ip : ClientIp.IpAddr) (headers : HeaderMap) (ws_rx : WsStream) :
    list string * task unit :=
  let ip := resolve_client_ip headers client_ip in
  (requested_protocols headers, handle_web_socket state (ip_to_string ip) ws_rx).

Definition ws_node_handler (state : AppState) (client_ip : ClientIp.IpAddr) (headers : HeaderMap) (ws_rx : WsStream) :
    task unit :=
  let ip := resolve_client_ip headers client_ip in
  handle_node_socket state (ip_to_string ip) ws_rx.

(** The routes of the router and the two periodic tasks.  A request handler
    ends with its response, which the connection sends. *)
Inductive server_task (state : AppState) : task unit -> Prop :=
| task_web client_ip headers ws_rx : server_task state (ws_web_handler state client_ip headers ws_rx).2
| task_node client_ip headers ws_rx : server_task state (ws_node_handler state client_ip headers ws_rx)
| task_claim headers payload : server_task state (_ ← claim_node headers payload; Ret tt)
| task_challenge id : server_task state (_ ← create_auth_challenge state id; Ret tt)
| task_verify payload : server_task state (_ ← verify_auth_challenge state payload; Ret tt)
| task_heartbeat headers : server_task state (_ ← heartbeat_route state headers; Ret tt)
| task_list_nodes : server_task state (_ ← list_nodes; Ret tt)
| task_list_connections : server_task state (_ ← list_connections; Ret tt)
| task_refresh events : server_task state (spawn_connections_refresh_task state events)
| task_keep_alive events : server_task state (spawn_server_update_task state events).

(** A recorded session names the node of its key; a registered node has its
    own record and this server's id; the tables satisfy the schema. *)
Record registry_ok (state : AppState) (s : Shared) : Prop := {
  reg_sessions : sessions_wf s;
  reg_record : forall nid conn, nodes s !! nid = Some conn -> nr_id (node_record conn) = nid;
  reg_server : forall nid conn, nodes s !! nid = Some conn -> server_id conn = id state }.

Definition server_ok (state : AppState) (w : World) : Prop :=
  registry_ok state (shared w) /\ tables_wf (tables w) /\ channels_ok w.

(** An effect that keeps the registry and the tables keeps the whole. *)
Lemma effect_server_ok state {R} (e : sysE R) :
  match e with
  | OnShared f => forall s, registry_ok state s -> registry_ok state (f s).2
  | OnTables f => forall now fresh t, tables_wf t -> tables_wf (f now fresh t).2
  | _ => True
  end -> effect_preserves (server_ok state) R e.
Proof.
  intros He c w r w' (Hr & Ht & Hc) Hx. split; [|split; [|by eapply channels_effect]].
  - destruct e; cbn in *; try (by injection Hx as <- <-).
    + specialize (He (shared w) Hr). destruct (f (shared w)). by injection Hx as <- <-.
    + destruct (c_db_ok c); [destruct (f (c_now c) (c_uuid c) (tables w))|]; by injection Hx as <- <-.
    + destruct (c_redis_ok c); by injection Hx as <- <-.
    + destruct (send_in CHANNEL_CAPACITY tx f (web_channels w)) as [[b m]|]; [|done]. by injection Hx as <- <-.
    + destruct (send_in CHANNEL_CAPACITY tx f (node_channels w)) as [[b m]|]; [|done]. by injection Hx as <- <-.
  - destruct e; cbn in *; try (by injection Hx as <- <-).
    + destruct (f (shared w)). by injection Hx as <- <-.
    + specialize (He (c_now c) (c_uuid c) _ Ht).
      destruct (c_db_ok c); [destruct (f (c_now c) (c_uuid c) (tables w))|]; by injection Hx as <- <-.
    + destruct (c_redis_ok c); by injection Hx as <- <-.
    + destruct (send_in CHANNEL_CAPACITY tx f (web_channels w)) as [[b m]|]; [|done]. by injection Hx as <- <-.
    + destruct (send_in CHANNEL_CAPACITY tx f (node_channels w)) as [[b m]|]; [|done]. by injection Hx as <- <-.
Qed.

Definition keeps_ok (state : AppState) : forall R, sysE R -> Prop := effect_preserves (server_ok state).

Lemma updating_ok state f :
  (forall s, registry_ok state s -> registry_ok state (f s)) -> preserves (server_ok state) (updating f).
Proof. intros Hf. apply preserves_perform, effect_server_ok. exact Hf. Qed.

Lemma reading_ok state {R} (f : Shared -> R) : preserves (server_ok state) (reading f).
Proof. apply preserves_perform, effect_server_ok. cbn. auto. Qed.

Lemma query_ok state {R} context (f : SystemTime -> Uuid -> Tables -> result string R * Tables) :
  (forall now fresh t, tables_wf t -> tables_wf (f now fresh t).2) ->
  preserves (server_ok state) (query context f).
Proof. intros Hf. apply preserves_bind; [|done]. apply preserves_perform, effect_server_ok. exact Hf. Qed.

Lemma perform_ok state {R} (e : sysE R) :
  match e with OnShared _ | OnTables _ => False | _ => True end -> preserves (server_ok state) (perform e).
Proof. intros He. apply preserves_perform, effect_server_ok. by destruct e. Qed.

(** Registry updates that keep the invariant. *)
Lemma with_connections_ok state f s : registry_ok state s -> registry_ok state (with_connections f s).
Proof. by intros []. Qed.

Lemma sessions_insert_ok state nid sid cid s :
  registry_ok state s -> registry_ok state (with_sessions (<[{| node_id := nid; sid := sid |} := (cid, nid)]>) s).
Proof.
  intros [Hs ? ?]. split; [|done..]. intros key c n. cbn. rewrite lookup_insert_Some.
  intros [[<- [= <- <-]]|[_ Hk]]; [done|by eapply Hs].
Qed.

Lemma sessions_delete_ok state key s : registry_ok state s -> registry_ok state (with_sessions (delete key) s).
Proof. intros [Hs ? ?]. split; [|done..]. intros k c n. cbn. rewrite lookup_delete_Some. intros [_ ?]. by eapply Hs. Qed.

Lemma nodes_delete_ok state nid s : registry_ok state s -> registry_ok state (with_nodes (delete nid) s).
Proof.
  intros []. split; [done|..]; cbn; intros k conn; rewrite lookup_delete_Some; intros [_ ?]; eauto.
Qed.

Lemma nodes_filter_ok state (P : Uuid * NodeConnection -> Prop) `{!forall x, Decision (P x)} s :
  registry_ok state s -> registry_ok state (with_nodes (filter P) s).
Proof.
  intros []. split; [done|..]; cbn; intros k conn; rewrite map_lookup_filter_Some; intros [? _]; eauto.
Qed.

Lemma nodes_beat_ok state stats now nid s :
  registry_ok state s -> registry_ok state (with_nodes (alter (beat stats now) nid) s).
Proof.
  intros []. split; [done|..]; cbn; intros k conn; rewrite lookup_alter_Some;
    intros [(<- & c & Hc & ->)|[_ Hc]]; cbn; eauto.
Qed.

Lemma nodes_insert_ok state now ip tx record s :
  registry_ok state s ->
  registry_ok state (with_nodes (<[nr_id record := NodeConnection_new now (id state) ip tx record]>) s).
Proof.
  intros []. split; [done|..]; cbn; intros k conn; rewrite lookup_insert_Some;
    intros [[<- <-]|[_ Hc]]; cbn; eauto.
Qed.

#[local] Hint Resolve updating_ok reading_ok with_connections_ok sessions_insert_ok sessions_delete_ok
  nodes_delete_ok nodes_filter_ok nodes_beat_ok : phirepass.

(** ** Every task keeps the invariant *)

Lemma preserves_acts_for state cid {A} (p : task A) :
  all_effects (acts_for cid) p -> preserves (server_ok state) p.
Proof.
  intros Hp. eapply preserves_effects, all_effects_mono; [|exact Hp].
  intros R e Ha. apply effect_server_ok. destruct e; try done.
  - intros s []. destruct (Ha s) as (Hn & Hs & _). split; unfold sessions_wf; rewrite ?Hn, ?Hs; done.
  - intros now fresh t Ht. by rewrite Ha.
Qed.

Lemma notify_ok state cid frame : preserves (server_ok state) (notify_client_by_cid cid frame).
Proof.
  apply preserves_bind; [apply reading_ok|]. intros [conn|]; [|done].
  apply preserves_bind; [by apply perform_ok|]. by intros [].
Qed.

Lemma hset_ok state key fields : preserves (server_ok state) (hset_with_ttl key fields).
Proof. apply preserves_bind; [by apply perform_ok|]. intros [|]; [by apply perform_ok|done]. Qed.

(** Walks a task whose every effect is settled by the lemmas above. *)
Ltac keeps :=
  repeat first
    [ exact I | done
    | progress unfold get_node_by_id, get_token_by_id, user_exists, get_node_by_public_key,
        claim_node_by_public_key, get_node_claim_by_id, get_node_claim_by_id_optional,
        upsert_auth_challenge, get_auth_challenge, consume_auth_challenge, touch_node_last_seen
    | lazymatch goal with |- preserves _ (query _ _) => apply query_ok; intros end
    | lazymatch goal with |- preserves _ (hset_with_ttl _ _) => apply hset_ok end
    | lazymatch goal with |- preserves _ (notify_client_by_cid _ _) => apply notify_ok end
    | apply preserves_bind | apply perform_ok; exact I | apply reading_ok
    | apply updating_ok; intros; solve [eauto with phirepass nocore]
    | progress intros | progress cbv zeta | case_match ].

Lemma web_socket_ok state ip ws_rx : preserves (server_ok state) (handle_web_socket state ip ws_rx).
Proof.
  unfold handle_web_socket. apply preserves_bind; [keeps|]. intros tx. apply preserves_bind.
  - destruct ws_rx; [done|]. unfold ServerWeb.wait_for_auth, auth_frame, authenticate, validate_jwt,
      authenticate_web_jwt, validate_user_node, successful_auth, send_web, user_exists, get_node_by_id,
      try_bind, lift_call. keeps.
  - intros [[cid|e] rest]; [|keeps].
    apply preserves_bind; [keeps|]. intros now. apply preserves_bind; [keeps|]. intros _.
    apply preserves_bind; [apply preserves_bind; [apply hset_ok|done]|]. intros _.
    apply preserves_bind; [keeps|]. intros _.
    apply preserves_bind; [eapply preserves_acts_for, acts_for_messages|]. intros _.
    apply preserves_bind; [keeps|]. intros _. eapply preserves_acts_for, acts_for_disconnect.
Qed.

Lemma node_messages_ok state nid ws_rx : preserves (server_ok state) (handle_node_messages state nid ws_rx).
Proof.
  induction ws_rx as [|msg ws_rx IH]; [done|]. apply preserves_bind; [|by intros []].
  destruct msg as [[data| | | |]|]; cbn [handle_node_message]; try done.
  destruct (decode_native_returns data) as [r ->]. destruct r as [frame|]; [|done]. cbn.
  destruct (Frame.data frame) as [|f]; [done|].
  destruct f; cbn [handle_node_frame]; try done; (apply preserves_bind; [|done]).
  - unfold handle_node_heartbeat. keeps.
  - unfold handle_tunnel_opened. keeps.
  - unfold handle_tunnel_closed. keeps.
  - unfold handle_frame_response, get_connection_id_by_sid. keeps.
Qed.

Lemma disconnect_node_ok state nid : preserves (server_ok state) (disconnect_node nid).
Proof.
  apply preserves_bind.
  { apply preserves_perform, effect_server_ok. intros s Hs. cbn. by apply nodes_delete_ok. }
  intros [info|]; [|done]. apply preserves_bind; [keeps|]. intros _. apply preserves_bind; [|done].
  apply preserves_bind; [keeps|]. intros sessions. generalize 0.
  induction sessions as [|[key [cid n]] sessions IH]; intros count; [done|].
  apply preserves_bind; [keeps|]. intros _. apply preserves_bind; [apply notify_ok|]. intros r. apply IH.
Qed.

(** A record that the query found is the record of the node asked for. *)
Lemma get_node_by_id_ok state nid {B} (f : result string NodeRecord -> task B) :
  (forall e, preserves (server_ok state) (f (Err e))) ->
  (forall record, nr_id record = nid -> preserves (server_ok state) (f (Ok record))) ->
  preserves (server_ok state) (get_node_by_id nid ≫= f).
Proof.
  intros Herr Hok c w r w' HI He. split; [revert HI He; by apply effect_server_ok|].
  destruct HI as (_ & Hwf & _). cbn in He. destruct (c_db_ok c); injection He as <- <-; cbn; [|apply Herr].
  destruct (t_nodes (tables w) !! nid) as [row|] eqn:Hrow; cbn; [|apply Herr].
  apply Hok. by eapply (wf_pk _ Hwf).
Qed.

Lemma node_socket_ok state ip ws_rx : preserves (server_ok state) (handle_node_socket state ip ws_rx).
Proof.
  unfold handle_node_socket. apply preserves_bind; [keeps|]. intros tx. apply preserves_bind.
  - destruct ws_rx; [done|]. unfold ServerNode.wait_for_auth, node_auth_frame, authenticate_node,
      authenticate_node_jwt, send_auth_response, get_node_claim_by_id_optional, get_node_claim_by_id,
      try_bind, lift_call. keeps.
  - intros [[nid|e] rest]; [|keeps]. apply get_node_by_id_ok; [keeps|]. intros record Hid.
    apply preserves_bind; [apply preserves_bind; [apply hset_ok|done]|]. intros _.
    apply preserves_bind; [keeps|]. intros now.
    apply preserves_bind; [apply updating_ok; rewrite <-Hid; intros; by apply nodes_insert_ok|]. intros _.
    apply preserves_bind; [keeps|]. intros _. apply preserves_bind; [apply node_messages_ok|]. intros _.
    apply preserves_bind; [keeps|]. intros _. apply disconnect_node_ok.
Qed.

Lemma tables_touch_wf now nid t : tables_wf t -> tables_wf (with_t_nodes (alter (touch_row now) nid) t).
Proof.
  intros [Hpk Hun Hown Hch]. split; cbn.
  - intros k r. rewrite lookup_alter_Some. intros [(<- & r' & Hr & ->)|[_ Hr]]; cbn; by apply Hpk.
  - intros k1 k2 r1 r2. rewrite !lookup_alter_Some.
    intros [(<- & r1' & Hr1 & ->)|[_ Hr1]] [(<- & r2' & Hr2 & ->)|[_ Hr2]]; cbn; intros He; by eapply Hun.
  - intros k r. rewrite lookup_alter_Some. intros [(<- & r' & Hr & ->)|[_ Hr]]; cbn; by eapply Hown.
  - intros k ch Hc. destruct (Hch _ _ Hc). split; [done|]. by apply lookup_alter_is_Some.
Qed.

Lemma tables_challenge_wf nid ch t :
  ac_node_id ch = nid -> is_Some (t_nodes t !! nid) -> tables_wf t ->
  tables_wf (with_t_challenges (<[nid := ch]>) t).
Proof.
  intros Hid Hn [Hpk Hun Hown Hch]. split; cbn; [done..|].
  intros k c. rewrite lookup_insert_Some. intros [[<- <-]|[_ Hc]]; [done|by apply Hch].
Qed.

Lemma tables_consume_wf nid t : tables_wf t -> tables_wf (with_t_challenges (delete nid) t).
Proof.
  intros [Hpk Hun Hown Hch]. split; cbn; [done..|]. intros k c. rewrite lookup_delete_Some. intros [_ ?]. by apply Hch.
Qed.

Lemma claim_ok state headers payload : preserves (server_ok state) (claim_node headers payload).
Proof.
  unfold claim_node, validate_creds, claim_with_token. keeps.
  all: by apply claim_row_wf.
Qed.

Lemma challenge_ok state nid : preserves (server_ok state) (create_auth_challenge state nid).
Proof.
  unfold create_auth_challenge, generate_challenge. keeps; cbn.
  by apply tables_challenge_wf.
Qed.

Lemma verify_ok state payload : preserves (server_ok state) (verify_auth_challenge state payload).
Proof.
  unfold verify_auth_challenge, issue_node_jwt. keeps; cbn.
  by apply tables_consume_wf.
Qed.

Lemma heartbeat_route_ok state headers : preserves (server_ok state) (heartbeat_route state headers).
Proof.
  unfold heartbeat_route, require_node_jwt, authenticate_node_jwt, heartbeat, try_bind. keeps.
  by apply tables_touch_wf.
Qed.

Lemma refresh_ok state : preserves (server_ok state) (refresh_connections_task state).
Proof.
  unfold refresh_connections_task, cleanup_dangling_connections. apply preserves_bind; [keeps|]. intros _.
  apply preserves_bind; [keeps|]. intros entries. apply preserves_bind; [|done]. generalize 0.
  induction entries as [|[cid conn] entries IH]; intros n; [done|].
  apply preserves_bind; [apply hset_ok|]. intros r. apply IH.
Qed.

Lemma every_ok state body events : preserves (server_ok state) body -> preserves (server_ok state) (every body events).
Proof. intros Hb. induction events as [|[] events IH]; [done| |done]. by apply preserves_bind. Qed.

Lemma server_task_ok state p : server_task state p -> preserves (server_ok state) p.
Proof.
  intros []; [apply web_socket_ok|apply node_socket_ok|..].
  1-6: apply preserves_bind; [|done].
  - apply claim_ok.
  - apply challenge_ok.
  - apply verify_ok.
  - apply heartbeat_route_ok.
  - unfold list_nodes. keeps.
  - unfold list_connections. keeps.
  - apply every_ok, refresh_ok.
  - apply every_ok. unfold keep_server_alive_task, save_server. keeps.
Qed.

Lemma env_step_ok state w w' : env_step w w' -> server_ok state w -> server_ok state w'.
Proof.
  intros Hstep (Hr & Ht & Hc). split; [|split; [|by eapply channels_env]]; by inversion Hstep; subst.
Qed.
End system.

(** C3. In every state the server can reach, however its sockets, requests,
    periodic tasks and write tasks interleave: a recorded session names the
    node of its key, a registered node carries its own record and this
    server's id, the tables satisfy the schema, and the channels keep their
    capacity and their order. *)
Theorem server_invariant
    `{!UuidText, !JsonText, !DateText, !JwtCodec WebJwtClaims, !JwtCodec NodeJwtClaims}
    `{!Serde WebFrameData.t, !Serde NodeFrameData.t, !Base64Url, !Ed25519, !PasswordHasher} state w cf :
  server_ok state w ->
  rtc (cstep env_step (server_task state)) (w, []) cf ->
  server_ok state cf.1.
Proof.
  intros Hw Hsteps. eapply invariant_reachable; [intros ?? Hstep; by eapply env_step_ok
    |intros p Hp; by apply server_task_ok|exact Hsteps|exact Hw|constructor].
Qed.
