(* ===== verification/ServerStart.v ===== *)
(** * The start of a server: [server/src/stun.rs], [start] of [server/src/server.rs]

    Before it serves anyone, a server connects to its databases, asks public
    STUN servers, one after the other, under which address the world sees it,
    puts that into the record it publishes, and makes its empty maps. *)

From S2P Require Import Prelude Async RustStr Protocol Externs Mpsc Frame ServerState ServerDb ServerSystem.

Definition DEFAULT_SERVERS : list string :=
  ["stun.l.google.com:19302"; "stun1.l.google.com:19302"; "stun2.l.google.com:19302";
   "stun3.l.google.com:19302"; "stun4.l.google.com:19302"].

Definition DEFAULT_TIMEOUT_SECS : Z := 3.

(** The machine and the network around it: the environment variable, the
    resolver, what each address answers ([stunclient]), and how long the
    thread has slept. *)
Record StartWorld : Type := {
  STUN_SERVERS : option string;
  bound : result string unit;
  timeout_set : Z -> result string unit;   (* for a number of seconds *)
  to_socket_addrs : string -> result string (list string);
  external_address : string -> result string string;
  local_ip : result string string;
  new_v4 : Uuid;
  options_from_str : string -> result string unit;          (* [PgConnectOptions] *)
  connect_with : string -> Z -> result string unit;         (* [PgPoolOptions] *)
  client_open : string -> result string unit;               (* [redis::Client] *)
  connection_manager : string -> result string unit;
  asked : list string;
  slept_secs : Z }.

Definition asking (addr : string) (w : StartWorld) : StartWorld :=
  {| STUN_SERVERS := STUN_SERVERS w; bound := bound w; timeout_set := timeout_set w;
     to_socket_addrs := to_socket_addrs w; external_address := external_address w; local_ip := local_ip w;
     new_v4 := new_v4 w; options_from_str := options_from_str w; connect_with := connect_with w;
     client_open := client_open w; connection_manager := connection_manager w;
     asked := asked w ++ [addr]; slept_secs := slept_secs w |}.

Definition sleeping (n : Z) (w : StartWorld) : StartWorld :=
  {| STUN_SERVERS := STUN_SERVERS w; bound := bound w; timeout_set := timeout_set w;
     to_socket_addrs := to_socket_addrs w; external_address := external_address w; local_ip := local_ip w;
     new_v4 := new_v4 w; options_from_str := options_from_str w; connect_with := connect_with w;
     client_open := client_open w; connection_manager := connection_manager w;
     asked := asked w; slept_secs := slept_secs w + n |}.

Inductive startE : Type -> Type :=
| ReadWorld {A : Type} (f : StartWorld -> A) : startE A
| QueryExternalAddress (addr : string) : startE (result string string)
| ThreadSleep (secs : Z) : startE unit.

Definition start_exec {R} (e : startE R) : unit -> StartWorld -> option (R * StartWorld) :=
  match e in startE R return unit -> StartWorld -> option (R * StartWorld) with
  | ReadWorld f => fun _ w => Some (f w, w)
  | QueryExternalAddress addr => fun _ w => Some (external_address w addr, asking addr w)
  | ThreadSleep secs => fun _ w => Some (tt, sleeping secs w)
  end.

#[global] Instance start_handler : Handler startE StartWorld unit := @start_exec.

Abbreviation start_task := (prog startE).

(** [.context(text)?]: the text replaces the error's. *)
Definition with_context {A} (text : string) (r : result string A) : result string A :=
  match r with Ok a => Ok a | Err _ => Err text end.

Definition servers_from_env : start_task (list string) :=
  value ← perform (ReadWorld STUN_SERVERS);
  Ret (match value with
       | Some value => filter (fun s => Str.is_empty s = false) (map Str.trim (Str.split ","%char value))
       | None => DEFAULT_SERVERS
       end).

Definition resolve_server (server : string) : start_task (option string) :=
  addrs ← perform (ReadWorld (fun w => to_socket_addrs w server));
  Ret (match addrs with Ok addrs => head addrs | Err _ => None end).

(** The loop of [get_public_address]. *)
Fixpoint query_servers (servers : list string) (last_error : option string) : start_task (result string string) :=
  match servers with
  | [] => Ret (Err (default "no STUN servers configured" last_error))
  | server :: servers =>
      addr ← resolve_server server;
      match addr with
      | None => query_servers servers (Some ("cannot resolve " +:+ server))
      | Some addr =>
          mapped ← perform (QueryExternalAddress addr);
          match mapped with
          | Ok ip => Ret (Ok ip)
          | Err err =>
              perform (ThreadSleep 1);;
              query_servers servers (Some (server +:+ " failed: " +:+ err))
          end
      end
  end.

Definition get_public_address : start_task (result string string) :=
  bound ← perform (ReadWorld bound);
  match with_context "bind UDP socket" bound with
  | Err e => Ret (Err e)
  | Ok _ =>
      timeout ← perform (ReadWorld (fun w => timeout_set w DEFAULT_TIMEOUT_SECS));
      match with_context "set UDP read timeout" timeout with
      | Err e => Ret (Err e)
      | Ok _ => servers ← servers_from_env; query_servers servers None
      end
  end.

Definition create_server_identifier (fqdn : string) (port : Z) (id : Uuid) : start_task (result string ServerIdentifier) :=
  public ← get_public_address;
  match with_context "failed to get public address from stun" public with
  | Err e => Ret (Err e)
  | Ok public_ip =>
      private_ip ←? perform (ReadWorld local_ip);
      Ret (Ok {| si_id := id; si_private_ip := private_ip; si_public_ip := public_ip; si_port := port;
                 si_fqdn := fqdn |})
  end.

(** [Database::create] and [MemoryDB::create], the pool and the connection
    manager being the environment's. *)
Definition Database_create (config : Env) : start_task (result string unit) :=
  opts ← perform (ReadWorld (fun w => options_from_str w (database_url config)));
  match with_context "failed to parse database url" opts with
  | Err e => Ret (Err e)
  | Ok _ =>
      pool ← perform (ReadWorld (fun w => connect_with w (database_url config) (database_max_connections config)));
      Ret (with_context "failed to connect to pooled database" pool)
  end.

Definition MemoryDB_create (config : Env) : start_task (result string unit) :=
  client ← perform (ReadWorld (fun w => client_open w (redis_database_url config)));
  match with_context "failed to create redis client" client with
  | Err e => Ret (Err e)
  | Ok _ =>
      manager ← perform (ReadWorld (fun w => connection_manager w (redis_database_url config)));
      Ret (with_context "failed to create redis connection manager" manager)
  end.

(** [start], until its tasks run: the state they share and its empty maps. *)
Definition start (debug_assertions : bool) (version : string) (config : Env) :
    start_task (result string (AppState * Shared)) :=
  id ← perform (ReadWorld new_v4);
  _ ←? Database_create config;
  _ ←? MemoryDB_create config;
  server_identifier ←? create_server_identifier (fqdn config) (port config) id;
  Ret (Ok ({| ServerState.id := id; server := server_identifier; env := config;
              ServerState.debug_assertions := debug_assertions; ServerState.version := version |},
           {| nodes := ∅; connections := ∅; tunnel_sessions := ∅ |})).

(** ** What the servers said, without the loop *)

Definition resolved (w : StartWorld) (server : string) : option string :=
  match to_socket_addrs w server with Ok addrs => head addrs | Err _ => None end.

(** A server's answer, or why there is none. *)
Definition answer_of (w : StartWorld) (server : string) : result string string :=
  match resolved w server with
  | Some addr => match external_address w addr with Ok ip => Ok ip | Err err => Err (server +:+ " failed: " +:+ err) end
  | None => Err ("cannot resolve " +:+ server)
  end.

Definition answers (w : StartWorld) (server : string) : Prop := is_ok (answer_of w server) = true.

#[global] Instance answers_dec w server : Decision (answers w server) := decide (is_ok (answer_of w server) = true).

(** What of a world the loop never changes. *)
Definition same_network (w w' : StartWorld) : Prop :=
  to_socket_addrs w' = to_socket_addrs w /\ external_address w' = external_address w /\ local_ip w' = local_ip w.

Lemma answer_of_same w w' server : same_network w w' -> answer_of w' server = answer_of w server.
Proof. intros (H1 & H2 & _). unfold answer_of, resolved. by rewrite H1, H2. Qed.

Definition query_result (w : StartWorld) (servers : list string) (last_error : option string) : result string string :=
  match list_find (answers w) servers with
  | Some (_, server) => answer_of w server
  | None =>
      match last servers with
      | Some server => answer_of w server
      | None => Err (default "no STUN servers configured" last_error)
      end
  end.

(** The servers the loop gets to. *)
Definition tried (w : StartWorld) (servers : list string) : list string :=
  match list_find (answers w) servers with Some (i, _) => take (S i) servers | None => servers end.

(** What the loop did to the world. *)
Record queried (w : StartWorld) (servers : list string) (r : result string string) (w' : StartWorld) : Prop := {
  q_network : same_network w w';
  q_asked : asked w' = asked w ++ omap (resolved w) (tried w servers);
  q_slept : slept_secs w' = slept_secs w + Z.of_nat (length (omap (resolved w) (tried w servers))) -
                            (if is_ok r then 1 else 0) }.

Lemma tried_cons_ok w server servers : answers w server -> tried w (server :: servers) = [server].
Proof. intros H. unfold tried. cbn. rewrite decide_True by done. done. Qed.

Lemma tried_cons_err w server servers : ~ answers w server -> tried w (server :: servers) = server :: tried w servers.
Proof.
  intros H. unfold tried. cbn. rewrite decide_False by done.
  by destruct (list_find (answers w) servers) as [[i s]|].
Qed.

Lemma query_result_ok w server servers le :
  answers w server -> query_result w (server :: servers) le = answer_of w server.
Proof. intros H. unfold query_result. cbn. rewrite decide_True by done. done. Qed.

Lemma query_result_err w server servers le err :
  answer_of w server = Err err -> query_result w (server :: servers) le = query_result w servers (Some err).
Proof.
  intros H. unfold query_result. cbn. rewrite decide_False by (unfold answers; by rewrite H).
  destruct (list_find (answers w) servers) as [[i s]|]; [done|]. cbn. destruct servers as [|s' servers]; [done|].
  rewrite last_cons. by destruct (last (s' :: servers)) eqn:Hl; [|apply last_None in Hl].
Qed.

Lemma same_network_later w w1 servers : same_network w w1 ->
  (forall le, query_result w1 servers le = query_result w servers le) /\ tried w1 servers = tried w servers /\
  resolved w1 = resolved w.
Proof.
  intros Hn. assert (list_find (answers w1) servers = list_find (answers w) servers) as Hf.
  { induction servers as [|s servers IH]; [done|]. cbn. rewrite IH.
    pose proof (answer_of_same _ _ s Hn) as Hs.
    destruct (decide (answers w1 s)) as [H1|H1], (decide (answers w s)) as [H2|H2]; unfold answers in *;
      rewrite Hs in H1; done. }
  split; [|split].
  - intros le. unfold query_result. rewrite Hf. destruct (list_find (answers w) servers) as [[i s]|]; [by apply answer_of_same|].
    destruct (last servers); [by apply answer_of_same|done].
  - unfold tried. by rewrite Hf.
  - unfold resolved. by rewrite (proj1 Hn).
Qed.

Lemma query_servers_run servers le cs w :
  exists w', run (query_servers servers le) cs w = Done (query_result w servers le) w' /\
    queried w servers (query_result w servers le) w'.
Proof.
  revert le cs w. induction servers as [|server servers IH]; intros le cs w; cbn.
  { exists w. split; [done|]. split; cbn; [done|by rewrite app_nil_r|lia]. }
  destruct (resolved w server) as [addr|] eqn:Hres; unfold resolved in Hres.
  - assert (answer_of w server = match external_address w addr with Ok ip => Ok ip | Err err => Err (server +:+ " failed: " +:+ err) end)
      as Hans by (unfold answer_of, resolved; by rewrite Hres).
    rewrite Hres. cbn. destruct (external_address w addr) as [ip|err].
    + rewrite query_result_ok, Hans by (unfold answers; by rewrite Hans). cbn. eexists. split; [done|].
      split; [done|..]; rewrite tried_cons_ok by (unfold answers; by rewrite Hans); cbn;
        unfold resolved; rewrite Hres; cbn; [done|lia].
    + set (w1 := sleeping 1 (asking addr w)). assert (same_network w w1) as Hn by done.
      rewrite (query_result_err w server servers le _ Hans).
      destruct (same_network_later _ _ servers Hn) as (Hq & Ht & Hr).
      destruct (IH (Some (server +:+ " failed: " +:+ err)) (fun n => cs (S (S (S n)))) w1) as (w' & Hrun & [H1 H2 H3]).
      rewrite Hq in Hrun, H3. rewrite Ht, Hr in H2, H3. exists w'. split; [exact Hrun|].
      assert (omap (resolved w) (tried w (server :: servers)) = addr :: omap (resolved w) (tried w servers)) as Ho.
      { rewrite tried_cons_err by (unfold answers; by rewrite Hans). cbn. unfold resolved at 1. by rewrite Hres. }
      split; [done|..]; rewrite Ho; [rewrite H2; cbn; by rewrite <-app_assoc|rewrite H3; cbn; lia].
  - assert (answer_of w server = Err ("cannot resolve " +:+ server)) as Hans by (unfold answer_of, resolved; by rewrite Hres).
    rewrite Hres. cbn. rewrite (query_result_err w server servers le _ Hans).
    destruct (IH (Some ("cannot resolve " +:+ server)) (fun n => cs (S n)) w) as (w' & Hrun & [H1 H2 H3]).
    exists w'. split; [exact Hrun|].
    assert (omap (resolved w) (tried w (server :: servers)) = omap (resolved w) (tried w servers)) as Ho.
    { rewrite tried_cons_err by (unfold answers; by rewrite Hans). cbn. unfold resolved at 1. by rewrite Hres. }
    split; [done|..]; by rewrite Ho.
Qed.

Definition configured (w : StartWorld) : list string :=
  match STUN_SERVERS w with
  | Some value => filter (fun s => Str.is_empty s = false) (map Str.trim (Str.split ","%char value))
  | None => DEFAULT_SERVERS
  end.

(** The server takes the address that the first of its STUN servers to answer
    reports, in the order they are configured; it resolves and asks no server
    after that one, waits a second after each that did not answer and not
    after one that could not be resolved; and when none answers the error is
    the last server's, or that none is configured. *)
Theorem public_address_spec cs w :
  bound w = Ok tt -> timeout_set w DEFAULT_TIMEOUT_SECS = Ok tt ->
  exists w', run get_public_address cs w = Done (query_result w (configured w) None) w' /\
    queried w (configured w) (query_result w (configured w) None) w'.
Proof.
  intros Hb Ht. destruct (query_servers_run (configured w) None (fun n => cs (3 + n)%nat) w) as (w' & Hrun & Hq).
  exists w'. split; [|exact Hq]. cbn. rewrite Hb. cbn. rewrite Ht. exact Hrun.
Qed.

Lemma get_public_address_run cs w :
  exists r w', run get_public_address cs w = Done r w' /\
    (forall ip, r = Ok ip -> query_result w (configured w) None = Ok ip) /\ local_ip w' = local_ip w.
Proof.
  unfold get_public_address. cbn. destruct (bound w); cbn; [|by eexists (Err _), w].
  destruct (timeout_set w DEFAULT_TIMEOUT_SECS); cbn; [|by eexists (Err _), w].
  destruct (query_servers_run (configured w) None (fun n => cs (3 + n)%nat) w) as (w' & Hrun & [(_ & _ & Hip) _ _]).
  eexists _, w'. split; [exact Hrun|]. auto.
Qed.

Lemma create_server_identifier_run name port id cs w :
  exists r w', run (create_server_identifier name port id) cs w = Done r w' /\
    forall s, r = Ok s ->
      s = {| si_id := id; si_private_ip := si_private_ip s; si_public_ip := si_public_ip s; si_port := port; si_fqdn := name |} /\
      local_ip w = Ok (si_private_ip s) /\ query_result w (configured w) None = Ok (si_public_ip s).
Proof.
  destruct (get_public_address_run cs w) as (public & w1 & Hget & Hpub & Hip). unfold create_server_identifier, try_bind.
  eapply run_then; [exact Hget|]. intros skip. destruct public as [ip|e]; cbn; [|by eexists _, w1].
  rewrite Hip. destruct (local_ip w) as [private|e]; cbn; [|by eexists _, w1].
  eexists _, w1. split; [done|]. intros s [= <-]. cbn. auto.
Qed.

Section started.
Context `{!Serde WebFrameData.t, !Serde NodeFrameData.t}.

(** A server that starts has reached both databases, publishes under its new
    id the port and the name it was configured with and the addresses it
    learnt, and has nobody connected: with tables that satisfy the schema it
    is in its invariant from the first moment. *)
Theorem started_server_ok dbg v config (cs : nat -> unit) w state maps w' t r :
  run (start dbg v config) cs w = Done (Ok (state, maps)) w' -> tables_wf t ->
  env state = config /\ id state = new_v4 w /\
  server state = {| si_id := new_v4 w; si_private_ip := si_private_ip (server state);
                    si_public_ip := si_public_ip (server state); si_port := port config; si_fqdn := fqdn config |} /\
  local_ip w = Ok (si_private_ip (server state)) /\
  query_result w (configured w) None = Ok (si_public_ip (server state)) /\
  server_ok state {| shared := maps; tables := t; redis := r; web_channels := ∅; node_channels := ∅ |}.
Proof.
  intros Hrun Hwf. unfold start, Database_create, MemoryDB_create, try_bind in Hrun.
  cbn -[create_server_identifier] in Hrun. destruct (options_from_str _ _); cbn -[create_server_identifier] in Hrun; [|done].
  destruct (connect_with _ _ _); cbn -[create_server_identifier] in Hrun; [|done].
  destruct (client_open _ _); cbn -[create_server_identifier] in Hrun; [|done].
  destruct (connection_manager _ _); cbn -[create_server_identifier] in Hrun; [|done].
  match type of Hrun with run (?p ≫= ?k) ?cs' _ = _ =>
    destruct (create_server_identifier_run (fqdn config) (port config) (new_v4 w) cs' w) as (r' & w1 & Hid & Hspec);
    destruct (run_bind p k cs' w r' w1 Hid) as [skip Hk] end.
  rewrite Hk in Hrun. destruct r' as [s|e]; cbn in Hrun; [|done]. injection Hrun as <- <- <-.
  destruct (Hspec s eq_refl) as (Hs & Hlocal & Hquery). cbn. do 5 (split; [done|]).
  split; [by split|]. split; [done|]. by split.
Qed.
End started.

(** The first server cannot be resolved, the second does not answer, the
    third does. *)
Definition net0 : StartWorld :=
  {| STUN_SERVERS := Some " a:1,, b:2 ,c:3,d:4"; bound := Ok tt; timeout_set := fun _ => Ok tt;
     to_socket_addrs := fun s => if String.eqb s "a:1" then Err "no such host" else Ok [s +:+ "!"];
     external_address := fun a => if String.eqb a "b:2!" then Err "timed out" else Ok "203.0.113.9";
     local_ip := Ok "10.0.0.5"; new_v4 := 5; options_from_str := fun _ => Ok tt; connect_with := fun _ _ => Ok tt;
     client_open := fun _ => Ok tt; connection_manager := fun _ => Ok tt; asked := []; slept_secs := 0 |}.

Example identifier0 :
  match run (create_server_identifier "example.org" 8080 5) (fun _ => tt) net0 with
  | Done (Ok s) w' => (si_public_ip s, si_private_ip s, asked w', slept_secs w') =
                      ("203.0.113.9", "10.0.0.5", ["b:2!"; "c:3!"], 1)
  | _ => False
  end.
Proof. vm_compute. reflexivity. Qed.
