(* ===== verification/ServerSpec.v ===== *)
(** * What the server promises: an abstract broker

    A broker knows which nodes may connect, which are connected and through
    which socket, which clients are connected, and which client owns which
    session; it moves frames.  It has no tasks, queues, tokens or stores.  The
    interleaved server of [ServerSystem] refines it. *)

From S2P Require Import Prelude Async History Mpsc RustStr Protocol Frame Externs Token ServerState ServerDb.
From S2P Require Import ServerWeb ServerAuth ServerNode ServerClaim ServerTasks ServerSystem.

(** ** The broker *)

Record Broker : Type := {
  b_registry : gmap Uuid (Uuid * bool);          (* the nodes that exist: their owner, and whether they may connect *)
  b_clients : gmap Uuid SystemTime;              (* connected clients, and when each was last heard *)
  b_nodes : gmap Uuid (ChanId * SystemTime);     (* connected nodes: their socket, and when each was last heard *)
  b_sessions : gmap TunnelSessionKey Uuid;       (* who owns a session *)
  b_inbox : gmap ChanId (list NodeFrameData.t) }.   (* what each node socket was given *)

Definition b_active (b : Broker) (n : Uuid) : Prop := exists owner, b_registry b !! n = Some (owner, true).
Definition b_connected (b : Broker) (n : Uuid) (tx : ChanId) : Prop := exists t, b_nodes b !! n = Some (tx, t).

(** What the broker hands to a node's socket: a session's frames only for the
    client that owned the session, at the node that was connected through that
    socket; a client's requests for a tunnel and its departure, and
    acknowledgements, only to a connected node. *)
Definition may_deliver (past : Broker -> Prop) (tx : ChanId) (f : NodeFrameData.t) : Prop :=
  let connected n := exists b, past b /\ b_connected b n tx in
  match NodeFrameData.session f, NodeFrameData.client f with
  | Some sid, Some cid =>
      exists n, connected n /\ exists b, past b /\ b_sessions b !! {| node_id := n; sid := sid |} = Some cid
  | _, _ =>
      match f with
      | NodeFrameData.OpenTunnel _ cid _ _ _ | NodeFrameData.ConnectionDisconnect cid =>
          (exists n, connected n) /\ exists b, past b /\ is_Some (b_clients b !! cid)
      | NodeFrameData.HeartbeatAck _ _ => exists n, connected n
      | NodeFrameData.AuthResponse _ _ _ => True
      | _ => False
      end
  end.

Definition with_registry f b : Broker :=
  {| b_registry := f (b_registry b); b_clients := b_clients b; b_nodes := b_nodes b; b_sessions := b_sessions b;
     b_inbox := b_inbox b |}.
Definition with_clients f b : Broker :=
  {| b_registry := b_registry b; b_clients := f (b_clients b); b_nodes := b_nodes b; b_sessions := b_sessions b;
     b_inbox := b_inbox b |}.
Definition with_sockets f b : Broker :=
  {| b_registry := b_registry b; b_clients := b_clients b; b_nodes := f (b_nodes b); b_sessions := b_sessions b;
     b_inbox := b_inbox b |}.
Definition with_owners f b : Broker :=
  {| b_registry := b_registry b; b_clients := b_clients b; b_nodes := b_nodes b; b_sessions := f (b_sessions b);
     b_inbox := b_inbox b |}.
Definition with_inbox f b : Broker :=
  {| b_registry := b_registry b; b_clients := b_clients b; b_nodes := b_nodes b; b_sessions := b_sessions b;
     b_inbox := f (b_inbox b) |}.

(** Heard within the last two minutes. *)
Definition recent (now heard : SystemTime) : Prop := now - heard <= seconds 120.
#[global] Instance recent_dec now heard : Decision (recent now heard) := Z_le_dec _ _.

(** One step, which may look at any state of the broker so far.
    - A node that did not exist is claimed by a user.
    - A client enters, is heard, or leaves; a node that was active attaches a
      socket, is heard, or leaves; those not heard for two minutes are dropped,
      and nobody else with them.
    - A node that was connected opens or closes one session under its own id.
    - A socket is opened; a frame is handed over that is due. *)
Inductive broker_step (past : Broker -> Prop) (b : Broker) : Broker -> Prop :=
| step_claim n owner : b_registry b !! n = None -> broker_step past b (with_registry <[n := (owner, true)]> b)
| step_enter cid now : broker_step past b (with_clients <[cid := now]> b)
| step_heard_client cid now : broker_step past b (with_clients (alter (fun _ => now) cid) b)
| step_client_leaves cid : broker_step past b (with_clients (delete cid) b)
| step_clients_expire now : broker_step past b (with_clients (filter (fun e => recent now e.2)) b)
| step_attach n tx now :
    (exists v, past v /\ b_active v n) -> broker_step past b (with_sockets <[n := (tx, now)]> b)
| step_heard_node n now : broker_step past b (with_sockets (alter (fun c => (c.1, now)) n) b)
| step_node_leaves n : broker_step past b (with_sockets (delete n) b)
| step_nodes_expire now : broker_step past b (with_sockets (filter (fun e => recent now e.2.2)) b)
| step_open n sid cid :
    (exists v, past v /\ is_Some (b_nodes v !! n)) ->
    broker_step past b (with_owners <[{| node_id := n; sid := sid |} := cid]> b)
| step_close key :
    (exists v, past v /\ is_Some (b_nodes v !! node_id key)) -> broker_step past b (with_owners (delete key) b)
| step_socket tx : b_inbox b !! tx = None -> broker_step past b (with_inbox (insert tx []) b)
| step_deliver tx f : may_deliver past tx f -> broker_step past b (with_inbox (alter (fun l => l ++ [f]) tx) b).

(** An execution from [b0]: its states, latest first. *)
Inductive broker_run (b0 : Broker) : list Broker -> Prop :=
| run_start : broker_run b0 [b0]
| run_stays b past : broker_run b0 (b :: past) -> broker_run b0 (b :: b :: past)
| run_steps b past b' :
    broker_run b0 (b :: past) -> broker_step (fun v => v ∈ b :: past) b b' -> broker_run b0 (b' :: b :: past).

(** ** The broker that a server implements *)

Definition registry_of (t : Tables) : gmap Uuid (Uuid * bool) :=
  (fun row : NodeClaimRecord * option string => (nc_user_id row.1, negb (nc_revoked row.1))) <$> t_nodes t.
Definition socket_of (conn : NodeConnection) : ChanId * SystemTime := (nc_tx conn, last_heartbeat (node conn)).

Definition broker_of (w : World) : Broker :=
  {| b_registry := registry_of (tables w); b_clients := wc_last_heartbeat <$> connections (shared w);
     b_nodes := socket_of <$> nodes (shared w); b_sessions := fst <$> tunnel_sessions (shared w);
     b_inbox := sent <$> node_channels w |}.

(** A step of the server that the broker allows, for a task that has seen [H]. *)
Definition allowed (H : World -> Prop) (w w' : World) : Prop :=
  broker_of w' = broker_of w \/ broker_step (fun b => seen H (fun v => broker_of v = b)) (broker_of w) (broker_of w').

Lemma may_deliver_mono (past past' : Broker -> Prop) tx f :
  (forall b, past b -> past' b) -> may_deliver past tx f -> may_deliver past' tx f.
Proof. intros Hp. unfold may_deliver. repeat case_match; naive_solver. Qed.

Lemma broker_step_mono (past past' : Broker -> Prop) b b' :
  (forall v, past v -> past' v) -> broker_step past b b' -> broker_step past' b b'.
Proof. intros Hp []; constructor; eauto using may_deliver_mono; naive_solver. Qed.

Lemma allowed_within H H' w w' : within H H' -> allowed H w w' -> allowed H' w w'.
Proof.
  intros Hw [?|Hs]; [by left|right]. eapply broker_step_mono, Hs. intros b. by apply seen_within.
Qed.

Lemma b_active_spec w n : b_active (broker_of w) n <-> active_node (tables w) n.
Proof.
  unfold b_active, active_node. cbn. split.
  - intros (owner & (row & [= _ Hrev] & Hrow)%lookup_fmap_Some). exists row. split; [done|]. by apply negb_true_iff.
  - intros (row & Hrow & Hrev). exists (nc_user_id row.1). apply lookup_fmap_Some. exists row. by rewrite Hrev.
Qed.

Lemma b_connected_spec w n tx : node_sender n (shared w) = Some tx <-> b_connected (broker_of w) n tx.
Proof.
  unfold b_connected, node_sender. cbn. split.
  - intros (conn & Hconn & ->)%fmap_Some. exists (last_heartbeat (node conn)). apply lookup_fmap_Some. by exists conn.
  - intros (t & (conn & [= <- <-] & Hconn)%lookup_fmap_Some). by rewrite Hconn.
Qed.

Lemma send_in_inbox {A} n tx (f : A) m ok m' :
  send_in n tx f m = Some (ok, m') ->
  sent <$> m' = sent <$> m \/ sent <$> m' = alter (fun l => l ++ [f]) tx (sent <$> m).
Proof.
  unfold send_in, chan_send. destruct (m !! tx) as [ch|] eqn:Hch; [|by intros [= <- <-]; left].
  destruct (decide (rx ch = Dropped)); cbn; [intros [= <- <-]; left; by rewrite insert_id|].
  destruct (decide _); [|done]. cbn. intros [= <- <-]. right. apply map_eq. intros i.
  rewrite lookup_fmap, lookup_insert. destruct (decide (tx = i)) as [<-|].
  - by rewrite lookup_alter_eq, lookup_fmap, Hch.
  - by rewrite lookup_alter_ne, lookup_fmap.
Qed.

Lemma alter_sent {A} (g : Channel A -> Channel A) tx (m : gmap ChanId (Channel A)) :
  (forall ch, sent (g ch) = sent ch) -> sent <$> alter g tx m = sent <$> m.
Proof.
  intros Hg. apply map_eq. intros i. rewrite !lookup_fmap. destruct (decide (tx = i)) as [<-|].
  - rewrite lookup_alter_eq. destruct (m !! tx); cbn; [by rewrite Hg|done].
  - by rewrite lookup_alter_ne.
Qed.

(** ** The effects that need no permission *)

Section refinement.
Context `{!UuidText, !JsonText, !DateText, !JwtCodec WebJwtClaims, !JwtCodec NodeJwtClaims}.
Context `{!Serde WebFrameData.t, !Serde NodeFrameData.t, !Base64Url, !Ed25519, !PasswordHasher}.
Context (state : AppState).

Abbreviation hwp := (hwp (server_ok state) allowed).
Abbreviation right := (right (server_ok state) allowed).
Implicit Types (K : World -> Prop).

Lemma allowed_shared K w s :
  broker_step (fun b => seen K (fun v => broker_of v = b)) (broker_of w) (broker_of (with_shared s w)) ->
  allowed K w (with_shared s w).
Proof. by right. Qed.

(** Effects after which the broker is the same. *)
Definition quiet (R : Type) (e : sysE R) : Prop :=
  match e with
  | OnShared f => forall s, (f s).2 = s
  | OnTables f => forall now fresh t, tables_wf t -> registry_of (f now fresh t).2 = registry_of t
  | SendNode _ f => exists id ok v, f = NodeFrameData.AuthResponse id ok v
  | _ => True
  end.

Lemma quiet_allowed K c {R} (e : sysE R) w r w' :
  quiet R e -> server_ok state w -> exec e c w = Some (r, w') -> allowed K w w'.
Proof.
  intros Hq (_ & Hwf & _) He. destruct e; cbn in *; try (injection He as <- <-; try by left).
  - specialize (Hq (shared w)). destruct (f (shared w)) as [r' s]. cbn in Hq. subst s. injection He as <- <-. by left; destruct w.
  - destruct (c_db_ok c); [|injection He as <- <-; by left].
    specialize (Hq (c_now c) (c_uuid c) _ Hwf). destruct (f _ _ _) as [r' t]. injection He as <- <-. left.
    unfold broker_of. cbn in *. by rewrite Hq.
  - destruct (c_redis_ok c); injection He as <- <-; by left.
  - right. unfold broker_of; cbn. rewrite fmap_insert. apply (step_socket _ (broker_of w)). cbn.
    rewrite lookup_fmap. unfold fresh_chan. rewrite (proj1 (not_elem_of_dom _ _)) by apply is_fresh. done.
  - destruct (send_in _ _ _ _) as [[b m]|]; [|done]. injection He as <- <-. by left.
  - destruct (send_in _ _ _ _) as [[b m]|] eqn:Hs; [|done]. injection He as <- <-.
    destruct Hq as (id & ok & v & ->). destruct (send_in_inbox _ _ _ _ _ _ Hs) as [Heq|Heq].
    + left. unfold broker_of; cbn. by rewrite Heq.
    + right. unfold broker_of; cbn. rewrite Heq. by apply (step_deliver _ (broker_of w)).
  - left. unfold broker_of; cbn. rewrite alter_sent; [done|]. intros ch. unfold chan_spawn_writer. by case_match.
  - left. unfold broker_of; cbn. by rewrite alter_sent.
Qed.

Lemma right_quiet {R} (e : sysE R) : quiet R e -> right (perform e).
Proof. intros Hq. apply right_perform. intros K c w r w' HI Hx. by eapply quiet_allowed. Qed.

(** A change of the shared maps that is a step whatever was seen. *)
Lemma right_shared {R} (f : Shared -> R * Shared) :
  (forall past w, broker_step past (broker_of w) (broker_of (with_shared (f (shared w)).2 w))) ->
  right (perform (OnShared f)).
Proof.
  intros Hf. apply right_perform. intros K c w r w' HI Hx. cbn in Hx. specialize (Hf (fun b => seen (now_too K w) (fun v => broker_of v = b)) w).
  destruct (f (shared w)) as [x s]. injection Hx as <- <-. by apply allowed_shared.
Qed.

(** One that is a step because of what was seen. *)
Lemma hwp_updating f K :
  (forall past w, (forall v, K v -> past (broker_of v)) ->
     broker_step past (broker_of w) (broker_of (with_shared (f (shared w)) w))) ->
  hwp (updating f) (fun _ _ => True) K.
Proof.
  intros Hf c w r w' HI Hx. injection Hx as <- <-. split; [|done]. apply allowed_shared, Hf.
  intros v Hv. exists v. by split; [left|].
Qed.

Lemma right_reading {R} (f : Shared -> R) : right (reading f).
Proof. apply right_quiet. cbn. done. Qed.

Lemma right_query {R} context (f : SystemTime -> Uuid -> Tables -> result string R * Tables) :
  (forall now fresh t, tables_wf t -> registry_of (f now fresh t).2 = registry_of t) -> right (query context f).
Proof. intros Hf. apply right_bind; [by apply right_quiet|done]. Qed.

Lemma right_notify cid frame : right (notify_client_by_cid cid frame).
Proof.
  apply right_bind; [apply right_reading|]. intros [conn|]; [|done].
  apply right_bind; [by apply right_quiet|]. by intros [].
Qed.

Lemma right_hset key fields : right (hset_with_ttl key fields).
Proof. apply right_bind; [by apply right_quiet|]. intros [|]; [by apply right_quiet|done]. Qed.

(** A frame for a node's socket, once it is known to be due. *)
Lemma hwp_send {A} tx f (k : bool -> task A) Q K :
  (forall past, (forall v, K v -> past (broker_of v)) -> may_deliver past tx f) ->
  (forall sent_ok K', within K K' -> hwp (k sent_ok) Q K') ->
  hwp (perform (SendNode tx f) ≫= k) Q K.
Proof.
  intros Hf Hk c w r w' HI Hx. split; [|apply Hk; etrans; apply within_now]. cbn in Hx.
  destruct (send_in _ _ _ _) as [[b m]|] eqn:Hs; [|done]. injection Hx as <- <-.
  destruct (send_in_inbox _ _ _ _ _ _ Hs) as [Heq|Heq].
  - left. unfold broker_of; cbn. by rewrite Heq.
  - right. unfold broker_of at 3; cbn. rewrite Heq. apply (step_deliver _ (broker_of w)). apply Hf.
    intros v Hv. exists v. split; [by left|done].
Qed.

(** A read, after which what was read is known of a world seen. *)
Lemma hwp_read {R A} (f : Shared -> R) (k : R -> task A) Q K :
  (forall w K', server_ok state w -> within K K' -> K' w -> hwp (k (f (shared w))) Q K') ->
  hwp (reading f ≫= k) Q K.
Proof.
  intros Hk c w r w' HI Hx. injection Hx as <- <-. split; [by left|].
  apply (Hk w); [done|etrans; apply within_now|by left; right].
Qed.

Lemma hwp_seq {A B} (p : task A) (f : A -> task B) Q K :
  hwp p (fun _ _ => True) K -> (forall a K', within K K' -> hwp (f a) Q K') -> hwp (p ≫= f) Q K.
Proof. intros Hp Hf. apply hwp_bind. eapply hwp_mono; [|exact Hp]. intros a K' Hw _. by apply Hf. Qed.

(** ** What a task has seen *)

Definition client_seen cid K : Prop := seen K (fun v => is_Some (connections (shared v) !! cid)).
Definition node_seen id K : Prop := seen K (fun v => is_Some (nodes (shared v) !! id)).

(** The two reasons for which a frame is due. *)
Lemma due_in_session tx f cid sid n K :
  NodeFrameData.session f = Some sid -> NodeFrameData.client f = Some cid ->
  seen K (fun v => node_sender n (shared v) = Some tx) ->
  seen K (fun v => session_of (shared v) n sid = Some cid) ->
  forall past, (forall v, K v -> past (broker_of v)) -> may_deliver past tx f.
Proof.
  intros Hs Hc (v1 & Hv1 & Htx) (v2 & Hv2 & Hown) past Hp. unfold may_deliver. rewrite Hs, Hc.
  exists n. split.
  - exists (broker_of v1). split; [auto|]. by apply b_connected_spec.
  - exists (broker_of v2). split; [auto|]. cbn. by rewrite lookup_fmap.
Qed.

Lemma due_to_node tx f n K :
  match f with
  | NodeFrameData.OpenTunnel _ cid _ _ _ | NodeFrameData.ConnectionDisconnect cid => client_seen cid K
  | NodeFrameData.HeartbeatAck _ _ => True
  | _ => False
  end ->
  seen K (fun v => node_sender n (shared v) = Some tx) ->
  forall past, (forall v, K v -> past (broker_of v)) -> may_deliver past tx f.
Proof.
  intros Hf (v & Hv & Htx) past Hp.
  assert (exists b, past b /\ b_connected b n tx) as Hconn.
  { exists (broker_of v). split; [auto|]. by apply b_connected_spec. }
  assert (forall cid, client_seen cid K -> exists b, past b /\ is_Some (b_clients b !! cid)) as Hcl.
  { intros cid (v' & Hv' & Hc). exists (broker_of v'). split; [auto|]. cbn. by rewrite lookup_fmap, fmap_is_Some. }
  destruct f; try done; cbn; eauto.
Qed.

(** ** Web clients *)

Lemma hwp_forward cid sid target f K :
  NodeFrameData.session f = Some sid -> NodeFrameData.client f = Some cid ->
  hwp (forward_in_session cid sid target f) (fun _ _ => True) K.
Proof.
  intros Hs Hc. unfold forward_in_session, get_node_id_by_cid_and_sid.
  destruct (parse_str target) as [u|]; [|done]. cbv zeta. apply hwp_bind, hwp_read. intros w1 K1 ([Hwf _ _] & _) _ Hw1.
  destruct (tunnel_sessions (shared w1) !! _) as [[c n]|] eqn:He; [|done].
  case_bool_decide as Hcid; [|done]. subst c. cbn.
  apply (hwp_read (node_sender n)). intros w2 K2 _ Hk12 Hw2.
  destruct (node_sender n (shared w2)) as [tx|] eqn:Htx; [|done]. pose proof (Hwf _ _ _ He) as Hn. cbn in Hn. subst n.
  apply hwp_send; [|done]. apply (due_in_session tx f cid sid u); [done|done|by exists w2|].
  exists w1. split; [auto|]. unfold session_of. by rewrite He.
Qed.

Lemma hwp_open cid protocol target msg_id username password K :
  client_seen cid K -> hwp (handle_web_open_tunnel cid protocol target msg_id username password) (fun _ _ => True) K.
Proof.
  intros Hc. unfold handle_web_open_tunnel. destruct (parse_str target) as [n|]; [|done].
  apply (hwp_read (node_sender n)). intros w K1 _ Hk1 Hw.
  destruct (node_sender n (shared w)) as [tx|] eqn:Htx; cycle 1.
  { apply (right_bind _ _ (notify_client_by_cid _ _)); [apply right_notify|done]. }
  apply hwp_send; [|done]. apply (due_to_node tx _ n); [by eapply seen_within|by exists w].
Qed.

Lemma fmap_alter_as {A B} (g : A -> B) (f : A -> A) (f' : B -> B) (n : Uuid) (m : gmap Uuid A) :
  (forall a, g (f a) = f' (g a)) -> g <$> alter f n m = alter f' n (g <$> m).
Proof.
  intros Hg. apply map_eq. intros i. rewrite lookup_fmap. destruct (decide (n = i)) as [<-|].
  - rewrite !lookup_alter_eq, lookup_fmap. destruct (m !! n); cbn; [by rewrite Hg|done].
  - by rewrite !lookup_alter_ne, lookup_fmap.
Qed.

Lemma hwp_web_frame cid f K :
  client_seen cid K -> hwp (handle_web_frame state cid f) (fun _ _ => True) K.
Proof.
  intros Hc. destruct f; cbn [handle_web_frame]; try done; (apply hwp_seq; [|done]).
  all: try (by apply hwp_forward).
  - apply right_bind; [by apply right_quiet|]. intros now. apply right_shared. intros past w. unfold broker_of; cbn.
    rewrite (fmap_alter_as wc_last_heartbeat _ (fun _ => now)) by done. apply (step_heard_client _ (broker_of w)).
  - by apply hwp_open.
Qed.

Lemma hwp_web_messages cid ws_rx K :
  client_seen cid K -> hwp (handle_web_messages state cid ws_rx) (fun _ _ => True) K.
Proof.
  revert K. induction ws_rx as [|msg ws_rx IH]; intros K Hc; [done|]. apply hwp_seq.
  - destruct msg as [[data| | | |]|]; cbn [handle_web_message]; try done.
    destruct (decode_native_returns data) as [r ->]. destruct r as [frame|]; [|done]. cbn.
    destruct (Frame.data frame); [by apply hwp_web_frame|done].
  - intros [] K' Hw; [|done]. apply IH. by eapply seen_within.
Qed.

Lemma hwp_disconnects cid conns K :
  client_seen cid K -> Forall (fun conn => exists n, seen K (fun v => node_sender n (shared v) = Some (nc_tx conn))) conns ->
  hwp (send_disconnects cid conns) (fun _ _ => True) K.
Proof.
  intros Hc Hall. revert K Hc Hall. induction conns as [|conn conns IH]; intros K Hc Hall; [done|].
  inversion_clear Hall as [|? ? [n Hn] Hrest]. apply hwp_send; [by apply (due_to_node _ _ n)|].
  intros _ K' Hw. apply IH; [by eapply seen_within|].
  eapply Forall_impl; [exact Hrest|]. intros c [m Hm]. exists m. by eapply seen_within.
Qed.

Lemma hwp_disconnect cid K : client_seen cid K -> hwp (disconnect_web_client cid) (fun _ _ => True) K.
Proof.
  intros Hc. assert (forall K', within K K' -> hwp (notify_nodes_client_disconnect cid) (fun _ _ => True) K') as Hn.
  { intros K' Hw. apply hwp_read. intros w K2 _ Hk2 Hw2. apply hwp_disconnects; [do 2 (eapply seen_within; [eassumption|]); done|].
    apply Forall_forall. intros conn ([n c] & -> & Hin)%list_elem_of_fmap. exists n, w. split; [done|].
    apply elem_of_map_to_list in Hin. unfold node_sender. by rewrite Hin. }
  apply hwp_seq.
  - apply right_shared. intros past w. unfold broker_of; cbn. rewrite fmap_delete.
    apply (step_client_leaves _ (broker_of w)).
  - intros [info|] K' Hw; [|by apply Hn]. apply hwp_seq; [by apply right_quiet|]. intros _ K2 Hk2. apply Hn. by etrans.
Qed.

(** Walks a task whose every effect is quiet. *)
Ltac quietly :=
  repeat first
    [ exact I | done
    | progress unfold get_node_by_id, get_token_by_id, user_exists, get_node_by_public_key,
        get_node_claim_by_id, get_node_claim_by_id_optional,
        upsert_auth_challenge, get_auth_challenge, consume_auth_challenge, touch_node_last_seen
    | lazymatch goal with |- History.right _ _ (query _ _) => apply right_query; intros; cbn end
    | lazymatch goal with |- History.right _ _ (hset_with_ttl _ _) => apply right_hset end
    | lazymatch goal with |- History.right _ _ (notify_client_by_cid _ _) => apply right_notify end
    | lazymatch goal with |- History.right _ _ (reading _) => apply right_reading end
    | apply right_bind
    | apply right_quiet; cbn; solve [eauto]
    | progress intros | progress cbv zeta | case_match ].

Lemma right_web_auth ws_rx tx : right (ServerWeb.wait_for_auth ws_rx tx state).
Proof.
  destruct ws_rx; [done|]. unfold ServerWeb.wait_for_auth, auth_frame, authenticate, validate_jwt,
      authenticate_web_jwt, validate_user_node, successful_auth, send_web, try_bind, lift_call. quietly.
Qed.

Lemma right_web_socket ip ws_rx : right (handle_web_socket state ip ws_rx).
Proof.
  apply right_bind; [by apply right_quiet|]. intros tx. apply right_bind; [apply right_web_auth|].
  intros [[cid|e] rest]; [|by apply right_quiet]. apply right_bind; [by apply right_quiet|]. intros now K.
  apply hwp_bind. intros c w r w' HI Hx. injection Hx as <- <-. split.
  { apply allowed_shared. unfold broker_of; cbn. rewrite fmap_insert. apply (step_enter _ (broker_of w)). }
  assert (client_seen cid (now_too (now_too K w) (with_shared (with_connections
    <[cid := WebConnection_new now ip tx]> (shared w)) w))) as Hc.
  { apply seen_now. cbn. rewrite lookup_insert_eq. by eexists. }
  cbn [hwp]. apply hwp_seq; [apply right_bind; [apply right_hset|done]|]. intros _ K1 Hk1.
  apply hwp_seq; [by apply right_quiet|]. intros _ K2 Hk2.
  assert (client_seen cid K2) as Hc2 by (do 2 (eapply seen_within; [eassumption|]); done).
  apply hwp_seq; [by apply hwp_web_messages|]. intros _ K3 Hk3. apply hwp_seq; [by apply right_quiet|]. intros _ K4 Hk4.
  apply hwp_disconnect. do 2 (eapply seen_within; [eassumption|]). done.
Qed.

(** ** Nodes *)

Lemma hwp_heartbeat id stats sent_at K : hwp (handle_node_heartbeat state id stats sent_at) (fun _ _ => True) K.
Proof.
  apply hwp_read. intros w K1 _ Hk1 Hw. destruct (nodes (shared w) !! id) as [info|] eqn:Hid; [|done].
  apply hwp_seq; [by apply right_quiet|]. intros now K2 Hk2. cbv zeta. apply hwp_send.
  - apply (due_to_node _ _ id); [done|]. eapply seen_within; [exact Hk2|]. exists w. split; [done|].
    unfold node_sender. by rewrite Hid.
  - intros _ K3 _. revert K3. apply right_bind; [by apply right_quiet|]. intros now'.
    destruct (get_extended_stats _ _ _) as [payload|]; [|done].
    apply right_bind; [apply right_hset|]. intros [|]; [|done].
    apply right_bind; [by apply right_quiet|]. intros now2. apply right_bind; [|done].
    apply right_shared. intros past v. unfold broker_of; cbn.
    rewrite (fmap_alter_as socket_of _ (fun c => (c.1, now2))) by done. apply (step_heard_node _ (broker_of v)).
Qed.

Lemma node_was_connected id K (past : Broker -> Prop) :
  node_seen id K -> (forall v, K v -> past (broker_of v)) -> exists b, past b /\ is_Some (b_nodes b !! id).
Proof.
  intros (v & Hv & Hid) Hp. exists (broker_of v). split; [auto|]. cbn. by rewrite lookup_fmap, fmap_is_Some.
Qed.

Lemma hwp_close (key : TunnelSessionKey) K :
  node_seen (node_id key) K -> hwp (updating (with_sessions (delete key))) (fun _ _ => True) K.
Proof.
  intros Hn. apply hwp_updating. intros past w Hp. unfold broker_of at 2; cbn. rewrite fmap_delete.
  apply (step_close _ (broker_of w)). by eapply node_was_connected.
Qed.

Lemma hwp_opened protocol cid sid id msg_id K :
  node_seen id K -> hwp (handle_tunnel_opened protocol cid sid id msg_id) (fun _ _ => True) K.
Proof.
  intros Hn. unfold handle_tunnel_opened. apply hwp_seq.
  - apply hwp_updating. intros past w Hp. unfold broker_of at 2; cbn. rewrite fmap_insert.
    apply (step_open _ (broker_of w)). by eapply node_was_connected.
  - intros _ K' _. revert K'. apply right_bind; [apply right_notify|done].
Qed.

Lemma hwp_closed protocol cid sid id msg_id K :
  node_seen id K -> hwp (handle_tunnel_closed protocol cid sid id msg_id) (fun _ _ => True) K.
Proof.
  intros Hn. unfold handle_tunnel_closed. apply hwp_seq; [by apply hwp_close|].
  intros _ K' _. revert K'. apply right_bind; [apply right_notify|done].
Qed.

Lemma hwp_node_frame id f K : node_seen id K -> hwp (handle_node_frame state id f) (fun _ _ => True) K.
Proof.
  intros Hn. destruct f; cbn [handle_node_frame]; try done; (apply hwp_seq; [|done]).
  - apply hwp_heartbeat.
  - by apply hwp_opened.
  - by apply hwp_closed.
  - unfold handle_frame_response, get_connection_id_by_sid. revert K Hn. intros K _. revert K. quietly.
Qed.

Lemma hwp_node_messages id ws_rx K : node_seen id K -> hwp (handle_node_messages state id ws_rx) (fun _ _ => True) K.
Proof.
  revert K. induction ws_rx as [|msg ws_rx IH]; intros K Hn; [done|]. apply hwp_seq.
  - destruct msg as [[data| | | |]|]; cbn [handle_node_message]; try done.
    destruct (decode_native_returns data) as [r ->]. destruct r as [frame|]; [|done]. cbn.
    destruct (Frame.data frame); [done|by apply hwp_node_frame].
  - intros [] K' Hw; [|done]. apply IH. by eapply seen_within.
Qed.

Lemma hwp_close_sessions id sessions count K :
  node_seen id K -> Forall (fun e : TunnelSessionKey * (Uuid * Uuid) => node_id e.1 = id) sessions ->
  hwp (close_sessions sessions count) (fun _ _ => True) K.
Proof.
  revert count K. induction sessions as [|[key [cid n]] sessions IH]; intros count K Hn Hall; [done|].
  apply Forall_cons in Hall as [Hkey Hall]. cbn in Hkey. subst id.
  apply hwp_seq; [by apply hwp_close|]. intros _ K4 Hk4. apply hwp_seq; [apply right_notify|]. intros res K5 Hk5.
  apply IH; [|done]. eapply seen_within, Hn. by etrans.
Qed.

Lemma hwp_disconnect_node id K : hwp (disconnect_node id) (fun _ _ => True) K.
Proof.
  unfold disconnect_node. intros c w r w' HI Hx. injection Hx as <- <-. split.
  { apply allowed_shared. unfold broker_of; cbn. rewrite fmap_delete. apply (step_node_leaves _ (broker_of w)). }
  destruct (nodes (shared w) !! id) as [info|] eqn:Hid; [|done].
  set (K1 := now_too (now_too K w) _). assert (node_seen id K1) as Hn.
  { exists w. split; [by left; right|by eexists]. }
  apply hwp_seq; [by apply right_quiet|]. intros _ K2 Hk2.
  assert (node_seen id K2) as Hn2 by (by eapply seen_within). apply hwp_seq; [|done].
  apply hwp_read. intros w2 K3 _ Hk3 _. assert (node_seen id K3) as Hn3 by (by eapply seen_within).
  apply (hwp_close_sessions id); [done|]. apply Forall_forall. intros [key v] [Hk _]%list_sessions_of_node. done.
Qed.

(** A query that only reads: what it answers is known of a world seen. *)
Lemma hwp_query {R A} context (f : Tables -> result string R) (k : result string R -> task A) Q K :
  (forall w K', server_ok state w -> within K K' -> K' w -> forall a, f (tables w) = Ok a -> hwp (k (Ok a)) Q K') ->
  (forall K', within K K' -> hwp (k (Err context)) Q K') ->
  hwp (query context (fun _ _ t => (f t, t)) ≫= k) Q K.
Proof.
  intros Hok Herr c w r w' HI Hx. cbn in Hx.
  assert (within K (now_too (now_too K w) w')) as Hw by (etrans; apply within_now).
  destruct (c_db_ok c); injection Hx as <- <-; (split; [by left|]); [|by apply Herr].
  destruct (f (tables w)) as [a|] eqn:Hf; [|by apply Herr]. cbn. apply (Hok w); [done..|by left; right|done].
Qed.

(** A node is let in only when it was seen active. *)
Lemma learns_authenticate token id tx K :
  hwp (authenticate_node token id tx state)
    (fun r K' => forall id', r = Ok id' -> seen K' (fun v => active_node (tables v) id')) K.
Proof.
  assert (forall to ok e, right (send_auth_response tx state to ok e)) as Hsend.
  { intros to ok e. unfold send_auth_response. apply right_bind; [apply right_quiet; cbn; eauto|done]. }
  assert (forall {A} to ok e e2 (K : World -> Prop) (P : A -> (World -> Prop) -> Prop),
    hwp (_ ←? send_auth_response tx state to ok e; Ret (Err e2)) (fun r K' => forall a, r = Ok a -> P a K') K) as Hno.
  { intros A to ok e e2 K0 P. unfold try_bind. apply hwp_seq; [apply Hsend|]. by intros []. }
  unfold authenticate_node. apply hwp_seq.
  { revert K. unfold authenticate_node_jwt, try_bind. quietly. }
  intros [auth|e] K1 _; [|apply Hno].
  destruct (negb _) eqn:Hid; [apply Hno|].
  apply negb_false_iff, bool_decide_eq_true in Hid. rewrite Hid.
  apply (hwp_query _ (fun t => Ok (claim_of (t_nodes t !! id)))); [|intros K2 _; apply Hno].
  intros w K2 _ _ Hw a [= <-]. destruct (t_nodes (tables w) !! id) as [row|] eqn:Hrow; cbn [claim_of fmap option_fmap option_map]; [|apply Hno].
  destruct (nc_revoked row.1) eqn:Hrev; cbn [negb]; [apply Hno|]. unfold try_bind. apply hwp_seq; [apply Hsend|].
  intros [[]|e] K3 Hk3; cbn; intros id' [= <-]. exists w. split; [by apply Hk3|]. by exists row.
Qed.

Lemma right_node_socket ip ws_rx : right (handle_node_socket state ip ws_rx).
Proof.
  apply right_bind; [by apply right_quiet|]. intros tx K. apply hwp_bind.
  apply (hwp_mono _ _ _ (fun r K' => forall id, r.1 = Ok id -> seen K' (fun v => active_node (tables v) id))).
  { intros [[id|e] rest] K1 _ Hact; [|by apply right_quiet]. specialize (Hact id eq_refl).
    apply hwp_seq; [quietly|]. intros [record|e] K2 Hk2; [|by apply right_quiet].
    apply hwp_seq; [apply right_bind; [apply right_hset|done]|]. intros _ K3 Hk3.
    apply hwp_seq; [by apply right_quiet|]. intros now K4 Hk4.
    assert (seen K4 (fun v => active_node (tables v) id)) as Hact4 by (do 3 (eapply seen_within; [eassumption|]); done).
    apply hwp_bind. intros c w r w' HI Hx. injection Hx as <- <-. split.
    { apply allowed_shared. unfold broker_of; cbn. rewrite fmap_insert. apply (step_attach _ (broker_of w)).
      destruct Hact4 as (v & Hv & Ha). exists (broker_of v). split; [exists v; split; [by left|done]|].
      by apply b_active_spec. }
    cbn [hwp]. apply hwp_seq; [by apply right_quiet|]. intros _ K5 Hk5. apply hwp_seq.
    - apply hwp_node_messages. eapply seen_within; [exact Hk5|]. apply seen_now. cbn. rewrite lookup_insert_eq. by eexists.
    - intros _ K6 _. apply hwp_seq; [by apply right_quiet|]. intros _ K7 _. apply hwp_disconnect_node. }
  destruct ws_rx as [|msg ws_rx]; [done|]. unfold ServerNode.wait_for_auth. apply hwp_bind.
  apply (hwp_mono _ _ _ (fun r K' => forall id, r = Ok id -> seen K' (fun v => active_node (tables v) id))); [by cbn|].
  unfold try_bind. apply hwp_seq; [unfold node_auth_frame, try_bind, lift_call; revert K; quietly|].
  intros [f|e] K1 _; [|done]. destruct f; try done. apply learns_authenticate.
Qed.

(** ** Requests and periodic tasks *)

Lemma right_claim headers payload : right (claim_node headers payload).
Proof.
  assert (forall user key host meta, right (claim_node_by_public_key user key host meta)) as Hclaim.
  { intros user key host meta. apply right_bind; [|done]. apply right_perform.
    intros K c w r w' (_ & Hwf & _) Hx. cbn in Hx. destruct (c_db_ok c); [|injection Hx as <- <-; by left].
    unfold claim_row in Hx. destruct (find_by_public_key key (tables w)) as [[row name]|] eqn:Hf.
    - injection Hx as <- <-. left. unfold broker_of; cbn. f_equal. unfold registry_of; cbn. rewrite fmap_insert.
      apply find_by_public_key_some in Hf as [Hrow _]; [|done]. cbn in Hrow. apply insert_id.
      by rewrite lookup_fmap, Hrow.
    - destruct (negb _); [injection Hx as <- <-; by left|].
      destruct (t_nodes (tables w) !! c_uuid c) eqn:Hfresh; injection Hx as <- <-; [by left|].
      right. unfold broker_of, registry_of; cbn. rewrite fmap_insert. apply (step_claim _ (broker_of w)).
      cbn. unfold registry_of. by rewrite lookup_fmap, Hfresh. }
  unfold claim_node, validate_creds, claim_with_token.
  repeat first [apply Hclaim | progress quietly].
Qed.

Lemma registry_touch now id t : registry_of (with_t_nodes (alter (touch_row now) id) t) = registry_of t.
Proof.
  unfold registry_of. apply map_eq. intros i. cbn. rewrite !lookup_fmap. destruct (decide (id = i)) as [<-|].
  - rewrite lookup_alter_eq. by destruct (t_nodes t !! id).
  - by rewrite lookup_alter_ne.
Qed.

Lemma keep_recent now t : keep now t = true <-> recent now t.
Proof. apply keep_spec. Qed.

(** The entries that expire. *)
Lemma filter_recent {A} (heard : A -> SystemTime) now (m : gmap Uuid A) :
  heard <$> filter (fun e : Uuid * A => keep now (heard e.2) = true) m =
  filter (fun e => recent now e.2) (heard <$> m).
Proof.
  rewrite map_filter_fmap. f_equal. apply map_filter_ext. intros i x _. apply keep_recent.
Qed.

Lemma filter_sockets now (m : gmap Uuid NodeConnection) :
  socket_of <$> filter (fun e : Uuid * NodeConnection => keep now (last_heartbeat (node e.2)) = true) m =
  filter (fun e => recent now e.2.2) (socket_of <$> m).
Proof.
  rewrite map_filter_fmap. f_equal. apply map_filter_ext. intros i x _. apply keep_recent.
Qed.

Lemma right_every body events : right body -> right (every body events).
Proof. intros Hb. induction events as [|[] events IH]; [done| |done]. by apply right_bind. Qed.

Lemma right_server_task p : server_task state p -> right p.
Proof.
  intros []; [apply right_web_socket|apply right_node_socket|..].
  1-6: apply right_bind; [|done].
  - apply right_claim.
  - unfold create_auth_challenge, generate_challenge. quietly.
  - unfold verify_auth_challenge, issue_node_jwt. quietly.
  - unfold heartbeat_route, require_node_jwt, authenticate_node_jwt, heartbeat, try_bind. quietly. apply registry_touch.
  - unfold list_nodes. quietly.
  - unfold list_connections. quietly.
  - apply right_every. unfold refresh_connections_task, cleanup_dangling_connections. apply right_bind.
    + apply right_bind; [by apply right_quiet|]. intros now. apply right_bind; [|intros _]; apply right_shared; intros past w.
      * unfold broker_of; cbn. rewrite filter_recent. apply (step_clients_expire _ (broker_of w)).
      * unfold broker_of; cbn. rewrite filter_sockets. apply (step_nodes_expire _ (broker_of w)).
    + intros _. apply right_bind; [apply right_reading|]. intros entries. apply right_bind; [|done]. generalize 0.
      induction entries as [|[cid conn] entries IH]; intros n; [done|].
      apply right_bind; [apply right_hset|]. intros r. apply IH.
  - apply right_every. unfold keep_server_alive_task, save_server. quietly.
Qed.
End refinement.

(** ** What the broker guarantees *)

(** Every state of a run contains what it contains for a reason. *)
Definition justified (b0 : Broker) (past : Broker -> Prop) (b : Broker) : Prop :=
  (forall n tx, b_connected b n tx -> b_connected b0 n tx \/ exists v, past v /\ b_active v n) /\
  (forall tx l f, b_inbox b !! tx = Some l -> f ∈ l ->
     (exists l0, b_inbox b0 !! tx = Some l0 /\ f ∈ l0) \/ may_deliver past tx f).

Lemma justified_mono b0 (past past' : Broker -> Prop) b :
  (forall v, past v -> past' v) -> justified b0 past b -> justified b0 past' b.
Proof.
  intros Hp [Hn Hi]. split.
  - intros n tx Htx. destruct (Hn n tx Htx) as [?|(v & ? & ?)]; [by left|right]. exists v. auto.
  - intros tx l f Hl Hf. destruct (Hi tx l f Hl Hf) as [?|?]; [by left|right]. by eapply may_deliver_mono.
Qed.

(** A step connects a node only by attaching it. *)
Lemma broker_step_connects (past : Broker -> Prop) b b' n tx :
  broker_step past b b' -> b_connected b' n tx -> b_connected b n tx \/ exists v, past v /\ b_active v n.
Proof.
  unfold b_connected. intros [] [t Ht]; cbn in *; try (left; by exists t).
  - apply lookup_insert_Some in Ht as [[<- _]|[_ Ht]]; [by right|left; by exists t].
  - apply lookup_alter_Some in Ht as [(<- & [tx' t'] & Hold & [= -> ->])|[_ Ht]]; left; by eexists.
  - apply lookup_delete_Some in Ht as [_ Ht]. left. by exists t.
  - apply map_lookup_filter_Some in Ht as [Ht _]. left. by exists t.
Qed.

(** A step gives a socket only what is due. *)
Lemma broker_step_gives (past : Broker -> Prop) b b' tx l f :
  broker_step past b b' -> b_inbox b' !! tx = Some l -> f ∈ l ->
  (exists l0, b_inbox b !! tx = Some l0 /\ f ∈ l0) \/ may_deliver past tx f.
Proof.
  intros [] Hl Hf; cbn in *; try (left; by exists l).
  - apply lookup_insert_Some in Hl as [[<- <-]|[_ Hl]]; [by apply not_elem_of_nil in Hf|left; by exists l].
  - apply lookup_alter_Some in Hl as [(<- & l1 & Hl1 & ->)|[_ Hl]]; [|left; by exists l].
    apply elem_of_app in Hf as [Hf|Hf]; [left; by exists l1|]. apply list_elem_of_singleton in Hf as ->. by right.
Qed.

Lemma broker_step_justified b0 (past : Broker -> Prop) b b' :
  broker_step past b b' -> justified b0 past b -> justified b0 past b'.
Proof.
  intros Hstep [Hn Hi]. split.
  - intros n tx Hc. destruct (broker_step_connects _ _ _ _ _ Hstep Hc) as [Hold|?]; [by apply Hn|by right].
  - intros tx l f Hl Hf. destruct (broker_step_gives _ _ _ _ _ _ Hstep Hl Hf) as [(l0 & Hl0 & Hf0)|?]; [by apply (Hi tx l0)|by right].
Qed.

Lemma run_justified b0 b past : broker_run b0 (b :: past) -> justified b0 (fun v => v ∈ b :: past) b.
Proof.
  assert (forall l, broker_run b0 l -> forall b past, l = b :: past -> justified b0 (fun v => v ∈ b :: past) b) as Hgo;
    [|intros Hrun; by apply (Hgo _ Hrun)].
  intros l Hrun. induction Hrun as [|b1 past1 Hrun IH|b1 past1 b2 Hrun IH Hstep]; intros ? ? [= <- <-].
  - split; [by left|]. intros tx l0 f Hl Hf. left. by exists l0.
  - eapply justified_mono; [|by apply IH]. intros v Hv. by right.
  - eapply justified_mono; [|eapply broker_step_justified; [exact Hstep|by apply IH]]. intros v Hv. by right.
Qed.

Lemma run_suffix b0 l b :
  broker_run b0 l -> b ∈ l -> exists later past, broker_run b0 (b :: past) /\ l = later ++ b :: past.
Proof.
  intros Hl. induction Hl as [|b1 past Hl IH|b1 past b2 Hl IH Hstep]; intros Hb.
  - apply list_elem_of_singleton in Hb as ->. exists [], []. by split; [constructor|].
  - apply elem_of_cons in Hb as [->|Hb]; [exists [], (b1 :: past); by split; [constructor|]|].
    destruct (IH Hb) as (later & l & ? & ->). by exists (b1 :: later), l.
  - apply elem_of_cons in Hb as [->|Hb]; [exists [], (b1 :: past); by split; [apply run_steps|]|].
    destruct (IH Hb) as (later & l & ? & ->). by exists (b2 :: later), l.
Qed.

Section system.
Context `{!UuidText, !JsonText, !DateText, !JwtCodec WebJwtClaims, !JwtCodec NodeJwtClaims}.
Context `{!Serde WebFrameData.t, !Serde NodeFrameData.t, !Base64Url, !Ed25519, !PasswordHasher}.

Abbreviation reaches state := (rtc (cstep env_step (server_task state))).

Lemma env_step_broker w w' : env_step w w' -> broker_of w' = broker_of w.
Proof.
  assert (forall {A} (enc : A -> result string bytes) ok ch ch', write_task enc ok ch = Some ch' -> sent ch' = sent ch) as Hw.
  { intros A enc ok ch ch'. unfold write_task. repeat case_match; try done; by intros [= <-]. }
  intros [? tx ch ch' ok Hch Hs|? tx ch ch' ok Hch Hs]; unfold broker_of; cbn; [done|]. f_equal.
  rewrite fmap_insert, (Hw _ _ _ _ _ Hs), <-fmap_insert, insert_id; done.
Qed.

Lemma run_of_history w0 l : history allowed w0 l -> broker_run (broker_of w0) (broker_of <$> l).
Proof.
  induction 1 as [|w past w' Hh IH Hstep]; cbn; [constructor|].
  assert (broker_of w' = broker_of w -> broker_run (broker_of w0) (broker_of w' :: broker_of w :: (broker_of <$> past))) as Hstay.
  { intros ->. by apply run_stays. }
  destruct Hstep as [->|[Heq|Hstep]]; [by apply Hstay..|].
  apply run_steps; [exact IH|]. eapply broker_step_mono, Hstep. intros b (v & Hv & <-).
  by apply (list_elem_of_fmap_2 broker_of (w :: past)).
Qed.

Lemma server_execution state w cfs :
  server_ok state w -> execution env_step (server_task state) (w, []) cfs ->
  broker_run (broker_of w) (broker_of <$> cfs.*1).
Proof.
  intros Hok Hexec. apply run_of_history.
  apply (history_execution (server_ok state) allowed allowed_within env_step (server_task state) w cfs); [..|exact Hexec].
  - intros v v' Hv Hstep. split; [by eapply env_step_ok|]. intros K. left. by apply env_step_broker.
  - apply server_task_ok.
  - apply right_server_task.
  - done.
Qed.

(** A state that the server reaches is the last of an execution, each of whose
    states it has gone through. *)
Lemma server_run state w cf :
  server_ok state w -> reaches state (w, []) cf ->
  exists past, broker_run (broker_of w) (broker_of cf.1 :: (broker_of <$> past)) /\
    forall v, v ∈ cf.1 :: past -> exists ts, reaches state (w, []) (v, ts) /\ reaches state (v, ts) cf.
Proof.
  intros Hok Hsteps. destruct (rtc_execution _ _ _ _ Hsteps) as (past & Hexec). exists past.*1. split.
  - exact (server_execution state w (cf :: past) Hok Hexec).
  - intros v Hv. change (v ∈ (cf :: past).*1) in Hv. apply list_elem_of_fmap in Hv as ([v' ts] & -> & Hin).
    exists ts. by eapply execution_reaches.
Qed.
End system.


(** C2. Since a server started with nobody connected, every frame that its
    nodes' sockets were given inside a session has been due: at some moment
    the session belonged to the very client that the frame names, at some
    moment its node was connected through that socket, and at some moment that
    node was claimed and not revoked. *)
Theorem session_frames_were_granted
    `{!UuidText, !JsonText, !DateText, !JwtCodec WebJwtClaims, !JwtCodec NodeJwtClaims}
    `{!Serde WebFrameData.t, !Serde NodeFrameData.t, !Base64Url, !Ed25519, !PasswordHasher} state w cf tx ch f cid sid :
  let reaches := rtc (cstep env_step (server_task state)) in
  server_ok state w -> nodes (shared w) = ∅ -> node_channels w = ∅ -> reaches (w, []) cf ->
  node_channels cf.1 !! tx = Some ch -> f ∈ sent ch ->
  NodeFrameData.session f = Some sid -> NodeFrameData.client f = Some cid ->
  let once P := exists v ts, reaches (w, []) (v, ts) /\ reaches (v, ts) cf /\ P v in
  exists n, once (fun v => session_of (shared v) n sid = Some cid) /\
    once (fun v => node_sender n (shared v) = Some tx) /\ once (fun v => active_node (tables v) n).
Proof.
  intros reaches Hok Hnodes Hchans Hsteps Hch Hf Hsid Hcid once.
  destruct (server_run state w cf Hok Hsteps) as (past & Hrun & Hreach).
  assert (forall (P : Broker -> Prop) (P' : World -> Prop), (forall v, P (broker_of v) -> P' v) ->
    (exists b, b ∈ broker_of cf.1 :: (broker_of <$> past) /\ P b) -> once P') as Honce.
  { intros P P' HP (b & Hb & HPb). change (b ∈ broker_of <$> (cf.1 :: past)) in Hb.
    apply list_elem_of_fmap in Hb as (v & -> & Hv). destruct (Hreach v Hv) as (ts & ? & ?). exists v, ts. auto. }
  destruct (run_justified _ _ _ Hrun) as [_ Hinbox].
  destruct (Hinbox tx (sent ch) f) as [(l0 & Hl0 & _)|Hdue]; [cbn; by rewrite lookup_fmap, Hch|done| |].
  { cbn in Hl0. rewrite Hchans, fmap_empty in Hl0. done. }
  unfold may_deliver in Hdue. rewrite Hsid, Hcid in Hdue. destruct Hdue as (n & Hconn & Hown). exists n.
  split; [|split].
  - apply (Honce (fun b => b_sessions b !! {| node_id := n; sid := sid |} = Some cid)); [|done].
    intros v. cbn. by rewrite lookup_fmap.
  - apply (Honce (fun b => b_connected b n tx)); [|done]. intros v. apply b_connected_spec.
  - destruct Hconn as (b & Hb & Hn). apply (Honce (fun b => b_active b n)); [intros v; apply b_active_spec|].
    destruct (run_suffix _ _ b Hrun Hb) as (later & l & Hrun' & Heq).
    destruct (run_justified _ _ _ Hrun') as [Hnodes' _]. destruct (Hnodes' n tx Hn) as [Hstart|(v & Hv & Ha)].
    + apply b_connected_spec in Hstart. unfold node_sender in Hstart. by rewrite Hnodes in Hstart.
    + exists v. split; [|done]. rewrite Heq. apply elem_of_app. by right.
Qed.

(** The messages of the protocol that go from a server to a node; the others
    go the other way. *)
Definition for_nodes (f : NodeFrameData.t) : bool :=
  match f with
  | NodeFrameData.HeartbeatAck _ _ | NodeFrameData.AuthResponse _ _ _ | NodeFrameData.OpenTunnel _ _ _ _ _
  | NodeFrameData.TunnelData _ _ _ _ | NodeFrameData.SSHWindowResize _ _ _ _ _ _ | NodeFrameData.SFTPList _ _ _ _
  | NodeFrameData.SFTPDownloadStart _ _ _ _ | NodeFrameData.SFTPDownloadChunkRequest _ _ _ _ _
  | NodeFrameData.SFTPUploadStart _ _ _ _ | NodeFrameData.SFTPUpload _ _ _ _ | NodeFrameData.SFTPDelete _ _ _ _
  | NodeFrameData.ConnectionDisconnect _ => true
  | NodeFrameData.Heartbeat _ _ | NodeFrameData.Auth _ _ _ | NodeFrameData.TunnelOpened _ _ _ _
  | NodeFrameData.TunnelClosed _ _ _ _ | NodeFrameData.SFTPDownloadChunk _ _ _ _ | NodeFrameData.WebFrame _ _ => false
  end.

Lemma due_well_typed past tx f : may_deliver past tx f -> for_nodes f = true.
Proof. by destruct f. Qed.

