(* ===== verification/ServerExample.v ===== *)
(** * A small server, on which the properties of the server are evaluated

    Two users, two nodes, two clients, and the toy instances of [Externs];
    every lemma applies a property where its hypotheses hold. *)

From S2P Require Import Prelude Async Mpsc RustStr Protocol Frame Token Externs ServerState ServerDb ServerWeb.
From S2P Require Import ServerAuth ServerNode ServerClaim ServerTasks ServerSystem.
Import Toy.

(** ** Instances *)

Definition web_claims_code (c : WebJwtClaims) := (wj_sub c, wj_exp c, wj_iat c, wj_provider c).
Definition web_claims_of '(sub, exp, iat, provider) : WebJwtClaims :=
  {| wj_sub := sub; wj_exp := exp; wj_iat := iat; wj_provider := provider |}.
#[local] Instance web_jwt : JwtCodec WebJwtClaims :=
  jwt_of (fun c => show_code (web_claims_code c)) (fun s => web_claims_of <$> read_code s) wj_exp.

Definition node_claims_code (c : NodeJwtClaims) := (nj_node_id c, nj_exp c, nj_iat c).
Definition node_claims_of '(id, exp, iat) : NodeJwtClaims :=
  {| nj_node_id := id; nj_exp := exp; nj_iat := iat |}.
#[local] Instance node_jwt : JwtCodec NodeJwtClaims :=
  jwt_of (fun c => show_code (node_claims_code c)) (fun s => node_claims_of <$> read_code s) nj_exp.
#[local] Instance node_jwt_laws : JwtLaws NodeJwtClaims nj_exp.
Proof. apply jwt_of_laws. intros []. by rewrite read_show_code. Qed.

(** A codec of two frames each way: enough to authenticate. *)
Definition web_auth (token : string) : WebFrameData.t := WebFrameData.Auth token (uuid_to_string 10) "1" (Some 3).
#[local] Instance web_serde : Serde WebFrameData.t := {|
  json_to_vec _ := Err "unsupported"; json_from_slice _ := Err "bad payload";
  rmp_to_vec _ := Ok [Byte.x01];
  rmp_from_slice bs := match bs with [Byte.x01] => Ok (web_auth "forged") | _ => Err "bad payload" end |}.
#[local] Instance node_serde : Serde NodeFrameData.t := {|
  json_to_vec _ := Err "unsupported"; json_from_slice _ := Err "bad payload";
  rmp_to_vec _ := Ok [Byte.x02]; rmp_from_slice _ := Err "bad payload" |}.

(** ** The world *)

Definition uid (n : Z) : Uuid := n.
Definition chan (n : Z) : ChanId := n.

Definition second : Z := NANOS.

Definition state : AppState := {|
  id := 99;
  server := {| si_id := 99; si_private_ip := "10.0.0.1"; si_public_ip := "203.0.113.1"; si_port := 8080; si_fqdn := "localhost" |};
  env := {| mode := Production; fqdn := "localhost"; ip_source := "ConnectInfo"; host := "0.0.0.0"; port := 8080;
            access_control_allowed_origin := None; database_url := "postgres://localhost/test";
            database_max_connections := 5; redis_database_url := "redis://localhost"; jwt_secret := "secret";
            jwt_ttl_secs := 300; challenge_ttl_secs := 60 |};
  debug_assertions := false;
  version := "0.1.0" |}.

(** The key of node 10: 32 bytes. *)
Definition key_bytes : bytes := replicate 32 Byte.x41.
Definition key10 : string := b64_encode key_bytes.
Definition entropy : bytes := replicate 32 Byte.x42.
Definition challenge : string := b64_encode entropy.
Definition signature : string := b64_encode (key_bytes ++ take 32 (String.list_byte_of_string challenge)).

Definition claim_row_of (nid user : Z) (key : string) (revoked : bool) : NodeClaimRecord * option string :=
  ({| nc_id := nid; nc_user_id := user; nc_public_key := key; nc_hostname := "host"; nc_metadata := JObj [];
      nc_created_at := 0; nc_last_seen := None; nc_revoked := revoked |}, None).

Definition pat (user : Z) (secret : string) : TokenRecord :=
  {| tr_id := user; tr_token_id := "tok"; tr_token_hash := secret; tr_user_id := user;
     tr_expires_at := None; tr_scopes := ["server:register"] |}.

Definition tables0 : Tables := {|
  t_users := {[ uid 1; uid 2 ]};
  t_pat_tokens := {[ "tok1" := pat 1 "s1"; "tok2" := pat 2 "s2" ]};
  t_nodes := {[ uid 10 := claim_row_of 10 1 key10 false; uid 11 := claim_row_of 11 2 "key11" false ]};
  t_auth_challenges := {[ uid 10 := {| ac_node_id := 10; ac_challenge := challenge; ac_expires_at := 60 * second |} ]} |}.

Definition record10 : NodeRecord := node_row_record (claim_row_of 10 1 key10 false).
Definition record11 : NodeRecord := node_row_record (claim_row_of 11 2 "key11" false).

Definition shared0 : Shared := {|
  nodes := {[ uid 10 := NodeConnection_new 0 99 "192.0.2.10" 0 record10;
              uid 11 := NodeConnection_new 0 99 "192.0.2.11" 1 record11 ]};
  connections := {[ uid 100 := WebConnection_new 0 "198.51.100.1" 0; uid 101 := WebConnection_new 0 "198.51.100.2" 1 ]};
  tunnel_sessions := {[ {| node_id := 10; sid := 7 |} := (uid 100, uid 10) ]} |}.

Definition live {A} : Channel A :=
  {| queue := []; rx := HeldByWriter; sent := []; written := []; wire := [] |}.

Definition world0 : World := {|
  shared := shared0; tables := tables0; redis := [];
  web_channels := {[ chan 0 := live; chan 1 := live; chan 2 := chan_new ]};
  node_channels := {[ chan 0 := live; chan 1 := live; chan 2 := chan_new ]} |}.

(** Everything answers; the clock shows [t]; the next id is 77. *)
Definition at_time (t : Z) : Choice :=
  {| c_now := t; c_uuid := 77; c_entropy := entropy; c_db_ok := true; c_redis_ok := true |}.
Definition always (t : Z) : nat -> Choice := fun _ => at_time t.

Lemma tables0_rows (k : Uuid) r :
  t_nodes tables0 !! k = Some r -> (k = 10 /\ r = claim_row_of 10 1 key10 false) \/ (k = 11 /\ r = claim_row_of 11 2 "key11" false).
Proof. cbn [t_nodes tables0 nodes connections shared0]. rewrite lookup_insert_Some, lookup_singleton_Some. naive_solver. Qed.

Lemma tables0_wf : tables_wf tables0.
Proof.
  split.
  - intros k r [[-> ->]|[-> ->]]%tables0_rows; done.
  - intros k1 k2 r1 r2 [[-> ->]|[-> ->]]%tables0_rows [[-> ->]|[-> ->]]%tables0_rows; done.
  - intros k r [[-> ->]|[-> ->]]%tables0_rows; cbn; set_solver.
  - intros k ch. cbn [t_auth_challenges tables0]. rewrite lookup_singleton_Some. intros [<- <-]. split; [done|]. by eexists.
Qed.

Lemma nodes0 (k : Uuid) c :
  nodes shared0 !! k = Some c ->
  c = NodeConnection_new 0 99 "192.0.2.10" 0 record10 \/ c = NodeConnection_new 0 99 "192.0.2.11" 1 record11.
Proof. cbn [t_nodes tables0 nodes connections shared0]. rewrite lookup_insert_Some, lookup_singleton_Some. naive_solver. Qed.

Lemma connections0 (k : Uuid) c :
  connections shared0 !! k = Some c ->
  c = WebConnection_new 0 "198.51.100.1" 0 \/ c = WebConnection_new 0 "198.51.100.2" 1.
Proof. cbn [t_nodes tables0 nodes connections shared0]. rewrite lookup_insert_Some, lookup_singleton_Some. naive_solver. Qed.

Lemma room_live {A} n (tx : ChanId) (m : gmap ChanId (Channel A)) :
  m !! tx = Some live -> (n <= CHANNEL_CAPACITY)%nat -> room CHANNEL_CAPACITY n m tx.
Proof. intros Hm Hn ch Hch _. rewrite Hm in Hch. by injection Hch as <-. Qed.

Lemma chan_ok_live {A} (enc : A -> result string bytes) : chan_ok CHANNEL_CAPACITY enc live.
Proof. split; cbn; [lia|done..|constructor]. Qed.

Lemma world0_channels : channels_ok world0.
Proof.
  split; cbn [web_channels node_channels world0];
    (apply map_Forall_insert_2; [apply chan_ok_live|]); (apply map_Forall_insert_2; [apply chan_ok_live|]);
    apply map_Forall_singleton, chan_ok_new.
Qed.

Lemma world0_ok : server_ok state world0.
Proof.
  split; [|split; [apply tables0_wf|apply world0_channels]]. split.
  - intros key cid nid. cbn [tunnel_sessions shared0 shared world0]. rewrite lookup_singleton_Some. by intros [<- [= <- <-]].
  - intros k c. cbn [nodes shared0 shared world0]. rewrite lookup_insert_Some, lookup_singleton_Some.
    by intros [[<- <-]|[_ [<- <-]]].
  - intros k c [->| ->]%nodes0; done.
Qed.

(** ** State *)

Definition pinged : World := with_web_channels
  (<[chan 0 := {| queue := [WebFrameData.Heartbeat]; rx := HeldByWriter; sent := [WebFrameData.Heartbeat];
             written := []; wire := [] |}]> (web_channels world0)) world0.

Lemma channels_fifo_witness : channels_ok pinged.
Proof.
  apply (channels_fifo (fun _ => False) world0 [perform (SendWeb 0 WebFrameData.Heartbeat)] (pinged, [Ret true])).
  - apply world0_channels.
  - apply rtc_once, (cstep_task _ _ 0%nat (at_time 0)). reflexivity.
Defined.

(** ** Web clients *)

Definition resize : WebFrameData.t := WebFrameData.SSHWindowResize (uuid_to_string 10) 7 80 24 0 0.

Lemma session_frame_forwarded_witness :
  (exists tx, granted shared0 100 (uuid_to_string 10) 7 tx /\
     run (handle_web_frame state 100 resize) (always 0) world0 =
       match send_in CHANNEL_CAPACITY tx (NodeFrameData.SSHWindowResize 100 7 80 24 0 0) (node_channels world0) with
       | Some (_, m) => Done Continue (with_node_channels m world0)
       | None => Blocked world0
       end) \/
  ((forall tx, ~ granted shared0 100 (uuid_to_string 10) 7 tx) /\
     run (handle_web_frame state 100 resize) (always 0) world0 = Done Continue world0).
Proof.
  apply (session_frame_forwarded state 100 resize (uuid_to_string 10) 7
    (fun cid => NodeFrameData.SSHWindowResize cid 7 80 24 0 0) (always 0) world0). reflexivity.
Defined.

Definition alice_token : string :=
  show_code (web_claims_code {| wj_sub := uuid_to_string 1; wj_exp := 1000; wj_iat := None; wj_provider := None |}).

Lemma web_auth_iff_witness :
  exists r w', run (authenticate (web_auth alice_token) 2 state) (always 0) world0 = Done r w' /\
    shared w' = shared0 /\ tables w' = tables0 /\
    forall cid, r = Ok cid <-> web_entitled state tables0 0 alice_token (uuid_to_string 10) /\ cid = 77.
Proof. apply (web_auth_iff state 2 alice_token (uuid_to_string 10) "1" (Some 3) (always 0) world0); reflexivity. Defined.

Definition web_auth_bytes : bytes := [Byte.x01; Byte.x01; Byte.x00; Byte.x0a; Byte.x00; Byte.x00; Byte.x00; Byte.x01; Byte.x01].

Lemma web_auth_failure_not_delivered_witness :
  exists w' ch, run (handle_web_socket state "192.0.2.66" [Ok (Binary web_auth_bytes)]) (always 0) world0 = Done tt w' /\
    shared w' = shared0 /\ web_channels w' !! fresh_chan (web_channels world0) = Some ch /\
    sent ch = [auth_error "failed to validate token" (Some 3)] /\ rx ch = Dropped /\ wire ch = [].
Proof.
  apply (web_auth_failure_not_delivered state "192.0.2.66" web_auth_bytes (from_web (web_auth "forged"))
    "forged" (uuid_to_string 10) "1" (Some 3) "InvalidToken" [] (always 0) world0); vm_compute; reflexivity.
Defined.

(** Client 100 of alice opens a tunnel on bob's node 11. *)
Lemma open_tunnel_reaches_any_node_witness :
  run (handle_web_frame state 100 (WebFrameData.OpenTunnel 0 (uuid_to_string 11) (Some "root") (Some "pw") None))
    (always 0) world0 =
    match send_in CHANNEL_CAPACITY 1 (NodeFrameData.OpenTunnel 0 100 (Some "root") (Some "pw") None) (node_channels world0) with
    | Some (_, m) => Done Continue (with_node_channels m world0)
    | None => Blocked world0
    end.
Proof.
  apply (open_tunnel_reaches_any_node state 100 0 (uuid_to_string 11) 11 1 (Some "root") (Some "pw") None
    (always 0) world0); vm_compute; reflexivity.
Defined.

Lemma disconnect_web_client_notifies_witness :
  exists w', run (disconnect_web_client 100) (always 0) world0 = Done tt w' /\
    connections (shared w') = delete (uid 100) (connections shared0) /\
    nodes (shared w') = nodes shared0 /\ tunnel_sessions (shared w') = tunnel_sessions shared0 /\
    redis w' = [] ++ [Del (connection_key 100)] /\
    forall id conn, nodes shared0 !! id = Some conn ->
      accepted_since (node_channels world0) (node_channels w') (nc_tx conn) (NodeFrameData.ConnectionDisconnect 100).
Proof.
  apply (disconnect_web_client_notifies 100 (WebConnection_new 0 "198.51.100.1" 0) (always 0) world0); [reflexivity|].
  intros k c [->| ->]%nodes0; apply room_live; by vm_compute; try lia.
Defined.

(** ** Node authentication *)

Definition request10 : VerifyRequest := {| vr_node_id := 10; vr_challenge := challenge; vr_signature := signature |}.
Definition token10 (iat : Z) : string := show_code (node_claims_code (issued_claims state 10 iat)).

Lemma active10 : active_node tables0 10.
Proof. by eexists. Qed.

Lemma request10_proves : proves_identity tables0 0 request10.
Proof.
  eexists _, _. split; [reflexivity|]. split; [reflexivity|]. split; [vm_compute; reflexivity|].
  split; vm_compute; reflexivity.
Qed.

Lemma verify_auth_challenge_iff_witness :
  exists r w', run (verify_auth_challenge state request10) (always 0) world0 = Done r w' /\
    (status r = OK <-> proves_identity tables0 0 request10) /\
    (status r = OK -> exists expires, body r = JObj [("access_token", JStr (token10 0)); ("expires_at", expires)]) /\
    (active_node tables0 10 -> challenge_matches 10 (Str.trim challenge) (tables w') = None).
Proof. apply (verify_auth_challenge_iff state request10 (always 0) world0 (token10 0)); reflexivity. Defined.

Definition verified : World := with_tables (with_t_challenges (delete (uid 10)) tables0) world0.

Lemma verify_once_witness :
  exists r2 w2, run (verify_auth_challenge state request10) (always 1) verified = Done r2 w2 /\ status r2 <> OK.
Proof.
  eapply (verify_once state request10 request10 (always 0) (always 1) world0);
    [reflexivity|reflexivity|apply active10|reflexivity|reflexivity|vm_compute; reflexivity].
Defined.

Lemma verify_replay_race_witness :
  exists sch w' r1 r2,
    run_sched sch (world0, [verify_auth_challenge state request10; verify_auth_challenge state request10])
      = Some (w', [Ret r1; Ret r2]) /\ status r1 = OK /\ status r2 = OK.
Proof.
  apply (verify_replay_race state request10 (at_time 0) world0 (token10 0)); [done|apply request10_proves|done].
Defined.

(** An unknown node and an active one get the same answer. *)
Lemma create_auth_challenge_reveals_nothing_witness :
  exists r,
    run (create_auth_challenge state 12) (always 0) world0 = Done r (with_tables (challenged state 12 challenge 0 tables0) world0) /\
    run (create_auth_challenge state 10) (always 0) world0 = Done r (with_tables (challenged state 10 challenge 0 tables0) world0).
Proof.
  apply (create_auth_challenge_reveals_nothing state 12 10 (always 0) world0 world0);
    [apply tables0_wf|apply tables0_wf|done].
Defined.

Lemma node_login_end_to_end_witness :
  exists r1 w1 r2 w2,
    run (create_auth_challenge state 10) (always 0) world0 = Done r1 w1 /\
    body r1 = JObj [("challenge", JStr challenge)] /\
    run (verify_auth_challenge state request10) (always (59 * second)) w1 = Done r2 w2 /\ status r2 = OK /\
    run (authenticate_node_jwt state (token10 (59 * second))) (always (350 * second)) w2
      = Done (Ok {| an_node_id := 10 |}) w2.
Proof.
  apply (node_login_end_to_end state request10 (claim_row_of 10 1 key10 false) signature
    (always 0) (always (59 * second)) (always (350 * second)) world0 (token10 (59 * second)));
    first [apply tables0_wf | vm_compute; congruence | vm_compute; reflexivity | done].
Defined.

Definition bearer (token : string) : HeaderMap := {[ "authorization" := Some ("Bearer " +:+ token) ]}.

Lemma heartbeat_route_authorised_witness :
  exists r w', run (heartbeat_route state (bearer (token10 0))) (always 0) world0 = Done r w' /\
    ((status r = OK /\ exists token claims,
        extract_bearer_token (bearer (token10 0)) = Ok token /\
        jwt_decode 0 "secret" token = Ok claims /\ active_node tables0 (nj_node_id claims) /\
        w' = with_tables (with_t_nodes (alter (touch_row 0) (nj_node_id claims)) tables0) world0) \/
     (status r = UNAUTHORIZED /\ w' = world0 /\
        forall token claims, extract_bearer_token (bearer (token10 0)) = Ok token ->
          jwt_decode 0 "secret" token = Ok claims -> ~ active_node tables0 (nj_node_id claims))).
Proof. apply (heartbeat_route_authorised state (bearer (token10 0)) (always 0) world0). done. Defined.

(** ** Nodes *)

Lemma sessions_room cid conn :
  connections shared0 !! cid = Some conn ->
  room CHANNEL_CAPACITY (length (sessions_of_node 10 shared0)) (web_channels world0) (wc_tx conn).
Proof. intros [->| ->]%connections0; apply room_live; by vm_compute; try lia. Qed.

Lemma disconnect_node_closes_sessions_witness :
  exists w', run (disconnect_node 10) (always 0) world0 = Done tt w' /\
    nodes (shared w') = delete (uid 10) (nodes shared0) /\ connections (shared w') = connections shared0 /\
    redis w' = [] ++ [Del (node_key record10)] /\
    (forall key, tunnel_sessions (shared w') !! key =
       if decide (node_id key = uid 10) then None else tunnel_sessions shared0 !! key) /\
    forall key cid nid conn, node_id key = 10 -> tunnel_sessions shared0 !! key = Some (cid, nid) ->
      connections shared0 !! cid = Some conn ->
      accepted_since (web_channels world0) (web_channels w') (wc_tx conn) (WebFrameData.TunnelClosed 0 (sid key) None).
Proof.
  apply (disconnect_node_closes_sessions 10 (NodeConnection_new 0 99 "192.0.2.10" 0 record10) (always 0) world0);
    [reflexivity|apply sessions_room].
Defined.

(** The world after node 10 has announced session 8 of client 100. *)
Definition opened : World :=
  with_web_channels (<[chan 0 := {| queue := [WebFrameData.TunnelOpened 0 8 None]; rx := HeldByWriter;
      sent := [WebFrameData.TunnelOpened 0 8 None]; written := []; wire := [] |}]> (web_channels world0))
    (with_shared (with_sessions (<[{| node_id := 10; sid := 8 |} := (uid 100, uid 10)]>) shared0) world0).

Lemma tunnel_open_close_grants_witness :
  run (handle_tunnel_opened 0 100 8 10 None) (always 0) world0 = Done tt opened /\
  granted (shared opened) 100 (uuid_to_string 10) 8 0 /\ ~ granted (shared opened) 101 (uuid_to_string 10) 8 0.
Proof.
  assert (Hrun : run (handle_tunnel_opened 0 100 8 10 None) (always 0) world0 = Done tt opened) by reflexivity.
  assert (Hp : parse_str (uuid_to_string 10) = Ok (uid 10)) by reflexivity.
  destruct (tunnel_open_close_grants 0 100 8 10 (uuid_to_string 10) None (always 0) world0 opened Hp)
    as [Hopen _]. destruct (Hopen Hrun) as [Hgrants _].
  split; [exact Hrun|]. rewrite !Hgrants. split; [by split|]. intros [Hcid _]. revert Hcid. by vm_compute.
Defined.

Lemma frame_response_routing_witness :
  run (handle_frame_response WebFrameData.Heartbeat (SessionId 7) 10) (always 0) world0 = Done tt pinged.
Proof.
  rewrite (frame_response_routing WebFrameData.Heartbeat (SessionId 7) 10 (always 0) world0).
  - reflexivity.
  - intros key cid nid. cbn [tunnel_sessions shared0 shared world0]. rewrite lookup_singleton_Some. by intros [<- [= <- <-]].
Defined.

Lemma reconnect_race_witness :
  exists w', run (end_node_socket 1 10) (always 0) world0 = Done tt w' /\
    node_channels w' !! chan 0 = Some live /\ node_sender 10 (shared w') = None /\
    forall sid, session_of (shared w') 10 sid = None.
Proof.
  apply (reconnect_race 10 (NodeConnection_new 0 99 "192.0.2.10" 0 record10) 1 live (always 0) world0);
    [reflexivity|discriminate|reflexivity|reflexivity|apply sessions_room].
Defined.

Lemma node_auth_iff_witness :
  exists r w' ch answer_id,
    run (authenticate_node (token10 0) 10 2 state) (always 0) world0 = Done r w' /\
    shared w' = shared0 /\ tables w' = tables0 /\ node_channels w' !! chan 2 = Some ch /\
    sent ch = [NodeFrameData.AuthResponse answer_id (is_ok r) "0.1.0"] /\
    (forall id', r = Ok id' <-> id' = 10 /\ active_node tables0 10 /\
      exists claims, jwt_decode 0 "secret" (token10 0) = Ok claims /\ nj_node_id claims = 10).
Proof. apply (node_auth_iff (token10 0) 10 2 state (always 0) world0); reflexivity. Defined.

Definition stats0 : Stats :=
  {| last_refreshed_secs := 0; proc_id := "1"; proc_threads := 1; proc_cpu := 0; proc_mem_bytes := 0;
     proc_uptime_secs := 0; host_name := "h"; host_ip := ""; host_mac := ""; host_cpu := 0;
     host_mem_used_bytes := 0; host_mem_total_bytes := 0; host_uptime_secs := 0;
     host_load_average := (0, 0, 0); host_os_info := ""; host_connections := 0; host_processes := 0 |}.

Lemma node_heartbeat_recorded_witness :
  exists w', run (handle_node_heartbeat state 10 stats0 5) (always second) world0 = Done (Ok tt) w' /\
    nodes (shared w') !! uid 10 =
      Some (beat stats0 second (NodeConnection_new 0 99 "192.0.2.10" 0 record10)).
Proof.
  set (info := NodeConnection_new 0 99 "192.0.2.10" 0 record10).
  destruct (get_extended_stats second info (saturating_sub (now_millis second) 5)) as [payload|e] eqn:Hp;
    [|vm_compute in Hp; discriminate].
  edestruct (node_heartbeat_recorded state 10 info stats0 5 payload (always second) world0)
    as (w' & Hrun & _ & Hok & _); [reflexivity|vm_compute; reflexivity|exact Hp|].
  exists w'. split; [exact Hrun|]. by apply Hok.
Defined.

(** ** Claims *)

Definition claim_headers (token : string) : HeaderMap := bearer token.
Definition payload_of (host : string) : ClaimNodeRequest := claim_request " key12 " host None.

Lemma may_register1 : may_register tables0 0 (bearer "pat_tok1.s1") 1.
Proof.
  exists "pat_tok1.s1", "tok1", "s1", (pat 1 "s1").
  split; [vm_compute; reflexivity|]. split; [vm_compute; reflexivity|]. split; [vm_compute; reflexivity|].
  split; [intros e [=]|]. split; [reflexivity|]. split; [vm_compute; reflexivity|]. by split.
Qed.
Lemma may_register2 : may_register tables0 0 (bearer "pat_tok2.s2") 2.
Proof.
  exists "pat_tok2.s2", "tok2", "s2", (pat 2 "s2").
  split; [vm_compute; reflexivity|]. split; [vm_compute; reflexivity|]. split; [vm_compute; reflexivity|].
  split; [intros e [=]|]. split; [reflexivity|]. split; [vm_compute; reflexivity|]. by split.
Qed.

Lemma key12_free : find_by_public_key "key12" tables0 = None.
Proof. vm_compute. reflexivity. Qed.

Lemma claims_keep_owners_witness :
  keeps_owners tables0 (tables world0).
Proof.
  apply (claims_keep_owners (fun _ _ => False) world0 [claim_node (bearer "pat_tok1.s1") (payload_of "h")]
    (world0, [claim_node (bearer "pat_tok1.s1") (payload_of "h")]));
    [done|apply tables0_wf|by repeat econstructor|apply rtc_refl].
Defined.

Lemma claim_node_spec_witness :
  exists row name w',
    run (claim_node (bearer "pat_tok1.s1") (payload_of "h1")) (always 0) world0 =
      Done {| status := OK; body := JObj [("success", JBool true); ("node_id", json_uuid (nc_id row))] |} w' /\
    t_nodes (tables w') !! nc_id row = Some (row, name) /\
    nc_public_key row = "key12" /\ nc_user_id row = 1 /\ nc_hostname row = "h1" /\ nc_metadata row = JObj [] /\
    tables_wf (tables w') /\
    (find_by_public_key "key12" tables0 = None -> nc_id row = c_uuid (always 0 3%nat) /\ nc_revoked row = false).
Proof.
  apply (claim_node_spec (bearer "pat_tok1.s1") (payload_of "h1") (always 0) world0 1);
    [apply tables0_wf|done|done|done|reflexivity|cbn; set_solver|apply may_register1|].
  intros k r [[-> ->]|[-> ->]]%tables0_rows; done.
Defined.

Lemma claim_race_witness :
  exists sch w' row,
    let success := {| status := OK; body := JObj [("success", JBool true); ("node_id", json_uuid 77)] |} in
    run_sched sch (world0, [claim_node (bearer "pat_tok2.s2") (payload_of "h2");
                            claim_node (bearer "pat_tok1.s1") (payload_of "h1")])
      = Some (w', [Ret success; Ret success]) /\
    t_nodes (tables w') !! uid 77 = Some (row, None) /\ nc_user_id row = 1 /\ nc_hostname row = "h2".
Proof.
  apply (claim_race (bearer "pat_tok1.s1") (bearer "pat_tok2.s2") (payload_of "h1") (payload_of "h2") 1 2
    (at_time 0) world0);
    [apply tables0_wf|done|apply may_register1|apply may_register2|cbn; set_solver|done|done|done|done
    |apply key12_free|reflexivity].
Defined.

(** ** Tasks and the whole *)

Lemma stale_node_leaks_sessions_witness :
  exists w' w'', run cleanup_dangling_connections (always (200 * second)) world0 = Done tt w' /\
    run (end_node_socket 0 10) (always (200 * second)) w' = Done tt w'' /\
    tunnel_sessions (shared w'') = tunnel_sessions shared0 /\ web_channels w'' = web_channels world0.
Proof.
  apply (stale_node_leaks_sessions 10 (NodeConnection_new 0 99 "192.0.2.10" 0 record10) 0
    (always (200 * second)) (always (200 * second)) world0); [reflexivity|vm_compute; reflexivity].
Defined.

Lemma refresh_renews_live_connections_witness :
  exists w' live, run (refresh_connections_task state) (always second) world0 = Done tt w' /\
    redis w' = [] ++ (live ≫= refresh_cmds state) /\ NoDup live.*1 /\
    forall cid conn, (cid, conn) ∈ live <->
      connections shared0 !! cid = Some conn /\ second - wc_last_heartbeat conn <= CONNECTION_TIMEOUT.
Proof. apply (refresh_renews_live_connections state (always second) world0). done. Defined.

Lemma server_invariant_witness : server_ok state world0.
Proof.
  apply (server_invariant state world0 (world0, [spawn_connections_refresh_task state [IntervalTick; ShutdownRecv]])); [apply world0_ok|].
  apply rtc_once, (cstep_spawn _ _ world0 [] (spawn_connections_refresh_task state [IntervalTick; ShutdownRecv])). constructor.
Defined.
