(* ===== verification/SpecExample.v ===== *)
(** * A session from its opening to its first frame

    The server of [ServerExample] with nobody connected: a client of alice
    and the agent of node 10 connect, the agent opens session 7 for the client,
    and the client resizes its terminal. *)

From S2P Require Import Prelude Async Mpsc RustStr Protocol Frame Token Externs ServerState ServerDb ServerWeb.
From S2P Require Import ServerAuth ServerNode ServerClaim ServerTasks ClientIp IpText ServerSystem ServerSpec ServerExample.
Import Toy.

#[local] Existing Instance ServerExample.web_jwt.
#[local] Existing Instance ServerExample.node_jwt.

(** The frames of the story, one byte each. *)
Definition node_opens : NodeFrameData.t := NodeFrameData.TunnelOpened 0 77 7 None.
#[local] Instance web_serde : Serde WebFrameData.t := {|
  json_to_vec _ := Err "unsupported"; json_from_slice _ := Err "bad payload"; rmp_to_vec _ := Ok [Byte.x01];
  rmp_from_slice bs :=
    match bs with
    | [Byte.x01] => Ok (WebFrameData.Auth alice_token (uuid_to_string 10) "1" None)
    | [Byte.x02] => Ok (WebFrameData.SSHWindowResize (uuid_to_string 10) 7 80 24 0 0)
    | _ => Err "bad payload"
    end |}.
#[local] Instance node_serde : Serde NodeFrameData.t := {|
  json_to_vec _ := Err "unsupported"; json_from_slice _ := Err "bad payload"; rmp_to_vec _ := Ok [Byte.x03];
  rmp_from_slice bs :=
    match bs with
    | [Byte.x03] => Ok (NodeFrameData.Auth (token10 0) 10 "1")
    | [Byte.x04] => Ok node_opens
    | _ => Err "bad payload"
    end |}.

(** A MessagePack frame of kind [k] and code [c] whose payload is the byte [b]. *)
Definition message (k c b : byte) : result string Message :=
  Ok (Binary [Byte.x01; Byte.x01; k; c; Byte.x00; Byte.x00; Byte.x00; Byte.x01; b]).

Definition empty_world : World := {|
  shared := {| nodes := ∅; connections := ∅; tunnel_sessions := ∅ |}; tables := tables0; redis := [];
  web_channels := ∅; node_channels := ∅ |}.

(** The client comes through a proxy, the agent directly. *)
Definition alice_stream : WsStream := [message Byte.x00 Byte.x0a Byte.x01; message Byte.x00 Byte.x1e Byte.x02].
Definition alice_headers : HeaderMap := {["x-forwarded-for" := Some "198.51.100.1, 10.0.0.1"]}.
Definition alice : task unit := (ws_web_handler state (V4 10 0 0 2) alice_headers alice_stream).2.
Definition agent_stream : WsStream := [message Byte.x01 Byte.x0a Byte.x03; message Byte.x01 Byte.x15 Byte.x04].
Definition agent10 : task unit := ws_node_handler state (V4 192 0 2 10) ∅ agent_stream.

(** [n] steps of task [i]. *)
Definition turns (i n : nat) : list (nat * Choice) := replicate n (i, at_time 0).

Definition reaches := rtc (cstep env_step (server_task state)).

(** The two tasks together, up to the moment the frame is on the node's queue. *)
Definition story : list (nat * Choice) := turns 0 11 ++ turns 1 12 ++ turns 0 3.
Definition told : World * list (task unit) :=
  match run_sched story (empty_world, [alice; agent10]) with Some cf => cf | None => (empty_world, []) end.

Definition resized : NodeFrameData.t := NodeFrameData.SSHWindowResize 77 7 80 24 0 0.

Lemma empty_world_ok : server_ok state empty_world.
Proof. split; [split; intros ? ?; done|]. split; [apply tables0_wf|]. split; apply map_Forall_empty. Qed.

Lemma told_reached : reaches (empty_world, []) told.
Proof.
  eapply rtc_l; [apply (cstep_spawn _ _ _ [] alice), (task_web state (V4 10 0 0 2) alice_headers alice_stream)|].
  eapply rtc_l; [apply (cstep_spawn _ _ _ [alice] agent10), (task_node state (V4 192 0 2 10) ∅ agent_stream)|].
  apply (run_sched_reachable _ _ story). unfold told.
  assert (bool_decide (is_Some (run_sched story (empty_world, [alice; agent10]))) = true) as Hrun by (vm_compute; reflexivity).
  apply bool_decide_eq_true in Hrun as [cf Hcf]. by rewrite Hcf.
Qed.


Lemma session_frames_were_granted_witness :
  exists n,
    (exists v ts, reaches (empty_world, []) (v, ts) /\ reaches (v, ts) told /\ session_of (shared v) n 7 = Some (uid 77)) /\
    (exists v ts, reaches (empty_world, []) (v, ts) /\ reaches (v, ts) told /\ node_sender n (shared v) = Some (chan 0)) /\
    (exists v ts, reaches (empty_world, []) (v, ts) /\ reaches (v, ts) told /\ active_node (tables v) n).
Proof.
  apply (session_frames_were_granted state empty_world told (chan 0)
    {| queue := [NodeFrameData.AuthResponse 10 true "0.1.0"; resized]; rx := HeldByWriter;
       sent := [NodeFrameData.AuthResponse 10 true "0.1.0"; resized]; written := []; wire := [] |} resized);
    [apply empty_world_ok|done|done|apply told_reached|vm_compute; reflexivity|right; left|done|done].
Defined.

