(* ===== verification/Relay.v ===== *)
(** * The relay: [relay/src/proxy.rs] and [relay/src/db/redis.rs]

    A reverse proxy in front of the servers: a browser's web socket names its
    node, and perhaps a server, as sub-protocols, and the relay forwards it to
    the server that Redis has for that node. *)

From S2P Require Import Prelude Async RustStr Protocol Externs JsonDe Token ServerState ServerDb.

(** [RequestHeader], as far as the proxy reads it. *)
Record RequestHeader : Type := { path : string; headers : HeaderMap }.

Record RequestCtx : Type := { ctx_node_id : option string; ctx_server_id : option string }.

Definition new_ctx : RequestCtx := {| ctx_node_id := None; ctx_server_id := None |}.

(** [HttpPeer::new((ip, port), tls, sni)] *)
Record HttpPeer : Type := { address : string * Z; tls : bool; sni : string }.

(** [SCAN .. MATCH]: whether a key matches a glob-style pattern. *)
Class RedisGlob := { glob_match : string -> string -> bool }.

(** A string without the characters that a pattern gives a meaning. *)
Definition glob_plain (s : string) : bool :=
  forallb (fun c => negb (Str.mem c s)) ["*"; "?"; "["; "]"; "\"]%char.

Class RedisGlobLaws `{RedisGlob} := {
  (* one star between literal parts *)
  glob_match_star before after key :
    glob_plain before = true -> glob_plain after = true ->
    glob_match (before +:+ "*" +:+ after) key = true <-> exists middle, key = before +:+ middle +:+ after }.

(** ** The world and the effects *)

Record RelayWorld : Type := {
  hashes : gmap string (gmap string string);   (* the hashes of Redis, by key *)
  ready : bool;                                (* [READY] *)
  responses : list Z }.                        (* the status codes answered *)

Definition respond (status : Z) (w : RelayWorld) : RelayWorld :=
  {| hashes := hashes w; ready := ready w; responses := responses w ++ [status] |}.

(** Whether Redis and the client's connection work, and the order in which
    Redis scans its keys. *)
Record RelayChoice : Type := { r_redis_ok : bool; r_socket_ok : bool; r_scan : list string }.

Inductive relayE : Type -> Type :=
| ScanMatch (pattern : string) : relayE (result string (list string))
| HGet (key field : string) : relayE (result string (option string))
| LoadReady : relayE bool
| WriteResponseHeader (status : Z) : relayE (result string unit)
| RespondError (status : Z) : relayE (result string unit).

Section relay.
Context `{!UuidText, !JsonParse, !RedisGlob}.

(** A scan returns every matching key, in any order and perhaps repeatedly. *)
Definition scanned (pattern : string) (order : list string) (m : gmap string (gmap string string)) : list string :=
  filter (fun key => glob_match pattern key = true /\ is_Some (m !! key)) (order ++ (map_to_list m).*1).

Definition relay_exec {R} (e : relayE R) : RelayChoice -> RelayWorld -> option (R * RelayWorld) :=
  match e in relayE R return RelayChoice -> RelayWorld -> option (R * RelayWorld) with
  | ScanMatch pattern => fun c w =>
      Some (if r_redis_ok c then Ok (scanned pattern (r_scan c) (hashes w)) else Err "redis error", w)
  | HGet key field => fun c w =>
      Some (if r_redis_ok c then Ok (hashes w !! key ≫= lookup field) else Err "redis error", w)
  | LoadReady => fun c w => Some (ready w, w)
  | WriteResponseHeader status | RespondError status => fun c w =>
      Some (if r_socket_ok c then (Ok tt, respond status w) else (Err "write error", w))
  end.

#[global] Instance relay_handler : Handler relayE RelayWorld RelayChoice := @relay_exec.

Abbreviation relay_task := (prog relayE).

(** ** [MemoryDB] *)

Definition find_server_id_by_node_id (node_id : string) : relay_task (option string) :=
  keys ← perform (ScanMatch ("phirepass:users:*:nodes:" +:+ node_id));
  Ret (match keys with Ok (key :: _) => Some key | _ => None end).

Definition get_user_server_by_node_id (node_id : string) (server_id : option string) :
    relay_task (result string string) :=
  id ← match server_id with
       | Some id => Ret (Some id)
       | None => find_server_id_by_node_id node_id
       end;
  match id with
  | None => Ret (Err ("fail to find server by node id " +:+ node_id))
  | Some id =>
      server ←? perform (HGet id "server");
      Ret (ok_or ("server not found for node " +:+ node_id) server)
  end.

(** ** [WsProxy] *)

Definition extract_protocols (req : RequestHeader) : option string * option string :=
  let protocols :=
    match headers req !! "sec-websocket-protocol" with
    | Some (Some value) =>
        filter (fun part => Str.is_empty part = false) (map Str.trim (Str.split ","%char value))
    | _ => []
    end in
  (head protocols, protocols !! 1%nat).

Definition get_server_by_node_id (node_id : string) (server_id : option string) :
    relay_task (result string ServerIdentifier) :=
  server_str ←? get_user_server_by_node_id node_id server_id;
  Ret (server_get_decoded server_str).

(** The handlers return the context, and whether the request ends here. *)
Definition handle_healthz (ctx : RequestCtx) : relay_task (RequestCtx * result string bool) :=
  written ← perform (WriteResponseHeader 200);
  Ret (ctx, match written with Ok _ => Ok true | Err e => Err e end).

Definition handle_readyz (ctx : RequestCtx) : relay_task (RequestCtx * result string bool) :=
  is_ready ← perform LoadReady;
  written ← (if is_ready : bool then perform (WriteResponseHeader 200) else perform (RespondError 503));
  Ret (ctx, match written with Ok _ => Ok true | Err e => Err e end).

Definition handle_proxy_web_ws (req : RequestHeader) (ctx : RequestCtx) :
    relay_task (RequestCtx * result string bool) :=
  let '(node_id, server_id) := extract_protocols req in
  match node_id with
  | None =>
      written ← perform (RespondError 400);
      Ret (ctx, match written with Ok _ => Ok true | Err e => Err e end)
  | Some _ => Ret ({| ctx_node_id := node_id; ctx_server_id := server_id |}, Ok false)
  end.

Definition request_filter (req : RequestHeader) (ctx : RequestCtx) : relay_task (RequestCtx * result string bool) :=
  if String.eqb (path req) "/healthz" then handle_healthz ctx
  else if String.eqb (path req) "/readyz" then handle_readyz ctx
  else if String.eqb (path req) "/api/web/ws" then handle_proxy_web_ws req ctx
  else
    written ← perform (RespondError 422);
    Ret (ctx, match written with Ok _ => Err "Unprocessable Content" | Err e => Err e end).

Definition upstream_peer (ctx : RequestCtx) : relay_task (result string HttpPeer) :=
  match ctx_node_id ctx with
  | None => Ret (Err "HTTPStatus(400)")
  | Some node_id =>
      server ← get_server_by_node_id node_id (ctx_server_id ctx);
      Ret (match server with
           | Ok server => Ok {| address := (si_private_ip server, si_port server); tls := false; sni := si_fqdn server |}
           | Err _ => Err "HTTPStatus(400)"
           end)
  end.

(** The proxy as pingora drives it: the upstream is asked for only when the
    filter lets the request through. *)
Definition proxy (req : RequestHeader) : relay_task (result string (option HttpPeer)) :=
  filtered ← request_filter req new_ctx;
  match filtered.2 with
  | Err e => Ret (Err e)
  | Ok true => Ret (Ok None)
  | Ok false => peer ← upstream_peer filtered.1; Ret (match peer with Ok p => Ok (Some p) | Err e => Err e end)
  end.
End relay.

(** ** Facts *)

Definition peer_of (s : ServerIdentifier) : HttpPeer :=
  {| address := (si_private_ip s, si_port s); tls := false; sni := si_fqdn s |}.

(** The server that the hash at [key] names. *)
Definition server_at `{!UuidText, !JsonParse} (key : string) (m : gmap string (gmap string string)) :
    option ServerIdentifier :=
  raw ← m !! key ≫= lookup "server";
  match server_get_decoded raw with Ok s => Some s | Err _ => None end.

Section relay_facts.
Context `{!UuidText, !JsonParse, !RedisGlob}.

Lemma elem_of_scanned pattern order m key :
  key ∈ scanned pattern order m <-> glob_match pattern key = true /\ is_Some (m !! key).
Proof.
  unfold scanned. rewrite list_elem_of_filter, elem_of_app, list_elem_of_fmap. split; [tauto|].
  intros [Hg [v Hv]]. split; [by eauto|]. right. exists (key, v). by rewrite elem_of_map_to_list.
Qed.

Lemma upstream_hint_run node_id hint cs w :
  (forall n, r_redis_ok (cs n) = true) ->
  run (upstream_peer {| ctx_node_id := Some node_id; ctx_server_id := Some hint |}) cs w =
    Done (ok_or "HTTPStatus(400)" (peer_of <$> server_at hint (hashes w))) w.
Proof.
  intros Hok. unfold upstream_peer, get_server_by_node_id, get_user_server_by_node_id, try_bind, server_at. cbn.
  rewrite Hok. destruct (hashes w !! hint ≫= lookup "server") as [raw|]; cbn; [|done].
  by destruct (server_get_decoded raw).
Qed.

Lemma upstream_scan_run node_id cs w :
  (forall n, r_redis_ok (cs n) = true) ->
  exists key,
    run (upstream_peer {| ctx_node_id := Some node_id; ctx_server_id := None |}) cs w =
      Done (ok_or "HTTPStatus(400)" (k ← key; peer_of <$> server_at k (hashes w))) w /\
    match key with
    | Some k => glob_match ("phirepass:users:*:nodes:" +:+ node_id) k = true /\ is_Some (hashes w !! k)
    | None => forall k, is_Some (hashes w !! k) -> glob_match ("phirepass:users:*:nodes:" +:+ node_id) k <> true
    end.
Proof.
  intros Hok. set (pattern := "phirepass:users:*:nodes:" +:+ node_id).
  exists (head (scanned pattern (r_scan (cs 0%nat)) (hashes w))). split.
  - unfold upstream_peer, get_server_by_node_id, get_user_server_by_node_id, find_server_id_by_node_id, try_bind, server_at.
    cbn -[scanned]. rewrite Hok. fold pattern. destruct (scanned _ _ _) as [|key keys]; cbn; [done|].
    rewrite Hok. destruct (hashes w !! key ≫= lookup "server") as [raw|]; cbn; [|done].
    by destruct (server_get_decoded raw).
  - destruct (scanned _ _ _) as [|key keys] eqn:Hs; cbn.
    + intros k Hk Hg. assert (k ∈ scanned pattern (r_scan (cs 0%nat)) (hashes w)) as Hin by (by apply elem_of_scanned).
      rewrite Hs in Hin. by apply not_elem_of_nil in Hin.
    + apply (elem_of_scanned pattern (r_scan (cs 0%nat))). rewrite Hs. left.
Qed.

Lemma proxy_ws_run req node_id server_id cs w :
  path req = "/api/web/ws" -> extract_protocols req = (Some node_id, server_id) ->
  run (proxy req) cs w =
    match run (upstream_peer {| ctx_node_id := Some node_id; ctx_server_id := server_id |}) cs w with
    | Done (Ok p) w' => Done (Ok (Some p)) w'
    | Done (Err e) w' => Done (Err e) w'
    | Blocked w' => Blocked w'
    | Panicked w' => Panicked w'
    end.
Proof.
  intros Hp He. unfold proxy, request_filter, handle_proxy_web_ws. rewrite Hp, He. cbn -[upstream_peer].
  set (ctx := {| ctx_node_id := Some node_id; ctx_server_id := server_id |}).
  generalize (upstream_peer ctx). intros p. revert cs w.
  induction p as [[a|e]| |R e k IH]; intros cs w; [done..|]. cbn.
  destruct (exec e (cs 0%nat) w) as [[r w']|]; [|done]. apply IH.
Qed.
End relay_facts.

(** A web socket request that names a server is forwarded to the server
    recorded in the hash whose Redis key is that very text, whatever node it
    names; one that names none is forwarded to the server of some hash of its
    node, and refused when there is none or it cannot be read.  Nothing is
    answered by the relay itself, and its state does not change. *)
Theorem relay_upstream_spec `{!UuidText, !JsonParse, !RedisGlob} req node_id server_id cs w :
  path req = "/api/web/ws" -> extract_protocols req = (Some node_id, server_id) ->
  (forall n, r_redis_ok (cs n) = true) ->
  exists r, run (proxy req) cs w = Done r w /\
    match server_id with
    | Some hint => forall p, r = Ok (Some p) <-> peer_of <$> server_at hint (hashes w) = Some p
    | None =>
        (forall p, r = Ok (Some p) -> exists key, glob_match ("phirepass:users:*:nodes:" +:+ node_id) key = true /\
           peer_of <$> server_at key (hashes w) = Some p) /\
        ((forall key, glob_match ("phirepass:users:*:nodes:" +:+ node_id) key = true ->
            server_at key (hashes w) = None) -> exists e, r = Err e)
    end.
Proof.
  intros Hp He Hok. rewrite (proxy_ws_run _ _ _ _ _ Hp He). destruct server_id as [hint|].
  - rewrite upstream_hint_run by done. destruct (peer_of <$> server_at hint (hashes w)) as [p|]; cbn;
      (eexists; split; [done|]); intros p'; split; congruence.
  - destruct (upstream_scan_run node_id cs w Hok) as (key & Hrun & Hkey). rewrite Hrun.
    destruct key as [key|]; cbn; [|eexists; split; [done|]; split; [done|eauto]].
    destruct Hkey as [Hg Hin]. destruct (server_at key (hashes w)) as [s|] eqn:Hs; cbn;
      (eexists; split; [done|]); split.
    + intros p [= <-]. exists key. by rewrite Hs.
    + intros Hnone. rewrite (Hnone key Hg) in Hs. done.
    + done.
    + eauto.
Qed.

(** Every other request ends at the relay: the two probes are answered 200,
    or 503 before the proxy is up, a web socket without a node 400, and any
    other path 422 and an error; only a web socket with a node goes on. *)
Theorem relay_answers `{!UuidText, !JsonParse, !RedisGlob} req cs w :
  (forall n, r_socket_ok (cs n) = true) ->
  (path req = "/api/web/ws" -> (extract_protocols req).1 = None) ->
  exists r status, run (proxy req) cs w = Done r (respond status w) /\
    status = (if String.eqb (path req) "/healthz" then 200
              else if String.eqb (path req) "/readyz" then if ready w then 200 else 503
              else if String.eqb (path req) "/api/web/ws" then 400 else 422) /\
    (r = Ok None <-> status <> 422).
Proof.
  intros Hok Hws. unfold proxy, request_filter.
  destruct (String.eqb_spec (path req) "/healthz"); [|destruct (String.eqb_spec (path req) "/readyz");
    [|destruct (String.eqb_spec (path req) "/api/web/ws") as [Heq|]]].
  - cbn. rewrite Hok. cbn. by eexists _, _.
  - unfold handle_readyz. cbn. destruct (ready w); cbn; rewrite Hok; cbn; by eexists _, _.
  - unfold handle_proxy_web_ws. destruct (extract_protocols req) as [node_id server_id]. cbn in Hws.
    rewrite (Hws Heq). cbn. rewrite Hok. cbn. by eexists _, _.
  - cbn. rewrite Hok. cbn. by eexists _, _.
Qed.
