(* ===== verification/Channel.v ===== *)
(** * The browser client: [channel/src/lib.rs]

    The object that a page drives: it opens the web socket, encodes one frame
    per method, keeps a heartbeat, and hands decoded frames to the page's
    callbacks.  JavaScript runs one event at a time, so that a method is a
    function of the page's state. *)

From S2P Require Import Prelude Async Mpsc RustStr Protocol Frame Externs.

#[local] Arguments String.append : simpl nomatch.

Module Channel.

(** ** The browser *)

Inductive ReadyState : Type := CONNECTING | OPEN | CLOSING | CLOSED.

#[global] Instance ready_state_eq_dec : EqDecision ReadyState.
Proof. solve_decision. Defined.

Record Socket : Type := { url : string; protocol : string; ready_state : ReadyState; out : list bytes }.

(** [WebSocket::new_with_str] throws unless the one sub-protocol it is given
    is a token, which has no comma, and the URL is valid. *)
Class WebSocketApi := { constructs : string -> string -> bool }.
Class WebSocketLaws `{WebSocketApi} := {
  constructs_token url protocol : constructs url protocol = true -> Str.mem ","%char protocol = false }.

(** [serde_wasm_bindgen]: whether a frame becomes a JavaScript value; an integer
    above [2^53] does not. *)
Class WasmBindgen := { serializes : Frame -> bool }.

(** A function object of the page. *)
Definition Function : Type := nat.

Record ChannelCallbacks : Type := {
  on_connection_open : option Function;
  on_connection_error : option Function;
  on_connection_close : option Function;
  on_connection_message : option Function;
  on_protocol_message : option Function }.

Definition no_callbacks : ChannelCallbacks :=
  {| on_connection_open := None; on_connection_error := None; on_connection_close := None;
     on_connection_message := None; on_protocol_message := None |}.

(** The immutable fields of a [Channel]. *)
Record Config : Type := { endpoint : string; node_id : string; server_id : option string }.

(** The page: the browser's sockets and live intervals (with their periods),
    [ChannelState], [ChannelCallbacks], [ChannelClosures] with the socket they
    are attached to, the calls of the page's functions, and the next name of
    a browser object. *)
Record Page : Type := {
  sockets : gmap nat Socket;
  intervals : gmap nat Z;
  socket : option nat;
  heartbeat : option nat;
  callbacks : ChannelCallbacks;
  closures : option (nat * ChannelCallbacks);
  calls : list (Function * option Frame);
  next : nat }.

Definition with_sockets f p : Page :=
  {| sockets := f (sockets p); intervals := intervals p; socket := socket p; heartbeat := heartbeat p;
     callbacks := callbacks p; closures := closures p; calls := calls p; next := next p |}.
Definition with_calls f p : Page :=
  {| sockets := sockets p; intervals := intervals p; socket := socket p; heartbeat := heartbeat p;
     callbacks := callbacks p; closures := closures p; calls := f (calls p); next := next p |}.
Definition with_callbacks cb p : Page :=
  {| sockets := sockets p; intervals := intervals p; socket := socket p; heartbeat := heartbeat p;
     callbacks := cb; closures := closures p; calls := calls p; next := next p |}.

(** An [Interval] that is cancelled or dropped no longer ticks. *)
Definition drop_interval (h : option nat) (m : gmap nat Z) : gmap nat Z :=
  match h with Some i => delete i m | None => m end.

(** [Channel::new] *)
Definition fresh_page : Page :=
  {| sockets := ∅; intervals := ∅; socket := None; heartbeat := None; callbacks := no_callbacks;
     closures := None; calls := []; next := 0 |}.

(** ** Methods *)

Section channel.
Context `{!WebSocketApi, !WasmBindgen, !Serde WebFrameData.t, !Serde NodeFrameData.t}.
Context (config : Config) (version : string).

Definition sub_protocols : string :=
  match server_id config with
  | None => node_id config
  | Some server_id => node_id config +:+ "," +:+ server_id
  end.

Definition connect (p : Page) : Page :=
  if constructs (endpoint config) sub_protocols then
    let ws := next p in
    {| sockets := <[ws := {| url := endpoint config; protocol := sub_protocols; ready_state := CONNECTING; out := [] |}]>
                    (sockets p);
       intervals := drop_interval (heartbeat p) (intervals p); socket := Some ws; heartbeat := None;
       callbacks := callbacks p; closures := Some (ws, callbacks p); calls := calls p; next := S ws |}
  else p.

Definition state_is (r : ReadyState) (p : Page) : bool :=
  match s ← socket p; sockets p !! s with
  | Some s => bool_decide (ready_state s = r)
  | None => false
  end.
Definition is_connected : Page -> bool := state_is OPEN.
Definition is_disconnected : Page -> bool := state_is CLOSED.

Definition sent (raw : bytes) (s : Socket) : Socket :=
  {| url := url s; protocol := protocol s; ready_state := ready_state s; out := out s ++ [raw] |}.
Definition in_state (r : ReadyState) (s : Socket) : Socket :=
  {| url := url s; protocol := protocol s; ready_state := r; out := out s |}.

Definition send_frame_data (data : WebFrameData.t) (p : Page) : Page :=
  if negb (is_connected p) then p
  else
    match to_bytes (from_web data), socket p with
    | Ok raw, Some s => with_sockets (alter (sent raw) s) p
    | _, _ => p
    end.

Definition stop_heartbeat (p : Page) : Page :=
  {| sockets := sockets p; intervals := drop_interval (heartbeat p) (intervals p); socket := socket p;
     heartbeat := None; callbacks := callbacks p; closures := closures p; calls := calls p; next := next p |}.

Definition start_heartbeat (interval_as_millis : Z) (p : Page) : Page :=
  let p := stop_heartbeat p in
  let interval_as_millis := if interval_as_millis =? 0 then 15000 else interval_as_millis in
  let p := send_frame_data WebFrameData.Heartbeat p in
  {| sockets := sockets p; intervals := <[next p := interval_as_millis]> (intervals p); socket := socket p;
     heartbeat := Some (next p); callbacks := callbacks p; closures := closures p; calls := calls p;
     next := S (next p) |}.

(** The callback of an interval. *)
Definition tick : Page -> Page := send_frame_data WebFrameData.Heartbeat.

Definition disconnect (p : Page) : Page :=
  let p := stop_heartbeat p in
  let close s := in_state (match ready_state s with CLOSED => CLOSED | _ => CLOSING end) s in
  {| sockets := match socket p with Some s => alter close s (sockets p) | None => sockets p end;
     intervals := intervals p; socket := None; heartbeat := heartbeat p; callbacks := callbacks p;
     closures := closures p; calls := calls p; next := next p |}.

(** The channel's own [Protocol], beside the one of the common crate. *)
Inductive Protocol : Type := SSH | SFTP.
Definition protocol_as_u8 (p : Protocol) : Z := match p with SSH => 0 | SFTP => 1 end.
Definition protocol_try_from (value : Z) : result string Protocol :=
  if value =? 0 then Ok SSH else Err "Unknown protocol variant".

Definition authenticate token node_id msg_id :=
  send_frame_data (WebFrameData.Auth token node_id version msg_id).
Definition open_ssh_tunnel node_id username password msg_id :=
  send_frame_data (WebFrameData.OpenTunnel (protocol_as_u8 SSH) node_id username password msg_id).
Definition open_sftp_tunnel node_id username password msg_id :=
  send_frame_data (WebFrameData.OpenTunnel (protocol_as_u8 SFTP) node_id username password msg_id).
Definition send_ssh_terminal_resize node_id sid cols rows px_width px_height :=
  send_frame_data (WebFrameData.SSHWindowResize node_id sid cols rows px_width px_height).
Definition send_ssh_tunnel_data node_id sid (data : string) :=
  send_frame_data (WebFrameData.TunnelData (protocol_as_u8 SSH) node_id sid (String.list_byte_of_string data)).
Definition send_sftp_list_data node_id sid path msg_id :=
  send_frame_data (WebFrameData.SFTPList node_id path sid msg_id).
Definition send_sftp_download_start node_id sid path filename msg_id :=
  send_frame_data (WebFrameData.SFTPDownloadStart node_id sid msg_id {| ds_path := path; ds_filename := filename |}).
Definition send_sftp_download_chunk node_id sid (download_id chunk_index : Z) msg_id :=
  send_frame_data (WebFrameData.SFTPDownloadChunkRequest node_id sid msg_id download_id chunk_index).
Definition send_sftp_upload_start node_id sid filename remote_path total_chunks total_size msg_id :=
  send_frame_data (WebFrameData.SFTPUploadStart node_id sid msg_id
    {| us_filename := filename; us_remote_path := remote_path; us_total_chunks := total_chunks;
       us_total_size := total_size |}).
Definition send_sftp_upload_chunk node_id sid upload_id chunk_index chunk_size data msg_id :=
  send_frame_data (WebFrameData.SFTPUpload node_id sid msg_id
    {| uc_upload_id := upload_id; uc_chunk_index := chunk_index; uc_chunk_size := chunk_size; uc_data := data |}).
Definition send_sftp_delete node_id sid path filename msg_id :=
  send_frame_data (WebFrameData.SFTPDelete node_id sid msg_id {| del_path := path; del_filename := filename |}).

(** ** Events *)

(** [MessageEvent::data] *)
Inductive EventData : Type := AsString (s : string) | AsArrayBuffer (data : bytes) | AsOther.

(** The frame the page's callback is called with. *)
Definition handle_message (data : EventData) : call (option Frame) :=
  match data with
  | AsArrayBuffer data =>
      match decode browser data with
      | Returns (Ok frame) => Returns (if serializes frame then Some frame else None)
      | Returns (Err _) => Returns None
      | Panics => Panics
      end
  | AsString _ | AsOther => Returns None
  end.

Definition invoke (f : option Function) (arg : option Frame) (p : Page) : Page :=
  match f with Some f => with_calls (fun l => l ++ [(f, arg)]) p | None => p end.

(** The closures run for the socket they were attached to, with the callbacks
    that were registered when it was opened. *)
Definition attached (s : nat) (p : Page) : ChannelCallbacks :=
  match closures p with
  | Some (s', cb) => if bool_decide (s = s') then cb else no_callbacks
  | None => no_callbacks
  end.

Definition on_open (s : nat) (p : Page) : Page :=
  invoke (on_connection_open (attached s p)) None (with_sockets (alter (in_state OPEN) s) p).
Definition on_error (s : nat) (p : Page) : Page := invoke (on_connection_error (attached s p)) None p.
Definition on_close (s : nat) (p : Page) : Page :=
  invoke (on_connection_close (attached s p)) None (with_sockets (alter (in_state CLOSED) s) p).
Definition on_message (s : nat) (data : EventData) (p : Page) : call Page :=
  let cb := attached s p in
  let p := invoke (on_connection_message cb) None p in
  match on_protocol_message cb with
  | None => Returns p
  | Some f =>
      match handle_message data with
      | Returns (Some frame) => Returns (invoke (Some f) (Some frame) p)
      | Returns None => Returns p
      | Panics => Panics
      end
  end.

(** What can happen to a page: the page calls a method, an interval fires, or
    the browser reports on a socket. *)
Inductive page_step : Page -> Page -> Prop :=
| step_connect p : page_step p (connect p)
| step_disconnect p : page_step p (disconnect p)
| step_send data p : page_step p (send_frame_data data p)
| step_start_heartbeat ms p : page_step p (start_heartbeat ms p)
| step_stop_heartbeat p : page_step p (stop_heartbeat p)
| step_callbacks cb p : page_step p (with_callbacks cb p)
| step_tick i p : is_Some (intervals p !! i) -> page_step p (tick p)
| step_open s p : page_step p (on_open s p)
| step_error s p : page_step p (on_error s p)
| step_close s p : page_step p (on_close s p)
| step_message s data p p' : on_message s data p = Returns p' -> page_step p p'.

(** ** Invariant *)

(** The live intervals are the heartbeat and nothing else; names are fresh;
    the channel's socket exists. *)
Record page_ok (p : Page) : Prop := {
  ok_intervals i : is_Some (intervals p !! i) <-> heartbeat p = Some i;
  ok_next i : is_Some (intervals p !! i) -> (i < next p)%nat;
  ok_sockets s : is_Some (sockets p !! s) -> (s < next p)%nat;
  ok_socket s : socket p = Some s -> is_Some (sockets p !! s) }.

Lemma invoke_same f arg p :
  sockets (invoke f arg p) = sockets p /\ intervals (invoke f arg p) = intervals p /\
  socket (invoke f arg p) = socket p /\ heartbeat (invoke f arg p) = heartbeat p /\ next (invoke f arg p) = next p.
Proof. by destruct f. Qed.

(** A page whose browser objects are those of [p], up to the sockets' own
    fields. *)
Lemma page_ok_same p p' :
  (forall s, is_Some (sockets p' !! s) <-> is_Some (sockets p !! s)) ->
  intervals p' = intervals p -> socket p' = socket p -> heartbeat p' = heartbeat p -> next p' = next p ->
  page_ok p -> page_ok p'.
Proof.
  intros Hss Hi Hs Hh Hn [H1 H2 H3 H4]. split; rewrite ?Hi, ?Hs, ?Hh, ?Hn; try done.
  - intros s ?%Hss. by apply H3.
  - intros s ?%H4. by apply Hss.
Qed.

Lemma page_ok_alter f s p : page_ok p -> page_ok (with_sockets (alter f s) p).
Proof. apply page_ok_same; try done. intros s'. apply lookup_alter_is_Some. Qed.

Lemma page_ok_invoke f arg p : page_ok p -> page_ok (invoke f arg p).
Proof. destruct (invoke_same f arg p) as (Hs & Hi & Hso & Hh & Hn). apply page_ok_same; try done. by rewrite Hs. Qed.

Lemma page_ok_send data p : page_ok p -> page_ok (send_frame_data data p).
Proof.
  unfold send_frame_data. destruct (negb _); [done|]. destruct (to_bytes _); [|done].
  destruct (socket p); [|done]. apply page_ok_alter.
Qed.

Lemma page_ok_stop p : page_ok p -> page_ok (stop_heartbeat p) /\ intervals (stop_heartbeat p) = ∅.
Proof.
  intros [H1 H2 H3 H4].
  assert (drop_interval (heartbeat p) (intervals p) = ∅) as Hd.
  { apply map_eq. intros i. rewrite lookup_empty. destruct (heartbeat p) as [h|] eqn:Hh; cbn.
    - apply lookup_delete_None. destruct (decide (h = i)); [auto|right].
      apply eq_None_not_Some. rewrite H1. congruence.
    - apply eq_None_not_Some. rewrite H1. done. }
  split; [|exact Hd]. split; cbn; rewrite ?Hd; try done.
  - intros i. rewrite lookup_empty. by split; [intros ?%is_Some_None|].
  - intros i. rewrite lookup_empty. by intros ?%is_Some_None.
Qed.

Lemma page_ok_start ms p : page_ok p -> page_ok (start_heartbeat ms p).
Proof.
  intros Hp. destruct (page_ok_stop p Hp) as [Hs He]. pose proof (page_ok_send WebFrameData.Heartbeat _ Hs) as Hq.
  unfold start_heartbeat. cbv zeta.
  assert (intervals (send_frame_data WebFrameData.Heartbeat (stop_heartbeat p)) = ∅) as Hi.
  { rewrite <-He. unfold send_frame_data. repeat case_match; done. }
  destruct Hq as [H1 H2 H3 H4]. split; cbn; rewrite ?Hi.
  - intros i. rewrite lookup_insert_is_Some, lookup_empty. split; [by intros [->|[_ ?%is_Some_None]]|].
    intros [= ->]. by left.
  - intros i. rewrite lookup_insert_is_Some, lookup_empty. intros [->|[_ ?%is_Some_None]]; [lia|done].
  - intros s ?%H3. lia.
  - done.
Qed.

Lemma page_ok_step p p' : page_step p p' -> page_ok p -> page_ok p'.
Proof.
  intros Hstep Hp. destruct Hstep.
  - unfold connect. destruct (constructs _ _); [|done]. destruct (page_ok_stop p Hp) as [Hs He]. cbn in He.
    destruct Hp as [H1 H2 H3 H4]. split; cbn; rewrite ?He.
    + intros i. rewrite lookup_empty. by split; [intros ?%is_Some_None|].
    + intros i. rewrite lookup_empty. by intros ?%is_Some_None.
    + intros s. rewrite lookup_insert_is_Some. intros [->|[_ ?%H3]]; lia.
    + intros s [= <-]. rewrite lookup_insert_is_Some. by left.
  - destruct (page_ok_stop p Hp) as [Hs He]. unfold disconnect. cbv zeta. cbn [socket stop_heartbeat sockets].
    destruct Hs as [H1 H2 H3 H4]. split; try done. cbn. intros s. cbn in H3.
    destruct (socket p); [|apply H3]. rewrite lookup_alter_is_Some. apply H3.
  - by apply page_ok_send.
  - by apply page_ok_start.
  - by apply page_ok_stop.
  - by apply page_ok_same with p.
  - by apply page_ok_send.
  - apply page_ok_invoke. by apply page_ok_alter.
  - by apply page_ok_invoke.
  - apply page_ok_invoke. by apply page_ok_alter.
  - match goal with H : on_message _ _ _ = _ |- _ => revert H end. unfold on_message.
    set (q := invoke _ None p). assert (page_ok q) by by apply page_ok_invoke.
    destruct (on_protocol_message _) as [f|]; [|by intros [= <-]].
    destruct (handle_message _) as [[frame|]|]; [|by intros [= <-]|done]. intros [= <-].
    by apply (page_ok_invoke (Some f) (Some frame) q).
Qed.
End channel.

(** C26. Whatever the page calls, however often and in whatever order, and
    whatever its sockets report: at most one heartbeat is live, it is the
    channel's own, and the channel's socket is one that it opened. *)
Theorem page_invariant `{!WebSocketApi, !WasmBindgen, !Serde WebFrameData.t, !Serde NodeFrameData.t} config p :
  rtc (page_step config) fresh_page p ->
  page_ok p /\ (size (intervals p) <= 1)%nat /\ (heartbeat p = None -> intervals p = ∅).
Proof.
  intros Hsteps. assert (page_ok p) as Hp.
  { assert (page_ok fresh_page) as Hfresh.
    { split; cbn; intros i; rewrite ?lookup_empty; try done;try by intros ?%is_Some_None. }
    revert Hfresh. induction Hsteps as [|p1 p2 p3 Hstep _ IH]; [done|]. intros Hp1. apply IH. by eapply page_ok_step. }
  split; [done|]. destruct Hp as [H1 _ _ _].
  assert (heartbeat p = None -> intervals p = ∅) as Hnone.
  { intros Hh. apply map_eq. intros i. rewrite lookup_empty. apply eq_None_not_Some. by rewrite H1, Hh. }
  split; [|exact Hnone]. destruct (heartbeat p) as [h|] eqn:Hh; [|by rewrite (Hnone eq_refl), map_size_empty; lia].
  assert (exists ms, intervals p = {[h := ms]}) as [ms ->].
  { destruct (proj2 (H1 h) eq_refl) as [ms Hms]. exists ms. apply map_eq. intros i.
    destruct (decide (i = h)) as [->|Hne]; [by rewrite Hms, lookup_singleton_eq|].
    rewrite lookup_singleton_ne by done. apply eq_None_not_Some. rewrite H1. congruence. }
  by rewrite map_size_singleton.
Qed.

(** What a step does to the bytes written to a socket. *)
Definition writes `{!Serde WebFrameData.t, !Serde NodeFrameData.t} (p p' : Page) : Prop :=
  forall s sk, sockets p !! s = Some sk ->
  exists sk', sockets p' !! s = Some sk' /\
    (out sk' = out sk \/
     socket p = Some s /\ ready_state sk = OPEN /\
     exists data raw, to_bytes (from_web data) = Ok raw /\ out sk' = out sk ++ [raw]).

Lemma sockets_invoke f arg p : sockets (invoke f arg p) = sockets p.
Proof. by destruct f. Qed.

Section writing.
Context `{!WebSocketApi, !Serde WebFrameData.t, !Serde NodeFrameData.t}.

Lemma writes_same p p' : sockets p' = sockets p -> writes p p'.
Proof. intros Hs s sk Hsk. exists sk. rewrite Hs. auto. Qed.

Lemma writes_alter f s p p' :
  (forall sk, out (f sk) = out sk) -> sockets p' = alter f s (sockets p) -> writes p p'.
Proof.
  intros Hf Hs s' sk Hsk. rewrite Hs. destruct (decide (s' = s)) as [->|Hne].
  - rewrite lookup_alter_eq, Hsk. cbn. eauto.
  - rewrite lookup_alter_ne by done. eauto.
Qed.

Lemma writes_send data p p' :
  sockets p' = sockets (send_frame_data data p) -> writes p p'.
Proof.
  intros Hs. unfold send_frame_data, is_connected, state_is in Hs.
  destruct (socket p) as [so|] eqn:Hso; [|by apply writes_same].
  destruct (sockets p !! so) as [sk|] eqn:Hsk; cbn -[to_bytes] in Hs; rewrite ?Hsk in Hs; [|by apply writes_same].
  destruct (bool_decide_reflect (ready_state sk = OPEN)) as [Hopen|]; [|apply writes_same; exact Hs].
  cbn [negb] in Hs. destruct (to_bytes (from_web data)) as [raw|] eqn:Hraw; [|apply writes_same; exact Hs].
  intros s sk0 Hsk0. rewrite Hs. cbn. destruct (decide (s = so)) as [->|Hne].
  - rewrite lookup_alter_eq, Hsk0. rewrite Hsk in Hsk0. injection Hsk0 as <-. eexists. split; [done|]. right.
    split; [done|]. split; [done|]. by exists data, raw.
  - rewrite lookup_alter_ne by done. eauto.
Qed.
End writing.

(** C27. Bytes are written to a socket only while it is the channel's own and
    open, one whole encoded frame at a time: after [disconnect], or while the
    socket is still connecting, every method is silent. *)
Theorem writes_only_when_open `{!WebSocketApi, !WasmBindgen, !Serde WebFrameData.t, !Serde NodeFrameData.t} config p p' :
  page_ok p -> page_step config p p' -> writes p p'.
Proof.
  intros Hp Hstep. destruct Hstep.
  - unfold connect. destruct (constructs _ _); [|by apply writes_same]. intros s sk Hsk. cbn.
    rewrite lookup_insert_ne; [eauto|]. intros <-. pose proof (ok_sockets _ Hp _ (mk_is_Some _ _ Hsk)). lia.
  - unfold disconnect. cbn. destruct (socket p) as [so|] eqn:Hso; [|by apply writes_same].
    eapply writes_alter; [|reflexivity]. done.
  - by eapply writes_send.
  - intros s sk Hsk. exact (writes_send WebFrameData.Heartbeat (stop_heartbeat p) (start_heartbeat ms p) eq_refl s sk Hsk).
  - by apply writes_same.
  - by apply writes_same.
  - by eapply writes_send.
  - apply (writes_alter (in_state OPEN) s); [done|]. unfold on_open. by rewrite sockets_invoke.
  - apply writes_same. apply sockets_invoke.
  - apply (writes_alter (in_state CLOSED) s); [done|]. unfold on_close. by rewrite sockets_invoke.
  - apply writes_same. match goal with H : on_message _ _ _ = _ |- _ => revert H end. unfold on_message.
    destruct (on_protocol_message _) as [f|]; [|intros [= <-]; apply sockets_invoke].
    destruct (handle_message _) as [[frame|]|]; [|intros [= <-]; apply sockets_invoke|done].
    intros [= <-]. cbn. apply sockets_invoke.
Qed.

(** A channel that is given a server id never connects: it passes the node
    and the server to the browser as one sub-protocol, joined by a comma,
    which no sub-protocol may contain. *)
Theorem server_id_never_connects
    `{!WebSocketApi, !WebSocketLaws, !WasmBindgen, !Serde WebFrameData.t, !Serde NodeFrameData.t} config server :
  server_id config = Some server ->
  (forall p, connect config p = p) /\
  forall p, rtc (page_step config) fresh_page p -> socket p = None /\ is_connected p = false.
Proof.
  intros Hs. assert (forall p, connect config p = p) as Hc.
  { intros q. unfold connect. destruct (constructs _ _) eqn:Hok; [|done].
    apply constructs_token in Hok. unfold sub_protocols in Hok. rewrite Hs in Hok. exfalso. revert Hok.
    generalize (node_id config) as n. intros n. induction n as [|a n IH]; cbn; [done|].
    rewrite orb_false_iff. by intros [_ ?]. }
  split; [done|]. intros p Hsteps. assert (socket p = None) as Hn; [|by unfold is_connected, state_is; rewrite Hn].
  assert (socket fresh_page = None) as Hp0 by done. revert Hp0.
  induction Hsteps as [|p1 p2 p3 Hstep _ IH]; [done|]. intros Hp1. apply IH. clear IH.
  assert (forall f arg q, socket (invoke f arg q) = socket q) as Hi by (by intros []).
  assert (forall d q, socket (send_frame_data d q) = socket q) as Hsend
    by (intros; unfold send_frame_data; repeat case_match; done).
  destruct Hstep; rewrite ?Hc; try done; unfold tick; rewrite ?Hsend; unfold on_open, on_error, on_close; rewrite ?Hi; try done.
  - unfold start_heartbeat. cbn. by rewrite Hsend.
  - match goal with H : on_message _ _ _ = _ |- _ => revert H end. unfold on_message.
    destruct (on_protocol_message _) as [f|]; [|intros [= <-]; by rewrite Hi].
    destruct (handle_message _) as [[frame|]|]; [|intros [= <-]; by rewrite Hi|done].
    intros [= <-]. cbn. by rewrite Hi.
Qed.
End Channel.
