(* ===== verification/SystemRelay.v ===== *)
(** * Server and relay together: finding a node

    What [server/src/db/redis.rs] writes when a node connects or sends a
    heartbeat is what [relay/src/db/redis.rs] reads when a browser asks for
    that node, until the key's time to live is over. *)

From S2P Require Import Prelude Async Mpsc RustStr Protocol Externs JsonDe Token ServerState ServerDb ServerNode Relay.

#[local] Arguments String.append : simpl nomatch.

(** ** Redis

    Its hashes and their times to live: what it holds after a command, and
    what it shows of that at a time.  A key whose deadline has come is gone. *)
Class Redis (DB : Type) := {
  redis_do : SystemTime -> RedisCmd -> DB -> DB;
  redis_hash : SystemTime -> DB -> string -> option (gmap string string);
  redis_deadline : DB -> string -> option SystemTime }.

Definition hset (fields : list (string * string)) (hash : gmap string string) : gmap string string :=
  foldl (fun h f => <[f.1 := f.2]> h) hash fields.

Definition cmd_key (cmd : RedisCmd) : string :=
  match cmd with HSetMultiple key _ | Expire key _ | Del key => key end.

(** Whether a key with this deadline is still there. *)
Definition alive_at (now : SystemTime) (deadline : option SystemTime) : Prop :=
  match deadline with Some d => now < d | None => True end.

(** The documented behaviour of HMSET, EXPIRE and DEL: the first keeps a time
    to live, the second sets it on a key that exists, and a command leaves
    the other keys alone. *)
Class RedisLaws (DB : Type) `{Redis DB} := {
  redis_gone now db key : ~ alive_at now (redis_deadline db key) -> redis_hash now db key = None;
  redis_later now later db key : now <= later -> alive_at later (redis_deadline db key) ->
    redis_hash later db key = redis_hash now db key;
  redis_other now t cmd db key : key <> cmd_key cmd ->
    redis_hash now (redis_do t cmd db) key = redis_hash now db key /\
    redis_deadline (redis_do t cmd db) key = redis_deadline db key;
  redis_hset t key fields db :
    redis_hash t (redis_do t (HSetMultiple key fields) db) key = Some (hset fields (default ∅ (redis_hash t db key))) /\
    redis_deadline (redis_do t (HSetMultiple key fields) db) key =
      (_ ← redis_hash t db key; redis_deadline db key);
  redis_expire t key secs db h :
    redis_hash t db key = Some h -> 0 < secs ->
    redis_hash t (redis_do t (Expire key secs) db) key = Some h /\
    redis_deadline (redis_do t (Expire key secs) db) key = Some (t + seconds secs) }.

(** The commands that any servers sent, with the times at which Redis
    executed them. *)
Definition redis_run {DB} `{Redis DB} (log : list (SystemTime * RedisCmd)) (db : DB) : DB :=
  foldl (fun db e => redis_do e.1 e.2 db) db log.

Section expiry.
Context {DB : Type} `{!Redis DB, !RedisLaws DB}.

Lemma redis_run_cons t cmd log db : redis_run ((t, cmd) :: log) db = redis_run log (redis_do t cmd db).
Proof. done. Qed.

Lemma redis_run_other now log db key :
  Forall (fun e : SystemTime * RedisCmd => cmd_key e.2 <> key) log ->
  redis_hash now (redis_run log db) key = redis_hash now db key /\
  redis_deadline (redis_run log db) key = redis_deadline db key.
Proof.
  intros Hlog. revert db. induction Hlog as [|[t cmd] log Hc _ IH]; intros db; [done|].
  rewrite redis_run_cons. destruct (IH (redis_do t cmd db)) as [-> ->]. by apply redis_other.
Qed.

(** A hash written at [t1] and given its time to live at [t2], with nothing
    sent for its key since. *)
Lemma hset_expire t1 t2 now key fields secs log db :
  t1 <= t2 <= now -> 0 < secs ->
  (forall d, redis_deadline db key = Some d -> d <= t1 \/ t2 < d) ->
  Forall (fun e : SystemTime * RedisCmd => cmd_key e.2 <> key) log ->
  let db' := redis_run ((t1, HSetMultiple key fields) :: (t2, Expire key secs) :: log) db in
  redis_hash now db' key =
    if decide (now < t2 + seconds secs) then Some (hset fields (default ∅ (redis_hash t1 db key))) else None.
Proof.
  intros [H12 H2] Hsecs Hd Hlog db'. unfold db'. rewrite !redis_run_cons.
  destruct (redis_hset t1 key fields db) as [Hh Hdl]. set (db1 := redis_do t1 _ db) in *.
  destruct (redis_run_other now log (redis_do t2 (Expire key secs) db1) key Hlog) as [-> _].
  assert (redis_hash t2 db1 key = Some (hset fields (default ∅ (redis_hash t1 db key)))) as Hh2.
  { rewrite <-Hh. apply redis_later; [done|]. rewrite Hdl. destruct (redis_hash t1 db key) as [h|] eqn:Ht1; [cbn|done].
    destruct (redis_deadline db key) as [d|] eqn:Hdb; [cbn|done]. destruct (Hd d eq_refl) as [Hle|]; [|done].
    rewrite redis_gone in Ht1; [done|]. rewrite Hdb. cbn. lia. }
  destruct (redis_expire t2 key secs db1 _ Hh2 Hsecs) as [He Hed]. destruct (decide _) as [Hlt|Hge].
  - rewrite <-He. apply redis_later; [done|]. by rewrite Hed.
  - apply redis_gone. rewrite Hed. cbn. lia.
Qed.
End expiry.

Lemma mem_app c s t : Str.mem c (s +:+ t) = Str.mem c s || Str.mem c t.
Proof. induction s as [|a s IH]; cbn; [done|]. by rewrite IH, orb_assoc. Qed.

Lemma glob_plain_app s t : glob_plain (s +:+ t) = glob_plain s && glob_plain t.
Proof.
  unfold glob_plain. induction ["*"; "?"; "["; "]"; "\"]%char as [|c cs IH]; [done|]. cbn [forallb].
  rewrite IH, mem_app, negb_orb. destruct (negb (Str.mem c s)), (negb (Str.mem c t)); cbn; try done.
  by rewrite andb_false_r.
Qed.

Section finding.
Context `{!UuidText, !UuidTextLaws, !JsonText, !JsonParse, !JsonLaws, !DateText, !RedisGlob, !RedisGlobLaws}.

(** The pattern of the relay matches the key of the server. *)
Lemma node_key_found record :
  glob_plain (uuid_to_string (nr_id record)) = true ->
  glob_match ("phirepass:users:*:nodes:" +:+ uuid_to_string (nr_id record)) (node_key record) = true.
Proof.
  intros Hplain.
  change ("phirepass:users:*:nodes:" +:+ uuid_to_string (nr_id record))
    with ("phirepass:users:" +:+ "*" +:+ (":nodes:" +:+ uuid_to_string (nr_id record))).
  apply glob_match_star; [done|by rewrite glob_plain_app, Hplain|]. by eexists.
Qed.

(** What tells Redis about a node: its connection, and each heartbeat of a
    connected one. *)
Inductive announces (state : AppState) (record : NodeRecord) (w : World) : task (result string unit) -> Prop :=
| announces_connect : announces state record w (set_node_connected record (server state))
| announces_heartbeat info stats sent_at :
    nodes (shared w) !! nr_id record = Some info -> node_record info = record ->
    announces state record w (handle_node_heartbeat state (nr_id record) stats sent_at).

(** When it reaches Redis, it is one write of the node's hash, the server in
    it, and one renewal of the key's time to live. *)
Lemma announced state record p cs w r w' :
  announces state record w p -> run p cs w = Done r w' -> redis w' <> redis w -> (forall n, c_redis_ok (cs n) = true) ->
  exists fields, redis w' = redis w ++ [HSetMultiple (node_key record) fields; Expire (node_key record) 120] /\
    forall h, hset fields h !! "server" = Some (server_get_encoded (server state)).
Proof.
  intros Hp Hrun Hne Hok. destruct Hp as [|info stats sent_at Hinfo Hrec].
  - revert Hrun. unfold set_node_connected, update_node_stats, hset_with_ttl. cbn. rewrite !Hok. cbn. rewrite !Hok. cbn.
    intros [= _ <-]. cbn. rewrite <-app_assoc. eexists. split; [done|]. intros h. apply lookup_insert_eq.
  - revert Hrun. unfold handle_node_heartbeat. cbn -[get_extended_stats now_millis]. rewrite with_shared_id, Hinfo.
    cbn -[get_extended_stats now_millis]. destruct (send_in _ _ _ _) as [[b m]|]; cbn -[get_extended_stats now_millis]; [|done].
    destruct (get_extended_stats _ _ _) as [payload|e]; cbn; [|intros [= _ <-]; done].
    rewrite !Hok. cbn. rewrite !Hok. cbn. rewrite Hrec. intros [= _ <-]. cbn. rewrite <-app_assoc.
    eexists. split; [done|]. intros h. apply lookup_insert_eq.
Qed.
End finding.

(** C16. A node that a server has announced, when it connected or by a
    heartbeat, is found through the relay for the next two minutes, whatever
    Redis held before, unless its old entry runs out between the two commands
    of the announcement: a browser that asks for it by its id is forwarded to
    the address and the name of that very server, provided that no other hash
    is under a key for this id.  Without another announcement it is no longer
    found after that.  The server's record is read back from its JSON text. *)
Theorem relay_finds_node {DB}
    `{!UuidText, !UuidTextLaws, !JsonText, !JsonParse, !JsonLaws, !DateText, !RedisGlob, !RedisGlobLaws}
    `{!Redis DB, !RedisLaws DB} state record p cs w r w' :
  announces state record w p -> run p cs w = Done r w' -> redis w' <> redis w -> (forall n, c_redis_ok (cs n) = true) ->
  fits 128 (si_id (server state)) -> fits 16 (si_port (server state)) ->
  glob_plain (uuid_to_string (nr_id record)) = true ->
  exists write renewal, redis w' = redis w ++ [write; renewal] /\
    forall (db : DB) t1 t2 log now req cs' rw,
      t1 <= t2 <= now -> (forall d, redis_deadline db (node_key record) = Some d -> d <= t1 \/ t2 < d) ->
      Forall (fun e : SystemTime * RedisCmd => cmd_key e.2 <> node_key record) log ->
      (forall key, hashes rw !! key = redis_hash now (redis_run ((t1, write) :: (t2, renewal) :: log) db) key) ->
      (forall key, is_Some (hashes rw !! key) ->
         glob_match ("phirepass:users:*:nodes:" +:+ uuid_to_string (nr_id record)) key = true -> key = node_key record) ->
      (forall n, r_redis_ok (cs' n) = true) -> path req = "/api/web/ws" ->
      extract_protocols req = (Some (uuid_to_string (nr_id record)), None) ->
      run (proxy req) cs' rw =
        Done (if decide (now < t2 + seconds 120) then Ok (Some (peer_of (server state))) else Err "HTTPStatus(400)") rw.
Proof.
  intros Hp Hrun Hne Hok Hid Hport Hplain.
  destruct (announced state record p cs w r w' Hp Hrun Hne Hok) as (fields & Hlog & Hserver).
  eexists _, _. split; [exact Hlog|]. intros db t1 t2 log now req cs' rw Ht Hd Hothers Hrw Honly Hok' Hpath Hex.
  pose proof (hset_expire t1 t2 now (node_key record) fields 120 log db Ht ltac:(done) Hd Hothers) as Hhash.
  cbv zeta in Hhash. rewrite <-Hrw in Hhash. rewrite (proxy_ws_run _ _ _ _ _ Hpath Hex).
  destruct (upstream_scan_run (uuid_to_string (nr_id record)) cs' rw Hok') as (key & -> & Hkey).
  destruct (decide (now < _)).
  - destruct key as [key|].
    + destruct Hkey as [Hg Hk]. rewrite (Honly key Hk Hg). cbn -[server_at node_key hset]. unfold server_at.
      rewrite Hhash. cbn -[node_key hset]. rewrite Hserver. cbn. by rewrite server_roundtrip.
    + by destruct (Hkey (node_key record) ltac:(by rewrite Hhash) (node_key_found record Hplain)).
  - destruct key as [key|]; [|done]. destruct Hkey as [Hg Hk]. rewrite (Honly key Hk Hg), Hhash in Hk. by destruct Hk.
Qed.
