(* ===== verification/EdgeExample.v ===== *)
(** * The relay, a page and an address, on which their properties are evaluated *)

From S2P Require Import Prelude Async Mpsc RustStr Protocol Frame Token Externs JsonDe ServerState ServerDb.
From S2P Require Import Relay ClientIp IpText Channel.
Import Toy.

#[local] Arguments String.append : simpl nomatch.

(** ** The relay *)

(** A pattern's stars match anything; its other characters match themselves. *)
Fixpoint suffixes (s : string) : list string :=
  match s with EmptyString => [""] | String _ s' => s :: suffixes s' end.
Fixpoint toy_match (pattern key : string) : bool :=
  match pattern with
  | EmptyString => Str.is_empty key
  | String a p =>
      if bool_decide (a = "*"%char) then existsb (toy_match p) (suffixes key)
      else match key with String b k => Ascii.eqb a b && toy_match p k | EmptyString => false end
  end.
#[local] Instance toy_glob : RedisGlob := {| glob_match := toy_match |}.

Definition server1 : ServerIdentifier :=
  {| si_id := 99; si_private_ip := "10.0.0.1"; si_public_ip := "203.0.113.1"; si_port := 8080; si_fqdn := "s1" |}.
Definition hash (server : ServerIdentifier) : gmap string string := {[ "server" := server_get_encoded server ]}.
Definition relay0 : RelayWorld := {|
  hashes := {[ "phirepass:users:u1:nodes:n10" := hash server1 ]}; ready := true; responses := [] |}.
Definition relay_good : nat -> RelayChoice := fun _ => {| r_redis_ok := true; r_socket_ok := true; r_scan := [] |}.

Definition request (path protocols : string) : RequestHeader :=
  {| Relay.path := path; headers := {[ "sec-websocket-protocol" := Some protocols ]} |}.

(** The relay forwards to the server in the hash of node n10. *)
Lemma relay_upstream_spec_witness :
  exists r, run (proxy (request "/api/web/ws" "n10")) relay_good relay0 = Done r relay0 /\
    (forall p, r = Ok (Some p) -> exists key, glob_match "phirepass:users:*:nodes:n10" key = true /\
       peer_of <$> server_at key (hashes relay0) = Some p) /\
    ((forall key, glob_match "phirepass:users:*:nodes:n10" key = true -> server_at key (hashes relay0) = None) ->
     exists e, r = Err e).
Proof.
  apply (relay_upstream_spec (request "/api/web/ws" "n10") "n10" None relay_good relay0); vm_compute; reflexivity.
Defined.

Lemma relay_answers_witness :
  exists r status, run (proxy (request "/api/web/ws" " , ")) relay_good relay0 = Done r (respond status relay0) /\
    status = 400 /\ (r = Ok None <-> status <> 422).
Proof.
  apply (relay_answers (request "/api/web/ws" " , ") relay_good relay0); [done|by vm_compute].
Defined.

(** ** A page *)

#[local] Instance toy_web_socket : Channel.WebSocketApi :=
  {| Channel.constructs _ protocol := negb (Str.mem ","%char protocol) |}.
#[local] Instance toy_web_socket_laws : Channel.WebSocketLaws.
Proof. split. intros url protocol. apply negb_true_iff. Qed.

#[local] Instance toy_bindgen : Channel.WasmBindgen := {| Channel.serializes _ := true |}.

#[local] Instance web_serde : Serde WebFrameData.t := {|
  json_to_vec _ := Err "unsupported"; json_from_slice _ := Err "bad payload";
  rmp_to_vec _ := Ok [Byte.x01]; rmp_from_slice _ := Ok WebFrameData.Heartbeat |}.
#[local] Instance node_serde : Serde NodeFrameData.t := {|
  json_to_vec _ := Err "unsupported"; json_from_slice _ := Err "bad payload";
  rmp_to_vec _ := Ok [Byte.x02]; rmp_from_slice _ := Err "bad payload" |}.

Definition channel_of (server : option string) : Channel.Config :=
  {| Channel.endpoint := "wss://localhost"; Channel.node_id := "n10"; Channel.server_id := server |}.

Definition opened_page : Channel.Page := Channel.on_open 0 (Channel.connect (channel_of None) Channel.fresh_page).

Lemma opened_steps : rtc (Channel.page_step (channel_of None)) Channel.fresh_page opened_page.
Proof. eapply rtc_l; [apply Channel.step_connect|]. apply rtc_once, Channel.step_open. Qed.

Lemma opened_page_ok : Channel.page_ok opened_page.
Proof.
  eapply Channel.page_ok_step; [apply (Channel.step_open (channel_of None))|].
  eapply Channel.page_ok_step; [apply (Channel.step_connect (channel_of None))|].
  split; cbn; intros i; rewrite ?lookup_empty; try done; by intros ?%is_Some_None.
Qed.

Lemma page_invariant_witness :
  Channel.page_ok (Channel.start_heartbeat 0 opened_page) /\
  (size (Channel.intervals (Channel.start_heartbeat 0 opened_page)) <= 1)%nat /\
  (Channel.heartbeat (Channel.start_heartbeat 0 opened_page) = None ->
   Channel.intervals (Channel.start_heartbeat 0 opened_page) = ∅).
Proof.
  apply (Channel.page_invariant (channel_of None)). eapply rtc_r; [apply opened_steps|apply Channel.step_start_heartbeat].
Defined.

Lemma writes_only_when_open_witness :
  Channel.writes opened_page (Channel.send_frame_data WebFrameData.Heartbeat opened_page).
Proof. apply (Channel.writes_only_when_open (channel_of None)); [apply opened_page_ok|apply Channel.step_send]. Defined.

Lemma server_id_never_connects_witness :
  Channel.socket (Channel.connect (channel_of (Some "s1")) Channel.fresh_page) = None.
Proof.
  destruct (Channel.server_id_never_connects (channel_of (Some "s1")) "s1" eq_refl) as [Hc _]. by rewrite Hc.
Defined.

(** ** An address *)

Lemma ipv4_recognised_witness :
  parse_ip_token "203.0.113.1" = Some (V4 203 0 113 1) /\
  parse_ip_token "203.0.113.1:443" = Some (V4 203 0 113 1).
Proof. apply (ipv4_recognised 203 0 113 1 "443" 443); done || (vm_compute; reflexivity). Defined.

Lemma ip_text_roundtrip_witness :
  let ip := V6 [8193; 3512; 0; 0; 1; 0; 0; 1] in
  let headers : HeaderMap := {[ "forwarded" := Some "for=2001:db8::1:0:0:1" ]} in
  parse_with read_ip_addr (ip_to_string ip) = Some ip /\
  (header_text "x-forwarded-for" headers = Some (ip_to_string ip) -> resolve_client_ip headers (V4 0 0 0 0) = ip) /\
  (header_text "x-forwarded-for" headers = None -> header_text "forwarded" headers = Some ("for=" +:+ ip_to_string ip) ->
     resolve_client_ip headers (V4 0 0 0 0) = ip).
Proof. cbv zeta. apply ip_text_roundtrip. split; [done|]. repeat constructor; done. Defined.
