(* ===== verification/Stats.v ===== *)
(** * Process statistics: [common/src/stats.rs]

    What the agent's heartbeats carry.  The readings come from the operating
    system through libraries; the code's own part is a set of process-wide
    caches: the handle through which processes are read, the last statistics
    gathered, and two counts that are expensive to read and are kept for
    thirty and sixty seconds. *)

From S2P Require Import Prelude Async Protocol Externs.

(** An [Instant] is a number of nanoseconds; [elapsed] saturates at zero. *)
Abbreviation Instant := Z (only parsing).
Definition elapsed (now earlier : Instant) : Z := saturating_sub now earlier.

(** [Instant::now() - d] panics where the platform has no earlier instant. *)
Class Platform := { instant_min : Instant }.
Definition instant_sub `{Platform} (t d : Z) : call Instant :=
  if decide (instant_min <= t - d) then Returns (t - d) else Panics.

Definition SOCKETS_CACHE_TTL : Z := seconds 30.
Definition PROCESS_COUNT_TTL : Z := seconds 60.

Record ConnectionCache : Type := { cc_last_refresh : Instant; cc_value : Z }.
Record ProcessCountCache : Type := { pc_last_refresh : Instant; pc_total : Z }.
Record StatsCache : Type := {
  sc_stats : option Stats;
  sc_last_refresh : Instant;
  sc_refresh_start : Instant }.

(** The [OnceLock] statics; [None] before the first use.  Of the [System] in
    [SYS_INFO] only whether it is there matters. *)
Record Statics : Type := {
  SYS_INFO : option unit;
  HOST_IP : option string;
  HOST_MAC : option string;
  HOST_NAME : option string;
  HOST_OS_INFO : option string;
  CONNECTIONS_CACHE : option ConnectionCache;
  PROCESS_COUNT_CACHE : option ProcessCountCache;
  STATS_CACHE : option StatsCache }.

Definition statics0 : Statics :=
  {| SYS_INFO := None; HOST_IP := None; HOST_MAC := None; HOST_NAME := None; HOST_OS_INFO := None;
     CONNECTIONS_CACHE := None; PROCESS_COUNT_CACHE := None; STATS_CACHE := None |}.

Inductive once : Type := Once_HOST_IP | Once_HOST_MAC | Once_HOST_NAME | Once_HOST_OS_INFO.

Definition once_get (o : once) (s : Statics) : option string :=
  match o with
  | Once_HOST_IP => HOST_IP s | Once_HOST_MAC => HOST_MAC s
  | Once_HOST_NAME => HOST_NAME s | Once_HOST_OS_INFO => HOST_OS_INFO s
  end.

Definition once_set (o : once) (v : string) (s : Statics) : Statics :=
  {| SYS_INFO := SYS_INFO s; HOST_IP := match o with Once_HOST_IP => Some v | _ => HOST_IP s end;
     HOST_MAC := match o with Once_HOST_MAC => Some v | _ => HOST_MAC s end;
     HOST_NAME := match o with Once_HOST_NAME => Some v | _ => HOST_NAME s end;
     HOST_OS_INFO := match o with Once_HOST_OS_INFO => Some v | _ => HOST_OS_INFO s end;
     CONNECTIONS_CACHE := CONNECTIONS_CACHE s; PROCESS_COUNT_CACHE := PROCESS_COUNT_CACHE s;
     STATS_CACHE := STATS_CACHE s |}.

Definition set_sys_info (s : Statics) : Statics :=
  {| SYS_INFO := Some tt; HOST_IP := HOST_IP s; HOST_MAC := HOST_MAC s; HOST_NAME := HOST_NAME s;
     HOST_OS_INFO := HOST_OS_INFO s;
     CONNECTIONS_CACHE := CONNECTIONS_CACHE s; PROCESS_COUNT_CACHE := PROCESS_COUNT_CACHE s;
     STATS_CACHE := STATS_CACHE s |}.
Definition set_connections (c : ConnectionCache) (s : Statics) : Statics :=
  {| SYS_INFO := SYS_INFO s; HOST_IP := HOST_IP s; HOST_MAC := HOST_MAC s; HOST_NAME := HOST_NAME s;
     HOST_OS_INFO := HOST_OS_INFO s;
     CONNECTIONS_CACHE := Some c; PROCESS_COUNT_CACHE := PROCESS_COUNT_CACHE s; STATS_CACHE := STATS_CACHE s |}.
Definition set_process_count (c : ProcessCountCache) (s : Statics) : Statics :=
  {| SYS_INFO := SYS_INFO s; HOST_IP := HOST_IP s; HOST_MAC := HOST_MAC s; HOST_NAME := HOST_NAME s;
     HOST_OS_INFO := HOST_OS_INFO s;
     CONNECTIONS_CACHE := CONNECTIONS_CACHE s; PROCESS_COUNT_CACHE := Some c; STATS_CACHE := STATS_CACHE s |}.
Definition set_stats (c : StatsCache) (s : Statics) : Statics :=
  {| SYS_INFO := SYS_INFO s; HOST_IP := HOST_IP s; HOST_MAC := HOST_MAC s; HOST_NAME := HOST_NAME s;
     HOST_OS_INFO := HOST_OS_INFO s;
     CONNECTIONS_CACHE := CONNECTIONS_CACHE s; PROCESS_COUNT_CACHE := PROCESS_COUNT_CACHE s; STATS_CACHE := Some c |}.

(** ** The world

    The monotonic clock, the statics, and three logs, latest first: every
    attempt to enumerate the sockets and its outcome, every enumeration of the
    processes for their count, and every one that [System::new_all] makes when
    it builds its handle. *)

Record StatsWorld : Type := {
  clock : Instant;
  statics : Statics;
  socket_log : list (Instant * result string Z);
  process_log : list (Instant * Z);
  system_log : list Instant }.

Inductive IfAddr : Type := V4 (ip : string) | V6 (ip : string).
Record Interface : Type := { is_loopback : bool; addr : IfAddr }.

(** The status of a process, as far as the code distinguishes. *)
Inductive ProcessStatus : Type := Run | OtherStatus.
#[global] Instance ProcessStatus_eq : EqDecision ProcessStatus.
Proof. solve_decision. Defined.

Record ProcessInfo : Type := { cpu_usage : Z; memory : Z; run_time : Z }.

(** The answers of the environment to one effect. *)
Record Readings : Type := {
  r_now : Instant;
  r_lock : bool;                           (* the mutex is not poisoned *)
  r_pid : option Z;
  r_process : option ProcessInfo;
  r_threads : option Z;
  r_text : option string;
  r_os : string;
  r_mac : result string (option string);
  r_sockets : result string Z;
  r_interfaces : option (list Interface);
  r_load : Z * (Z * Z * Z);
  r_statuses : list ProcessStatus;
  r_number : Z }.

Inductive mutex : Type := SYSTEM | CONNECTIONS | PROCESS_COUNT | STATS.

Inductive statsE : Type -> Type :=
| InstantNow : statsE Instant
| Lock (m : mutex) : statsE bool
| Static {A : Type} (f : Statics -> A * Statics) : statsE A
| SystemNewAll : statsE unit
| SysRefresh : statsE unit                 (* [sys.refresh_..] *)
| GetCurrentPid : statsE (option Z)
| Process (pid : Z) : statsE (option ProcessInfo)
| ThreadCount : statsE (option Z)
| EnvHostname : statsE (option string)
| SystemHostName : statsE (option string)
| OsInfo : statsE string
| GetLoadAvg : statsE (Z * (Z * Z * Z))
| GetMacAddress : statsE (result string (option string))
| GetIfAddrs : statsE (option (list Interface))
| GetSocketsInfo : statsE (result string Z)
| ProcessStatuses : statsE (list ProcessStatus)
| SystemNumber (what : string) : statsE Z. (* cpu usage, memory, uptime *)

(** Time passes between effects and never goes back. *)
Definition tick (c : Readings) (w : StatsWorld) : StatsWorld :=
  {| clock := Z.max (clock w) (r_now c); statics := statics w;
     socket_log := socket_log w; process_log := process_log w;
     system_log := system_log w |}.

Definition with_statics (s : Statics) (w : StatsWorld) : StatsWorld :=
  {| clock := clock w; statics := s; socket_log := socket_log w; process_log := process_log w;
     system_log := system_log w |}.

Definition log_sockets (r : result string Z) (w : StatsWorld) : StatsWorld :=
  {| clock := clock w; statics := statics w; socket_log := (clock w, r) :: socket_log w;
     process_log := process_log w; system_log := system_log w |}.

Definition log_processes (n : Z) (w : StatsWorld) : StatsWorld :=
  {| clock := clock w; statics := statics w; socket_log := socket_log w;
     process_log := (clock w, n) :: process_log w; system_log := system_log w |}.

Definition log_system (w : StatsWorld) : StatsWorld :=
  {| clock := clock w; statics := statics w; socket_log := socket_log w;
     process_log := process_log w; system_log := clock w :: system_log w |}.

Definition count_running (l : list ProcessStatus) : Z := Z.of_nat (length (filter (fun p => p = Run) l)).

Definition stats_exec {R} (e : statsE R) : Readings -> StatsWorld -> option (R * StatsWorld) :=
  match e in statsE R return Readings -> StatsWorld -> option (R * StatsWorld) with
  | InstantNow => fun c w => let w := tick c w in Some (clock w, w)
  | Lock _ => fun c w => Some (r_lock c, tick c w)
  | Static f => fun c w => let w := tick c w in let '(a, s) := f (statics w) in Some (a, with_statics s w)
  | SystemNewAll => fun c w => Some (tt, log_system (tick c w))
  | SysRefresh => fun c w => Some (tt, tick c w)
  | GetCurrentPid => fun c w => Some (r_pid c, tick c w)
  | Process _ => fun c w => Some (r_process c, tick c w)
  | ThreadCount => fun c w => Some (r_threads c, tick c w)
  | EnvHostname | SystemHostName => fun c w => Some (r_text c, tick c w)
  | OsInfo => fun c w => Some (r_os c, tick c w)
  | GetLoadAvg => fun c w => Some (r_load c, tick c w)
  | GetMacAddress => fun c w => Some (r_mac c, tick c w)
  | GetIfAddrs => fun c w => Some (r_interfaces c, tick c w)
  | GetSocketsInfo => fun c w =>
      Some (r_sockets c, log_sockets (r_sockets c) (tick c w))
  | ProcessStatuses => fun c w =>
      Some (r_statuses c, log_processes (count_running (r_statuses c)) (tick c w))
  | SystemNumber _ => fun c w => Some (r_number c, tick c w)
  end.

#[global] Instance stats_handler : Handler statsE StatsWorld Readings := @stats_exec.

Abbreviation stats_task := (prog statsE).

Section stats.
Context `{!Platform}.

Definition reading {A} (f : Statics -> A) : stats_task A := perform (Static (fun s => (f s, s))).
Definition updating (f : Statics -> Statics) : stats_task unit := perform (Static (fun s => (tt, f s))).

(** [CELL.get_or_init(init).clone()] *)
Definition get_or_init (o : once) (init : stats_task string) : stats_task string :=
  v ← reading (once_get o);
  match v with
  | Some v => Ret v
  | None => v ← init; updating (once_set o v);; Ret v
  end.

Definition STATS_CACHE_get_or_init : stats_task unit :=
  cell ← reading STATS_CACHE;
  match cell with
  | Some _ => Ret tt
  | None =>
      last_refresh ← perform InstantNow;
      refresh_start ← perform InstantNow;
      updating (set_stats {| sc_stats := None; sc_last_refresh := last_refresh; sc_refresh_start := refresh_start |})
  end.

Definition with_last_refreshed_secs (n : Z) (s : Stats) : Stats :=
  {| last_refreshed_secs := n; proc_id := proc_id s; proc_threads := proc_threads s; proc_cpu := proc_cpu s;
     proc_mem_bytes := proc_mem_bytes s; proc_uptime_secs := proc_uptime_secs s; host_name := host_name s;
     host_ip := host_ip s; host_mac := host_mac s; host_cpu := host_cpu s;
     host_mem_used_bytes := host_mem_used_bytes s; host_mem_total_bytes := host_mem_total_bytes s;
     host_uptime_secs := host_uptime_secs s; host_load_average := host_load_average s;
     host_os_info := host_os_info s; host_connections := host_connections s;
     host_processes := host_processes s |}.

(** The handlers hold the mutex from [Lock] to their end. *)
Definition get : stats_task (option Stats) :=
  STATS_CACHE_get_or_init;;
  locked ← perform (Lock STATS);
  if locked : bool then
    cache ← reading STATS_CACHE;
    match cache ≫= sc_stats, cache with
    | Some stats, Some cache =>
        now ← perform InstantNow;
        Ret (Some (with_last_refreshed_secs (as_secs (elapsed now (sc_last_refresh cache))) stats))
    | _, _ => Ret None
    end
  else Ret None.

Definition mac : stats_task string :=
  get_or_init Once_HOST_MAC
    (mac ← perform GetMacAddress;
     Ret (match mac with Ok (Some addr) => addr | Ok None => "unknown" | Err _ => "unknown" end)).

Fixpoint first_address (interfaces : list Interface) : string :=
  match interfaces with
  | [] => "unknown"
  | interface :: interfaces =>
      if is_loopback interface then first_address interfaces
      else match addr interface with V4 ip => ip | V6 ip => ip end
  end.

Definition resolve_host_ip : stats_task string :=
  interfaces ← perform GetIfAddrs;
  Ret (match interfaces with Some interfaces => first_address interfaces | None => "unknown" end).

Definition CONNECTIONS_CACHE_get_or_init : stats_task unit :=
  cell ← reading CONNECTIONS_CACHE;
  match cell with
  | Some _ => Ret tt
  | None =>
      now ← perform InstantNow;
      last_refresh ← lift_call (instant_sub now SOCKETS_CACHE_TTL);
      updating (set_connections {| cc_last_refresh := last_refresh; cc_value := 0 |})
  end.

Definition connections : stats_task (result string Z) :=
  CONNECTIONS_CACHE_get_or_init;;
  locked ← perform (Lock CONNECTIONS);
  if locked : bool then
    cell ← reading CONNECTIONS_CACHE;
    match cell with
    | None => Panic
    | Some cache =>
        now ← perform InstantNow;
        if elapsed now (cc_last_refresh cache) <? SOCKETS_CACHE_TTL then Ret (Ok (cc_value cache))
        else
          sockets ←? perform GetSocketsInfo;
          now ← perform InstantNow;
          updating (set_connections {| cc_last_refresh := now; cc_value := sockets |});;
          Ret (Ok sockets)
    end
  else Ret (Err "poisoned lock: another task failed inside").

Definition PROCESS_COUNT_CACHE_get_or_init : stats_task unit :=
  cell ← reading PROCESS_COUNT_CACHE;
  match cell with
  | Some _ => Ret tt
  | None =>
      now ← perform InstantNow;
      last_refresh ← lift_call (instant_sub now PROCESS_COUNT_TTL);
      updating (set_process_count {| pc_last_refresh := last_refresh; pc_total := 0 |})
  end.

Definition process_count : stats_task Z :=
  PROCESS_COUNT_CACHE_get_or_init;;
  locked ← perform (Lock PROCESS_COUNT);
  if locked : bool then
    cell ← reading PROCESS_COUNT_CACHE;
    match cell with
    | None => Panic
    | Some cache =>
        now ← perform InstantNow;
        if elapsed now (pc_last_refresh cache) <? PROCESS_COUNT_TTL then Ret (pc_total cache)
        else
          perform SysRefresh;;
          processes ← perform ProcessStatuses;
          let total := count_running processes in
          now ← perform InstantNow;
          updating (set_process_count {| pc_last_refresh := now; pc_total := total |});;
          Ret total
    end
  else Ret 0.

Definition loadavg : stats_task (Z * Z * Z) :=
  r ← perform GetLoadAvg;
  Ret (if r.1 =? 3 then r.2 else (0, 0, 0)).

Definition unwrap_or {A} (d : A) (o : option A) : A := match o with Some a => a | None => d end.

(** [SYS_INFO.get_or_init(|| Mutex::new(System::new_all()))] *)
Definition SYS_INFO_get_or_init : stats_task unit :=
  cell ← reading SYS_INFO;
  match cell with
  | Some _ => Ret tt
  | None => perform SystemNewAll;; updating set_sys_info
  end.

Definition gather : stats_task (option Stats) :=
  SYS_INFO_get_or_init;;
  locked ← perform (Lock SYSTEM);
  if locked : bool then
    perform SysRefresh;;
    pid ← perform GetCurrentPid;
    match pid with
    | None => Ret None
    | Some pid =>
        perform SysRefresh;;
        proc ← perform (Process pid);
        match proc with
        | None => Ret None
        | Some proc =>
            threads ← perform ThreadCount;
            hostname ← get_or_init Once_HOST_NAME
              (env ← perform EnvHostname;
               match env with
               | Some name => Ret name
               | None => name ← perform SystemHostName; Ret (unwrap_or "unknown" name)
               end);
            ip ← get_or_init Once_HOST_IP resolve_host_ip;
            os ← get_or_init Once_HOST_OS_INFO (perform OsInfo);
            load ← loadavg;
            conns ← connections;
            mac ← mac;
            procs ← process_count;
            cpu ← perform (SystemNumber "global_cpu_usage");
            used ← perform (SystemNumber "used_memory");
            total ← perform (SystemNumber "total_memory");
            uptime ← perform (SystemNumber "uptime");
            Ret (Some
              {| last_refreshed_secs := 0; proc_id := pretty pid; proc_threads := unwrap_or 0 threads;
                 proc_cpu := cpu_usage proc; proc_mem_bytes := memory proc; proc_uptime_secs := run_time proc;
                 host_name := hostname; host_ip := ip; host_mac := mac; host_cpu := cpu;
                 host_mem_used_bytes := used; host_mem_total_bytes := total; host_uptime_secs := uptime;
                 host_load_average := load; host_os_info := os;
                 host_connections := match conns with Ok n => n | Err _ => 0 end; host_processes := procs |})
        end
    end
  else Ret None.

Definition refresh : stats_task (option Stats) :=
  refresh_start ← perform InstantNow;
  stats ← gather;
  match stats with
  | None => Ret None
  | Some stats =>
      STATS_CACHE_get_or_init;;
      locked ← perform (Lock STATS);
      if locked : bool then
        let stats := with_last_refreshed_secs 0 stats in
        now ← perform InstantNow;
        updating (set_stats {| sc_stats := Some stats; sc_last_refresh := now; sc_refresh_start := refresh_start |});;
        Ret (Some stats)
      else Ret (Some stats)
  end.
End stats.

(** ** Steps that leave the caches alone *)

Definition later (w w' : StatsWorld) : Prop :=
  clock w <= clock w' /\ socket_log w' = socket_log w /\ process_log w' = process_log w /\
  CONNECTIONS_CACHE (statics w') = CONNECTIONS_CACHE (statics w) /\
  PROCESS_COUNT_CACHE (statics w') = PROCESS_COUNT_CACHE (statics w) /\
  STATS_CACHE (statics w') = STATS_CACHE (statics w) /\
  SYS_INFO (statics w') = SYS_INFO (statics w) /\ system_log w' = system_log w.

#[global] Instance later_preorder : PreOrder later.
Proof.
  split; [done|]. unfold later. intros w1 w2 w3 ? ?. destruct_and!. repeat split; first [lia|congruence].
Qed.

Lemma later_tick c w : later w (tick c w).
Proof. split; [cbn; lia|done]. Qed.

Definition calm {A} (p : stats_task A) : Prop := forall w, wp p (fun _ w' => later w w') w.

Lemma calm_ret {A} (a : A) : calm (Ret a).
Proof. by intros w. Qed.

Lemma calm_bind {A B} (p : stats_task A) (f : A -> stats_task B) :
  calm p -> (forall a, calm (f a)) -> calm (p ≫= f).
Proof.
  intros Hp Hf w. apply wp_bind. eapply wp_mono, Hp. intros a w1 H1. cbn.
  eapply wp_mono, Hf. intros b w2 H2. by transitivity w1.
Qed.

Lemma calm_perform {R} (e : statsE R) :
  (forall c w r w', exec e c w = Some (r, w') -> later w w') -> calm (perform e).
Proof. intros He w. apply wp_perform. eauto. Qed.

Lemma wp_calm_bind {A B} (p : stats_task A) (f : A -> stats_task B) Q w :
  calm p -> (forall a w', later w w' -> wp (f a) Q w') -> wp (p ≫= f) Q w.
Proof. intros Hp Hf. apply wp_bind. eapply wp_mono; [|apply Hp]. intros a w' Hw. by apply Hf. Qed.

Lemma calm_once o v : calm (updating (once_set o v)).
Proof. apply calm_perform. intros c w r w' [= <- <-]. split; [cbn; lia|done]. Qed.

Lemma calm_reading {A} (f : Statics -> A) : calm (reading f).
Proof. apply calm_perform. intros c w r w' [= <- <-]. split; [cbn; lia|done]. Qed.

Lemma wp_static {A B} (f : Statics -> A) (k : A -> stats_task B) Q w :
  (forall w', later w w' -> wp (k (f (statics w'))) Q w') -> wp (reading f ≫= k) Q w.
Proof. intros Hk c r w' [= <- <-]. exact (Hk _ (later_tick c w)). Qed.

Lemma wp_now {B} (k : Instant -> stats_task B) Q w :
  (forall w', later w w' -> wp (k (clock w')) Q w') -> wp (perform InstantNow ≫= k) Q w.
Proof. intros Hk c r w' [= <- <-]. exact (Hk _ (later_tick c w)). Qed.

Lemma wp_lock {B} m (k : bool -> stats_task B) Q w :
  (forall b w', later w w' -> wp (k b) Q w') -> wp (perform (Lock m) ≫= k) Q w.
Proof. intros Hk c r w' [= <- <-]. exact (Hk _ _ (later_tick c w)). Qed.

Lemma wp_updating (f : Statics -> Statics) (Q : unit -> StatsWorld -> Prop) w :
  (forall w', later w w' -> Q tt (with_statics (f (statics w')) w')) -> wp (updating f) Q w.
Proof. intros Hk c r w' [= <- <-]. exact (Hk _ (later_tick c w)). Qed.

(** Effects whose answer is a reading and nothing else. *)
Ltac calm_effect := apply calm_perform; intros ? ? ? ? [= <- <-]; apply later_tick.

Lemma calm_get_or_init o init : calm init -> calm (get_or_init o init).
Proof.
  intros Hi. apply calm_bind; [apply calm_reading|]. intros [v|]; [apply calm_ret|].
  apply calm_bind; [done|]. intros v. apply calm_bind; [apply calm_once|]. intros _. apply calm_ret.
Qed.

Lemma calm_resolve_host_ip : calm resolve_host_ip.
Proof. apply calm_bind; [calm_effect|]. intros r. apply calm_ret. Qed.

Lemma calm_mac : calm mac.
Proof. apply calm_get_or_init, calm_bind; [calm_effect|]. intros r. apply calm_ret. Qed.

Lemma calm_loadavg : calm loadavg.
Proof. apply calm_bind; [calm_effect|]. intros r. apply calm_ret. Qed.

Lemma calm_hostname :
  calm (env ← perform EnvHostname;
         match env with
         | Some name => Ret name
         | None => name ← perform SystemHostName; Ret (unwrap_or "unknown" name)
         end).
Proof.
  apply calm_bind; [calm_effect|]. intros [name|]; [apply calm_ret|].
  apply calm_bind; [calm_effect|]. intros r. apply calm_ret.
Qed.

(** ** The two counts *)

(** A log of enumerations, latest first; [value] is what one of them found,
    [None] when it failed.  After a successful one there is no other attempt,
    successful or not, for at least [ttl]. *)
Definition spaced {A} (value : A -> option Z) (ttl : Z) (log : list (Instant * A)) : Prop :=
  forall i j new old, (i < j)%nat -> log !! i = Some new -> log !! j = Some old -> is_Some (value old.2) ->
    old.1 + ttl <= new.1.

Definition successes {A} (value : A -> option Z) (log : list (Instant * A)) : list (Instant * Z) :=
  omap (fun e => pair e.1 <$> value e.2) log.

(** A cell holds the latest successful entry of its log, refreshed after it
    was read; before the first one it is already out of date. *)
Definition backed {A} (value : A -> option Z) (ttl now : Z) (cell : option (Instant * Z)) (log : list (Instant * A)) : Prop :=
  spaced value ttl log /\
  match cell with
  | None => log = []
  | Some (refreshed, v) =>
      Forall (fun s => s.1 <= refreshed) (successes value log) /\
      match successes value log with
      | [] => refreshed + ttl <= now
      | (_, n) :: _ => refreshed <= now /\ v = n
      end
  end.

Lemma backed_later {A} (value : A -> option Z) ttl now now' cell log :
  now <= now' -> backed value ttl now cell log -> backed value ttl now' cell log.
Proof.
  intros Hle [Hs Hc]. split; [done|]. destruct cell as [[r v]|]; [|done]. destruct Hc as [Hall Hc].
  split; [done|]. destruct (successes value log) as [|[t n] l]; [lia|]. destruct Hc. split; [lia|done].
Qed.

Lemma backed_init {A} (value : A -> option Z) ttl now now' :
  0 <= ttl -> now <= now' -> backed value ttl now' (Some (now - ttl, 0)) [].
Proof. intros ? ?. split; [by intros i j ? ? ? ?|]. split; [constructor|cbn; lia]. Qed.

Lemma elem_of_successes {A} (value : A -> option Z) log t n :
  (t, n) ∈ successes value log <-> exists a, (t, a) ∈ log /\ value a = Some n.
Proof.
  unfold successes. rewrite list_elem_of_omap. split.
  - intros ([t' a] & Hin & (? & ? & [= <- <-])%fmap_Some). by exists a.
  - intros (a & Hin & Ha). exists (t, a). split; [done|]. cbn. by rewrite Ha.
Qed.

(** Within the time to live the cell's value is the latest that was found. *)
Lemma backed_hit {A} (value : A -> option Z) ttl now at_ r v log :
  backed value ttl at_ (Some (r, v)) log -> at_ <= now -> elapsed now r < ttl ->
  exists t a, (t, a) ∈ log /\ value a = Some v.
Proof.
  intros [_ [_ Hc]] Hle Hlt. unfold elapsed, saturating_sub in Hlt.
  destruct (successes value log) as [|[t n] l] eqn:Hlog; [lia|]. destruct Hc as [_ ->].
  exists t. apply elem_of_successes. rewrite Hlog. left.
Qed.

(** After it a new attempt keeps the distance; when it finds a value that
    makes the next cell, and when it fails the cell stays. *)
Lemma backed_miss {A} (value : A -> option Z) ttl at_ now t now' r v a log :
  backed value ttl at_ (Some (r, v)) log -> at_ <= now -> 0 <= ttl -> ttl <= elapsed now r -> now <= t -> t <= now' ->
  backed value ttl now' (Some (match value a with Some n => (now', n) | None => (r, v) end)) ((t, a) :: log).
Proof.
  intros [Hs [Hall Hc]] Hle H0 Hmiss H1 H2. unfold elapsed, saturating_sub in Hmiss.
  assert (successes value log = [] \/ r + ttl <= t) as Hdue.
  { destruct (successes value log) as [|[t0 n0] l]; [by left|]. destruct Hc as [? _]. right. lia. }
  split.
  - intros [|i] [|j] new old Hij; try lia; cbn; [|apply Hs; lia].
    intros [= <-] Hold%list_elem_of_lookup_2 [n Hn]. destruct old as [t0 a0]. cbn in *.
    assert ((t0, n) ∈ successes value log) as Hin by (apply elem_of_successes; by exists a0).
    destruct Hdue as [Hnone|Hdue]; [rewrite Hnone in Hin; by apply not_elem_of_nil in Hin|].
    rewrite Forall_forall in Hall. specialize (Hall _ Hin). cbn in Hall. lia.
  - assert (successes value ((t, a) :: log) =
      match value a with Some n => (t, n) :: successes value log | None => successes value log end) as ->.
    { unfold successes. cbn. by destruct (value a). }
    destruct (value a) as [n|].
    + split; [|lia]. constructor; [done|]. destruct (successes value log) as [|[t0 n0] l]; [constructor|].
      eapply Forall_impl; [exact Hall|]. cbn. lia.
    + split; [done|]. destruct (successes value log) as [|[t0 n0] l]; [lia|]. destruct Hc as [? ->]. split; [lia|done].
Qed.

(** The socket enumerations that found something, and the processes', which
    never fail. *)
Definition sockets_found (r : result string Z) : option Z := match r with Ok n => Some n | Err _ => None end.
Definition processes_found (n : Z) : option Z := Some n.

(** The handle is built once, which enumerates the processes, and before they
    are counted. *)
Definition started_once (handle : option unit) (now : Z) (built : list Instant) (log : list (Instant * Z)) : Prop :=
  match handle with
  | None => built = [] /\ log = []
  | Some _ => exists t, built = [t] /\ t <= now /\ Forall (fun e => t <= e.1) log
  end.

Lemma started_once_later handle now now' built log :
  now <= now' -> started_once handle now built log -> started_once handle now' built log.
Proof. intros Hle. destruct handle; cbn; [|done]. intros (t & -> & ? & ?). exists t. split; [done|]. split; [lia|done]. Qed.

Definition connections_cell (s : Statics) : option (Instant * Z) :=
  (fun c => (cc_last_refresh c, cc_value c)) <$> CONNECTIONS_CACHE s.
Definition processes_cell (s : Statics) : option (Instant * Z) :=
  (fun c => (pc_last_refresh c, pc_total c)) <$> PROCESS_COUNT_CACHE s.

(** Statistics whose counts are zero or were read from the system. *)
Definition counts_read (w : StatsWorld) (s : Stats) : Prop :=
  (host_connections s = 0 \/ exists t, (t, Ok (host_connections s)) ∈ socket_log w) /\
  (host_processes s = 0 \/ exists t, (t, host_processes s) ∈ process_log w).

Record stats_ok `{!Platform} (w : StatsWorld) : Prop := {
  ok_clock : instant_min + PROCESS_COUNT_TTL <= clock w;
  ok_sockets : backed sockets_found SOCKETS_CACHE_TTL (clock w) (connections_cell (statics w)) (socket_log w);
  ok_processes : backed processes_found PROCESS_COUNT_TTL (clock w) (processes_cell (statics w)) (process_log w);
  ok_system : started_once (SYS_INFO (statics w)) (clock w) (system_log w) (process_log w);
  ok_cached c s : STATS_CACHE (statics w) = Some c -> sc_stats c = Some s -> counts_read w s }.

Lemma counts_read_grow w w' s :
  socket_log w ⊆ socket_log w' -> process_log w ⊆ process_log w' -> counts_read w s -> counts_read w' s.
Proof. intros H1 H2 [[?|[t ?]] [?|[t' ?]]]; split; eauto 6. Qed.

Lemma stats_ok_later `{!Platform} w w' : later w w' -> stats_ok w -> stats_ok w'.
Proof.
  intros (Hc & Hs & Hp & Hcc & Hpc & Hsc & Hsys & Hbuilt) [Hk Hb1 Hb2 Hb3 Hst]. split; [lia|..].
  - unfold connections_cell. rewrite Hs, Hcc. by eapply backed_later.
  - unfold processes_cell. rewrite Hp, Hpc. by eapply backed_later.
  - rewrite Hsys, Hbuilt, Hp. by eapply started_once_later.
  - intros c s. rewrite Hsc. intros H1 H2. eapply counts_read_grow, Hst; [by rewrite Hs|by rewrite Hp|done..].
Qed.

(** What a step may change besides the cells of the counts. *)
Definition grows (w w' : StatsWorld) : Prop :=
  socket_log w ⊆ socket_log w' /\ process_log w ⊆ process_log w' /\
  STATS_CACHE (statics w') = STATS_CACHE (statics w) /\
  (is_Some (SYS_INFO (statics w)) -> is_Some (SYS_INFO (statics w'))).

#[global] Instance grows_preorder : PreOrder grows.
Proof.
  split; [done|]. unfold grows. intros w1 w2 w3 (? & ? & ? & ?) (? & ? & ? & ?).
  split; [by transitivity (socket_log w2)|]. split; [by transitivity (process_log w2)|]. split; [congruence|auto].
Qed.

Lemma later_grows w w' : later w w' -> grows w w'.
Proof. intros (_ & Hs & Hp & _ & _ & Hsc & Hsys & _). unfold grows. by rewrite Hs, Hp, Hsc, Hsys. Qed.

Section counts.
Context `{!Platform}.

(** A step that refreshes the cell of the sockets, or of the processes. *)
Lemma stats_ok_sockets w w' :
  stats_ok w -> clock w <= clock w' -> grows w w' -> process_log w' = process_log w ->
  PROCESS_COUNT_CACHE (statics w') = PROCESS_COUNT_CACHE (statics w) ->
  SYS_INFO (statics w') = SYS_INFO (statics w) -> system_log w' = system_log w ->
  backed sockets_found SOCKETS_CACHE_TTL (clock w') (connections_cell (statics w')) (socket_log w') -> stats_ok w'.
Proof.
  intros [Hk _ Hb Hone Hst] Hc Hg Hl Hp Hsys Hbuilt Hb'. split; [lia|done|..].
  - unfold processes_cell. rewrite Hp, Hl. by eapply backed_later.
  - rewrite Hsys, Hbuilt, Hl. by eapply started_once_later.
  - destruct Hg as (? & ? & -> & _). intros c s ? ?. eapply counts_read_grow, Hst; eauto.
Qed.

Lemma stats_ok_processes w w' :
  stats_ok w -> clock w <= clock w' -> grows w w' -> socket_log w' = socket_log w ->
  CONNECTIONS_CACHE (statics w') = CONNECTIONS_CACHE (statics w) ->
  started_once (SYS_INFO (statics w')) (clock w') (system_log w') (process_log w') ->
  backed processes_found PROCESS_COUNT_TTL (clock w') (processes_cell (statics w')) (process_log w') -> stats_ok w'.
Proof.
  intros [Hk Hb _ _ Hst] Hc Hg Hl Hp Hone Hb'. split; [lia| |done|done|].
  - unfold connections_cell. rewrite Hp, Hl. by eapply backed_later.
  - destruct Hg as (? & ? & -> & _). intros c s ? ?. eapply counts_read_grow, Hst; eauto.
Qed.

(** What a run of the caches' code guarantees, step after step. *)
Definition ok_from (w w' : StatsWorld) : Prop := stats_ok w' /\ grows w w'.

Lemma ok_from_refl w : stats_ok w -> ok_from w w.
Proof. done. Qed.

Lemma ok_from_later w w1 w2 : ok_from w w1 -> later w1 w2 -> ok_from w w2.
Proof.
  intros [Hw1 Hg] Hl. split; [by eapply stats_ok_later|]. transitivity w1; [done|by apply later_grows].
Qed.

Lemma connections_init_ok w :
  stats_ok w ->
  wp CONNECTIONS_CACHE_get_or_init
    (fun _ w' => ok_from w w' /\ is_Some (CONNECTIONS_CACHE (statics w'))) w.
Proof.
  intros Hw%ok_from_refl. apply wp_static. intros w1 H1. pose proof (ok_from_later _ _ _ Hw H1) as Hw1.
  destruct (CONNECTIONS_CACHE (statics w1)) eqn:Hc; [split; [done|by rewrite Hc]|].
  apply wp_now. intros w2 H2. pose proof (ok_from_later _ _ _ Hw1 H2) as Hw2.
  pose proof (ok_clock _ (proj1 Hw2)) as Hk. unfold instant_sub. rewrite decide_True.
  2:{ unfold SOCKETS_CACHE_TTL, PROCESS_COUNT_TTL, seconds, NANOS in *. lia. }
  apply wp_updating. intros w3 H3. destruct (ok_from_later _ _ _ Hw2 H3) as [Hw3 Hg].
  split; [split; [|exact Hg]|by eexists].
  apply (stats_ok_sockets w3); [done|cbn; lia|done..|]. destruct (ok_sockets _ Hw3) as [_ Hcell].
  unfold connections_cell in *. destruct H2 as (_ & _ & _ & Hc2 & _), H3 as (Hle & _ & _ & Hc3 & _).
  rewrite Hc3, Hc2, Hc in Hcell. cbn in *. rewrite Hcell. by apply backed_init.
Qed.

Lemma processes_init_ok w :
  stats_ok w ->
  wp PROCESS_COUNT_CACHE_get_or_init
    (fun _ w' => ok_from w w' /\ is_Some (PROCESS_COUNT_CACHE (statics w'))) w.
Proof.
  intros Hw%ok_from_refl. apply wp_static. intros w1 H1. pose proof (ok_from_later _ _ _ Hw H1) as Hw1.
  destruct (PROCESS_COUNT_CACHE (statics w1)) eqn:Hc; [split; [done|by rewrite Hc]|].
  apply wp_now. intros w2 H2. pose proof (ok_from_later _ _ _ Hw1 H2) as Hw2.
  pose proof (ok_clock _ (proj1 Hw2)) as Hk. unfold instant_sub. rewrite decide_True by lia.
  apply wp_updating. intros w3 H3. destruct (ok_from_later _ _ _ Hw2 H3) as [Hw3 Hg].
  split; [split; [|exact Hg]|by eexists].
  apply (stats_ok_processes w3); [done|cbn; lia|done|done|done|exact (ok_system _ Hw3)|]. destruct (ok_processes _ Hw3) as [_ Hcell].
  unfold processes_cell in *. destruct H2 as (_ & _ & _ & _ & Hc2 & _), H3 as (Hle & _ & _ & _ & Hc3 & _).
  rewrite Hc3, Hc2, Hc in Hcell. cbn in *. rewrite Hcell. by apply backed_init.
Qed.

(** A new attempt makes the next cell, or leaves it when it fails. *)
Lemma sockets_tried w3 w4 w6 c cache :
  stats_ok w3 -> CONNECTIONS_CACHE (statics w3) = Some cache -> later w3 w4 ->
  SOCKETS_CACHE_TTL <= elapsed (clock w4) (cc_last_refresh cache) ->
  later (log_sockets (r_sockets c) (tick c w4)) w6 ->
  backed sockets_found SOCKETS_CACHE_TTL (clock w6)
    (Some (match sockets_found (r_sockets c) with
           | Some n => (clock w6, n) | None => (cc_last_refresh cache, cc_value cache) end)) (socket_log w6).
Proof.
  intros Hw3 Hc (Hle4 & Hs4 & _) Hge (Hle6 & -> & _). cbn in *. rewrite Hs4.
  pose proof (ok_sockets _ Hw3) as Hb. unfold connections_cell in Hb. rewrite Hc in Hb.
  eapply backed_miss; [exact Hb|exact Hle4|done|done|lia|lia].
Qed.

Lemma grows_sockets r c w w' : later (log_sockets r (tick c w)) w' -> grows w w'.
Proof.
  intros (_ & Hs & Hp & _ & _ & Hst & Hsys & _). unfold grows. rewrite Hs, Hp, Hst, Hsys. split; [|done]. intros x Hx. by right.
Qed.

Lemma sockets_refreshed w3 w4 w6 w7 cache c n :
  stats_ok w3 -> CONNECTIONS_CACHE (statics w3) = Some cache -> later w3 w4 -> stats_ok w4 ->
  SOCKETS_CACHE_TTL <= elapsed (clock w4) (cc_last_refresh cache) -> r_sockets c = Ok n ->
  later (log_sockets (Ok n) (tick c w4)) w6 -> later w6 w7 ->
  let w8 := with_statics (set_connections {| cc_last_refresh := clock w6; cc_value := n |} (statics w7)) w7 in
  ok_from w4 w8 /\ exists t, (t, Ok n) ∈ socket_log w8.
Proof.
  intros Hw3 Hc H4 Hw4 Hge Hr H6 H7 w8. rewrite <-Hr in H6. pose proof (sockets_tried _ _ _ _ _ Hw3 Hc H4 Hge H6) as Hb.
  assert (later (log_sockets (r_sockets c) (tick c w4)) w7) as Hl by (by transitivity w6).
  pose proof (grows_sockets _ _ _ _ Hl) as Hg. destruct Hl as (Hle & Hs & Hp & _ & Hpc & _ & Hsys & Hbuilt), H7 as (Hle7 & Hs7 & _).
  split; [split; [|exact Hg]|cbn; rewrite Hs; cbn; rewrite Hr; eexists; left].
  apply (stats_ok_sockets w4); [done|cbn in *; lia|exact Hg|exact Hp|exact Hpc|exact Hsys|exact Hbuilt|]. cbn. rewrite Hs7, Hr in *.
  eapply backed_later; [exact Hle7|exact Hb].
Qed.

Lemma sockets_failed w3 w4 cache c e :
  stats_ok w3 -> CONNECTIONS_CACHE (statics w3) = Some cache -> later w3 w4 -> stats_ok w4 ->
  SOCKETS_CACHE_TTL <= elapsed (clock w4) (cc_last_refresh cache) -> r_sockets c = Err e ->
  ok_from w4 (log_sockets (Err e) (tick c w4)).
Proof.
  intros Hw3 Hc H4 Hw4 Hge Hr. rewrite <-Hr. set (w5 := log_sockets _ _).
  pose proof (grows_sockets (r_sockets c) c w4 w5 (reflexivity w5)) as Hg.
  pose proof (sockets_tried _ _ w5 c cache Hw3 Hc H4 Hge (reflexivity w5)) as Hb. rewrite Hr in Hb.
  split; [|exact Hg]. apply (stats_ok_sockets w4); [done|cbn; lia|exact Hg|done..|].
  destruct H4 as (_ & _ & _ & Hcc & _). change (connections_cell (statics w5)) with (connections_cell (statics w4)).
  unfold connections_cell. rewrite Hcc, Hc. exact Hb.
Qed.

Lemma processes_refreshed w3 w4 w6 w7 cache c n :
  stats_ok w3 -> PROCESS_COUNT_CACHE (statics w3) = Some cache -> later w3 w4 -> stats_ok w4 ->
  is_Some (SYS_INFO (statics w4)) ->
  PROCESS_COUNT_TTL <= elapsed (clock w4) (pc_last_refresh cache) ->
  later (log_processes n (tick c w4)) w6 -> later w6 w7 ->
  let w8 := with_statics (set_process_count {| pc_last_refresh := clock w6; pc_total := n |} (statics w7)) w7 in
  ok_from w4 w8 /\ exists t, (t, n) ∈ process_log w8.
Proof.
  intros Hw3 Hc (Hle4 & _ & Hp4 & _) Hw4 [[] Hsome] Hge H6 H7 w8.
  assert (later (log_processes n (tick c w4)) w7) as (Hle & Hs & Hp & Hcc & _ & Hst & Hsys & Hbuilt) by (by transitivity w6).
  destruct H6 as (Hle6 & _ & Hp6 & _), H7 as (Hle7 & _). cbn in *.
  assert (grows w4 w8) as Hg.
  { split; [by cbn; rewrite Hs|]. split; [cbn; rewrite Hp; intros x Hx; by right|]. cbn. by rewrite Hst, Hsys. }
  pose proof (ok_processes _ Hw3) as Hb. unfold processes_cell in Hb. rewrite Hc in Hb.
  split; [split; [|exact Hg]|cbn; rewrite Hp; eexists; left].
  apply (stats_ok_processes w4); [done|cbn; lia|exact Hg|done|done|..]; cbn; rewrite Hp.
  - pose proof (ok_system _ Hw4) as Hone. rewrite Hsys, Hbuilt, Hsome in *. destruct Hone as (t & -> & Ht & Hall).
    exists t. split; [done|]. split; [lia|]. constructor; [cbn; lia|done].
  - rewrite Hp4. eapply backed_later; [exact Hle7|].
    apply (backed_miss processes_found _ _ (clock w4) _ (clock w6) _ _ n _ Hb); [done|done|done|lia|done].
Qed.

Lemma ok_from_trans w w1 w2 : ok_from w w1 -> ok_from w1 w2 -> ok_from w w2.
Proof. intros [_ H1] [Hok H2]. split; [done|]. by transitivity w1. Qed.

(** A count handed out is one that was read. *)
Lemma connections_ok w :
  stats_ok w ->
  wp connections (fun r w' => ok_from w w' /\
    match r with Ok n => exists t, (t, Ok n) ∈ socket_log w' | Err _ => True end) w.
Proof.
  intros Hw. apply wp_bind. eapply wp_mono; [|by apply connections_init_ok].
  intros [] w1 (Hw1 & Hsome). apply wp_lock. intros b w2 H2. pose proof (ok_from_later _ _ _ Hw1 H2) as Hw2.
  destruct b; [|done]. apply wp_static. intros w3 H3. pose proof (ok_from_later _ _ _ Hw2 H3) as Hw3.
  destruct (CONNECTIONS_CACHE (statics w3)) as [cache|] eqn:Hc.
  2:{ destruct H2 as (_ & _ & _ & H2 & _), H3 as (_ & _ & _ & H3 & _). rewrite H3, H2 in Hc.
      rewrite Hc in Hsome. by destruct Hsome. }
  apply wp_now. intros w4 H4. pose proof (ok_from_later _ _ _ Hw3 H4) as Hw4.
  destruct (Z.ltb_spec (elapsed (clock w4) (cc_last_refresh cache)) SOCKETS_CACHE_TTL) as [Hlt|Hge].
  - split; [done|]. pose proof (ok_sockets _ (proj1 Hw3)) as Hb. unfold connections_cell in Hb. rewrite Hc in Hb.
    destruct H4 as (Hle & -> & _). destruct (backed_hit _ _ _ _ _ _ _ Hb Hle Hlt) as (t & [n|e] & Hin & [= ->]).
    by exists t.
  - intros c r w5 [= <- <-]. destruct (r_sockets c) as [n|e] eqn:Hr; cycle 1.
    { split; [|done]. eapply ok_from_trans; [exact Hw4|]. exact (sockets_failed _ _ _ _ _ (proj1 Hw3) Hc H4 (proj1 Hw4) Hge Hr). }
    apply wp_now. intros w6 H6. apply wp_updating. intros w7 H7.
    destruct (sockets_refreshed _ _ _ _ _ _ n (proj1 Hw3) Hc H4 (proj1 Hw4) Hge Hr H6 H7) as [Hok Hread].
    split; [by eapply ok_from_trans|exact Hread].
Qed.

Lemma process_count_ok w :
  stats_ok w -> is_Some (SYS_INFO (statics w)) ->
  wp process_count (fun n w' => ok_from w w' /\ (n = 0 \/ exists t, (t, n) ∈ process_log w')) w.
Proof.
  intros Hw Hsys. apply wp_bind. eapply wp_mono; [|by apply processes_init_ok].
  intros [] w1 (Hw1 & Hsome). apply wp_lock. intros b w2 H2. pose proof (ok_from_later _ _ _ Hw1 H2) as Hw2.
  destruct b; [|by split; [|left]]. apply wp_static. intros w3 H3. pose proof (ok_from_later _ _ _ Hw2 H3) as Hw3.
  destruct (PROCESS_COUNT_CACHE (statics w3)) as [cache|] eqn:Hc.
  2:{ destruct H2 as (_ & _ & _ & _ & H2 & _), H3 as (_ & _ & _ & _ & H3 & _). rewrite H3, H2 in Hc.
      rewrite Hc in Hsome. by destruct Hsome. }
  apply wp_now. intros w4 H4. pose proof (ok_from_later _ _ _ Hw3 H4) as Hw4.
  destruct (Z.ltb_spec (elapsed (clock w4) (pc_last_refresh cache)) PROCESS_COUNT_TTL) as [Hlt|Hge].
  - split; [done|]. right. pose proof (ok_processes _ (proj1 Hw3)) as Hb. unfold processes_cell in Hb. rewrite Hc in Hb.
    destruct H4 as (Hle & _ & -> & _). destruct (backed_hit _ _ _ _ _ _ _ Hb Hle Hlt) as (t & n & Hin & [= ->]).
    by exists t.
  - intros c0 r0 w4' [= <- <-]. pose proof (ok_from_later _ _ _ Hw4 (later_tick c0 w4)) as Hw4'.
    assert (later w3 (tick c0 w4)) as H4' by (transitivity w4; [done|apply later_tick]).
    intros c r w5 [= <- <-]. apply wp_now. intros w6 H6. apply wp_updating. intros w7 H7.
    assert (PROCESS_COUNT_TTL <= elapsed (clock (tick c0 w4)) (pc_last_refresh cache)) as Hge'.
    { unfold elapsed, saturating_sub in *. cbn. lia. }
    destruct (processes_refreshed _ _ _ _ _ _ _ (proj1 Hw3) Hc H4' (proj1 Hw4')
      (proj2 (proj2 (proj2 (proj2 Hw4'))) Hsys) Hge' H6 H7) as [Hok Hread].
    split; [by eapply ok_from_trans|]. right. exact Hread.
Qed.
End counts.

(** ** Gathering, refreshing and reading *)

Section gathering.
Context `{!Platform}.

Lemma wp_calm_ok {A B} (p : stats_task A) (f : A -> stats_task B) Q w w0 :
  ok_from w w0 -> calm p -> (forall a w1, ok_from w w1 -> later w0 w1 -> wp (f a) Q w1) -> wp (p ≫= f) Q w0.
Proof.
  intros Hw Hp Hf. apply wp_calm_bind; [done|]. intros a w1 Hl. apply Hf; [by eapply ok_from_later|done].
Qed.

Lemma system_init_ok w :
  stats_ok w -> wp SYS_INFO_get_or_init (fun _ w' => ok_from w w' /\ is_Some (SYS_INFO (statics w'))) w.
Proof.
  intros Hw. apply wp_static. intros w1 H1. pose proof (ok_from_later _ _ _ (ok_from_refl _ Hw) H1) as [Hw1 Hg1].
  destruct (SYS_INFO (statics w1)) as [[]|] eqn:Hs; [split; [done|by rewrite Hs]|].
  intros c r w2 [= <- <-]. apply wp_updating. intros w3 (Hle & Hs3 & Hp3 & Hcc & Hpc & Hst & _ & Hbuilt). cbn in *.
  pose proof (ok_system _ Hw1) as Hone. rewrite Hs in Hone. destruct Hone as [Hnone Hempty].
  assert (grows w1 w3) as Hg by (unfold grows; rewrite Hs3, Hp3, Hst, Hs; done).
  split; [split|by eexists].
  - apply (stats_ok_processes w1); [done|cbn; lia| |done|exact Hcc| |]; cbn.
    + destruct Hg as (? & ? & ? & _). split; [done|]. split; [done|]. split; [done|]. by eexists.
    + rewrite Hbuilt, Hnone, Hp3, Hempty. eexists. split; [done|]. split; [lia|constructor].
    + unfold processes_cell. cbn. rewrite Hpc, Hp3. eapply backed_later, (ok_processes _ Hw1). lia.
  - transitivity w1; [done|]. destruct Hg as (? & ? & ? & _). split; [done|]. split; [done|]. split; [done|]. by eexists.
Qed.

Lemma gather_ok w :
  stats_ok w ->
  wp gather (fun r w' => ok_from w w' /\ forall s, r = Some s -> counts_read w' s) w.
Proof.
  intros Hw0. apply wp_bind. eapply wp_mono; [|by apply system_init_ok]. intros [] w0 [Hw' Hsys].
  apply (wp_mono _ (fun r w' => ok_from w0 w' /\ forall s, r = Some s -> counts_read w' s)).
  { intros r w' [Hw2 Hs]. split; [by eapply ok_from_trans|exact Hs]. }
  pose proof (ok_from_refl _ (proj1 Hw')) as Hw.
  eapply wp_calm_ok; [exact Hw|calm_effect|]. intros [] w1 Hw1 Hl1; [|done].
  eapply wp_calm_ok; [exact Hw1|calm_effect|]. intros [] w2 Hw2 Hl2.
  eapply wp_calm_ok; [exact Hw2|calm_effect|]. intros [pid|] w3 Hw3 _; [|done].
  eapply wp_calm_ok; [exact Hw3|calm_effect|]. intros [] w4 Hw4 _.
  eapply wp_calm_ok; [exact Hw4|calm_effect|]. intros [proc|] w5 Hw5 _; [|done].
  eapply wp_calm_ok; [exact Hw5|calm_effect|]. intros threads w6 Hw6 _.
  eapply wp_calm_ok; [exact Hw6|apply calm_get_or_init, calm_hostname|]. intros hostname w7 Hw7 _.
  eapply wp_calm_ok; [exact Hw7|apply calm_get_or_init, calm_resolve_host_ip|]. intros ip w8 Hw8 _.
  eapply wp_calm_ok; [exact Hw8|apply calm_get_or_init; calm_effect|]. intros os w9 Hw9 _.
  eapply wp_calm_ok; [exact Hw9|apply calm_loadavg|]. intros load w10 Hw10 _.
  apply wp_bind. eapply wp_mono; [|apply connections_ok, Hw10]. intros conns w11 [Hw11 Hconns].
  pose proof (ok_from_trans _ _ _ Hw10 Hw11) as Hw11'.
  eapply wp_calm_ok; [exact Hw11'|apply calm_mac|]. intros mac w12 Hw12 (_ & Hs12 & _).
  rewrite <- Hs12 in Hconns.
  apply wp_bind. eapply wp_mono; [|apply process_count_ok; [apply Hw12|by apply (proj2 Hw12)]]. intros procs w13 [Hw13 Hprocs].
  pose proof (ok_from_trans _ _ _ Hw12 Hw13) as Hw13'.
  assert (match conns with Ok n => exists t, (t, Ok n) ∈ socket_log w13 | Err _ => True end) as Hconns13.
  { destruct conns as [n|e]; [|done]. destruct Hconns as [t Ht]. exists t. by apply (proj1 (proj2 Hw13)). }
  do 4 (eapply wp_calm_ok; [eassumption|calm_effect|]; intros ? ? ? (_ & ? & ? & _)).
  split; [done|]. intros s [= <-]. unfold counts_read. cbn.
  repeat match goal with H : socket_log ?a = socket_log ?b |- _ => rewrite H; clear H
                       | H : process_log ?a = process_log ?b |- _ => rewrite H; clear H end.
  split; [destruct conns as [n|e]; [by right|by left]|done].
Qed.

(** Writing the statistics' cell. *)
Lemma stats_ok_cached w c :
  stats_ok w -> (forall s, sc_stats c = Some s -> counts_read w s) ->
  stats_ok (with_statics (set_stats c (statics w)) w).
Proof. intros [Hk Hs Hp Hone _] Hc. split; [done..|]. intros c' s [= <-]. apply Hc. Qed.

Lemma stats_init_ok w :
  stats_ok w ->
  wp STATS_CACHE_get_or_init (fun _ w' => stats_ok w' /\ clock w <= clock w' /\
    socket_log w' = socket_log w /\ process_log w' = process_log w) w.
Proof.
  intros Hw. apply wp_static. intros w1 H1. pose proof (stats_ok_later _ _ H1 Hw) as Hw1.
  destruct (STATS_CACHE (statics w1)) as [c|]; [destruct H1 as (? & ? & ? & _); done|].
  apply wp_now. intros w2 H2. apply wp_now. intros w3 H3. apply wp_updating. intros w4 H4.
  assert (later w w4) as Hl by (transitivity w1; [done|transitivity w2; [done|transitivity w3; done]]).
  split; [|destruct Hl as (? & ? & ? & _); done].
  apply stats_ok_cached; [by eapply stats_ok_later|done].
Qed.

Lemma stats_refresh_ok w : stats_ok w -> wp refresh (fun _ w' => stats_ok w') w.
Proof.
  intros Hw. apply wp_now. intros w1 H1. pose proof (stats_ok_later _ _ H1 Hw) as Hw1.
  apply wp_bind. eapply wp_mono; [|by apply gather_ok]. intros [s|] w2 [[Hw2 _] Hs]; [|done].
  apply wp_bind. eapply wp_mono; [|by apply stats_init_ok]. intros [] w3 (Hw3 & _ & Hl1 & Hl2).
  assert (counts_read w3 s) as Hs3 by (eapply counts_read_grow, Hs; [by rewrite Hl1|by rewrite Hl2|done]).
  apply wp_lock. intros [] w4 H4; [|by eapply stats_ok_later].
  apply wp_now. intros w5 H5. apply wp_bind, wp_updating. intros w6 H6. cbn [wp].
  assert (later w3 w6) as Hl by (transitivity w4; [done|transitivity w5; done]).
  apply stats_ok_cached; [by eapply stats_ok_later|]. intros s' [= <-].
  destruct Hl as (_ & Hl3 & Hl4 & _). eapply (counts_read_grow w3); [by rewrite Hl3|by rewrite Hl4|exact Hs3].
Qed.

Lemma stats_get_ok w :
  stats_ok w -> wp get (fun r w' => stats_ok w' /\ forall s, r = Some s -> counts_read w' s) w.
Proof.
  intros Hw. apply wp_bind. eapply wp_mono; [|by apply stats_init_ok]. intros [] w1 (Hw1 & _).
  apply wp_lock. intros b w2 H2. pose proof (stats_ok_later _ _ H2 Hw1) as Hw2. destruct b; [|done].
  apply wp_static. intros w3 H3. pose proof (stats_ok_later _ _ H3 Hw2) as Hw3.
  destruct (STATS_CACHE (statics w3)) as [c|] eqn:Hc; [|done]. cbn [mbind option_bind].
  destruct (sc_stats c) as [s|] eqn:Hs; [|done].
  apply wp_now. intros w4 H4. split; [by eapply stats_ok_later|]. intros s' [= <-].
  destruct H4 as (_ & Hl1 & Hl2 & _).
  eapply (counts_read_grow w3), (ok_cached _ Hw3 c s Hc Hs); [by rewrite Hl1|by rewrite Hl2].
Qed.
End gathering.

(** ** A process's calls, one after the other *)

Inductive Call : Type := Get | Refresh.

Fixpoint serve `{!Platform} (calls : list Call) : stats_task unit :=
  match calls with
  | [] => Ret tt
  | Get :: calls => _ ← get; serve calls
  | Refresh :: calls => _ ← refresh; serve calls
  end.

(** A process that has just started, its clock reading [t]. *)
Definition started (t : Instant) : StatsWorld :=
  {| clock := t; statics := statics0; socket_log := []; process_log := []; system_log := [] |}.

Lemma started_ok `{!Platform} t : instant_min + PROCESS_COUNT_TTL <= t -> stats_ok (started t).
Proof. intros Ht. split; [done|by split; [intros i j ? ? ? ?|]..|done|done]. Qed.

Lemma serve_ok `{!Platform} calls w : stats_ok w -> wp (serve calls) (fun _ w' => stats_ok w') w.
Proof.
  revert w. induction calls as [|[] calls IH]; intros w Hw; [done|..]; apply wp_bind.
  - eapply wp_mono; [|by apply stats_get_ok]. intros s w' [Hw' _]. by apply IH.
  - eapply wp_mono; [|by apply stats_refresh_ok]. intros s w' Hw'. by apply IH.
Qed.

Lemma stats_never_waits {A} (p : stats_task A) cs w w' : run p cs w <> Blocked w'.
Proof.
  revert cs w. induction p as [a| |R e k IH]; intros cs w; [done..|]. cbn.
  assert (exists r w1, exec e (cs 0%nat) w = Some (r, w1)) as (r & w1 & ->); [|apply IH].
  destruct e; cbn; eauto. destruct (f _); eauto.
Qed.

(** C30. The calls of a process that starts at least a minute after the earliest
    instant return, and however they are ordered and whatever the system
    answers, each way to enumerate is limited: after the sockets were
    enumerated with success they are not touched for at least thirty seconds
    (a failure is not remembered, and the next call tries again); two counts
    of the processes lie at least sixty seconds apart, and the only other
    enumeration of them is the one with which [System::new_all] makes the
    handle, once and before any count.  The counts in the statistics a
    heartbeat then gets are zero or were read from the system. *)
Theorem stats_rate_limited `{!Platform} calls t cs :
  instant_min + PROCESS_COUNT_TTL <= t ->
  exists r w', run (serve calls;; get) cs (started t) = Done r w' /\
    (forall i j t1 r1 t0 n, (i < j)%nat -> socket_log w' !! i = Some (t1, r1) -> socket_log w' !! j = Some (t0, Ok n) ->
       t0 + SOCKETS_CACHE_TTL <= t1) /\
    (forall i j t1 n1 t0 n0, (i < j)%nat -> process_log w' !! i = Some (t1, n1) -> process_log w' !! j = Some (t0, n0) ->
       t0 + PROCESS_COUNT_TTL <= t1) /\
    (system_log w' = [] /\ process_log w' = [] \/
     exists t0, system_log w' = [t0] /\ Forall (fun e => t0 <= e.1) (process_log w')) /\
    forall s, r = Some s -> counts_read w' s.
Proof.
  intros Ht.
  assert (wp (serve calls;; get) (fun r w' => stats_ok w' /\ forall s, r = Some s -> counts_read w' s) (started t)) as Hp.
  { apply wp_bind. eapply wp_mono, serve_ok, started_ok, Ht. intros [] w1 Hw1. by apply stats_get_ok. }
  apply (wp_run _ _ cs) in Hp. destruct (run _ cs _) as [r w'|w'|w'] eqn:Hr; [|by apply stats_never_waits in Hr|done].
  exists r, w'. destruct Hp as [[_ [Hs _] [Hps _] Hone _] Hcounts]. split; [done|]. split; [|split; [|split; [|done]]].
  - intros i j t1 r1 t0 n Hij H1 H0. apply (Hs i j (t1, r1) (t0, Ok n)); [done..|by eexists].
  - intros i j t1 n1 t0 n0 Hij H1 H0. apply (Hps i j (t1, n1) (t0, n0)); [done..|by eexists].
  - destruct (SYS_INFO (statics w')); [right|by left]. destruct Hone as (t0 & ? & _ & ?). by exists t0.
Qed.

(** A failed enumeration of the sockets leaves the cache out of date, so that
    the next call tries again. *)
Lemma failed_enumeration_retried `{!Platform} cs w cache e :
  CONNECTIONS_CACHE (statics w) = Some cache -> r_lock (cs 1%nat) = true -> r_sockets (cs 4%nat) = Err e ->
  SOCKETS_CACHE_TTL <= elapsed (clock w) (cc_last_refresh cache) ->
  exists w', run connections cs w = Done (Err e) w' /\ CONNECTIONS_CACHE (statics w') = Some cache /\
    SOCKETS_CACHE_TTL <= elapsed (clock w') (cc_last_refresh cache).
Proof.
  intros Hc Hl He Hd. cbn. rewrite Hc. cbn. rewrite Hl. cbn. rewrite Hc. cbn. unfold elapsed, saturating_sub in *.
  destruct (Z.ltb_spec (Z.max 0 (Z.max (Z.max (Z.max (Z.max (clock w) (r_now (cs 0%nat))) (r_now (cs 1%nat))) (r_now (cs 2%nat))) (r_now (cs 3%nat)) - cc_last_refresh cache)) SOCKETS_CACHE_TTL); [lia|].
  cbn. rewrite He. cbn. eexists. split; [done|]. split; [done|]. cbn. lia.
Qed.

(** What [get] returns when statistics are cached: those, with their age in
    whole seconds; nothing when the mutex is poisoned. *)
Lemma get_cached `{!Platform} cs w c s :
  STATS_CACHE (statics w) = Some c -> sc_stats c = Some s ->
  exists now w', run get cs w =
      Done (if r_lock (cs 1%nat)
            then Some (with_last_refreshed_secs (as_secs (elapsed now (sc_last_refresh c))) s)
            else None) w' /\
    clock w <= now /\ later w w'.
Proof.
  intros Hc Hs. cbn. rewrite Hc. cbn. destruct (r_lock (cs 1%nat)); cbn.
  - rewrite Hc. cbn. rewrite Hs. cbn. eexists _, _. split; [reflexivity|]. split; [lia|]. split; [cbn; lia|done].
  - exists (clock w). eexists. split; [reflexivity|]. split; [lia|]. split; [cbn; lia|done].
Qed.

(** On a platform whose instants start near boot, the first count of a young
    process panics, and the statistics with it. *)
Lemma first_count_panics `{!Platform} cs w :
  CONNECTIONS_CACHE (statics w) = None -> clock w <= r_now (cs 1%nat) -> r_now (cs 0%nat) <= r_now (cs 1%nat) ->
  r_now (cs 1%nat) - SOCKETS_CACHE_TTL < instant_min -> exists w', run connections cs w = Panicked w'.
Proof.
  intros Hc H1 H2 Hlt. cbn. rewrite Hc. cbn. unfold instant_sub. rewrite decide_False by lia.
  by eexists.
Qed.

(** ** An example *)

Definition unix : Platform := {| instant_min := - 2 ^ 63 |}.

Definition answers (n : nat) : Readings :=
  {| r_now := seconds (100 + 2 * Z.of_nat n); r_lock := true; r_pid := Some 7;
     r_process := Some {| cpu_usage := 0; memory := 4096; run_time := 5 |}; r_threads := Some 3;
     r_text := Some "host"; r_os := "Linux"; r_mac := Ok None; r_sockets := Ok (Z.of_nat n);
     r_interfaces := Some [{| is_loopback := true; addr := V4 "127.0.0.1" |}; {| is_loopback := false; addr := V4 "192.0.2.1" |}];
     r_load := (3, (0, 0, 0)); r_statuses := [Run; OtherStatus]; r_number := 1 |}.

(** Two refreshes: the first reads both counts, and by the second both are out
    of date. *)
Lemma stats_rate_limited_witness :
  exists r w', run (@serve unix [Refresh; Refresh];; get) answers (started (seconds 100)) = Done r w' /\
    (forall i j t1 r1 t0 n, (i < j)%nat -> socket_log w' !! i = Some (t1, r1) -> socket_log w' !! j = Some (t0, Ok n) ->
       t0 + SOCKETS_CACHE_TTL <= t1) /\
    (forall i j t1 n1 t0 n0, (i < j)%nat -> process_log w' !! i = Some (t1, n1) -> process_log w' !! j = Some (t0, n0) ->
       t0 + PROCESS_COUNT_TTL <= t1) /\
    (system_log w' = [] /\ process_log w' = [] \/
     exists t0, system_log w' = [t0] /\ Forall (fun e => t0 <= e.1) (process_log w')) /\
    forall s, r = Some s -> counts_read w' s.
Proof. apply (@stats_rate_limited unix [Refresh; Refresh] (seconds 100) answers). vm_compute. discriminate. Defined.

Example two_refreshes :
  match run (@serve unix [Refresh; Refresh];; get) answers (started (seconds 100)) with
  | Done (Some s) w' =>
      (host_ip s, host_mac s, host_connections s, host_processes s, last_refreshed_secs s,
       length (socket_log w'), length (process_log w'), length (system_log w')) =
      ("192.0.2.1", "unknown", 69, 1, 10, 2%nat, 2%nat, 1%nat)
  | _ => False
  end.
Proof. vm_compute. reflexivity. Qed.
