(* ===== verification/AgentState.v ===== *)
(** * The agent's state and the effects of its tasks

    [agent/src/session.rs], [agent/src/common.rs], [agent/src/sftp/mod.rs] and
    the [WebSocketConnection] of [agent/src/ws.rs]: the outbound queue, the
    tunnels, the active transfers, the two identifier counters; and the SFTP
    server, which is a parameter. *)

From S2P Require Import Prelude Async Mpsc RustStr Protocol Frame Externs.

(** ** [russh_sftp]: the session as the actions use it

    [FS] is the server's file system with the open handles, [File] a handle.
    Every call may fail with the text of its error. *)
Record DirEntry : Type := { de_name : string; de_is_dir : bool; de_size : option Z }.

Class SftpServer (FS File : Type) := {
  (** [open_with_flags(path, WRITE | CREATE | APPEND)] and [open(path)] *)
  sftp_open_append : string -> FS -> result string File * FS;
  sftp_open : string -> FS -> result string File * FS;
  (** [AsyncWriteExt::write_all]; part may be written before an error *)
  sftp_write_all : File -> bytes -> FS -> result string unit * FS;
  (** [seek(SeekFrom::Start(..))] and [read] into a buffer *)
  sftp_seek : File -> Z -> FS -> result string unit * FS;
  sftp_read : File -> nat -> FS -> result string bytes * FS;
  sftp_sync_all : File -> FS -> result string unit * FS;
  sftp_rename : string -> string -> FS -> result string unit * FS;
  sftp_remove_file : string -> FS -> result string unit * FS;
  (** [metadata(path)]: the size, if the server reports one *)
  sftp_metadata : string -> FS -> result string (option Z) * FS;
  sftp_canonicalize : string -> FS -> result string string * FS;
  sftp_read_dir : string -> FS -> result string (list DirEntry) * FS }.

(** ** Tunnels: [agent/src/session.rs], [ssh/session.rs], [sftp/session.rs] *)

Inductive SSHCommand : Type :=
| Data (buf : Bytes)
| Resize (cols rows px_width px_height : Z).

Inductive SFTPCommand : Type :=
| List (folder : string) (msg_id : option Z)
| DownloadStart (download : SFTPDownloadStart) (msg_id : option Z)
| DownloadChunk (chunk : SFTPDownloadChunk) (msg_id : option Z)
| UploadStart (upload : SFTPUploadStart) (msg_id : option Z)
| Upload (chunk : SFTPUploadChunk) (msg_id : option Z)
| Delete (data : SFTPDelete) (msg_id : option Z).

(** A handle: the sender of its commands.  The [oneshot] that stops the
    tunnel is named by the same number. *)
Inductive SessionHandle : Type :=
| Ssh (stdin : ChanId)
| Sftp (stdin : ChanId).

Definition SSH_STDIN_CAPACITY : nat := 512.
Definition SFTP_STDIN_CAPACITY : nat := 2048.

(** ** [agent/src/ssh/auth.rs] and [agent/src/env.rs] *)

Module SSHAuthMethod.
Inductive t : Type := Password | None.
#[global] Instance auth_method_eq_dec : EqDecision t.
Proof. solve_decision. Defined.

(** [FromStr]: [to_lowercase] of a string is [password] or [none] exactly when
    its ASCII lower case is. *)
Definition from_str (s : string) : result string t :=
  let l := Str.to_ascii_lowercase s in
  if bool_decide (l = "password") then Ok Password
  else if bool_decide (l = "none") then Ok None
  else Err ("invalid authentication method: " +:+ s).
End SSHAuthMethod.

Record Env : Type := {
  mode : Mode;
  host : string;
  port : Z;
  stats_refresh_interval : Z;
  server_host : string;
  server_port : Z;
  ssh_host : string;
  ssh_port : Z;
  ssh_auth_mode : SSHAuthMethod.t;
  ssh_inactivity_secs : Z }.

Definition get_ssh_inactivity_duration (e : Env) : option Z :=
  if ssh_inactivity_secs e =? 0 then None else Some (seconds (ssh_inactivity_secs e)).

(** [SSHConfigAuth] and [SFTPConfigAuth], which have the same two variants. *)
Inductive ConfigAuth : Type :=
| UsernamePassword (username password : string)
| Username (username : string).

(** A spawned tunnel task: what it captures. *)
Record Tunnel : Type := {
  tn_protocol : Protocol.t;
  tn_cid : Uuid;
  tn_sid : Z;
  tn_msg_id : option Z;
  tn_credentials : ConfigAuth;
  tn_stdin : ChanId }.

(** Transfers are keyed by the client and the transfer's id, tunnels by the
    client and the session's id. *)
Definition TunnelKey : Type := Uuid * Z.

(** ** [dashmap]: the locks of the transfer maps

    A [DashMap] is a number of shards, each behind a lock of its own; which
    shard a key is in depends on the map's hasher.  A guard returned by
    [get_mut] keeps the lock of its shard until it is dropped, and every other
    operation on that shard waits for it, even one of the task that holds it. *)
Inductive TransferMap : Type := Uploads | Downloads.

#[global] Instance transfer_map_eq_dec : EqDecision TransferMap.
Proof. solve_decision. Defined.
#[global] Instance transfer_map_countable : Countable TransferMap.
Proof.
  refine (inj_countable' (fun m => match m with Uploads => true | Downloads => false end)
    (fun b : bool => if b then Uploads else Downloads) _). by intros [].
Defined.

Definition Shard : Type := TransferMap * nat.

Class DashMaps := {
  shard_amount : nat;
  upload_shard : TunnelKey -> nat;
  download_shard : TunnelKey -> nat;
  upload_shard_lt key : (upload_shard key < shard_amount)%nat;
  download_shard_lt key : (download_shard key < shard_amount)%nat }.

Section state.
Context {FS File : Type} {dm : DashMaps}.

(** ** Transfers: [agent/src/sftp/mod.rs] *)

Record FileUpload : Type := {
  fu_filename : string;
  fu_remote_path : string;
  fu_total_chunks : Z;
  fu_total_size : Z;
  fu_sftp_file : File;
  fu_temp_path : string;
  fu_started_at : SystemTime;
  fu_last_updated : SystemTime }.

Record FileDownload : Type := {
  fd_filename : string;
  fd_total_size : Z;
  fd_total_chunks : Z;
  fd_sftp_file : File;
  fd_started_at : SystemTime;
  fd_last_updated : SystemTime }.

(** ** The state the agent's tasks share *)

Record Agent : Type := {
  sessions : gmap TunnelKey SessionHandle;
  uploads : gmap TunnelKey FileUpload;
  downloads : gmap TunnelKey FileDownload;
  session_id : Z;               (* SESSION_ID, an AtomicU32 *)
  id_counter : Z;               (* ID_COUNTER, an AtomicU32 *)
  last_heartbeat : Z;           (* an AtomicU64, in milliseconds *)
  stopped : gset ChanId }.      (* the tunnels whose [stop] was sent *)

Definition with_tunnels f a : Agent :=
  {| sessions := f (sessions a); uploads := uploads a; downloads := downloads a;
     session_id := session_id a; id_counter := id_counter a;
     last_heartbeat := last_heartbeat a; stopped := stopped a |}.
Definition with_uploads f a : Agent :=
  {| sessions := sessions a; uploads := f (uploads a); downloads := downloads a;
     session_id := session_id a; id_counter := id_counter a;
     last_heartbeat := last_heartbeat a; stopped := stopped a |}.
Definition with_downloads f a : Agent :=
  {| sessions := sessions a; uploads := uploads a; downloads := f (downloads a);
     session_id := session_id a; id_counter := id_counter a;
     last_heartbeat := last_heartbeat a; stopped := stopped a |}.
Definition with_session_id n a : Agent :=
  {| sessions := sessions a; uploads := uploads a; downloads := downloads a;
     session_id := n; id_counter := id_counter a;
     last_heartbeat := last_heartbeat a; stopped := stopped a |}.
Definition with_id_counter n a : Agent :=
  {| sessions := sessions a; uploads := uploads a; downloads := downloads a;
     session_id := session_id a; id_counter := n;
     last_heartbeat := last_heartbeat a; stopped := stopped a |}.
Definition with_last_heartbeat n a : Agent :=
  {| sessions := sessions a; uploads := uploads a; downloads := downloads a;
     session_id := session_id a; id_counter := id_counter a;
     last_heartbeat := n; stopped := stopped a |}.
Definition with_stopped f a : Agent :=
  {| sessions := sessions a; uploads := uploads a; downloads := downloads a;
     session_id := session_id a; id_counter := id_counter a;
     last_heartbeat := last_heartbeat a; stopped := f (stopped a) |}.

(** The world: the shared state, the shards of the transfer maps whose lock a
    guard keeps, the outbound queue of frames (capacity 1024), the command
    queues of the tunnels, and the SFTP server. *)
Record World : Type := {
  agent : Agent;
  locks : gset Shard;
  outbound : Channel NodeFrameData.t;
  ssh_stdin : gmap ChanId (Channel SSHCommand);
  sftp_stdin : gmap ChanId (Channel SFTPCommand);
  tunnels : list Tunnel;                     (* every tunnel task spawned *)
  fs : FS }.

Definition with_agent a w : World :=
  {| agent := a; locks := locks w; outbound := outbound w; ssh_stdin := ssh_stdin w;
     sftp_stdin := sftp_stdin w; tunnels := tunnels w; fs := fs w |}.
Definition with_locks f w : World :=
  {| agent := agent w; locks := f (locks w); outbound := outbound w; ssh_stdin := ssh_stdin w;
     sftp_stdin := sftp_stdin w; tunnels := tunnels w; fs := fs w |}.
Definition with_outbound ch w : World :=
  {| agent := agent w; locks := locks w; outbound := ch; ssh_stdin := ssh_stdin w;
     sftp_stdin := sftp_stdin w; tunnels := tunnels w; fs := fs w |}.
Definition with_ssh_stdin m w : World :=
  {| agent := agent w; locks := locks w; outbound := outbound w; ssh_stdin := m;
     sftp_stdin := sftp_stdin w; tunnels := tunnels w; fs := fs w |}.
Definition with_sftp_stdin m w : World :=
  {| agent := agent w; locks := locks w; outbound := outbound w; ssh_stdin := ssh_stdin w;
     sftp_stdin := m; tunnels := tunnels w; fs := fs w |}.
Definition with_fs x w : World :=
  {| agent := agent w; locks := locks w; outbound := outbound w; ssh_stdin := ssh_stdin w;
     sftp_stdin := sftp_stdin w; tunnels := tunnels w; fs := x |}.
Definition with_spawned t w : World :=
  {| agent := agent w; locks := locks w; outbound := outbound w; ssh_stdin := ssh_stdin w;
     sftp_stdin := sftp_stdin w; tunnels := tunnels w ++ [t]; fs := fs w |}.

Definition OUTBOUND_CAPACITY : nat := 1024.

(** ** Effects *)

Inductive agentE : Type -> Type :=
| Now : agentE SystemTime
| OnAgent {R : Type} (f : Agent -> R * Agent) : agentE R
| OnShard {R : Type} (s : Shard) (f : Agent -> R * Agent) : agentE R   (* under the shard's lock *)
| HoldShard {R : Type} (s : Shard) (f : Agent -> option R) : agentE (option R)   (* a guard, if there is a value *)
| DropGuard (s : Shard) : agentE unit
| TrySend (f : NodeFrameData.t) : agentE unit
| SendFrame (f : NodeFrameData.t) : agentE bool
| NewSshStdin : agentE ChanId
| NewSftpStdin : agentE ChanId
| SendSsh (stdin : ChanId) (cmd : SSHCommand) : agentE bool
| SendSftp (stdin : ChanId) (cmd : SFTPCommand) : agentE bool
| Spawn (t : Tunnel) : agentE unit
| SelectSsh (stdin : ChanId) : agentE (selected SSHCommand)
| SelectSftp (stdin : ChanId) : agentE (selected SFTPCommand)
| DropSsh (stdin : ChanId) : agentE unit
| DropSftp (stdin : ChanId) : agentE unit
| OnSftp {R : Type} (f : FS -> result string R * FS) : agentE (result string R).

(** The environment of one effect: the clock. *)
Definition agent_exec {R} (e : agentE R) : SystemTime -> World -> option (R * World) :=
  match e in agentE R return SystemTime -> World -> option (R * World) with
  | Now => fun now w => Some (now, w)
  | OnAgent f => fun _ w => let '(r, a) := f (agent w) in Some (r, with_agent a w)
  | OnShard s f => fun _ w =>
      if decide (s ∈ locks w) then None else let '(r, a) := f (agent w) in Some (r, with_agent a w)
  | HoldShard s f => fun _ w =>
      if decide (s ∈ locks w) then None
      else match f (agent w) with
           | Some r => Some (Some r, with_locks (union {[s]}) w)
           | None => Some (None, w)
           end
  | DropGuard s => fun _ w => Some (tt, with_locks (fun l => l ∖ {[s]}) w)
  | TrySend f => fun _ w =>
      Some (tt, match chan_send OUTBOUND_CAPACITY f (outbound w) with
                | Some (_, ch) => with_outbound ch w
                | None => w                       (* full: dropped *)
                end)
  | SendFrame f => fun _ w =>
      '(sent, ch) ← chan_send OUTBOUND_CAPACITY f (outbound w); Some (sent, with_outbound ch w)
  | NewSshStdin => fun _ w =>
      let id := fresh (dom (ssh_stdin w) ∪ dom (sftp_stdin w)) in
      Some (id, with_ssh_stdin (<[id := chan_new]> (ssh_stdin w)) w)
  | NewSftpStdin => fun _ w =>
      let id := fresh (dom (ssh_stdin w) ∪ dom (sftp_stdin w)) in
      Some (id, with_sftp_stdin (<[id := chan_new]> (sftp_stdin w)) w)
  | SendSsh stdin cmd => fun _ w =>
      '(sent, m) ← send_in SSH_STDIN_CAPACITY stdin cmd (ssh_stdin w); Some (sent, with_ssh_stdin m w)
  | SendSftp stdin cmd => fun _ w =>
      '(sent, m) ← send_in SFTP_STDIN_CAPACITY stdin cmd (sftp_stdin w); Some (sent, with_sftp_stdin m w)
  | Spawn t => fun _ w => Some (tt, with_spawned t w)
  | SelectSsh stdin => fun _ w =>
      let '(r, m) := select_in (bool_decide (stdin ∈ stopped (agent w))) stdin (ssh_stdin w) in
      Some (r, with_ssh_stdin m w)
  | SelectSftp stdin => fun _ w =>
      let '(r, m) := select_in (bool_decide (stdin ∈ stopped (agent w))) stdin (sftp_stdin w) in
      Some (r, with_sftp_stdin m w)
  | DropSsh stdin => fun _ w => Some (tt, with_ssh_stdin (alter chan_close stdin (ssh_stdin w)) w)
  | DropSftp stdin => fun _ w => Some (tt, with_sftp_stdin (alter chan_close stdin (sftp_stdin w)) w)
  | OnSftp f => fun _ w => let '(r, x) := f (fs w) in Some (r, with_fs x w)
  end.

#[global] Instance agent_handler : Handler agentE World SystemTime := @agent_exec.

Definition reading {R} (f : Agent -> R) : prog agentE R := perform (OnAgent (fun a => (f a, a))).
Definition updating (f : Agent -> Agent) : prog agentE unit := perform (OnAgent (fun a => (tt, f a))).

(** ** The transfer maps

    [get], [insert], [remove] and [get_mut] take the lock of the key's shard;
    [iter] and [retain] that of one shard after the other. *)
Definition upload_lock (key : TunnelKey) : Shard := (Uploads, upload_shard key).
Definition download_lock (key : TunnelKey) : Shard := (Downloads, download_shard key).

Definition uploads_get (key : TunnelKey) : prog agentE (option FileUpload) :=
  perform (OnShard (upload_lock key) (fun a => (uploads a !! key, a))).
Definition uploads_get_mut (key : TunnelKey) : prog agentE (option FileUpload) :=
  perform (HoldShard (upload_lock key) (fun a => uploads a !! key)).
Definition uploads_insert (key : TunnelKey) (u : FileUpload) : prog agentE unit :=
  perform (OnShard (upload_lock key) (fun a => (tt, with_uploads <[key := u]> a))).
Definition uploads_remove (key : TunnelKey) : prog agentE (option FileUpload) :=
  perform (OnShard (upload_lock key) (fun a => (uploads a !! key, with_uploads (delete key) a))).

Definition downloads_get_mut (key : TunnelKey) : prog agentE (option FileDownload) :=
  perform (HoldShard (download_lock key) (fun a => downloads a !! key)).
Definition downloads_insert (key : TunnelKey) (d : FileDownload) : prog agentE unit :=
  perform (OnShard (download_lock key) (fun a => (tt, with_downloads <[key := d]> a))).
Definition downloads_remove (key : TunnelKey) : prog agentE (option FileDownload) :=
  perform (OnShard (download_lock key) (fun a => (downloads a !! key, with_downloads (delete key) a))).

(** The entries of shard [i] that satisfy [P]. *)
Definition keys_in {A} (shard : TunnelKey -> nat) (i : nat) (P : TunnelKey * A -> bool) (m : gmap TunnelKey A) :
    list TunnelKey :=
  (filter (fun e : TunnelKey * A => shard e.1 = i /\ P e = true) (map_to_list m)).*1.

(** [iter().filter_map(..).collect()] *)
Fixpoint collect_keys (m : TransferMap) (keys : nat -> Agent -> list TunnelKey) (shards : list nat) :
    prog agentE (list TunnelKey) :=
  match shards with
  | [] => Ret []
  | i :: shards =>
      here ← perform (OnShard (m, i) (fun a => (keys i a, a)));
      rest ← collect_keys m keys shards;
      Ret (here ++ rest)
  end.

Definition uploads_keys (P : TunnelKey * FileUpload -> bool) : prog agentE (list TunnelKey) :=
  collect_keys Uploads (fun i a => keys_in upload_shard i P (uploads a)) (seq 0 shard_amount).
Definition downloads_keys (P : TunnelKey * FileDownload -> bool) : prog agentE (list TunnelKey) :=
  collect_keys Downloads (fun i a => keys_in download_shard i P (downloads a)) (seq 0 shard_amount).

Lemma collect_returns (P : TunnelKey -> Prop) m (look : nat -> Agent -> list TunnelKey) shards :
  (forall i a, Forall P (look i a)) -> returns (collect_keys m look shards) (Forall P).
Proof.
  intros Hlook. induction shards as [|i shards IH]; [by constructor|]. cbn [collect_keys]. intros c w r w' Hx. cbn in Hx.
  destruct (decide _); [done|]. injection Hx as <- <-. apply returns_bind. eapply returns_mono, IH.
  intros rest Hrest. apply Forall_app. by split.
Qed.

(** [retain] *)
Fixpoint uploads_retain_in (keep : TunnelKey * FileUpload -> bool) (shards : list nat) : prog agentE unit :=
  match shards with
  | [] => Ret tt
  | i :: shards =>
      perform (OnShard (Uploads, i) (fun a =>
        (tt, with_uploads (filter (fun e => upload_shard e.1 = i -> keep e = true)) a)));;
      uploads_retain_in keep shards
  end.
Definition uploads_retain (keep : TunnelKey * FileUpload -> bool) : prog agentE unit :=
  uploads_retain_in keep (seq 0 shard_amount).

(** ** [agent/src/common.rs] *)

(** [send_frame_data]: [try_send], dropping the frame when the queue is full
    or closed. *)
Definition send_frame_data (data : NodeFrameData.t) : prog agentE unit := perform (TrySend data).

(** [tx.send(frame).await] with the result ignored. *)
Definition send_frame (data : NodeFrameData.t) : prog agentE unit :=
  _ ← perform (SendFrame data); Ret tt.

Definition send_tunnel_data (sid : Z) (node_id : string) (data : Bytes) : prog agentE unit :=
  send_frame_data (NodeFrameData.WebFrame
    (WebFrameData.TunnelData (Protocol.as_u8 Protocol.SSH) node_id sid data) (SessionId sid)).

Definition send_requires_username_error (cid : Uuid) (msg_id : option Z) : prog agentE unit :=
  send_frame_data (NodeFrameData.WebFrame
    (WebFrameData.Error FrameError.RequiresUsername "Username is missing" msg_id) (ConnectionId cid)).

Definition send_requires_password_error (cid : Uuid) (msg_id : option Z) : prog agentE unit :=
  send_frame_data (NodeFrameData.WebFrame
    (WebFrameData.Error FrameError.RequiresPassword "Password is missing" msg_id) (ConnectionId cid)).

(** The error frame of a session, which every action of the SFTP tunnel
    sends with its own text. *)
Definition send_session_error (sid : Z) (message : string) (msg_id : option Z) : prog agentE unit :=
  send_frame (NodeFrameData.WebFrame
    (WebFrameData.Error FrameError.Generic message msg_id) (SessionId sid)).

(** [generate_session_id] and [generate_id]: [fetch_add(1)] wraps. *)
Definition generate_session_id : prog agentE Z :=
  perform (OnAgent (fun a => (session_id a, with_session_id (wrap 32 (session_id a + 1)) a))).
Definition generate_id : prog agentE Z :=
  perform (OnAgent (fun a => (id_counter a, with_id_counter (wrap 32 (id_counter a + 1)) a))).

(** [SessionHandle::shutdown]: sends the [oneshot] that stops the tunnel. *)
Definition handle_stdin (h : SessionHandle) : ChanId := match h with Ssh id | Sftp id => id end.
Definition shutdown (h : SessionHandle) : prog agentE unit :=
  updating (with_stopped (fun s => {[ handle_stdin h ]} ∪ s)).

(** ** Removal of abandoned transfers *)

Definition TRANSFER_TIMEOUT : Z := seconds (15 * 60).

Definition abandoned (now last_updated : SystemTime) : bool :=
  match duration_since now last_updated with
  | Ok elapsed => TRANSFER_TIMEOUT <? elapsed
  | Err _ => false
  end.

Lemma abandoned_idle now last : abandoned now last = true <-> last + TRANSFER_TIMEOUT < now.
Proof.
  unfold abandoned, duration_since. assert (0 < TRANSFER_TIMEOUT) by done.
  destruct (Z.leb_spec last now); [rewrite Z.ltb_lt; lia|split; [done|lia]].
Qed.

Context `{!SftpServer FS File}.

(** [let _ = file.sync_all().await] *)
Definition sync_all (file : File) : prog agentE unit :=
  _ ← perform (OnSftp (sftp_sync_all file)); Ret tt.

Fixpoint remove_uploads (keys : list TunnelKey) : prog agentE unit :=
  match keys with
  | [] => Ret tt
  | key :: keys =>
      removed ← uploads_remove key;
      match removed with
      | Some upload => sync_all (fu_sftp_file upload);; remove_uploads keys
      | None => remove_uploads keys
      end
  end.

Fixpoint remove_downloads_synced (keys : list TunnelKey) : prog agentE unit :=
  match keys with
  | [] => Ret tt
  | key :: keys =>
      removed ← downloads_remove key;
      match removed with
      | Some download => sync_all (fd_sftp_file download);; remove_downloads_synced keys
      | None => remove_downloads_synced keys
      end
  end.

Definition cleanup_abandoned_uploads : prog agentE unit :=
  now ← perform Now;
  keys_to_remove ← uploads_keys (fun e => abandoned now (fu_last_updated e.2));
  remove_uploads keys_to_remove.

Definition cleanup_abandoned_downloads : prog agentE unit :=
  now ← perform Now;
  keys_to_remove ← downloads_keys (fun e => abandoned now (fd_last_updated e.2));
  remove_downloads_synced keys_to_remove.
End state.
Arguments FileUpload File : clear implicits.
Arguments FileDownload File : clear implicits.
Arguments Agent File : clear implicits.
Arguments World FS File : clear implicits.
Arguments agentE FS File R : clear implicits.
