(* ===== verification/Config.v ===== *)
(** * Configuration from the environment

    The variables that the three programs read ([agent/src/env.rs],
    [server/src/env.rs], [relay/src/env.rs], [common/src/env.rs],
    [agent/src/ssh/auth.rs]) and the runtime they ask for
    ([common/src/runtime.rs]). *)

From S2P Require Import Prelude RustStr Protocol Externs Token ClientIp ServerState AgentState.

(** ** Values *)

(** [Mode]: [to_lowercase] of a string is one of the four words exactly when
    its ASCII lower case is, because no other letter becomes one of theirs. *)
Definition mode_from_str (s : string) : result string Mode :=
  let l := Str.to_ascii_lowercase s in
  if bool_decide (l = "development" \/ l = "dev") then Ok Development
  else if bool_decide (l = "production" \/ l = "prod") then Ok Production
  else Err ("invalid mode: " +:+ s).

Definition mode_to_string (m : Mode) : string :=
  match m with Development => "development" | Production => "production" end.

Definition auth_method_to_string (m : SSHAuthMethod.t) : string :=
  match m with SSHAuthMethod.Password => "Password" | SSHAuthMethod.None => "None" end.

(** [str::parse] for the integer types: an optional sign, then digits. *)
Definition parse_digits (s : string) : option Z :=
  let '(ds, rest) := read_digits 10 s in
  if negb (Str.is_empty rest) || (length ds =? 0)%nat then None else Some (number_of 10 ds).

Definition without_plus (s : string) : string := default s (read_given_char "+" s).

Definition parse_unsigned (bits : Z) (s : string) : option Z :=
  n ← parse_digits (without_plus s); if n <? 2 ^ bits then Some n else None.

Definition parse_signed (bits : Z) (s : string) : option Z :=
  match read_given_char "-" s with
  | Some s' => n ← parse_digits s'; if n <=? 2 ^ (bits - 1) then Some (- n) else None
  | None => n ← parse_digits (without_plus s); if n <? 2 ^ (bits - 1) then Some n else None
  end.

(** ** [#[derive(Envconfig)]]

    Each field names its variable; it is parsed from the variable, or from the
    field's default when the variable is not set.  The first field that fails
    ends the construction. *)

Definition Vars : Type := gmap string string.

Inductive VarError : Type :=
| EnvVarMissing (name : string)
| ParseError (name : string).

Definition parsed {A} (name : string) (o : option A) : result VarError A := ok_or (ParseError name) o.

Definition var_or {A} (parse : string -> option A) (name fallback : string) (vars : Vars) : result VarError A :=
  parsed name (parse (default fallback (vars !! name))).

Definition var {A} (parse : string -> option A) (name : string) (vars : Vars) : result VarError A :=
  match vars !! name with Some s => parsed name (parse s) | None => Err (EnvVarMissing name) end.

Definition var_opt {A} (parse : string -> option A) (name : string) (vars : Vars) : result VarError (option A) :=
  match vars !! name with Some s => a ← parsed name (parse s); Ok (Some a) | None => Ok None end.

Definition ok {E A} (r : result E A) : option A := match r with Ok a => Some a | Err _ => None end.
Definition parse_mode (s : string) : option Mode := ok (mode_from_str s).
Definition parse_text (s : string) : option string := Some s.

Definition agent_env (vars : Vars) : result VarError AgentState.Env :=
  mode ← var_or parse_mode "APP_MODE" "production" vars;
  host ← var_or parse_text "HOST" "0.0.0.0" vars;
  port ← var_or (parse_unsigned 16) "PORT" "8081" vars;
  stats_refresh_interval ← var_or (parse_unsigned 16) "STATS_REFRESH_INTERVAL" "30" vars;
  server_host ← var_or parse_text "SERVER_HOST" "api.phirepass.com" vars;
  server_port ← var_or (parse_unsigned 16) "SERVER_PORT" "443" vars;
  ssh_host ← var_or parse_text "SSH_HOST" "localhost" vars;
  ssh_port ← var_or (parse_unsigned 16) "SSH_PORT" "22" vars;
  ssh_auth_mode ← var_or (fun s => ok (SSHAuthMethod.from_str s)) "SSH_AUTH_METHOD" "password" vars;
  ssh_inactivity_secs ← var_or (parse_unsigned 64) "SSH_INACTIVITY_PERIOD" "3600" vars;
  Ok {| AgentState.mode := mode; AgentState.host := host; AgentState.port := port;
        AgentState.stats_refresh_interval := stats_refresh_interval; AgentState.server_host := server_host;
        AgentState.server_port := server_port; AgentState.ssh_host := ssh_host; AgentState.ssh_port := ssh_port;
        AgentState.ssh_auth_mode := ssh_auth_mode; AgentState.ssh_inactivity_secs := ssh_inactivity_secs |}.

(** The names that [ClientIpSource] of [axum_client_ip] knows. *)
Class IpSources := { known_source : string -> bool }.
Definition parse_source `{IpSources} (s : string) : option string := if known_source s then Some s else None.

Definition server_env `{IpSources} (vars : Vars) : result VarError ServerState.Env :=
  mode ← var_or parse_mode "APP_MODE" "production" vars;
  fqdn ← var_or parse_text "FQDN" "localhost" vars;
  ip_source ← var_or parse_source "IP_SOURCE" "ConnectInfo" vars;
  host ← var_or parse_text "HOST" "0.0.0.0" vars;
  port ← var_or (parse_unsigned 16) "PORT" "8080" vars;
  origin ← var_opt parse_text "ACCESS_CONTROL_ALLOW_ORIGIN" vars;
  database_url ← var parse_text "DATABASE_URL" vars;
  database_max_connections ← var_or (parse_unsigned 32) "DATABASE_MAX_CONNECTIONS" "5" vars;
  redis_database_url ← var parse_text "REDIS_DATABASE_URL" vars;
  jwt_secret ← var parse_text "JWT_SECRET" vars;
  jwt_ttl_secs ← var_or (parse_signed 64) "JWT_TTL_SECS" "300" vars;
  challenge_ttl_secs ← var_or (parse_signed 64) "CHALLENGE_TTL_SECS" "60" vars;
  Ok {| ServerState.mode := mode; ServerState.fqdn := fqdn; ServerState.ip_source := ip_source;
        ServerState.host := host; ServerState.port := port; ServerState.access_control_allowed_origin := origin;
        ServerState.database_url := database_url; ServerState.database_max_connections := database_max_connections;
        ServerState.redis_database_url := redis_database_url; ServerState.jwt_secret := jwt_secret;
        ServerState.jwt_ttl_secs := jwt_ttl_secs; ServerState.challenge_ttl_secs := challenge_ttl_secs |}.

Record RelayEnv : Type := { relay_mode : Mode; relay_host : string; relay_port : Z; relay_redis_url : string }.

Definition relay_env (vars : Vars) : result VarError RelayEnv :=
  mode ← var_or parse_mode "APP_MODE" "production" vars;
  host ← var_or parse_text "HOST" "0.0.0.0" vars;
  port ← var_or (parse_unsigned 16) "PORT" "8000" vars;
  url ← var_or parse_text "REDIS_DATABASE_URL" "redis://127.0.0.1" vars;
  Ok {| relay_mode := mode; relay_host := host; relay_port := port; relay_redis_url := url |}.

(** ** [RuntimeBuilder] *)

(** [tokio::runtime::Builder]: a number of threads must not be zero. *)
Class RuntimeApi := {
  Builder : Type;
  new_current_thread : Builder;
  new_multi_thread : Builder;
  worker_threads : Z -> Builder -> call Builder;
  max_blocking_threads : Z -> Builder -> call Builder;
  enable_all : Builder -> Builder }.

#[global] Instance call_bind : MBind call := fun A B f m => match m with Returns a => f a | Panics => Panics end.

Section runtime.
Context `{!RuntimeApi}.

Definition RuntimeBuilder_create (vars : Vars) : call Builder :=
  let flavor := default "multi_thread" (vars !! "TOKIO_FLAVOR") in
  let workers := vars !! "TOKIO_WORKER_THREADS" ≫= parse_unsigned 64 in
  let blocking := default 32 (vars !! "TOKIO_MAX_BLOCKING_THREADS" ≫= parse_unsigned 64) in
  let builder := if String.eqb flavor "current_thread" then new_current_thread else new_multi_thread in
  builder ← (if negb (String.eqb flavor "current_thread")
             then match workers with Some n => worker_threads n builder | None => Returns builder end
             else Returns builder);
  builder ← max_blocking_threads blocking builder;
  Returns (enable_all builder).

Definition with_worker_threads (n : Z) (self : Builder) : call Builder := worker_threads n self.
End runtime.

(** ** A number that was written in decimal is read back *)

Lemma read_decimal_digit (d : N) : (d < 10)%N -> to_digit 10 (pretty_N_char d) = Some (Z.of_N d).
Proof.
  intros Hd. assert (d = 0 \/ d = 1 \/ d = 2 \/ d = 3 \/ d = 4 \/ d = 5 \/ d = 6 \/ d = 7 \/ d = 8 \/ d = 9)%N
    as Hd' by lia. by repeat destruct Hd' as [->|Hd'] || subst d.
Qed.

Lemma read_digits_go n acc ds rest :
  read_digits 10 acc = (ds, rest) ->
  exists hd, read_digits 10 (pretty_N_go n acc) = (hd ++ ds, rest) /\ number_of 10 hd = Z.of_N n /\
    (n <> 0%N -> hd <> []).
Proof.
  revert acc ds. induction (N.lt_wf_0 n) as [n _ IH]; intros acc ds Hacc.
  destruct (decide (n = 0%N)) as [->|Hn]; [by exists []|].
  rewrite pretty_N_go_step by lia. set (d := (n `mod` 10)%N).
  assert (d < 10)%N as Hd by (by apply N.mod_lt).
  destruct (IH (n `div` 10)%N) with (acc := String (pretty_N_char d) acc) (ds := Z.of_N d :: ds) as (hd & Hr & Hnum & _).
  { apply N.div_lt; lia. } { cbn. rewrite read_decimal_digit by done. by rewrite Hacc. }
  exists (hd ++ [Z.of_N d]). rewrite <-app_assoc. split; [exact Hr|]. split; [|by destruct hd].
  unfold number_of in *. rewrite foldl_app, Hnum. cbn. pose proof (N.div_mod n 10 ltac:(done)). subst d. lia.
Qed.

Lemma read_digits_pretty (n : N) :
  exists ds, read_digits 10 (pretty n) = (ds, "") /\ number_of 10 ds = Z.of_N n /\ ds <> [].
Proof.
  unfold pretty, pretty_N. destruct (decide (n = 0%N)) as [->|Hn]; [by exists [0]|].
  destruct (read_digits_go n "" [] "" eq_refl) as (hd & Hr & Hnum & Hne). rewrite app_nil_r in Hr. eauto.
Qed.

Lemma parse_digits_pretty (n : N) : parse_digits (pretty n) = Some (Z.of_N n).
Proof.
  unfold parse_digits. destruct (read_digits_pretty n) as (ds & -> & -> & Hne). cbn. by destruct ds.
Qed.

(** The first character of a decimal number is not a sign. *)
Lemma pretty_no_sign (n : N) c : to_digit 10 c = None -> read_given_char c (pretty n) = None.
Proof.
  intros Hc. destruct (read_digits_pretty n) as (ds & Hr & _ & Hne). destruct (pretty n) as [|a s]; [done|]. cbn in *.
  destruct (Ascii.eqb_spec a c) as [->|]; [|done]. rewrite Hc in Hr. by injection Hr as <-.
Qed.

Lemma parse_unsigned_pretty bits n : 0 <= n < 2 ^ bits -> parse_unsigned bits (pretty n) = Some n.
Proof.
  intros Hn. assert (pretty n = pretty (Z.to_N n)) as -> by (by destruct n; [| |lia]).
  unfold parse_unsigned, without_plus. rewrite pretty_no_sign by done. cbn [default]. rewrite parse_digits_pretty.
  cbn -[Z.pow]. rewrite Z2N.id by lia. by destruct (Z.ltb_spec n (2 ^ bits)); [|lia].
Qed.

Lemma parse_signed_pretty bits n : - 2 ^ (bits - 1) <= n < 2 ^ (bits - 1) -> parse_signed bits (pretty n) = Some n.
Proof.
  intros Hn. destruct (Z.lt_ge_cases n 0) as [Hneg|Hpos].
  - destruct n as [|p|p]; [lia..|]. change (parse_signed bits (pretty (Zneg p))) with
      (n ← parse_digits (pretty (N.pos p)); if n <=? 2 ^ (bits - 1) then Some (- n) else None).
    rewrite parse_digits_pretty. cbn -[Z.pow]. by destruct (Z.leb_spec (Zpos p) (2 ^ (bits - 1))); [|lia].
  - assert (pretty n = pretty (Z.to_N n)) as -> by (by destruct n; [| |lia]).
    unfold parse_signed, without_plus. rewrite !pretty_no_sign by done. cbn [default]. rewrite parse_digits_pretty.
    cbn -[Z.pow]. rewrite Z2N.id by lia. by destruct (Z.ltb_spec n (2 ^ (bits - 1))); [|lia].
Qed.

(** ** The numbers of a configuration are within their types *)

Lemma to_digit_nonneg radix c d : to_digit radix c = Some d -> 0 <= d.
Proof.
  unfold to_digit. set (n := Z.of_N (N_of_ascii c)).
  repeat match goal with |- context [?a <=? ?b] => destruct (Z.leb_spec a b); cbn end;
    try done; cbn in *; (destruct (_ <? radix); [|done]); intros Hd; injection Hd as <-; lia.
Qed.

Lemma parse_digits_nonneg s n : parse_digits s = Some n -> 0 <= n.
Proof.
  unfold parse_digits. destruct (read_digits 10 s) as [ds rest] eqn:Hr. destruct (_ || _); [done|]. intros [= <-].
  assert (Forall (Z.le 0) ds) as Hds.
  { revert ds Hr. induction s as [|c s IH]; intros ds; cbn; [by intros [= <- _]|].
    destruct (to_digit 10 c) as [d|] eqn:Hd; [|by intros [= <- _]].
    destruct (read_digits 10 s) as [ds' r]. intros [= <- ->]. constructor; [by eapply to_digit_nonneg|by apply IH]. }
  assert (forall a, 0 <= a -> 0 <= foldl (fun n d => n * 10 + d) a ds) as Hfold; [|by apply Hfold].
  clear Hr. induction Hds as [|d ds Hd _ IH]; cbn; [done|]. intros a Ha. apply IH. lia.
Qed.

Lemma parse_unsigned_fits bits s n : parse_unsigned bits s = Some n -> 0 <= n < 2 ^ bits.
Proof.
  unfold parse_unsigned. intros (m & Hm%parse_digits_nonneg & Hn)%bind_Some.
  destruct (Z.ltb_spec m (2 ^ bits)); [|done]. injection Hn as <-. lia.
Qed.

Lemma parse_signed_fits bits s n : 0 < bits -> parse_signed bits s = Some n -> - 2 ^ (bits - 1) <= n < 2 ^ (bits - 1).
Proof.
  intros Hb. unfold parse_signed.
  assert (0 < 2 ^ (bits - 1)) by (apply Z.pow_pos_nonneg; lia).
  destruct (read_given_char "-" s) as [s'|].
  - intros (m & Hm%parse_digits_nonneg & Hn)%bind_Some.
    destruct (Z.leb_spec m (2 ^ (bits - 1))); [|done]. injection Hn as <-. lia.
  - intros (m & Hm%parse_digits_nonneg & Hn)%bind_Some.
    destruct (Z.ltb_spec m (2 ^ (bits - 1))); [|done]. injection Hn as <-. lia.
Qed.

Lemma parsed_ok {A} name (o : option A) a : parsed name o = Ok a -> o = Some a.
Proof. destruct o; cbn; congruence. Qed.

Lemma var_or_set {A} (parse : string -> option A) name d vars s a :
  vars !! name = Some s -> parse s = Some a -> var_or parse name d vars = Ok a.
Proof. unfold var_or. intros -> Hp. cbn. by rewrite Hp. Qed.

Lemma var_set {A} (parse : string -> option A) name (vars : Vars) s a :
  vars !! name = Some s -> parse s = Some a -> var parse name vars = Ok a.
Proof. unfold var. intros -> Hp. cbn. by rewrite Hp. Qed.

Lemma var_or_unsigned bits name d vars n : var_or (parse_unsigned bits) name d vars = Ok n -> 0 <= n < 2 ^ bits.
Proof. by intros Hp%parsed_ok%parse_unsigned_fits. Qed.

Lemma var_or_signed bits name d vars n :
  0 < bits -> var_or (parse_signed bits) name d vars = Ok n -> - 2 ^ (bits - 1) <= n < 2 ^ (bits - 1).
Proof. intros Hb. by intros Hp%parsed_ok%parse_signed_fits. Qed.

Lemma mode_roundtrip m : parse_mode (mode_to_string m) = Some m.
Proof. by destruct m. Qed.

Lemma auth_method_roundtrip m : ok (SSHAuthMethod.from_str (auth_method_to_string m)) = Some m.
Proof. by destruct m. Qed.

Lemma text_roundtrip s : parse_text s = Some s.
Proof. done. Qed.

Create HintDb config.
#[export] Hint Resolve mode_roundtrip text_roundtrip auth_method_roundtrip parse_unsigned_pretty parse_signed_pretty : config.

(** Every field of a configuration in the variable it is read from. *)
Definition agent_vars (e : AgentState.Env) : Vars := list_to_map [
  ("APP_MODE", mode_to_string (AgentState.mode e)); ("HOST", AgentState.host e); ("PORT", pretty (AgentState.port e));
  ("STATS_REFRESH_INTERVAL", pretty (stats_refresh_interval e)); ("SERVER_HOST", AgentState.server_host e);
  ("SERVER_PORT", pretty (server_port e)); ("SSH_HOST", ssh_host e); ("SSH_PORT", pretty (ssh_port e));
  ("SSH_AUTH_METHOD", auth_method_to_string (ssh_auth_mode e)); ("SSH_INACTIVITY_PERIOD", pretty (ssh_inactivity_secs e))].

Definition agent_fits (e : AgentState.Env) : Prop :=
  0 <= AgentState.port e < 2 ^ 16 /\ 0 <= stats_refresh_interval e < 2 ^ 16 /\ 0 <= server_port e < 2 ^ 16 /\
  0 <= ssh_port e < 2 ^ 16 /\ 0 <= ssh_inactivity_secs e < 2 ^ 64.

(** What stopped a program at [name]. *)
Definition stopped {A} (parse : string -> option A) (vars : Vars) (x : VarError) (name : string) : Prop :=
  match x with
  | EnvVarMissing n => n = name /\ vars !! name = None
  | ParseError n => n = name /\ exists s, vars !! name = Some s /\ parse s = None
  end.

Lemma var_or_err {A} (parse : string -> option A) name d vars x :
  is_Some (parse d) -> var_or parse name d vars = Err x -> x = ParseError name /\ exists s, vars !! name = Some s /\ parse s = None.
Proof.
  unfold var_or. intros [a Ha]. destruct (vars !! name) as [s|]; cbn; [|by rewrite Ha].
  destruct (parse s) eqn:Hs; [done|]. intros [= <-]. eauto.
Qed.

(** The first step of a chain: it failed, or the rest did. *)
Lemma bind_err {E A B} (m : result E A) (f : A -> result E B) x :
  (a ← m; f a) = Err x -> m = Err x \/ exists a, m = Ok a /\ f a = Err x.
Proof. destruct m; cbn; [right; eauto|left; congruence]. Qed.

Lemma bind_set {E A B} (m : result E A) (f : A -> result E B) a r : m = Ok a -> f a = r -> (a ← m; f a) = r.
Proof. by intros -> <-. Qed.

Ltac fields H := repeat (apply result_bind_ok in H as (? & ? & H)).

(** The agent starts with exactly the configurations whose numbers are within
    their types, a configuration written in the variables being the one it
    starts with; what stops it is a variable that is set and does not parse. *)
Theorem agent_env_spec vars :
  (forall e, agent_env vars = Ok e -> agent_fits e) /\
  (forall e, agent_fits e -> agent_vars e ⊆ vars -> agent_env vars = Ok e) /\
  (forall x, agent_env vars = Err x -> exists name s, x = ParseError name /\ vars !! name = Some s).
Proof.
  split; [|split].
  - intros e He. unfold agent_env in He. fields He. injection He as <-. unfold agent_fits. cbn [AgentState.port stats_refresh_interval server_port ssh_port ssh_inactivity_secs].
    eauto 10 using var_or_unsigned.
  - intros e (Hport & Hst & Hsp & Hssh & Hin) Hvars.
    assert (forall k v, agent_vars e !! k = Some v -> vars !! k = Some v) as Hset by (intros k v Hk; exact (lookup_weaken _ _ _ _ Hk Hvars)).
    unfold agent_env.
    repeat (eapply bind_set; [eapply var_or_set; [apply Hset; reflexivity|cbn [snd]; by eauto with config]|]).
    by destruct e.
  - intros x Hx. unfold agent_env in Hx.
    repeat (apply bind_err in Hx as [(-> & s & Hs & _)%var_or_err | (? & _ & Hx)]; [eauto|by eexists|]). done.
Qed.

Section server_config.
Context `{!IpSources}.

Lemma source_roundtrip s : known_source s = true -> parse_source s = Some s.
Proof. unfold parse_source. by intros ->. Qed.
#[local] Hint Resolve source_roundtrip : config.

(** The variables of a configuration but for the optional one. *)
Definition server_vars (e : ServerState.Env) : Vars := list_to_map [
  ("APP_MODE", mode_to_string (ServerState.mode e)); ("FQDN", fqdn e); ("IP_SOURCE", ip_source e);
  ("HOST", ServerState.host e); ("PORT", pretty (ServerState.port e)); ("DATABASE_URL", database_url e);
  ("DATABASE_MAX_CONNECTIONS", pretty (database_max_connections e)); ("REDIS_DATABASE_URL", redis_database_url e);
  ("JWT_SECRET", jwt_secret e); ("JWT_TTL_SECS", pretty (jwt_ttl_secs e));
  ("CHALLENGE_TTL_SECS", pretty (challenge_ttl_secs e))].

Definition server_fits (e : ServerState.Env) : Prop :=
  known_source (ip_source e) = true /\ 0 <= ServerState.port e < 2 ^ 16 /\
  0 <= database_max_connections e < 2 ^ 32 /\ - 2 ^ 63 <= jwt_ttl_secs e < 2 ^ 63 /\
  - 2 ^ 63 <= challenge_ttl_secs e < 2 ^ 63.

(** The variables a server cannot start without. *)
Definition needed : list string := ["DATABASE_URL"; "REDIS_DATABASE_URL"; "JWT_SECRET"].

Lemma var_opt_set name (o : option string) (vars : Vars) : vars !! name = o -> var_opt parse_text name vars = Ok o.
Proof. unfold var_opt. intros ->. by destruct o. Qed.

Lemma parse_source_known s a : parse_source s = Some a -> known_source a = true.
Proof. unfold parse_source. destruct (known_source s) eqn:Hs; [|done]. by intros [= <-]. Qed.

Lemma server_env_reads vars e : server_env vars = Ok e -> server_fits e.
Proof.
  unfold server_env. intros He. fields He. injection He as <-. unfold server_fits.
  cbn [ip_source ServerState.port database_max_connections jwt_ttl_secs challenge_ttl_secs].
  repeat match goal with H : var_or parse_source _ _ _ = Ok _ |- _ => apply parsed_ok, parse_source_known in H end.
  repeat match goal with H : var_or (parse_unsigned _) _ _ _ = Ok _ |- _ => apply var_or_unsigned in H end.
  repeat match goal with H : var_or (parse_signed 64) _ _ _ = Ok _ |- _ => apply var_or_signed in H; [|done] end.
  done.
Qed.

Lemma server_env_set vars e :
  server_fits e -> server_vars e ⊆ vars -> vars !! "ACCESS_CONTROL_ALLOW_ORIGIN" = access_control_allowed_origin e ->
  server_env vars = Ok e.
Proof.
  intros (Hsrc & Hport & Hmax & Hjwt & Hch) Hvars Horigin.
  assert (forall k v, server_vars e !! k = Some v -> vars !! k = Some v) as Hset
    by (intros k v Hk; exact (lookup_weaken _ _ _ _ Hk Hvars)).
  unfold server_env.
  repeat (eapply bind_set; [first [by apply var_opt_set
    | eapply var_or_set; [apply Hset; reflexivity|cbn [snd]; by eauto with config]
    | eapply var_set; [apply Hset; reflexivity|cbn [snd]; by eauto with config]]|]).
    by destruct e.
Qed.

Lemma var_err {A} (parse : string -> option A) name (vars : Vars) x : var parse name vars = Err x -> stopped parse vars x name.
Proof.
  unfold var. destruct (vars !! name) as [s|] eqn:Hs; [|by intros [= <-]].
  destruct (parse s) eqn:Hp; [done|]. intros [= <-]. cbn. eauto.
Qed.

Lemma server_env_stops vars x :
  known_source "ConnectInfo" = true -> server_env vars = Err x ->
  match x with
  | EnvVarMissing name => name ∈ needed /\ vars !! name = None
  | ParseError name => is_Some (vars !! name)
  end.
Proof.
  intros Hknown Hx. unfold server_env in Hx.
  repeat (apply bind_err in Hx as [Hx | (? & _ & Hx)];
    [first [apply var_or_err in Hx as (-> & s & Hs & _); [eauto|first [by eexists|by unfold parse_source; rewrite Hknown]]
      | apply var_err in Hx; destruct x; cbn in Hx; destruct Hx as (-> & Hs);
        [split; [set_solver|done]|destruct Hs as (? & ? & _); eauto]
      | unfold var_opt in Hx; by destruct (vars !! _)]|]).
  done.
Qed.
End server_config.

(** The server starts with exactly the configurations whose numbers are
    within their types and whose source of addresses is known; what stops it
    is a variable that is set and does not parse, or one of the three it
    needs that is not set. *)
Theorem server_env_spec `{!IpSources} vars :
  known_source "ConnectInfo" = true ->
  (forall e, server_env vars = Ok e -> server_fits e /\ forall name, name ∈ needed -> is_Some (vars !! name)) /\
  (forall e, server_fits e -> server_vars e ⊆ vars ->
     vars !! "ACCESS_CONTROL_ALLOW_ORIGIN" = access_control_allowed_origin e -> server_env vars = Ok e) /\
  (forall x, server_env vars = Err x ->
     match x with
     | EnvVarMissing name => name ∈ needed /\ vars !! name = None
     | ParseError name => is_Some (vars !! name)
     end).
Proof.
  intros Hknown. split; [|split].
  - intros e He. split; [by eapply server_env_reads|]. unfold server_env in He. fields He.
    repeat match goal with H : var _ ?n vars = Ok _ |- _ =>
      assert (is_Some (vars !! n)) by (unfold var in H; destruct (vars !! n); [by eexists|done]); clear H end.
    intros name. unfold needed. rewrite !elem_of_cons. by intros [->|[->|[->|Hnil%elem_of_nil]]].
  - intros e. apply server_env_set.
  - intros x. by apply server_env_stops.
Qed.

(** ** The relay and the runtime *)

Definition relay_vars (e : RelayEnv) : Vars := list_to_map [
  ("APP_MODE", mode_to_string (relay_mode e)); ("HOST", relay_host e); ("PORT", pretty (relay_port e));
  ("REDIS_DATABASE_URL", relay_redis_url e)].

Lemma relay_env_spec vars :
  (forall e, relay_env vars = Ok e -> 0 <= relay_port e < 2 ^ 16) /\
  (forall e, 0 <= relay_port e < 2 ^ 16 -> relay_vars e ⊆ vars -> relay_env vars = Ok e) /\
  (forall x, relay_env vars = Err x -> exists name s, x = ParseError name /\ vars !! name = Some s).
Proof.
  split; [|split].
  - intros e He. unfold relay_env in He. fields He. injection He as <-. eauto using var_or_unsigned.
  - intros e Hport Hvars. assert (forall k v, relay_vars e !! k = Some v -> vars !! k = Some v) as Hset
      by (intros k v Hk; exact (lookup_weaken _ _ _ _ Hk Hvars)).
    unfold relay_env. repeat (eapply bind_set; [eapply var_or_set; [apply Hset; reflexivity|cbn [snd]; by eauto with config]|]).
    by destruct e.
  - intros x Hx. unfold relay_env in Hx.
    repeat (apply bind_err in Hx as [(-> & s & Hs & _)%var_or_err | (? & _ & Hx)]; [eauto|by eexists|]). done.
Qed.

(** What the documentation of [tokio::runtime::Builder] says of a zero. *)
Class RuntimeLaws `{!RuntimeApi} := {
  worker_threads_panics n b : worker_threads n b = Panics <-> n = 0;
  max_blocking_threads_panics n b : max_blocking_threads n b = Panics <-> n = 0 }.

(** A value of a thread variable that is not a number is ignored; a zero
    stops the program before it reads its command line. *)
Lemma runtime_panics_iff `{!RuntimeApi, !RuntimeLaws} vars :
  RuntimeBuilder_create vars = Panics <->
  vars !! "TOKIO_FLAVOR" <> Some "current_thread" /\ (s ← vars !! "TOKIO_WORKER_THREADS"; parse_unsigned 64 s) = Some 0 \/
  (s ← vars !! "TOKIO_MAX_BLOCKING_THREADS"; parse_unsigned 64 s) = Some 0.
Proof.
  unfold RuntimeBuilder_create. set (flavor := default _ (vars !! "TOKIO_FLAVOR")).
  assert (String.eqb flavor "current_thread" = true <-> vars !! "TOKIO_FLAVOR" = Some "current_thread") as Hf.
  { rewrite String.eqb_eq. subst flavor. destruct (vars !! "TOKIO_FLAVOR"); cbn; split; congruence. }
  set (workers := vars !! "TOKIO_WORKER_THREADS" ≫= parse_unsigned 64).
  set (blocking := vars !! "TOKIO_MAX_BLOCKING_THREADS" ≫= parse_unsigned 64).
  assert (forall b, (builder ← max_blocking_threads (default 32 blocking) b; Returns (enable_all builder)) = Panics
    <-> blocking = Some 0) as Hmax.
  { intros b. pose proof (max_blocking_threads_panics (default 32 blocking) b) as Hm.
    destruct (max_blocking_threads _ b) as [a|]; cbn.
    - split; [done|]. intros Hb. rewrite Hb in Hm. by discriminate (proj2 Hm eq_refl).
    - split; [|done]. intros _. destruct blocking as [n|]; cbn in Hm; [f_equal; by apply Hm|].
      by discriminate (proj1 Hm eq_refl). }
  destruct (String.eqb flavor "current_thread") eqn:He.
  { cbn. rewrite Hmax. intuition congruence. }
  assert (vars !! "TOKIO_FLAVOR" <> Some "current_thread") by (rewrite <-Hf; done). cbn.
  destruct workers as [n|] eqn:Hw; [|cbn; rewrite Hmax; intuition congruence].
  pose proof (worker_threads_panics n new_multi_thread) as Hp. destruct (worker_threads n new_multi_thread) as [b|]; cbn.
  - rewrite Hmax. split; [auto|]. intros [[_ [= ->]]|?]; [|done]. by discriminate (proj2 Hp eq_refl).
  - split; [|done]. intros _. left. split; [done|]. f_equal. by apply Hp.
Qed.
