(* ===== verification/StatsText.v ===== *)
(** * The log line of the statistics: [format_mem], [format_duration] and
    [log_line] of [common/src/stats.rs]

    The floating point numbers are followed exactly: a number of bytes is
    rounded to the 53 bits of an [f64], divisions by 1024 are exact, and the
    decimals are those of [core::fmt], which rounds half to even. *)

From S2P Require Import Prelude RustStr Protocol ClientIp Config.

#[local] Arguments String.append : simpl nomatch.

(** ** Numbers *)

(** [n / d], rounded half to even. *)
Definition div_half_even (n d : Z) : Z :=
  let q := n / d in
  match 2 * (n mod d) ?= d with
  | Lt => q
  | Gt => q + 1
  | Eq => if Z.even q then q else q + 1
  end.

(** [n as f64] for a [u64]. *)
Definition as_f64 (n : Z) : Z :=
  let unit := 2 ^ (Z.log2 n - 52) in
  if n <? 2 ^ 53 then n else div_half_even n unit * unit.

(** A number below [10 ^ digits], with leading zeroes. *)
Definition padded (digits : nat) (n : Z) : string :=
  let s := pretty n in Str.repeat "0"%char (digits - String.length s) +:+ s.

(** [{:.places}] of [num / den]. *)
Definition fixed (places : nat) (num den : Z) : string :=
  let scale := 10 ^ Z.of_nat places in
  let q := div_half_even (num * scale) den in
  pretty (q / scale) +:+ "." +:+ padded places (q mod scale).

(** [{:.places}] of an IEEE number with [e] bits of exponent and [m] of
    mantissa. *)
Definition fixed_float (e m : Z) (places : nat) (bits : Z) : string :=
  let sign := if Z.testbit bits (e + m) then "-" else "" in
  let ex := Z.land (Z.shiftr bits m) (Z.ones e) in
  let frac := Z.land bits (Z.ones m) in
  if ex =? Z.ones e then if frac =? 0 then sign +:+ "inf" else "NaN"
  else
    let mantissa := if ex =? 0 then frac else frac + 2 ^ m in
    let exponent := Z.max ex 1 - (2 ^ (e - 1) - 1) - m in
    sign +:+ (if 0 <=? exponent then fixed places (mantissa * 2 ^ exponent) 1
              else fixed places mantissa (2 ^ (- exponent))).

Definition fixed_f32 : nat -> Z -> string := fixed_float 8 23.
Definition fixed_f64 : nat -> Z -> string := fixed_float 11 52.

(** ** [stats.rs] *)

(** The loop of [format_mem]: [size] is [n / 1024 ^ k]. *)
Fixpoint next_units (n : Z) (k : Z) (unit : string) (units : list string) : Z * string :=
  match units with
  | [] => (k, unit)
  | next :: units => if n <? 1024 * 1024 ^ k then (k, unit) else next_units n (k + 1) next units
  end.

Definition format_mem (bytes : Z) : string :=
  let size := as_f64 bytes in
  let '(k, unit) := next_units size 0 "B" ["KiB"; "MiB"; "GiB"; "TiB"; "PiB"] in
  fixed 1 size (1024 ^ k) +:+ " " +:+ unit.

Definition format_duration (secs : Z) : string :=
  let hours := secs / 3600 in
  let minutes := secs mod 3600 / 60 in
  let seconds := secs mod 60 in
  padded 2 hours +:+ ":" +:+ padded 2 minutes +:+ ":" +:+ padded 2 seconds.

Definition log_line (self : Stats) : string :=
  let '(load1, load5, load15) := host_load_average self in
  "pid=" +:+ proc_id self +:+ " threads=" +:+ pretty (proc_threads self) +:+ " cpu=" +:+ fixed_f32 1 (proc_cpu self) +:+
  "% mem=" +:+ format_mem (proc_mem_bytes self) +:+ " uptime=" +:+ format_duration (proc_uptime_secs self) +:+
  " | host=" +:+ host_name self +:+ " ip=" +:+ host_ip self +:+ " os=" +:+ host_os_info self +:+
  " cpu=" +:+ fixed_f32 1 (host_cpu self) +:+ "% mem=" +:+ format_mem (host_mem_used_bytes self) +:+ "/" +:+
  format_mem (host_mem_total_bytes self) +:+ " procs=" +:+ pretty (host_processes self) +:+
  " host_conns=" +:+ pretty (host_connections self) +:+ " load=" +:+ fixed_f64 2 load1 +:+ "/" +:+ fixed_f64 2 load5 +:+
  "/" +:+ fixed_f64 2 load15 +:+ " uptime=" +:+ format_duration (host_uptime_secs self).

Example mem_texts :
  map format_mem [0; 1023; 1024; 1536; 1048575; 1073741824; 2 ^ 60; 2 ^ 64 - 1] =
    ["0.0 B"; "1023.0 B"; "1.0 KiB"; "1.5 KiB"; "1024.0 KiB"; "1.0 GiB"; "1024.0 PiB"; "16384.0 PiB"].
Proof. vm_compute. reflexivity. Qed.

(** 12.5, 0.25 and 0.75 as [f32]; 1.005, infinity and -0.004 as [f64]. *)
Example float_texts :
  map (fixed_f32 1) [1095237632; 1048576000; 1061158912] = ["12.5"; "0.2"; "0.8"] /\
  map (fixed_f64 2) [4607204936798154260; 9218868437227405312; 13794633745026886140] = ["1.00"; "inf"; "-0.00"].
Proof. vm_compute. done. Qed.

(** ** What the texts say *)

Lemma div_half_even_close n d : 0 < d -> - d <= 2 * (div_half_even n d * d - n) <= d.
Proof.
  intros Hd. unfold div_half_even. pose proof (Z.div_mod n d ltac:(lia)) as Hn.
  pose proof (Z.mod_pos_bound n d Hd). destruct (Z.compare_spec (2 * (n mod d)) d); [destruct (Z.even _)|..]; nia.
Qed.

(** A number of bytes below [2 ^ 53] is an [f64]; a larger one is rounded to
    one that is off by at most one part in [2 ^ 53]. *)
Lemma as_f64_close n : 0 <= n -> - n <= 2 ^ 53 * (as_f64 n - n) <= n.
Proof.
  intros Hn. unfold as_f64. destruct (Z.ltb_spec n (2 ^ 53)) as [|Hbig]; [lia|].
  assert (2 ^ Z.log2 n <= n < 2 ^ Z.succ (Z.log2 n)) as [Hlow _] by (apply Z.log2_spec; lia).
  assert (53 <= Z.log2 n) as Hlog by (apply Z.log2_le_pow2; lia).
  set (u := 2 ^ (Z.log2 n - 52)). assert (0 < u) by (apply Z.pow_pos_nonneg; lia).
  assert (2 ^ Z.log2 n = 2 ^ 52 * u) as Hu by (unfold u; rewrite <-Z.pow_add_r by lia; f_equal; lia).
  pose proof (div_half_even_close n u ltac:(done)). nia.
Qed.

Definition units : list string := ["B"; "KiB"; "MiB"; "GiB"; "TiB"; "PiB"].

Lemma next_units_spec n k unit us :
  0 <= k -> (forall j u, (unit :: us) !! j = Some u -> units !! (Z.to_nat k + j)%nat = Some u) ->
  Z.of_nat (length us) + k = 5 -> (k = 0 \/ 1024 ^ k <= n) ->
  let '(k', unit') := next_units n k unit us in
  0 <= k' <= 5 /\ units !! Z.to_nat k' = Some unit' /\ (k' = 0 \/ 1024 ^ k' <= n) /\ (k' = 5 \/ n < 1024 ^ (k' + 1)).
Proof.
  revert k unit. induction us as [|next us IH]; intros k unit Hk Hunits Hlen Hlow; cbn [next_units].
  - pose proof (Hunits 0%nat unit eq_refl) as Hu. rewrite Nat.add_0_r in Hu. cbn in Hlen.
    split; [lia|]. split; [done|]. split; [done|left; lia].
  - pose proof (Hunits 0%nat unit eq_refl) as Hu. rewrite Nat.add_0_r in Hu. cbn [length] in Hlen.
    assert (1024 ^ (k + 1) = 1024 * 1024 ^ k) as Hpow by (rewrite Z.pow_add_r by lia; lia).
    destruct (Z.ltb_spec n (1024 * 1024 ^ k)) as [Hlt|Hge].
    + split; [lia|]. split; [done|]. split; [done|right; lia].
    + apply IH; [lia| |lia|right; lia]. intros j u Hj. replace (Z.to_nat (k + 1) + j)%nat with (Z.to_nat k + S j)%nat by lia.
      by apply Hunits.
Qed.

(** The text of a number of bytes gives it in tenths of the unit that leaves
    less than 1024 of it, as far as there are units, and is off by at most
    half a tenth of what an [f64] holds of it. *)
Theorem format_mem_spec bytes :
  0 <= bytes < 2 ^ 64 ->
  exists k q unit, 0 <= k <= 5 /\ units !! Z.to_nat k = Some unit /\
    format_mem bytes = pretty (q / 10) +:+ "." +:+ padded 1 (q mod 10) +:+ " " +:+ unit /\
    (k = 0 \/ 1024 ^ k <= as_f64 bytes) /\ (k = 5 \/ as_f64 bytes < 1024 ^ (k + 1)) /\
    - 1024 ^ k <= 2 * (q * 1024 ^ k - 10 * as_f64 bytes) <= 1024 ^ k.
Proof.
  intros Hb. unfold format_mem. set (n := as_f64 bytes).
  pose proof (next_units_spec n 0 "B" ["KiB"; "MiB"; "GiB"; "TiB"; "PiB"] ltac:(done) ltac:(done) ltac:(done) ltac:(by left)) as Hunits.
  destruct (next_units _ _ _ _) as [k unit]. destruct Hunits as (Hk & Hu & Hlow & Hhigh).
  exists k, (div_half_even (n * 10) (1024 ^ k)), unit. split; [done|]. split; [done|]. split.
  { unfold fixed. cbn [Z.of_nat]. change (10 ^ Z.pos (Pos.of_succ_nat 0)) with 10. by rewrite <-!Str.app_assoc. }
  split; [done|]. split; [done|].
  pose proof (div_half_even_close (n * 10) (1024 ^ k) ltac:(apply Z.pow_pos_nonneg; lia)). lia.
Qed.

(** A duration is read back from its text. *)
Definition read_decimal (s : string) : Z * string := let '(ds, rest) := read_digits 10 s in (number_of 10 ds, rest).

Definition read_duration (s : string) : option Z :=
  let '(hours, s) := read_decimal s in
  s ← read_given_char ":" s;
  let '(minutes, s) := read_decimal s in
  s ← read_given_char ":" s;
  let '(seconds, s) := read_decimal s in
  if Str.is_empty s then Some (3600 * hours + 60 * minutes + seconds) else None.

Lemma read_zeroes k ds s rest : read_digits 10 s = (ds, rest) -> read_digits 10 (Str.repeat "0" k +:+ s) = (replicate k 0 ++ ds, rest).
Proof. intros Hs. induction k as [|k IH]; cbn; [done|]. by rewrite IH. Qed.

Lemma number_of_zeroes k ds : number_of 10 (replicate k 0 ++ ds) = number_of 10 ds.
Proof. unfold number_of. by induction k. Qed.

Lemma read_padded k n rest :
  0 <= n -> match rest with String c _ => to_digit 10 c = None | "" => True end ->
  read_decimal (padded k n +:+ rest) = (n, rest).
Proof.
  intros Hn Hrest. unfold read_decimal, padded. cbv zeta.
  assert (pretty n = pretty (Z.to_N n)) as -> by (by destruct n; [| |lia]).
  destruct (read_digits_pretty (Z.to_N n)) as (ds & Hr & Hnum & _).
  rewrite Str.app_assoc. rewrite (read_zeroes _ ds _ rest) by (by apply read_digits_app).
  by rewrite number_of_zeroes, Hnum, Z2N.id.
Qed.

(** No two durations have the same text. *)
Theorem duration_roundtrip secs : 0 <= secs -> read_duration (format_duration secs) = Some secs.
Proof.
  intros Hs. unfold read_duration, format_duration. cbv zeta.
  assert (0 <= secs / 3600 /\ 0 <= secs mod 3600 / 60 /\ 0 <= secs mod 60 /\
    3600 * (secs / 3600) + 60 * (secs mod 3600 / 60) + secs mod 60 = secs) as (Hh & Hm & Hx & Hsum).
  { Z.to_euclidean_division_equations. lia. }
  rewrite read_padded by done. cbn -[padded]. rewrite read_padded by done. cbn -[padded].
  rewrite <-(Str.app_nil_r (padded 2 (secs mod 60))), read_padded by done. cbn. by rewrite Hsum.
Qed.
