(* ===== verification/AgentWs.v ===== *)
(** * The agent's WebSocket connection: [agent/src/ws.rs]

    Authentication against the server, the dispatch of the server's frames to
    the tunnels, opening and closing of tunnels, and the heartbeat. *)

From S2P Require Import Prelude Async Mpsc RustStr Protocol Frame Externs AgentState.

Section ws.
Context {FS File : Type} {dm : DashMaps} `{!SftpServer FS File, !UuidText}.
Context `{!Serde WebFrameData.t, !Serde NodeFrameData.t}.
Abbreviation task := (prog (agentE FS File)).

(** [s.split_once("://").map(|(_, rest)| rest).unwrap_or(s)] *)
Definition strip_scheme (s : string) : string :=
  match Str.split_once_str "://" s with Some (_, rest) => rest | None => s end.

Definition generate_server_endpoint (mode : Mode) (server_host : string) (server_port : Z) : string :=
  let server_host := strip_scheme server_host in
  match mode with
  | Development =>
      if server_port =? 80 then "ws://" +:+ server_host
      else "ws://" +:+ server_host +:+ ":" +:+ pretty server_port
  | Production =>
      if server_port =? 443 then "wss://" +:+ server_host
      else "wss://" +:+ server_host +:+ ":" +:+ pretty server_port
  end.

(** [Option::expect] *)
Definition expect {A} (o : option A) : task A := match o with Some a => Ret a | None => Panic end.

(** ** Authentication *)

(** The first message of a connection. *)
Definition auth_message (version : string) (node_id : Uuid) (token : string) : result string bytes :=
  to_bytes (from_node (NodeFrameData.Auth token node_id version)).

(** The next item of the socket, when it is a binary message holding a node
    frame. *)
Definition read_next_frame (reader : WsStream) : option NodeFrameData.t * WsStream :=
  match reader with
  | [] => (None, [])
  | Ok (Binary data) :: reader =>
      (match decode native data with
       | Returns (Ok frame) =>
           match Frame.data frame with FrameData.Node data => Some data | FrameData.Web _ => None end
       | Returns (Err _) => None
       | Panics => None              (* never: see [decode_native_spec] *)
       end, reader)
  | _ :: reader => (None, reader)
  end.

Definition read_auth_response (reader : WsStream) : result string (Uuid * string) * WsStream :=
  let '(frame, reader) := read_next_frame reader in
  (match frame with
   | None => Err "failed to read auth response"
   | Some (NodeFrameData.AuthResponse node_id success version) =>
       if success then Ok (node_id, version) else Err "failed to authenticate node"
   | Some _ => Err "wrong frame type, expected NodeFrameData::Auth"
   end, reader).

(** [connect] up to the point where its tasks are spawned. *)
Definition authenticate (node_id : Uuid) (reader : WsStream) : result string unit * WsStream :=
  let '(r, reader) := read_auth_response reader in
  (match r with
   | Err e => Err e
   | Ok (received_node_id, _) =>
       if bool_decide (node_id = received_node_id) then Ok tt
       else Err ("node_id mismatch: local=" +:+ uuid_to_string node_id +:+ ", server=" +:+ uuid_to_string received_node_id)
   end, reader).

(** ** Forwarding to a tunnel *)

Definition send_to_sftp (cid : Uuid) (sid : Z) (cmd : SFTPCommand) : task (result string unit) :=
  stdin ← reading (fun a => sessions a !! (cid, sid));
  match stdin with
  | None => Ret (Err ("no session found for connection " +:+ uuid_to_string cid))
  | Some (Ssh _) => Ret (Err ("no sftp tunnel found for connection " +:+ uuid_to_string cid))
  | Some (Sftp stdin) =>
      sent ← perform (SendSftp stdin cmd);
      Ret (if (sent : bool) then Ok tt else Err "channel closed")
  end.

Definition send_to_ssh (cid : Uuid) (sid : Z) (cmd : SSHCommand) : task (result string unit) :=
  stdin ← reading (fun a => sessions a !! (cid, sid));
  match stdin with
  | None => Ret (Err ("no session found for connection " +:+ uuid_to_string cid))
  | Some (Sftp _) => Ret (Err ("no ssh tunnel found for connection " +:+ uuid_to_string cid))
  | Some (Ssh stdin) =>
      sent ← perform (SendSsh stdin cmd);
      Ret (if (sent : bool) then Ok tt else Err "channel closed")
  end.

Definition send_sftp_list_data cid sid path msg_id := send_to_sftp cid sid (List path msg_id).
Definition send_sftp_upload_start_data cid sid msg_id upload := send_to_sftp cid sid (UploadStart upload msg_id).
Definition send_sftp_upload_data cid sid msg_id chunk := send_to_sftp cid sid (Upload chunk msg_id).
Definition send_sftp_delete_data cid sid msg_id data := send_to_sftp cid sid (Delete data msg_id).
Definition send_sftp_download_start_data cid sid msg_id download := send_to_sftp cid sid (DownloadStart download msg_id).
Definition send_sftp_download_chunk_data cid sid msg_id chunk := send_to_sftp cid sid (DownloadChunk chunk msg_id).
Definition send_sftp_download_chunk_request cid sid msg_id (download_id chunk_index : Z) :=
  send_to_sftp cid sid (DownloadChunk
    {| dc_download_id := download_id; dc_chunk_index := chunk_index; dc_chunk_size := 0; dc_data := [] |} msg_id).
Definition send_ssh_tunnel_data cid sid data := send_to_ssh cid sid (Data data).
Definition send_ssh_forward_resize cid sid cols rows px_width px_height :=
  send_to_ssh cid sid (Resize cols rows px_width px_height).

(** ** Closing everything a client has open *)

Definition keys_of {A} (cid : Uuid) (m : gmap TunnelKey A) : list TunnelKey :=
  (filter (fun e : TunnelKey * A => e.1.1 = cid) (map_to_list m)).*1.

Fixpoint close_tunnels (keys : list TunnelKey) : task unit :=
  match keys with
  | [] => Ret tt
  | key :: keys =>
      removed ← perform (OnAgent (fun a => (sessions a !! key, with_tunnels (delete key) a)));
      match removed with
      | Some handle => shutdown handle;; close_tunnels keys
      | None => close_tunnels keys
      end
  end.

Fixpoint drop_downloads (keys : list TunnelKey) : task unit :=
  match keys with
  | [] => Ret tt
  | key :: keys =>
      _ ← downloads_remove key;
      drop_downloads keys
  end.

Definition close_tunnels_for_cid (cid : Uuid) : task unit :=
  keys_to_remove ← reading (fun a => keys_of cid (sessions a));
  close_tunnels keys_to_remove.

Definition close_uploads_for_cid (cid : Uuid) : task unit :=
  keys_to_remove ← uploads_keys (fun e => bool_decide (e.1.1 = cid));
  remove_uploads keys_to_remove.

Definition close_downloads_for_cid (cid : Uuid) : task unit :=
  keys_to_remove ← downloads_keys (fun e => bool_decide (e.1.1 = cid));
  drop_downloads keys_to_remove.

(** The end of [connect]: every session, upload and download. *)
Definition close_all : task unit :=
  session_keys ← reading (fun a => (map_to_list (sessions a)).*1);
  close_tunnels session_keys;;
  upload_keys ← uploads_keys (fun _ => true);
  remove_uploads upload_keys;;
  download_keys ← downloads_keys (fun _ => true);
  remove_downloads_synced download_keys.

(** ** Opening a tunnel *)

(** [username.trim().is_empty()] or no username at all. *)
Definition blank (s : option string) : bool :=
  match s with Some s => Str.is_empty (Str.trim s) | None => true end.

Definition ensure_credentials (config : Env) (cid : Uuid) (username password : option string) (msg_id : option Z) :
    task (result string unit) :=
  if blank username then
    send_requires_username_error cid msg_id;; Ret (Err "received open tunnel without username")
  else
    match ssh_auth_mode config with
    | SSHAuthMethod.Password =>
        if blank password then
          send_requires_password_error cid msg_id;; Ret (Err "received open tunnel without password")
        else Ret (Ok tt)
    | SSHAuthMethod.None => Ret (Ok tt)
    end.

Definition config_auth (config : Env) (username password : option string) : task ConfigAuth :=
  match ssh_auth_mode config with
  | SSHAuthMethod.Password =>
      username ← expect username;
      password ← expect password;
      Ret (UsernamePassword username password)
  | SSHAuthMethod.None => username ← expect username; Ret (Username username)
  end.

(** The session id is drawn by [SFTPConnection::new]; the tunnel's own task is
    in [AgentTunnel]. *)
Definition insert_session (key : TunnelKey) (handle : SessionHandle) : task unit :=
  previous ← perform (OnAgent (fun a => (sessions a !! key, with_tunnels <[key := handle]> a)));
  match previous with
  | Some prev => shutdown prev
  | None => Ret tt
  end.

Definition start_sftp_tunnel (cid : Uuid) (credentials : ConfigAuth) (msg_id : option Z) : task unit :=
  stdin ← perform NewSftpStdin;
  sid ← generate_session_id;
  perform (Spawn {| tn_protocol := Protocol.SFTP; tn_cid := cid; tn_sid := sid; tn_msg_id := msg_id;
                    tn_credentials := credentials; tn_stdin := stdin |});;
  insert_session (cid, sid) (Sftp stdin).

Definition start_ssh_tunnel (cid : Uuid) (credentials : ConfigAuth) (msg_id : option Z) : task unit :=
  stdin ← perform NewSshStdin;
  sid ← generate_session_id;
  perform (Spawn {| tn_protocol := Protocol.SSH; tn_cid := cid; tn_sid := sid; tn_msg_id := msg_id;
                    tn_credentials := credentials; tn_stdin := stdin |});;
  insert_session (cid, sid) (Ssh stdin).

(** ** Messages *)

Definition handle_open_tunnel (config : Env) (protocol : Z) (cid : Uuid) (username password : option string)
    (msg_id : option Z) : task unit :=
  ensured ← ensure_credentials config cid username password msg_id;
  match ensured with
  | Err _ => Ret tt
  | Ok _ =>
      protocol ← lift_call (Protocol.try_from protocol);
      match protocol with
      | Ok Protocol.SFTP =>
          auth ← config_auth config username password; start_sftp_tunnel cid auth msg_id
      | Ok Protocol.SSH =>
          auth ← config_auth config username password; start_ssh_tunnel cid auth msg_id
      | Err _ => Ret tt
      end
  end.

(** A forwarding error is only logged. *)
Definition logged (p : task (result string unit)) : task unit := _ ← p; Ret tt.

Definition handle_message (config : Env) (data : NodeFrameData.t) : task unit :=
  match data with
  | NodeFrameData.OpenTunnel protocol cid username password msg_id =>
      handle_open_tunnel config protocol cid username password msg_id
  | NodeFrameData.HeartbeatAck _ _ =>
      now ← perform Now; updating (with_last_heartbeat (millis_of now))
  | NodeFrameData.ConnectionDisconnect cid =>
      close_tunnels_for_cid cid;; close_uploads_for_cid cid;; close_downloads_for_cid cid
  | NodeFrameData.SSHWindowResize cid sid cols rows px_width px_height =>
      logged (send_ssh_forward_resize cid sid cols rows px_width px_height)
  | NodeFrameData.TunnelData protocol cid sid data =>
      if protocol =? Protocol.as_u8 Protocol.SSH then logged (send_ssh_tunnel_data cid sid data) else Ret tt
  | NodeFrameData.SFTPList cid path sid msg_id => logged (send_sftp_list_data cid sid path msg_id)
  | NodeFrameData.SFTPUploadStart cid sid msg_id upload => logged (send_sftp_upload_start_data cid sid msg_id upload)
  | NodeFrameData.SFTPUpload cid sid msg_id chunk => logged (send_sftp_upload_data cid sid msg_id chunk)
  | NodeFrameData.SFTPDownloadStart cid sid msg_id download =>
      logged (send_sftp_download_start_data cid sid msg_id download)
  | NodeFrameData.SFTPDownloadChunkRequest cid sid msg_id download_id chunk_index =>
      logged (send_sftp_download_chunk_request cid sid msg_id download_id chunk_index)
  | NodeFrameData.SFTPDownloadChunk cid sid msg_id chunk =>
      logged (send_sftp_download_chunk_data cid sid msg_id chunk)
  | NodeFrameData.SFTPDelete cid sid msg_id data => logged (send_sftp_delete_data cid sid msg_id data)
  | _ => Ret tt
  end.

(** [spawn_reader_task]: a malformed or a web frame ends the task. *)
Fixpoint reader_task (config : Env) (reader : WsStream) : task unit :=
  match reader with
  | [] => Ret tt
  | Ok (Binary data) :: reader =>
      frame ← lift_call (decode native data);
      match frame with
      | Err _ => Ret tt
      | Ok frame =>
          match Frame.data frame with
          | FrameData.Web _ => Ret tt
          | FrameData.Node data => handle_message config data;; reader_task config reader
          end
      end
  | Ok (Close _) :: _ => Ret tt
  | _ :: reader => reader_task config reader
  end.

(** One tick of [spawn_heartbeat_task], with the statistics it gathers. *)
Definition heartbeat_tick (interval : Z) (stats : option Stats) : task Flow :=
  let timeout_ms := interval * 1000 * 3 in
  now ← perform Now;
  last ← reading last_heartbeat;
  if (0 <? last) && (timeout_ms <? saturating_sub (millis_of now) last) then Ret Break
  else
    match stats with
    | None => Ret Continue
    | Some stats =>
        sent_at ← perform Now;
        send_frame_data (NodeFrameData.Heartbeat stats (millis_of sent_at));; Ret Continue
    end.

Fixpoint heartbeat_task (interval : Z) (ticks : list (option Stats)) : task unit :=
  match ticks with
  | [] => Ret tt
  | stats :: ticks =>
      flow ← heartbeat_tick interval stats;
      match flow with Break => Ret tt | Continue => heartbeat_task interval ticks end
  end.

(** One turn of the write task of [connect]: a frame that does not encode, or
    that the socket does not take, is dropped and the task goes on. *)
Definition write_turn (socket_ok : bool) (ch : Channel NodeFrameData.t) : option (Channel NodeFrameData.t) :=
  match queue ch with
  | [] => None
  | f :: q =>
      let put bs := {| queue := q; rx := rx ch; sent := sent ch; written := written ch ++ [f]; wire := wire ch ++ bs |} in
      Some match to_bytes (from_node f), socket_ok with
           | Ok data, true => put [data]
           | _, _ => {| queue := q; rx := rx ch; sent := sent ch; written := written ch; wire := wire ch |}
           end
  end.

(** One tick of [spawn_cleanup_task], every five minutes. *)
Definition cleanup_tick : task unit := cleanup_abandoned_uploads;; cleanup_abandoned_downloads.

(** [connect], when it is the reader that ends: the other tasks of its
    [select!] run beside it. *)
Definition connect (config : Env) (node_id : Uuid) (reader : WsStream) : task (result string unit) :=
  let '(r, reader) := authenticate node_id reader in
  match r with
  | Err e => Ret (Err e)
  | Ok _ => reader_task config reader;; close_all;; Ret (Ok tt)
  end.
End ws.

(** ** What the handlers promise *)

Section ws_facts.
Context {FS File : Type} {dm : DashMaps} `{!SftpServer FS File, !UuidText}.
Context `{!Serde WebFrameData.t, !Serde NodeFrameData.t}.
Implicit Types (w : World FS File) (a : Agent File) (cs : nat -> SystemTime) (k key : TunnelKey) (keys : list TunnelKey) (cid : Uuid).

(** [m'] is [m] without the keys that satisfy [P]. *)
Definition without {A} (P : TunnelKey -> Prop) (m m' : gmap TunnelKey A) : Prop :=
  forall k, (P k -> m' !! k = None) /\ (~ P k -> m' !! k = m !! k).

Lemma without_delete {A} key keys (m m' : gmap TunnelKey A) :
  without (fun k => k ∈ keys) (delete key m) m' -> without (fun k => k ∈ key :: keys) m m'.
Proof.
  intros Hm k. destruct (Hm k) as [Hin Hout]. destruct (decide (k ∈ keys)) as [Hk|Hk]; split; intros HP.
  - auto.
  - set_solver.
  - apply elem_of_cons in HP as [->|]; [|done]. rewrite Hout by done. apply lookup_delete_eq.
  - rewrite Hout by done. apply lookup_delete_ne. set_solver.
Qed.

Lemma without_nil {A} (m : gmap TunnelKey A) : without (fun k => k ∈ @nil TunnelKey) m m.
Proof. split; [set_solver|done]. Qed.

Lemma elem_of_keys_of {A} cid (m : gmap TunnelKey A) k :
  k ∈ keys_of cid m <-> k.1 = cid /\ is_Some (m !! k).
Proof.
  unfold keys_of. rewrite list_elem_of_fmap. split.
  - intros ([k' x] & -> & Hin). apply list_elem_of_filter in Hin as [Hc Hin%elem_of_map_to_list]. cbn in *. eauto.
  - intros [Hc [x Hx]]. exists (k, x). split; [done|]. apply list_elem_of_filter. split; [done|].
    by apply elem_of_map_to_list.
Qed.

(** The keys of a map that a collection with [P] finds. *)
Lemma without_found {A} (P : TunnelKey * A -> bool) keys (m m' : gmap TunnelKey A) :
  (forall k, k ∈ keys <-> exists x, m !! k = Some x /\ P (k, x) = true) ->
  without (fun k => k ∈ keys) m m' -> without (fun k => exists x, m !! k = Some x /\ P (k, x) = true) m m'.
Proof. intros Hk Hm k. destruct (Hm k) as [Hin Hout]. by rewrite Hk in Hin, Hout. Qed.

Lemma without_own {A} cid keys (m m' : gmap TunnelKey A) :
  (forall k, k ∈ keys <-> exists x, m !! k = Some x /\ bool_decide (k.1 = cid) = true) ->
  without (fun k => k ∈ keys) m m' -> without (fun k => k.1 = cid) m m'.
Proof.
  intros Hk Hm k. destruct (Hm k) as [Hin Hout]. rewrite Hk in Hin, Hout. setoid_rewrite bool_decide_eq_true in Hin.
  setoid_rewrite bool_decide_eq_true in Hout. split; [|naive_solver].
  intros HP. destruct (m !! k) as [x|] eqn:Hx; [by eauto|]. rewrite Hout; [done|]. naive_solver.
Qed.

Lemma without_keys_of {A} cid (m m' : gmap TunnelKey A) :
  without (fun k => k ∈ keys_of cid m) m m' -> without (fun k => k.1 = cid) m m'.
Proof.
  intros Hm k. destruct (Hm k) as [Hin Hout]. destruct (decide (k ∈ keys_of cid m)) as [Hk|Hk].
  - split; [auto|]. intros HP. by apply elem_of_keys_of in Hk as [].
  - split; [|auto]. intros HP. rewrite Hout by done.
    destruct (m !! k) eqn:Hl; [|done]. destruct Hk. apply elem_of_keys_of. rewrite Hl. eauto.
Qed.

Lemma elem_of_all_keys {A} (m : gmap TunnelKey A) k : k ∈ (map_to_list m).*1 <-> is_Some (m !! k).
Proof.
  rewrite list_elem_of_fmap. split.
  - intros ([k' x] & -> & Hin%elem_of_map_to_list). eauto.
  - intros [x Hx]. exists (k, x). split; [done|]. by apply elem_of_map_to_list.
Qed.

Lemma without_all {A} (m m' : gmap TunnelKey A) :
  without (fun k => k ∈ (map_to_list m).*1) m m' -> m' = ∅.
Proof.
  intros Hm. apply map_eq. intros k. rewrite lookup_empty. destruct (Hm k) as [Hin Hout].
  destruct (decide (k ∈ (map_to_list m).*1)) as [Hk|Hk]; [by apply Hin|]. rewrite Hout by done.
  destruct (m !! k) eqn:Hl; [|done]. destruct Hk. apply elem_of_all_keys. eauto.
Qed.

(** What a part of the agent's work leaves alone. *)
Record same_but_fs w w' : Prop := {
  sb_locks : locks w' = locks w;
  sb_outbound : outbound w' = outbound w;
  sb_ssh : ssh_stdin w' = ssh_stdin w;
  sb_sftp : sftp_stdin w' = sftp_stdin w;
  sb_tunnels : tunnels w' = tunnels w;
  sb_sid : session_id (agent w') = session_id (agent w);
  sb_id : id_counter (agent w') = id_counter (agent w);
  sb_heartbeat : AgentState.last_heartbeat (agent w') = AgentState.last_heartbeat (agent w) }.

#[local] Instance same_but_fs_refl : Reflexive same_but_fs.
Proof. by split. Qed.
#[local] Instance same_but_fs_trans : Transitive same_but_fs.
Proof. intros ??? [] []. split; congruence. Qed.

(** The loops that remove entries. *)
Lemma close_tunnels_twp keys w Q :
  (forall w', without (fun k => k ∈ keys) (sessions (agent w)) (sessions (agent w')) ->
    (forall id, id ∈ stopped (agent w') <-> id ∈ stopped (agent w) \/
        exists k h, k ∈ keys /\ sessions (agent w) !! k = Some h /\ id = handle_stdin h) ->
    uploads (agent w') = uploads (agent w) -> downloads (agent w') = downloads (agent w) ->
    fs w' = fs w -> same_but_fs w w' -> Q tt w') ->
  twp (close_tunnels keys) Q w.
Proof.
  revert w. induction keys as [|key keys IH]; intros w HQ.
  - apply HQ; [apply without_nil| |done..]. set_solver.
  - cbn [close_tunnels]. apply twp_perform_bind. intros c. eexists _, _. split; [done|].
    destruct (sessions (agent w) !! key) as [h|] eqn:Hkey.
    + apply twp_bind. intros c'. eexists _, _. split; [done|]. apply IH. cbn.
      intros w' Hs Hst Hu Hd Hf []. apply HQ; try done.
      * by apply without_delete.
      * intros id. rewrite Hst. cbn. split.
        -- intros [[->%elem_of_singleton|]%elem_of_union|(k & h' & Hk & Hl & ->)]; [|by left|].
           { right. exists key, h. set_solver. }
           apply lookup_delete_Some in Hl as [Hne Hl]. right. exists k, h'. set_solver.
        -- intros [|(k & h' & Hk & Hl & ->)]; [left; set_solver|].
           destruct (decide (k = key)) as [->|Hne]; [left; simplify_eq; set_solver|].
           right. exists k, h'. rewrite lookup_delete_ne by done. set_solver.
    + apply IH. cbn. intros w' Hs Hst Hu Hd Hf []. apply HQ; try done.
      * by apply without_delete.
      * intros id. rewrite Hst. split; (intros [|(k & h' & Hk & Hl & ->)]; [by left|right]); exists k, h'.
        -- apply lookup_delete_Some in Hl as [Hne Hl]. set_solver.
        -- rewrite lookup_delete_ne by congruence. set_solver.
Qed.

(** No guard keeps a lock of the map. *)
Definition unlocked (m : TransferMap) w : Prop := Forall (fun i => (m, i) ∉ locks w) (seq 0 shard_amount).

Lemma unlocked_upload key w : unlocked Uploads w -> upload_lock key ∉ locks w.
Proof. intros Hl. eapply Forall_forall in Hl; [exact Hl|]. apply elem_of_seq. pose proof (upload_shard_lt key). lia. Qed.
Lemma unlocked_download key w : unlocked Downloads w -> download_lock key ∉ locks w.
Proof. intros Hl. eapply Forall_forall in Hl; [exact Hl|]. apply elem_of_seq. pose proof (download_shard_lt key). lia. Qed.

(** An operation on a shard that nobody holds. *)
Lemma twp_shard {R A} s (f : Agent File -> R * Agent File) (k : R -> prog (agentE FS File) A) Q w :
  s ∉ locks w -> twp (k (f (agent w)).1) Q (with_agent (f (agent w)).2 w) -> twp (perform (OnShard s f) ≫= k) Q w.
Proof.
  intros Hs Hk c. cbn. rewrite decide_False by done. destruct (f (agent w)). eexists _, _. by split.
Qed.

Lemma with_agent_same w : with_agent (agent w) w = w.
Proof. by destruct w. Qed.

Lemma elem_of_keys_in {A} (shard : TunnelKey -> nat) (i : nat) (P : TunnelKey * A -> bool) (m : gmap TunnelKey A) k :
  k ∈ keys_in shard i P m <-> shard k = i /\ exists x, m !! k = Some x /\ P (k, x) = true.
Proof.
  unfold keys_in. rewrite list_elem_of_fmap. split.
  - intros ([k' x] & -> & Hin). apply list_elem_of_filter in Hin as [[Hi HP] Hin%elem_of_map_to_list]. cbn in *. eauto.
  - intros (Hi & x & Hx & HP). exists (k, x). split; [done|]. apply list_elem_of_filter. split; [done|].
    by apply elem_of_map_to_list.
Qed.

(** A collection of keys, when nobody holds a lock: those that it looks for. *)
Lemma twp_collect m (keys : nat -> Agent File -> list TunnelKey) shards (Q : list TunnelKey -> World FS File -> Prop) w :
  Forall (fun i => (m, i) ∉ locks w) shards ->
  (forall ks, (forall key, key ∈ ks <-> exists i, i ∈ shards /\ key ∈ keys i (agent w)) -> Q ks w) ->
  twp (collect_keys m keys shards) Q w.
Proof.
  intros Hl. revert Q. induction Hl as [|i shards Hi Hl IH]; intros Q HQ.
  - apply HQ. intros key. set_solver.
  - cbn [collect_keys]. apply twp_shard; [done|]. cbn [fst snd]. rewrite with_agent_same. apply twp_bind.
    apply IH. intros ks Hks. apply HQ. intros key. rewrite elem_of_app, Hks. setoid_rewrite elem_of_cons. naive_solver.
Qed.

(** The collection waits for the first lock that somebody holds. *)
Lemma collect_waits m (keys : nat -> Agent File -> list TunnelKey) shards cs w :
  ~ Forall (fun i => (m, i) ∉ locks w) shards -> run (collect_keys m keys shards) cs w = Blocked w.
Proof.
  revert cs. induction shards as [|i shards IH]; intros cs Hn; [by destruct Hn; constructor|].
  cbn [collect_keys]. destruct (decide ((m, i) ∈ locks w)) as [Hi|Hi]; [cbn; by rewrite decide_True|].
  cbn. rewrite decide_False by done. rewrite with_agent_same. apply run_bind_blocked, IH.
  intros Hl. apply Hn. by constructor.
Qed.

(** Every key is in some shard. *)
Lemma keys_in_all {A} (shard : TunnelKey -> nat) (P : TunnelKey * A -> bool) (m : gmap TunnelKey A) key :
  (shard key < shard_amount)%nat ->
  (exists i, i ∈ seq 0 shard_amount /\ key ∈ keys_in shard i P m) <-> exists x, m !! key = Some x /\ P (key, x) = true.
Proof.
  intros Hlt. setoid_rewrite elem_of_keys_in. split; [by intros (i & _ & _ & Hx)|].
  intros Hx. exists (shard key). split; [|done]. apply elem_of_seq. lia.
Qed.

Lemma twp_uploads_keys {A} P (k : list TunnelKey -> prog (agentE FS File) A) Q w :
  unlocked Uploads w ->
  (forall ks, (forall key, key ∈ ks <-> exists u, uploads (agent w) !! key = Some u /\ P (key, u) = true) -> twp (k ks) Q w) ->
  twp (uploads_keys P ≫= k) Q w.
Proof.
  intros Hl Hk. apply twp_bind, twp_collect; [done|]. intros ks Hks. apply Hk. intros key.
  rewrite Hks. apply keys_in_all, upload_shard_lt.
Qed.

Lemma twp_downloads_keys {A} P (k : list TunnelKey -> prog (agentE FS File) A) Q w :
  unlocked Downloads w ->
  (forall ks, (forall key, key ∈ ks <-> exists d, downloads (agent w) !! key = Some d /\ P (key, d) = true) -> twp (k ks) Q w) ->
  twp (downloads_keys P ≫= k) Q w.
Proof.
  intros Hl Hk. apply twp_bind, twp_collect; [done|]. intros ks Hks. apply Hk. intros key.
  rewrite Hks. apply keys_in_all, download_shard_lt.
Qed.

Lemma twp_sync_all file w (Q : unit -> World FS File -> Prop) :
  (forall x, Q tt (with_fs x w)) -> twp (sync_all file) Q w.
Proof.
  intros HQ c. cbn. destruct (sftp_sync_all file (fs w)) as [r x]. eexists _, _. split; [done|]. apply HQ.
Qed.

Lemma drop_downloads_twp keys w Q :
  unlocked Downloads w ->
  (forall w', without (fun k => k ∈ keys) (downloads (agent w)) (downloads (agent w')) ->
    sessions (agent w') = sessions (agent w) -> stopped (agent w') = stopped (agent w) ->
    uploads (agent w') = uploads (agent w) -> fs w' = fs w -> same_but_fs w w' -> Q tt w') ->
  twp (drop_downloads keys) Q w.
Proof.
  revert w. induction keys as [|key keys IH]; intros w Hl HQ.
  - apply HQ; [apply without_nil|done..].
  - cbn [drop_downloads]. apply twp_shard; [by apply unlocked_download|]. cbn [fst snd].
    apply IH; [done|]. cbn. intros w' Hm Hs Hst Ho Hf []. apply HQ; try done. by apply without_delete.
Qed.

Lemma remove_uploads_twp keys w Q :
  unlocked Uploads w ->
  (forall w', without (fun k => k ∈ keys) (uploads (agent w)) (uploads (agent w')) ->
    sessions (agent w') = sessions (agent w) -> stopped (agent w') = stopped (agent w) ->
    downloads (agent w') = downloads (agent w) -> same_but_fs w w' -> Q tt w') ->
  twp (remove_uploads keys) Q w.
Proof.
  revert w. induction keys as [|key keys IH]; intros w Hl HQ.
  - apply HQ; [apply without_nil|done..].
  - cbn [remove_uploads]. apply twp_shard; [by apply unlocked_upload|]. cbn [fst snd].
    destruct (uploads (agent w) !! key) as [u|]; [apply twp_bind, twp_sync_all; intros x|].
    all: apply IH; [done|]; cbn; intros w' Hm Hs Hst Ho []; apply HQ; try done; by apply without_delete.
Qed.

Lemma remove_downloads_synced_twp keys w Q :
  unlocked Downloads w ->
  (forall w', without (fun k => k ∈ keys) (downloads (agent w)) (downloads (agent w')) ->
    sessions (agent w') = sessions (agent w) -> stopped (agent w') = stopped (agent w) ->
    uploads (agent w') = uploads (agent w) -> same_but_fs w w' -> Q tt w') ->
  twp (remove_downloads_synced keys) Q w.
Proof.
  revert w. induction keys as [|key keys IH]; intros w Hl HQ.
  - apply HQ; [apply without_nil|done..].
  - cbn [remove_downloads_synced]. apply twp_shard; [by apply unlocked_download|]. cbn [fst snd].
    destruct (downloads (agent w) !! key) as [u|]; [apply twp_bind, twp_sync_all; intros x|].
    all: apply IH; [done|]; cbn; intros w' Hm Hs Hst Ho []; apply HQ; try done; by apply without_delete.
Qed.

(** A look at the shared state. *)
Lemma twp_reading {R A} (f : Agent File -> R) (k : R -> prog (agentE FS File) A) Q w :
  twp (k (f (agent w))) Q w -> twp (reading f ≫= k) Q w.
Proof. intros Hk c. eexists _, _. split; [done|]. by destruct w. Qed.

(** The client [cid] is forgotten: its tunnels have been sent their stop signal
    and are gone, as are its transfers; all else is as it was. *)
Record forgotten cid w w' : Prop := {
  fg_sessions : without (fun k => k.1 = cid) (sessions (agent w)) (sessions (agent w'));
  fg_uploads : without (fun k => k.1 = cid) (uploads (agent w)) (uploads (agent w'));
  fg_downloads : without (fun k => k.1 = cid) (downloads (agent w)) (downloads (agent w'));
  fg_stopped id : id ∈ stopped (agent w') <-> id ∈ stopped (agent w) \/
    exists sid h, sessions (agent w) !! (cid, sid) = Some h /\ id = handle_stdin h;
  fg_rest : same_but_fs w w' }.

(** The first half of it: the client's tunnels. *)
Record hung_up cid w w' : Prop := {
  hu_sessions : without (fun k => k.1 = cid) (sessions (agent w)) (sessions (agent w'));
  hu_stopped id : id ∈ stopped (agent w') <-> id ∈ stopped (agent w) \/
    exists sid h, sessions (agent w) !! (cid, sid) = Some h /\ id = handle_stdin h;
  hu_uploads : uploads (agent w') = uploads (agent w);
  hu_downloads : downloads (agent w') = downloads (agent w);
  hu_rest : same_but_fs w w' }.

Lemma close_tunnels_for_cid_twp cid w : twp (close_tunnels_for_cid cid) (fun _ => hung_up cid w) w.
Proof.
  apply twp_reading, close_tunnels_twp. intros w' Hs Hst Hu Hd _ Hb.
  split; [by apply without_keys_of| |done..]. intros id. rewrite Hst. split; (intros [|Hx]; [by left|right]).
  - destruct Hx as ([c sid] & h & [Hc _]%elem_of_keys_of & Hl & ->). cbn in Hc. subst. eauto.
  - destruct Hx as (sid & h & Hl & ->). exists (cid, sid), h. split; [|done].
    apply elem_of_keys_of. split; [done|by exists h].
Qed.

Lemma close_uploads_for_cid_twp cid w :
  unlocked Uploads w ->
  twp (close_uploads_for_cid cid) (fun _ w' => without (fun k => k.1 = cid) (uploads (agent w)) (uploads (agent w')) /\
    sessions (agent w') = sessions (agent w) /\ stopped (agent w') = stopped (agent w) /\
    downloads (agent w') = downloads (agent w) /\ same_but_fs w w') w.
Proof.
  intros Hl. apply twp_uploads_keys; [done|]. intros ks Hks. apply remove_uploads_twp; [done|].
  intros w' Hu Hs Hst Hd Hb. split; [by eapply without_own|done].
Qed.

Lemma close_downloads_for_cid_twp cid w :
  unlocked Downloads w ->
  twp (close_downloads_for_cid cid) (fun _ w' => without (fun k => k.1 = cid) (downloads (agent w)) (downloads (agent w')) /\
    sessions (agent w') = sessions (agent w) /\ stopped (agent w') = stopped (agent w) /\
    uploads (agent w') = uploads (agent w) /\ same_but_fs w w') w.
Proof.
  intros Hl. apply twp_downloads_keys; [done|]. intros ks Hks. apply drop_downloads_twp; [done|].
  intros w' Hu Hs Hst Hd _ Hb. split; [by eapply without_own|done].
Qed.

Lemma unlocked_later m w w' : same_but_fs w w' -> unlocked m w -> unlocked m w'.
Proof. intros []. unfold unlocked. by rewrite sb_locks0. Qed.


(** *** Opening a tunnel *)

(** What is wrong with a client's credentials, if anything. *)
Definition credential_problem (config : Env) (username password : option string) : option FrameError.t :=
  if blank username then Some FrameError.RequiresUsername
  else match ssh_auth_mode config with
       | SSHAuthMethod.Password => if blank password then Some FrameError.RequiresPassword else None
       | SSHAuthMethod.None => None
       end.

(** The credentials the tunnel logs in with. *)
Definition auth_for (config : Env) (username password : option string) : option ConfigAuth :=
  match ssh_auth_mode config, username, password with
  | SSHAuthMethod.Password, Some u, Some p => Some (UsernamePassword u p)
  | SSHAuthMethod.None, Some u, _ => Some (Username u)
  | _, _, _ => None
  end.

Definition handle_of (p : Protocol.t) (stdin : ChanId) : SessionHandle :=
  match p with Protocol.SSH => Ssh stdin | Protocol.SFTP => Sftp stdin end.

(** The world after [try_send]. *)
Definition try_sent (f : NodeFrameData.t) w : World FS File :=
  match chan_send OUTBOUND_CAPACITY f (outbound w) with Some (_, ch) => with_outbound ch w | None => w end.

Lemma problem_auth_for config username password :
  credential_problem config username password = None -> exists auth, auth_for config username password = Some auth.
Proof.
  unfold credential_problem, auth_for. destruct username; cbn; [|done].
  destruct (ssh_auth_mode config), password; cbn; case_all; eauto.
Qed.

Lemma run_ensured {A} config cid username password msg_id (k : result string unit -> prog (agentE FS File) A) cs w :
  credential_problem config username password = None ->
  run (ensure_credentials config cid username password msg_id ≫= k) cs w = run (k (Ok tt)) cs w.
Proof.
  unfold credential_problem, ensure_credentials. destruct (blank username); [done|].
  destruct (ssh_auth_mode config); [|done]. by destruct (blank password).
Qed.

Lemma run_config_auth {A} config username password auth (k : ConfigAuth -> prog (agentE FS File) A) cs w :
  auth_for config username password = Some auth ->
  run (config_auth config username password ≫= k) cs w = run (k auth) cs w.
Proof.
  unfold auth_for, config_auth. destruct (ssh_auth_mode config), username, password; cbn; by intros [= <-].
Qed.

Lemma run_refused config cid username password msg_id kind cs w :
  credential_problem config username password = Some kind ->
  exists message, forall (k : result string unit -> prog (agentE FS File) unit),
    (forall e, k (Err e) = Ret tt) ->
    run (ensure_credentials config cid username password msg_id ≫= k) cs w =
      Done tt (try_sent (NodeFrameData.WebFrame (WebFrameData.Error kind message msg_id) (ConnectionId cid)) w).
Proof.
  unfold credential_problem, ensure_credentials. intros Hp.
  destruct (blank username); [injection Hp as <-; eexists; intros k Hk; cbn; by rewrite Hk|].
  destruct (ssh_auth_mode config); [|done]. destruct (blank password); [|done].
  injection Hp as <-. eexists. intros k Hk. cbn. by rewrite Hk.
Qed.

(** A tunnel of client [cid] has been opened: a fresh command queue, the next
    session id, a task with the client's credentials, and the session in the
    map; an older session of the same name has been told to stop. *)
Record opened (p : Protocol.t) cid (auth : ConfigAuth) (msg_id : option Z) (stdin : ChanId) w w' : Prop := {
  op_fresh : stdin ∉ dom (ssh_stdin w) ∪ dom (sftp_stdin w);
  op_ssh : ssh_stdin w' = match p with Protocol.SSH => <[stdin := chan_new]> (ssh_stdin w) | _ => ssh_stdin w end;
  op_sftp : sftp_stdin w' = match p with Protocol.SFTP => <[stdin := chan_new]> (sftp_stdin w) | _ => sftp_stdin w end;
  op_sessions : sessions (agent w') = <[(cid, session_id (agent w)) := handle_of p stdin]> (sessions (agent w));
  op_sid : session_id (agent w') = wrap 32 (session_id (agent w) + 1);
  op_tunnels : tunnels w' = tunnels w ++ [{| tn_protocol := p; tn_cid := cid; tn_sid := session_id (agent w);
    tn_msg_id := msg_id; tn_credentials := auth; tn_stdin := stdin |}];
  op_stopped : stopped (agent w') =
    match sessions (agent w) !! (cid, session_id (agent w)) with
    | Some old => {[ handle_stdin old ]} ∪ stopped (agent w)
    | None => stopped (agent w)
    end;
  op_uploads : uploads (agent w') = uploads (agent w);
  op_downloads : downloads (agent w') = downloads (agent w);
  op_outbound : outbound w' = outbound w;
  op_fs : fs w' = fs w }.

Definition start_tunnel (p : Protocol.t) : Uuid -> ConfigAuth -> option Z -> prog (agentE FS File) unit :=
  match p with Protocol.SSH => start_ssh_tunnel | Protocol.SFTP => start_sftp_tunnel end.

Lemma start_tunnel_run p cid auth msg_id cs w :
  exists stdin w', run (start_tunnel p cid auth msg_id) cs w = Done tt w' /\ opened p cid auth msg_id stdin w w'.
Proof.
  edestruct (twp_run (start_tunnel p cid auth msg_id) (fun _ w' => exists stdin, opened p cid auth msg_id stdin w w') cs w)
    as ([] & w' & Hr & stdin & Ho); [|by exists stdin, w'].
  pose proof (is_fresh (dom (ssh_stdin w) ∪ dom (sftp_stdin w))) as Hf.
  destruct p; cbn [start_tunnel]; unfold start_ssh_tunnel, start_sftp_tunnel, insert_session;
    (do 4 (apply twp_perform_bind; intros ?; eexists _, _; split; [reflexivity|]));
    cbv beta; (match goal with |- twp (match ?o with Some _ => _ | None => _ end) _ _ =>
       change o with (sessions (agent w) !! (cid, session_id (agent w))) end);
    (destruct (sessions (agent w) !! (cid, session_id (agent w))) as [old|] eqn:Hold;
      [intros ?; eexists _, _; split; [reflexivity|]|]);
    (eexists; split; [exact Hf|..]; cbn; rewrite ?Hold; done).
Qed.

Lemma open_tunnel_ok p config cid username password msg_id cs w :
  credential_problem config username password = None ->
  exists auth stdin w', auth_for config username password = Some auth /\
    run (handle_message config (NodeFrameData.OpenTunnel (Protocol.as_u8 p) cid username password msg_id)) cs w = Done tt w' /\
    opened p cid auth msg_id stdin w w'.
Proof.
  intros Hp. destruct (problem_auth_for _ _ _ Hp) as [auth Ha]. exists auth.
  destruct (start_tunnel_run p cid auth msg_id cs w) as (stdin & w' & Hr & Ho). exists stdin, w'.
  split; [done|]. split; [|done]. cbn [handle_message]. unfold handle_open_tunnel. rewrite run_ensured by done.
  etrans; [|exact Hr].
  pose proof (run_config_auth config username password auth
    (fun auth => start_tunnel p cid auth msg_id) cs w Ha) as Hc.
  by destruct p.
Qed.

(** A request to open a tunnel, for any message: with a blank or missing
    username, or a blank or missing password where the agent asks for one, the
    client is told which of them is missing and nothing else happens; with
    acceptable credentials and the code of SSH or SFTP, the tunnel is opened
    under the next session id with exactly those credentials. *)
Theorem open_tunnel_spec config protocol cid username password msg_id cs w :
  let request := NodeFrameData.OpenTunnel protocol cid username password msg_id in
  match credential_problem config username password with
  | Some kind => exists message,
      run (handle_message config request) cs w =
        Done tt (try_sent (NodeFrameData.WebFrame (WebFrameData.Error kind message msg_id) (ConnectionId cid)) w)
  | None => forall p, protocol = Protocol.as_u8 p -> exists auth stdin w',
      auth_for config username password = Some auth /\
      run (handle_message config request) cs w = Done tt w' /\ opened p cid auth msg_id stdin w w'
  end.
Proof.
  cbv zeta. destruct (credential_problem _ _ _) as [kind|] eqn:Hp.
  - destruct (run_refused config cid username password msg_id kind cs w Hp) as [message Hm].
    exists message. by apply Hm.
  - intros p ->. by apply open_tunnel_ok.
Qed.

(** *** Panics *)

Lemma no_panic_remove_uploads keys : no_panic (remove_uploads (FS := FS) (File := File) keys).
Proof.
  induction keys as [|k keys IH]; [done|]. intros r. cbn in r.
  destruct r; [apply no_panic_bind; [by intros []|done]|done].
Qed.
Lemma no_panic_close_tunnels keys : no_panic (close_tunnels (FS := FS) (File := File) keys).
Proof. induction keys as [|k keys IH]; [done|]. intros r. cbn in r. destruct r; [intros []; exact IH|exact IH]. Qed.
Lemma no_panic_drop_downloads keys : no_panic (drop_downloads (FS := FS) (File := File) keys).
Proof. induction keys as [|k keys IH]; [done|]. by intros r. Qed.

Lemma no_panic_collect m (look : nat -> Agent File -> list TunnelKey) shards : no_panic (collect_keys (FS := FS) m look shards).
Proof. induction shards as [|i shards IH]; [done|]. intros r. by apply no_panic_bind. Qed.

Lemma no_panic_run {A} (p : prog (agentE FS File) A) cs w w' : no_panic p -> run p cs w <> Panicked w'.
Proof.
  revert cs w. induction p as [a| |R e k IH]; intros cs w Hp; cbn in *; [done..|].
  destruct (exec e (cs 0%nat) w) as [[r w1]|]; [by apply IH|done].
Qed.

Lemma no_panic_handle config f :
  (forall protocol cid username password msg_id,
    f <> NodeFrameData.OpenTunnel protocol cid username password msg_id) ->
  no_panic (handle_message (FS := FS) (File := File) config f).
Proof.
  intros Hf. assert (forall cid sid cmd, no_panic (logged (send_to_sftp (FS := FS) (File := File) cid sid cmd)))
    by (intros cid sid cmd r; cbn in r; by destruct r as [[]|]).
  assert (forall cid sid cmd, no_panic (logged (send_to_ssh (FS := FS) (File := File) cid sid cmd)))
    by (intros cid sid cmd r; cbn in r; by destruct r as [[]|]).
  destruct f; cbn [handle_message]; eauto; try done.
  - by destruct (Hf protocol cid username password msg_id).
  - case_match; eauto. done.
  - apply no_panic_bind; [intros r; apply no_panic_close_tunnels|intros _].
    apply no_panic_bind; [|intros _]; apply no_panic_bind; try apply no_panic_collect; intros keys.
    + apply no_panic_remove_uploads.
    + apply no_panic_drop_downloads.
Qed.

Lemma open_tunnel_panics config protocol cid username password msg_id cs w :
  credential_problem config username password = None -> protocol <> 0 -> protocol <> 1 ->
  run (handle_message config (NodeFrameData.OpenTunnel protocol cid username password msg_id)) cs w = Panicked w.
Proof.
  intros Hp H0 H1. cbn [handle_message]. unfold handle_open_tunnel. rewrite run_ensured by done.
  unfold Protocol.try_from. by rewrite (proj2 (Z.eqb_neq _ _) H0), (proj2 (Z.eqb_neq _ _) H1).
Qed.

(** The one message on which the agent panics, which ends its process:
    a request to open a tunnel that carries acceptable credentials and a
    protocol code other than SSH and SFTP.  In particular the [expect]s on the
    credentials never fail. *)
Theorem agent_panics_iff config f w :
  (exists cs w', run (handle_message config f) cs w = Panicked w') <->
  exists protocol cid username password msg_id,
    f = NodeFrameData.OpenTunnel protocol cid username password msg_id /\
    credential_problem config username password = None /\ protocol <> 0 /\ protocol <> 1.
Proof.
  split.
  - intros (cs & w' & Hr). destruct f; try (exfalso; by eapply no_panic_run, Hr; apply no_panic_handle).
    exists protocol, cid, username, password, msg_id. split; [done|].
    pose proof (open_tunnel_spec config protocol cid username password msg_id cs w) as Hs. cbv zeta in Hs.
    destruct (credential_problem config username password) as [kind|].
    { destruct Hs as [message Hs]. congruence. }
    split; [done|]. split; intros ->.
    + destruct (Hs Protocol.SSH eq_refl) as (? & ? & ? & _ & ? & _). congruence.
    + destruct (Hs Protocol.SFTP eq_refl) as (? & ? & ? & _ & ? & _). congruence.
  - intros (protocol & cid & username & password & msg_id & -> & Hp & H0 & H1). exists (fun _ => 0), w.
    by apply open_tunnel_panics.
Qed.
(** *** Forwarding *)

(** The tunnel session a frame addresses and the command it becomes. *)
Definition command_of (f : NodeFrameData.t) : option (TunnelKey * (SSHCommand + SFTPCommand)) :=
  match f with
  | NodeFrameData.SSHWindowResize cid sid cols rows px_width px_height =>
      Some ((cid, sid), inl (Resize cols rows px_width px_height))
  | NodeFrameData.TunnelData protocol cid sid data =>
      if protocol =? 0 then Some ((cid, sid), inl (Data data)) else None
  | NodeFrameData.SFTPList cid path sid msg_id => Some ((cid, sid), inr (List path msg_id))
  | NodeFrameData.SFTPUploadStart cid sid msg_id upload => Some ((cid, sid), inr (UploadStart upload msg_id))
  | NodeFrameData.SFTPUpload cid sid msg_id chunk => Some ((cid, sid), inr (Upload chunk msg_id))
  | NodeFrameData.SFTPDownloadStart cid sid msg_id download =>
      Some ((cid, sid), inr (DownloadStart download msg_id))
  | NodeFrameData.SFTPDownloadChunkRequest cid sid msg_id download_id chunk_index =>
      Some ((cid, sid), inr (DownloadChunk {| dc_download_id := download_id; dc_chunk_index := chunk_index;
        dc_chunk_size := 0; dc_data := [] |} msg_id))
  | NodeFrameData.SFTPDownloadChunk cid sid msg_id chunk => Some ((cid, sid), inr (DownloadChunk chunk msg_id))
  | NodeFrameData.SFTPDelete cid sid msg_id data => Some ((cid, sid), inr (Delete data msg_id))
  | _ => None
  end.

(** Where the command goes: the queue of the session's tunnel, if the session
    is recorded and of the command's kind; otherwise nowhere.  [None] while
    the queue is full. *)
Definition delivered (key : TunnelKey) (cmd : SSHCommand + SFTPCommand) w : option (World FS File) :=
  match sessions (agent w) !! key, cmd with
  | Some (Ssh stdin), inl c =>
      '(_, m) ← send_in SSH_STDIN_CAPACITY stdin c (ssh_stdin w); Some (with_ssh_stdin m w)
  | Some (Sftp stdin), inr c =>
      '(_, m) ← send_in SFTP_STDIN_CAPACITY stdin c (sftp_stdin w); Some (with_sftp_stdin m w)
  | _, _ => Some w
  end.

Lemma run_agent_reading {R A} (f : Agent File -> R) (k : R -> prog (agentE FS File) A) cs w :
  run (reading f ≫= k) cs w = run (k (f (agent w))) (fun n => cs (S n)) w.
Proof. cbn. by destruct w. Qed.

Lemma send_to_sftp_run cid sid cmd cs w :
  run (logged (send_to_sftp cid sid cmd)) cs w =
  match delivered (cid, sid) (inr cmd) w with Some w' => Done tt w' | None => Blocked w end.
Proof.
  unfold delivered. cbn. destruct w as [a lk o ss sf t x]. cbn.
  destruct (sessions a !! _) as [[]|]; [done| |done]. cbn.
  by destruct (send_in SFTP_STDIN_CAPACITY stdin cmd sf) as [[[] m]|].
Qed.

Lemma send_to_ssh_run cid sid cmd cs w :
  run (logged (send_to_ssh cid sid cmd)) cs w =
  match delivered (cid, sid) (inl cmd) w with Some w' => Done tt w' | None => Blocked w end.
Proof.
  unfold delivered. cbn. destruct w as [a lk o ss sf t x]. cbn.
  destruct (sessions a !! _) as [[]|]; [|done|done]. cbn.
  by destruct (send_in SSH_STDIN_CAPACITY stdin cmd ss) as [[[] m]|].
Qed.

Lemma session_command_run config f key cmd cs w :
  command_of f = Some (key, cmd) ->
  run (handle_message config f) cs w =
    match delivered key cmd w with Some w' => Done tt w' | None => Blocked w end.
Proof.
  intros Hc. destruct f; cbn [command_of] in Hc; try discriminate; cbn [handle_message].
  all: try (injection Hc as <- <-; first [apply send_to_sftp_run|apply send_to_ssh_run]).
  change (Protocol.as_u8 Protocol.SSH) with 0. destruct (protocol =? 0); [|done].
  injection Hc as <- <-. apply send_to_ssh_run.
Qed.

(** A frame for a session becomes one command on the queue of the tunnel
    recorded for that client and session id, when that tunnel is of the
    command's kind, and has no other effect; without such a tunnel it has no
    effect at all.  A full queue makes the reader wait. *)
Theorem session_command_delivered config f key cmd cs w :
  command_of f = Some (key, cmd) ->
  run (handle_message config f) cs w =
    match delivered key cmd w with Some w' => Done tt w' | None => Blocked w end.
Proof. apply session_command_run. Qed.

(** *** Authentication and identifiers *)

(** The agent goes on exactly when the first message of the server is a
    frame that accepts the agent's own node id. *)
Theorem agent_authenticated_iff node_id reader rest :
  authenticate node_id reader = (Ok tt, rest) <->
  exists data frame version, reader = Ok (Binary data) :: rest /\ decode native data = Returns (Ok frame) /\
    Frame.data frame = FrameData.Node (NodeFrameData.AuthResponse node_id true version).
Proof.
  unfold authenticate, read_auth_response, read_next_frame. split.
  - destruct reader as [|[[data| | | |]|] reader]; try done.
    destruct (decode native data) as [[frame|]|] eqn:Hd; try done.
    destruct (Frame.data frame) as [|nf] eqn:Hf; try done. destruct nf; try done.
    destruct success; [|done]. case_bool_decide; [|done]. intros [= <-]. subst. by eexists _, _, _.
  - intros (data & frame & version & -> & -> & ->). by rewrite bool_decide_true.
Qed.

Fixpoint draw (n : nat) : prog (agentE FS File) (list Z) :=
  match n with
  | O => Ret []
  | S n => sid ← generate_session_id; sids ← draw n; Ret (sid :: sids)
  end.

Lemma draw_run n cs w :
  fits 32 (session_id (agent w)) ->
  exists w', run (draw n) cs w = Done ((fun i => wrap 32 (session_id (agent w) + Z.of_nat i)) <$> seq 0 n) w'.
Proof.
  revert cs w. induction n as [|n IH]; intros cs w Hfit; [by eexists|].
  cbn [draw]. set (w1 := with_agent (with_session_id (wrap 32 (session_id (agent w) + 1)) (agent w)) w).
  destruct (IH (fun i => cs (S i)) w1) as [w' Hr]; [by apply wrap_fits|].
  destruct (run_bind (draw n) (fun sids => Ret (session_id (agent w) :: sids)) _ _ _ _ Hr) as [skip Hr'].
  exists w'. etrans; [exact Hr'|]. cbn [run]. f_equal. cbn [seq fmap list_fmap]. f_equal.
  - by rewrite Z.add_0_r, wrap_small.
  - rewrite <-seq_shift. fold (fmap (M := list) S (seq 0 n)). rewrite <-list_fmap_compose.
    apply list_fmap_ext. intros i x _. cbn. unfold wrap. rewrite Z.add_mod_idemp_l by lia. f_equal. lia.
Qed.

(** Session ids are distinct over any 2^32 consecutive tunnels; the counter
    then comes round, and a session still open under the old number is
    replaced. *)
Theorem session_ids_distinct n cs w :
  fits 32 (session_id (agent w)) -> (Z.of_nat n <= 2 ^ 32) ->
  exists ids w', run (draw n) cs w = Done ids w' /\ length ids = n /\ NoDup ids.
Proof.
  intros Hfit Hn. destruct (draw_run n cs w Hfit) as [w' Hr]. eexists _, w'. split; [exact Hr|]. split.
  - by rewrite length_fmap, length_seq.
  - apply NoDup_fmap_2_strong; [|apply NoDup_seq]. intros i j Hi Hj Hw.
    apply elem_of_seq in Hi, Hj. unfold wrap in Hw. destruct Hfit as [H0 H1].
    change (2 ^ 32) with 4294967296 in *. Z.to_euclidean_division_equations. lia.
Qed.
End ws_facts.
