(* ===== verification/AgentLogin.v ===== *)
(** * The agent's identity: [agent/src/creds.rs] and [agent/src/agent.rs]

    The identity file and its atomic replacement, the login that registers a
    key with the server, the exchange of a signed challenge for a session
    token, and the loop that keeps the agent connected.  The server is
    reached through [Network]; a web socket connection, which [AgentWs]
    models, is one effect here. *)

From S2P Require Import Prelude Async RustStr Protocol Externs JsonDe Token AgentState AgentWs.

(** ** [creds.rs]: the stored identity *)

Record StoredState : Type := {
  node_id : Uuid;
  private_key : string;
  public_key : string;
  server_host : string }.

Definition default_state : StoredState :=
  {| node_id := nil_uuid; private_key := ""; public_key := ""; server_host := "" |}.

(** [std::io::Error], as far as the code looks at it. *)
Inductive IoError : Type :=
| NotFound
| OtherIo (text : string).

Definition io_text (e : IoError) : string :=
  match e with NotFound => "No such file or directory" | OtherIo text => text end.

(** ** Effects *)

(** [reqwest]: a POST of a JSON body, with a bearer token when one is given,
    and what came back: the status and the text of the body. *)
Class Network (N NC : Type) := {
  post : NC -> string -> option string -> Json -> N -> result string (Z * string) * N }.

(** The disk holds the identity file and, during a write, the temporary file
    beside it. *)
Record Disk : Type := { state_file : option bytes; temp_file : option bytes }.

Record LoginWorld (N : Type) : Type := {
  disk : Disk;
  token_files : gmap string string;
  net : N;
  asked : list (string * option string * Json);   (* the requests sent, oldest first *)
  connections : list (Uuid * string);             (* the web sockets opened, with their tokens *)
  slept : list Z }.                               (* the pauses between attempts, in seconds *)
Arguments disk {N} _.
Arguments token_files {N} _.
Arguments net {N} _.
Arguments asked {N} _.
Arguments connections {N} _.
Arguments slept {N} _.

(** How the environment behaves at one effect: whether an I/O call succeeds
    and how much of a failing write reached the disk, what the user and the
    operating system answer, how a connection ended, and whether the agent is
    told to shut down. *)
Record LoginChoice (NC : Type) : Type := {
  c_io : result string unit;
  c_written : nat;
  c_random : bytes;
  c_text : result string string;
  c_hostname : option string;
  c_connection : result string unit;
  c_shutdown : bool;
  c_net : NC }.
Arguments c_io {NC} _.
Arguments c_written {NC} _.
Arguments c_random {NC} _.
Arguments c_text {NC} _.
Arguments c_hostname {NC} _.
Arguments c_connection {NC} _.
Arguments c_shutdown {NC} _.
Arguments c_net {NC} _.

Inductive loginE : Type -> Type :=
| OpenDataDir : loginE (result string unit)          (* [ProjectDirs::from], [create_dir_all] *)
| ReadState : loginE (result IoError bytes)
| RemoveState : loginE (result IoError unit)
| SetDirPermissions : loginE (result string unit)
| NewTemp : loginE (result string unit)
| WriteTemp (data : bytes) : loginE (result string unit)
| SyncTemp : loginE (result string unit)
| SetTempPermissions : loginE (result string unit)
| Persist : loginE (result string unit)
| DropTemp : loginE unit
| FileExists (path : string) : loginE bool
| ReadFile (path : string) : loginE (result string string)
| ReadStdin : loginE (result string string)
| PromptPassword : loginE (result string string)
| Username : loginE (result string string)
| Hostname : loginE (option string)                  (* the environment variable *)
| GenerateKey : loginE bytes
| Post (url : string) (bearer : option string) (body : Json) : loginE (result string (Z * string))
| Connect (node_id : Uuid) (token : string) : loginE (option (result string unit))   (* [None]: told to shut down *)
| Sleep (secs : Z) : loginE bool.                    (* whether told to shut down *)

Section effects.
Context {N NC : Type} `{!Network N NC}.

Definition with_disk (d : Disk) (w : LoginWorld N) : LoginWorld N :=
  {| disk := d; token_files := token_files w; net := net w; asked := asked w;
     connections := connections w; slept := slept w |}.
Definition with_temp (t : option bytes) (w : LoginWorld N) : LoginWorld N :=
  with_disk {| state_file := state_file (disk w); temp_file := t |} w.
Definition with_state (s : option bytes) (w : LoginWorld N) : LoginWorld N :=
  with_disk {| state_file := s; temp_file := temp_file (disk w) |} w.

Definition io {A} (a : A) (c : LoginChoice NC) : result string A :=
  match c_io c with Ok _ => Ok a | Err e => Err e end.

Definition login_exec {R} (e : loginE R) : LoginChoice NC -> LoginWorld N -> option (R * LoginWorld N) :=
  match e in loginE R return LoginChoice NC -> LoginWorld N -> option (R * LoginWorld N) with
  | OpenDataDir | SetDirPermissions | SyncTemp | SetTempPermissions => fun c w => Some (c_io c, w)
  | ReadState => fun c w =>
      Some (match c_io c, state_file (disk w) with
            | Err e, _ => Err (OtherIo e)
            | Ok _, Some data => Ok data
            | Ok _, None => Err NotFound
            end, w)
  | RemoveState => fun c w =>
      match c_io c, state_file (disk w) with
      | Err e, _ => Some (Err (OtherIo e), w)
      | Ok _, Some _ => Some (Ok tt, with_state None w)
      | Ok _, None => Some (Err NotFound, w)
      end
  | NewTemp => fun c w =>
      match c_io c with Ok _ => Some (Ok tt, with_temp (Some []) w) | Err e => Some (Err e, w) end
  | WriteTemp data => fun c w =>
      match c_io c with
      | Ok _ => Some (Ok tt, with_temp (Some data) w)
      | Err e => Some (Err e, with_temp (Some (take (c_written c) data)) w)
      end
  | Persist => fun c w =>
      match c_io c with
      | Ok _ => Some (Ok tt, with_disk {| state_file := temp_file (disk w); temp_file := None |} w)
      | Err e => Some (Err e, w)
      end
  | DropTemp => fun c w => Some (tt, with_temp None w)
  | FileExists path => fun c w => Some (bool_decide (is_Some (token_files w !! path)), w)
  | ReadFile path => fun c w =>
      Some (match c_io c with Ok _ => ok_or "No such file or directory" (token_files w !! path) | Err e => Err e end, w)
  | ReadStdin | PromptPassword | Username => fun c w => Some (c_text c, w)
  | Hostname => fun c w => Some (c_hostname c, w)
  | GenerateKey => fun c w => Some (c_random c, w)
  | Post url bearer body => fun c w =>
      let '(answer, n) := post (c_net c) url bearer body (net w) in
      Some (answer, {| disk := disk w; token_files := token_files w; net := n;
                       asked := asked w ++ [(url, bearer, body)]; connections := connections w; slept := slept w |})
  | Connect id token => fun c w =>
      Some (if c_shutdown c then None else Some (c_connection c),
            {| disk := disk w; token_files := token_files w; net := net w; asked := asked w;
               connections := connections w ++ [(id, token)]; slept := slept w |})
  | Sleep secs => fun c w =>
      Some (c_shutdown c,
            {| disk := disk w; token_files := token_files w; net := net w; asked := asked w;
               connections := connections w; slept := slept w ++ [secs] |})
  end.

#[global] Instance login_handler : Handler loginE (LoginWorld N) (LoginChoice NC) := @login_exec.
End effects.

Abbreviation login_task := (prog loginE).

(** ** [creds.rs]: [TokenStore] *)

Section store.
Context `{!UuidText, !JsonText, !JsonParse, !Base64Url}.

(** [#[derive(Serialize, Deserialize)]] of [StoredState]; only [server_host]
    has a default. *)
Definition state_to_json (s : StoredState) : Json :=
  JObj [("node_id", JStr (uuid_to_string (node_id s))); ("private_key", JStr (private_key s));
        ("public_key", JStr (public_key s)); ("server_host", JStr (server_host s))].

Definition state_of_json (j : Json) : result string StoredState :=
  node_id ← required de_uuid "node_id" 0 j;
  private_key ← required de_string "private_key" 1 j;
  public_key ← required de_string "public_key" 2 j;
  server_host ← defaulted de_string "" "server_host" 3 j;
  _ ← at_most 4 j;
  Ok {| node_id := node_id; private_key := private_key; public_key := public_key; server_host := server_host |}.

(** [serde_json::to_vec_pretty] and [serde_json::from_slice] *)
Definition state_bytes (s : StoredState) : bytes :=
  String.list_byte_of_string (json_to_string_pretty (state_to_json s)).
Definition state_from_slice (data : bytes) : result string StoredState :=
  j ← json_from_str (String.string_of_list_byte data); state_of_json j.

Definition validate_b64_len (value : string) (expected_len : nat) (field : string) : result string unit :=
  decoded ← ok_or ("failed to decode " +:+ field) (b64_decode value);
  if (length decoded =? expected_len)%nat then Ok tt
  else Err (field +:+ " decoded to " +:+ pretty (length decoded) +:+ " bytes, expected " +:+ pretty expected_len).

Definition TokenStore_new : login_task (result string unit) := perform OpenDataDir.

Definition load_state_from_file : login_task (result string (option StoredState)) :=
  r ← perform ReadState;
  Ret (match r with
       | Ok data => match state_from_slice data with Ok s => Ok (Some s) | Err _ => Ok None end
       | Err NotFound => Ok None
       | Err e => Err (io_text e)
       end).

(** The checks of [load], on the state that was read. *)
Definition check_state (service : string) (state : StoredState) : result string StoredState :=
  if negb (Str.is_empty (server_host state)) && negb (bool_decide (server_host state = service)) then
    Err ("Server mismatch: identity is for '" +:+ server_host state +:+ "' but attempting to connect to '"
           +:+ service +:+ "'")
  else if bool_decide (node_id state = nil_uuid) then Err "stored node_id is nil; run login first"
  else
    _ ← validate_b64_len (private_key state) 32 "private_key";
    _ ← validate_b64_len (public_key state) 32 "public_key";
    Ok state.

Definition load (service : string) : login_task (result string StoredState) :=
  state ←? load_state_from_file;
  Ret (check_state service (default default_state state)).

(** The temporary file is deleted when a step before [persist] fails. *)
Definition atomic_write (data : bytes) : login_task (result string unit) :=
  _ ← perform SetDirPermissions;
  _ ←? perform NewTemp;
  r ← (_ ←? perform (WriteTemp data);
       _ ←? perform SyncTemp;
       _ ←? perform SetTempPermissions;
       perform Persist);
  match r with
  | Err e => perform DropTemp;; Ret (Err e)
  | Ok _ => Ret (Ok tt)
  end.

Definition save_identity (service : string) (node_id : Uuid) (private_key public_key : string) :
    login_task (result string unit) :=
  atomic_write (state_bytes {| node_id := node_id; private_key := private_key; public_key := public_key;
                               server_host := service |}).

Definition delete_state_file : login_task (result string unit) :=
  r ← perform RemoveState;
  Ret (match r with Ok _ | Err NotFound => Ok tt | Err e => Err (io_text e) end).
End store.

(** ** [agent.rs]: requests *)

(** [http::StatusCode] shows its number and the reason. *)
Class StatusText := { status_to_string : Z -> string }.

Definition is_success (status : Z) : bool := (200 <=? status) && (status <? 300).

Section login.
Context `{!UuidText, !JsonText, !JsonParse, !Base64Url, !Ed25519Signing, !StatusText}.

Definition generate_http_endpoint (server_host : string) (server_port : Z) : string :=
  let server_host := strip_scheme server_host in
  let scheme := if (server_port =? 443) || (server_port =? 8443) then "https" else "http" in
  if (server_port =? 80) || (server_port =? 443) || (server_port =? 8443) then scheme +:+ "://" +:+ server_host
  else scheme +:+ "://" +:+ server_host +:+ ":" +:+ pretty server_port.

Definition parse_json_response {T} (de : Json -> result string T) (response : Z * string) : result string T :=
  let '(status, body_text) := response in
  if negb (is_success status) then
    let body := match json_from_str body_text with Ok j => j | Err _ => JObj [("raw", JStr body_text)] end in
    let error := default "request failed" (value_get "error" body ≫= as_str) in
    Err ("request failed (" +:+ status_to_string status +:+ "): " +:+ error)
  else
    match j ← json_from_str body_text; de j with
    | Ok t => Ok t
    | Err err => Err ("failed to decode response json: " +:+ err)
    end.

Definition post_with_pat {T} (de : Json -> result string T) (url pat : string) (body : Json) :
    login_task (result string T) :=
  response ←? perform (Post url (Some pat) body); Ret (parse_json_response de response).

Definition post_json {T} (de : Json -> result string T) (url : string) (body : Json) : login_task (result string T) :=
  response ←? perform (Post url None body); Ret (parse_json_response de response).

(** [ClaimResponse], [ChallengeResponse] and [VerifyResponse] *)
Definition de_claim (j : Json) : result string Uuid := id ← required de_uuid "node_id" 0 j; _ ← at_most 1 j; Ok id.
Definition de_challenge (j : Json) : result string string :=
  c ← required de_string "challenge" 0 j; _ ← at_most 1 j; Ok c.
Definition de_verify (j : Json) : result string string :=
  t ← required de_string "access_token" 0 j; _ ← at_most 1 j; Ok t.

(** [.context(..)] *)
Definition context {A} (text : string) (r : result string A) : result string A :=
  match r with Ok a => Ok a | Err _ => Err text end.

(** [agent_version] is [env::version()]. *)
Context (agent_version : string).

Definition generate_identity : login_task (string * string) :=
  key ← perform GenerateKey;
  Ret (b64_encode key, b64_encode (verifying_key key)).

Definition hostname_or_default (v : option string) : string :=
  match v with
  | Some value => if negb (Str.is_empty (Str.trim value)) then value else "unknown-host"
  | None => "unknown-host"
  end.

Definition local_hostname : login_task string :=
  v ← perform Hostname; Ret (hostname_or_default v).

(** The identity to claim: the one on disk when it is for this server. *)
Definition reuse_or_generate (server_host : string) : login_task (string * string) :=
  stored ← load server_host;
  match stored with
  | Ok stored => Ret (private_key stored, public_key stored)
  | Err _ => generate_identity
  end.

Definition claim_body (public_key hostname username : string) : Json :=
  JObj [("public_key", JStr public_key); ("hostname", JStr hostname);
        ("metadata", JObj [("agent_version", JStr agent_version); ("user", JStr username)])].

(** The end of [bootstrap_identity], for the user and the key pair found. *)
Definition claim_and_save (server_host : string) (server_port : Z) (pat_token username : string)
    (identity : string * string) : login_task (result string unit) :=
  hostname ← local_hostname;
  claim ← post_with_pat de_claim (generate_http_endpoint server_host server_port +:+ "/api/nodes/claim") pat_token
    (claim_body identity.2 hostname username);
  match context "failed to claim node identity" claim with
  | Err e => Ret (Err e)
  | Ok id =>
      saved ← save_identity server_host id identity.1 identity.2;
      Ret (context "failed to persist local node identity" saved)
  end.

Definition bootstrap_identity (server_host : string) (server_port : Z) (pat_token : string) :
    login_task (result string unit) :=
  username ←? perform Username;
  _ ←? TokenStore_new;
  identity ← reuse_or_generate server_host;
  claim_and_save server_host server_port pat_token username identity.

Definition fetch_session_jwt (env : Env) (state : StoredState) : login_task (result string string) :=
  let base_url := generate_http_endpoint (AgentState.server_host env) (server_port env) in
  challenge ← post_json de_challenge (base_url +:+ "/api/nodes/auth/challenge")
    (JObj [("node_id", JStr (uuid_to_string (node_id state)))]);
  match context "failed to request auth challenge" challenge with
  | Err e => Ret (Err e)
  | Ok challenge =>
      match b64_decode (private_key state) with
      | None => Ret (Err "invalid private key encoding")
      | Some private_key_bytes =>
          if negb (length private_key_bytes =? 32)%nat then Ret (Err "private key must decode to 32 bytes")
          else
            let signature := b64_encode (ed25519_sign private_key_bytes challenge) in
            verify ← post_json de_verify (base_url +:+ "/api/nodes/auth/verify")
              (JObj [("node_id", JStr (uuid_to_string (node_id state))); ("challenge", JStr challenge);
                     ("signature", JStr signature)]);
            Ret (context "failed to verify auth challenge" verify)
      end
  end.

(** ** [agent.rs]: the commands *)

(** Where [login] reads the token. *)
Inductive TokenSource : Type := FromFile (path : string) | FromStdin | FromPrompt.

Definition read_pat (source : TokenSource) : login_task (result string string) :=
  match source with
  | FromFile path =>
      exists_ ← perform (FileExists path);
      if negb exists_ then Ret (Err "file does not exist")
      else token ←? perform (ReadFile path); Ret (Ok (Str.trim token))
  | FromStdin => token ←? perform ReadStdin; Ret (Ok (Str.trim token))
  | FromPrompt => perform PromptPassword
  end.

Definition login (server_host : string) (server_port : Z) (source : TokenSource) : login_task (result string unit) :=
  let server_host := strip_scheme server_host in
  pat ←? read_pat source;
  bootstrap_identity server_host server_port pat.

Definition save_token (server_host : string) (server_port : Z) (token : string) : login_task (result string unit) :=
  bootstrap_identity (strip_scheme server_host) server_port (Str.trim token).

Definition load_creds_for_server (server_host : string) : login_task (option (string * StoredState)) :=
  opened ← TokenStore_new;
  match opened with
  | Err _ => Ret None
  | Ok _ =>
      r ← load server_host;
      Ret (match r with Ok state => Some (server_host, state) | Err _ => None end)
  end.

Definition logout (server_host : string) : login_task (result string unit) :=
  _ ←? TokenStore_new;
  loaded ← load server_host;
  match context "no active login found - please login first" loaded with
  | Err e => Ret (Err e)
  | Ok _ => deleted ← delete_state_file; Ret (context "failed to delete local identity" deleted)
  end.

(** One turn of the loop of [start_ws_connection] up to its pause. *)
Definition try_connection (env : Env) (server_host : string) : login_task Flow :=
  creds ← load_creds_for_server server_host;
  match creds with
  | Some (_, identity) =>
      jwt ← fetch_session_jwt env identity;
      match jwt with
      | Ok session_token =>
          ended ← perform (Connect (node_id identity) session_token);
          Ret (match ended with Some _ => Continue | None => Break end)
      | Err _ => Ret Continue
      end
  | None => Ret Continue
  end.

(** [attempt.saturating_add(1)] and [2u64.saturating_pow(attempt.min(4))] *)
Definition next_attempt (attempt : Z) : Z := Z.min U32_MAX (attempt + 1).
Definition backoff_secs (attempt : Z) : Z := Z.min (2 ^ 64 - 1) (2 ^ (Z.min attempt 4)).

(** The first [turns] turns of the loop. *)
Fixpoint ws_loop (turns : nat) (env : Env) (server_host : string) (attempt : Z) : login_task Flow :=
  match turns with
  | O => Ret Continue
  | S turns =>
      flow ← try_connection env server_host;
      match flow with
      | Break => Ret Break
      | Continue =>
          let attempt := next_attempt attempt in
          shutdown ← perform (Sleep (backoff_secs attempt));
          if (shutdown : bool) then Ret Break else ws_loop turns env server_host attempt
      end
  end.

Definition start_ws_connection (turns : nat) (env : Env) : login_task Flow :=
  ws_loop turns env (strip_scheme (AgentState.server_host env)) 0.
End login.

(** ** Facts about the store *)

(** An identity that [load] hands out for [service]. *)
Definition usable `{!Base64Url} (service : string) (s : StoredState) : Prop :=
  (server_host s = "" \/ server_host s = service) /\ node_id s <> nil_uuid /\
  exists sk pk, b64_decode (private_key s) = Some sk /\ length sk = 32%nat /\
                b64_decode (public_key s) = Some pk /\ length pk = 32%nat.

(** The identity on the disk, if it can be read and parsed. *)
Definition stored `{!UuidText, !JsonParse} (d : Disk) : option StoredState :=
  data ← state_file d;
  match state_from_slice data with Ok s => Some s | Err _ => None end.

Section store_facts.
Context {N NC : Type} `{!Network N NC, !UuidText, !JsonText, !JsonParse, !Base64Url}.
Implicit Types (w : LoginWorld N) (cs : nat -> LoginChoice NC).

Lemma validate_b64_len_ok value len field :
  validate_b64_len value len field = Ok tt <-> exists b, b64_decode value = Some b /\ length b = len.
Proof.
  unfold validate_b64_len. destruct (b64_decode value) as [b|]; cbn; [|by split; [|intros (?&?&?)]].
  destruct (Nat.eqb_spec (length b) len); split; try done; [by exists b|]. by intros (?&[= <-]&?).
Qed.

Lemma check_state_iff service s s' : check_state service s = Ok s' <-> s' = s /\ usable service s.
Proof.
  unfold check_state, usable.
  assert (negb (Str.is_empty (server_host s)) && negb (bool_decide (server_host s = service)) = false <->
    server_host s = "" \/ server_host s = service) as Hh.
  { destruct (server_host s) eqn:Hs; cbn; [by split; auto|].
    rewrite negb_false_iff, bool_decide_eq_true. split; [auto|]. by intros [?|?]. }
  destruct (_ && _) eqn:Hb.
  { split; [done|]. intros (_ & Hor%Hh & _). congruence. }
  destruct (bool_decide_reflect (node_id s = nil_uuid)) as [Hn|Hn]; [by split; [|intros (_&_&?&_)]|].
  pose proof (validate_b64_len_ok (private_key s) 32 "private_key") as Hsk.
  pose proof (validate_b64_len_ok (public_key s) 32 "public_key") as Hpk.
  destruct (validate_b64_len (private_key s) 32 "private_key") as [[]|e]; cbn; cycle 1.
  { split; [done|]. intros (_ & _ & _ & sk & _ & ? & ? & _). assert (Err e = Ok tt); [apply Hsk; eauto|done]. }
  destruct (validate_b64_len (public_key s) 32 "public_key") as [[]|e]; cbn; cycle 1.
  { split; [done|]. intros (_ & _ & _ & _ & pk & _ & _ & ? & ?). assert (Err e = Ok tt); [apply Hpk; eauto|done]. }
  destruct (proj1 Hsk eq_refl) as (sk & ? & ?), (proj1 Hpk eq_refl) as (pk & ? & ?). split; [|by intros [-> _]].
  intros [= <-]. split; [done|]. split; [by apply Hh|]. split; [done|]. by exists sk, pk.
Qed.

(** [load] as a function of the disk. *)
Definition loaded (service : string) (c : LoginChoice NC) (d : Disk) : result string StoredState :=
  match c_io c with
  | Err e => Err e
  | Ok _ => check_state service (default default_state (stored d))
  end.

Lemma load_run service cs w : run (load service) cs w = Done (loaded service (cs 0%nat) (disk w)) w.
Proof.
  unfold load, loaded, stored. cbn. destruct (c_io (cs 0%nat)); [|done].
  destruct (state_file (disk w)) as [data|]; cbn; [|done]. by destruct (state_from_slice data).
Qed.

Lemma loaded_ok service c d s :
  loaded service c d = Ok s <-> c_io c = Ok tt /\ stored d = Some s /\ usable service s.
Proof.
  unfold loaded. destruct (c_io c) as [[]|]; [|by split; [|intros (?&_)]]. rewrite check_state_iff.
  destruct (stored d) as [s'|]; cbn; split.
  - by intros [-> ?].
  - by intros (_ & [= ->] & ?).
  - by intros (-> & _ & ? & _).
  - by intros (_ & ? & _).
Qed.

Lemma state_roundtrip `{!UuidTextLaws, !JsonLaws} s :
  fits 128 (node_id s) -> state_from_slice (state_bytes s) = Ok s.
Proof.
  intros Hid. unfold state_from_slice, state_bytes. rewrite String.string_of_list_byte_of_string.
  unfold state_to_json. rewrite json_parse_pretty by done. cbn.
  rewrite parse_to_string by done. cbn. by destruct s.
Qed.

(** A whole write: the new contents, or an error and the old ones. *)
Lemma atomic_write_run data cs w :
  exists r d, run (atomic_write data) cs w = Done r (with_disk d w) /\
    (temp_file d = None \/ d = disk w) /\
    state_file d = match r with Ok _ => Some data | Err _ => state_file (disk w) end.
Proof.
  unfold atomic_write, try_bind. cbn. destruct w as [[st tmp] files n log conns pauses]. cbn.
  destruct (c_io (cs 1%nat)) as [[]|e]; cbn; [|by eexists (Err e), _; repeat split; eauto].
  destruct (c_io (cs 2%nat)) as [[]|e]; cbn; [|by eexists (Err e), _; repeat split; eauto].
  destruct (c_io (cs 3%nat)) as [[]|e]; cbn; [|by eexists (Err e), _; repeat split; eauto].
  destruct (c_io (cs 4%nat)) as [[]|e]; cbn; [|by eexists (Err e), _; repeat split; eauto].
  destruct (c_io (cs 5%nat)) as [[]|e]; cbn; [by eexists (Ok tt), _; repeat split; eauto|].
  by eexists (Err e), _; repeat split; eauto.
Qed.
End store_facts.

(** ** What the identity file goes through *)

(** [load] hands out exactly the identity on the disk that is for this
    server, or for none, has a node id and two keys of 32 bytes; a missing or
    unreadable file and one that does not parse are refused, and nothing is
    written. *)
Theorem load_iff {N NC} `{!Network N NC, !UuidText, !JsonParse, !Base64Url} service
    (cs : nat -> LoginChoice NC) (w : LoginWorld N) :
  exists r, run (load service) cs w = Done r w /\
    forall s, r = Ok s <-> c_io (cs 0%nat) = Ok tt /\ stored (disk w) = Some s /\ usable service s.
Proof. eexists. split; [apply load_run|]. intros s. apply loaded_ok. Qed.

(** One effect of a task that runs alone, whatever it is answered. *)
Ltac advance :=
  cbn;
  first
    [ exact I
    | let He := fresh "He" in
      intros ? ? ? ? <- ? He; cbn in He;
      repeat match type of He with context [match c_io ?c with _ => _ end] => destruct (c_io c) end;
      injection He as <- <-; (split; [cbn in *; by auto|])
    | match goal with |- context [match c_io ?c with _ => _ end] => destruct (c_io c) end ].

(** C24. Whatever fails and wherever the process is stopped, the identity file
    holds the old contents or the new ones, never a part; when the write
    returns it is the new ones exactly if it succeeded, and no temporary file
    is left behind. *)
Theorem atomic_write_atomic {N NC} `{!Network N NC} data (w : LoginWorld N) :
  (forall cf, rtc (cstep (C := LoginChoice NC) (fun _ _ => False) (fun _ => False)) (w, [atomic_write data]) cf ->
     state_file (disk cf.1) = state_file (disk w) \/ state_file (disk cf.1) = Some data) /\
  (forall cs : nat -> LoginChoice NC, temp_file (disk w) = None ->
     exists r w', run (atomic_write data) cs w = Done r w' /\ temp_file (disk w') = None /\
       state_file (disk w') = match r with Ok _ => Some data | Err _ => state_file (disk w) end).
Proof.
  split.
  - intros cf Hcf. pattern cf.1. eapply (main_reachable _ eq); [..|exact Hcf]; [done|congruence|done|done| |by left].
    unfold atomic_write, try_bind. repeat advance.
  - intros cs Htmp. destruct (atomic_write_run data cs w) as (r & d & Hrun & Ht & Hs).
    eexists r, _. split; [exact Hrun|]. split; [|done]. cbn. destruct Ht as [?| ->]; done.
Qed.

(** C25. What [save_identity] writes, [load] reads back unchanged for the same
    server; for any other it is refused, so that an identity is never shown
    to another server (one saved without a server is good for all). *)
Theorem save_then_load {N NC} `{!Network N NC, !UuidText, !UuidTextLaws, !JsonText, !JsonParse, !JsonLaws, !Base64Url}
    s service' (cs cs' : nat -> LoginChoice NC) (w w' : LoginWorld N) :
  fits 128 (node_id s) -> usable (server_host s) s -> c_io (cs' 0%nat) = Ok tt ->
  run (save_identity (server_host s) (node_id s) (private_key s) (public_key s)) cs w = Done (Ok tt) w' ->
  exists r, run (load service') cs' w' = Done r w' /\
    (is_ok r = true <-> server_host s = "" \/ service' = server_host s) /\
    (is_ok r = true -> r = Ok s).
Proof.
  intros Hid (_ & Hn & Hkeys) Hio Hsave. unfold save_identity in Hsave.
  assert ({| node_id := node_id s; private_key := private_key s; public_key := public_key s;
             server_host := server_host s |} = s) as Hs by (by destruct s).
  rewrite Hs in Hsave. destruct (atomic_write_run (state_bytes s) cs w) as (r & d & Hrun & _ & Hst).
  rewrite Hsave in Hrun. injection Hrun as <- ->. rewrite load_run. change (disk (with_disk d w)) with d.
  eexists. split; [done|].
  assert (stored d = Some s) as Hd by (unfold stored; rewrite Hst; cbn; by rewrite state_roundtrip).
  destruct (loaded service' (cs' 0%nat) d) as [s'|e] eqn:Hl.
  - apply loaded_ok in Hl as (_ & Hd' & Hor & _). rewrite Hd in Hd'. injection Hd' as <-.
    split; [|done]. cbn. split; [|done]. intros _. destruct Hor; auto.
  - split; [|done]. cbn. split; [done|]. intros Hor. exfalso.
    assert (loaded service' (cs' 0%nat) d = Ok s); [|congruence]. apply loaded_ok.
    split; [done|]. split; [done|]. split; [destruct Hor; auto|done].
Qed.

(** ** Claiming an identity *)

Section bootstrap.
Context {N NC : Type} `{!Network N NC, !UuidText, !JsonText, !JsonParse, !Base64Url, !Ed25519Signing, !StatusText}.
Implicit Types (w : LoginWorld N) (cs : nat -> LoginChoice NC).

(** The keys that a login claims: those on the disk, or fresh ones. *)
Definition keys_for (host : string) cs (d : Disk) : string * string :=
  match loaded host (cs 0%nat) d with
  | Ok s => (private_key s, public_key s)
  | Err _ => (b64_encode (c_random (cs 1%nat)), b64_encode (verifying_key (c_random (cs 1%nat))))
  end.

Lemma run_load_bind {A} (f : result string StoredState -> login_task A) service cs w :
  run (load service ≫= f) cs w = run (f (loaded service (cs 0%nat) (disk w))) (fun n => cs (1 + n)%nat) w.
Proof.
  unfold load, loaded, stored. cbn. destruct (c_io (cs 0%nat)); [|done].
  destruct (state_file (disk w)) as [data|]; cbn; [|done]. by destruct (state_from_slice data).
Qed.

Lemma run_creds_bind {A} (f : option (string * StoredState) -> login_task A) host s cs w :
  c_io (cs 0%nat) = Ok tt -> loaded host (cs 1%nat) (disk w) = Ok s ->
  run (load_creds_for_server host ≫= f) cs w = run (f (Some (host, s))) (fun n => cs (2 + n)%nat) w.
Proof.
  unfold load_creds_for_server, TokenStore_new, load, loaded, stored. intros Hio. cbn. rewrite Hio. cbn.
  destruct (c_io (cs 1%nat)); [|done].
  destruct (state_file (disk w)) as [data|]; cbn; [destruct (state_from_slice data); cbn|]; by intros ->.
Qed.

Lemma reuse_run host cs w : run (reuse_or_generate host) cs w = Done (keys_for host cs (disk w)) w.
Proof. unfold reuse_or_generate. rewrite run_load_bind. unfold keys_for. by destruct (loaded _ _ _). Qed.

(** The world after one request. *)
Definition requested (w : LoginWorld N) (n : N) (request : string * option string * Json) : LoginWorld N :=
  {| disk := disk w; token_files := token_files w; net := n; asked := asked w ++ [request];
     connections := connections w; slept := slept w |}.

(** What a login has done to the world when it returns [r]. *)
Definition claimed (agent_version host : string) (port : Z) (pat : string) (keys : string * string) w
    (r : result string unit) (w' : LoginWorld N) : Prop :=
  match r with
  | Err _ => state_file (disk w') = state_file (disk w)
  | Ok _ => exists id hostname user url c,
      let body := claim_body agent_version keys.2 hostname user in
      url = generate_http_endpoint host port +:+ "/api/nodes/claim" /\
      asked w' = asked w ++ [(url, Some pat, body)] /\ net w' = (post c url (Some pat) body (net w)).2 /\
      (response ← (post c url (Some pat) body (net w)).1; parse_json_response de_claim response) = Ok id /\
      state_file (disk w') = Some (state_bytes
        {| node_id := id; private_key := keys.1; public_key := keys.2; server_host := host |})
  end.

Lemma claim_and_save_run agent_version host port pat user keys cs w :
  exists r w', run (claim_and_save agent_version host port pat user keys) cs w = Done r w' /\
    claimed agent_version host port pat keys w r w'.
Proof.
  unfold claim_and_save, local_hostname, post_with_pat, try_bind. cbn -[save_identity claim_body hostname_or_default].
  set (hostname := hostname_or_default _).
  set (url := generate_http_endpoint host port +:+ "/api/nodes/claim").
  set (body := claim_body agent_version keys.2 hostname user).
  destruct (post (c_net (cs 1%nat)) url (Some pat) body (net w)) as [answer n] eqn:Hpost.
  cbn -[save_identity]. destruct (response ← answer; parse_json_response de_claim response) as [id|e] eqn:Hid; cycle 1.
  { destruct answer as [response|e']; cbn in *; rewrite ?Hid; cbn; by eexists (Err _), _. }
  destruct answer as [response|]; [|done]. cbn -[save_identity] in *. rewrite Hid. cbn -[save_identity].
  destruct (atomic_write_run (state_bytes {| node_id := id; private_key := keys.1; public_key := keys.2; server_host := host |})
    (fun n => cs (S (S n))) (requested w n (url, Some pat, body))) as (r & d & Hrun & _ & Hst).
  destruct (run_bind (save_identity host id keys.1 keys.2)
    (fun saved => Ret (context "failed to persist local node identity" saved)) _ _ _ _ Hrun) as [skip Hb].
  eexists _, _. split; [exact Hb|]. destruct r as [[]|e]; cbn in *; [|done].
  exists id, hostname, user, url, (c_net (cs 1%nat)). fold body. rewrite Hpost. cbn. by rewrite Hid.
Qed.
Lemma bootstrap_run agent_version host port pat cs w :
  exists r w', run (bootstrap_identity agent_version host port pat) cs w = Done r w' /\
    claimed agent_version host port pat (keys_for host (fun n => cs (2 + n)%nat) (disk w)) w r w'.
Proof.
  set (keys := keys_for _ _ _). unfold bootstrap_identity, TokenStore_new, try_bind. cbn -[reuse_or_generate claim_and_save].
  destruct (c_text (cs 0%nat)) as [user|e]; cbn -[reuse_or_generate claim_and_save]; [|by eexists (Err e), w].
  destruct (c_io (cs 1%nat)) as [[]|e]; cbn -[reuse_or_generate claim_and_save]; [|by eexists (Err e), w].
  destruct (run_bind (reuse_or_generate host) (claim_and_save agent_version host port pat user)
    (fun n => cs (2 + n)%nat) w _ _ (reuse_run _ _ _)) as [skip Hb].
  unfold mbind, prog_mbind in Hb. cbn -[reuse_or_generate claim_and_save] in Hb.
  destruct (claim_and_save_run agent_version host port pat user keys (fun n => cs (2 + (skip + n))%nat) w)
    as (r & w' & Hrun & Hpost).
  exists r, w'. split; [|exact Hpost]. etrans; [exact Hb|exact Hrun].
Qed.
End bootstrap.

(** A login that succeeds has claimed, with the user's token and at the
    server's endpoint, the key of the identity already on the disk when that
    is for this server and readable, and a fresh one otherwise; the file then
    holds that key pair under the node id the server answered.  A login that
    fails leaves the file as it was. *)
Theorem bootstrap_identity_spec {N NC}
    `{!Network N NC, !UuidText, !JsonText, !JsonParse, !Base64Url, !Ed25519Signing, !StatusText}
    agent_version host port pat (cs : nat -> LoginChoice NC) (w : LoginWorld N) :
  let keys := keys_for host (fun n => cs (2 + n)%nat) (disk w) in
  exists r w', run (bootstrap_identity agent_version host port pat) cs w = Done r w' /\
    claimed agent_version host port pat keys w r w'.
Proof. apply bootstrap_run. Qed.

(** ** Leaving a server *)

Section leaving.
Context {N NC : Type} `{!Network N NC, !UuidText, !UuidTextLaws, !JsonText, !JsonParse, !JsonLaws, !Base64Url}.
Context `{!Ed25519Signing, !StatusText}.
Implicit Types (w : LoginWorld N) (cs : nat -> LoginChoice NC).

Lemma de_claim_fits j id : de_claim j = Ok id -> fits 128 id.
Proof.
  unfold de_claim, required. intros (id' & (o & _ & Ho)%result_bind_ok & Hid)%result_bind_ok.
  apply result_bind_ok in Hid as ([] & _ & [= <-]).
  destruct o as [v|]; [|done]. destruct v; try done. by eapply parse_fits.
Qed.

Lemma claimed_stored v host port pat keys w r w' :
  claimed (N := N) (NC := NC) v host port pat keys w r w' -> is_ok r = true ->
  exists s, stored (disk w') = Some s /\ server_host s = host /\ private_key s = keys.1 /\ public_key s = keys.2.
Proof.
  destruct r as [[]|]; [|done]. intros (id & hn & user & url & c & _ & _ & _ & Hid & Hst) _.
  apply result_bind_ok in Hid as ([status body] & _ & Hp). unfold parse_json_response in Hp.
  destruct (negb (is_success status)); [done|].
  destruct (j ← json_from_str body; de_claim j) as [id'|] eqn:Hj; [|done]. injection Hp as ->.
  apply result_bind_ok in Hj as (j & _ & Hj%de_claim_fits).
  eexists. unfold stored. rewrite Hst. cbn. rewrite state_roundtrip by done. by split.
Qed.

Lemma loaded_other host s c (d : Disk) :
  stored d = Some s -> server_host s <> "" -> server_host s <> host -> is_ok (loaded (NC := NC) host c d) = false.
Proof.
  intros Hd Hne Hs. destruct (loaded host c d) as [s'|] eqn:Hl; [|done].
  apply loaded_ok in Hl as (_ & Hd' & [?|?] & _); congruence.
Qed.

Lemma logout_run host cs w :
  (forall n, c_io (cs n) = Ok tt) ->
  exists r w', run (logout host) cs w = Done r w' /\
    is_ok r = is_ok (loaded host (cs 1%nat) (disk w)) /\
    state_file (disk w') = if is_ok r then None else state_file (disk w).
Proof.
  intros Hio. set (leave := fun r : result string StoredState => match context "no active login found - please login first" r with
      | Err e => Ret (Err e)
      | Ok _ => deleted ← delete_state_file; Ret (context "failed to delete local identity" deleted) end).
  assert (run (logout host) cs w = run (leave (loaded host (cs 1%nat) (disk w))) (fun n => cs (2 + n)%nat) w) as ->.
  { etrans; [|exact (run_load_bind leave host (fun n => cs (S n)) w)]. unfold logout, TokenStore_new, try_bind.
    cbn -[load]. by rewrite Hio. }
  destruct (loaded host (cs 1%nat) (disk w)) as [s|e] eqn:Hl; cbn; [|by eexists (Err _), w].
  rewrite (Hio 2%nat). apply loaded_ok in Hl as (_ & Hd & _). unfold stored in Hd.
  destruct (state_file (disk w)) as [data|]; [|done]. cbn. by eexists (Ok tt), _.
Qed.
End leaving.

(** There is one identity file for all servers: a login to another server
    replaces the first identity by one with a new key, so that neither its key
    nor its node id can be found again. *)
Theorem second_login_forgets_first {N NC}
    `{!Network N NC, !UuidText, !UuidTextLaws, !JsonText, !JsonParse, !JsonLaws, !Base64Url, !Ed25519Signing, !StatusText}
    v host port pat s (cs cs' : nat -> LoginChoice NC) (w w' : LoginWorld N) :
  stored (disk w) = Some s -> server_host s <> "" -> server_host s <> host -> host <> "" ->
  run (bootstrap_identity v host port pat) cs w = Done (Ok tt) w' ->
  (exists s', stored (disk w') = Some s' /\ server_host s' = host /\
     private_key s' = b64_encode (c_random (cs 3%nat))) /\
  exists r, run (load (server_host s)) cs' w' = Done r w' /\ is_ok r = false.
Proof.
  intros Hd Hne Hs Hh Hrun. destruct (bootstrap_run v host port pat cs w) as (r & w1 & Hrun1 & Hpost).
  rewrite Hrun in Hrun1. injection Hrun1 as <- <-.
  destruct (claimed_stored _ _ _ _ _ _ _ _ Hpost eq_refl) as (s' & Hd' & Hh' & Hk & _).
  pose proof (loaded_other host s (cs 2%nat) (disk w) Hd Hne Hs) as Hl. unfold keys_for in Hk. cbn [Nat.add] in Hk.
  destruct (loaded host (cs 2%nat) (disk w)); [done|]. split; [by exists s'|].
  rewrite load_run. eexists. split; [done|]. eapply loaded_other; [exact Hd'|congruence..].
Qed.

(** A login removes the scheme of the server's URL before it stores it and
    [logout] does not: with the URL that was used to log in, when it has a
    scheme, the agent cannot be logged out, while the bare host works. *)
Theorem logout_needs_bare_host {N NC}
    `{!Network N NC, !UuidText, !UuidTextLaws, !JsonText, !JsonParse, !JsonLaws, !Base64Url, !Ed25519Signing, !StatusText}
    v url port source (cs cs' : nat -> LoginChoice NC) (w w' : LoginWorld N) :
  run (login v url port source) cs w = Done (Ok tt) w' -> strip_scheme url <> "" ->
  (forall n, c_io (cs' n) = Ok tt) ->
  (strip_scheme url <> url -> exists r w'', run (logout url) cs' w' = Done r w'' /\ is_ok r = false /\
     state_file (disk w'') = state_file (disk w')) /\
  (forall s, stored (disk w') = Some s -> usable (strip_scheme url) s ->
     exists r w'', run (logout (strip_scheme url)) cs' w' = Done r w'' /\ is_ok r = true /\
       state_file (disk w'') = None).
Proof.
  intros Hlogin Hne Hio.
  assert (exists pat cs1, run (bootstrap_identity v (strip_scheme url) port pat) cs1 w = Done (Ok tt) w') as (pat & cs1 & Hrun).
  { revert Hlogin. unfold login, read_pat, try_bind. destruct source as [path| |]; cbn -[bootstrap_identity].
    - destruct (bool_decide _); cbn -[bootstrap_identity]; [|done].
      destruct (match c_io (cs 1%nat) with Ok _ => _ | Err _ => _ end); cbn -[bootstrap_identity]; [|done]. eauto.
    - destruct (c_text (cs 0%nat)); cbn -[bootstrap_identity]; [|done]. eauto.
    - destruct (c_text (cs 0%nat)); cbn -[bootstrap_identity]; [|done]. eauto. }
  destruct (bootstrap_run v (strip_scheme url) port pat cs1 w) as (r & w1 & Hrun1 & Hpost).
  rewrite Hrun in Hrun1. injection Hrun1 as <- <-.
  destruct (claimed_stored _ _ _ _ _ _ _ _ Hpost eq_refl) as (s & Hd & Hh & _). split.
  - intros Hscheme. destruct (logout_run url cs' w' Hio) as (r & w'' & Hr & Hok & Hst).
    rewrite (loaded_other url s) in Hok by congruence. rewrite Hok in Hst. by exists r, w''.
  - intros s' Hd' Hu. destruct (logout_run (strip_scheme url) cs' w' Hio) as (r & w'' & Hr & Hok & Hst).
    assert (loaded (strip_scheme url) (cs' 1%nat) (disk w') = Ok s') as Hl by (by apply loaded_ok).
    rewrite Hl in Hok. cbn in Hok. rewrite Hok in Hst. by exists r, w''.
Qed.

(** ** Endpoints *)

#[local] Arguments String.append : simpl nomatch.

Lemma suffix_neq (s t : string) : s +:+ String ":" t <> s.
Proof. intros H%(f_equal String.length). rewrite Str.app_length in H. cbn in H. lia. Qed.

(** In production the requests go to the same host and port as the web
    socket exactly when the port is neither 80 nor 8443, which the HTTP
    endpoint leaves out and the web socket's does not. *)
Theorem endpoints_agree_iff host port :
  (exists scheme authority,
     generate_http_endpoint host port = scheme +:+ "://" +:+ authority /\
     (scheme = "http" \/ scheme = "https") /\
     generate_server_endpoint Production host port = "wss://" +:+ authority) <->
  port <> 80 /\ port <> 8443.
Proof.
  unfold generate_http_endpoint, generate_server_endpoint. set (h := strip_scheme host). cbv zeta.
  destruct (Z.eqb_spec port 443) as [->|H443]; cbn [orb].
  { split; [done|]. intros _. exists "https", h. by split; [|split; [right|]]. }
  destruct (Z.eqb_spec port 8443) as [->|H8443]; cbn [orb].
  { split; [|by intros []]. intros (scheme & a & Hhttp & Hs & Hws). exfalso.
    cbn in Hws. injection Hws as <-. destruct Hs as [-> | ->]; cbn in Hhttp; [discriminate|].
    injection Hhttp as Hh. symmetry in Hh. by apply suffix_neq in Hh. }
  destruct (Z.eqb_spec port 80) as [->|H80]; cbn [orb].
  { split; [|by intros []]. intros (scheme & a & Hhttp & Hs & Hws). exfalso.
    cbn in Hws. injection Hws as <-. destruct Hs as [-> | ->]; cbn in Hhttp; [|discriminate].
    injection Hhttp as Hh. symmetry in Hh. by apply suffix_neq in Hh. }
  split; [done|]. intros _. exists "http", (h +:+ ":" +:+ pretty port). by split; [|split; [left|]].
Qed.

(** ** Staying connected *)

Section reconnecting.
Context {N NC : Type} `{!Network N NC, !UuidText, !JsonText, !JsonParse, !Base64Url, !Ed25519Signing, !StatusText}.
Implicit Types (w : LoginWorld N) (cs : nat -> LoginChoice NC).

Lemma fetch_twp env s w : twp (C := LoginChoice NC) (fetch_session_jwt env s) (fun _ w' => slept w' = slept w) w.
Proof.
  unfold fetch_session_jwt, post_json, try_bind. cbn. intros c. destruct (post _ _ _ _ _) as [answer n].
  eexists _, _. split; [done|]. destruct answer as [response|]; cbn; [|done].
  destruct (parse_json_response _ response) as [challenge|]; cbn; [|done].
  destruct (b64_decode _) as [sk|]; [|done]. destruct (negb _); [done|]. cbn. intros c'.
  destruct (post _ _ _ _ _) as [answer' n']. eexists _, _. split; [done|]. by destruct answer'.
Qed.

Lemma load_creds_run host cs w : exists found, run (load_creds_for_server host) cs w = Done found w.
Proof.
  enough (exists found w', run (load_creds_for_server host) cs w = Done found w' /\ w' = w) as (found & ? & ? & ->)
    by (by exists found).
  unfold load_creds_for_server, TokenStore_new. cbn -[load]. destruct (c_io (cs 0%nat)); [|by eexists _, _].
  eapply run_then; [apply load_run|]. intros skip. by eexists _, _.
Qed.

Lemma try_connection_run env host cs w :
  (forall n, c_shutdown (cs n) = false) ->
  exists flow w', run (try_connection env host) cs w = Done flow w' /\ flow = Continue /\ slept w' = slept w.
Proof.
  intros Hno. destruct (load_creds_run host cs w) as [found Hload]. unfold try_connection.
  eapply run_then; [exact Hload|]. intros skip. destruct found as [[h identity]|]; [|by eexists _, _].
  destruct (twp_run _ _ (fun n => cs (skip + n)%nat) _ (fetch_twp env identity w)) as (jwt & w1 & Hfetch & Hs).
  eapply run_then; [exact Hfetch|]. intros skip'.
  destruct jwt as [token|]; [|by eexists _, _]. cbn. rewrite Hno. by eexists _, _.
Qed.

(** The pauses of the turns from attempt [attempt] on. *)
Definition pauses (attempt : Z) (turns : nat) : list Z :=
  (fun k => 2 ^ Z.min (attempt + Z.of_nat k) 4) <$> seq 1 turns.

Lemma backoff_spec attempt : 0 <= attempt -> backoff_secs (next_attempt attempt) = 2 ^ Z.min (attempt + 1) 4.
Proof.
  intros Ha. unfold backoff_secs, next_attempt.
  assert (Z.min (Z.min U32_MAX (attempt + 1)) 4 = Z.min (attempt + 1) 4) as -> by (unfold U32_MAX; lia).
  apply Z.min_r. trans (2 ^ 4); [apply Z.pow_le_mono_r; lia|done].
Qed.

Lemma pauses_next attempt turns :
  0 <= attempt -> pauses attempt (S turns) = 2 ^ Z.min (attempt + 1) 4 :: pauses (next_attempt attempt) turns.
Proof.
  intros Ha. unfold pauses. cbn [seq]. rewrite fmap_cons. f_equal. rewrite <-fmap_S_seq, <-list_fmap_compose.
  apply list_fmap_ext. intros i k _. cbn. unfold next_attempt, U32_MAX. f_equal. lia.
Qed.

Lemma ws_loop_run turns env host attempt cs w :
  0 <= attempt -> (forall n, c_shutdown (cs n) = false) ->
  exists flow w', run (ws_loop turns env host attempt) cs w = Done flow w' /\
    flow = Continue /\ slept w' = slept w ++ pauses attempt turns.
Proof.
  revert attempt cs w. induction turns as [|turns IH]; intros attempt cs w Ha Hno.
  { eexists _, w. split; [done|]. split; [done|]. unfold pauses. cbn. by rewrite app_nil_r. }
  cbn [ws_loop]. destruct (try_connection_run env host cs w Hno) as (flow & w1 & Htry & -> & Hs).
  eapply run_then; [exact Htry|]. intros skip. cbn [mbind prog_mbind prog_bind perform run exec login_handler login_exec].
  rewrite Hno. rewrite pauses_next by done. rewrite <-backoff_spec by done.
  match goal with |- context [run (ws_loop _ _ _ _) ?cs' ?w'] =>
    destruct (IH (next_attempt attempt) cs' w') as (flow & w2 & Hrun & -> & Hs2) end;
    [unfold next_attempt, U32_MAX; lia|done|].
  eexists _, w2. split; [exact Hrun|]. split; [done|]. rewrite Hs2. cbn. by rewrite Hs, <-app_assoc.
Qed.
End reconnecting.

(** As long as it is not told to stop, the agent never gives up: after
    any number of turns it has tried that often and paused after each, 2, 4,
    8 and 16 seconds and then 16 seconds every time, whatever the file, the
    server and the connections did.  The pause does not go back to 2 seconds
    after a connection that worked. *)
Theorem reconnect_never_gives_up {N NC}
    `{!Network N NC, !UuidText, !JsonText, !JsonParse, !Base64Url, !Ed25519Signing, !StatusText}
    turns env (cs : nat -> LoginChoice NC) (w : LoginWorld N) :
  (forall n, c_shutdown (cs n) = false) ->
  exists w', run (start_ws_connection turns env) cs w = Done Continue w' /\
    slept w' = slept w ++ ((fun k => 2 ^ Z.min (Z.of_nat k) 4) <$> seq 1 turns).
Proof.
  intros Hno. destruct (ws_loop_run turns env (strip_scheme (AgentState.server_host env)) 0 cs w ltac:(done) Hno)
    as (flow & w' & Hrun & -> & Hs). exists w'. split; [exact Hrun|]. exact Hs.
Qed.
