(* ===== verification/AgentMain.v ===== *)
(** * The agent's command line: [agent/src/main.rs], [agent/src/cli.rs]

    The commands as [clap] hands them over, what each of them runs, and the
    runtime they run on.  [start] of [agent/src/agent.rs] is its loop that
    stays connected; its other tasks, the listener of [/version] and the log
    of statistics, only decide when that loop is told to shut down. *)

From S2P Require Import Prelude Async RustStr Protocol Externs JsonDe Token ClientIp AgentState Config AgentWs AgentLogin.

(** ** [cli.rs] *)

Record StartArgs : Type := {
  token_from_file : option string;
  start_server_host : option string;
  start_server_port : option Z }.

Record LoginArgs : Type := {
  from_file : option string;
  from_stdin : bool;
  login_server_host : string;
  login_server_port : Z }.

Record LogoutArgs : Type := { logout_server_host : string; logout_server_port : Z }.

Inductive Commands : Type :=
| Start (args : StartArgs)
| Login (args : LoginArgs)
| Logout (args : LogoutArgs)
| Version.

Definition token_source (args : LoginArgs) : TokenSource :=
  match from_file args with
  | Some path => FromFile path
  | None => if from_stdin args then FromStdin else FromPrompt
  end.

(** The error [main] returns. *)
Inductive MainError : Type :=
| ConfigError (e : VarError)
| CommandError (text : string).

Definition command {A} (r : result string A) : result MainError A :=
  match r with Ok a => Ok a | Err e => Err (CommandError e) end.

(** [RuntimeBuilder::create().with_worker_threads(2)] *)
Definition agent_runtime `{!RuntimeApi} (vars : Vars) : call Builder :=
  builder ← RuntimeBuilder_create vars; with_worker_threads 2 builder.

Section main.
Context `{!UuidText, !JsonText, !JsonParse, !Base64Url, !Ed25519Signing, !StatusText}.
Context (agent_version : string).

(** [get_version] of [http.rs] *)
Definition get_version : Json := JObj [("version", JStr agent_version)].

(** [start(config)], until [turns] attempts to connect are over. *)
Definition start (turns : nat) (config : AgentState.Env) : login_task (result MainError (option string)) :=
  _ ← start_ws_connection turns config; Ret (Ok None).

(** The identity that [start --token-from-file] claims first. *)
Definition save_token_from_file (config : AgentState.Env) (args : StartArgs) : login_task (result MainError unit) :=
  match token_from_file args with
  | None => Ret (Ok tt)
  | Some path_to_token =>
      let server_host := default (AgentState.server_host config) (start_server_host args) in
      let server_port := default (AgentState.server_port config) (start_server_port args) in
      token ← perform (ReadFile path_to_token);
      match token with
      | Err e => Ret (Err (CommandError e))
      | Ok token => saved ← save_token agent_version server_host server_port token; Ret (command saved)
      end
  end.

(** The block of [main]; what [version] prints is the value returned. *)
Definition main (turns : nat) (vars : Vars) (cli : option Commands) : login_task (result MainError (option string)) :=
  match cli with
  | None =>
      match Config.agent_env vars with
      | Err e => Ret (Err (ConfigError e))
      | Ok config => start turns config
      end
  | Some (Start args) =>
      match Config.agent_env vars with
      | Err e => Ret (Err (ConfigError e))
      | Ok config => _ ←? save_token_from_file config args; start turns config
      end
  | Some (Login args) =>
      r ← login agent_version (login_server_host args) (login_server_port args) (token_source args);
      Ret (_ ← command r; Ok None)
  | Some (Logout args) => r ← logout (logout_server_host args); Ret (_ ← command r; Ok None)
  | Some Version => Ret (Ok (Some agent_version))
  end.
End main.

(** ** A server named on the command line *)

Section elsewhere.
Context {N NC : Type} `{!Network N NC, !UuidText, !UuidTextLaws, !JsonText, !JsonParse, !JsonLaws, !Base64Url}.
Context `{!Ed25519Signing, !StatusText}.
Implicit Types (w : LoginWorld N) (cs : nat -> LoginChoice NC).

Definition opens_no_connection {R} (e : loginE R) : Prop := match e with Connect _ _ => False | _ => True end.

Lemma keeps_connections conns {R} (e : loginE R) :
  opens_no_connection e -> effect_preserves (C := LoginChoice NC) (fun w => connections w = conns) R e.
Proof.
  intros He c w r w' Hw Hx. destruct e; try done; cbn in Hx;
    repeat match type of Hx with
      | context [match c_io c with _ => _ end] => destruct (c_io c)
      | context [match state_file (disk w) with _ => _ end] => destruct (state_file (disk w))
      | context [post ?a ?b ?d ?f ?g] => destruct (post a b d f g)
      end; by injection Hx as <- <-.
Qed.

Ltac quiet := repeat first
  [ done
  | apply preserves_bind; [|intros ?]
  | apply preserves_perform; by apply keeps_connections
  | match goal with |- preserves _ (match ?x with _ => _ end) => destruct x end ].

Lemma bootstrap_keeps_connections v host port pat conns :
  preserves (C := LoginChoice NC) (fun w => connections w = conns) (bootstrap_identity v host port pat).
Proof.
  unfold bootstrap_identity, TokenStore_new, reuse_or_generate, load, load_state_from_file, generate_identity,
    claim_and_save, local_hostname, post_with_pat, save_identity, atomic_write, try_bind. quiet.
Qed.

Lemma load_creds_none host cs w :
  (forall c : LoginChoice NC, is_ok (loaded host c (disk w)) = false) ->
  run (load_creds_for_server host) cs w = Done None w.
Proof.
  intros Hno. unfold load_creds_for_server, TokenStore_new. cbn -[load].
  destruct (c_io (cs 0%nat)); [|done].
  etrans; [exact (run_load_bind (fun r => Ret (match r with Ok state => Some (host, state) | Err _ => None end)) host
    (fun n => cs (S n)) w)|].
  specialize (Hno (cs 1%nat)). by destruct (loaded host (cs 1%nat) (disk w)).
Qed.

(** A loop whose identity is for another server only waits. *)
Lemma ws_loop_waits turns env host attempt cs w :
  (forall c : LoginChoice NC, is_ok (loaded host c (disk w)) = false) ->
  exists flow w', run (ws_loop turns env host attempt) cs w = Done flow w' /\
    connections w' = connections w /\ disk w' = disk w.
Proof.
  revert attempt cs w. induction turns as [|turns IH]; intros attempt cs w Hno; [by eexists _, w|].
  assert (run (try_connection env host) cs w = Done Continue w) as Htry.
  { destruct (run_bind (load_creds_for_server host) (fun creds => match creds with
      | Some (_, identity) => jwt ← fetch_session_jwt env identity;
          match jwt with
          | Ok token => ended ← perform (Connect (node_id identity) token);
              Ret (match ended with Some _ => Continue | None => Break end)
          | Err _ => Ret Continue
          end
      | None => Ret Continue end) cs w None w) as [skip Hb]; [by apply load_creds_none|]. exact Hb. }
  cbn [ws_loop]. eapply run_then; [exact Htry|]. intros skip.
  cbn [mbind prog_mbind prog_bind perform run exec login_handler login_exec].
  destruct (c_shutdown _); [by eexists _, _|].
  match goal with |- context [run (ws_loop _ _ _ _) ?cs' ?w'] =>
    destruct (IH (next_attempt attempt) cs' w') as (flow & w2 & Hrun & Hc & Hd); [done|] end.
  by exists flow, w2.
Qed.
End elsewhere.

(** C38. [start --token-from-file] with a host on the command line that is not the
    one of the environment claims an identity for the former and then tries
    to connect to the latter, for which there is none: it never opens a
    connection, however long it runs, and whatever had been on the disk for
    the environment's server is gone. *)
Theorem start_elsewhere_never_connects {N NC}
    `{!Network N NC, !UuidText, !UuidTextLaws, !JsonText, !JsonParse, !JsonLaws, !Base64Url, !Ed25519Signing, !StatusText}
    v turns vars config path host port (cs : nat -> LoginChoice NC) (w : LoginWorld N) :
  Config.agent_env vars = Ok config ->
  strip_scheme host <> "" -> strip_scheme host <> strip_scheme (AgentState.server_host config) ->
  let args := {| token_from_file := Some path; start_server_host := Some host; start_server_port := port |} in
  exists r w', run (main v turns vars (Some (Start args))) cs w = Done r w' /\
    connections w' = connections w /\
    (is_ok r = true -> exists s, stored (disk w') = Some s /\ server_host s = strip_scheme host).
Proof.
  intros Hconfig Hne Hother args. unfold main. rewrite Hconfig. unfold save_token_from_file, args, try_bind.
  cbn -[save_token start]. set (token := match c_io (cs 0%nat) with Ok _ => _ | Err _ => _ end).
  destruct token as [token|e]; cbn -[save_token start]; [|by eexists _, w].
  set (port' := default _ port). unfold save_token.
  destruct (bootstrap_run v (strip_scheme host) port' (Str.trim token) (fun n => cs (S n)) w) as (r & w1 & Hrun & Hclaimed).
  assert (connections w1 = connections w) as Hconn.
  { eapply (preserves_run (fun w' => connections w' = connections w)); [apply bootstrap_keeps_connections|done|exact Hrun]. }
  eapply run_then; [exact (run_ret _ command _ _ _ _ Hrun)|]. intros skip.
  destruct r as [[]|e]; cbn -[start]; [|by eexists _, w1].
  destruct (claimed_stored _ _ _ _ _ _ _ _ Hclaimed eq_refl) as (s & Hs & Hhost & _).
  unfold start, start_ws_connection.
  match goal with |- context [run _ ?cs' w1] =>
    destruct (ws_loop_waits turns config (strip_scheme (AgentState.server_host config)) 0 cs' w1)
      as (flow & w2 & Hloop & Hc2 & Hd2) end.
  { intros c. apply (loaded_other _ s); congruence. }
  eexists _, w2. split; [exact (run_ret _ (fun _ => Ok None) _ _ _ _ Hloop)|]. split; [congruence|].
  intros _. exists s. by rewrite Hd2.
Qed.
