(* ===== verification/SystemLogin.v ===== *)
(** * Agent and server together: obtaining a session

    The agent's requests of [agent/src/agent.rs] answered by the server's
    handlers of [server/src/node_auth.rs], through the routes of
    [server/src/server.rs] and the JSON text on the wire.  Names that both
    programs use are written with their file. *)

From S2P Require Import Prelude Async RustStr Protocol Externs JsonDe Token ClientIp.
From S2P Require Import ServerState ServerDb ServerAuth ServerClaim.
From S2P Require Import AgentState AgentWs AgentLogin.

(** ** Requests on the wire *)

(** [HeaderValue]: the bytes a value may hold, and those [to_str] reads. *)
Definition visible_char (c : ascii) : bool :=
  let n := N_of_ascii c in ((32 <=? n) && (n <? 127) || (n =? 9))%N.
Definition header_char (c : ascii) : bool := visible_char c || (128 <=? N_of_ascii c)%N.

(** [bearer_auth(token)] and the value the server reads, without the blanks
    around it. *)
Definition bearer_value (token : string) : result string (option string) :=
  let value := "Bearer " +:+ token in
  if negb (all_chars header_char value) then Err "failed to parse header value"
  else Ok (if all_chars visible_char value then Some (Str.trim value) else None).

Definition request_headers (bearer : option string) : result string HeaderMap :=
  match bearer with
  | Some token => v ← bearer_value token; Ok {[ "authorization" := v ]}
  | None => Ok ∅
  end.

Section login.
Context `{!UuidText, !JsonText, !JsonParse, !DateText, !JwtCodec NodeJwtClaims, !Base64Url, !Ed25519, !Ed25519Signing}.
Context `{!PasswordHasher}.

(** [#[derive(Deserialize)]] of [ClaimNodeRequest] *)
Definition de_claim_request (j : Json) : result string ClaimNodeRequest :=
  public_key ← required de_string "public_key" 0 j;
  hostname ← required de_string "hostname" 1 j;
  metadata ← defaulted (fun v => Ok (de_value v)) default_metadata "metadata" 2 j;
  _ ← at_most 3 j;
  Ok {| cr_public_key := public_key; cr_hostname := hostname; cr_metadata := metadata |}.

(** [#[derive(Deserialize)]] of [ChallengeRequest] and [VerifyRequest] *)
Definition de_challenge_request (j : Json) : result string Uuid :=
  id ← required de_uuid "node_id" 0 j; _ ← at_most 1 j; Ok id.

Definition de_verify_request (j : Json) : result string VerifyRequest :=
  id ← required de_uuid "node_id" 0 j;
  challenge ← required de_string "challenge" 1 j;
  signature ← required de_string "signature" 2 j;
  _ ← at_most 3 j;
  Ok {| vr_node_id := id; vr_challenge := challenge; vr_signature := signature |}.

(** The three routes an agent uses to log in and to authenticate. *)
Definition auth_route (state : AppState) (headers : HeaderMap) (path : string) (body : Json) :
    option (result string (ServerState.task Response)) :=
  if String.eqb path "/api/nodes/claim" then
    Some (payload ← de_claim_request body; Ok (claim_node headers payload))
  else if String.eqb path "/api/nodes/auth/challenge" then
    Some (id ← de_challenge_request body; Ok (create_auth_challenge state id))
  else if String.eqb path "/api/nodes/auth/verify" then
    Some (payload ← de_verify_request body; Ok (verify_auth_challenge state payload))
  else None.

(** A request to the server at [base], which the environment runs as [cs]. *)
Definition serve (base : string) (state : AppState) (cs : nat -> ServerState.Choice) (url : string)
    (bearer : option string) (request : Json) (w : ServerState.World) : result string (Z * string) * ServerState.World :=
  match Str.strip_prefix base url, request_headers bearer with
  | None, _ => (Err "connection refused", w)
  | Some _, Err e => (Err e, w)
  | Some path, Ok headers =>
      match json_from_str (json_to_string request) with
      | Err e => (Ok (BAD_REQUEST, e), w)
      | Ok j =>
          match auth_route state headers path j with
          | None => (Ok (404, ""), w)
          | Some (Err e) => (Ok (422, e), w)
          | Some (Ok p) =>
              match run p cs w with
              | Done r w' => (Ok (status r, json_to_string (body r)), w')
              | Blocked w' | Panicked w' => (Err "connection closed", w')
              end
          end
      end
  end.

Definition server_network (base : string) (state : AppState) :
    Network ServerState.World (nat -> ServerState.Choice) := {| post := serve base state |}.

(** ** The exchange *)

Context `{!UuidTextLaws, !JsonLaws, !JwtLaws NodeJwtClaims nj_exp, !Base64UrlLaws, !Ed25519Laws}.

Lemma strip_base base path : Str.strip_prefix base (base +:+ path) = Some path.
Proof. by apply Str.strip_prefix_spec. Qed.

Lemma serve_challenge base state cs id w :
  fits 128 id -> tables_wf (tables w) -> (forall n, c_db_ok (cs n) = true) ->
  serve base state cs (base +:+ "/api/nodes/auth/challenge") None (JObj [("node_id", JStr (uuid_to_string id))]) w =
    (Ok (200, json_to_string (JObj [("challenge", JStr (b64_encode (c_entropy (cs 0%nat))))])),
     with_tables (challenged state id (b64_encode (c_entropy (cs 0%nat))) (c_now (cs 2%nat)) (tables w)) w).
Proof.
  intros Hid Hwf Hdb. unfold serve. rewrite strip_base, json_parse_compact by done.
  unfold auth_route, de_challenge_request, required. cbn -[create_auth_challenge]. rewrite parse_to_string by done.
  cbn -[create_auth_challenge]. by rewrite create_run.
Qed.

(** The signature that an agent with key [sk] makes is one the server takes. *)
Lemma signature_accepted sk challenge :
  length sk = 32%nat ->
  verify_signature (b64_encode (verifying_key sk)) challenge (b64_encode (ed25519_sign sk challenge)) = Ok tt.
Proof.
  intros Hsk. unfold verify_signature. rewrite !b64_decode_encode. cbn.
  rewrite verifying_key_length, verifying_key_valid, signature_length, sign_verifies by done. done.
Qed.

Lemma serve_verify base state cs p row w token :
  fits 128 (vr_node_id p) -> (forall n, c_db_ok (cs n) = true) ->
  t_nodes (tables w) !! vr_node_id p = Some row -> nc_revoked row.1 = false ->
  proves_identity (tables w) (c_now (cs 3%nat)) p ->
  jwt_encode (jwt_secret (ServerState.env state)) (issued_claims state (vr_node_id p) (c_now (cs 4%nat))) = Ok token ->
  exists expiry,
    serve base state cs (base +:+ "/api/nodes/auth/verify") None
      (JObj [("node_id", JStr (uuid_to_string (vr_node_id p))); ("challenge", JStr (vr_challenge p));
             ("signature", JStr (vr_signature p))]) w =
    (Ok (200, json_to_string (JObj [("access_token", JStr token); ("expires_at", JStr expiry)])),
     with_tables (consumed p (tables w)) w).
Proof.
  intros Hid Hdb Hrow Hrev Hproves Htok. unfold serve. rewrite strip_base, json_parse_compact by done.
  unfold auth_route, de_verify_request, required. cbn -[verify_auth_challenge]. rewrite parse_to_string by done.
  cbn -[verify_auth_challenge].
  destruct (verify_run state p cs w Hdb) as (r & w' & Hrun & Hw & _ & Hok). rewrite (Hok token Hproves Htok) in Hrun.
  replace {| vr_node_id := vr_node_id p; vr_challenge := vr_challenge p; vr_signature := vr_signature p |} with p
    by (by destruct p).
  rewrite Hrun, Hw by (by exists row). eexists. reflexivity.
Qed.

Lemma parse_response {T} `{!StatusText} (de : Json -> result string T) fields x :
  flat fields = true -> de (JObj fields) = Ok x ->
  parse_json_response de (200, json_to_string (JObj fields)) = Ok x.
Proof. intros Hf Hde. unfold parse_json_response. cbn -[json_from_str]. rewrite json_parse_compact by done. cbn. by rewrite Hde. Qed.

Context `{!StatusText}.

(** An active node of the server that [identity] is the key of. *)
Definition registered (identity : StoredState) (sk : bytes) (t : Tables) : Prop :=
  exists row, t_nodes t !! AgentLogin.node_id identity = Some row /\ nc_revoked row.1 = false /\
    nc_public_key row.1 = b64_encode (verifying_key sk) /\ private_key identity = b64_encode sk /\ length sk = 32%nat.

Lemma fetch_run (env : AgentState.Env) state identity sk token
    (cs : nat -> LoginChoice (nat -> ServerState.Choice)) (w : LoginWorld ServerState.World) :
  let base := generate_http_endpoint (AgentState.server_host env) (server_port env) in
  let _ := server_network base state in
  let cs1 := c_net (cs 0%nat) in
  let cs2 := c_net (cs 1%nat) in
  let id := AgentLogin.node_id identity in
  fits 128 id -> tables_wf (tables (net w)) -> registered identity sk (tables (net w)) ->
  (forall n, c_db_ok (cs1 n) = true) -> (forall n, c_db_ok (cs2 n) = true) ->
  c_now (cs2 3%nat) < c_now (cs1 2%nat) + seconds (challenge_ttl_secs (ServerState.env state)) ->
  jwt_encode (jwt_secret (ServerState.env state)) (issued_claims state id (c_now (cs2 4%nat))) = Ok token ->
  exists w', run (fetch_session_jwt env identity) cs w = Done (Ok token) w' /\
    active_node (tables (net w')) id /\ AgentLogin.connections w' = AgentLogin.connections w /\ disk w' = disk w /\
    t_nodes (tables (net w')) !! id = t_nodes (tables (net w)) !! id.
Proof.
  intros base net_ cs1 cs2 id Hid Hwf (row & Hrow & Hrev & Hpk & Hsk & Hlen) Hdb1 Hdb2 Hx Htok.
  set (challenge := b64_encode (c_entropy (cs1 0%nat))).
  set (w1 := with_tables (challenged state id challenge (c_now (cs1 2%nat)) (tables (net w))) (net w)).
  set (p := {| vr_node_id := id; vr_challenge := challenge; vr_signature := b64_encode (ed25519_sign sk challenge) |}).
  assert (Hrow1 : t_nodes (tables w1) !! id = Some row).
  { cbn. unfold challenged. fold id in Hrow. rewrite Hrow. by destruct (nc_revoked row.1). }
  assert (Hproves : proves_identity (tables w1) (c_now (cs2 3%nat)) p).
  { assert (Str.trim challenge = challenge) as Htrim by apply b64_trim.
    exists row. eexists. unfold p. cbn [vr_node_id vr_challenge vr_signature]. rewrite Htrim, b64_trim.
    split; [exact Hrow1|]. split; [done|]. split.
    - unfold challenge_matches, w1, challenged. cbn. fold id in Hrow. rewrite Hrow, Hrev. cbn.
      rewrite lookup_insert_eq. cbn. by rewrite bool_decide_true.
    - split; [done|]. rewrite Hpk. by apply signature_accepted. }
  pose proof (serve_challenge base state cs1 id (net w) Hid Hwf Hdb1) as Hs1. fold challenge w1 in Hs1.
  destruct (serve_verify base state cs2 p row w1 token Hid Hdb2 Hrow1 Hrev Hproves Htok) as [expiry Hs2].
  unfold fetch_session_jwt, post_json, try_bind. fold base. cbn -[serve b64_encode].
  change (serve base state (c_net (cs 0%nat))) with (serve base state cs1). fold id. rewrite Hs1. cbn -[serve json_from_str json_to_string].
  rewrite json_parse_compact by done. cbn -[serve b64_encode b64_decode].
  rewrite Hsk, b64_decode_encode, Hlen. cbn -[serve b64_encode].
  change (serve base state (c_net (cs 1%nat))) with (serve base state cs2). unfold p in Hs2 at 1 2 3. cbn in Hs2.
  rewrite Hs2. cbn -[json_from_str json_to_string]. rewrite json_parse_compact by done.
  eexists. split; [reflexivity|]. cbn.
  assert (t_nodes (consumed p (tables w1)) !! id = Some row) as Hrow2 by (unfold consumed; case_match; exact Hrow1).
  split; [by exists row|]. split; [done|]. split; [done|]. etrans; [exact Hrow2|done].
Qed.

(** A node's token, checked as long as it has not expired. *)
Lemma token_accepted state id iat token cs w :
  c_db_ok (cs 1%nat) = true -> active_node (tables w) id ->
  jwt_encode (jwt_secret (ServerState.env state)) (issued_claims state id iat) = Ok token ->
  as_secs (c_now (cs 0%nat)) <= nj_exp (issued_claims state id iat) ->
  run (authenticate_node_jwt state token) cs w = Done (Ok {| an_node_id := id |}) w.
Proof.
  intros Hdb Hactive Htok Hexp. destruct (authenticate_run state token cs w Hdb) as (r & Hrun & Hr).
  rewrite Hrun. f_equal. apply Hr. eexists. split; [apply jwt_decode_encode; [exact Htok|unfold JWT_LEEWAY; lia]|].
  by split.
Qed.
End login.

(** C7. An agent whose identity file holds the key of an active node gets in:
    on its next attempt the server's challenge, signed with that key, is
    exchanged for a token, the agent opens its web socket with that token, and
    the server takes the token as this node's until it expires.  Every byte
    goes through both programs' encoders: JSON, base64 and the token. *)
Theorem agent_gets_in
    `{!UuidText, !UuidTextLaws, !JsonText, !JsonParse, !JsonLaws, !DateText, !JwtCodec NodeJwtClaims}
    `{!JwtLaws NodeJwtClaims nj_exp, !Base64Url, !Base64UrlLaws, !Ed25519, !Ed25519Signing, !Ed25519Laws}
    `{!PasswordHasher, !StatusText}
    (env : AgentState.Env) host state identity sk token
    (cs : nat -> LoginChoice (nat -> ServerState.Choice)) (w : LoginWorld ServerState.World) :
  let base := generate_http_endpoint (AgentState.server_host env) (server_port env) in
  let _ := server_network base state in
  let cs1 := c_net (cs 2%nat) in
  let cs2 := c_net (cs 3%nat) in
  let id := AgentLogin.node_id identity in
  let claims := issued_claims state id (c_now (cs2 4%nat)) in
  c_io (cs 0%nat) = Ok tt -> c_io (cs 1%nat) = Ok tt -> stored (disk w) = Some identity -> usable host identity ->
  fits 128 id -> tables_wf (tables (net w)) -> registered identity sk (tables (net w)) ->
  (forall n, c_db_ok (cs1 n) = true) -> (forall n, c_db_ok (cs2 n) = true) ->
  c_now (cs2 3%nat) < c_now (cs1 2%nat) + seconds (challenge_ttl_secs (ServerState.env state)) ->
  jwt_encode (jwt_secret (ServerState.env state)) claims = Ok token ->
  exists flow w', run (try_connection env host) cs w = Done flow w' /\
    AgentLogin.connections w' = AgentLogin.connections w ++ [(id, token)] /\
    forall cs3, c_db_ok (cs3 1%nat) = true -> as_secs (c_now (cs3 0%nat)) <= nj_exp claims ->
      run (authenticate_node_jwt state token) cs3 (net w') = Done (Ok {| an_node_id := id |}) (net w').
Proof.
  intros base net_ cs1 cs2 id claims Hio0 Hio1 Hstored Husable Hid Hwf Hreg Hdb1 Hdb2 Hx Htok.
  destruct (fetch_run env state identity sk token (fun n => cs (2 + n)%nat) w Hid Hwf Hreg Hdb1 Hdb2 Hx Htok)
    as (w1 & Hfetch & Hactive & Hconn & _ & _).
  assert (loaded host (cs 1%nat) (disk w) = Ok identity) as Hload by (by apply loaded_ok).
  unfold try_connection. rewrite (run_creds_bind _ host identity cs w Hio0 Hload).
  eapply run_then; [exact Hfetch|]. intros skip. eexists _, _. split; [reflexivity|]. cbn [AgentLogin.connections net].
  split; [by rewrite Hconn|]. intros cs3 Hdb3 Hexp. by eapply token_accepted.
Qed.
