(* ===== verification/SystemStart.v ===== *)
(** * Agent and server together: the first start of an agent

    [start --token-from-file] of [agent/src/main.rs] against the routes of the
    server: the claim of a fresh key with the user's token, its identity file,
    the signed challenge and the web socket's token. *)

From S2P Require Import Prelude Async RustStr Protocol Externs JsonDe Token ClientIp.
From S2P Require Import ServerState ServerDb ServerAuth ServerClaim.
From S2P Require Import AgentState Config AgentWs AgentLogin AgentMain SystemLogin.

(** ** Claiming a key over the wire *)

Section claim.
Context `{!UuidText, !JsonText, !JsonParse, !DateText, !JwtCodec NodeJwtClaims, !Base64Url, !Ed25519, !Ed25519Signing}.
Context `{!PasswordHasher, !StatusText}.
Context `{!UuidTextLaws, !JsonLaws, !JwtLaws NodeJwtClaims nj_exp, !Base64UrlLaws, !Ed25519Laws}.

Definition bearer_headers (header : string) : HeaderMap := {[ "authorization" := Some header ]}.

(** A node that [user] owns, with [key] and not revoked. *)
Definition owned (t : Tables) (id : Uuid) (user : Uuid) (key : string) : Prop :=
  exists row, t_nodes t !! id = Some row /\ nc_user_id row.1 = user /\ nc_public_key row.1 = key /\
    nc_revoked row.1 = false.

Lemma de_claim_body v key hostname user :
  exists metadata,
    de_claim_request (claim_body v key hostname user) =
      Ok {| cr_public_key := key; cr_hostname := hostname; cr_metadata := metadata |}.
Proof. eexists. reflexivity. Qed.

Lemma serve_claim base state cs v key hostname username pat header user w :
  bearer_value pat = Ok (Some header) -> tables_wf (tables w) -> (forall n, c_db_ok (cs n) = true) ->
  Str.trim key = key -> key <> "" -> Str.trim hostname <> "" ->
  t_nodes (tables w) !! c_uuid (cs 3%nat) = None -> user ∈ t_users (tables w) ->
  may_register (tables w) (c_now (cs 1%nat)) (bearer_headers header) user ->
  find_by_public_key key (tables w) = None ->
  exists w', serve base state cs (base +:+ "/api/nodes/claim") (Some pat) (claim_body v key hostname username) w =
      (Ok (200, json_to_string (JObj [("success", JBool true); ("node_id", json_uuid (c_uuid (cs 3%nat)))])), w') /\
    tables_wf (tables w') /\ owned (tables w') (c_uuid (cs 3%nat)) user key.
Proof.
  intros Hbearer Hwf Hdb Htrim Hkey Hhost Hfresh Huser Hmay Hfree.
  destruct (de_claim_body v key hostname username) as [metadata Hde].
  set (payload := {| cr_public_key := key; cr_hostname := hostname; cr_metadata := metadata |}) in Hde.
  destruct (claim_node_spec (bearer_headers header) payload cs w user) as (Hclaim & _);
    [done|done|unfold payload; cbn [cr_public_key]; congruence|done..|].
  destruct Hclaim as (row & name & w' & Hrun & Hrow & Hpk & Hown & _ & _ & Hwf' & Hnew).
  { done. } { unfold payload. cbn [cr_public_key]. rewrite Htrim. intros id r Hr Hk. by destruct (find_by_public_key_none _ _ Hfree id r). }
  unfold payload in Hnew, Hpk. cbn [cr_public_key] in Hnew, Hpk. rewrite Htrim in Hnew, Hpk. destruct (Hnew Hfree) as [Hid Hrev]. rewrite Hid in *.
  exists w'. split; [|split; [done|by exists (row, name)]].
  unfold serve, request_headers. rewrite strip_base, Hbearer. cbn [mbind result_bind].
  unfold claim_body at 1. rewrite json_parse_compact by done. fold (claim_body v key hostname username).
  unfold auth_route. cbn [String.eqb]. cbn -[claim_node de_claim_request claim_body]. rewrite Hde.
  cbn -[claim_node]. fold (bearer_headers header). by rewrite Hrun.
Qed.
End claim.

(** ** An environment where nothing fails *)

Section start.
Context `{!UuidText, !JsonText, !JsonParse, !DateText, !JwtCodec NodeJwtClaims, !Base64Url, !Ed25519, !Ed25519Signing}.
Context `{!PasswordHasher, !StatusText}.
Context `{!UuidTextLaws, !JsonLaws, !JwtLaws NodeJwtClaims nj_exp, !Base64UrlLaws, !Ed25519Laws}.
Implicit Types (cs : nat -> LoginChoice (nat -> ServerState.Choice)) (w : LoginWorld ServerState.World).

(** Every call succeeds, the agent is not told to stop, and the server's
    clock reads between [t0] and [t1]. *)
Record works (t0 t1 : SystemTime) cs : Prop := {
  works_io n : c_io (cs n) = Ok tt;
  works_text n : is_ok (c_text (cs n)) = true;
  works_running n : c_shutdown (cs n) = false;
  works_db n m : c_db_ok (c_net (cs n) m) = true;
  works_clock n m : t0 <= c_now (c_net (cs n) m) <= t1 }.

(** The keys and the node ids that are drawn are new to the server. *)
Record fresh (t : Tables) cs : Prop := {
  fresh_length n : length (c_random (cs n)) = 32%nat;
  fresh_key n : find_by_public_key (b64_encode (verifying_key (c_random (cs n)))) t = None;
  fresh_fits n m : fits 128 (c_uuid (c_net (cs n) m));
  fresh_id n m : c_uuid (c_net (cs n) m) <> nil_uuid /\ t_nodes t !! c_uuid (c_net (cs n) m) = None }.

Lemma works_skip t0 t1 cs k : works t0 t1 cs -> works t0 t1 (fun n => cs (k + n)%nat).
Proof. intros []. by constructor. Qed.

Lemma fresh_skip t cs k : fresh t cs -> fresh t (fun n => cs (k + n)%nat).
Proof. intros []. by constructor. Qed.

Lemma may_register_before t now now' headers user :
  now' <= now -> may_register t now headers user -> may_register t now' headers user.
Proof.
  intros Hle (b & i & s & token & Hb & Hc & Ht & Hx & Hrest). exists b, i, s, token.
  do 3 (split; [done|]). split; [|done]. intros e He. specialize (Hx e He). lia.
Qed.

Context (base : string) (state : AppState).
#[local] Instance reached : Network ServerState.World (nat -> ServerState.Choice) := server_network base state.

Lemma atomic_write_ok data cs w :
  (forall n, c_io (cs n) = Ok tt) ->
  run (atomic_write data) cs w = Done (Ok tt) (with_disk {| state_file := Some data; temp_file := None |} w).
Proof. intros Hio. unfold atomic_write, try_bind. cbn. by rewrite !Hio; repeat (cbn; rewrite Hio). Qed.

(** The host name that is sent is never blank. *)
Lemma hostname_not_blank o : Str.trim (hostname_or_default o) <> "".
Proof.
  destruct o as [value|]; [|done]. unfold hostname_or_default.
  destruct (Str.is_empty (Str.trim value)) eqn:He; cbn [negb]; [done|]. intros Hv. by rewrite Hv in He.
Qed.

Lemma key_not_empty sk : length sk = 32%nat -> b64_encode (verifying_key sk) <> "".
Proof.
  intros Hsk He%b64_encode_empty. pose proof (verifying_key_length sk Hsk) as Hl. rewrite He in Hl. discriminate.
Qed.

Lemma claim_and_save_ok v host port pat username header user sk cs w t0 t1 :
  generate_http_endpoint host port = base -> works t0 t1 cs -> length sk = 32%nat ->
  find_by_public_key (b64_encode (verifying_key sk)) (tables (net w)) = None ->
  fresh (tables (net w)) cs -> tables_wf (tables (net w)) -> bearer_value pat = Ok (Some header) ->
  user ∈ t_users (tables (net w)) -> may_register (tables (net w)) t1 (bearer_headers header) user ->
  exists r w', run (claim_and_save v host port pat username (b64_encode sk, b64_encode (verifying_key sk))) cs w = Done r w' /\
    r = Ok tt /\ AgentLogin.connections w' = AgentLogin.connections w /\
    exists id, stored (disk w') = Some {| AgentLogin.node_id := id; private_key := b64_encode sk;
        public_key := b64_encode (verifying_key sk); server_host := host |} /\
      fits 128 id /\ id <> nil_uuid /\ tables_wf (tables (net w')) /\
      owned (tables (net w')) id user (b64_encode (verifying_key sk)).
Proof.
  intros Hbase Hworks Hsk Hfree Hfresh Hwf Hbearer Huser Hmay.
  set (cs1 := c_net (cs 1%nat)). set (id := c_uuid (cs1 3%nat)). set (key := b64_encode (verifying_key sk)) in *.
  destruct (fresh_id _ _ Hfresh 1%nat 3%nat) as [Hnil Hnew]. pose proof (fresh_fits _ _ Hfresh 1%nat 3%nat) as Hfits.
  fold cs1 id in Hnil, Hnew, Hfits.
  set (hostname := hostname_or_default (c_hostname (cs 0%nat))).
  destruct (serve_claim base state cs1 v key hostname username pat header user (net w))
    as (w1 & Hserve & Hwf1 & Howned); try done.
  { intros n. apply (works_db _ _ _ Hworks). } { apply b64_trim. } { by apply key_not_empty. }
  { apply hostname_not_blank. } { eapply may_register_before; [|exact Hmay]. apply (works_clock _ _ _ Hworks). }
  assert (parse_json_response de_claim (200, json_to_string (JObj [("success", JBool true); ("node_id", json_uuid id)])) = Ok id)
    as Hparse.
  { apply parse_response; [done|]. unfold de_claim, required. cbn. by rewrite parse_to_string. }
  unfold claim_and_save, local_hostname, post_with_pat, try_bind. rewrite Hbase.
  cbn -[save_identity claim_body serve hostname_or_default parse_json_response]. fold hostname cs1 key.
  rewrite Hserve. cbn -[save_identity parse_json_response]. fold id. rewrite Hparse. cbn -[save_identity].
  unfold save_identity. set (data := state_bytes _).
  match goal with |- context [run _ ?cs' ?w'] =>
    pose proof (run_ret _ (fun saved => context "failed to persist local node identity" saved) _ _ _ _
      (atomic_write_ok data cs' w' (fun n => works_io _ _ _ Hworks _))) as Hsave end.
  eexists _, _. split; [exact Hsave|]. split; [done|]. split; [done|]. exists id.
  split; [|done]. unfold stored. cbn -[state_from_slice]. unfold data. by rewrite state_roundtrip.
Qed.

Lemma bootstrap_ok v host port pat header user cs w t0 t1 :
  generate_http_endpoint host port = base -> works t0 t1 cs ->
  (forall c : LoginChoice (nat -> ServerState.Choice), is_ok (loaded host c (disk w)) = false) ->
  fresh (tables (net w)) cs -> tables_wf (tables (net w)) -> bearer_value pat = Ok (Some header) ->
  user ∈ t_users (tables (net w)) -> may_register (tables (net w)) t1 (bearer_headers header) user ->
  exists r w', run (bootstrap_identity v host port pat) cs w = Done r w' /\
    r = Ok tt /\ AgentLogin.connections w' = AgentLogin.connections w /\
    exists id sk, stored (disk w') = Some {| AgentLogin.node_id := id; private_key := b64_encode sk;
        public_key := b64_encode (verifying_key sk); server_host := host |} /\ length sk = 32%nat /\
      fits 128 id /\ id <> nil_uuid /\ tables_wf (tables (net w')) /\
      owned (tables (net w')) id user (b64_encode (verifying_key sk)).
Proof.
  intros Hbase Hworks Hno Hfresh Hwf Hbearer Huser Hmay.
  unfold bootstrap_identity, TokenStore_new, try_bind. cbn -[reuse_or_generate claim_and_save].
  pose proof (works_text _ _ _ Hworks 0%nat) as Htext. destruct (c_text (cs 0%nat)) as [username|]; [|done].
  cbn -[reuse_or_generate claim_and_save]. rewrite (works_io _ _ _ Hworks). cbn -[reuse_or_generate claim_and_save].
  eapply run_then; [apply reuse_run|]. intros skip. unfold keys_for.
  specialize (Hno (cs 2%nat)). destruct (loaded host (cs 2%nat) (disk w)); [done|].
  set (sk := c_random (cs 3%nat)).
  destruct (claim_and_save_ok v host port pat username header user sk (fun n => cs (2 + (skip + n))%nat) w t0 t1)
    as (r & w' & Hrun & Hr & Hconn & id & Hrest); try done.
  { exact (works_skip _ _ _ skip (works_skip _ _ _ 2 Hworks)). } { apply (fresh_length _ _ Hfresh). }
  { apply (fresh_key _ _ Hfresh). } { exact (fresh_skip _ _ skip (fresh_skip _ _ 2 Hfresh)). }
  exists r, w'. split; [exact Hrun|]. split; [done|]. split; [done|]. exists id, sk.
  destruct Hrest as (? & ? & ? & ? & ?). split; [done|]. split; [apply (fresh_length _ _ Hfresh)|done].
Qed.

(** The token that [state] gives node [id] within [t0, t1] opens its web
    socket, and is taken as that node's until it expires. *)
Definition connected (t0 t1 : SystemTime) (id : Uuid) (token : string) (w' : ServerState.World) : Prop :=
  exists iat, t0 <= iat <= t1 /\
    jwt_encode (jwt_secret (ServerState.env state)) (issued_claims state id iat) = Ok token /\
    forall cs3 : nat -> ServerState.Choice, c_db_ok (cs3 1%nat) = true -> as_secs (c_now (cs3 0%nat)) <= nj_exp (issued_claims state id iat) ->
      run (authenticate_node_jwt state token) cs3 w' = Done (Ok {| an_node_id := id |}) w'.

Lemma connection_ok (env : AgentState.Env) host identity sk cs w t0 t1 :
  generate_http_endpoint (AgentState.server_host env) (AgentState.server_port env) = base -> works t0 t1 cs ->
  t1 < t0 + seconds (challenge_ttl_secs (ServerState.env state)) ->
  (forall id iat, t0 <= iat <= t1 -> is_ok (jwt_encode (jwt_secret (ServerState.env state)) (issued_claims state id iat)) = true) ->
  stored (disk w) = Some identity -> usable host identity -> fits 128 (AgentLogin.node_id identity) ->
  tables_wf (tables (net w)) -> registered identity sk (tables (net w)) ->
  exists flow w', run (try_connection env host) cs w = Done flow w' /\ flow = Continue /\ exists token,
    AgentLogin.connections w' = AgentLogin.connections w ++ [(AgentLogin.node_id identity, token)] /\
    connected t0 t1 (AgentLogin.node_id identity) token (net w') /\
    t_nodes (tables (net w')) !! AgentLogin.node_id identity = t_nodes (tables (net w)) !! AgentLogin.node_id identity.
Proof.
  intros Hbase Hworks Htime Hsigns Hstored Husable Hid Hwf Hreg. set (id := AgentLogin.node_id identity) in *.
  set (iat := c_now (c_net (cs 3%nat) 4%nat)).
  pose proof (works_clock _ _ _ Hworks 3%nat 4%nat : t0 <= iat <= t1) as Hiat.
  pose proof (works_clock _ _ _ Hworks 2%nat 2%nat). pose proof (works_clock _ _ _ Hworks 3%nat 3%nat).
  specialize (Hsigns id iat Hiat) as Hsigned.
  destruct (jwt_encode _ (issued_claims state id iat)) as [token|] eqn:Htoken; [|done].
  assert (loaded host (cs 1%nat) (disk w) = Ok identity) as Hload
    by (apply loaded_ok; split; [apply (works_io _ _ _ Hworks)|done]).
  pose proof (fetch_run env state identity sk token (fun n => cs (2 + n)%nat) w) as Hfetch. cbv zeta in Hfetch.
  rewrite Hbase in Hfetch. fold reached in Hfetch.
  destruct Hfetch as (w1 & Hfetch & Hactive & Hconn & _ & Hsame); try done.
  { intros n. apply (works_db _ _ _ Hworks). } { intros n. apply (works_db _ _ _ Hworks). } { cbn. lia. }
  unfold try_connection. rewrite (run_creds_bind _ host identity cs w (works_io _ _ _ Hworks _) Hload).
  eapply run_then; [exact Hfetch|]. intros skip. cbn [mbind prog_mbind prog_bind perform run exec login_handler login_exec].
  rewrite (works_running _ _ _ Hworks). eexists _, _. split; [reflexivity|]. split; [done|]. exists token.
  cbn [AgentLogin.connections net]. split; [by rewrite Hconn|]. split; [|exact Hsame].
  exists iat. split; [done|]. split; [done|]. intros cs3 Hdb3 Hexp. by eapply token_accepted.
Qed.
End start.

(** C8. An agent that is started with a user's token in a file, and has no
    identity that its server would take, is connected after its first attempt:
    it claims a fresh key with the token, stores it under the node id that
    the server answered, signs the server's challenge with it, and opens its
    web socket with the session token it is given, which the server takes as
    this node's until it expires.  The node is the user's. *)
Theorem first_start_gets_in
    `{!UuidText, !UuidTextLaws, !JsonText, !JsonParse, !JsonLaws, !DateText, !JwtCodec NodeJwtClaims}
    `{!JwtLaws NodeJwtClaims nj_exp, !Base64Url, !Base64UrlLaws, !Ed25519, !Ed25519Signing, !Ed25519Laws}
    `{!PasswordHasher, !StatusText}
    v vars config path pat header user t0 t1 state
    (cs : nat -> LoginChoice (nat -> ServerState.Choice)) (w : LoginWorld ServerState.World) :
  let _ := server_network (generate_http_endpoint (AgentState.server_host config) (AgentState.server_port config)) state in
  let host := strip_scheme (AgentState.server_host config) in
  let secret := jwt_secret (ServerState.env state) in
  let args := {| token_from_file := Some path; start_server_host := None; start_server_port := None |} in
  Config.agent_env vars = Ok config -> strip_scheme host = host ->
  works t0 t1 cs -> fresh (tables (net w)) cs -> tables_wf (tables (net w)) ->
  token_files w !! path = Some pat -> bearer_value (Str.trim pat) = Ok (Some header) ->
  user ∈ t_users (tables (net w)) -> may_register (tables (net w)) t1 (bearer_headers header) user ->
  (forall s, stored (disk w) = Some s -> ~ usable host s) ->
  t1 < t0 + seconds (challenge_ttl_secs (ServerState.env state)) ->
  (forall id iat, t0 <= iat <= t1 -> is_ok (jwt_encode secret (issued_claims state id iat)) = true) ->
  exists r w', run (main v 1 vars (Some (Start args))) cs w = Done r w' /\ r = Ok None /\
    exists id token key,
      AgentLogin.connections w' = AgentLogin.connections w ++ [(id, token)] /\
      connected state t0 t1 id token (net w') /\ owned (tables (net w')) id user key.
Proof.
  intros reached host secret args Hconfig Hhost Hworks Hfresh Hwf Hpat Hbearer Huser Hmay Hnone Htime Hsigns.
  set (base := generate_http_endpoint _ _) in reached.
  assert (generate_http_endpoint host (AgentState.server_port config) = base) as Hbase.
  { unfold base, generate_http_endpoint. fold host. by rewrite Hhost. }
  unfold main. rewrite Hconfig. unfold save_token_from_file, args, try_bind. cbn -[save_token start].
  rewrite (works_io _ _ _ Hworks), Hpat. cbn -[save_token start]. unfold save_token. fold host.
  destruct (bootstrap_ok base state v host (AgentState.server_port config) (Str.trim pat) header user
    (fun n => cs (S n)) w t0 t1) as (r & w1 & Hrun & -> & Hconn & id & sk & Hstored & Hsk & Hfits & Hnil & Hwf1 & Howned);
    try done.
  { exact (works_skip _ _ _ 1 Hworks). }
  { intros c. destruct (loaded host c (disk w)) as [s|] eqn:Hl; [|done]. apply loaded_ok in Hl as (_ & Hs & Hu).
    by destruct (Hnone s). }
  { exact (fresh_skip _ _ 1 Hfresh). }
  eapply run_then; [exact (run_ret _ command _ _ _ _ Hrun)|]. intros skip. cbn -[start].
  set (identity := {| AgentLogin.node_id := id; private_key := _; public_key := _; server_host := host |}) in Hstored.
  assert (usable host identity) as Husable.
  { split; [by right|]. split; [done|]. exists sk, (verifying_key sk). cbn. rewrite !b64_decode_encode.
    do 3 (split; [done|]). by apply verifying_key_length. }
  destruct Howned as (row & Hrow & Hown & Hpk & Hrev).
  assert (registered identity sk (tables (net w1))) as Hreg by (by exists row).
  destruct (connection_ok base state config host identity sk (fun n => cs (S (skip + n))%nat) w1 t0 t1)
    as (flow & w2 & Hconnect & -> & token & Hconn2 & Htoken & Hsame); try done.
  { exact (works_skip _ _ _ skip (works_skip _ _ _ 1 Hworks)). }
  assert (exists flow w3, run (ws_loop 1 config host 0) (fun n => cs (S (skip + n))%nat) w1 = Done flow w3 /\
    AgentLogin.connections w3 = AgentLogin.connections w2 /\ net w3 = net w2) as (flow & w3 & Hloop & Hc3 & Hn3).
  { cbn [ws_loop]. eapply run_then; [exact Hconnect|]. intros skip'.
    cbn [mbind prog_mbind prog_bind perform run exec login_handler login_exec]. rewrite (works_running _ _ _ Hworks).
    by eexists _, _. }
  unfold start, start_ws_connection. fold host. eexists _, w3. split; [exact (run_ret _ (fun _ => Ok None) _ _ _ _ Hloop)|].
  split; [done|]. exists id, token, (b64_encode (verifying_key sk)). rewrite Hc3, Hn3, Hconn2, Hconn.
  split; [done|]. split; [done|]. exists row. by rewrite <-Hrow.
Qed.
