(* ===== verification/LoginExample.v ===== *)
(** * An agent that logs in, on which the properties of its login are evaluated

    A disk with one identity file, a server that answers every claim with the
    same node, and, for the exchange with the real server, the small server of
    [ServerExample]. *)

From S2P Require Import Prelude Async RustStr Protocol Externs JsonDe Token.
From S2P Require Import ServerState ServerDb ServerAuth ServerClaim ServerExample.
From S2P Require Import AgentState Config AgentWs AgentLogin AgentMain SystemLogin SystemStart.
Import Toy.

(** ** The agent's machine *)

#[local] Instance status_text : StatusText := {| status_to_string := pretty |}.

(** A server that answers every request with node 7. *)
Definition answer7 : string := json_to_string (JObj [("node_id", JStr (uuid_to_string 7))]).
#[local] Instance claim_network : Network unit unit := {| post _ _ _ _ n := (Ok (200, answer7), n) |}.

(** Everything works; the random bytes are [key_bytes]. *)
Definition good : LoginChoice unit := {|
  c_io := Ok tt; c_written := 0; c_random := key_bytes; c_text := Ok "pat_tok1.s1"; c_hostname := Some "host";
  c_connection := Ok tt; c_shutdown := false; c_net := tt |}.
Definition goods : nat -> LoginChoice unit := fun _ => good.

Definition empty_disk : Disk := {| state_file := None; temp_file := None |}.
Definition machine (d : Disk) : LoginWorld unit :=
  {| disk := d; token_files := {[ "/root/token" := " pat_tok1.s1 " ]}; net := tt; asked := []; connections := [];
     slept := [] |}.

Definition identity_for (host : string) : StoredState :=
  {| AgentLogin.node_id := 10; private_key := key10; public_key := key10; server_host := host |}.
Definition disk_of (s : StoredState) : Disk := {| state_file := Some (state_bytes s); temp_file := None |}.

Lemma identity_usable host : usable host (identity_for host).
Proof.
  split; [by right|]. split; [done|]. exists key_bytes, key_bytes. cbn [private_key public_key identity_for].
  unfold key10. by rewrite b64_decode_encode.
Qed.

Lemma disk_stored s : fits 128 (AgentLogin.node_id s) -> stored (disk_of s) = Some s.
Proof.
  intros Hs. change (match state_from_slice (state_bytes s) with Ok s => Some s | Err _ => None end = Some s).
  by rewrite state_roundtrip.
Qed.

Lemma save_then_load_witness :
  exists r, run (load "b.example") goods (machine (disk_of (identity_for "a.example"))) =
      Done r (machine (disk_of (identity_for "a.example"))) /\
    (is_ok r = true <-> "a.example" = "" \/ "b.example" = "a.example") /\
    (is_ok r = true -> r = Ok (identity_for "a.example")).
Proof.
  apply (save_then_load (identity_for "a.example") "b.example" goods goods (machine empty_disk));
    [done|apply identity_usable|done|reflexivity].
Defined.

(** The machine after a login to [b.example] from one that knows [a.example]. *)
Definition moved : LoginWorld unit :=
  match run (bootstrap_identity "0.1.0" "b.example" 8080 "pat_tok1.s1") goods (machine (disk_of (identity_for "a.example"))) with
  | Done _ w | Blocked w | Panicked w => w
  end.

Lemma second_login_forgets_first_witness :
  (exists s', stored (disk moved) = Some s' /\ server_host s' = "b.example" /\ private_key s' = b64_encode key_bytes) /\
  exists r, run (load "a.example") goods moved = Done r moved /\ is_ok r = false.
Proof.
  apply (second_login_forgets_first "0.1.0" "b.example" 8080 "pat_tok1.s1" (identity_for "a.example") goods goods
    (machine (disk_of (identity_for "a.example")))); [by apply disk_stored|done..|vm_compute; reflexivity].
Defined.

Definition logged_in : LoginWorld unit :=
  match run (login "0.1.0" "https://a.example" 443 (FromFile "/root/token")) goods (machine empty_disk) with
  | Done _ w | Blocked w | Panicked w => w
  end.

Lemma logout_needs_bare_host_witness :
  exists r w'', run (logout "https://a.example") goods logged_in = Done r w'' /\ is_ok r = false /\
    state_file (disk w'') = state_file (disk logged_in).
Proof.
  destruct (logout_needs_bare_host "0.1.0" "https://a.example" 443 (FromFile "/root/token") goods goods
    (machine empty_disk) logged_in) as [Hscheme _]; [vm_compute; reflexivity|vm_compute; discriminate|done|].
  exact (Hscheme ltac:(discriminate)).
Defined.

Definition config : AgentState.Env := {|
  AgentState.mode := Production; AgentState.host := "0.0.0.0"; AgentState.port := 8081; stats_refresh_interval := 30;
  AgentState.server_host := "localhost"; server_port := 8080; ssh_host := "localhost"; ssh_port := 22;
  ssh_auth_mode := SSHAuthMethod.Password; ssh_inactivity_secs := 3600 |}.

Lemma reconnect_never_gives_up_witness :
  exists w', run (start_ws_connection 6 config) goods (machine empty_disk) = Done Continue w' /\
    slept w' = [2; 4; 8; 16; 16; 16].
Proof. apply (reconnect_never_gives_up 6 config goods (machine empty_disk)). done. Defined.

(** The variables of [config]; the rest are the defaults. *)
Definition vars : Vars := {[ "SERVER_HOST" := "localhost"; "SERVER_PORT" := "8080" ]}.

Lemma vars_config : Config.agent_env vars = Ok config.
Proof. vm_compute. reflexivity. Qed.

Lemma start_elsewhere_never_connects_witness :
  exists r w', run (main "0.1.0" 3 vars (Some (Start {| token_from_file := Some "/root/token";
      start_server_host := Some "https://b.example"; start_server_port := Some 443 |}))) goods (machine empty_disk) = Done r w' /\
    connections w' = [] /\
    (is_ok r = true -> exists s, stored (disk w') = Some s /\ server_host s = "b.example").
Proof.
  apply (start_elsewhere_never_connects "0.1.0" 3 vars config "/root/token" "https://b.example" (Some 443) goods
    (machine empty_disk)); [apply vars_config|done|done].
Defined.

#[local] Instance sources : IpSources := {| known_source s := bool_decide (s = "ConnectInfo" \/ s = "RightmostXForwardedFor") |}.

Lemma server_env_spec_witness :
  (forall e, server_env vars = Ok e -> server_fits e /\ forall name, name ∈ needed -> is_Some (vars !! name)) /\
  (forall e, server_fits e -> server_vars e ⊆ vars ->
     vars !! "ACCESS_CONTROL_ALLOW_ORIGIN" = access_control_allowed_origin e -> server_env vars = Ok e) /\
  (forall x, server_env vars = Err x ->
     match x with
     | EnvVarMissing name => name ∈ needed /\ vars !! name = None
     | ParseError name => is_Some (vars !! name)
     end).
Proof. apply server_env_spec. reflexivity. Defined.

(** What the environment of the example makes of each program. *)
Example server_not_configured : server_env vars = Err (EnvVarMissing "DATABASE_URL").
Proof. vm_compute. reflexivity. Qed.
Example bad_port : Config.agent_env (<["PORT" := "70000"]> vars) = Err (ParseError "PORT").
Proof. vm_compute. reflexivity. Qed.
Example signed_port : Config.agent_env (<["SERVER_PORT" := "+8080"]> vars) = Ok config.
Proof. vm_compute. reflexivity. Qed.
Example negative_port : Config.agent_env (<["SERVER_PORT" := "-1"]> vars) = Err (ParseError "SERVER_PORT").
Proof. vm_compute. reflexivity. Qed.

(** ** The agent of node 10 and the server of [ServerExample] *)

#[local] Existing Instance ServerExample.node_jwt.
#[local] Existing Instance ServerExample.node_jwt_laws.

Definition base : string := generate_http_endpoint "localhost" 8080.
#[local] Instance wired : Network ServerState.World (nat -> ServerState.Choice) := server_network base ServerExample.state.

Definition wired_choice : LoginChoice (nat -> ServerState.Choice) := {|
  c_io := Ok tt; c_written := 0; c_random := key_bytes; c_text := Ok ""; c_hostname := None; c_connection := Ok tt;
  c_shutdown := false; c_net := always 0 |}.
Definition wired_world : LoginWorld ServerState.World := {|
  disk := disk_of (identity_for "localhost"); token_files := ∅; net := world0; asked := []; connections := [];
  slept := [] |}.

Lemma agent_gets_in_witness :
  exists flow w', run (try_connection config "localhost") (fun _ => wired_choice) wired_world = Done flow w' /\
    AgentLogin.connections w' = [(10, token10 0)] /\
    forall cs3, c_db_ok (cs3 1%nat) = true -> as_secs (c_now (cs3 0%nat)) <= 300 ->
      run (authenticate_node_jwt ServerExample.state (token10 0)) cs3 (net w') = Done (Ok {| an_node_id := 10 |}) (net w').
Proof.
  apply (agent_gets_in config "localhost" ServerExample.state (identity_for "localhost") key_bytes (token10 0)
    (fun _ => wired_choice) wired_world);
    [reflexivity|reflexivity|by apply disk_stored|apply identity_usable|done|apply tables0_wf| |done|done
    |vm_compute; reflexivity|reflexivity].
  by exists (claim_row_of 10 1 key10 false).
Defined.

(** ** A first start against the server of [ServerExample] *)

(** Key bytes that no node has. *)
Definition new_key : bytes := replicate 32 Byte.x43.
Definition first_choice : LoginChoice (nat -> ServerState.Choice) := {|
  c_io := Ok tt; c_written := 0; c_random := new_key; c_text := Ok "root"; c_hostname := Some "box"; c_connection := Ok tt;
  c_shutdown := false; c_net := always 0 |}.
Definition first_world : LoginWorld ServerState.World := {|
  disk := empty_disk; token_files := {[ "/root/token" := " pat_tok1.s1 " ]}; net := world0; asked := [];
  connections := []; slept := [] |}.

Lemma first_start_gets_in_witness :
  exists r w', run (main "0.1.0" 1 vars (Some (Start {| token_from_file := Some "/root/token"; start_server_host := None;
      start_server_port := None |}))) (fun _ => first_choice) first_world = Done r w' /\ r = Ok None /\
    exists id token key, connections w' = [(id, token)] /\
      connected ServerExample.state 0 0 id token (net w') /\ owned (tables (net w')) id 1 key.
Proof.
  apply (first_start_gets_in "0.1.0" vars config "/root/token" " pat_tok1.s1 " "Bearer pat_tok1.s1" 1 0 0 ServerExample.state
    (fun _ => first_choice) first_world);
    [apply vars_config|reflexivity| | |apply tables0_wf|reflexivity|vm_compute; reflexivity| |exact may_register1
    |discriminate|done|done].
  - by constructor.
  - by constructor.
  - cbn. set_solver.
Defined.
