(* ===== verification/AgentSftp.v ===== *)
(** * File transfer: [agent/src/sftp/actions/]

    Upload, download, deletion and listing, as the SFTP tunnel runs them on
    the commands it receives. *)

From S2P Require Import Prelude Async Mpsc RustStr Protocol Frame Externs AgentState.

Section actions.
Context {FS File : Type} {dm : DashMaps} `{!SftpServer FS File}.
Abbreviation task := (prog (agentE FS File)).

Definition CHUNK_SIZE : Z := 64 * 1024.

(** The path of a file in a directory, as [start_upload], [upload_file_chunk]
    and [start_download] build it. *)
Definition join_path (dir filename : string) : string :=
  if Str.ends_with dir "/" then dir +:+ filename else dir +:+ "/" +:+ filename.

Definition to_session (sid : Z) (frame : WebFrameData.t) : task unit :=
  send_frame (NodeFrameData.WebFrame frame (SessionId sid)).

(** ** [upload.rs] *)

Definition start_upload (upload : SFTPUploadStart) (cid : Uuid) (sid : Z) (msg_id : option Z) : task unit :=
  cleanup_abandoned_uploads;;
  let file_path := join_path (us_remote_path upload) (us_filename upload) in
  let temp_path := file_path +:+ ".tmp" in
  opened ← perform (OnSftp (sftp_open_append temp_path));
  match opened with
  | Ok file =>
      upload_id ← generate_id;
      now ← perform Now;
      uploads_insert (cid, upload_id)
        {| fu_filename := us_filename upload; fu_remote_path := us_remote_path upload;
           fu_total_chunks := us_total_chunks upload; fu_total_size := us_total_size upload;
           fu_sftp_file := file; fu_temp_path := temp_path; fu_started_at := now; fu_last_updated := now |};;
      to_session sid (WebFrameData.SFTPUploadStartResponse sid msg_id {| usr_upload_id := upload_id |})
  | Err err => send_session_error sid ("Failed to open file: " +:+ err) msg_id
  end.

Definition touch_upload (now : SystemTime) (u : FileUpload File) : FileUpload File :=
  {| fu_filename := fu_filename u; fu_remote_path := fu_remote_path u; fu_total_chunks := fu_total_chunks u;
     fu_total_size := fu_total_size u; fu_sftp_file := fu_sftp_file u; fu_temp_path := fu_temp_path u;
     fu_started_at := fu_started_at u; fu_last_updated := now |}.

(** [chunk.chunk_index + 1 >= file_upload.total_chunks], on [u32]s. *)
Definition is_last_chunk (chunk : SFTPUploadChunk) (u : FileUpload File) : bool :=
  fu_total_chunks u <=? wrap 32 (uc_chunk_index chunk + 1).

Definition upload_not_found (chunk : SFTPUploadChunk) : string :=
  "Upload ID " +:+ pretty (uc_upload_id chunk) +:+ " not found".

Definition finish_upload (chunk : SFTPUploadChunk) (cid : Uuid) (sid : Z) (msg_id : option Z) : task unit :=
  let key := (cid, uc_upload_id chunk) in
  file_upload ← uploads_remove key;
  match file_upload with
  | None => send_session_error sid "File upload not found for final chunk" msg_id
  | Some upload =>
      written ← perform (OnSftp (sftp_write_all (fu_sftp_file upload) (uc_data chunk)));
      match written with
      | Err err => send_session_error sid ("Failed to write final chunk: " +:+ err) msg_id
      | Ok _ =>
          let file_path := join_path (fu_remote_path upload) (fu_filename upload) in
          renamed ← perform (OnSftp (sftp_rename (fu_temp_path upload) file_path));
          match renamed with
          | Ok _ => to_session sid (WebFrameData.SFTPUploadChunkAck sid (uc_upload_id chunk) (uc_chunk_index chunk))
          | Err err => send_session_error sid ("Failed to rename file: " +:+ err) msg_id
          end
      end
  end.

(** The guard of [get_mut] is held to the end of the block: while the chunk is
    written and answered, and in the failing branch while the upload is
    removed. *)
Definition append_chunk (chunk : SFTPUploadChunk) (cid : Uuid) (sid : Z) (msg_id : option Z) : task unit :=
  let key := (cid, uc_upload_id chunk) in
  file_upload ← uploads_get_mut key;
  match file_upload with
  | None => send_session_error sid (upload_not_found chunk) msg_id
  | Some upload =>
      written ← perform (OnSftp (sftp_write_all (fu_sftp_file upload) (uc_data chunk)));
      match written with
      | Err err =>
          _ ← uploads_remove key;
          send_session_error sid ("Failed to write chunk: " +:+ err) msg_id;;
          perform (DropGuard (upload_lock key))
      | Ok _ =>
          now ← perform Now;
          updating (with_uploads (alter (touch_upload now) key));;
          to_session sid (WebFrameData.SFTPUploadChunkAck sid (uc_upload_id chunk) (uc_chunk_index chunk));;
          perform (DropGuard (upload_lock key))
      end
  end.

Definition upload_file_chunk (chunk : SFTPUploadChunk) (cid : Uuid) (sid : Z) (msg_id : option Z) : task unit :=
  let key := (cid, uc_upload_id chunk) in
  file_upload ← uploads_get key;
  match file_upload with
  | None => send_session_error sid (upload_not_found chunk) msg_id
  | Some upload =>
      if is_last_chunk chunk upload then finish_upload chunk cid sid msg_id
      else append_chunk chunk cid sid msg_id
  end.

(** ** [download.rs] *)

(** [n as f64] of a [u64]: the nearest number of 53 significant bits, ties to
    even; it is an integer. *)
Definition f64_of_u64 (n : Z) : Z :=
  let e := Z.log2 n - 52 in
  if e <=? 0 then n
  else
    let q := n / 2 ^ e in
    let r := n mod 2 ^ e in
    let half := 2 ^ (e - 1) in
    (if (half <? r) || ((r =? half) && Z.odd q) then q + 1 else q) * 2 ^ e.

(** [((size as f64) / (CHUNK_SIZE as f64)).ceil() as u32]: the division by
    2^16 is exact and the cast saturates. *)
Definition total_chunks_of (size : Z) : Z :=
  Z.min U32_MAX ((f64_of_u64 size + (CHUNK_SIZE - 1)) / CHUNK_SIZE).

Definition start_download (download : SFTPDownloadStart) (cid : Uuid) (sid : Z) (msg_id : option Z) : task unit :=
  cleanup_abandoned_downloads;;
  let file_path := join_path (ds_path download) (ds_filename download) in
  metadata ← perform (OnSftp (sftp_metadata file_path));
  match metadata with
  | Err err => send_session_error sid ("Failed to get file metadata: " +:+ err) msg_id
  | Ok size =>
      let total_size := default 0 size in
      let total_chunks := total_chunks_of total_size in
      opened ← perform (OnSftp (sftp_open file_path));
      match opened with
      | Err err => send_session_error sid ("Failed to open file: " +:+ err) msg_id
      | Ok file =>
          download_id ← generate_id;
          now ← perform Now;
          downloads_insert (cid, download_id)
            {| fd_filename := ds_filename download; fd_total_size := total_size; fd_total_chunks := total_chunks;
               fd_sftp_file := file; fd_started_at := now; fd_last_updated := now |};;
          to_session sid (WebFrameData.SFTPDownloadStartResponse sid msg_id
            {| dsr_download_id := download_id; dsr_total_size := total_size; dsr_total_chunks := total_chunks |})
      end
  end.

Definition touch_download (now : SystemTime) (d : FileDownload File) : FileDownload File :=
  {| fd_filename := fd_filename d; fd_total_size := fd_total_size d; fd_total_chunks := fd_total_chunks d;
     fd_sftp_file := fd_sftp_file d; fd_started_at := fd_started_at d; fd_last_updated := now |}.

(** The chunk is looked at and answered, all under the guard of [get_mut]; the
    result says whether the download is to be removed. *)
Definition answer_chunk_request (cid : Uuid) (sid : Z) (msg_id : option Z) (download_id chunk_index : Z) : task bool :=
  let key := (cid, download_id) in
  found ← downloads_get_mut key;
  match found with
  | None => send_session_error sid "Download not found or expired" msg_id;; Ret false
  | Some download =>
      should_remove ← (
        let chunk_position := chunk_index * CHUNK_SIZE in
        sought ← perform (OnSftp (sftp_seek (fd_sftp_file download) chunk_position));
        match sought with
        | Err err => send_session_error sid ("Error seeking file: " +:+ err) msg_id;; Ret true
        | Ok _ =>
            data ← perform (OnSftp (sftp_read (fd_sftp_file download) (Z.to_nat CHUNK_SIZE)));
            match data with
            | Err err => send_session_error sid ("Error reading file: " +:+ err) msg_id;; Ret true
            | Ok [] => Ret true
            | Ok data =>
                now ← perform Now;
                updating (with_downloads (alter (touch_download now) key));;
                to_session sid (WebFrameData.SFTPDownloadChunk sid msg_id
                  {| dc_download_id := download_id; dc_chunk_index := chunk_index;
                     dc_chunk_size := wrap 32 (Z.of_nat (length data)); dc_data := data |});;
                Ret false
            end
        end);
      perform (DropGuard (download_lock key));;
      Ret (should_remove : bool)
  end.

Definition download_file_chunk (cid : Uuid) (sid : Z) (msg_id : option Z) (download_id chunk_index : Z) : task unit :=
  should_remove ← answer_chunk_request cid sid msg_id download_id chunk_index;
  if (should_remove : bool) then _ ← downloads_remove (cid, download_id); Ret tt else Ret tt.

(** ** [delete.rs] *)

Definition delete_path (data : SFTPDelete) : string :=
  Str.trim_end_matches "/"
    (del_path data +:+ (if Str.ends_with (del_path data) "/" then "" else "/")) +:+ "/" +:+ del_filename data.

Definition delete_file (data : SFTPDelete) (cid : Uuid) (sid : Z) (msg_id : option Z) : task unit :=
  let file_path := delete_path data in
  let temp_path := file_path +:+ ".tmp" in
  uploads_retain (fun e => negb (bool_decide (e.1.1 = cid) && bool_decide (fu_temp_path e.2 = temp_path)));;
  removed ← perform (OnSftp (sftp_remove_file file_path));
  match removed with
  | Ok _ => Ret tt
  | Err err => send_session_error sid ("Failed to delete file: " +:+ err) msg_id
  end.

(** ** [list_dir.rs] *)

(** The last of [Path::components], as text: [.] and empty parts are skipped,
    except a leading [.]. *)
Definition last_component (path : string) : option string :=
  let parts := Str.split "/" path in
  match last (filter (fun s => s <> "" /\ s <> ".") parts) with
  | Some name => Some name
  | None =>
      if Str.starts_with path "/" then Some "/"
      else if bool_decide (head parts = Some ".") then Some "." else None
  end.

Definition list_item (abs_path : string) (entry : DirEntry) : SFTPListItem :=
  {| li_name := de_name entry; li_path := abs_path;
     li_kind := if de_is_dir entry then Folder else Protocol.File;
     li_items := []; li_attributes := {| attr_size := default 0 (de_size entry) |} |}.

Definition list_dir (path : string) : task (result string SFTPListItem) :=
  abs_path ←? perform (OnSftp (sftp_canonicalize path));
  size ←? perform (OnSftp (sftp_metadata path));
  entries ←? perform (OnSftp (sftp_read_dir path));
  Ret (Ok {| li_name := default path (last_component abs_path); li_path := abs_path; li_kind := Folder;
             li_items := map (list_item abs_path) entries; li_attributes := {| attr_size := default 0 size |} |}).

Definition send_directory_listing (path : string) (sid : Z) (msg_id : option Z) : task unit :=
  dir ← list_dir path;
  match dir with
  | Err err => send_session_error sid ("Failed to list directory: " +:+ err) msg_id
  | Ok dir => to_session sid (WebFrameData.SFTPListItems (li_path dir) sid dir msg_id)
  end.

(** ** One command of the SFTP tunnel: [sftp/connection.rs] *)
Definition handle_sftp_command (cid : Uuid) (sid : Z) (cmd : SFTPCommand) : task unit :=
  match cmd with
  | List folder msg_id => send_directory_listing folder sid msg_id
  | DownloadStart download msg_id => start_download download cid sid msg_id
  | DownloadChunk chunk msg_id => download_file_chunk cid sid msg_id (dc_download_id chunk) (dc_chunk_index chunk)
  | UploadStart upload msg_id => start_upload upload cid sid msg_id
  | Upload chunk msg_id => upload_file_chunk chunk cid sid msg_id
  | Delete data msg_id => delete_file data cid sid msg_id
  end.
End actions.
