(* ===== verification/AgentTunnel.v ===== *)
(** * The tunnel tasks: [agent/src/ssh/connection.rs], [agent/src/sftp/connection.rs]

    Each tunnel is a task: it logs in to the SSH server, announces itself,
    serves its command queue until it is told to stop or its channel ends, and
    reports its end.  [russh] is the environment: its answers are arguments of
    the tasks. *)

From S2P Require Import Prelude Async Mpsc RustStr Protocol Frame Externs AgentState AgentSftp.

Section tunnels.
Context {FS File : Type} {dm : DashMaps} `{!SftpServer FS File, !UuidText}.
Abbreviation task := (prog (agentE FS File)).

(** [AgentError]'s [Display] for the two foreign errors. *)
Definition russh_error (e : string) : string := "russh error: " +:+ e.
Definition russh_sftp_error (e : string) : string := "russh sftp error: " +:+ e.

Definition map_err {A} (f : string -> string) (r : result string A) : result string A :=
  match r with Ok a => Ok a | Err e => Err (f e) end.

(** [create_client]: connection, then authentication. *)
Definition create_client (auth_failed : string) (connected : result string unit) (authenticated : result string bool) :
    result string unit :=
  _ ← map_err russh_error connected;
  success ← map_err russh_error authenticated;
  if (success : bool) then Ok tt else Err auth_failed.

(** ** SSH *)

(** What [russh] answers while the tunnel is set up, and when it is closed. *)
Record SshSetup : Type := {
  ssh_connected : result string unit;
  ssh_authenticated : result string bool;
  ssh_channel : result string unit;
  ssh_pty : result string unit;
  ssh_shell : result string unit;
  ssh_disconnect : result string unit }.

Inductive ChannelMsg : Type :=
| ChannelData (data : Bytes)
| Eof
| ExitStatus (exit_status : Z)
| ChannelClose
| OtherMsg.

(** One turn of the loop: the channel's next message, should the turn wait for
    it ([None]: the channel is gone), and whether a write succeeds. *)
Record Turn : Type := { t_msg : option ChannelMsg; t_write_ok : bool }.

(** How a loop stands after the turns given: ended, or still running. *)
Inductive Progress : Type := Ended | Running.

Fixpoint ssh_loop (node_id : Uuid) (sid : Z) (stdin : ChanId) (turns : list Turn) : task Progress :=
  match turns with
  | [] => Ret Running
  | turn :: turns =>
      selected ← perform (SelectSsh stdin);
      match selected with
      | Stop => Ret Ended
      | Cmd (Data _) => if t_write_ok turn then ssh_loop node_id sid stdin turns else Ret Ended
      | Cmd (Resize _ _ _ _) => ssh_loop node_id sid stdin turns
      | Idle =>
          match t_msg turn with
          | None => Ret Ended
          | Some (ChannelData data) =>
              send_tunnel_data sid (uuid_to_string node_id) data;; ssh_loop node_id sid stdin turns
          | Some Eof | Some (ExitStatus _) | Some ChannelClose => Ret Ended
          | Some OtherMsg => ssh_loop node_id sid stdin turns
          end
      end
  end.

(** [SSHConnection::connect]: its outcome, once it has one. *)
Definition ssh_setup (setup : SshSetup) : result string unit :=
  _ ← create_client "SSH authentication failed" (ssh_connected setup) (ssh_authenticated setup);
  _ ← map_err russh_error (ssh_channel setup);
  _ ← map_err russh_error (ssh_pty setup);
  map_err russh_error (ssh_shell setup).

Definition disconnected (sid : Z) (r : result string unit) : result (WebFrameId * string) Z :=
  match map_err russh_error r with Ok _ => Ok sid | Err e => Err (SessionId sid, e) end.

Definition ssh_connect (node_id : Uuid) (t : Tunnel) (setup : SshSetup) (turns : list Turn) :
    task (option (result (WebFrameId * string) Z)) :=
  let sid := tn_sid t in
  match ssh_setup setup with
  | Err e => Ret (Some (Err (SessionId sid, e)))
  | Ok _ =>
      send_frame_data (NodeFrameData.TunnelOpened (Protocol.as_u8 Protocol.SSH) (tn_cid t) sid (tn_msg_id t));;
      progress ← ssh_loop node_id sid (tn_stdin t) turns;
      match progress with
      | Running => Ret None
      | Ended => Ret (Some (disconnected sid (ssh_disconnect setup)))
      end
  end.

(** The end of the spawned task: what it reports. *)
Definition report_end (t : Tunnel) (r : result (WebFrameId * string) Z) : task unit :=
  match r with
  | Ok sid =>
      send_frame_data (NodeFrameData.TunnelClosed (Protocol.as_u8 (tn_protocol t)) (tn_cid t) sid (tn_msg_id t))
  | Err (id, err) =>
      send_frame_data (NodeFrameData.WebFrame (WebFrameData.Error FrameError.Generic err (tn_msg_id t)) id)
  end.

Definition ssh_task (node_id : Uuid) (t : Tunnel) (setup : SshSetup) (turns : list Turn) : task unit :=
  r ← ssh_connect node_id t setup turns;
  match r with
  | None => Ret tt
  | Some r => perform (DropSsh (tn_stdin t));; report_end t r
  end.

(** ** SFTP *)

Record SftpSetup : Type := {
  sftp_connected : result string unit;
  sftp_authenticated : result string bool;
  sftp_channel : result string unit;
  sftp_subsystem : result string unit;
  sftp_session : result string unit;
  sftp_disconnect : result string unit }.

Fixpoint sftp_loop (cid : Uuid) (sid : Z) (stdin : ChanId) (turns : nat) : task Progress :=
  match turns with
  | O => Ret Running
  | S turns =>
      selected ← perform (SelectSftp stdin);
      match selected with
      | Stop => Ret Ended
      | Cmd cmd => handle_sftp_command cid sid cmd;; sftp_loop cid sid stdin turns
      | Idle => sftp_loop cid sid stdin turns
      end
  end.

Definition sftp_setup (setup : SftpSetup) : result string unit :=
  _ ← create_client "SFTP authentication failed" (sftp_connected setup) (sftp_authenticated setup);
  _ ← map_err russh_error (sftp_channel setup);
  _ ← map_err russh_error (sftp_subsystem setup);
  map_err russh_sftp_error (sftp_session setup).

(** [SFTPConnection::connect] announces the tunnel before it has logged in. *)
Definition sftp_connect (t : Tunnel) (setup : SftpSetup) (turns : nat) :
    task (option (result (WebFrameId * string) Z)) :=
  let sid := tn_sid t in
  send_frame_data (NodeFrameData.TunnelOpened (Protocol.as_u8 Protocol.SFTP) (tn_cid t) sid (tn_msg_id t));;
  match sftp_setup setup with
  | Err e => Ret (Some (Err (SessionId sid, e)))
  | Ok _ =>
      progress ← sftp_loop (tn_cid t) sid (tn_stdin t) turns;
      match progress with
      | Running => Ret None
      | Ended => Ret (Some (disconnected sid (sftp_disconnect setup)))
      end
  end.

Definition sftp_task (t : Tunnel) (setup : SftpSetup) (turns : nat) : task unit :=
  r ← sftp_connect t setup turns;
  match r with
  | None => Ret tt
  | Some r => perform (DropSftp (tn_stdin t));; report_end t r
  end.
End tunnels.

(** ** What a task says

    [emits p Q]: on every path of [p], whatever its effects answer, the frames
    it hands to the outbound queue are, in order, a list that [Q] accepts for
    the value it returns. *)

Section emits.
Context {FS File : Type} {dm : DashMaps} `{!SftpServer FS File, !UuidText}.
Abbreviation task := (prog (agentE FS File)).

Definition frames_of {R} (e : agentE FS File R) : list NodeFrameData.t :=
  match e with TrySend f | SendFrame f => [f] | _ => [] end.

Fixpoint emits {A} (p : task A) (Q : A -> list NodeFrameData.t -> Prop) : Prop :=
  match p with
  | Ret a => Q a []
  | Panic => True
  | Vis e k => forall r, emits (k r) (fun a l => Q a (frames_of e ++ l))
  end.

Lemma emits_mono {A} (p : task A) (Q Q' : A -> list NodeFrameData.t -> Prop) :
  (forall a l, Q a l -> Q' a l) -> emits p Q -> emits p Q'.
Proof.
  revert Q Q'. induction p as [a| |R e k IH]; intros Q Q' HQ; cbn; [auto|done|].
  intros Hp r. eapply IH, Hp. intros a l. apply HQ.
Qed.

Lemma emits_bind {A B} (p : task A) (f : A -> task B) Q :
  emits p (fun a l => emits (f a) (fun b l' => Q b (l ++ l'))) -> emits (p ≫= f) Q.
Proof.
  revert Q. induction p as [a| |R e k IH]; intros Q; cbn; [done|done|].
  intros Hp r. apply IH. eapply emits_mono, Hp. cbn. intros a l. apply emits_mono.
  intros b l'. by rewrite app_assoc.
Qed.

(** Every frame of a part goes through the tunnel's own session. *)
Definition own (sid : Z) (l : list NodeFrameData.t) : Prop :=
  Forall (fun f => exists frame, f = NodeFrameData.WebFrame frame (SessionId sid)) l.

Definition talks_to {A} (sid : Z) (p : task A) : Prop := emits p (fun _ => own sid).

Lemma talks_to_bind {A B} sid (p : task A) (f : A -> task B) :
  talks_to sid p -> (forall a, talks_to sid (f a)) -> talks_to sid (p ≫= f).
Proof.
  intros Hp Hf. apply emits_bind. eapply emits_mono, Hp. intros a l Hl. eapply emits_mono, Hf.
  intros b l' Hl'. by apply Forall_app.
Qed.

Lemma talks_to_ret {A} sid (a : A) : talks_to sid (Ret a).
Proof. constructor. Qed.

Lemma talks_to_perform {R} sid (e : agentE FS File R) : own sid (frames_of e) -> talks_to sid (perform e).
Proof. intros He r. cbn. by rewrite app_nil_r. Qed.

Lemma own_nil sid : own sid [].
Proof. constructor. Qed.

Lemma talks_to_session sid f : talks_to sid (to_session sid f).
Proof. intros r. cbn. repeat constructor. by eexists. Qed.

Lemma talks_to_error sid message msg_id : talks_to sid (send_session_error sid message msg_id).
Proof. intros r. cbn. repeat constructor. by eexists. Qed.
End emits.

#[export] Hint Resolve talks_to_ret talks_to_session talks_to_error own_nil : phirepass.

(** Down the binds and case analyses of a task. *)
Ltac talk :=
  repeat first
    [ progress intros
    | solve [eauto with phirepass nocore]
    | apply talks_to_bind
    | apply talks_to_perform
    | case_match ].

Section tunnel_facts.
Context {FS File : Type} {dm : DashMaps} `{!SftpServer FS File, !UuidText}.
Abbreviation task := (prog (agentE FS File)).

Lemma remove_uploads_talks sid keys : talks_to sid (remove_uploads (FS := FS) (File := File) keys).
Proof. induction keys; cbn [remove_uploads]; unfold sync_all; talk. Qed.
Lemma remove_downloads_talks sid keys : talks_to sid (remove_downloads_synced (FS := FS) (File := File) keys).
Proof. induction keys; cbn [remove_downloads_synced]; unfold sync_all; talk. Qed.

Lemma collect_talks sid m (look : nat -> Agent File -> list TunnelKey) shards :
  talks_to sid (collect_keys (FS := FS) m look shards).
Proof. induction shards; cbn [collect_keys]; talk. Qed.
Lemma retain_talks sid keep shards : talks_to sid (uploads_retain_in (FS := FS) (File := File) keep shards).
Proof. induction shards; cbn [uploads_retain_in]; talk. Qed.

Lemma command_talks cid sid cmd : talks_to sid (handle_sftp_command (FS := FS) (File := File) cid sid cmd).
Proof.
  pose proof (remove_uploads_talks sid). pose proof (remove_downloads_talks sid). pose proof (retain_talks sid).
  assert (talks_to sid (cleanup_abandoned_uploads (FS := FS) (File := File))) by (unfold cleanup_abandoned_uploads; talk; apply collect_talks).
  assert (talks_to sid (cleanup_abandoned_downloads (FS := FS) (File := File))) by (unfold cleanup_abandoned_downloads; talk; apply collect_talks).
  destruct cmd; cbn [handle_sftp_command];
    unfold send_directory_listing, list_dir, try_bind, start_download, download_file_chunk, answer_chunk_request,
      start_upload, upload_file_chunk, finish_upload, append_chunk, delete_file, generate_id, updating, reading; cbv zeta; talk.
Qed.

(** The last frame of a tunnel that has ended. *)
Definition ends (t : Tunnel) (l : list NodeFrameData.t) : Prop :=
  l = [NodeFrameData.TunnelClosed (Protocol.as_u8 (tn_protocol t)) (tn_cid t) (tn_sid t) (tn_msg_id t)] \/
  exists e, l = [NodeFrameData.WebFrame (WebFrameData.Error FrameError.Generic e (tn_msg_id t)) (SessionId (tn_sid t))].

(** The frames of a tunnel's life: announced, served, and, unless it is still
    running, ended; with [l] what it says while it serves. *)
Definition life (t : Tunnel) (serves : list NodeFrameData.t -> Prop) (frames : list NodeFrameData.t) : Prop :=
  exists l last, frames =
    NodeFrameData.TunnelOpened (Protocol.as_u8 (tn_protocol t)) (tn_cid t) (tn_sid t) (tn_msg_id t) :: l ++ last /\
    serves l /\ (last = [] \/ ends t last).

Definition shell_output (node_id : Uuid) (t : Tunnel) (l : list NodeFrameData.t) : Prop :=
  exists outputs, l = map (fun data => NodeFrameData.WebFrame
    (WebFrameData.TunnelData (Protocol.as_u8 Protocol.SSH) (uuid_to_string node_id) (tn_sid t) data)
    (SessionId (tn_sid t))) outputs.

Lemma ssh_loop_emits node_id t stdin turns :
  emits (ssh_loop (FS := FS) (File := File) node_id (tn_sid t) stdin turns) (fun _ => shell_output node_id t).
Proof.
  induction turns as [|turn turns IH]; cbn [ssh_loop]; [by exists []|].
  intros [|[]|]; cbn [prog_bind]; try by exists [].
  - destruct (t_write_ok turn); [|by exists []]. exact IH.
  - exact IH.
  - destruct (t_msg turn) as [[]|]; try by exists []; try exact IH.
    + intros r. eapply emits_mono, IH. intros _ l [outputs ->]. by exists (data :: outputs).
    + exact IH.
Qed.

Lemma report_end_emits t r :
  (forall sid, r = Ok sid -> sid = tn_sid t) -> (forall id e, r = Err (id, e) -> id = SessionId (tn_sid t)) ->
  emits (report_end (FS := FS) (File := File) t r) (fun _ => ends t).
Proof.
  intros Hok Herr. destruct r as [sid|[id e]]; intros []; cbn.
  - rewrite (Hok sid) by done. by left.
  - rewrite (Herr id e) by done. right. by exists e.
Qed.

Lemma disconnected_own t r : 
  (forall sid, disconnected (tn_sid t) r = Ok sid -> sid = tn_sid t) /\
  (forall id e, disconnected (tn_sid t) r = Err (id, e) -> id = SessionId (tn_sid t)).
Proof. unfold disconnected. destruct (map_err russh_error r); split; intros; congruence. Qed.

Lemma ssh_task_emits node_id t setup turns :
  tn_protocol t = Protocol.SSH ->
  emits (ssh_task (FS := FS) (File := File) node_id t setup turns) (fun _ frames =>
    match ssh_setup setup with
    | Err e => frames =
        [NodeFrameData.WebFrame (WebFrameData.Error FrameError.Generic e (tn_msg_id t)) (SessionId (tn_sid t))]
    | Ok _ => life t (shell_output node_id t) frames
    end).
Proof.
  intros Hp. unfold ssh_task, ssh_connect. destruct (ssh_setup setup) as [[]|e]; cbn [mbind prog_mbind prog_bind].
  2:{ by intros [] []. }
  intros []. apply emits_bind, emits_bind. eapply emits_mono, ssh_loop_emits. intros progress l Hl.
  rewrite <-Hp. destruct progress; cbn.
  - intros []. destruct (disconnected_own t (ssh_disconnect setup)).
    eapply emits_mono, report_end_emits; [|done..]. intros [] last Hlast. exists l, last. cbn. rewrite ?app_nil_r. auto.
  - exists l, []. cbn. rewrite ?app_nil_r. auto.
Qed.

(** What an SSH tunnel says, on every path and whatever else runs: if
    logging in, the channel, the terminal or the shell fails, a single error
    addressed to its session; otherwise its announcement, then the shell's
    output under its own session id and in order, and when it ends exactly one
    closing frame, a [TunnelClosed] or an error. *)
Theorem ssh_tunnel_says node_id t setup turns :
  tn_protocol t = Protocol.SSH ->
  emits (ssh_task (FS := FS) (File := File) node_id t setup turns) (fun _ frames =>
    match ssh_setup setup with
    | Err e => frames =
        [NodeFrameData.WebFrame (WebFrameData.Error FrameError.Generic e (tn_msg_id t)) (SessionId (tn_sid t))]
    | Ok _ => life t (shell_output node_id t) frames
    end).
Proof. apply ssh_task_emits. Qed.

(** What an SFTP tunnel says, on every path and whatever else runs: first
    its announcement; then only frames addressed to its own session; when it
    ends, or its login has failed, exactly one closing frame. *)
Theorem sftp_tunnel_says t setup turns :
  tn_protocol t = Protocol.SFTP ->
  emits (sftp_task (FS := FS) (File := File) t setup turns) (fun _ frames => life t (own (tn_sid t)) frames).
Proof.
  intros Hp. assert (Hloop : forall stdin n, talks_to (tn_sid t) (sftp_loop (FS := FS) (File := File) (tn_cid t) (tn_sid t) stdin n)).
  { intros stdin n. induction n as [|n IH]; cbn [sftp_loop]; [apply talks_to_ret|].
    apply talks_to_bind; [apply talks_to_perform, own_nil|]. intros []; [apply talks_to_ret| |done].
    apply talks_to_bind; [apply command_talks|done]. }
  unfold sftp_task, sftp_connect. cbv zeta. intros []. apply emits_bind. rewrite <-Hp.
  destruct (sftp_setup setup) as [[]|e]; cbn [mbind prog_mbind prog_bind].
  2:{ intros []. eapply emits_mono, report_end_emits; [|done|by intros ?? [= <-]].
      intros [] last Hlast. exists [], last. split; [done|]. split; [constructor|by right]. }
  apply emits_bind. eapply emits_mono, Hloop. intros progress l Hl. destruct progress; cbn.
  - intros []. destruct (disconnected_own t (sftp_disconnect setup)).
    eapply emits_mono, report_end_emits; [|done..]. intros [] last Hlast. exists l, last. cbn. rewrite ?app_nil_r. auto.
  - exists l, []. cbn. rewrite ?app_nil_r. auto.
Qed.
End tunnel_facts.
