(* ===== verification/AgentSystem.v ===== *)
(** * The agent as a whole: its reader beside its other tasks

    One connection runs one reader; beside it, in any interleaving, the
    heartbeat, the cleanup and the tunnel tasks.  The invariant ties every
    recorded session to the tunnel task that serves it. *)

From S2P Require Import Prelude Async Mpsc RustStr Protocol Frame Externs AgentState AgentWs AgentSftp AgentTunnel.

Section system.
Context {FS File : Type} {dm : DashMaps} `{!SftpServer FS File, !UuidText}.
Context `{!Serde WebFrameData.t, !Serde NodeFrameData.t}.
Context (config : Env) (node_id : Uuid).
Abbreviation task := (prog (agentE FS File)).
Abbreviation world := (World FS File).
Implicit Types (w : world) (a : Agent File) (k key : TunnelKey) (cid : Uuid).

(** The tasks that run beside the reader. *)
Inductive agent_task : task unit -> Prop :=
| task_heartbeat ticks : agent_task (heartbeat_task (stats_refresh_interval config) ticks)
| task_cleanup : agent_task cleanup_tick
| task_ssh t setup turns : agent_task (ssh_task node_id t setup turns)
| task_sftp t setup turns : agent_task (sftp_task t setup turns).

(** The turns of the write task. *)
Inductive env_step : world -> world -> Prop :=
| env_write w ch socket_ok :
    write_turn socket_ok (outbound w) = Some ch -> env_step w (with_outbound ch w).

(** ** The invariant *)

Definition tunnel_key (t : Tunnel) : TunnelKey := (tn_cid t, tn_sid t).

(** Every session is that of a tunnel task: the queue of the session is the
    queue of a task spawned for the same client, under the same id and of the
    same kind; and no two tasks share a queue. *)
Record tunnels_ok w : Prop := {
  to_session key h : sessions (agent w) !! key = Some h ->
    exists t, t ∈ tunnels w /\ tunnel_key t = key /\ h = handle_of (tn_protocol t) (tn_stdin t);
  to_nodup : NoDup (tn_stdin <$> tunnels w);
  to_dom t : t ∈ tunnels w -> tn_stdin t ∈ dom (ssh_stdin w) ∪ dom (sftp_stdin w) }.

(** What the other tasks leave alone. *)
Record beside w w' : Prop := {
  be_sessions : sessions (agent w') = sessions (agent w);
  be_tunnels : tunnels w' = tunnels w;
  be_dom : dom (ssh_stdin w') ∪ dom (sftp_stdin w') = dom (ssh_stdin w) ∪ dom (sftp_stdin w) }.

#[local] Instance beside_refl : Reflexive beside.
Proof. by split. Qed.
#[local] Instance beside_trans : Transitive beside.
Proof. intros ??? [] []. split; congruence. Qed.

Lemma tunnels_ok_less w w' :
  sessions (agent w') ⊆ sessions (agent w) -> tunnels w' = tunnels w ->
  dom (ssh_stdin w') ∪ dom (sftp_stdin w') = dom (ssh_stdin w) ∪ dom (sftp_stdin w) ->
  tunnels_ok w -> tunnels_ok w'.
Proof.
  intros Hs Ht Hd [H1 H2 H3]. split; rewrite ?Ht, ?Hd; try done.
  intros key h Hk. apply H1. by eapply lookup_weaken.
Qed.

(** Effects that open no tunnel and add no session; those of the other tasks
    remove none either. *)
Definition opens_nothing (may_remove : bool) (R : Type) (e : agentE FS File R) : Prop :=
  match e with
  | OnAgent f | OnShard _ f => forall a,
      if may_remove then sessions (f a).2 ⊆ sessions a else sessions (f a).2 = sessions a
  | NewSshStdin | NewSftpStdin | Spawn _ => False
  | _ => True
  end.

Lemma dom_send_in {A} n id (x : A) m b m' : send_in n id x m = Some (b, m') -> dom m' = dom m.
Proof.
  unfold send_in. destruct (m !! id) as [ch|] eqn:Hm; [|by intros [= <- <-]].
  destruct (chan_send n x ch) as [[]|]; [|done]. intros [= <- <-]. apply dom_insert_lookup_L. by rewrite Hm.
Qed.

Lemma dom_select_in {A} b id (m : gmap ChanId (Channel A)) r m' : select_in b id m = (r, m') -> dom m' = dom m.
Proof.
  unfold select_in. destruct b; [by intros [= <- <-]|].
  destruct (m !! id) as [ch|] eqn:Hm; cbn; [|by intros [= <- <-]].
  destruct (chan_recv ch) as [[]|]; intros [= <- <-]; [|done]. apply dom_insert_lookup_L. by rewrite Hm.
Qed.

Lemma opens_nothing_step b R (e : agentE FS File R) c w r w' :
  opens_nothing b R e -> exec e c w = Some (r, w') ->
  sessions (agent w') ⊆ sessions (agent w) /\ (b = false -> sessions (agent w') = sessions (agent w)) /\
  tunnels w' = tunnels w /\
  dom (ssh_stdin w') ∪ dom (sftp_stdin w') = dom (ssh_stdin w) ∪ dom (sftp_stdin w).
Proof.
  intros He Hx. destruct e; cbn in He, Hx; try done; try (by injection Hx as <- <-).
  - specialize (He (agent w)). destruct (f (agent w)) as [x a]. injection Hx as <- <-. cbn in *.
    destruct b; [done|]. by rewrite He.
  - destruct (decide _); [done|]. specialize (He (agent w)). destruct (f (agent w)) as [x a]. injection Hx as <- <-.
    cbn in *. destruct b; [done|]. by rewrite He.
  - destruct (decide _); [done|]. destruct (f (agent w)); by injection Hx as <- <-.
  - injection Hx as <- <-. by destruct (chan_send _ _ _) as [[]|].
  - destruct (chan_send _ _ _) as [[]|]; [|done]. by injection Hx as <- <-.
  - destruct (send_in _ _ _ _) as [[]|] eqn:Hs; [|done]. injection Hx as <- <-. cbn. by rewrite (dom_send_in _ _ _ _ _ _ Hs).
  - destruct (send_in _ _ _ _) as [[]|] eqn:Hs; [|done]. injection Hx as <- <-. cbn. by rewrite (dom_send_in _ _ _ _ _ _ Hs).
  - destruct (select_in _ _ _) as [] eqn:Hs. injection Hx as <- <-. cbn. by rewrite (dom_select_in _ _ _ _ _ Hs).
  - destruct (select_in _ _ _) as [] eqn:Hs. injection Hx as <- <-. cbn. by rewrite (dom_select_in _ _ _ _ _ Hs).
  - injection Hx as <- <-. cbn. by rewrite dom_alter_L.
  - injection Hx as <- <-. cbn. by rewrite dom_alter_L.
  - destruct (f (fs w)). by injection Hx as <- <-.
Qed.

Lemma opens_nothing_preserves b R (e : agentE FS File R) : opens_nothing b R e -> effect_preserves tunnels_ok R e.
Proof. intros He c w r w' HI Hx. destruct (opens_nothing_step _ _ _ _ _ _ _ He Hx) as (? & _ & ? & ?). by eapply tunnels_ok_less. Qed.

Lemma opens_nothing_keeps R (e : agentE FS File R) : opens_nothing false R e -> effect_keeps tunnels_ok beside R e.
Proof.
  intros He c w r w' HI Hx. destruct (opens_nothing_step _ _ _ _ _ _ _ He Hx) as (? & Hs & ? & ?).
  split; [by eapply tunnels_ok_less|]. by split; auto.
Qed.

(** ** The other tasks open nothing *)

Abbreviation quiet := (all_effects (opens_nothing false)).

Lemma quiet_bind {A B} (p : task A) (f : A -> task B) : quiet p -> (forall x, quiet (f x)) -> quiet (p ≫= f).
Proof. apply all_effects_bind. Qed.
Lemma quiet_perform {R} (e : agentE FS File R) : opens_nothing false R e -> quiet (perform e).
Proof. done. Qed.
Lemma quiet_ret {A} (x : A) : quiet (Ret (E := agentE FS File) x).
Proof. done. Qed.

#[local] Hint Resolve quiet_ret : phirepass.

Ltac hush :=
  repeat first
    [ progress intros
    | solve [eauto with phirepass nocore]
    | apply quiet_bind
    | apply quiet_perform; done
    | case_match ].

Lemma remove_uploads_quiet keys : quiet (remove_uploads (FS := FS) (File := File) keys).
Proof. induction keys; cbn [remove_uploads]; unfold sync_all; hush. Qed.
Lemma remove_downloads_quiet keys : quiet (remove_downloads_synced (FS := FS) (File := File) keys).
Proof. induction keys; cbn [remove_downloads_synced]; unfold sync_all; hush. Qed.

Lemma drop_downloads_quiet keys : quiet (drop_downloads (FS := FS) (File := File) keys).
Proof. induction keys; cbn [drop_downloads]; hush. Qed.

#[local] Hint Resolve remove_uploads_quiet remove_downloads_quiet drop_downloads_quiet : phirepass.

Lemma collect_quiet m (look : nat -> Agent File -> list TunnelKey) shards : quiet (collect_keys (FS := FS) m look shards).
Proof. induction shards; cbn [collect_keys]; hush. Qed.
Lemma retain_quiet keep shards : quiet (uploads_retain_in (FS := FS) (File := File) keep shards).
Proof. induction shards; cbn [uploads_retain_in]; hush. Qed.

#[local] Hint Resolve collect_quiet retain_quiet : phirepass.

Lemma cleanup_quiet : quiet (cleanup_tick (FS := FS) (File := File)).
Proof. unfold cleanup_tick, cleanup_abandoned_uploads, cleanup_abandoned_downloads, uploads_keys, downloads_keys. hush. Qed.

Lemma heartbeat_quiet interval ticks : quiet (heartbeat_task (FS := FS) (File := File) interval ticks).
Proof.
  induction ticks as [|stats ticks IH]; cbn [heartbeat_task]; [done|].
  unfold heartbeat_tick, reading, send_frame_data. cbv zeta. hush.
Qed.

Lemma command_quiet cid sid cmd : quiet (handle_sftp_command (FS := FS) (File := File) cid sid cmd).
Proof.
  destruct cmd; cbn [handle_sftp_command];
    unfold send_directory_listing, list_dir, try_bind, start_download, download_file_chunk, answer_chunk_request,
      start_upload, upload_file_chunk, finish_upload, append_chunk, delete_file, generate_id,
      cleanup_abandoned_uploads, cleanup_abandoned_downloads, uploads_keys, downloads_keys, uploads_retain,
      to_session, send_session_error, send_frame, updating; cbv zeta; hush.
Qed.

Lemma ssh_loop_quiet sid stdin turns : quiet (ssh_loop (FS := FS) (File := File) node_id sid stdin turns).
Proof.
  induction turns; cbn [ssh_loop]; [done|]. unfold send_tunnel_data, send_frame_data. hush.
Qed.

Lemma sftp_loop_quiet cid sid stdin turns : quiet (sftp_loop (FS := FS) (File := File) cid sid stdin turns).
Proof. pose proof command_quiet. induction turns; cbn [sftp_loop]; hush. Qed.

#[local] Hint Resolve cleanup_quiet heartbeat_quiet ssh_loop_quiet sftp_loop_quiet : phirepass.

Lemma agent_task_quiet p : agent_task p -> quiet p.
Proof.
  intros []; hush; unfold ssh_task, ssh_connect, sftp_task, sftp_connect, report_end, send_frame_data; cbv zeta; hush.
Qed.

(** ** The reader *)

Abbreviation steady := (relies tunnels_ok beside).

Lemma steady_quiet b {A} (p : task A) w : all_effects (opens_nothing b) p -> steady p w.
Proof. intros Hp. apply relies_effects. eapply all_effects_mono, Hp. apply opens_nothing_preserves. Qed.

(** A fresh queue belongs to no tunnel, and joins those that exist. *)
Lemma new_stdin w (Y : gset ChanId) :
  let X := dom (ssh_stdin w) ∪ dom (sftp_stdin w) in
  (forall t, t ∈ tunnels w -> tn_stdin t ∈ X) -> Y = {[ fresh X ]} ∪ X ->
  fresh X ∉ tn_stdin <$> tunnels w /\ fresh X ∈ Y /\ forall t, t ∈ tunnels w -> tn_stdin t ∈ Y.
Proof.
  cbv zeta. intros Ht ->. pose proof (is_fresh (dom (ssh_stdin w) ∪ dom (sftp_stdin w))) as Hf. split; [|split].
  - rewrite list_elem_of_fmap. intros (t & He & Hin). apply Hf. rewrite He. by apply Ht.
  - apply elem_of_union_l, elem_of_singleton_2. done.
  - intros t Hin. by apply elem_of_union_r, Ht.
Qed.

Lemma start_tunnel_steady p cid auth msg_id w : steady (start_tunnel p cid auth msg_id) w.
Proof.
  enough (forall stdin w1, stdin ∈ dom (ssh_stdin w1) ∪ dom (sftp_stdin w1) -> stdin ∉ tn_stdin <$> tunnels w1 ->
    steady (sid ← generate_session_id;
            perform (Spawn {| tn_protocol := p; tn_cid := cid; tn_sid := sid; tn_msg_id := msg_id;
                              tn_credentials := auth; tn_stdin := stdin |});;
            insert_session (cid, sid) (handle_of p stdin)) w1) as Hrest.
  { destruct p; cbn [start_tunnel]; (intros c w0 r w' _ [H1 H2 H3] [= <- <-];
      edestruct (new_stdin w0) as (Hn & Ha & Hm); [exact H3| |split; [split; cbn; [exact H1|exact H2|exact Hm]|];
        apply Hrest; [exact Ha|exact Hn]]; rewrite dom_insert_L; clear; set_solver). }
  intros stdin w1 Hd Hn. intros c w2 r w3 [Hs2 Ht2 Hd2] HI [= <- <-]. split; [by eapply tunnels_ok_less, HI|].
  intros c' w4 r' w5 [Hs4 Ht4 Hd4] [H1 H2 H3] [= <- <-]. cbn in Hs4, Ht4, Hd4.
  set (t := {| tn_protocol := p; tn_cid := cid; tn_sid := session_id (agent w2); tn_msg_id := msg_id;
    tn_credentials := auth; tn_stdin := stdin |}).
  assert (tunnels_ok (with_spawned t w4)) as HI5.
  { split; cbn.
    - intros key h Hk. destruct (H1 key h Hk) as (t' & Ht' & Hx). exists t'. split; [set_solver|done].
    - rewrite fmap_app. apply NoDup_app. split; [done|]. split; [|apply NoDup_singleton].
      intros id Hid ->%list_elem_of_singleton. by rewrite Ht4, Ht2 in Hid.
    - intros t' [Ht'| ->%list_elem_of_singleton]%elem_of_app; [by apply H3|]. cbn. by rewrite Hd4, Hd2. }
  split; [done|]. intros c'' w6 r'' w7 [Hs6 Ht6 Hd6] [K1 K2 K3] [= <- <-]. cbn in Ht6. split.
  - split; cbn; [|done..]. intros key h. rewrite lookup_insert_Some. intros [[<- <-]|[_ Hk]]; [|by apply K1].
    exists t. split; [rewrite Ht6; set_solver|done].
  - cbn [mbind prog_mbind prog_bind]. destruct (sessions (agent w6) !! _); [|done].
    by apply (steady_quiet false), quiet_perform.
Qed.

Lemma close_tunnels_less keys : all_effects (opens_nothing true) (close_tunnels (FS := FS) (File := File) keys).
Proof.
  induction keys as [|k keys IH]; cbn [close_tunnels]; [done|].
  apply all_effects_bind; [apply all_effects_perform; intros a; apply delete_subseteq|]. intros []; [|done].
  apply all_effects_bind; [|done]. apply all_effects_perform. intros a. reflexivity.
Qed.

Lemma handle_message_steady f w : steady (handle_message config f) w.
Proof.
  assert (forall cid sid cmd, quiet (logged (send_to_sftp (FS := FS) (File := File) cid sid cmd)))
    as Hsftp by (intros; unfold logged, send_to_sftp, reading; hush).
  assert (forall cid sid cmd, quiet (logged (send_to_ssh (FS := FS) (File := File) cid sid cmd)))
    as Hssh by (intros; unfold logged, send_to_ssh, reading; hush).
  assert (forall A (p : task A) w, quiet p -> steady p w) as Hq by (intros; by apply (steady_quiet false)).
  destruct f; cbn [handle_message]; try done; try (apply Hq; first [apply Hsftp|apply Hssh]).
  - apply Hq. unfold updating. hush.
  - unfold handle_open_tunnel. apply relies_bind; [apply _..| |].
    { apply Hq. unfold ensure_credentials, send_requires_username_error, send_requires_password_error, send_frame_data. hush. }
    intros [_|_] w1; [|done].
    destruct (Protocol.try_from protocol) as [[[]|]|]; cbn [lift_call mbind prog_mbind prog_bind]; try done.
    all: apply relies_bind; [apply _..| |].
    all: try (apply Hq; unfold config_auth, expect; hush; done).
    + intros auth w2. apply (start_tunnel_steady Protocol.SSH).
    + intros auth w2. apply (start_tunnel_steady Protocol.SFTP).
  - apply Hq. case_match; [apply Hssh|done].
  - apply relies_bind; [apply _..| |].
    { apply (steady_quiet true). apply all_effects_bind; [apply all_effects_perform; intros a; reflexivity|]. intros; apply close_tunnels_less. }
    intros [] w1. apply Hq. unfold close_uploads_for_cid, close_downloads_for_cid, uploads_keys, downloads_keys. hush.
Qed.

Lemma reader_task_steady reader w : steady (reader_task config reader) w.
Proof.
  revert w. induction reader as [|[[data| | | |]|] reader IH]; intros w; cbn [reader_task]; try done.
  destruct (decode native data) as [[frame|]|]; cbn [lift_call mbind prog_mbind prog_bind]; try done.
  destruct (Frame.data frame); [done|]. apply relies_bind; [apply _..|apply handle_message_steady|].
  intros. apply IH.
Qed.

Lemma connect_steady reader w : steady (connect config node_id reader) w.
Proof.
  unfold connect. destruct (authenticate node_id reader) as [[[]|] rest]; [|done].
  apply relies_bind; [apply _..|apply reader_task_steady|]. intros [] w1.
  apply relies_bind; [apply _..| |done].
  apply (steady_quiet true). unfold close_all.
  apply all_effects_bind; [apply all_effects_perform; intros a; reflexivity|]. intros session_keys.
  apply all_effects_bind; [apply close_tunnels_less|]. intros _.
  eapply all_effects_mono with (P := opens_nothing false); [|unfold uploads_keys, downloads_keys; hush].
  intros R e. destruct e; cbn; try done; intros He a; by rewrite He.
Qed.

(** ** Reachable states *)

(** A connection that has just been made. *)
Record fresh_connection w : Prop := {
  fc_sessions : sessions (agent w) = ∅;
  fc_tunnels : tunnels w = [] }.

(** C10. From a fresh connection, whatever the server sends and however the
    reader, the heartbeat, the cleanup and the tunnel tasks interleave: every
    recorded session leads to the command queue of a tunnel task spawned for
    the same client, under the same id and of the same kind, and no two tunnel
    tasks share a queue. *)
Theorem sessions_lead_to_their_tunnels reader w cf :
  fresh_connection w ->
  rtc (cstep env_step agent_task) (w, [connect config node_id reader;; Ret tt]) cf ->
  tunnels_ok cf.1.
Proof.
  intros [Hs Ht] Hsteps. eapply (main_reachable tunnels_ok beside env_step agent_task); [apply _..| | | | |exact Hsteps].
  - intros w1 w2 [w' ch b Hch] HI. split; [by eapply tunnels_ok_less, HI|done].
  - intros p Hp. eapply all_effects_mono, agent_task_quiet, Hp. apply opens_nothing_keeps.
  - apply relies_bind; [apply _..|apply connect_steady|done].
  - split; rewrite ?Hs, ?Ht; [done|constructor|]. intros t Hin. by apply not_elem_of_nil in Hin.
Qed.

(** ** Isolation of the clients *)

(** The effect reaches no session and no transfer of a client other than
    [cid], spawns tunnels for [cid] only, and neither takes nor drops a guard. *)
Definition touches_only (cid : Uuid) (R : Type) (e : agentE FS File R) : Prop :=
  match e with
  | OnAgent f | OnShard _ f => forall a k, k.1 <> cid ->
      sessions (f a).2 !! k = sessions a !! k /\ uploads (f a).2 !! k = uploads a !! k /\
      downloads (f a).2 !! k = downloads a !! k
  | Spawn t => tn_cid t = cid
  | HoldShard _ _ | DropGuard _ => False
  | _ => True
  end.

Abbreviation inside cid := (all_effects (touches_only cid)).

Lemma inside_reading {R A} cid (f : Agent File -> R) (g : R -> task A) :
  (forall a, inside cid (g (f a))) -> inside cid (reading f ≫= g).
Proof. intros Hg. apply all_effects_perform_bind; [done|]. intros c w r w' [= <- <-]. apply Hg. Qed.

Lemma inside_shutdown cid h : inside cid (shutdown (FS := FS) (File := File) h).
Proof. by split. Qed.

Lemma inside_close_tunnels cid keys :
  Forall (fun k => k.1 = cid) keys -> inside cid (close_tunnels (FS := FS) (File := File) keys).
Proof.
  induction 1 as [|k keys Hk _ IH]; cbn [close_tunnels]; [done|]. apply all_effects_bind.
  - apply all_effects_perform. intros a k' Hk'. cbn. by rewrite lookup_delete_ne by congruence.
  - intros []; [|done]. apply all_effects_bind; [apply inside_shutdown|done].
Qed.

Lemma inside_remove_uploads cid keys :
  Forall (fun k => k.1 = cid) keys -> inside cid (remove_uploads (FS := FS) (File := File) keys).
Proof.
  induction 1 as [|k keys Hk _ IH]; cbn [remove_uploads]; [done|]. apply all_effects_bind.
  - apply all_effects_perform. intros a k' Hk'. cbn. by rewrite lookup_delete_ne by congruence.
  - intros []; [|done]. apply all_effects_bind; [by split|done].
Qed.

Lemma inside_drop_downloads cid keys :
  Forall (fun k => k.1 = cid) keys -> inside cid (drop_downloads (FS := FS) (File := File) keys).
Proof.
  induction 1 as [|k keys Hk _ IH]; cbn [drop_downloads]; [done|]. apply all_effects_bind; [|done].
  apply all_effects_perform. intros a k' Hk'. cbn. by rewrite lookup_delete_ne by congruence.
Qed.

Lemma keys_of_own {A} cid (m : gmap TunnelKey A) : Forall (fun k => k.1 = cid) (keys_of cid m).
Proof. apply Forall_forall. intros k. rewrite elem_of_keys_of. by intros []. Qed.

(** Keys that were collected for [cid] are the client's own. *)
Lemma inside_collected {A B : Type} cid (m : TransferMap) (shard : TunnelKey -> nat) (get : Agent File -> gmap TunnelKey A) (shards : list nat) (g : list TunnelKey -> task B) :
  (forall keys, Forall (fun k => k.1 = cid) keys -> inside cid (g keys)) ->
  inside cid (collect_keys m (fun i a => keys_in shard i (fun e => bool_decide (e.1.1 = cid)) (get a)) shards ≫= g).
Proof.
  intros Hg. eapply all_effects_bind_returns, Hg.
  - induction shards as [|i shards IH]; [done|]. cbn [collect_keys]. apply all_effects_bind; [done|]. intros here.
    by apply all_effects_bind.
  - apply collect_returns. intros i a. apply Forall_forall. intros k [_ (x & _ & Hk)]%elem_of_keys_in.
    by apply bool_decide_eq_true in Hk.
Qed.

Lemma inside_start_tunnel p cid auth msg_id : inside cid (start_tunnel (FS := FS) (File := File) p cid auth msg_id).
Proof.
  assert (forall sid h, inside cid (insert_session (FS := FS) (File := File) (cid, sid) h)) as Hins.
  { intros sid h. apply all_effects_bind.
    - apply all_effects_perform. intros a k Hk. cbn. rewrite lookup_insert_ne; [done|]. by intros <-.
    - intros []; [apply inside_shutdown|done]. }
  destruct p; cbn [start_tunnel]; unfold start_ssh_tunnel, start_sftp_tunnel;
    (apply all_effects_bind; [done|]; intros stdin; apply all_effects_bind; [done|]; intros sid;
     apply all_effects_bind; [done|]; intros _; apply Hins).
Qed.

(** C20. A frame sent for client [cid] changes, at none of its steps, a session,
    an upload or a download of another client, and opens tunnels for [cid]
    only; this holds however the steps interleave with other tasks. *)
Theorem client_frame_stays_inside f cid :
  NodeFrameData.client f = Some cid -> inside cid (handle_message config f).
Proof.
  assert (forall cid' sid cmd, inside cid (logged (send_to_sftp (FS := FS) (File := File) cid' sid cmd))) as Hsftp.
  { intros. unfold logged, send_to_sftp, reading. walk. done. }
  assert (forall cid' sid cmd, inside cid (logged (send_to_ssh (FS := FS) (File := File) cid' sid cmd))) as Hssh.
  { intros. unfold logged, send_to_ssh, reading. walk. done. }
  intros Hf. destruct f; cbn in Hf; try done; injection Hf as ->; cbn [handle_message]; try done;
    try first [apply Hsftp|apply Hssh].
  - unfold handle_open_tunnel. apply all_effects_bind.
    { unfold ensure_credentials. case_all; by apply all_effects_bind. }
    intros [_|_]; [|done].
    destruct (Protocol.try_from protocol) as [[[]|]|]; cbn [lift_call mbind prog_mbind prog_bind]; try done.
    all: apply all_effects_bind; [unfold config_auth, expect; by case_all|].
    + intros auth. apply (inside_start_tunnel Protocol.SSH).
    + intros auth. apply (inside_start_tunnel Protocol.SFTP).
  - case_match; [apply Hssh|done].
  - apply all_effects_bind; [|intros _; apply all_effects_bind; [|intros _]].
    + apply inside_reading. intros a. apply inside_close_tunnels, keys_of_own.
    + apply inside_collected, inside_remove_uploads.
    + apply inside_collected, inside_drop_downloads.
Qed.

(** ** What an SFTP tunnel touches

    What the task of a tunnel has noted since it last read the clock: the time
    it read, and the transfers that it has met, at one of its steps since, that
    had by then been idle for more than fifteen minutes. *)
Record Notes : Type := {
  noted_time : option SystemTime;
  idle_uploads : TunnelKey -> Prop;
  idle_downloads : TunnelKey -> Prop }.

Definition idle {A} (updated : A -> SystemTime) (now : option SystemTime) (m : gmap TunnelKey A) (k : TunnelKey) : Prop :=
  exists t x, now = Some t /\ m !! k = Some x /\ updated x + TRANSFER_TIMEOUT < t.

Definition later w (n : Notes) : Notes :=
  {| noted_time := noted_time n;
     idle_uploads k := idle_uploads n k \/ idle fu_last_updated (noted_time n) (uploads (agent w)) k;
     idle_downloads k := idle_downloads n k \/ idle fd_last_updated (noted_time n) (downloads (agent w)) k |}.

Definition notes {R} (e : agentE FS File R) (now : SystemTime) w (n : Notes) : Notes :=
  match e with
  | Now => {| noted_time := Some now; idle_uploads _ := False; idle_downloads _ := False |}
  | _ => later w n
  end.

(** A step of the tunnel [t], when [n] was noted before it: it changes no
    session, no other tunnel and no other queue; of the transfers of another
    client it alters none, adds none, and removes only those noted as idle;
    and it takes and frees the locks of its own client's transfers only. *)
Record minds (t : Tunnel) (n : Notes) w w' : Prop := {
  mi_sessions : sessions (agent w') = sessions (agent w);
  mi_stopped : stopped (agent w') = stopped (agent w);
  mi_tunnels : tunnels w' = tunnels w;
  mi_ssh : ssh_stdin w' = ssh_stdin w;
  mi_sftp id : id <> tn_stdin t -> sftp_stdin w' !! id = sftp_stdin w !! id;
  mi_uploads k : k.1 <> tn_cid t -> uploads (agent w') !! k = uploads (agent w) !! k \/
    (uploads (agent w') !! k = None /\ idle_uploads n k);
  mi_downloads k : k.1 <> tn_cid t -> downloads (agent w') !! k = downloads (agent w) !! k \/
    (downloads (agent w') !! k = None /\ idle_downloads n k);
  mi_locks s : (forall id, s <> upload_lock (tn_cid t, id) /\ s <> download_lock (tn_cid t, id)) ->
    s ∈ locks w' <-> s ∈ locks w }.

(** Every step of the task minds the others, whatever world it is taken in;
    [Q] holds of its value and of what it has noted. *)
Fixpoint minding (t : Tunnel) (n : Notes) {A} (p : task A) (Q : A -> Notes -> Prop) : Prop :=
  match p with
  | Ret a => Q a n
  | Panic => True
  | Vis e k => forall c w r w', exec e c w = Some (r, w') -> minds t n w w' /\ minding t (notes e c w n) (k r) Q
  end.

Lemma minding_bind {A B} t n (p : task A) (f : A -> task B) Q :
  minding t n p (fun x n' => minding t n' (f x) Q) -> minding t n (p ≫= f) Q.
Proof.
  revert n. induction p as [a| |R e k IH]; intros n; cbn; [done..|].
  intros Hp c w r w' Hx. destruct (Hp _ _ _ _ Hx). split; [done|]. by apply IH.
Qed.

Lemma minding_mono {A} t n (p : task A) (Q Q' : A -> Notes -> Prop) :
  (forall x n', Q x n' -> Q' x n') -> minding t n p Q -> minding t n p Q'.
Proof.
  intros HQ. revert n. induction p as [a| |R e k IH]; intros n; cbn; [apply HQ|done|].
  intros Hp c w r w' Hx. destruct (Hp _ _ _ _ Hx). split; [done|]. by apply IH.
Qed.

(** Without recourse to the notes. *)
Definition mindful t {A} (p : task A) : Prop := forall n, minding t n p (fun _ _ => True).

Lemma mindful_bind {A B} t (p : task A) (f : A -> task B) : mindful t p -> (forall x, mindful t (f x)) -> mindful t (p ≫= f).
Proof. intros Hp Hf n. apply minding_bind. eapply minding_mono, Hp. intros a n' _. apply Hf. Qed.
Lemma mindful_ret {A} t (x : A) : mindful t (Ret (E := agentE FS File) x).
Proof. done. Qed.
Lemma mindful_perform {R} t (e : agentE FS File R) :
  (forall n c w r w', exec e c w = Some (r, w') -> minds t n w w') -> mindful t (perform e).
Proof. intros He n c w r w' Hx. split; [by eapply He|done]. Qed.

Lemma minds_same t n w w' :
  agent w' = agent w -> tunnels w' = tunnels w -> ssh_stdin w' = ssh_stdin w -> sftp_stdin w' = sftp_stdin w ->
  locks w' = locks w -> minds t n w w'.
Proof. intros Ha Ht Hs Hf Hl. split; rewrite ?Ha, ?Ht, ?Hs, ?Hf, ?Hl; auto. Qed.

(** Effects that reach the tunnel's own queue at most. *)
Definition outside t (R : Type) (e : agentE FS File R) : Prop :=
  match e with
  | Now | TrySend _ | SendFrame _ | OnSftp _ => True
  | SelectSftp id | DropSftp id => id = tn_stdin t
  | _ => False
  end.

Lemma mindful_outside {R} t (e : agentE FS File R) : outside t R e -> mindful t (perform e).
Proof.
  intros He. apply mindful_perform. intros n c w r w' Hx.
  assert (forall w1, w' = w1 -> agent w1 = agent w -> tunnels w1 = tunnels w -> ssh_stdin w1 = ssh_stdin w ->
    locks w1 = locks w -> (forall id, id <> tn_stdin t -> sftp_stdin w1 !! id = sftp_stdin w !! id) -> minds t n w w') as Hmind.
  { intros w1 -> Ha Ht Hs Hl Hq. split; rewrite ?Ha, ?Ht, ?Hs, ?Hl; auto. }
  destruct e; cbn in He, Hx; try done.
  - injection Hx as _ <-. by eapply Hmind.
  - injection Hx as _ <-. destruct (chan_send _ _ _) as [[]|]; by eapply Hmind.
  - destruct (chan_send _ _ _) as [[]|]; [|done]. injection Hx as _ <-. by eapply Hmind.
  - destruct (select_in _ _ _) as [x q] eqn:Hs. injection Hx as _ <-. eapply Hmind; try done. intros id Hid. cbn.
    revert Hs. unfold select_in. case_match; [by intros [= _ <-]|].
    destruct (sftp_stdin w !! stdin ≫= chan_recv) as [[]|]; intros [= _ <-]; [|done]. apply lookup_insert_ne. congruence.
  - injection Hx as _ <-. eapply Hmind; try done. intros id Hid. cbn. apply lookup_alter_ne. congruence.
  - destruct (f (fs w)). injection Hx as _ <-. by eapply Hmind.
Qed.

(** The client's own entries. *)
Definition own_entries cid a a' : Prop :=
  sessions a' = sessions a /\ stopped a' = stopped a /\
  forall k, k.1 <> cid -> uploads a' !! k = uploads a !! k /\ downloads a' !! k = downloads a !! k.

Lemma minds_own t n w a : own_entries (tn_cid t) (agent w) a -> minds t n w (with_agent a w).
Proof. intros (Hs & Hst & Hk). split; try done; intros k Hne; left; by apply Hk. Qed.

Lemma mindful_agent {R} t (f : Agent File -> R * Agent File) :
  (forall a, own_entries (tn_cid t) a (f a).2) -> mindful t (perform (OnAgent f)).
Proof.
  intros Hf. apply mindful_perform. intros n c w r w' Hx. cbn in Hx. specialize (Hf (agent w)).
  destruct (f (agent w)). injection Hx as <- <-. by apply minds_own.
Qed.
Lemma mindful_shard {R} t s (f : Agent File -> R * Agent File) :
  (forall a, own_entries (tn_cid t) a (f a).2) -> mindful t (perform (OnShard s f)).
Proof.
  intros Hf. apply mindful_perform. intros n c w r w' Hx. cbn in Hx. specialize (Hf (agent w)).
  destruct (decide _); [done|]. destruct (f (agent w)). injection Hx as <- <-. by apply minds_own.
Qed.

(** The guards of the client's own entries. *)
Lemma minds_locks t n w g id (s : Shard) :
  s = upload_lock (tn_cid t, id) \/ s = download_lock (tn_cid t, id) ->
  (forall l s', s' <> s -> s' ∈ g l <-> s' ∈ l) -> minds t n w (with_locks g w).
Proof.
  intros Hs Hg. split; try done; try by left. intros s' Hs'. apply Hg. intros ->. destruct (Hs' id). by destruct Hs.
Qed.
Lemma mindful_hold {R} t id s (f : Agent File -> option R) :
  s = upload_lock (tn_cid t, id) \/ s = download_lock (tn_cid t, id) -> mindful t (perform (HoldShard s f)).
Proof.
  intros Hs. apply mindful_perform. intros n c w r w' Hx. cbn in Hx. destruct (decide _); [done|].
  destruct (f (agent w)); injection Hx as <- <-; [|by apply minds_same]. eapply minds_locks; [exact Hs|]. set_solver.
Qed.
Lemma mindful_drop t id s :
  s = upload_lock (tn_cid t, id) \/ s = download_lock (tn_cid t, id) ->
  mindful t (perform (DropGuard (FS := FS) (File := File) s)).
Proof.
  intros Hs. apply mindful_perform. intros n c w r w' [= <- <-]. eapply minds_locks; [exact Hs|]. set_solver.
Qed.

Lemma mindful_reading t s n c w (f : Agent File -> list TunnelKey) r w' :
  exec (OnShard s (fun a => (f a, a))) c w = Some (r, w') -> minds t n w w' /\ r = f (agent w).
Proof. cbn. destruct (decide _); [done|]. intros [= <- <-]. split; [by apply minds_own; split|done]. Qed.

(** The idle transfers that a collection finds are noted. *)
Lemma collect_minding t now m (look : nat -> Agent File -> list TunnelKey) (noted : Notes -> TunnelKey -> Prop) shards n :
  (forall n w k, noted n k -> noted (later w n) k) ->
  (forall n w i, noted_time n = Some now -> Forall (noted (later w n)) (look i (agent w))) ->
  noted_time n = Some now ->
  minding t n (collect_keys m look shards) (fun keys n' =>
    Forall (noted n') keys /\ forall k, noted n k -> noted n' k).
Proof.
  intros Hmono Hlook. revert n. induction shards as [|i shards IH]; intros n Hnow; [by split|].
  cbn [collect_keys]. intros c w r w' Hx. destruct (mindful_reading t (m, i) n c w (look i) r w' Hx) as [Hm ->].
  split; [exact Hm|]. apply minding_bind. eapply minding_mono; [|by apply IH]. intros rest n' [Hrest Hn']. split.
  - apply Forall_app. split; [|done]. eapply Forall_impl; [by apply Hlook|]. intros k. apply Hn'.
  - intros k Hk. by apply Hn', Hmono.
Qed.

Lemma found_idle {A} (updated : A -> SystemTime) (now : SystemTime) (shard : TunnelKey -> nat) (i : nat) (mp : gmap TunnelKey A) k :
  k ∈ keys_in shard i (fun e => abandoned now (updated e.2)) mp -> idle updated (Some now) mp k.
Proof. rewrite elem_of_keys_in. intros (_ & x & Hx & Ha%abandoned_idle). by exists now, x. Qed.

(** What a cleanup removes is its own client's, or noted. *)
Lemma remove_uploads_minding t n keys :
  Forall (idle_uploads n) keys -> minding t n (remove_uploads (FS := FS) (File := File) keys) (fun _ _ => True).
Proof.
  revert n. induction keys as [|key keys IH]; intros n Hkeys; [done|]. apply Forall_cons in Hkeys as [Hkey Hkeys].
  assert (forall w, Forall (idle_uploads (later w n)) keys) as Hlater by (intros w; eapply Forall_impl; [done|by left]).
  cbn [remove_uploads]. intros c w r w' Hx. cbn in Hx. destruct (decide _); [done|]. injection Hx as <- <-. split.
  - split; try done; cbn; [|by left]. intros k _. rewrite lookup_delete. case_decide as Hk; [subst; by right|by left].
  - destruct (uploads (agent w) !! key) as [x|]; [|by apply IH]. apply minding_bind.
    intros c1 w1 r1 w2 Hx. split; [by eapply (mindful_outside t (OnSftp _)); [|exact Hx]|].
    apply IH. eapply Forall_impl; [apply Hlater|by left].
Qed.

Lemma remove_downloads_minding t n keys :
  Forall (idle_downloads n) keys -> minding t n (remove_downloads_synced (FS := FS) (File := File) keys) (fun _ _ => True).
Proof.
  revert n. induction keys as [|key keys IH]; intros n Hkeys; [done|]. apply Forall_cons in Hkeys as [Hkey Hkeys].
  assert (forall w, Forall (idle_downloads (later w n)) keys) as Hlater by (intros w; eapply Forall_impl; [done|by left]).
  cbn [remove_downloads_synced]. intros c w r w' Hx. cbn in Hx. destruct (decide _); [done|]. injection Hx as <- <-. split.
  - split; try done; cbn; [by left|]. intros k _. rewrite lookup_delete. case_decide as Hk; [subst; by right|by left].
  - destruct (downloads (agent w) !! key) as [x|]; [|by apply IH]. apply minding_bind.
    intros c1 w1 r1 w2 Hx. split; [by eapply (mindful_outside t (OnSftp _)); [|exact Hx]|].
    apply IH. eapply Forall_impl; [apply Hlater|by left].
Qed.

Lemma cleanup_uploads_mindful t : mindful t (cleanup_abandoned_uploads (FS := FS) (File := File)).
Proof.
  intros n now w r w' Hx. split; [by eapply (mindful_outside t Now)|]. injection Hx as <- _.
  apply minding_bind. eapply minding_mono, (collect_minding t now) with (noted := idle_uploads); [| | |done].
  - intros keys n' [Hkeys _]. by apply remove_uploads_minding.
  - by left.
  - intros n' w1 i Hn. apply Forall_forall. intros k Hk%found_idle. right. by rewrite Hn.
Qed.

Lemma cleanup_downloads_mindful t : mindful t (cleanup_abandoned_downloads (FS := FS) (File := File)).
Proof.
  intros n now w r w' Hx. split; [by eapply (mindful_outside t Now)|]. injection Hx as <- _.
  apply minding_bind. eapply minding_mono, (collect_minding t now) with (noted := idle_downloads); [| | |done].
  - intros keys n' [Hkeys _]. by apply remove_downloads_minding.
  - by left.
  - intros n' w1 i Hn. apply Forall_forall. intros k Hk%found_idle. right. by rewrite Hn.
Qed.

(** The operations on the client's own entries. *)
Lemma own_uploads cid a g :
  (forall k, k.1 <> cid -> g (uploads a) !! k = uploads a !! k) -> own_entries cid a (with_uploads g a).
Proof. intros Hg. split; [done|]. split; [done|]. intros k Hk. split; [by apply Hg|done]. Qed.
Lemma own_downloads cid a g :
  (forall k, k.1 <> cid -> g (downloads a) !! k = downloads a !! k) -> own_entries cid a (with_downloads g a).
Proof. intros Hg. split; [done|]. split; [done|]. intros k Hk. split; [done|by apply Hg]. Qed.

Lemma retain_mindful t keep shards :
  (forall e, e.1.1 <> tn_cid t -> keep e = true) -> mindful t (uploads_retain_in (FS := FS) (File := File) keep shards).
Proof.
  intros Hkeep. induction shards as [|i shards IH]; [done|]. cbn [uploads_retain_in].
  apply mindful_bind; [|done]. apply mindful_shard. intros a. apply own_uploads. intros k Hk.
  rewrite map_lookup_filter. destruct (uploads a !! k) as [u|]; cbn; [|done]. rewrite option_guard_True; [done|].
  intros _. by apply Hkeep.
Qed.

Lemma own_refl cid a : own_entries cid a a.
Proof. by split. Qed.
Lemma own_insert_upload cid a id u : own_entries cid a (with_uploads <[(cid, id) := u]> a).
Proof. apply own_uploads. intros k Hk. apply lookup_insert_ne. by intros <-. Qed.
Lemma own_alter_upload cid a id g : own_entries cid a (with_uploads (alter g (cid, id)) a).
Proof. apply own_uploads. intros k Hk. apply lookup_alter_ne. by intros <-. Qed.
Lemma own_delete_upload cid a id : own_entries cid a (with_uploads (delete (cid, id)) a).
Proof. apply own_uploads. intros k Hk. apply lookup_delete_ne. by intros <-. Qed.
Lemma own_insert_download cid a id d : own_entries cid a (with_downloads <[(cid, id) := d]> a).
Proof. apply own_downloads. intros k Hk. apply lookup_insert_ne. by intros <-. Qed.
Lemma own_alter_download cid a id g : own_entries cid a (with_downloads (alter g (cid, id)) a).
Proof. apply own_downloads. intros k Hk. apply lookup_alter_ne. by intros <-. Qed.
Lemma own_delete_download cid a id : own_entries cid a (with_downloads (delete (cid, id)) a).
Proof. apply own_downloads. intros k Hk. apply lookup_delete_ne. by intros <-. Qed.

#[local] Hint Resolve mindful_ret cleanup_uploads_mindful cleanup_downloads_mindful own_refl own_insert_upload
  own_alter_upload own_delete_upload own_insert_download own_alter_download own_delete_download : phirepass.

Ltac mind :=
  repeat first
    [ progress intros
    | solve [eauto with phirepass nocore]
    | apply mindful_bind
    | apply mindful_agent; intros; solve [eauto with phirepass nocore | by split]
    | apply mindful_shard; intros; solve [eauto with phirepass nocore]
    | eapply mindful_hold; solve [eauto]
    | eapply mindful_drop; solve [eauto]
    | apply mindful_outside; exact I
    | case_match ].

Lemma command_mindful t sid cmd : mindful t (handle_sftp_command (FS := FS) (File := File) (tn_cid t) sid cmd).
Proof.
  assert (forall keep, (forall e, e.1.1 <> tn_cid t -> keep e = true) -> mindful t (uploads_retain keep)) as Hretain
    by (intros; by apply retain_mindful).
  destruct cmd; cbn [handle_sftp_command];
    unfold send_directory_listing, list_dir, try_bind, start_download, download_file_chunk, answer_chunk_request,
      start_upload, upload_file_chunk, finish_upload, append_chunk, delete_file, generate_id, uploads_get, uploads_insert,
      uploads_remove, uploads_get_mut, downloads_insert, downloads_remove, downloads_get_mut, updating,
      to_session, send_session_error, send_frame; cbv zeta; mind.
  apply Hretain. intros e He. by rewrite bool_decide_false.
Qed.

(** C21. An SFTP tunnel of client [cid], at each of its steps and whatever the
    others have done in between, touches no tunnel session, no other tunnel
    and no other command queue; it keeps and frees locks of its own client's
    transfers only; and it leaves every upload and download of another client
    as it is, except that it removes one which it has itself met, since it
    last read the clock, idle for more than fifteen minutes. *)
Theorem sftp_tunnel_stays_inside t setup turns n :
  minding t n (sftp_task t setup turns) (fun _ _ => True).
Proof.
  revert n. fold (mindful t (sftp_task (FS := FS) (File := File) t setup turns)).
  assert (forall sid j, mindful t (sftp_loop (FS := FS) (File := File) (tn_cid t) sid (tn_stdin t) j)) as Hloop.
  { intros sid j. induction j as [|j IH]; cbn [sftp_loop]; [done|]. apply mindful_bind; [by apply mindful_outside|].
    intros []; [done| |done]. apply mindful_bind; [apply command_mindful|done]. }
  unfold sftp_task, sftp_connect, report_end, send_frame_data. cbv zeta.
  apply mindful_bind; [apply mindful_bind; [by apply mindful_outside|intros _]|intros [[|[]]|]].
  - destruct (sftp_setup setup); [|done]. apply mindful_bind; [apply Hloop|]. by intros [].
  - apply mindful_bind; intros; by apply mindful_outside.
  - apply mindful_bind; intros; by apply mindful_outside.
  - done.
Qed.

End system.
