(* ===== verification/AgentLocks.v ===== *)
(** * The locks of the transfer maps

    Which tasks hold a lock, that no task frees the lock of another, and what
    follows when a task waits for a lock that it holds itself. *)

From S2P Require Import Prelude Async Mpsc RustStr Protocol Frame Externs AgentState AgentWs AgentSftp AgentTunnel AgentSystem.

Section locks.
Context {FS File : Type} {dm : DashMaps} `{!SftpServer FS File, !UuidText}.
Context `{!Serde WebFrameData.t, !Serde NodeFrameData.t}.
Abbreviation task := (prog (agentE FS File)).
Abbreviation world := (World FS File).
Implicit Types (w : world) (held : gset Shard) (s : Shard).

(** ** Guards

    [guarding held p Q]: a task that holds the guards [held] and does [p]
    takes free locks only and frees none but its own; [Q] holds of its value
    and of the guards it then holds. *)
Fixpoint guarding held {A} (p : task A) (Q : A -> gset Shard -> Prop) : Prop :=
  match p with
  | Ret x => Q x held
  | Panic => True
  | Vis e k => forall c w r w', held ⊆ locks w -> exec e c w = Some (r, w') ->
      exists held', held' ⊆ locks w' /\ locks w' ∖ held' = locks w ∖ held /\ guarding held' (k r) Q
  end.

Lemma guarding_bind {A B} held (p : task A) (f : A -> task B) Q :
  guarding held p (fun x held' => guarding held' (f x) Q) -> guarding held (p ≫= f) Q.
Proof.
  revert held. induction p as [x| |R e k IH]; intros held; cbn; [done..|].
  intros Hp c w r w' Hh Hx. destruct (Hp _ _ _ _ Hh Hx) as (held' & ? & ? & Hk). exists held'. eauto.
Qed.

Lemma guarding_mono {A} held (p : task A) (Q Q' : A -> gset Shard -> Prop) :
  (forall x held', Q x held' -> Q' x held') -> guarding held p Q -> guarding held p Q'.
Proof.
  intros HQ. revert held. induction p as [x| |R e k IH]; intros held; cbn; [apply HQ|done|].
  intros Hp c w r w' Hh Hx. destruct (Hp _ _ _ _ Hh Hx) as (held' & ? & ? & Hk). exists held'. eauto.
Qed.

(** It ends with the guards it began with. *)
Definition balanced {A} (p : task A) : Prop := forall held, guarding held p (fun _ held' => held' = held).

Lemma balanced_bind {A B} (p : task A) (f : A -> task B) : balanced p -> (forall x, balanced (f x)) -> balanced (p ≫= f).
Proof. intros Hp Hf held. apply guarding_bind. eapply guarding_mono, Hp. intros x held' ->. apply Hf. Qed.
Lemma balanced_ret {A} (x : A) : balanced (Ret (E := agentE FS File) x).
Proof. by intros held. Qed.
Lemma balanced_panic {A} : balanced (Panic (E := agentE FS File) (A := A)).
Proof. by intros held. Qed.

Definition guardless {R} (e : agentE FS File R) : Prop :=
  match e with HoldShard _ _ | DropGuard _ => False | _ => True end.

Lemma guardless_locks {R} (e : agentE FS File R) c w r w' : guardless e -> exec e c w = Some (r, w') -> locks w' = locks w.
Proof.
  intros He Hx. destruct e; cbn in He, Hx; try done;
    repeat first [case_decide | case_match | discriminate | progress simplify_option_eq]; done.
Qed.

Lemma balanced_perform {R} (e : agentE FS File R) : guardless e -> balanced (perform e).
Proof. intros He held c w r w' Hh Hx. exists held. by rewrite (guardless_locks _ _ _ _ _ He Hx). Qed.

(** The rest of a block that holds the guard of [s], up to where it drops it. *)
Definition guarded s {A} (p : task A) : Prop :=
  forall held, s ∉ held -> guarding ({[s]} ∪ held) p (fun _ held' => held' = held).

Lemma balanced_hold {R A} s (f : Agent File -> option R) (k : option R -> task A) :
  (forall x, guarded s (k (Some x))) -> balanced (k None) -> balanced (perform (HoldShard s f) ≫= k).
Proof.
  intros Hsome Hnone held c w r w' Hh Hx. cbn in Hx. destruct (decide (s ∈ locks w)) as [|Hs]; [done|].
  destruct (f (agent w)) as [x|]; injection Hx as <- <-; [|by exists held; auto].
  exists ({[s]} ∪ held). cbn. split; [set_solver|]. split; [set_solver|]. apply Hsome. set_solver.
Qed.
Lemma guarded_bind {A B} s (p : task A) (f : A -> task B) : balanced p -> (forall x, guarded s (f x)) -> guarded s (p ≫= f).
Proof. intros Hp Hf held Hs. apply guarding_bind. eapply guarding_mono, Hp. intros x held' ->. by apply Hf. Qed.
Lemma guarded_drop s : guarded s (perform (DropGuard (FS := FS) (File := File) s)).
Proof.
  intros held Hs c w r w' Hh [= <- <-]. exists held. cbn. split; [set_solver|]. by split; [set_solver|].
Qed.
Lemma guarded_drop_bind {A} s (k : unit -> task A) : balanced (k tt) -> guarded s (perform (DropGuard s) ≫= k).
Proof. intros Hk held Hs. apply guarding_bind. eapply guarding_mono, guarded_drop; [|done]. by intros [] held' ->. Qed.

(** ** The tasks of the agent *)

Ltac balance :=
  repeat first
    [ progress intros
    | solve [eauto with phirepass nocore]
    | match goal with |- balanced (perform (HoldShard _ _) ≫= _) => apply balanced_hold end
    | apply guarded_drop
    | apply guarded_drop_bind
    | apply balanced_bind
    | apply guarded_bind
    | apply balanced_perform; exact I
    | case_match ].

#[local] Hint Resolve balanced_ret balanced_panic : phirepass.

Lemma collect_balanced m (look : nat -> Agent File -> list TunnelKey) shards : balanced (collect_keys m look shards).
Proof. induction shards; cbn [collect_keys]; balance. Qed.
Lemma retain_balanced keep shards : balanced (uploads_retain_in keep shards).
Proof. induction shards; cbn [uploads_retain_in]; balance. Qed.
Lemma remove_uploads_balanced keys : balanced (remove_uploads keys).
Proof. induction keys; cbn [remove_uploads]; unfold uploads_remove, sync_all; balance. Qed.
Lemma remove_downloads_balanced keys : balanced (remove_downloads_synced keys).
Proof. induction keys; cbn [remove_downloads_synced]; unfold downloads_remove, sync_all; balance. Qed.
Lemma drop_downloads_balanced keys : balanced (drop_downloads keys).
Proof. induction keys; cbn [drop_downloads]; unfold downloads_remove; balance. Qed.
Lemma close_tunnels_balanced keys : balanced (close_tunnels keys).
Proof. induction keys; cbn [close_tunnels]; unfold shutdown, updating; balance. Qed.

#[local] Hint Resolve collect_balanced retain_balanced remove_uploads_balanced remove_downloads_balanced
  drop_downloads_balanced close_tunnels_balanced : phirepass.

Lemma cleanup_balanced : balanced cleanup_tick.
Proof. unfold cleanup_tick, cleanup_abandoned_uploads, cleanup_abandoned_downloads, uploads_keys, downloads_keys. balance. Qed.

Lemma command_balanced cid sid cmd : balanced (handle_sftp_command cid sid cmd).
Proof.
  destruct cmd; cbn [handle_sftp_command];
    unfold send_directory_listing, list_dir, try_bind, start_download, download_file_chunk, answer_chunk_request,
      start_upload, upload_file_chunk, finish_upload, append_chunk, delete_file, generate_id, uploads_get, uploads_insert,
      uploads_remove, uploads_get_mut, downloads_insert, downloads_remove, downloads_get_mut, updating, uploads_retain,
      cleanup_abandoned_uploads, cleanup_abandoned_downloads, uploads_keys, downloads_keys,
      to_session, send_session_error, send_frame; cbv zeta; balance.
Qed.

Lemma agent_task_balanced config node_id p : agent_task config node_id p -> balanced p.
Proof.
  pose proof cleanup_balanced as Hc.
  assert (forall sid stdin turns, balanced (ssh_loop node_id sid stdin turns)) as Hssh.
  { intros sid stdin turns. induction turns; cbn [ssh_loop]; unfold send_tunnel_data, send_frame_data; balance. }
  assert (forall cid sid stdin turns, balanced (sftp_loop cid sid stdin turns)) as Hsftp.
  { pose proof command_balanced. intros cid sid stdin turns. induction turns; cbn [sftp_loop]; balance. }
  assert (forall interval ticks, balanced (heartbeat_task interval ticks)) as Hheart.
  { intros interval ticks. induction ticks as [|stats ticks IH]; cbn [heartbeat_task];
      unfold heartbeat_tick, reading, send_frame_data; cbv zeta; balance. }
  intros []; balance; unfold ssh_task, ssh_connect, sftp_task, sftp_connect, report_end, send_frame_data; cbv zeta; balance.
Qed.

Lemma handle_message_balanced config f : balanced (handle_message config f).
Proof.
  destruct f; cbn [handle_message];
    unfold handle_open_tunnel, ensure_credentials, send_requires_username_error, send_requires_password_error, config_auth,
      expect, start_ssh_tunnel, start_sftp_tunnel, insert_session, shutdown, lift_call, close_tunnels_for_cid,
      close_uploads_for_cid, close_downloads_for_cid, uploads_keys, downloads_keys, logged, send_ssh_forward_resize,
      send_ssh_tunnel_data, send_sftp_list_data, send_sftp_upload_start_data, send_sftp_upload_data,
      send_sftp_download_start_data, send_sftp_download_chunk_request, send_sftp_download_chunk_data, send_sftp_delete_data,
      send_to_sftp, send_to_ssh, generate_session_id, updating, reading, send_frame_data; balance.
Qed.

Lemma connect_balanced config node_id reader : balanced (connect config node_id reader).
Proof.
  assert (forall reader, balanced (reader_task config reader)) as Hreader.
  { pose proof handle_message_balanced. clear reader. intros reader.
    induction reader as [|[[]|] reader IH]; cbn [reader_task]; unfold lift_call; balance. }
  unfold connect, close_all, uploads_keys, downloads_keys, reading. balance.
Qed.

(** ** Who holds what

    In every state each task holds guards of its own, all of them keep their
    lock, and no two tasks share one. *)
Record holders (hs : list (gset Shard)) w (ts : list (task unit)) : Prop := {
  ho_tasks : Forall2 (fun held p => guarding held p (fun _ _ => True)) hs ts;
  ho_locks i held : hs !! i = Some held -> held ⊆ locks w;
  ho_apart i j held held' : i <> j -> hs !! i = Some held -> hs !! j = Some held' -> held ## held' }.

Lemma holders_same hs w w' ts : locks w' = locks w -> holders hs w ts -> holders hs w' ts.
Proof. intros Hl [H1 H2 H3]. split; [done| |done]. by rewrite Hl. Qed.

Lemma holders_spawn hs w ts p : balanced p -> holders hs w ts -> holders (hs ++ [∅]) w (ts ++ [p]).
Proof.
  intros Hp [H1 H2 H3].
  assert (forall i held, (hs ++ [∅]) !! i = Some held -> hs !! i = Some held \/ held = ∅) as Happ.
  { intros i held [Hi|[_ Hi]]%lookup_app_Some; [by left|right]. by apply list_lookup_singleton_Some in Hi as [_ <-]. }
  split.
  - apply Forall2_app; [done|]. constructor; [|done]. eapply guarding_mono, Hp. done.
  - intros i held [Hi| ->]%Happ; [by eapply H2|apply empty_subseteq].
  - intros i j held held' Hne [Hi| ->]%Happ [Hj| ->]%Happ; [by eapply (H3 i j)|set_solver..].
Qed.

(** A step of task [i] changes its own guards only. *)
Lemma holders_step hs w ts i c w' ts' :
  holders hs w ts -> sched_step i c (w, ts) = Some (w', ts') ->
  exists held held', hs !! i = Some held /\ locks w' ∖ held' = locks w ∖ held /\ holders (<[i := held']> hs) w' ts'.
Proof.
  intros [H1 H2 H3] Hs. unfold sched_step in Hs; cbn in Hs. destruct (ts !! i) as [[x| |R e k]|] eqn:Hi; try done.
  destruct (exec e c w) as [[r w1]|] eqn:Hx; [|done]. injection Hs as <- <-.
  destruct (Forall2_lookup_r _ _ _ _ _ H1 Hi) as (held & Hh & Hg).
  destruct (Hg c w r w1 (H2 _ _ Hh) Hx) as (held' & Hsub & Heq & Hk). exists held, held'.
  split; [done|]. split; [done|].
  assert (forall j h, j <> i -> hs !! j = Some h -> h ⊆ locks w1 /\ h ## held') as Hothers.
  { intros j h Hne Hj. pose proof (H2 _ _ Hj). pose proof (H3 _ _ _ _ Hne Hj Hh). split; set_solver. }
  assert (forall j h, <[i := held']> hs !! j = Some h -> (j = i /\ h = held') \/ (j <> i /\ hs !! j = Some h)) as Hins.
  { intros j h Hj. destruct (decide (i = j)) as [<-|Hne].
    - apply list_lookup_insert_Some in Hj. naive_solver.
    - rewrite list_lookup_insert_ne in Hj by done. auto. }
  split.
  - by apply Forall2_insert.
  - intros j h [[-> ->]|[Hne Hj]]%Hins; [done|]. by apply (Hothers j).
  - intros j j' h h' Hne [[-> ->]|[Hnj Hj]]%Hins [[-> ->]|[Hnj' Hj']]%Hins; [done| | |by eapply (H3 j j')].
    + destruct (Hothers j' h'); [done..|]. set_solver.
    + by destruct (Hothers j h).
Qed.

Context (config : Env) (node_id : Uuid).
Abbreviation steps := (rtc (cstep env_step (agent_task config node_id))).

Lemma env_step_locks w w' : env_step w w' -> locks w' = locks w.
Proof. by intros []. Qed.

Lemma holders_reachable cf cf' :
  steps cf cf' -> (exists hs, holders hs cf.1 cf.2) -> exists hs, holders hs cf'.1 cf'.2.
Proof.
  intros Hsteps. induction Hsteps as [|[w ts] [w1 ts1] cf' Hstep _ IH]; [done|]. intros [hs Hh]. apply IH. cbn in *.
  inversion Hstep as [i c ? ? Hs| |]; subst.
  - destruct (holders_step _ _ _ _ _ _ _ Hh Hs) as (_ & held' & _ & _ & Hh'). eauto.
  - exists hs. eapply holders_same, Hh. by apply env_step_locks.
  - eexists. apply holders_spawn, Hh. by eapply agent_task_balanced.
Qed.

(** The task's next effect takes the lock of the shard. *)
Definition waits_for s (p : task unit) : Prop :=
  match p with Vis (OnShard s' _) _ | Vis (HoldShard s' _) _ => s' = s | _ => False end.

Lemma waits_stuck s p i c w ts : ts !! i = Some p -> waits_for s p -> s ∈ locks w -> sched_step i c (w, ts) = None.
Proof.
  intros Hi Hp Hs. unfold sched_step. cbn. rewrite Hi. destruct p as [| |R e k]; [done..|].
  destruct e; cbn in *; try done; subst; by rewrite decide_True.
Qed.

(** A task that waits for a lock that it holds waits for ever, and so does
    every task that comes to want that lock. *)
Lemma waits_forever s i p cf cf' :
  steps cf cf' -> cf.2 !! i = Some p -> waits_for s p ->
  (exists hs held, holders hs cf.1 cf.2 /\ hs !! i = Some held /\ s ∈ held) ->
  cf'.2 !! i = Some p /\ s ∈ locks cf'.1.
Proof.
  intros Hsteps Hi Hp. revert Hi. induction Hsteps as [[w ts]|[w ts] [w1 ts1] cf' Hstep _ IH]; intros Hi (hs & held & Hh & Hheld & Hin).
  - split; [done|]. cbn. destruct Hh as [_ Hl _]. by apply (Hl _ _ Hheld).
  - cbn in *. assert (s ∈ locks w) as Hs by (destruct Hh as [_ Hl _]; by apply (Hl _ _ Hheld)). apply IH.
    + inversion Hstep as [j c ? ? Hj| |]; subst; [|done|by apply lookup_app_l_Some].
      destruct (decide (j = i)) as [->|Hne]; [by rewrite (waits_stuck s p i c w ts) in Hj|].
      unfold sched_step in Hj; cbn in Hj. destruct (ts !! j) as [[| |R e k]|]; try done.
      destruct (exec e c w) as [[r w2]|]; [|done]. injection Hj as <- <-. by rewrite list_lookup_insert_ne.
    + inversion Hstep as [j c ? ? Hj| |]; subst.
      * destruct (holders_step _ _ _ _ _ _ _ Hh Hj) as (_ & held' & _ & _ & Hh').
        destruct (decide (j = i)) as [->|Hne]; [by rewrite (waits_stuck s p i c w ts) in Hj|].
        exists (<[j := held']> hs), held. by rewrite list_lookup_insert_ne.
      * exists hs, held. split; [|done]. eapply holders_same, Hh. by apply env_step_locks.
      * exists (hs ++ [∅]), held. split; [|split; [by apply lookup_app_l_Some|done]].
        eapply holders_spawn, Hh. by eapply agent_task_balanced.
Qed.

(** ** A chunk that the server refuses

    [q] is what the task [p] does next, the rest of it waiting for [q]. *)
Inductive in_context {A} (q : task A) : forall {B}, task B -> Prop :=
| context_here : in_context q q
| context_bind {B C} (p : task B) (f : B -> task C) : in_context q p -> in_context q (p ≫= f).

Lemma in_context_vis {A R} (e : agentE FS File R) (k : R -> task A) {B} (p : task B) :
  in_context (Vis e k) p -> exists k', p = Vis e k' /\ forall r, in_context (k r) (k' r).
Proof.
  induction 1 as [|B C p f _ (k' & -> & Hk)].
  - exists k. split; [done|]. intros r. constructor.
  - exists (fun r => k' r ≫= f). split; [done|]. intros r. by constructor.
Qed.

Lemma context_step {A R} i c (e : agentE FS File R) (k : R -> task A) (p : task unit) w ts r w' :
  ts !! i = Some p -> in_context (Vis e k) p -> exec e c w = Some (r, w') ->
  exists p', sched_step i c (w, ts) = Some (w', <[i := p']> ts) /\ in_context (k r) p'.
Proof.
  intros Hi (k' & -> & Hk)%in_context_vis Hx. exists (k' r). split; [|done].
  unfold sched_step. cbn. by rewrite Hi, Hx.
Qed.

Lemma context_waits {A} s (f : Agent File -> option (FileUpload File) * Agent File) (k : option (FileUpload File) -> task A) (p : task unit) :
  in_context (perform (OnShard s f) ≫= k) p -> waits_for s p.
Proof. by intros (k' & -> & _)%in_context_vis. Qed.

(** The task is refused a chunk that is not the last: three steps later it
    holds the lock of the shard and wants it. *)
Lemma refused_chunk i chunk cid sid msg_id u e x (p : task unit) w ts hs :
  let key := (cid, uc_upload_id chunk) : TunnelKey in
  ts !! i = Some p -> in_context (upload_file_chunk chunk cid sid msg_id) p -> holders hs w ts ->
  uploads (agent w) !! key = Some u -> is_last_chunk chunk u = false -> upload_lock key ∉ locks w ->
  sftp_write_all (fu_sftp_file u) (uc_data chunk) (fs w) = (Err e, x) ->
  exists p' hs' held, let cf := (with_fs x (with_locks (union {[upload_lock key]}) w), <[i := p']> ts) in
    steps (w, ts) cf /\ waits_for (upload_lock key) p' /\ holders hs' cf.1 cf.2 /\ hs' !! i = Some held /\
    upload_lock key ∈ held.
Proof.
  intros key Hi Hp Hh Hu Hlast Hfree Hw. set (s := upload_lock key) in *.
  assert (forall j q, is_Some (ts !! j) -> <[j := q]> ts !! j = Some q) as Hins
    by (intros j q Hj; apply list_lookup_insert_eq, lookup_lt_is_Some, Hj).
  assert (is_Some (ts !! i)) as Hsome by eauto.
  destruct (context_step i 0 _ _ p w ts (Some u) w Hi Hp) as (p1 & Hs1 & Hp1).
  { cbn. rewrite decide_False by done. fold key. by rewrite Hu, with_agent_same. }
  cbv beta iota in Hp1. rewrite Hlast in Hp1.
  destruct (context_step i 0 _ _ p1 w (<[i := p1]> ts) (Some u) (with_locks (union {[s]}) w) (Hins _ _ Hsome) Hp1) as (p2 & Hs2 & Hp2).
  { cbn. rewrite decide_False by done. fold key. by rewrite Hu. }
  rewrite list_insert_insert_eq in Hs2.
  destruct (context_step i 0 _ _ p2 (with_locks (union {[s]}) w) (<[i := p2]> ts) (Err e) (with_fs x (with_locks (union {[s]}) w))
    (Hins _ _ Hsome) Hp2) as (p3 & Hs3 & Hp3).
  { cbn. by rewrite Hw. }
  rewrite list_insert_insert_eq in Hs3.
  destruct (holders_step _ _ _ _ _ _ _ Hh Hs1) as (h0 & h1 & _ & _ & Hh1).
  destruct (holders_step _ _ _ _ _ _ _ Hh1 Hs2) as (h1' & h2 & _ & Heq2 & Hh2).
  destruct (holders_step _ _ _ _ _ _ _ Hh2 Hs3) as (h2' & h3 & Hlook & Heq3 & Hh3).
  eexists p3, _, h3. cbv zeta. split; [|split; [by eapply context_waits|split; [exact Hh3|split]]].
  - do 3 (eapply rtc_l; [by eapply cstep_task|]). constructor.
  - apply list_lookup_insert_eq. apply lookup_lt_Some in Hlook. by rewrite !length_insert in *.
  - assert (s ∈ h2) as Hs2' by (cbn in Heq2; set_solver).
    assert (h2' = h2) as ->.
    { rewrite list_lookup_insert_eq in Hlook; [by injection Hlook|]. apply lookup_lt_Some in Hlook. by rewrite !length_insert in *. }
    cbn in Heq3. set_solver.
Qed.

(** C40. When the server refuses to write a chunk that is not the last, the
    tunnel's task comes to wait for a lock that it holds itself, the guard of
    the upload that it wants to remove; whatever happens after, it never takes
    another step, and neither does any other task once it wants the lock of
    that shard. *)
Theorem upload_write_failure_deadlocks reader w cf i p chunk cid sid msg_id u e x :
  let key := (cid, uc_upload_id chunk) : TunnelKey in
  locks w = ∅ -> steps (w, [connect config node_id reader;; Ret tt]) cf ->
  cf.2 !! i = Some p -> in_context (upload_file_chunk chunk cid sid msg_id) p ->
  uploads (agent cf.1) !! key = Some u -> is_last_chunk chunk u = false -> upload_lock key ∉ locks cf.1 ->
  sftp_write_all (fu_sftp_file u) (uc_data chunk) (fs cf.1) = (Err e, x) ->
  exists cf1 p1, steps cf cf1 /\ waits_for (upload_lock key) p1 /\
    forall cf', steps cf1 cf' -> cf'.2 !! i = Some p1 /\
      forall j q c, cf'.2 !! j = Some q -> waits_for (upload_lock key) q -> sched_step j c cf' = None.
Proof.
  intros key Hl Hsteps Hi Hp Hu Hlast Hfree Hw.
  destruct (holders_reachable _ _ Hsteps) as [hs Hh].
  { exists [∅]. split.
    - constructor; [|constructor]. eapply guarding_mono, balanced_bind; [done|apply connect_balanced|]. intros r. apply balanced_ret.
    - intros [|j] held; [intros [= <-]; apply empty_subseteq|done].
    - intros [|j] [|j'] held held' Hne; done. }
  destruct cf as [w0 ts]. cbn in *.
  destruct (refused_chunk i chunk cid sid msg_id u e x p w0 ts hs Hi Hp Hh Hu Hlast Hfree Hw)
    as (p1 & hs1 & held & Hs & Hwait & Hh1 & Hheld & Hin).
  eexists _, p1. split; [exact Hs|]. split; [done|]. intros cf' Hcf'.
  destruct (waits_forever (upload_lock key) i p1 _ cf' Hcf') as [Hi' Hlock]; [|done|by eauto|].
  - cbn. apply list_lookup_insert_eq. by apply lookup_lt_Some in Hi.
  - split; [done|]. intros j q c Hj Hq. destruct cf' as [w' ts']. by eapply waits_stuck.
Qed.
End locks.
