(* ===== verification/AgentTransfer.v ===== *)
(** * File transfers, end to end

    What an upload leaves on the SFTP server and what a download delivers, for
    a server that behaves as the protocol documents ([SftpLaws]), over the
    whole sequence of commands of a transfer. *)

From S2P Require Import Prelude Async Mpsc RustStr Protocol Frame Externs AgentState AgentWs AgentSftp.

(** ** The server's documented behaviour

    [contents] is the server's files by path; [named] the path of the file a
    handle is open on; [position] where it reads. *)
Class SftpLaws (FS File : Type) `{!SftpServer FS File} := {
  contents : FS -> gmap string bytes;
  named : FS -> File -> option string;
  position : FS -> File -> Z;
  (** the file is created if it is missing, and kept if it is there *)
  law_open_append p x f x' : sftp_open_append p x = (Ok f, x') ->
    contents x' = <[p := default [] (contents x !! p)]> (contents x) /\ named x' f = Some p;
  (** a write to a handle opened with [APPEND] goes to the end of the file *)
  law_write p f bs x x' : named x f = Some p -> sftp_write_all f bs x = (Ok tt, x') ->
    contents x' = <[p := default [] (contents x !! p) ++ bs]> (contents x) /\ named x' f = Some p;
  law_rename p q x x' : p <> q -> sftp_rename p q x = (Ok tt, x') ->
    exists bs, contents x !! p = Some bs /\ contents x' = <[q := bs]> (delete p (contents x));
  law_sync f x r x' : sftp_sync_all f x = (r, x') -> contents x' = contents x;
  (** the reported size is that of the file *)
  law_metadata p x size x' : sftp_metadata p x = (Ok size, x') ->
    contents x' = contents x /\
    forall n, size = Some n -> exists bs, contents x !! p = Some bs /\ n = Z.of_nat (length bs);
  law_open p x f x' : sftp_open p x = (Ok f, x') -> contents x' = contents x /\ named x' f = Some p;
  law_seek p f pos x x' : named x f = Some p -> sftp_seek f pos x = (Ok tt, x') ->
    contents x' = contents x /\ named x' f = Some p /\ position x' f = pos;
  (** a read returns bytes of the file from the position on, perhaps fewer
      than asked, and none only at the end *)
  law_read p f n x bs x' : named x f = Some p -> sftp_read f n x = (Ok bs, x') ->
    contents x' = contents x /\ named x' f = Some p /\
    exists content, contents x !! p = Some content /\
      bs `prefix_of` drop (Z.to_nat (position x f)) content /\ (length bs <= n)%nat /\
      (bs = [] -> n <> 0%nat -> (length content <= Z.to_nat (position x f))%nat) }.

Section transfer.
Context {FS File : Type} {dm : DashMaps} `{!SftpServer FS File, !SftpLaws FS File}.
Abbreviation task := (prog (agentE FS File)).
Abbreviation world := (World FS File).
Implicit Types (w : world) (cid : Uuid).

(** ** The commands of a tunnel, one after the other

    Between two commands the write task may take frames off the outbound
    queue, and the tunnels of the other transfers take and drop their guards; a
    command is served when there is room for its answer and no other tunnel is
    in the middle of a chunk. *)

Definition roomy (ch : Channel NodeFrameData.t) : Prop :=
  rx ch <> Dropped /\ (length (queue ch) < OUTBOUND_CAPACITY)%nat.

Definition drained (ch ch' : Channel NodeFrameData.t) : Prop :=
  rx ch' = rx ch /\ sent ch' = sent ch.

Definition between w w' : Prop :=
  exists ch l, drained (outbound w) ch /\ w' = with_locks (fun _ => l) (with_outbound ch w).

Record ready w : Prop := {
  re_room : roomy (outbound w);
  re_uploads : unlocked Uploads w;
  re_downloads : unlocked Downloads w }.

Inductive served cid (sid : Z) : list SFTPCommand -> world -> world -> Prop :=
| served_nil w : served cid sid [] w w
| served_cmd cmd cmds cs w w0 w1 w' :
    between w w0 -> ready w0 ->
    run (handle_sftp_command cid sid cmd) cs w0 = Done tt w1 -> served cid sid cmds w1 w' ->
    served cid sid (cmd :: cmds) w w'.

(** [w'] is [w] after the frame [f] was accepted. *)
Definition accepted f (ch : Channel NodeFrameData.t) : Channel NodeFrameData.t :=
  {| queue := queue ch ++ [f]; rx := rx ch; sent := sent ch ++ [f]; written := written ch; wire := wire ch |}.

Lemma chan_send_roomy f ch : roomy ch -> chan_send OUTBOUND_CAPACITY f ch = Some (true, accepted f ch).
Proof. intros [Hr Hl]. unfold chan_send. by rewrite decide_False, decide_True by done. Qed.

(** The queue can always be drained enough. *)
Definition emptied (ch : Channel NodeFrameData.t) : Channel NodeFrameData.t :=
  {| queue := []; rx := rx ch; sent := sent ch; written := sent ch; wire := wire ch |}.

Lemma emptied_ready w : rx (outbound w) <> Dropped -> ready (with_locks (fun _ => ∅) (with_outbound (emptied (outbound w)) w)).
Proof.
  intros Hr. split.
  - split; [done|]. cbn. unfold OUTBOUND_CAPACITY. lia.
  - apply Forall_forall. intros i _. apply not_elem_of_empty.
  - apply Forall_forall. intros i _. apply not_elem_of_empty.
Qed.

(** What holds after every run of a command holds after serving it, and it can
    be served. *)
Lemma served_step cid sid cmd cmds w (P Q : world -> Prop) :
  rx (outbound w) <> Dropped ->
  (forall w0, between w w0 -> ready w0 -> twp (handle_sftp_command cid sid cmd) (fun _ => P) w0) ->
  (forall w1, P w1 -> (exists w', served cid sid cmds w1 w') /\ forall w', served cid sid cmds w1 w' -> Q w') ->
  (exists w', served cid sid (cmd :: cmds) w w') /\ forall w', served cid sid (cmd :: cmds) w w' -> Q w'.
Proof.
  intros Hrx Hp Hk. split.
  - set (w0 := with_locks (fun _ => ∅) (with_outbound (emptied (outbound w)) w)).
    assert (between w w0) as Hb by (exists (emptied (outbound w)), ∅; by split).
    destruct (twp_run _ _ (fun _ => 0) _ (Hp w0 Hb (emptied_ready w Hrx))) as ([] & w1 & Hr & HP).
    destruct (Hk _ HP) as [[w' Hs] _].
    exists w'. eapply served_cmd; [exact Hb|by apply emptied_ready|exact Hr|exact Hs].
  - intros w' Hs. inversion Hs as [|cmd' cmds' cs w0 w1 w2 w3 Hb Hready Hr Hs1]; subst.
    destruct (twp_run _ _ cs _ (Hp _ Hb Hready)) as ([] & w4 & Hr' & HP).
    rewrite Hr in Hr'. injection Hr' as ->. by apply (Hk _ HP).
Qed.

(** ** Steps *)

Lemma twp_sftp {R A} (f : FS -> result string R * FS) (k : result string R -> task A) Q w :
  (forall r x, f (fs w) = (r, x) -> twp (k r) Q (with_fs x w)) -> twp (perform (OnSftp f) ≫= k) Q w.
Proof. intros Hk c. cbn. destruct (f (fs w)) as [r x] eqn:Hf. eexists _, _. split; [done|]. by apply Hk. Qed.

Lemma twp_now {A} (k : SystemTime -> task A) Q w : (forall now, twp (k now) Q w) -> twp (perform Now ≫= k) Q w.
Proof. intros Hk c. eexists _, _. split; [done|]. apply Hk. Qed.

Lemma twp_agent {R A} (f : Agent File -> R * Agent File) (k : R -> task A) Q w :
  twp (k (f (agent w)).1) Q (with_agent (f (agent w)).2 w) -> twp (perform (OnAgent f) ≫= k) Q w.
Proof. intros Hk c. cbn. destruct (f (agent w)). eexists _, _. by split. Qed.

Lemma twp_say sid frame w (Q : unit -> world -> Prop) :
  roomy (outbound w) ->
  Q tt (with_outbound (accepted (NodeFrameData.WebFrame frame (SessionId sid)) (outbound w)) w) ->
  twp (to_session sid frame) Q w.
Proof.
  intros Hr HQ c. cbn. unfold chan_send. destruct Hr as [Hr Hl]. rewrite decide_False, decide_True by done.
  eexists _, _. by split.
Qed.

(** A guard taken and dropped. *)
Lemma twp_hold {R A} s (f : Agent File -> option R) x (k : option R -> task A) Q w :
  s ∉ locks w -> f (agent w) = Some x -> twp (k (Some x)) Q (with_locks (union {[s]}) w) -> twp (perform (HoldShard s f) ≫= k) Q w.
Proof. intros Hs Hf Hk c. cbn. rewrite decide_False by done. rewrite Hf. eexists _, _. by split. Qed.

Lemma twp_drop s (Q : unit -> world -> Prop) w : Q tt (with_locks (fun l => l ∖ {[s]}) w) -> twp (perform (DropGuard s)) Q w.
Proof. intros HQ c. eexists _, _. by split. Qed.

Lemma unlocked_same m w w' : locks w' = locks w -> unlocked m w -> unlocked m w'.
Proof. unfold unlocked. by intros ->. Qed.

(** Cleaning up leaves the files, the conversation and the locks alone. *)
Record tidied w w' : Prop := {
  ti_locks : locks w' = locks w;
  ti_contents : contents (fs w') = contents (fs w);
  ti_outbound : outbound w' = outbound w;
  ti_id : id_counter (agent w') = id_counter (agent w) }.

#[local] Instance tidied_refl : Reflexive tidied.
Proof. by split. Qed.
#[local] Instance tidied_trans : Transitive tidied.
Proof. intros ??? [] []. split; congruence. Qed.

Lemma twp_sync file w (Q : unit -> world -> Prop) :
  (forall w', tidied w w' -> Q tt w') -> twp (sync_all file) Q w.
Proof.
  intros HQ. unfold sync_all. apply twp_sftp. intros r x Hs. apply HQ. split; try done.
  by eapply law_sync.
Qed.

Lemma remove_uploads_tidy keys w :
  unlocked Uploads w -> twp (remove_uploads keys) (fun _ => tidied w) w.
Proof.
  revert w. induction keys as [|key keys IH]; intros w Hl; cbn [remove_uploads]; [exact (tidied_refl w)|].
  apply twp_shard; [by apply unlocked_upload|]. cbn [fst snd]. destruct (uploads (agent w) !! key) as [u|].
  - apply twp_bind, twp_sync. intros w1 [H0 H1 H2 H3]. eapply twp_mono, IH; [|by eapply unlocked_same].
    cbn. intros _ w2 [K0 K1 K2 K3]. cbn in *. split; congruence.
  - eapply twp_mono, IH; [|done]. cbn. intros _ w2 [K0 K1 K2 K3]. by split.
Qed.

Lemma remove_downloads_tidy keys w :
  unlocked Downloads w -> twp (remove_downloads_synced keys) (fun _ => tidied w) w.
Proof.
  revert w. induction keys as [|key keys IH]; intros w Hl; cbn [remove_downloads_synced]; [exact (tidied_refl w)|].
  apply twp_shard; [by apply unlocked_download|]. cbn [fst snd]. destruct (downloads (agent w) !! key) as [u|].
  - apply twp_bind, twp_sync. intros w1 [H0 H1 H2 H3]. eapply twp_mono, IH; [|by eapply unlocked_same].
    cbn. intros _ w2 [K0 K1 K2 K3]. cbn in *. split; congruence.
  - eapply twp_mono, IH; [|done]. cbn. intros _ w2 [K0 K1 K2 K3]. by split.
Qed.

Lemma cleanup_uploads_tidy w : unlocked Uploads w -> twp cleanup_abandoned_uploads (fun _ => tidied w) w.
Proof.
  intros Hl. apply twp_now. intros now. apply twp_uploads_keys; [done|]. intros ks _. by apply remove_uploads_tidy.
Qed.
Lemma cleanup_downloads_tidy w : unlocked Downloads w -> twp cleanup_abandoned_downloads (fun _ => tidied w) w.
Proof.
  intros Hl. apply twp_now. intros now. apply twp_downloads_keys; [done|]. intros ks _. by apply remove_downloads_tidy.
Qed.

(** ** Uploads *)

(** A server that grants what an upload asks. *)
Record grants_uploads : Prop := {
  gu_open p x : exists f x', sftp_open_append p x = (Ok f, x');
  gu_write p f bs x : named x f = Some p -> exists x', sftp_write_all f bs x = (Ok tt, x');
  gu_rename p q x bs : contents x !! p = Some bs -> exists x', sftp_rename p q x = (Ok tt, x') }.

(** Upload [(cid, id)] of [n] chunks is under way: its handle is open on [tmp],
    which holds [data]; the other files are those of [orig]. *)
Definition uploading cid (id n : Z) (tmp final : string) (orig : gmap string bytes) (data : bytes) w : Prop :=
  contents (fs w) = <[tmp := data]> orig /\ rx (outbound w) <> Dropped /\
  exists u, uploads (agent w) !! ((cid, id) : TunnelKey) = Some u /\ fu_temp_path u = tmp /\ fu_total_chunks u = n /\
    join_path (fu_remote_path u) (fu_filename u) = final /\ named (fs w) (fu_sftp_file u) = Some tmp.

Definition file_path_of (up : SFTPUploadStart) : string := join_path (us_remote_path up) (us_filename up).
Definition temp_path_of (up : SFTPUploadStart) : string := file_path_of up +:+ ".tmp".

Definition started (id sid : Z) (msg_id : option Z) : NodeFrameData.t :=
  NodeFrameData.WebFrame (WebFrameData.SFTPUploadStartResponse sid msg_id {| usr_upload_id := id |}) (SessionId sid).
Definition acked (sid id index : Z) : NodeFrameData.t :=
  NodeFrameData.WebFrame (WebFrameData.SFTPUploadChunkAck sid id index) (SessionId sid).

Context (Hgrants : grants_uploads).

Lemma start_upload_twp up cid sid msg_id w :
  ready w ->
  twp (start_upload up cid sid msg_id) (fun _ w' =>
    uploading cid (id_counter (agent w)) (us_total_chunks up) (temp_path_of up) (file_path_of up) (contents (fs w))
      (default [] (contents (fs w) !! temp_path_of up)) w' /\
    sent (outbound w') = sent (outbound w) ++ [started (id_counter (agent w)) sid msg_id]) w.
Proof.
  intros [Hroom Hl _]. unfold start_upload. apply twp_bind. eapply twp_mono, cleanup_uploads_tidy; [|done].
  intros _ w1 [Hlk Hc Ho Hi]. assert (unlocked Uploads w1) as Hl1 by (by eapply unlocked_same). cbv zeta. fold (file_path_of up). fold (temp_path_of up).
  apply twp_sftp. intros r x Hopen. destruct (gu_open Hgrants (temp_path_of up) (fs w1)) as (f & x' & Ho').
  rewrite Hopen in Ho'. injection Ho' as -> ->. apply law_open_append in Hopen as [Hx Hn].
  apply twp_agent. cbn [fst snd]. apply twp_now. intros now.
  apply twp_shard; [by apply unlocked_upload|]. cbn [fst snd].
  apply twp_say; [by cbn; rewrite Ho|]. cbn. rewrite Ho, <-Hc, <-Hi. split; [|done]. split; [done|].
  split; [by destruct Hroom|].
  eexists. split; [apply lookup_insert_eq|]. cbn. done.
Qed.

Lemma upload_chunk_twp cid sid msg_id id n tmp final orig data chunk w :
  uc_upload_id chunk = id -> 0 <= uc_chunk_index chunk -> uc_chunk_index chunk + 1 < n -> n <= U32_MAX ->
  uploading cid id n tmp final orig data w -> ready w ->
  twp (upload_file_chunk chunk cid sid msg_id) (fun _ w' =>
    uploading cid id n tmp final orig (data ++ uc_data chunk) w' /\
    sent (outbound w') = sent (outbound w) ++ [acked sid id (uc_chunk_index chunk)]) w.
Proof.
  intros Hid H0 Hlt Hn (Hc & Hrx & u & Hu & Ht & Htot & Hfin & Hf) [Hroom Hl _].
  pose proof (unlocked_upload (cid, id) w Hl) as Hfree.
  unfold upload_file_chunk. cbv zeta. rewrite Hid. apply twp_shard; [done|]. cbn [fst snd]. rewrite with_agent_same, Hu.
  assert (is_last_chunk chunk u = false) as ->.
  { unfold is_last_chunk. rewrite wrap_small by (unfold fits, U32_MAX in *; lia). apply Z.leb_gt. lia. }
  unfold append_chunk. cbv zeta. rewrite Hid. apply (twp_hold _ _ u); [done|done|].
  apply twp_sftp. cbn [fs with_locks]. intros r x Hw. destruct (gu_write Hgrants tmp _ (uc_data chunk) _ Hf) as [x' Hw'].
  rewrite Hw in Hw'. injection Hw' as -> ->. apply (law_write tmp) in Hw as [Hx Hnx]; [|done].
  apply twp_now. intros now. apply twp_agent. cbn [fst snd]. apply twp_bind, twp_say; [done|]. apply twp_drop. cbn.
  split; [|done]. split; [cbn; by rewrite Hx, Hc, lookup_insert_eq, insert_insert_eq|]. split; [done|].
  exists (touch_upload now u). cbn. split; [|done]. by rewrite lookup_alter_eq, Hu.
Qed.

Lemma upload_last_twp cid sid msg_id id n tmp final orig data chunk w :
  uc_upload_id chunk = id -> 0 <= uc_chunk_index chunk -> n <= uc_chunk_index chunk + 1 <= U32_MAX ->
  tmp <> final ->
  uploading cid id n tmp final orig data w -> ready w ->
  twp (upload_file_chunk chunk cid sid msg_id) (fun _ w' =>
    contents (fs w') = <[final := data ++ uc_data chunk]> (delete tmp orig) /\
    uploads (agent w') !! (cid, id) = None /\
    sent (outbound w') = sent (outbound w) ++ [acked sid id (uc_chunk_index chunk)]) w.
Proof.
  intros Hid H0 Hle Hne (Hc & Hrx & u & Hu & Ht & Htot & Hfin & Hf) [Hroom Hl _].
  pose proof (unlocked_upload (cid, id) w Hl) as Hfree.
  unfold upload_file_chunk. cbv zeta. rewrite Hid. apply twp_shard; [done|]. cbn [fst snd]. rewrite with_agent_same, Hu.
  assert (is_last_chunk chunk u = true) as ->.
  { unfold is_last_chunk. rewrite wrap_small by (unfold fits, U32_MAX in *; lia). apply Z.leb_le. lia. }
  unfold finish_upload. cbv zeta. rewrite Hid. apply twp_shard; [done|]. cbn [fst snd]. rewrite Hu.
  apply twp_sftp. cbn [fs with_agent]. intros r x Hw. destruct (gu_write Hgrants tmp _ (uc_data chunk) _ Hf) as [x' Hw'].
  rewrite Hw in Hw'. injection Hw' as -> ->. apply (law_write tmp) in Hw as [Hx Hnx]; [|done].
  rewrite Hfin, Ht. apply twp_sftp. cbn [fs with_fs]. intros r2 x2 Hr.
  assert (contents x' !! tmp = Some (data ++ uc_data chunk)) as Htmp.
  { by rewrite Hx, Hc, lookup_insert_eq, lookup_insert_eq. }
  destruct (gu_rename Hgrants tmp final x' _ Htmp) as [x3 Hr']. rewrite Hr in Hr'. injection Hr' as -> ->.
  apply law_rename in Hr as (bs & Hbs & Hx3); [|done]. rewrite Htmp in Hbs. injection Hbs as <-.
  apply twp_say; [done|]. cbn. split; [|split; [apply lookup_delete_eq|done]].
  by rewrite Hx3, Hx, Hc, insert_insert_eq, delete_insert_eq.
Qed.

(** The chunks of an upload from index [i] on. *)
Fixpoint chunks_from (id : Z) (msg_id : option Z) (i : nat) (ds : list bytes) : list SFTPCommand :=
  match ds with
  | [] => []
  | d :: ds =>
      Upload {| uc_upload_id := id; uc_chunk_index := Z.of_nat i; uc_chunk_size := Z.of_nat (length d); uc_data := d |} msg_id
        :: chunks_from id msg_id (S i) ds
  end.

Record uploaded cid (sid id : Z) (i m : nat) (tmp final : string) (orig : gmap string bytes) (data : bytes)
    (said : list NodeFrameData.t) w : Prop := {
  ud_contents : contents (fs w) = <[final := data]> (delete tmp orig);
  ud_done : uploads (agent w) !! (cid, id) = None;
  ud_said : sent (outbound w) = said ++ map (fun j => acked sid id (Z.of_nat j)) (seq i m) }.

Lemma uploading_between cid id n tmp final orig data w w0 :
  between w w0 -> uploading cid id n tmp final orig data w -> uploading cid id n tmp final orig data w0.
Proof. intros (ch & l & [Hr _] & ->) (Hc & Hrx & Hu). split; [done|]. split; [by cbn; rewrite Hr|done]. Qed.

Lemma between_sent w w0 : between w w0 -> sent (outbound w0) = sent (outbound w) /\ agent w0 = agent w /\ fs w0 = fs w.
Proof. by intros (ch & l & [_ Hs] & ->). Qed.

Lemma chunks_served cid sid msg_id id tmp final orig ds : forall i data w,
  ds <> [] -> Z.of_nat (i + length ds) <= U32_MAX -> tmp <> final ->
  uploading cid id (Z.of_nat (i + length ds)) tmp final orig data w ->
  (exists w', served cid sid (chunks_from id msg_id i ds) w w') /\
  forall w', served cid sid (chunks_from id msg_id i ds) w w' ->
    uploaded cid sid id i (length ds) tmp final orig (data ++ concat ds) (sent (outbound w)) w'.
Proof.
  induction ds as [|d ds IH]; intros i data w Hne Hmax Htf Hup; [done|]. cbn [length] in *.
  destruct (decide (ds = [])) as [->|Hds]; cbn [chunks_from].
  - apply served_step with (P := uploaded cid sid id i 1 tmp final orig (data ++ concat [d]) (sent (outbound w))).
    + by destruct Hup as (_ & ? & _).
    + intros w0 Hb Hready. destruct (between_sent _ _ Hb) as [Hsent _]. cbn [handle_sftp_command length] in *.
      eapply twp_mono, (upload_last_twp _ _ _ id (Z.of_nat (i + 1))); cbn; [|done|lia|unfold U32_MAX in *; cbn in *; lia|done|by eapply uploading_between|done].
      cbn. intros _ w' (Hc & Hu & Hs). rewrite app_nil_r. split; [done..|]. rewrite Hs. by rewrite Hsent.
    + intros w1 H1. split; [exists w1; constructor|]. intros w' Hs. by inversion Hs; subst.
  - set (n := Z.of_nat (i + S (length ds))) in *.
    apply served_step with (P := fun w' => uploading cid id n tmp final orig (data ++ d) w' /\
      sent (outbound w') = sent (outbound w) ++ [acked sid id (Z.of_nat i)]).
    + by destruct Hup as (_ & ? & _).
    + intros w0 Hb Hready. destruct (between_sent _ _ Hb) as [Hsent _]. cbn [handle_sftp_command].
      assert (0 < length ds)%nat by (destruct ds; cbn; [done|lia]).
      eapply twp_mono, (upload_chunk_twp _ _ _ id n); cbn; [|done|lia|subst n; lia|exact Hmax|by eapply uploading_between|done].
      cbn. intros _ w' [Hu Hs]. split; [done|]. rewrite Hs. by rewrite Hsent.
    + intros w1 [H1 Hs1]. assert (n = Z.of_nat (S i + length ds)) as Hn by lia. rewrite Hn in *.
      destruct (IH (S i) (data ++ d) w1) as [Hex Hall]; [done..|]. split; [done|]. intros w' Hs.
      destruct (Hall _ Hs) as [Hc Hu Hsd]. cbn [concat]. split; [by rewrite <-app_assoc in Hc|done|].
      rewrite Hsd, Hs1, <-app_assoc. done.
Qed.

Lemma temp_path_neq up : temp_path_of up <> file_path_of up.
Proof.
  unfold temp_path_of. intros H%(f_equal String.length). revert H. generalize (file_path_of up) as s.
  induction s as [|c s IH]; cbn; [done|]. intros [= H]. by apply IH.
Qed.

(** C11. An upload whose chunks arrive in order, on a server that grants its
    requests: the transfer can always be served, and when it has been, the
    file holds the chunks one after the other (behind whatever an earlier
    upload of the same file had left in the temporary file), the temporary
    file is gone, no other file has changed, the transfer is forgotten, and
    the client has been told the upload's id and then of every chunk, once and
    in order. *)
Theorem upload_delivers up cid sid msg_id ds w :
  ds <> [] -> us_total_chunks up = Z.of_nat (length ds) -> Z.of_nat (length ds) <= U32_MAX ->
  rx (outbound w) <> Dropped ->
  let id := id_counter (agent w) in
  let tmp := temp_path_of up in
  let commands := UploadStart up msg_id :: chunks_from id msg_id 0 ds in
  (exists w', served cid sid commands w w') /\
  forall w', served cid sid commands w w' ->
    uploaded cid sid id 0 (length ds) tmp (file_path_of up) (contents (fs w))
      (default [] (contents (fs w) !! tmp) ++ concat ds) (sent (outbound w) ++ [started id sid msg_id]) w'.
Proof.
  intros Hne Htot Hmax Hrx. cbv zeta.
  apply served_step with (P := fun w' =>
    uploading cid (id_counter (agent w)) (us_total_chunks up) (temp_path_of up) (file_path_of up) (contents (fs w))
      (default [] (contents (fs w) !! temp_path_of up)) w' /\
    sent (outbound w') = sent (outbound w) ++ [started (id_counter (agent w)) sid msg_id]); [done| |].
  - intros w0 Hb Hready. destruct (between_sent _ _ Hb) as (Hs & Ha & Hf). rewrite <-Hs, <-Ha, <-Hf.
    by apply start_upload_twp.
  - intros w1 [Hup Hs1]. rewrite Htot in Hup. rewrite <-Hs1.
    apply chunks_served; [done|lia|apply temp_path_neq|done].
Qed.

(** The index of a chunk only says whether it is the last: a chunk at the
    last index completes an upload of which [data] has been received, whatever
    is missing, and the client is told that it succeeded. *)
Theorem upload_completes_early cid sid msg_id id n up orig data chunk cs w :
  uploading cid id n (temp_path_of up) (file_path_of up) orig data w -> ready w ->
  uc_upload_id chunk = id -> 0 <= uc_chunk_index chunk -> n <= uc_chunk_index chunk + 1 <= U32_MAX ->
  exists w', run (upload_file_chunk chunk cid sid msg_id) cs w = Done tt w' /\
    contents (fs w') = <[file_path_of up := data ++ uc_data chunk]> (delete (temp_path_of up) orig) /\
    sent (outbound w') = sent (outbound w) ++ [acked sid id (uc_chunk_index chunk)].
Proof.
  intros Hup Hroom Hid H0 Hn.
  destruct (twp_run _ _ cs _ (upload_last_twp cid sid msg_id _ _ _ _ _ _ chunk w Hid H0 Hn (temp_path_neq up) Hup Hroom))
    as ([] & w' & Hr & Hc & _ & Hs). by exists w'.
Qed.
End transfer.

Section failing.
Context {FS File : Type} {dm : DashMaps} `{!SftpServer FS File}.
Implicit Types (w : World FS File) (cid : Uuid).

(** A chunk or a request for a transfer that the client does not have open,
    another client's included, is answered with an error under the session it
    came from, and changes neither the files nor the transfers. *)
Theorem unknown_transfer_refused cid sid msg_id cmd id cs w :
  (exists chunk, cmd = Upload chunk msg_id /\ uc_upload_id chunk = id /\ uploads (agent w) !! ((cid, id) : TunnelKey) = None) \/
  (exists chunk, cmd = DownloadChunk chunk msg_id /\ dc_download_id chunk = id /\ downloads (agent w) !! ((cid, id) : TunnelKey) = None) ->
  unlocked Uploads w -> unlocked Downloads w ->
  chan_send OUTBOUND_CAPACITY (NodeFrameData.WebFrame WebFrameData.Heartbeat (SessionId sid)) (outbound w) <> None ->
  exists message ch,
    chan_send OUTBOUND_CAPACITY (NodeFrameData.WebFrame
      (WebFrameData.Error FrameError.Generic message msg_id) (SessionId sid)) (outbound w) = Some ch /\
    run (handle_sftp_command cid sid cmd) cs w = Done tt (with_outbound ch.2 w).
Proof.
  intros Hcmd Hlu Hld Hroom.
  assert (forall f, exists b ch, chan_send OUTBOUND_CAPACITY f (outbound w) = Some (b, ch)) as Hsend.
  { intros f. revert Hroom. unfold chan_send. case_decide; [eauto|]. case_decide; [eauto|done]. }
  destruct Hcmd as [(chunk & -> & <- & Hn)|(chunk & -> & <- & Hn)]; cbn [handle_sftp_command].
  - unfold upload_file_chunk. cbv zeta.
    destruct (Hsend (NodeFrameData.WebFrame (WebFrameData.Error FrameError.Generic (upload_not_found chunk) msg_id)
      (SessionId sid))) as (b & ch & Hs).
    eexists _, (b, ch). split; [exact Hs|]. cbn. rewrite decide_False by by apply unlocked_upload.
    rewrite Hn. cbn. rewrite Hs. cbn. by destruct w.
  - unfold download_file_chunk, answer_chunk_request. cbv zeta.
    destruct (Hsend (NodeFrameData.WebFrame (WebFrameData.Error FrameError.Generic "Download not found or expired" msg_id)
      (SessionId sid))) as (b & ch & Hs).
    eexists _, (b, ch). split; [exact Hs|]. cbn. rewrite decide_False by by apply unlocked_download. rewrite Hn. cbn. rewrite Hs. cbn. by destruct w.
Qed.

(** *** Abandoned transfers *)

(** The transfers idle for more than fifteen minutes are gone, the others are
    as they were. *)
Definition cleaned {A} (now : SystemTime) (updated : A -> SystemTime) : gmap TunnelKey A -> gmap TunnelKey A -> Prop :=
  fun m m' => without (fun k => exists x, m !! k = Some x /\ updated x + TRANSFER_TIMEOUT < now) m m'.

Lemma cleaned_found {A} (now : SystemTime) (updated : A -> SystemTime) (keys : list TunnelKey) (m m' : gmap TunnelKey A) :
  (forall k, k ∈ keys <-> exists x, m !! k = Some x /\ abandoned now (updated x) = true) ->
  without (fun k => k ∈ keys) m m' -> cleaned now updated m m'.
Proof. intros Hkeys Hm k. destruct (Hm k) as [Hin Hout]. rewrite Hkeys in Hin, Hout. by setoid_rewrite abandoned_idle in Hin; setoid_rewrite abandoned_idle in Hout. Qed.

(** The cleanup of uploads, and that of downloads, returns unless a tunnel is
    in the middle of a chunk; it removes exactly the transfers that have been
    idle for more than fifteen minutes when it starts, and touches neither the
    other kind of transfer nor any tunnel. *)
Theorem cleanup_removes_idle cs w :
  (unlocked Uploads w -> exists w', run cleanup_abandoned_uploads cs w = Done tt w' /\
     cleaned (cs 0%nat) fu_last_updated (uploads (agent w)) (uploads (agent w')) /\
     downloads (agent w') = downloads (agent w) /\ sessions (agent w') = sessions (agent w)) /\
  (unlocked Downloads w -> exists w', run cleanup_abandoned_downloads cs w = Done tt w' /\
     cleaned (cs 0%nat) fd_last_updated (downloads (agent w)) (downloads (agent w')) /\
     uploads (agent w') = uploads (agent w) /\ sessions (agent w') = sessions (agent w)).
Proof.
  split; intros Hl.
  - edestruct (twp_run (uploads_keys (fun e => abandoned (cs 0%nat) (fu_last_updated e.2)) ≫= remove_uploads)
      (fun _ w' => cleaned (cs 0%nat) fu_last_updated (uploads (agent w)) (uploads (agent w')) /\
        downloads (agent w') = downloads (agent w) /\ sessions (agent w') = sessions (agent w))
      (fun n => cs (S n)) w) as ([] & w' & Hr & HQ); [|by exists w'].
    apply twp_uploads_keys; [done|]. intros ks Hks. apply remove_uploads_twp; [done|].
    intros w' Hu Hs _ Hd _. split; [by eapply cleaned_found|done].
  - edestruct (twp_run (downloads_keys (fun e => abandoned (cs 0%nat) (fd_last_updated e.2)) ≫= remove_downloads_synced)
      (fun _ w' => cleaned (cs 0%nat) fd_last_updated (downloads (agent w)) (downloads (agent w')) /\
        uploads (agent w') = uploads (agent w) /\ sessions (agent w') = sessions (agent w))
      (fun n => cs (S n)) w) as ([] & w' & Hr & HQ); [|by exists w'].
    apply twp_downloads_keys; [done|]. intros ks Hks. apply remove_downloads_synced_twp; [done|].
    intros w' Hd Hs _ Hu _. split; [by eapply cleaned_found|done].
Qed.
End failing.
