(* ===== verification/AgentDownload.v ===== *)
(** * Downloads, end to end

    The number of chunks announced, what each request is answered with, and
    when the answers make up the file. *)

From S2P Require Import Prelude Async Mpsc RustStr Protocol Frame Externs AgentState AgentWs AgentSftp AgentTransfer.

(** ** The number of chunks *)

Definition ceil_div (n d : Z) : Z := (n + (d - 1)) / d.

Lemma f64_small n : 0 <= n < 2 ^ 53 -> f64_of_u64 n = n.
Proof.
  intros Hn. unfold f64_of_u64. cbv zeta. assert (Z.log2 n - 52 <= 0) as He.
  { destruct (Z.eq_dec n 0) as [->|]; [done|]. assert (Z.log2 n < 53) by (apply Z.log2_lt_pow2; lia). lia. }
  by rewrite (proj2 (Z.leb_le _ _) He).
Qed.

Lemma f64_large n : 2 ^ 53 <= n -> 2 ^ 53 <= f64_of_u64 n.
Proof.
  intros Hn. unfold f64_of_u64. cbv zeta.
  assert (53 <= Z.log2 n) as Hl by (apply Z.log2_le_pow2; lia).
  destruct (Z.leb_spec (Z.log2 n - 52) 0); [lia|].
  set (e := Z.log2 n - 52) in *.
  assert (2 ^ 52 <= n / 2 ^ e) as Hq.
  { apply Z.div_le_lower_bound; [by apply Z.pow_pos_nonneg; lia|]. rewrite <-Z.pow_add_r by lia.
    replace (e + 52) with (Z.log2 n) by lia. apply Z.log2_spec. lia. }
  assert (2 <= 2 ^ e) as He by (change 2 with (2 ^ 1) at 1; apply Z.pow_le_mono_r; lia).
  change (2 ^ 53) with (2 ^ 52 * 2). destruct (_ || _); nia.
Qed.

Lemma total_chunks_eq size :
  fits 64 size -> total_chunks_of size = Z.min U32_MAX (ceil_div size CHUNK_SIZE).
Proof.
  intros [H0 _]. unfold total_chunks_of, ceil_div.
  destruct (Z.lt_ge_cases size (2 ^ 53)) as [Hs|Hs]; [by rewrite f64_small|].
  pose proof (f64_large size Hs).
  assert (forall m, 2 ^ 53 <= m -> Z.min U32_MAX ((m + (CHUNK_SIZE - 1)) / CHUNK_SIZE) = U32_MAX) as Hcap.
  { intros m Hm. apply Z.min_l. apply Z.div_le_lower_bound; [done|]. unfold U32_MAX, CHUNK_SIZE.
    change (2 ^ 53) with 9007199254740992 in Hm. lia. }
  by rewrite !Hcap.
Qed.

(** C35. The number of chunks that a download announces is computed in floating
    point, by rounding the size to a double, dividing and rounding up.  For
    every 64-bit size it is nevertheless the exact number of 64 KiB chunks,
    capped at the largest [u32]: a double is only inexact where the cap has
    long been reached. *)
Theorem total_chunks_exact size :
  fits 64 size -> total_chunks_of size = Z.min U32_MAX (ceil_div size CHUNK_SIZE).
Proof. apply total_chunks_eq. Qed.

(** ** The answers and the file *)

Definition chunk_len : nat := Z.to_nat CHUNK_SIZE.

Lemma chunk_len_Z : Z.of_nat chunk_len = CHUNK_SIZE.
Proof. unfold chunk_len. by rewrite Z2Nat.id. Qed.

Lemma chunk_len_eq : Z.to_nat CHUNK_SIZE = chunk_len.
Proof. reflexivity. Qed.

#[local] Opaque chunk_len.

(** [ds] answers the requests for all the chunks of [content]: each answer is
    a non-empty beginning of its chunk. *)
Fixpoint answers (content : bytes) (ds : list bytes) {struct ds} : Prop :=
  match ds with
  | [] => content = []
  | d :: ds => d `prefix_of` content /\ (0 < length d <= chunk_len)%nat /\ answers (drop chunk_len content) ds
  end.

(** Every answer is its whole chunk. *)
Fixpoint whole (content : bytes) (ds : list bytes) {struct ds} : Prop :=
  match ds with
  | [] => True
  | d :: ds => length d = Nat.min chunk_len (length content) /\ whole (drop chunk_len content) ds
  end.

Lemma answers_length content ds : answers content ds -> (length (concat ds) <= length content)%nat.
Proof.
  revert content. induction ds as [|d ds IH]; intros content; cbn; [lia|].
  intros (Hp & Hl & Hds). apply IH in Hds. rewrite length_app, length_drop in *.
  apply prefix_length in Hp. lia.
Qed.

Lemma answers_whole content ds : answers content ds -> concat ds = content <-> whole content ds.
Proof.
  revert content. induction ds as [|d ds IH]; intros content; cbn; [by intros ->|].
  intros (Hp & Hl & Hds). specialize (IH _ Hds). apply answers_length in Hds. rewrite length_drop in Hds.
  pose proof (prefix_length _ _ Hp) as Hpl. split.
  - intros <-. rewrite length_app in *.
    assert (length d = Nat.min chunk_len (length d + length (concat ds))) as Hd by lia.
    split; [done|]. apply IH. destruct (decide (length d = chunk_len)) as [<-|]; [by rewrite drop_app_length|].
    assert (length (concat ds) = 0%nat) as Hz by lia. apply nil_length_inv in Hz. rewrite Hz.
    rewrite drop_ge; [done|]. rewrite app_nil_r. lia.
  - intros [Hd Hw]. apply IH in Hw. rewrite Hw. destruct Hp as [rest ->]. rewrite length_app in Hd. f_equal.
    destruct (decide (length d = chunk_len)) as [<-|]; [by rewrite drop_app_length|].
    assert (length rest = 0%nat) as Hz by lia. apply nil_length_inv in Hz as ->. rewrite app_nil_r. apply drop_ge. lia.
Qed.

(** ** The transfer *)

Section download.
Context {FS File : Type} {dm : DashMaps} `{!SftpServer FS File, !SftpLaws FS File}.
Abbreviation task := (prog (agentE FS File)).
Abbreviation world := (World FS File).
Implicit Types (w : world) (cid : Uuid).

(** A server that grants what a download of an existing file asks. *)
Record grants_downloads : Prop := {
  gd_metadata p x bs : contents x !! p = Some bs -> exists n x', sftp_metadata p x = (Ok (Some n), x');
  gd_open p x bs : contents x !! p = Some bs -> exists f x', sftp_open p x = (Ok f, x');
  gd_seek p f pos x : named x f = Some p -> exists x', sftp_seek f pos x = (Ok tt, x');
  gd_read p f n x bs : named x f = Some p -> contents x !! p = Some bs -> exists d x', sftp_read f n x = (Ok d, x') }.

Definition downloading cid (id : Z) (p : string) (content : bytes) (all : gmap string bytes) w : Prop :=
  contents (fs w) = all /\ all !! p = Some content /\ rx (outbound w) <> Dropped /\
  exists d, downloads (agent w) !! ((cid, id) : TunnelKey) = Some d /\ named (fs w) (fd_sftp_file d) = Some p.

Definition announced (id sid : Z) (msg_id : option Z) (size chunks : Z) : NodeFrameData.t :=
  NodeFrameData.WebFrame (WebFrameData.SFTPDownloadStartResponse sid msg_id
    {| dsr_download_id := id; dsr_total_size := size; dsr_total_chunks := chunks |}) (SessionId sid).
Definition chunk_frame (sid : Z) (msg_id : option Z) (id index : Z) (d : bytes) : NodeFrameData.t :=
  NodeFrameData.WebFrame (WebFrameData.SFTPDownloadChunk sid msg_id
    {| dc_download_id := id; dc_chunk_index := index; dc_chunk_size := Z.of_nat (length d); dc_data := d |}) (SessionId sid).

(** The chunk frames from index [i] on. *)
Fixpoint chunk_frames (sid : Z) (msg_id : option Z) (id : Z) (i : nat) (ds : list bytes) : list NodeFrameData.t :=
  match ds with
  | [] => []
  | d :: ds => chunk_frame sid msg_id id (Z.of_nat i) d :: chunk_frames sid msg_id id (S i) ds
  end.

(** The requests for [n] chunks from index [i] on, as the reader forwards them. *)
Definition requests (id : Z) (msg_id : option Z) (i n : nat) : list SFTPCommand :=
  map (fun j => DownloadChunk {| dc_download_id := id; dc_chunk_index := Z.of_nat j; dc_chunk_size := 0; dc_data := [] |} msg_id)
    (seq i n).

Context (Hgrants : grants_downloads).

Lemma start_download_twp dl cid sid msg_id content w :
  let p := join_path (ds_path dl) (ds_filename dl) in
  let size := Z.of_nat (length content) in
  ready w -> contents (fs w) !! p = Some content ->
  twp (start_download dl cid sid msg_id) (fun _ w' =>
    downloading cid (id_counter (agent w)) p content (contents (fs w)) w' /\
    sent (outbound w') = sent (outbound w) ++ [announced (id_counter (agent w)) sid msg_id size (total_chunks_of size)]) w.
Proof.
  cbv zeta. intros [Hroom _ Hl] Hp. unfold start_download. apply twp_bind. eapply twp_mono, cleanup_downloads_tidy; [|done].
  intros _ w1 [Hlk Hc Ho Hi]. cbv zeta. rewrite <-Hc in Hp. assert (unlocked Downloads w1) as Hl1 by (by eapply unlocked_same).
  apply twp_sftp. intros r x Hm. destruct (gd_metadata Hgrants _ _ _ Hp) as (n & x' & Hm').
  rewrite Hm in Hm'. injection Hm' as -> ->. apply law_metadata in Hm as [Hx Hn].
  destruct (Hn n eq_refl) as (bs & Hbs & ->). rewrite Hp in Hbs. injection Hbs as <-. rewrite <-Hx in Hp.
  apply twp_sftp. cbn [fs with_fs]. intros r x2 Hop. destruct (gd_open Hgrants _ _ _ Hp) as (f & x3 & Hop').
  rewrite Hop in Hop'. injection Hop' as -> ->. apply law_open in Hop as [Hx2 Hf].
  apply twp_agent. cbn [fst snd]. apply twp_now. intros now.
  apply twp_shard; [by apply unlocked_download|]. cbn [fst snd]. apply twp_say; [by cbn; rewrite Ho|]. cbn. rewrite Ho, Hi. split; [|done].
  split; [cbn; by rewrite Hx2, Hx|]. split; [by rewrite <-Hc, <-Hx|]. split; [by destruct Hroom|].
  eexists. split; [apply lookup_insert_eq|done].
Qed.

Lemma download_chunk_twp cid sid msg_id id p content all i w :
  let request := {| dc_download_id := id; dc_chunk_index := Z.of_nat i; dc_chunk_size := 0; dc_data := [] |} in
  downloading cid id p content all w -> ready w -> (chunk_len * i < length content)%nat ->
  twp (handle_sftp_command cid sid (DownloadChunk request msg_id)) (fun _ w' =>
    downloading cid id p content all w' /\
    exists d, d `prefix_of` drop (chunk_len * i) content /\ (0 < length d <= chunk_len)%nat /\
      sent (outbound w') = sent (outbound w) ++ [chunk_frame sid msg_id id (Z.of_nat i) d]) w.
Proof.
  cbv zeta. intros (Hc & Hp & Hrx & dl & Hdl & Hf) [Hroom _ Hfree] Hi.
  assert (Z.of_nat i * CHUNK_SIZE = Z.of_nat (chunk_len * i)) as Hpos by (rewrite <-chunk_len_Z; lia).
  cbn [handle_sftp_command dc_download_id dc_chunk_index]. unfold download_file_chunk, answer_chunk_request. cbv zeta.
  apply twp_bind, (twp_hold _ _ dl); [by apply unlocked_download|done|]. apply twp_bind.
  apply twp_sftp. cbn [fs with_locks]. intros r x Hs. destruct (gd_seek Hgrants _ _ (Z.of_nat i * CHUNK_SIZE) _ Hf) as [x' Hs'].
  rewrite Hs in Hs'. injection Hs' as -> ->. apply (law_seek p) in Hs as (Hx & Hfx & Hposx); [|done].
  assert (contents x' !! p = Some content) as Hcx by (by rewrite Hx, Hc).
  apply twp_sftp. cbn [fs with_fs]. rewrite chunk_len_eq. intros r x2 Hr.
  destruct (gd_read Hgrants _ _ chunk_len _ _ Hfx Hcx) as (d & x3 & Hr').
  rewrite Hr in Hr'. injection Hr' as -> ->.
  apply (law_read p) in Hr as (Hx2 & Hfx2 & content' & Hc' & Hd & Hl & Hend); [|done].
  rewrite Hcx in Hc'. injection Hc' as <-. rewrite Hposx, Hpos, Nat2Z.id in Hd, Hend.
  destruct d as [|b d]; [pose proof chunk_len_Z; assert (chunk_len <> 0%nat) by (unfold CHUNK_SIZE in *; lia); specialize (Hend eq_refl); lia|].
  assert (wrap 32 (Z.of_nat (length (b :: d))) = Z.of_nat (length (b :: d))) as Hw.
  { apply wrap_small. split; [lia|]. pose proof chunk_len_Z. unfold CHUNK_SIZE in *. lia. }
  rewrite Hw. apply twp_now. intros now. apply twp_agent. cbn [fst snd].
  apply twp_bind, twp_say; [done|]. apply twp_bind, twp_drop. cbn.
  split; [|exists (b :: d); split; [done|split; [cbn in *; lia|done]]].
  split; [cbn; by rewrite Hx2, Hx|]. split; [done|]. split; [done|].
  exists (touch_download now dl). split; [|done]. cbn. by rewrite lookup_alter_eq, Hdl.
Qed.

Lemma downloading_between cid id p content all w w0 :
  between w w0 -> downloading cid id p content all w -> downloading cid id p content all w0.
Proof. intros (ch & l & [Hr _] & ->) (Hc & Hp & Hrx & Hd). split; [done|]. split; [done|]. split; [by cbn; rewrite Hr|done]. Qed.

Lemma requests_served cid sid msg_id id p content all n : forall i w,
  downloading cid id p content all w ->
  (chunk_len * (i + n) < length content + chunk_len)%nat -> (length content <= chunk_len * (i + n))%nat ->
  (exists w', served cid sid (requests id msg_id i n) w w') /\
  forall w', served cid sid (requests id msg_id i n) w w' ->
    exists ds, answers (drop (chunk_len * i) content) ds /\
      sent (outbound w') = sent (outbound w) ++ chunk_frames sid msg_id id i ds.
Proof.
  induction n as [|n IH]; intros i w Hdl Hlt Hge.
  - split; [exists w; constructor|]. intros w' Hs. inversion Hs; subst. exists []. cbn. rewrite app_nil_r.
    split; [|done]. apply drop_ge. lia.
  - unfold requests. cbn [seq map]. fold (requests id msg_id (S i) n).
    eapply served_step with (P := fun w' => downloading cid id p content all w' /\
      exists d, d `prefix_of` drop (chunk_len * i) content /\ (0 < length d <= chunk_len)%nat /\
        sent (outbound w') = sent (outbound w) ++ [chunk_frame sid msg_id id (Z.of_nat i) d]).
    + by destruct Hdl as (_ & _ & ? & _).
    + intros w0 Hb Hready. destruct (between_sent _ _ Hb) as [<- _].
      apply download_chunk_twp; [by eapply downloading_between|done|lia].
    + intros w1 (H1 & d & Hd & Hl & Hs1). destruct (IH (S i) w1) as [Hex Hall]; [done|lia..|].
      split; [done|]. intros w' Hs. destruct (Hall _ Hs) as (ds & Hds & Hsd). exists (d :: ds). split.
      * cbn. split; [done|]. split; [done|]. rewrite drop_drop. by replace (chunk_len * i + chunk_len)%nat with (chunk_len * S i)%nat by lia.
      * by rewrite Hsd, Hs1, <-app_assoc.
Qed.

(** C12. A download of which the client asks for the announced chunks in order,
    from a server that grants its requests: the client is told the file's size
    and number of chunks, then gets one answer for each chunk, in order, each
    a non-empty beginning of that chunk; put together they are the file
    exactly when every single read returned its whole chunk, which the code
    does not wait for. *)
Theorem download_delivers dl cid sid msg_id content w :
  let p := join_path (ds_path dl) (ds_filename dl) in
  let size := Z.of_nat (length content) in
  let id := id_counter (agent w) in
  contents (fs w) !! p = Some content -> size <= CHUNK_SIZE * U32_MAX -> rx (outbound w) <> Dropped ->
  let commands := DownloadStart dl msg_id :: requests id msg_id 0 (Z.to_nat (total_chunks_of size)) in
  (exists w', served cid sid commands w w') /\
  forall w', served cid sid commands w w' -> exists ds,
    sent (outbound w') = sent (outbound w) ++
      announced id sid msg_id size (total_chunks_of size) :: chunk_frames sid msg_id id 0 ds /\
    answers content ds /\ (concat ds = content <-> whole content ds).
Proof.
  cbv zeta. intros Hp Hmax Hrx. set (n := total_chunks_of (Z.of_nat (length content))).
  assert (n = ceil_div (Z.of_nat (length content)) CHUNK_SIZE) as Hn.
  { unfold n. rewrite total_chunks_eq.
    - apply Z.min_r. unfold ceil_div. apply Z.lt_succ_r, Z.div_lt_upper_bound; [done|]. unfold CHUNK_SIZE, U32_MAX in *. lia.
    - split; [lia|]. unfold CHUNK_SIZE, U32_MAX in *. lia. }
  assert (CHUNK_SIZE * n < Z.of_nat (length content) + CHUNK_SIZE /\ Z.of_nat (length content) <= CHUNK_SIZE * n) as [Hlt Hge].
  { rewrite Hn. unfold ceil_div, CHUNK_SIZE in *. split; Z.to_euclidean_division_equations; lia. }
  assert (0 <= n) as Hn0 by (rewrite Hn; unfold ceil_div; apply Z.div_pos; unfold CHUNK_SIZE in *; lia).
  assert (Z.of_nat (chunk_len * (0 + Z.to_nat n)) = CHUNK_SIZE * n) as HM
    by (rewrite Nat2Z.inj_mul, chunk_len_Z, Nat.add_0_l, Z2Nat.id by done; done).
  assert (Z.of_nat chunk_len = CHUNK_SIZE) as HZ by apply chunk_len_Z.
  eapply served_step with (P := fun w' =>
    downloading cid (id_counter (agent w)) (join_path (ds_path dl) (ds_filename dl)) content (contents (fs w)) w' /\
    sent (outbound w') = sent (outbound w) ++ [announced (id_counter (agent w)) sid msg_id (Z.of_nat (length content)) n]).
  - done.
  - intros w0 Hb Hready. destruct (between_sent _ _ Hb) as (<- & <- & Hf). rewrite <-Hf.
    apply start_download_twp; [done|by rewrite Hf].
  - intros w1 [H1 Hs1]. edestruct (requests_served cid sid msg_id (id_counter (agent w))) with (i := 0%nat) (n := Z.to_nat n) as [Hex Hall];
      [exact H1|lia..|]. split; [exact Hex|]. intros w' Hs. destruct (Hall _ Hs) as (ds & Hds & Hsd).
    rewrite Nat.mul_0_r, drop_0 in Hds. exists ds. split; [by rewrite Hsd, Hs1, <-app_assoc|].
    split; [done|]. by apply answers_whole.
Qed.
End download.
