(* ===== verification/System.v ===== *)
(** * Page, server and agent together

    What a browser's request and an agent's answer become on their way through
    the three programs of [channel/src/lib.rs], [server/src/web.rs],
    [server/src/node.rs] and [agent/src/ws.rs], the frames' bytes included, and
    what gets lost on it.  Names that several programs use are written with
    their file. *)

From S2P Require Import Prelude Async Mpsc RustStr Protocol Frame Externs Token JsonDe.
From S2P Require Import ServerState ServerDb ServerWeb ServerNode.
From S2P Require Import Relay Channel.
From S2P Require Import AgentState AgentWs AgentSftp AgentTunnel.

(** ** Bytes *)

(** Frames that fit the length field of their header. *)
Definition short (bs : bytes) : Prop := Z.of_nat (length bs) < 2 ^ 32.

Section wire.
Context `{!Serde WebFrameData.t, !SerdeLaws WebFrameData.t, !Serde NodeFrameData.t, !SerdeLaws NodeFrameData.t}.

Lemma web_on_the_wire tg d raw :
  web_bytes d = Ok raw -> short raw -> 32 <= usize_bits tg -> decode tg raw = Returns (Ok (from_web d)).
Proof.
  intros Hraw Hs Htg. rewrite (decode_encoded tg (from_web d) raw); [done|intros _; by exists d|done..].
Qed.

Lemma node_on_the_wire d raw : node_bytes d = Ok raw -> short raw -> decode native raw = Returns (Ok (from_node d)).
Proof. intros Hraw Hs. by rewrite (decode_encoded native (from_node d) raw). Qed.

(** One turn of a channel's write task. *)
Definition put_on_wire {A} (raw : bytes) (ch : Channel A) : Channel A :=
  match queue ch with
  | f :: q => {| queue := q; rx := HeldByWriter; sent := sent ch; written := written ch ++ [f]; wire := wire ch ++ [raw] |}
  | [] => ch
  end.

(** A send into an idle channel, and the turn of the write task after it. *)
Lemma idle_send {A} (enc : A -> result string bytes) n tx f raw (m : gmap ChanId (Channel A)) ch :
  (0 < n)%nat -> m !! tx = Some ch -> rx ch = HeldByWriter -> queue ch = [] -> enc f = Ok raw ->
  exists ch1 ch2, send_in n tx f m = Some (true, <[tx := ch1]> m) /\ write_task enc true ch1 = Some ch2 /\
    wire ch2 = wire ch ++ [raw] /\ queue ch2 = [] /\ rx ch2 = HeldByWriter.
Proof.
  intros Hn Hch Hrx Hq Henc. unfold send_in, chan_send. rewrite Hch, Hrx, Hq. cbn.
  destruct (decide (0 < n)%nat); [|lia]. cbn. eexists _, _. split; [done|].
  unfold write_task. cbn. rewrite Henc. done.
Qed.
End wire.

(** ** From the page to the tunnel *)

Section down.
Context `{!UuidText, !JsonText, !DateText}.
Context `{!Serde WebFrameData.t, !SerdeLaws WebFrameData.t, !Serde NodeFrameData.t, !SerdeLaws NodeFrameData.t}.

(** The server on the bytes that a page wrote. *)
Lemma server_reads state cid f raw cs w :
  web_bytes f = Ok raw -> short raw ->
  run (handle_web_message state cid (Ok (Binary raw))) cs w = run (handle_web_frame state cid f) cs w.
Proof. intros Hraw Hs. cbn [handle_web_message]. by rewrite (web_on_the_wire native f raw). Qed.

(** An agent on the bytes that a server wrote. *)
Lemma agent_reads {FS File} {dm : DashMaps} `{!SftpServer FS File} config f raw rest :
  node_bytes f = Ok raw -> short raw ->
  reader_task (FS := FS) (File := File) config (Ok (Binary raw) :: rest) =
    (handle_message config f;; reader_task config rest).
Proof. intros Hraw Hs. cbn [reader_task]. by rewrite (node_on_the_wire f raw). Qed.

Lemma granted_fun s cid target sid tx tx' :
  granted s cid target sid tx -> granted s cid target sid tx' -> tx = tx'.
Proof. intros (k & n & Hp & Hs & Htx) (k' & n' & Hp' & Hs' & Htx'). congruence. Qed.

(** What the server does with a granted request when the node's queue is
    empty, up to the socket. *)
Lemma server_forwards state cid f raw target sid mk tx ch raw' cs w :
  web_bytes f = Ok raw -> short raw -> session_request f = Some (target, sid, mk) ->
  granted (shared w) cid target sid tx -> node_channels w !! tx = Some ch -> rx ch = HeldByWriter -> queue ch = [] ->
  node_bytes (mk cid) = Ok raw' ->
  exists w1 w2 ch2, run (handle_web_message state cid (Ok (Binary raw))) cs w = Done Continue w1 /\
    env_step w1 w2 /\ shared w2 = shared w /\ node_channels w2 !! tx = Some ch2 /\ wire ch2 = wire ch ++ [raw'].
Proof.
  intros Hraw Hs Hf Hg Hch Hrx Hq Henc. rewrite (server_reads _ _ f) by done.
  destruct (session_frame_run state cid f target sid mk cs w Hf) as [(tx' & Hg' & Hrun)|[Hno _]]; [|by destruct (Hno tx)].
  rewrite <-(granted_fun _ _ _ _ _ _ Hg Hg') in Hrun.
  destruct (idle_send node_bytes CHANNEL_CAPACITY tx (mk cid) raw' _ ch ltac:(cbv; lia) Hch Hrx Hq Henc)
    as (ch1 & ch2 & Hsend & Hwrite & Hwire & _). rewrite Hsend in Hrun.
  eexists _, _, ch2. split; [exact Hrun|]. split; [|split; [|split; [|done]]].
  - apply (env_write_node _ tx ch1 ch2 true); [cbn; apply lookup_insert_eq|done].
  - done.
  - cbn. apply lookup_insert_eq.
Qed.
End down.

(** C5. A request that a page makes inside a session reaches the tunnel.  On an
    open socket the page writes one message; when the session is the client's
    and its node is connected with nothing else queued, the server puts one
    message on that node's socket; and the agent that reads it hands exactly
    the corresponding command to the tunnel recorded for that client and
    session.  Both encodings are undone on the way. *)
Theorem request_reaches_tunnel
    `{!UuidText, !JsonText, !DateText, !Serde WebFrameData.t, !SerdeLaws WebFrameData.t}
    `{!Serde NodeFrameData.t, !SerdeLaws NodeFrameData.t} {FS File} {dm : DashMaps} `{!SftpServer FS File}
    state config p s sk f raw target sid mk cid tx ch raw' cmd cs cs' w (a a' : AgentState.World FS File) :
  Channel.socket p = Some s -> Channel.sockets p !! s = Some sk -> Channel.ready_state sk = Channel.OPEN ->
  web_bytes f = Ok raw -> short raw -> session_request f = Some (target, sid, mk) ->
  granted (shared w) cid target sid tx -> node_channels w !! tx = Some ch -> rx ch = HeldByWriter -> queue ch = [] ->
  node_bytes (mk cid) = Ok raw' -> short raw' ->
  command_of (mk cid) = Some ((cid, sid), cmd) -> delivered (cid, sid) cmd a = Some a' ->
  (exists sk', Channel.sockets (Channel.send_frame_data f p) !! s = Some sk' /\ Channel.out sk' = Channel.out sk ++ [raw]) /\
  (exists w1 w2 ch2, run (handle_web_message state cid (Ok (Binary raw))) cs w = Done Continue w1 /\
     env_step w1 w2 /\ node_channels w2 !! tx = Some ch2 /\ wire ch2 = wire ch ++ [raw']) /\
  run (reader_task config [Ok (Binary raw')]) cs' a = Done tt a'.
Proof.
  intros Hso Hsk Hopen Hraw Hs Hf Hg Hch Hrx Hq Henc Hs' Hcmd Hdel. split; [|split].
  - unfold Channel.send_frame_data, Channel.is_connected, Channel.state_is. rewrite Hso. cbn -[to_bytes]. rewrite Hsk.
    rewrite bool_decide_true by done. cbn -[to_bytes]. unfold web_bytes in Hraw. rewrite Hraw. cbn.
    rewrite lookup_alter_eq, Hsk. by eexists.
  - destruct (server_forwards state cid f raw target sid mk tx ch raw' cs w) as (w1 & w2 & ch2 & ? & ? & _ & ? & ?); eauto 10.
  - rewrite (agent_reads _ (mk cid)) by done.
    pose proof (session_command_run config (mk cid) _ _ cs' a Hcmd) as Hrun. rewrite Hdel in Hrun.
    destruct (run_bind _ (fun _ => reader_task config []) _ _ _ _ Hrun) as [skip Hb]. etrans; [exact Hb|done].
Qed.

(** ** From the tunnel to the page *)

(** C6. What an agent says in a session reaches the page.  The server that
    reads the agent's message puts its frame on the socket of the client that
    owns the session, with nothing else queued there; and the page whose
    socket that is calls its protocol callback with that very frame, when it
    can become a JavaScript value. *)
Theorem answer_reaches_page
    `{!UuidText, !JsonText, !DateText, !Serde WebFrameData.t, !SerdeLaws WebFrameData.t}
    `{!Serde NodeFrameData.t, !SerdeLaws NodeFrameData.t, !Channel.WasmBindgen}
    state nid sid d raw cid conn ch raw' cs w s p fn :
  node_bytes (NodeFrameData.WebFrame d (SessionId sid)) = Ok raw -> short raw ->
  sessions_wf (shared w) -> session_of (shared w) nid sid = Some cid -> connections (shared w) !! cid = Some conn ->
  web_channels w !! wc_tx conn = Some ch -> rx ch = HeldByWriter -> queue ch = [] ->
  web_bytes d = Ok raw' -> short raw' -> Channel.serializes (from_web d) = true ->
  Channel.on_protocol_message (Channel.attached s p) = Some fn ->
  (exists w1 w2 ch2, run (handle_node_message state nid (Ok (Binary raw))) cs w = Done Continue w1 /\
     env_step w1 w2 /\ web_channels w2 !! wc_tx conn = Some ch2 /\ wire ch2 = wire ch ++ [raw']) /\
  exists p', Channel.on_message s (Channel.AsArrayBuffer raw') p = Returns p' /\
    last (Channel.calls p') = Some (fn, Some (from_web d)).
Proof.
  intros Hraw Hs Hwf Hown Hconn Hch Hrx Hq Henc Hs' Hjs Hfn. split.
  - cbn [handle_node_message]. rewrite (node_on_the_wire _ raw) by done. cbn -[handle_frame_response].
    destruct (idle_send web_bytes CHANNEL_CAPACITY (wc_tx conn) d raw' _ ch ltac:(cbv; lia) Hch Hrx Hq Henc)
      as (ch1 & ch2 & Hsend & Hwrite & Hwire & _).
    assert (run (handle_frame_response d (SessionId sid) nid) cs w =
      Done tt (with_web_channels (<[wc_tx conn := ch1]> (web_channels w)) w)) as Hrun.
    { rewrite frame_response_run by done. rewrite Hown. cbn. rewrite Hconn. cbn. by rewrite Hsend. }
    destruct (run_bind _ (fun _ : unit => Ret Continue) _ _ _ _ Hrun) as [skip Hb].
    eexists _, _, ch2. split; [exact Hb|]. split; [|split; [|done]].
    + apply (env_write_web _ (wc_tx conn) ch1 ch2 true); [cbn; apply lookup_insert_eq|done].
    + cbn. apply lookup_insert_eq.
  - unfold Channel.on_message. rewrite Hfn. unfold Channel.handle_message.
    rewrite (web_on_the_wire browser d raw'), Hjs by done. eexists. split; [done|]. cbn. apply last_snoc.
Qed.

(** C37. An SSH login that fails is told to nobody, or to whom it may not concern.
    The agent's only frame is an error addressed to the tunnel's session, which
    it has not announced; the client that asked for the tunnel is named nowhere
    in it.  So whatever the server's registry is, the frame goes to the client
    that the registry names, from before, as the owner of that session number;
    and when it names nobody, or one who has gone, the server drops the frame
    and nothing changes: no queue, no entry. *)
Theorem ssh_login_failure_is_lost
    `{!UuidText, !JsonText, !DateText, !Serde WebFrameData.t, !Serde NodeFrameData.t} {FS File} {dm : DashMaps} `{!SftpServer FS File}
    state nid node_id t setup turns e :
  tn_protocol t = Protocol.SSH -> ssh_setup setup = Err e ->
  let error := WebFrameData.Error FrameError.Generic e (tn_msg_id t) in
  let told := NodeFrameData.WebFrame error (SessionId (tn_sid t)) in
  emits (ssh_task (FS := FS) (File := File) node_id t setup turns) (fun _ frames => frames = [told]) /\
  forall cs w, sessions_wf (shared w) ->
    run (handle_node_frame state nid told) cs w =
      match session_of (shared w) nid (tn_sid t) ≫= fun owner => connections (shared w) !! owner with
      | None => Done Continue w
      | Some conn =>
          match send_in CHANNEL_CAPACITY (wc_tx conn) error (web_channels w) with
          | Some (_, m) => Done Continue (with_web_channels m w)
          | None => Blocked w
          end
      end.
Proof.
  intros Hp He error told. split.
  - eapply emits_mono, ssh_task_emits; [|exact Hp]. rewrite He. by intros _ frames ->.
  - intros cs w Hwf. cbn [handle_node_frame told].
    pose proof (frame_response_run error (SessionId (tn_sid t)) nid cs w Hwf) as Hrun. cbv zeta in Hrun.
    destruct (session_of (shared w) nid (tn_sid t)) as [owner|]; cbn in *.
    + destruct (connections (shared w) !! owner) as [conn|]; cbn in *; [|by destruct (run_bind _ (fun _ : unit => Ret Continue) _ _ _ _ Hrun) as [? Hb]].
      destruct (send_in _ _ _ _) as [[b m]|].
      * by destruct (run_bind _ (fun _ : unit => Ret Continue) _ _ _ _ Hrun) as [? Hb].
      * by apply run_bind_blocked.
    + by destruct (run_bind _ (fun _ : unit => Ret Continue) _ _ _ _ Hrun) as [? Hb].
Qed.

(** C36. Any authenticated client can end the process of any connected agent
    that takes passwords, its own or not: a request for a tunnel with a protocol
    code other than SSH and SFTP passes the server unchecked, and the agent
    panics on it. *)
Theorem client_ends_any_agent
    `{!UuidText, !JsonText, !DateText, !Serde WebFrameData.t, !SerdeLaws WebFrameData.t}
    `{!Serde NodeFrameData.t, !SerdeLaws NodeFrameData.t} {FS File} {dm : DashMaps} `{!SftpServer FS File}
    state config cid protocol target nid tx username password msg_id raw ch raw' cs cs' w (a : AgentState.World FS File) :
  let request := WebFrameData.OpenTunnel protocol target username password msg_id in
  let forwarded := NodeFrameData.OpenTunnel protocol cid username password msg_id in
  protocol <> 0 -> protocol <> 1 -> credential_problem config username password = None ->
  web_bytes request = Ok raw -> short raw -> node_bytes forwarded = Ok raw' -> short raw' ->
  parse_str target = Ok nid -> node_sender nid (shared w) = Some tx ->
  node_channels w !! tx = Some ch -> rx ch = HeldByWriter -> queue ch = [] ->
  (exists w1 w2 ch2, run (handle_web_message state cid (Ok (Binary raw))) cs w = Done Continue w1 /\
     env_step w1 w2 /\ node_channels w2 !! tx = Some ch2 /\ wire ch2 = wire ch ++ [raw']) /\
  run (reader_task config [Ok (Binary raw')]) cs' a = Panicked a.
Proof.
  intros request forwarded Hssh Hsftp Hcred Hraw Hs Hraw' Hs' Hp Htx Hch Hrx Hq. split.
  - rewrite (server_reads _ _ request) by done. unfold request. rewrite (open_tunnel_run _ _ _ _ nid tx) by done.
    destruct (idle_send node_bytes CHANNEL_CAPACITY tx forwarded raw' _ ch ltac:(cbv; lia) Hch Hrx Hq Hraw')
      as (ch1 & ch2 & Hsend & Hwrite & Hwire & _). unfold forwarded in Hsend. rewrite Hsend.
    eexists _, _, ch2. split; [done|]. split; [|split; [|done]].
    + apply (env_write_node _ tx ch1 ch2 true); [cbn; apply lookup_insert_eq|done].
    + cbn. apply lookup_insert_eq.
  - rewrite (agent_reads _ forwarded) by done. apply run_bind_panicked. by apply open_tunnel_panics.
Qed.
