(* ===== verification/SystemJoin.v ===== *)
(** * Agent and server together: joining

    The first message of an agent ([agent/src/ws.rs]) as the server reads it
    ([server/src/node.rs]), the registration that follows, and the server's
    answer as the agent reads it. *)

From S2P Require Import Prelude Async Mpsc RustStr Protocol Frame Externs Token JsonDe.
From S2P Require Import ServerState ServerDb ServerAuth ServerWeb ServerNode.
From S2P Require Import Relay Channel.
From S2P Require Import AgentState AgentWs System SystemLogin SystemStart.

Section join.
Context `{!UuidText, !JsonText, !DateText, !JwtCodec NodeJwtClaims}.
Context `{!Serde WebFrameData.t, !SerdeLaws WebFrameData.t, !Serde NodeFrameData.t, !SerdeLaws NodeFrameData.t}.

(** The server on the first message of an agent. *)
Lemma server_reads_auth state version id token raw rest tx :
  auth_message version id token = Ok raw -> short raw ->
  wait_for_auth (Ok (Binary raw) :: rest) tx state =
    (r ← authenticate_node token id tx state; Ret (r, rest)).
Proof.
  intros Hraw Hs. unfold wait_for_auth, try_bind. cbn [node_auth_frame].
  rewrite (node_on_the_wire (NodeFrameData.Auth token id version) raw) by done. done.
Qed.

(** The channel of a node that was just accepted. *)
Definition accepted (id : Uuid) (version : string) : Mpsc.Channel NodeFrameData.t :=
  {| queue := [NodeFrameData.AuthResponse id true version]; rx := HeldByHandler;
     sent := [NodeFrameData.AuthResponse id true version]; written := []; wire := [] |}.

Lemma authenticate_node_ok state token id tx cs w :
  (forall n, c_db_ok (cs n) = true) -> node_channels w !! tx = Some chan_new -> active_node (tables w) id ->
  run (authenticate_node_jwt state token) cs w = Done (Ok {| an_node_id := id |}) w ->
  run (authenticate_node token id tx state) cs w =
    Done (Ok id) (with_node_channels (<[tx := accepted id (version state)]> (node_channels w)) w).
Proof.
  intros Hdb Htx (row & Hrow & Hrev) Hjwt. unfold authenticate_node.
  eapply run_bind in Hjwt as [skip ->]. cbn. rewrite bool_decide_true by done. cbn. rewrite Hdb. cbn.
  rewrite with_tables_id, Hrow. cbn. rewrite Hrev. cbn.
  rewrite (send_in_new CHANNEL_CAPACITY tx _ _ ltac:(cbv; lia) Htx). done.
Qed.

(** The connection that the server records for the agent. *)
Definition joined (state : AppState) (ip : string) (now : SystemTime) (tx : ChanId) (record : NodeRecord) : NodeConnection :=
  NodeConnection_new now (ServerState.id state) ip tx record.

Lemma socket_reaches_loop state ip version id token raw row rest cs w :
  auth_message version id token = Ok raw -> short raw ->
  (forall n, c_db_ok (cs n) = true) -> (forall n, c_redis_ok (cs n) = true) ->
  t_nodes (tables w) !! id = Some row -> nc_revoked row.1 = false ->
  run (authenticate_node_jwt state token) (fun n => cs (1 + n)%nat)
    (with_node_channels (<[fresh_chan (node_channels w) := chan_new]> (node_channels w)) w) =
    Done (Ok {| an_node_id := id |}) (with_node_channels (<[fresh_chan (node_channels w) := chan_new]> (node_channels w)) w) ->
  let tx := fresh_chan (node_channels w) in
  let record := node_row_record row in
  exists (shift : nat -> nat) now w1,
    run (handle_node_socket state ip (Ok (Binary raw) :: rest)) cs w =
      run (handle_node_messages state id rest;; end_node_socket tx id) (fun n => cs (shift n)) w1 /\
    shared w1 = with_nodes (<[id := joined state ip now tx record]>) (shared w) /\ tables w1 = tables w /\
    redis w1 = redis w ++ [HSetMultiple (node_key record) [("node", node_record_to_json record); ("stats", "");
                             ("server", server_get_encoded (server state))]; Expire (node_key record) 120] /\
    node_channels w1 !! tx = Some (chan_spawn_writer (accepted id (ServerState.version state))).
Proof.
  intros Hraw Hs Hdb Hredis Hrow Hrev Hjwt tx record.
  set (w0 := with_node_channels (<[tx := chan_new]> (node_channels w)) w).
  assert (run (authenticate_node token id tx state) (fun n => cs (1 + n)%nat) w0 =
    Done (Ok id) (with_node_channels (<[tx := accepted id (ServerState.version state)]> (node_channels w0)) w0)) as Hauth.
  { apply authenticate_node_ok; [auto|apply lookup_insert_eq|by exists row|exact Hjwt]. }
  pose proof (run_ret _ (fun r => (r, rest)) _ _ _ _ Hauth) as Hwait.
  unfold handle_node_socket. cbn -[wait_for_auth handle_node_messages end_node_socket]. fold tx w0.
  rewrite (server_reads_auth state version id token raw rest tx Hraw Hs).
  eapply run_bind in Hwait as [skip Hb].
  exists (fun n => 1 + (skip + (6 + n)))%nat. eexists _, _. split.
  { etrans; [exact Hb|]. cbn -[handle_node_messages end_node_socket server_get_encoded]. rewrite Hdb.
    cbn -[handle_node_messages end_node_socket server_get_encoded]. rewrite Hrow.
    cbn -[handle_node_messages end_node_socket server_get_encoded]. rewrite Hredis.
    cbn -[handle_node_messages end_node_socket server_get_encoded]. rewrite Hredis.
    cbn -[handle_node_messages end_node_socket server_get_encoded]. reflexivity. }
  cbn -[server_get_encoded]. split; [done|]. split; [done|]. split; [by rewrite <-app_assoc|].
  by rewrite !lookup_alter_eq, lookup_insert_eq.
Qed.
End join.

(** C9. An agent that has been given a session token joins: on its first message
    the server registers its connection under its node id, with itself as
    the server, announces it in Redis under the node's key for two minutes,
    and goes on to serve it; the one message it puts on the agent's socket
    lets the agent go on, with nothing left in the queue that later frames
    for this node go through. *)
Theorem agent_joins
    `{!UuidText, !JsonText, !DateText, !JwtCodec NodeJwtClaims, !JwtLaws NodeJwtClaims nj_exp}
    `{!Serde WebFrameData.t, !SerdeLaws WebFrameData.t, !Serde NodeFrameData.t, !SerdeLaws NodeFrameData.t}
    state ip version id token t0 t1 raw raw' rest cs w :
  connected state t0 t1 id token w -> tables_wf (tables w) ->
  (forall iat, t0 <= iat <= t1 -> as_secs (c_now (cs 1%nat)) <= nj_exp (issued_claims state id iat)) ->
  (forall n, c_db_ok (cs n) = true) -> (forall n, c_redis_ok (cs n) = true) ->
  auth_message version id token = Ok raw -> short raw ->
  node_bytes (NodeFrameData.AuthResponse id true (ServerState.version state)) = Ok raw' -> short raw' ->
  exists shift w1 w2 tx conn ch,
    run (handle_node_socket state ip (Ok (Binary raw) :: rest)) cs w =
      run (handle_node_messages state id rest;; end_node_socket tx id) (fun n => cs (shift n)) w1 /\
    nodes (shared w1) !! id = Some conn /\ nc_tx conn = tx /\ server_id conn = ServerState.id state /\
    nr_id (node_record conn) = id /\
    (exists fields, redis w1 = redis w ++ [HSetMultiple (node_key (node_record conn)) fields;
                                           Expire (node_key (node_record conn)) 120] /\
       ("server", server_get_encoded (server state)) ∈ fields) /\
    env_step w1 w2 /\ shared w2 = shared w1 /\ node_channels w2 !! tx = Some ch /\
    wire ch = [raw'] /\ queue ch = [] /\ rx ch = HeldByWriter /\
    forall reader, AgentWs.authenticate id (Ok (Binary raw') :: reader) = (Ok tt, reader).
Proof.
  intros (iat & Hiat & Htoken & Hjwt) Hwf Hexp Hdb Hredis Hraw Hs Hraw' Hs'.
  pose proof (Hjwt (fun n => cs (S n)) (Hdb _) (Hexp iat Hiat)) as Hrun.
  destruct (authenticate_run state token (fun n => cs (S n)) w (Hdb _)) as (r & Hr & Hiff).
  rewrite Hrun in Hr. injection Hr as <-. destruct (proj1 (Hiff id) eq_refl) as (_ & _ & _ & row & Hrow & Hrev).
  set (tx := fresh_chan (node_channels w)). set (record := node_row_record row).
  destruct (socket_reaches_loop state ip version id token raw row rest cs w)
    as (shift & now & w1 & Hsocket & Hshared & _ & Hlog & Hch); try done.
  { apply (token_accepted state id iat); [apply Hdb|by exists row|done|by apply Hexp]. }
  fold tx record in Hsocket, Hshared, Hlog, Hch.
  set (answer := NodeFrameData.AuthResponse id true (ServerState.version state)) in *.
  set (ch1 := {| queue := [answer]; rx := HeldByWriter; sent := [answer]; written := []; wire := [] |}).
  assert (node_channels w1 !! tx = Some ch1) as Hch1 by (rewrite Hch; reflexivity).
  exists shift, w1, (with_node_channels (<[tx := put_on_wire raw' ch1]> (node_channels w1)) w1), tx,
    (joined state ip now tx record), (put_on_wire raw' ch1).
  split; [exact Hsocket|]. split; [rewrite Hshared; apply lookup_insert_eq|]. split; [done|]. split; [done|].
  split; [by apply (wf_pk _ Hwf)|]. split; [eexists; split; [exact Hlog|set_solver]|].
  split. { apply (env_write_node _ tx ch1 _ true); [exact Hch1|]. unfold write_task. cbn -[node_bytes]. by rewrite Hraw'. }
  split; [done|]. split; [apply lookup_insert_eq|]. do 3 (split; [done|]).
  intros reader. unfold AgentWs.authenticate, read_auth_response, read_next_frame.
  rewrite (node_on_the_wire _ raw' Hraw' Hs'). cbn. by rewrite bool_decide_true.
Qed.
