(* ===== verification/SystemTunnel.v ===== *)
(** * Page, server and agent together: opening a tunnel

    From the page's request to the session that the server records, and the
    session id the page is told. *)

From S2P Require Import Prelude Async Mpsc RustStr Protocol Frame Externs Token JsonDe.
From S2P Require Import ServerState ServerDb ServerWeb ServerNode.
From S2P Require Import Relay Channel.
From S2P Require Import AgentState AgentWs AgentSftp AgentTunnel System.

Section opening.
Context `{!UuidText, !JsonText, !DateText}.
Context `{!Serde WebFrameData.t, !SerdeLaws WebFrameData.t, !Serde NodeFrameData.t, !SerdeLaws NodeFrameData.t}.

(** A request for a tunnel, up to the node's socket. *)
Lemma server_forwards_request state cid protocol target nid tx username password msg_id raw ch raw' cs w :
  let forwarded := NodeFrameData.OpenTunnel protocol cid username password msg_id in
  web_bytes (WebFrameData.OpenTunnel protocol target username password msg_id) = Ok raw -> short raw ->
  node_bytes forwarded = Ok raw' -> parse_str target = Ok nid -> node_sender nid (shared w) = Some tx ->
  node_channels w !! tx = Some ch -> rx ch = HeldByWriter -> queue ch = [] ->
  exists w1 w2 ch2, run (handle_web_message state cid (Ok (Binary raw))) cs w = Done Continue w1 /\
    env_step w1 w2 /\ node_channels w2 !! tx = Some ch2 /\ wire ch2 = wire ch ++ [raw'].
Proof.
  intros forwarded Hraw Hs Hraw' Hp Htx Hch Hrx Hq.
  rewrite (server_reads _ _ (WebFrameData.OpenTunnel protocol target username password msg_id)), (open_tunnel_run _ _ _ _ nid tx) by done.
  destruct (idle_send node_bytes CHANNEL_CAPACITY tx forwarded raw' _ ch ltac:(cbv; lia) Hch Hrx Hq Hraw')
    as (ch1 & ch2 & Hsend & Hwrite & Hwire & _). unfold forwarded in Hsend. rewrite Hsend.
  eexists _, _, ch2. split; [done|]. split; [|split; [|done]].
  - apply (env_write_node _ tx ch1 ch2 true); [cbn; apply lookup_insert_eq|done].
  - cbn. apply lookup_insert_eq.
Qed.

(** What the server makes of a node's announcement of a tunnel. *)
Lemma server_hears_opened state nid protocol cid sid msg_id raw conn ch raw' cs w :
  let notice := WebFrameData.TunnelOpened protocol sid msg_id in
  node_bytes (NodeFrameData.TunnelOpened protocol cid sid msg_id) = Ok raw -> short raw ->
  connections (shared w) !! cid = Some conn -> web_channels w !! wc_tx conn = Some ch ->
  rx ch = HeldByWriter -> queue ch = [] -> web_bytes notice = Ok raw' ->
  exists w1 w2 ch2, run (handle_tunnel_opened protocol cid sid nid msg_id) cs w = Done tt w1 /\
    run (handle_node_message state nid (Ok (Binary raw))) cs w = Done Continue w1 /\
    nodes (shared w1) = nodes (shared w) /\
    env_step w1 w2 /\ shared w2 = shared w1 /\ web_channels w2 !! wc_tx conn = Some ch2 /\ wire ch2 = wire ch ++ [raw'].
Proof.
  intros notice Hraw Hs Hconn Hch Hrx Hq Henc.
  destruct (idle_send web_bytes CHANNEL_CAPACITY (wc_tx conn) notice raw' _ ch ltac:(cbv; lia) Hch Hrx Hq Henc)
    as (ch1 & ch2 & Hsend & Hwrite & Hwire & _).
  set (w1 := with_web_channels (<[wc_tx conn := ch1]> (web_channels w))
    (with_shared (with_sessions (<[{| node_id := nid; sid := sid |} := (cid, nid)]>) (shared w)) w)).
  assert (run (handle_tunnel_opened protocol cid sid nid msg_id) cs w = Done tt w1) as Hrun.
  { unfold handle_tunnel_opened, notify_client_by_cid. cbn. rewrite Hconn. cbn. fold notice. by rewrite Hsend. }
  destruct (run_bind _ (fun _ : unit => Ret Continue) _ _ _ _ Hrun) as [skip Hb].
  exists w1, (with_web_channels (<[wc_tx conn := ch2]> (web_channels w1)) w1), ch2.
  split; [exact Hrun|]. split; [|split; [done|]].
  - cbn [handle_node_message]. rewrite (node_on_the_wire _ raw) by done. exact Hb.
  - split; [|split; [done|split; [cbn; apply lookup_insert_eq|done]]].
    apply (env_write_web _ (wc_tx conn) ch1 ch2 true); [cbn; apply lookup_insert_eq|done].
Qed.
End opening.

(** C4. A tunnel that a page asks for opens.  For either protocol and acceptable
    credentials: the server puts the request on the node's socket; the agent
    that reads it starts a tunnel with exactly those credentials under the
    next session id; the tunnel's task, for SSH once its shell is there,
    announces that id before anything else; and the server that reads the
    announcement, whatever happened meanwhile, grants the session on that
    node to the client that asked and to nobody else, and tells its page the
    id. *)
Theorem tunnel_opens
    `{!UuidText, !JsonText, !DateText, !Serde WebFrameData.t, !SerdeLaws WebFrameData.t}
    `{!Serde NodeFrameData.t, !SerdeLaws NodeFrameData.t, !Channel.WasmBindgen} {FS File} {dm : DashMaps} `{!SftpServer FS File}
    state config p cid target nid node_id tx username password msg_id raw ch raw' cs cs' w (a : AgentState.World FS File)
    raw_opened raw_notice :
  let protocol := Protocol.as_u8 p in
  let sid := session_id (agent a) in
  let announced := NodeFrameData.TunnelOpened protocol cid sid msg_id in
  let notice := WebFrameData.TunnelOpened protocol sid msg_id in
  credential_problem config username password = None ->
  web_bytes (WebFrameData.OpenTunnel protocol target username password msg_id) = Ok raw -> short raw ->
  node_bytes (NodeFrameData.OpenTunnel protocol cid username password msg_id) = Ok raw' -> short raw' ->
  parse_str target = Ok nid -> node_sender nid (shared w) = Some tx ->
  node_channels w !! tx = Some ch -> rx ch = HeldByWriter -> queue ch = [] ->
  node_bytes announced = Ok raw_opened -> short raw_opened -> web_bytes notice = Ok raw_notice -> short raw_notice ->
  (exists w1 w2 ch2, run (handle_web_message state cid (Ok (Binary raw))) cs w = Done Continue w1 /\
     env_step w1 w2 /\ node_channels w2 !! tx = Some ch2 /\ wire ch2 = wire ch ++ [raw']) /\
  (exists auth stdin a' t, run (reader_task config [Ok (Binary raw')]) cs' a = Done tt a' /\
     auth_for config username password = Some auth /\ opened p cid auth msg_id stdin a a' /\ last (tunnels a') = Some t /\
     (p = Protocol.SSH -> forall setup turns, ssh_setup setup = Ok tt ->
        emits (ssh_task (FS := FS) (File := File) node_id t setup turns) (fun _ frames => head frames = Some announced)) /\
     (p = Protocol.SFTP -> forall setup turns,
        emits (sftp_task (FS := FS) (File := File) t setup turns) (fun _ frames => head frames = Some announced))) /\
  (forall cs3 w3 conn ch3, connections (shared w3) !! cid = Some conn -> web_channels w3 !! wc_tx conn = Some ch3 ->
     rx ch3 = HeldByWriter -> queue ch3 = [] ->
     exists w4 w5 ch5, run (handle_node_message state nid (Ok (Binary raw_opened))) cs3 w3 = Done Continue w4 /\
       (forall cid' tx', granted (shared w4) cid' target sid tx' <-> cid' = cid /\ node_sender nid (shared w3) = Some tx') /\
       env_step w4 w5 /\ web_channels w5 !! wc_tx conn = Some ch5 /\ wire ch5 = wire ch3 ++ [raw_notice]) /\
  forall page s fn, Channel.serializes (from_web notice) = true ->
    Channel.on_protocol_message (Channel.attached s page) = Some fn ->
    exists page', Channel.on_message s (Channel.AsArrayBuffer raw_notice) page = Returns page' /\
      last (Channel.calls page') = Some (fn, Some (from_web notice)).
Proof.
  intros protocol sid announced notice Hcred Hraw Hs Hraw' Hs' Hp Htx Hch Hrx Hq Hopened Hso Hnotice Hsn.
  split; [by eapply server_forwards_request|]. split; [|split].
  - destruct (open_tunnel_ok p config cid username password msg_id cs' a Hcred) as (auth & stdin & a' & Hauth & Hrun & Ho).
    exists auth, stdin, a'. eexists. split; [|split; [exact Hauth|split; [exact Ho|split]]].
    + rewrite (agent_reads _ (NodeFrameData.OpenTunnel protocol cid username password msg_id)) by done.
      destruct (run_bind _ (fun _ => reader_task config []) _ _ _ _ Hrun) as [skip Hb]. etrans; [exact Hb|done].
    + rewrite (op_tunnels _ _ _ _ _ _ _ Ho). apply last_snoc.
    + split.
      * intros -> setup turns Hsetup. eapply emits_mono, ssh_task_emits; [|done]. rewrite Hsetup.
        intros _ frames (l & lst & -> & _). done.
      * intros -> setup turns. eapply emits_mono, sftp_tunnel_says; [|done]. intros _ frames (l & lst & -> & _). done.
  - intros cs3 w3 conn ch3 Hconn Hch3 Hrx3 Hq3.
    destruct (server_hears_opened state nid protocol cid sid msg_id raw_opened conn ch3 raw_notice cs3 w3)
      as (w4 & w5 & ch5 & Hrun & Hmsg & Hnodes & Hstep & _ & Hch5 & Hwire); try done.
    exists w4, w5, ch5. split; [exact Hmsg|]. split; [|done].
    by apply (tunnel_open_close_grants protocol cid sid nid target msg_id cs3 w3 w4 Hp).
  - intros page s fn Hjs Hfn. unfold Channel.on_message. rewrite Hfn. unfold Channel.handle_message.
    rewrite (web_on_the_wire browser notice raw_notice), Hjs by done. eexists. split; [done|]. cbn. apply last_snoc.
Qed.
