(* ===== verification/AgentExample.v ===== *)
(** * A small agent, on which the properties of the agent are evaluated

    A toy SFTP server that keeps its files in a map, an agent with one client,
    and, for every property with hypotheses, its application there. *)

From S2P Require Import Prelude Async Mpsc RustStr Protocol Frame Externs AgentState AgentWs AgentSftp AgentTunnel.
From S2P Require Import AgentSystem AgentLocks AgentTransfer AgentDownload.
Import Toy.

(** ** A toy SFTP server *)

Record ToyFs : Type := {
  tf_files : gmap string bytes;
  tf_open : gmap Z (string * Z);          (* the open handles: path and position *)
  tf_read_limit : nat }.                  (* a read returns at most one byte more *)

Definition set_files f x : ToyFs :=
  {| tf_files := f; tf_open := tf_open x; tf_read_limit := tf_read_limit x |}.
Definition set_open o x : ToyFs :=
  {| tf_files := tf_files x; tf_open := o; tf_read_limit := tf_read_limit x |}.

Definition toy_handle (p : string) (x : ToyFs) : Z * ToyFs :=
  let f := fresh (dom (tf_open x)) in (f, set_open (<[f := (p, 0)]> (tf_open x)) x).

(** With [read_only], every write is refused. *)
Definition toy (read_only : bool) : SftpServer ToyFs Z := {|
  sftp_open_append p x :=
    let '(f, x) := toy_handle p (set_files (<[p := default [] (tf_files x !! p)]> (tf_files x)) x) in (Ok f, x);
  sftp_open p x :=
    match tf_files x !! p with
    | Some _ => let '(f, x) := toy_handle p x in (Ok f, x)
    | None => (Err "No such file", x)
    end;
  sftp_write_all f bs x :=
    match tf_open x !! f with
    | Some (p, _) =>
        if read_only then (Err "Permission denied", x)
        else (Ok tt, set_files (<[p := default [] (tf_files x !! p) ++ bs]> (tf_files x)) x)
    | None => (Err "Bad handle", x)
    end;
  sftp_seek f pos x :=
    match tf_open x !! f with
    | Some (p, _) => (Ok tt, set_open (<[f := (p, pos)]> (tf_open x)) x)
    | None => (Err "Bad handle", x)
    end;
  sftp_read f n x :=
    match tf_open x !! f with
    | Some (p, pos) =>
        match tf_files x !! p with
        | Some content => (Ok (take (Nat.min n (S (tf_read_limit x))) (drop (Z.to_nat pos) content)), x)
        | None => (Err "No such file", x)
        end
    | None => (Err "Bad handle", x)
    end;
  sftp_sync_all _ x := (Ok tt, x);
  sftp_rename p q x :=
    match tf_files x !! p with
    | Some bs => (Ok tt, set_files (<[q := bs]> (delete p (tf_files x))) x)
    | None => (Err "No such file", x)
    end;
  sftp_remove_file p x :=
    match tf_files x !! p with
    | Some _ => (Ok tt, set_files (delete p (tf_files x)) x)
    | None => (Err "No such file", x)
    end;
  sftp_metadata p x :=
    match tf_files x !! p with
    | Some bs => (Ok (Some (Z.of_nat (length bs))), x)
    | None => (Err "No such file", x)
    end;
  sftp_canonicalize p x := (Ok p, x);
  sftp_read_dir _ x := (Ok [], x) |}.

(** Four shards. *)
Definition shard_of (key : TunnelKey) : nat := Z.to_nat (key.2 mod 4).
Lemma shard_of_lt key : (shard_of key < 4)%nat.
Proof. unfold shard_of. pose proof (Z.mod_pos_bound key.2 4). lia. Qed.
#[local] Instance toy_maps : DashMaps := {|
  shard_amount := 4; upload_shard := shard_of; download_shard := shard_of;
  upload_shard_lt := shard_of_lt; download_shard_lt := shard_of_lt |}.

#[local] Instance toy_server : SftpServer ToyFs Z := toy false.

#[local] Instance toy_laws : SftpLaws ToyFs Z.
Proof.
  refine {| contents := tf_files; named x f := fst <$> tf_open x !! f;
            position x f := default 0 (snd <$> tf_open x !! f) |}; cbn.
  - intros p x f x' [= <- <-]. cbn. by rewrite lookup_insert_eq.
  - intros p f bs x x' Hf. destruct (tf_open x !! f) as [[q pos]|] eqn:Ho; [|done]. injection Hf as ->.
    intros [= <-]. cbn. by rewrite Ho.
  - intros p q x x' _. destruct (tf_files x !! p) as [bs|]; [|done]. intros [= <-]. by exists bs.
  - by intros f x r x' [= <- <-].
  - intros p x size x'. destruct (tf_files x !! p) as [bs|]; [|done]. intros [= <- <-]. split; [done|].
    intros n [= <-]. by exists bs.
  - intros p x f x'. destruct (tf_files x !! p); [|done]. intros [= <- <-]. cbn. by rewrite lookup_insert_eq.
  - intros p f pos x x' Hf. destruct (tf_open x !! f) as [[q pos']|]; [|done]. injection Hf as ->.
    intros [= <-]. cbn. by rewrite lookup_insert_eq.
  - intros p f n x bs x' Hf. destruct (tf_open x !! f) as [[q pos]|] eqn:Ho; [|done]. injection Hf as ->.
    destruct (tf_files x !! p) as [content|] eqn:Hc; [|done]. intros [= <- <-]. rewrite Ho.
    split; [done|]. split; [done|]. exists content. cbn. split; [done|]. split; [|split].
    + apply prefix_take.
    + rewrite length_take. lia.
    + intros Hnil Hn. apply (f_equal length) in Hnil. rewrite length_take, length_drop in Hnil. cbn in Hnil. lia.
Defined.

Lemma toy_uploads : grants_uploads (FS := ToyFs) (File := Z).
Proof.
  split; cbn.
  - intros p x. by eexists _, _.
  - intros p f bs x Hf. destruct (tf_open x !! f) as [[q pos]|]; [by eexists|done].
  - intros p q x bs Hp. cbn in Hp. rewrite Hp. by eexists.
Qed.

Lemma toy_downloads : grants_downloads (FS := ToyFs) (File := Z).
Proof.
  split; cbn.
  - intros p x bs Hp. cbn in Hp. rewrite Hp. by eexists _, _.
  - intros p x bs Hp. cbn in Hp. rewrite Hp. by eexists _, _.
  - intros p f pos x Hf. destruct (tf_open x !! f) as [[q pos']|]; [by eexists|done].
  - intros p f n x bs Hf Hp. cbn in Hp. destruct (tf_open x !! f) as [[q pos]|]; [|done]. injection Hf as ->.
    rewrite Hp. by eexists _, _.
Qed.

(** ** The agent *)

Definition uid (n : Z) : Uuid := n.
Definition chan (n : Z) : ChanId := n.

Definition config : Env := {|
  mode := Production; host := "0.0.0.0"; port := 8081; stats_refresh_interval := 30; server_host := "api.phirepass.com";
  server_port := 443; ssh_host := "localhost"; ssh_port := 22; ssh_auth_mode := SSHAuthMethod.Password; ssh_inactivity_secs := 3600 |}.

Definition live {A} : Channel A :=
  {| queue := []; rx := HeldByWriter; sent := []; written := []; wire := [] |}.

(** Client 100 has an SSH tunnel (1) and an SFTP tunnel (2); the server holds
    one file, and what is left of an upload that failed. *)
Definition abc : bytes := [Byte.x61; Byte.x62; Byte.x63].
Definition agent0 : Agent Z := {|
  sessions := {[ (uid 100, 1) := Ssh 1; (uid 100, 2) := Sftp 2 ]};
  uploads := {[ (uid 100, 9) := {| fu_filename := "up.bin"; fu_remote_path := "/tmp"; fu_total_chunks := 3; fu_total_size := 9;
     fu_sftp_file := 5; fu_temp_path := "/tmp/up.bin.tmp"; fu_started_at := 0; fu_last_updated := 0 |} ]};
  downloads := ∅; session_id := 3; id_counter := 10; last_heartbeat := 0; stopped := ∅ |}.
Definition fs0 : ToyFs := {|
  tf_files := {[ "/tmp/a.txt" := abc; "/tmp/up.bin.tmp" := abc; "/tmp/b.txt.tmp" := abc ]};
  tf_open := {[ 5 := ("/tmp/up.bin.tmp", 0) ]}; tf_read_limit := 0 |}.
Definition world0 : World ToyFs Z := {|
  agent := agent0; locks := ∅; outbound := live; ssh_stdin := {[ chan 1 := live ]}; sftp_stdin := {[ chan 2 := live ]};
  tunnels := []; fs := fs0 |}.

Definition at_noon : nat -> SystemTime := fun _ => 1000.

Lemma ready_world0 : ready world0.
Proof. split; [split; [done|unfold OUTBOUND_CAPACITY; cbn; lia]| |]; by repeat constructor. Qed.

(** ** Witnesses *)

Lemma session_command_delivered_witness :
  exists w', run (handle_message config (NodeFrameData.TunnelData 0 (uid 100) 1 abc)) at_noon world0 = Done tt w' /\
    queue <$> ssh_stdin w' !! chan 1 = Some [Data abc].
Proof.
  rewrite (session_command_delivered config _ (uid 100, 1) (inl (Data abc))) by reflexivity.
  eexists. split; reflexivity.
Defined.

Lemma session_ids_distinct_witness :
  exists ids w', run (draw 3) at_noon world0 = Done ids w' /\ length ids = 3%nat /\ NoDup ids.
Proof. apply session_ids_distinct; vm_compute; [split; [discriminate|reflexivity]|discriminate]. Defined.

Definition small_upload : SFTPUploadStart :=
  {| us_filename := "b.txt"; us_remote_path := "/tmp/"; us_total_chunks := 2; us_total_size := 4 |}.

(** The leftover of the failed upload ends up in front of the file. *)
Lemma upload_delivers_witness :
  exists w', served (uid 100) 2
      (UploadStart small_upload None :: chunks_from 10 None 0 [[Byte.x64]; [Byte.x65]]) world0 w' /\
    tf_files (fs w') !! "/tmp/b.txt" = Some (abc ++ [Byte.x64; Byte.x65]).
Proof.
  destruct (upload_delivers toy_uploads small_upload (uid 100) 2 None [[Byte.x64]; [Byte.x65]] world0)
    as [[w' Hs] Hall]; [done|reflexivity|vm_compute; discriminate|done|].
  exists w'. split; [exact Hs|]. destruct (Hall w' Hs) as [Hc _ _]. cbn [contents toy_laws] in Hc. rewrite Hc. reflexivity.
Defined.

Definition pending : SFTPUploadStart :=
  {| us_filename := "up.bin"; us_remote_path := "/tmp"; us_total_chunks := 3; us_total_size := 9 |}.

(** The last of three chunks completes an upload of which only one chunk's
    bytes have been received. *)
Lemma upload_completes_early_witness :
  exists w', run (upload_file_chunk {| uc_upload_id := 9; uc_chunk_index := 2; uc_chunk_size := 1; uc_data := [Byte.x7a] |}
      (uid 100) 2 None) at_noon world0 = Done tt w' /\
    tf_files (fs w') !! "/tmp/up.bin" = Some (abc ++ [Byte.x7a]).
Proof.
  destruct (upload_completes_early toy_uploads (uid 100) 2 None 9 3 pending (tf_files fs0) abc
    {| uc_upload_id := 9; uc_chunk_index := 2; uc_chunk_size := 1; uc_data := [Byte.x7a] |} at_noon world0)
    as (w' & Hr & Hc & _); [|apply ready_world0|done|done|by vm_compute|].
  - split; [reflexivity|]. split; [done|]. eexists. split; [reflexivity|]. repeat split.
  - exists w'. split; [exact Hr|]. cbn [contents toy_laws] in Hc. rewrite Hc. reflexivity.
Defined.

Definition first_chunk : SFTPUploadChunk :=
  {| uc_upload_id := 9; uc_chunk_index := 0; uc_chunk_size := 1; uc_data := [Byte.x7a] |}.

(** Client 101 names the upload of client 100. *)
Lemma unknown_transfer_refused_witness :
  exists message ch, run (handle_sftp_command (uid 101) 2 (Upload first_chunk (Some 4))) at_noon world0 =
    Done tt (with_outbound ch world0) /\
    sent ch = [NodeFrameData.WebFrame (WebFrameData.Error FrameError.Generic message (Some 4)) (SessionId 2)].
Proof.
  destruct (unknown_transfer_refused (uid 101) 2 (Some 4) (Upload first_chunk (Some 4)) 9 at_noon world0)
    as (message & [b ch] & Hs & Hr); [left; by exists first_chunk|by apply ready_world0..|by vm_compute|].
  exists message, ch. split; [exact Hr|]. cbn in Hs. injection Hs as _ <-. reflexivity.
Defined.

Definition small_download : SFTPDownloadStart := {| ds_path := "/tmp"; ds_filename := "a.txt" |}.

(** The server of this example returns one byte at a time, so the one chunk
    of the file arrives cut short. *)
Lemma download_delivers_witness :
  exists w' ds, served (uid 100) 2 (DownloadStart small_download None :: requests 10 None 0 1) world0 w' /\
    sent (outbound w') = announced 10 2 None 3 1 :: chunk_frames 2 None 10 0 ds /\ answers abc ds.
Proof.
  destruct (download_delivers toy_downloads small_download (uid 100) 2 None abc world0) as [[w' Hs] Hall];
    [reflexivity|by vm_compute|done|].
  destruct (Hall w' Hs) as (ds & Hsent & Hans & _). exists w', ds. split; [exact Hs|]. split; [exact Hsent|exact Hans].
Defined.

Lemma total_chunks_exact_witness : total_chunks_of 65537 = 2.
Proof. rewrite total_chunks_exact by by vm_compute. reflexivity. Defined.

Lemma open_tunnel_spec_witness :
  exists w' stdin, run (handle_message config (NodeFrameData.OpenTunnel 1 (uid 100) (Some "bob") (Some "pw") None))
      at_noon world0 = Done tt w' /\
    sessions (agent w') !! (uid 100, 3) = Some (Sftp stdin) /\ is_Some (sftp_stdin w' !! stdin).
Proof.
  pose proof (open_tunnel_spec config 1 (uid 100) (Some "bob") (Some "pw") None at_noon world0) as H.
  cbv zeta in H. destruct (H Protocol.SFTP eq_refl) as (auth & stdin & w' & _ & Hr & Ho).
  exists w', stdin. split; [exact Hr|]. rewrite (op_sessions _ _ _ _ _ _ _ Ho), (op_sftp _ _ _ _ _ _ _ Ho).
  split; [apply lookup_insert_eq|]. rewrite lookup_insert_eq. by eexists.
Defined.

(** ** The agent as a whole *)

#[local] Instance web_serde : Serde WebFrameData.t := {|
  json_to_vec _ := Err "unsupported"; json_from_slice _ := Err "bad payload";
  rmp_to_vec _ := Err "unsupported"; rmp_from_slice _ := Err "bad payload" |}.

(** The server's answer to the agent's token, and a request for an SSH
    tunnel. *)
Definition accept : NodeFrameData.t := NodeFrameData.AuthResponse (uid 7) true "1".
Definition request : NodeFrameData.t := NodeFrameData.OpenTunnel 0 (uid 100) (Some "bob") (Some "pw") None.
#[local] Instance node_serde : Serde NodeFrameData.t := {|
  json_to_vec _ := Err "unsupported"; json_from_slice _ := Err "bad payload";
  rmp_to_vec _ := Err "unsupported";
  rmp_from_slice bs := match bs with [Byte.x01] => Ok accept | [Byte.x02] => Ok request | _ => Err "bad payload" end |}.

Definition binary (payload : Byte.byte) : result string Message :=
  Ok (Binary [Byte.x01; Byte.x01; Byte.x01; Byte.x00; Byte.x00; Byte.x00; Byte.x00; Byte.x01; payload]).

Definition idle : World ToyFs Z := {|
  agent := {| sessions := ∅; uploads := ∅; downloads := ∅; session_id := 1; id_counter := 1; last_heartbeat := 0;
              stopped := ∅ |};
  locks := ∅; outbound := live; ssh_stdin := ∅; sftp_stdin := ∅; tunnels := []; fs := fs0 |}.

Definition script : WsStream := [binary Byte.x01; binary Byte.x02; Ok (Close None)].
Definition reader : prog (agentE ToyFs Z) unit := connect config 7 script;; Ret tt.

(** Four steps of the reader open the tunnel; the invariant then names the task
    that serves the session. *)
Lemma sessions_lead_to_their_tunnels_witness :
  exists cf stdin, rtc (cstep env_step (agent_task config 7)) (idle, [reader]) cf /\
    sessions (agent cf.1) = {[ (uid 100, 1) := Ssh stdin ]} /\ tunnels_ok cf.1.
Proof.
  set (sch := [(0%nat, 5); (0%nat, 5); (0%nat, 5); (0%nat, 5)]).
  assert (option_map (fun cf => sessions (agent cf.1)) (run_sched sch (idle, [reader])) =
    Some {[ (uid 100, 1) := Ssh 0 ]}) as Hsess by (vm_compute; reflexivity).
  destruct (run_sched sch (idle, [reader])) as [cf|] eqn:Hrun; [|discriminate]. injection Hsess as Hsess.
  assert (rtc (cstep env_step (agent_task config 7)) (idle, [reader]) cf) as Hsteps
    by (eapply run_sched_reachable, Hrun).
  exists cf, (chan 0). split; [exact Hsteps|]. split; [exact Hsess|].
  apply (sessions_lead_to_their_tunnels config 7 script idle cf); [by split|exact Hsteps].
Defined.

Lemma client_frame_stays_inside_witness :
  all_effects (touches_only (FS := ToyFs) (uid 100)) (handle_message (File := Z) config request).
Proof. apply client_frame_stays_inside. reflexivity. Defined.

Definition shell : Tunnel :=
  {| tn_protocol := Protocol.SSH; tn_cid := 100; tn_sid := 1; tn_msg_id := None;
     tn_credentials := UsernamePassword "bob" "pw"; tn_stdin := 1 |}.
Definition login (ok : bool) : SshSetup :=
  {| ssh_connected := Ok tt; ssh_authenticated := Ok ok; ssh_channel := Ok tt; ssh_pty := Ok tt; ssh_shell := Ok tt;
     ssh_disconnect := Ok tt |}.

(** A refused login says one thing. *)
Lemma ssh_tunnel_says_witness :
  emits (FS := ToyFs) (File := Z) (ssh_task 7 shell (login false) []) (fun _ frames =>
    frames = [NodeFrameData.WebFrame (WebFrameData.Error FrameError.Generic "SSH authentication failed" None) (SessionId 1)]).
Proof. apply (ssh_tunnel_says 7 shell (login false) []). reflexivity. Defined.

Definition files : Tunnel :=
  {| tn_protocol := Protocol.SFTP; tn_cid := 100; tn_sid := 2; tn_msg_id := None;
     tn_credentials := Username "bob"; tn_stdin := 2 |}.
Definition refused : SftpSetup :=
  {| sftp_connected := Ok tt; sftp_authenticated := Ok false; sftp_channel := Ok tt; sftp_subsystem := Ok tt;
     sftp_session := Ok tt; sftp_disconnect := Ok tt |}.

Lemma sftp_tunnel_says_witness :
  emits (FS := ToyFs) (File := Z) (sftp_task files refused 5) (fun _ frames => life files (own 2) frames).
Proof. apply (sftp_tunnel_says files refused 5). reflexivity. Defined.

(** ** A refused chunk

    Client 100's tunnel finds the first chunk of the pending upload in its
    queue; this server refuses every write. *)
Definition busy : World ToyFs Z := with_sftp_stdin
  {[ chan 2 := {| queue := [Upload first_chunk None]; rx := HeldByHandler; sent := [Upload first_chunk None];
                  written := []; wire := [] |} ]} world0.
Definition files_granted : SftpSetup :=
  {| sftp_connected := Ok tt; sftp_authenticated := Ok true; sftp_channel := Ok tt; sftp_subsystem := Ok tt;
     sftp_session := Ok tt; sftp_disconnect := Ok tt |}.

(** The tunnel when it has taken the chunk off its queue. *)
Definition at_chunk : prog (agentE ToyFs Z) unit :=
  (progress ← handle_sftp_command (SftpServer0 := toy true) (uid 100) 2 (Upload first_chunk None);; Ret Running;
   match progress with
   | Running => Ret None
   | Ended => Ret (Some (disconnected 2 (sftp_disconnect files_granted)))
   end) ≫= fun r => match r with None => Ret tt | Some r => perform (DropSftp 2);; report_end files r end.

Lemma upload_write_failure_deadlocks_witness :
  exists cf p, rtc (cstep env_step (agent_task (SftpServer0 := toy true) config 7))
      (busy, [connect (SftpServer0 := toy true) config 7 script;; Ret tt]) cf /\
    cf.2 !! 1%nat = Some p /\ forall c, sched_step 1 c cf = None.
Proof.
  set (main := connect (SftpServer0 := toy true) config 7 script;; Ret tt).
  set (tunnel := sftp_task (SftpServer0 := toy true) files files_granted 1).
  set (w1 := with_sftp_stdin {[ chan 2 := {| queue := []; rx := HeldByHandler; sent := [Upload first_chunk None];
     written := [Upload first_chunk None]; wire := [] |} ]}
     (try_sent (NodeFrameData.TunnelOpened 1 100 2 None) busy)).
  assert (rtc (cstep env_step (agent_task (SftpServer0 := toy true) config 7)) (busy, [main]) (w1, [main; at_chunk])) as Hsteps.
  { eapply rtc_l; [apply (cstep_spawn _ _ _ _ tunnel); constructor|].
    eapply rtc_l; [apply (cstep_task _ _ 1%nat 5); reflexivity|].
    eapply rtc_l; [apply (cstep_task _ _ 1%nat 5); reflexivity|]. constructor. }
  destruct (upload_write_failure_deadlocks (SftpServer0 := toy true) config 7 script busy (w1, [main; at_chunk]) 1 at_chunk first_chunk (uid 100) 2 None
    {| fu_filename := "up.bin"; fu_remote_path := "/tmp"; fu_total_chunks := 3; fu_total_size := 9;
       fu_sftp_file := 5; fu_temp_path := "/tmp/up.bin.tmp"; fu_started_at := 0; fu_last_updated := 0 |}
    "Permission denied" fs0) as (cf & p & Hs & Hwait & Hstuck); [reflexivity|exact Hsteps|reflexivity| |reflexivity..| |reflexivity|].
  - unfold at_chunk. apply context_bind, context_bind, context_bind, context_here.
  - apply not_elem_of_empty.
  - exists cf, p. destruct (Hstuck cf) as [Hp Hnone]; [constructor|]. split; [by etrans|]. split; [exact Hp|].
    intros c. by apply (Hnone 1%nat p).
Defined.
