(* ===== verification/SystemExample.v ===== *)
(** * Page, server, relay and agent, on which the properties of the whole are
    evaluated

    Client 100 of the server of [ServerExample] has session 7 on node 10,
    whose agent runs an SSH tunnel for it. *)

From S2P Require Import Prelude Async Mpsc RustStr Protocol Frame Token Externs JsonDe.
From S2P Require Import ServerState ServerDb ServerAuth ServerWeb ServerNode ServerExample.
From S2P Require Import Relay Channel SystemRelay EdgeExample.
From S2P Require Import AgentState AgentWs AgentSftp AgentTunnel AgentExample System SystemLogin SystemStart SystemJoin SystemTunnel.
Import Toy.

(** ** A codec with a law, of three frames each way *)

Definition resize7 : WebFrameData.t := WebFrameData.SSHWindowResize (uuid_to_string 10) 7 80 24 0 0.
Definition open9 : WebFrameData.t := WebFrameData.OpenTunnel 9 (uuid_to_string 10) (Some "u") (Some "p") None.
#[local] Instance web_serde : Serde WebFrameData.t := {|
  json_to_vec _ := Err "unsupported"; json_from_slice _ := Err "bad payload";
  rmp_to_vec f :=
    match f with
    | WebFrameData.SSHWindowResize t sid c r x y =>
        if bool_decide ((t, sid, c, r, x, y) = (uuid_to_string 10, 7, 80, 24, 0, 0)) then Ok [Byte.x01] else Err "?"
    | WebFrameData.OpenTunnel protocol t u p m =>
        if bool_decide ((protocol, t, u, p, m) = (9, uuid_to_string 10, Some "u", Some "p", None)) then Ok [Byte.x02]
        else if bool_decide ((protocol, t, u, p, m) = (0, uuid_to_string 10, Some "u", Some "p", None)) then Ok [Byte.x06]
        else Err "?"
    | WebFrameData.TunnelOpened protocol sid m => if bool_decide ((protocol, sid, m) = (0, 8, None)) then Ok [Byte.x07] else Err "?"
    | WebFrameData.Heartbeat => Ok [Byte.x03]
    | _ => Err "?"
    end;
  rmp_from_slice bs :=
    match bs with
    | [Byte.x01] => Ok resize7
    | [Byte.x06] => Ok (WebFrameData.OpenTunnel 0 (uuid_to_string 10) (Some "u") (Some "p") None)
    | [Byte.x07] => Ok (WebFrameData.TunnelOpened 0 8 None)
    | [Byte.x02] => Ok open9
    | [Byte.x03] => Ok WebFrameData.Heartbeat
    | _ => Err "bad payload"
    end |}.
#[local] Instance web_serde_laws : SerdeLaws WebFrameData.t.
Proof.
  split; [by intros ? ? ?|]. intros f bs Hf. destruct f; cbn in Hf; try done; repeat (case_match; try done); injection Hf as <-;
    repeat match goal with Hd : bool_decide _ = true |- _ => apply bool_decide_eq_true in Hd end; by simplify_eq.
Qed.

Definition open9_at (cid : Uuid) : NodeFrameData.t := NodeFrameData.OpenTunnel 9 cid (Some "u") (Some "p") None.
#[local] Instance node_serde : Serde NodeFrameData.t := {|
  json_to_vec _ := Err "unsupported"; json_from_slice _ := Err "bad payload";
  rmp_to_vec f :=
    match f with
    | NodeFrameData.SSHWindowResize cid sid c r x y =>
        if bool_decide ((cid, sid, c, r, x, y) = (uid 100, 7, 80, 24, 0, 0)) then Ok [Byte.x01] else Err "?"
    | NodeFrameData.OpenTunnel protocol cid u p m =>
        if bool_decide ((protocol, cid, u, p, m) = (9, uid 100, Some "u", Some "p", None)) then Ok [Byte.x02]
        else if bool_decide ((protocol, cid, u, p, m) = (0, uid 100, Some "u", Some "p", None)) then Ok [Byte.x06] else Err "?"
    | NodeFrameData.TunnelOpened protocol cid sid m =>
        if bool_decide ((protocol, cid, sid, m) = (0, uid 100, 8, None)) then Ok [Byte.x07] else Err "?"
    | NodeFrameData.WebFrame WebFrameData.Heartbeat (SessionId sid) => if bool_decide (sid = 7) then Ok [Byte.x03] else Err "?"
    | NodeFrameData.Auth token id v => if bool_decide ((token, id, v) = (token10 0, uid 10, "0.1.0")) then Ok [Byte.x04] else Err "?"
    | NodeFrameData.AuthResponse id success v =>
        if bool_decide ((id, success, v) = (uid 10, true, "0.1.0")) then Ok [Byte.x05] else Err "?"
    | _ => Err "?"
    end;
  rmp_from_slice bs :=
    match bs with
    | [Byte.x01] => Ok (NodeFrameData.SSHWindowResize 100 7 80 24 0 0)
    | [Byte.x02] => Ok (open9_at 100)
    | [Byte.x06] => Ok (NodeFrameData.OpenTunnel 0 100 (Some "u") (Some "p") None)
    | [Byte.x07] => Ok (NodeFrameData.TunnelOpened 0 100 8 None)
    | [Byte.x04] => Ok (NodeFrameData.Auth (token10 0) 10 "0.1.0")
    | [Byte.x05] => Ok (NodeFrameData.AuthResponse 10 true "0.1.0")
    | [Byte.x03] => Ok (NodeFrameData.WebFrame WebFrameData.Heartbeat (SessionId 7))
    | _ => Err "bad payload"
    end |}.
#[local] Instance node_serde_laws : SerdeLaws NodeFrameData.t.
Proof.
  split; [by intros ? ? ?|]. intros f bs Hf. destruct f; cbn in Hf; try done; repeat (case_match; try done); injection Hf as <-;
    repeat match goal with Hd : bool_decide _ = true |- _ => apply bool_decide_eq_true in Hd end; by simplify_eq.
Qed.

#[local] Existing Instance AgentExample.toy_maps.
#[local] Existing Instance AgentExample.toy_server.
#[local] Existing Instance EdgeExample.toy_web_socket.
#[local] Existing Instance EdgeExample.toy_bindgen.

(** ** The agent's tunnel for session 7 *)

Definition agent7 : AgentState.World ToyFs Z := AgentState.with_agent
  {| AgentState.sessions := {[ (AgentExample.uid 100, 7) := Ssh 1 ]}; uploads := ∅; downloads := ∅; session_id := 8;
     id_counter := 0; AgentState.last_heartbeat := 0; stopped := ∅ |} AgentExample.world0.

Definition resized : AgentState.World ToyFs Z :=
  default agent7 (delivered (AgentExample.uid 100, 7) (inl (Resize 80 24 0 0)) agent7).

(** The bytes of a one-byte payload. *)
Definition framed (k c b : byte) : bytes := [Byte.x01; Byte.x01; k; c; Byte.x00; Byte.x00; Byte.x00; Byte.x01; b].
Definition resize_bytes : bytes := framed Byte.x00 Byte.x1e Byte.x01.
Definition resize_node_bytes : bytes := framed Byte.x01 Byte.x1e Byte.x01.

Lemma granted100 : granted (shared ServerExample.world0) 100 (uuid_to_string 10) 7 0.
Proof. by exists 10, 10. Qed.

Lemma request_reaches_tunnel_witness :
  run (reader_task AgentExample.config [Ok (Binary resize_node_bytes)]) at_noon agent7 = Done tt resized /\
  exists w1 w2 ch2, run (handle_web_message state 100 (Ok (Binary resize_bytes))) (always 0) ServerExample.world0 = Done Continue w1 /\
    env_step w1 w2 /\ node_channels w2 !! chan 0 = Some ch2 /\ wire ch2 = [] ++ [resize_node_bytes].
Proof.
  destruct (request_reaches_tunnel state AgentExample.config opened_page 0
    {| Channel.url := "wss://localhost"; Channel.protocol := "n10"; Channel.ready_state := Channel.OPEN; Channel.out := [] |}
    resize7 resize_bytes (uuid_to_string 10) 7 (fun cid => NodeFrameData.SSHWindowResize cid 7 80 24 0 0) 100 0
    live resize_node_bytes (inl (Resize 80 24 0 0)) (always 0) at_noon ServerExample.world0 agent7 resized)
    as (_ & Hserver & Hagent); try reflexivity; [apply granted100|]. by split.
Defined.

Definition page_with_callback : Channel.Page :=
  Channel.on_open 0 (Channel.connect (channel_of None) (Channel.with_callbacks
    {| Channel.on_connection_open := None; Channel.on_connection_error := None; Channel.on_connection_close := None;
       Channel.on_connection_message := None; Channel.on_protocol_message := Some 5%nat |} Channel.fresh_page)).

Lemma sessions0_wf : sessions_wf (shared ServerExample.world0).
Proof. intros key cid nid. cbn [tunnel_sessions shared0 shared ServerExample.world0]. rewrite lookup_singleton_Some. by intros [<- [= <- <-]]. Qed.

Lemma answer_reaches_page_witness :
  (exists w1 w2 ch2, run (handle_node_message state 10 (Ok (Binary (framed Byte.x01 Byte.x32 Byte.x03)))) (always 0) ServerExample.world0 =
       Done Continue w1 /\
     env_step w1 w2 /\ web_channels w2 !! chan 0 = Some ch2 /\ wire ch2 = [] ++ [framed Byte.x00 Byte.x01 Byte.x03]) /\
  exists p', Channel.on_message 0 (Channel.AsArrayBuffer (framed Byte.x00 Byte.x01 Byte.x03)) page_with_callback = Returns p' /\
    last (Channel.calls p') = Some (5%nat, Some (from_web WebFrameData.Heartbeat)).
Proof.
  apply (answer_reaches_page state 10 7 WebFrameData.Heartbeat (framed Byte.x01 Byte.x32 Byte.x03) 100
    (WebConnection_new 0 "198.51.100.1" 0) live (framed Byte.x00 Byte.x01 Byte.x03) (always 0) ServerExample.world0 0 page_with_callback 5%nat);
    first [apply sessions0_wf | reflexivity].
Defined.

Definition refused : SshSetup := {|
  ssh_connected := Ok tt; ssh_authenticated := Ok false; ssh_channel := Ok tt; ssh_pty := Ok tt; ssh_shell := Ok tt;
  ssh_disconnect := Ok tt |}.
Definition tunnel8 : Tunnel :=
  {| tn_protocol := Protocol.SSH; tn_cid := 100; tn_sid := 8; tn_msg_id := None;
     tn_credentials := UsernamePassword "u" "p"; tn_stdin := 3 |}.

(** To nobody, on a server without session 8. *)
Lemma ssh_login_failure_is_lost_witness :
  emits (ssh_task (FS := ToyFs) (File := Z) 10 tunnel8 refused []) (fun _ frames =>
    frames = [NodeFrameData.WebFrame (WebFrameData.Error FrameError.Generic "SSH authentication failed" None) (SessionId 8)]) /\
  run (handle_node_frame state 10
    (NodeFrameData.WebFrame (WebFrameData.Error FrameError.Generic "SSH authentication failed" None) (SessionId 8)))
    (always 0) ServerExample.world0 = Done Continue ServerExample.world0.
Proof.
  destruct (ssh_login_failure_is_lost (FS := ToyFs) (File := Z) state 10 10 tunnel8 refused [] "SSH authentication failed")
    as [Hsays Hgoes]; [reflexivity..|]. split; [exact Hsays|].
  etrans; [apply Hgoes, sessions0_wf|]. vm_compute. reflexivity.
Defined.

Lemma client_ends_any_agent_witness :
  run (reader_task AgentExample.config [Ok (Binary (framed Byte.x01 Byte.x14 Byte.x02))]) at_noon agent7 = Panicked agent7.
Proof.
  apply (client_ends_any_agent state AgentExample.config 100 9 (uuid_to_string 10) 10 0 (Some "u") (Some "p") None
    (framed Byte.x00 Byte.x14 Byte.x02) live (framed Byte.x01 Byte.x14 Byte.x02) (always 0) at_noon ServerExample.world0 agent7);
    first [done | reflexivity].
Defined.

(** ** A second tunnel of client 100 *)

Lemma tunnel_opens_witness :
  (exists w1 w2 ch2, run (handle_web_message state 100 (Ok (Binary (framed Byte.x00 Byte.x14 Byte.x06)))) (always 0)
       ServerExample.world0 = Done Continue w1 /\
     env_step w1 w2 /\ node_channels w2 !! chan 0 = Some ch2 /\ wire ch2 = [] ++ [framed Byte.x01 Byte.x14 Byte.x06]) /\
  exists auth stdin a' t, run (reader_task AgentExample.config [Ok (Binary (framed Byte.x01 Byte.x14 Byte.x06))]) at_noon agent7
       = Done tt a' /\
     auth_for AgentExample.config (Some "u") (Some "p") = Some auth /\ opened Protocol.SSH 100 auth None stdin agent7 a' /\
     last (tunnels a') = Some t.
Proof.
  destruct (tunnel_opens state AgentExample.config Protocol.SSH 100 (uuid_to_string 10) 10 10 0 (Some "u") (Some "p") None
    (framed Byte.x00 Byte.x14 Byte.x06) live (framed Byte.x01 Byte.x14 Byte.x06) (always 0) at_noon ServerExample.world0 agent7
    (framed Byte.x01 Byte.x15 Byte.x07) (framed Byte.x00 Byte.x15 Byte.x07))
    as (Hserver & (auth & stdin & a' & t & Hrun & Hauth & Ho & Ht & _) & _); try reflexivity.
  split; [exact Hserver|]. by exists auth, stdin, a', t.
Defined.

(** ** Node 10 joins again *)

#[local] Existing Instance ServerExample.node_jwt.
#[local] Existing Instance ServerExample.node_jwt_laws.

Definition auth_bytes : bytes := framed Byte.x01 Byte.x0a Byte.x04.
Definition auth_ok_bytes : bytes := framed Byte.x01 Byte.x0b Byte.x05.

Lemma session10 : connected state 0 0 10 (token10 0) ServerExample.world0.
Proof.
  exists 0. split; [done|]. split; [reflexivity|]. intros cs3 Hdb Hexp.
  apply (token_accepted state 10 0); [done|apply active10|reflexivity|done].
Qed.

Lemma agent_joins_witness :
  exists shift w1 w2 tx conn ch,
    run (handle_node_socket state "203.0.113.7" [Ok (Binary auth_bytes)]) (always 0) ServerExample.world0 =
      run (handle_node_messages state 10 [];; end_node_socket tx 10) (fun n => always 0 (shift n)) w1 /\
    nodes (shared w1) !! uid 10 = Some conn /\ nc_tx conn = tx /\ server_id conn = ServerState.id state /\
    nr_id (node_record conn) = 10 /\
    (exists fields, redis w1 = [] ++ [HSetMultiple (node_key (node_record conn)) fields;
                                     Expire (node_key (node_record conn)) 120] /\
       ("server", server_get_encoded (server state)) ∈ fields) /\
    env_step w1 w2 /\ shared w2 = shared w1 /\ node_channels w2 !! tx = Some ch /\
    wire ch = [auth_ok_bytes] /\ queue ch = [] /\ rx ch = HeldByWriter /\
    forall reader, AgentWs.authenticate 10 (Ok (Binary auth_ok_bytes) :: reader) = (Ok tt, reader).
Proof.
  apply (agent_joins state "203.0.113.7" "0.1.0" 10 (token10 0) 0 0 auth_bytes auth_ok_bytes [] (always 0) ServerExample.world0);
    [apply session10|apply tables0_wf| |done|done|reflexivity|done|reflexivity|done].
  intros iat Hiat. replace iat with 0 by lia. vm_compute. discriminate.
Defined.

(** ** The relay finds node 10 *)

#[local] Existing Instance EdgeExample.toy_glob.

(** The toy pattern matcher follows the law of [SCAN]. *)
Lemma suffixes_spec s t : t ∈ suffixes s <-> exists p, s = p +:+ t.
Proof.
  revert t. induction s as [|a s IH]; intros t; cbn [suffixes].
  - rewrite list_elem_of_singleton. split; [intros ->; by exists ""|]. by intros [[|] [=]].
  - rewrite elem_of_cons, IH. split.
    + intros [->|[p ->]]; [by exists ""|by exists (String a p)].
    + intros [[|b p] Hp]; [by left|right]. injection Hp as -> ->. by exists p.
Qed.

Lemma plain_cons a s : glob_plain (String a s) = true -> a <> "*"%char /\ glob_plain s = true.
Proof.
  unfold glob_plain. cbn [forallb]. rewrite !andb_true_iff, !negb_true_iff. cbn [Str.mem].
  rewrite !orb_false_iff, !bool_decide_eq_false. naive_solver.
Qed.

Lemma toy_match_cons a p key :
  a <> "*"%char ->
  toy_match (String a p) key =
  match key with String b k => Ascii.eqb a b && toy_match p k | EmptyString => false end.
Proof. intros Ha. cbn [toy_match]. by rewrite bool_decide_false. Qed.

Lemma toy_match_plain after key : glob_plain after = true -> toy_match after key = true <-> key = after.
Proof.
  revert key. induction after as [|a after IH]; intros key; [by destruct key|].
  intros [Ha Hp]%plain_cons.
  rewrite toy_match_cons by done.
  destruct key as [|b k]; [done|]. rewrite andb_true_iff, Ascii.eqb_eq, IH by done. naive_solver.
Qed.

#[local] Instance toy_glob_laws : RedisGlobLaws.
Proof.
  split. intros before after key Hb Ha. revert key. induction before as [|a before IH]; intros key.
  - change (existsb (toy_match after) (suffixes key) = true <-> exists middle, key = middle +:+ after).
    rewrite existsb_exists. split.
    + intros (t & Hin%list_elem_of_In%suffixes_spec & Ht). destruct Hin as [p ->]. exists p.
      by rewrite (proj1 (toy_match_plain after t Ha) Ht).
    + intros [middle ->]. exists after. split; [apply list_elem_of_In, suffixes_spec; by exists middle|].
      by apply toy_match_plain.
  - apply plain_cons in Hb as [Hne Hb].
    change (toy_match (String a (before +:+ "*" +:+ after)) key = true <->
      exists middle, key = String a (before +:+ middle +:+ after)).
    rewrite toy_match_cons by done.
    destruct key as [|b k]; [split; [done|]; intros [? Hk]; discriminate Hk|].
    rewrite andb_true_iff, Ascii.eqb_eq. rewrite (IH Hb k). cbn [String.append]. split.
    + intros [-> [middle ->]]. by exists middle.
    + intros [middle [= -> ->]]. split; [done|]. by exists middle.
Qed.

(** A Redis that keeps each hash with its deadline. *)
Abbreviation ToyDB := (gmap string (gmap string string * option SystemTime)) (only parsing).

Definition toy_alive (now : SystemTime) (d : option SystemTime) : bool :=
  match d with Some d => now <? d | None => true end.
Definition toy_hash (now : SystemTime) (db : ToyDB) (key : string) : option (gmap string string) :=
  e ← db !! key; if toy_alive now e.2 then Some e.1 else None.
Definition toy_deadline (db : ToyDB) (key : string) : option SystemTime := db !! key ≫= snd.

Definition toy_do (t : SystemTime) (cmd : RedisCmd) (db : ToyDB) : ToyDB :=
  match cmd with
  | HSetMultiple key fields =>
      <[key := (hset fields (default ∅ (toy_hash t db key)), _ ← toy_hash t db key; toy_deadline db key)]> db
  | Expire key secs =>
      match toy_hash t db key with Some h => <[key := (h, Some (t + seconds secs))]> db | None => db end
  | Del key => delete key db
  end.

#[local] Instance toy_redis : Redis ToyDB :=
  {| redis_do := toy_do; redis_hash := toy_hash; redis_deadline := toy_deadline |}.

Lemma toy_hash_eq now db key h d : toy_hash now (<[key := (h, d)]> db) key = if toy_alive now d then Some h else None.
Proof. unfold toy_hash. by rewrite lookup_insert_eq. Qed.

Lemma toy_hash_ne now db key key' e : key' <> key -> toy_hash now (<[key := e]> db) key' = toy_hash now db key'.
Proof. intros Hne. unfold toy_hash. by rewrite lookup_insert_ne. Qed.

Lemma toy_alive_at now d : toy_alive now d = true <-> alive_at now d.
Proof. destruct d; cbn; [lia|done]. Qed.

#[local] Instance toy_redis_laws : RedisLaws ToyDB.
Proof.
  split; cbn.
  - intros now db key Hd. unfold toy_hash, toy_deadline in *. destruct (db !! key) as [[h d]|]; [cbn in *|done].
    destruct (toy_alive now d) eqn:Ha; [|done]. by apply toy_alive_at in Ha.
  - intros now later db key Hle Hd. unfold toy_hash, toy_deadline in *. destruct (db !! key) as [[h d]|]; [cbn in *|done].
    destruct d as [d|]; [|done]. cbn in *. by rewrite !(proj2 (Z.ltb_lt _ _)) by lia.
  - intros now t cmd db key Hne. destruct cmd as [k fields|k secs|k]; cbn in Hne; unfold toy_do.
    + rewrite toy_hash_ne by done. unfold toy_deadline. by rewrite lookup_insert_ne.
    + destruct (toy_hash t db k); [|done]. rewrite toy_hash_ne by done. unfold toy_deadline. by rewrite lookup_insert_ne.
    + unfold toy_hash, toy_deadline. by rewrite lookup_delete_ne.
  - intros t key fields db. unfold toy_do. rewrite toy_hash_eq.
    split; [|unfold toy_deadline; by rewrite lookup_insert_eq].
    destruct (toy_hash t db key) as [h|] eqn:Hh; [cbn|done]. unfold toy_hash in Hh. unfold toy_deadline.
    destruct (db !! key) as [[h' d]|]; [cbn in *|done]. by destruct (toy_alive t d).
  - intros t key secs db h Hh Hs. unfold toy_do. rewrite Hh, toy_hash_eq. unfold toy_deadline. rewrite lookup_insert_eq. cbn.
    rewrite (proj2 (Z.ltb_lt _ _)); [done|]. unfold seconds, NANOS. lia.
Qed.

(** The node connects to a Redis that still holds an older, expired entry. *)
Definition connected10 : ServerState.World :=
  match run (set_node_connected record10 (server state)) (always 0) ServerExample.world0 with
  | Done _ w | Blocked w | Panicked w => w
  end.
Definition old10 : ToyDB := {[node_key record10 := (∅, Some 5)]}.
Definition db10 : ToyDB := redis_run (zip [10; 20] (redis connected10)) old10.
Definition relay10 : RelayWorld :=
  {| hashes := {[node_key record10 := default ∅ (redis_hash 30 db10 (node_key record10))]}; ready := true; responses := [] |}.

Lemma relay_finds_node_witness :
  run (proxy (EdgeExample.request "/api/web/ws" (uuid_to_string 10))) relay_good relay10 =
    Done (Ok (Some {| address := ("10.0.0.1", 8080); tls := false; sni := "localhost" |})) relay10.
Proof.
  destruct (relay_finds_node (DB := ToyDB) state record10 (set_node_connected record10 (server state)) (always 0)
    ServerExample.world0 (Ok tt) connected10) as (write & renewal & Hlog & Hfound);
    [constructor|reflexivity|vm_compute; discriminate|done|done|done|reflexivity|].
  injection Hlog as <- <-.
  rewrite (Hfound old10 10 20 [] 30 _ relay_good relay10); [reflexivity|by vm_compute| |constructor| | |done|done|reflexivity].
  - intros d [= <-]. left. by vm_compute.
  - intros key. cbn [relay10 hashes]. destruct (decide (key = node_key record10)) as [->|Hne].
    + rewrite lookup_singleton_eq. vm_compute. reflexivity.
    + rewrite lookup_singleton_ne by done. symmetry.
      etrans; [refine (proj1 (redis_run_other (DB := ToyDB) 30 _ old10 key _)); repeat constructor; exact (not_eq_sym Hne)|].
      cbn. unfold toy_hash, old10. by rewrite lookup_singleton_ne.
  - intros key [h Hkey] _. cbn in Hkey. by apply lookup_singleton_Some in Hkey as [<- _].
Defined.
